(* ===== verification/_CoqProject ===== *)
-Q . S2P
Prelude.v
GoStd.v
Effects.v
Interleave.v
ApiTypes.v
Api.v
Ssa.v
ContractVersion.v
Capi.v
K3sConfig.v
Certificates.v
Kubeconfig.v
Token.v
CapiLib.v
Locking.v
Etcd.v
MachineFilters.v
ControlPlane.v
Workload.v
CoreDNS.v
Proxy.v
Conditions.v
Remediation.v
Scale.v
KcpController.v
Rollout.v
KcpSafety.v
KcpFrame.v
WellFormed.v
MachineController.v
Deletion.v
SsaCache.v
KcpStatus.v
KcpKubeconfig.v
Cloudinit.v
Bootstrap.v
FirstNode.v
Conversion.v
Memory.v
Converting.v
ExternalTypes.v
DeepCopyBootstrapV1beta1.v
DeepCopyBootstrapV1beta2.v
DeepCopyControlPlaneV1beta1.v
DeepCopyControlPlaneV1beta2.v
DeepCopies.v
ConvertBootstrap.v
ConvertControlPlane.v
ConversionMemory.v
ReleaseNotes.v
