(* ===== verification/Prelude.v ===== *)
(** * A verification library for Cluster API k3s

    [src/] holds two Kubernetes controllers, the control-plane provider and the
    bootstrap provider, that make and keep k3s clusters. This library is a
    shallow embedding of their logic in Rocq, with the theorems that make it
    correct. It reads like the code: a Go function is a definition of the same
    name, a struct is a record with its fields, and the order of calls, early
    returns and error wrappings are those of the source.

    ** How effects are modelled

    Everything that the code asks of the world (the Kubernetes API server, the
    server of a workload cluster, etcd members, the clock, random numbers) is a
    command of type [Api.cmd], each with the type of its answer. A Go function
    that makes such calls or changes a shared object is a program of type
    [Effects.M S A]: a function from a state [S] to an interaction tree of
    commands, which ends with a state and an outcome, [Val], [Err] (a Go error)
    or [Panic] (a nil dereference, or a write to a nil map). Nothing is assumed
    about answers: [wp m s Q] says that every execution of [m] from [s],
    whatever is answered, ends with a trace of commands and answers, a state and
    an outcome that satisfy [Q]; programs are finite, so this is total
    correctness. A theorem that needs a promise of the API server states it as a
    law of a class ([Locking.ApiServer]) or as a condition on the trace.
    Machines, which the code shares by pointer, are kept under their names in
    the control plane; a later step sees what an earlier one wrote
    ([ControlPlane.update_machine]). Code that runs at the same time is a list
    of such programs that take turns call by call ([Interleave.step]).

    ** The files

    Foundations:
    - [Prelude]: notations, tactics and lemmas on lists, strings and maps.
    - [GoStd]: what the code uses of Go's library: 64-bit arithmetic, string
      functions, times and durations, sorting, errors and aggregates.
    - [Effects]: the effect monad, its program logic [wp], what a program can
      issue ([issues]) and leaves alone ([keeps]), and the tactics [wp_go],
      [issues_go] and [keeps_go].
    - [Interleave]: threads on a shared server, and rely-guarantee reasoning.
    - [Memory]: memory with addresses, for the code whose purpose is that two
      objects share nothing; what its statements do, and what it means to copy
      deeply. Everywhere else an object is a value.
    - [ApiTypes]: the API types of the two providers and of the objects of
      Kubernetes and Cluster API that the code reads, as records
      ([bootstrap/api/v1beta2], [controlplane/api/v1beta2]).
    - [Api]: the commands, events and the vocabulary on traces.
    - [Capi], [CapiLib]: functions of Cluster API and of the Kubernetes
      libraries that the code calls. Those that are not under [src/] are
      parameters (classes [CAPI], [ControllerLib]) with their documented
      behaviour, and have a reference instance.

    The packages of [pkg/]:
    - [Ssa]: [pkg/util/ssa], [pkg/util/contract], [pkg/util/hash]: paths, the
      intent filter, managed fields, cached server-side apply.
    - [ContractVersion]: [pkg/contract/version.go].
    - [K3sConfig]: [pkg/k3s/config.go] and the defaulting webhooks.
    - [Certificates], [Kubeconfig], [Token]: [pkg/secret], [pkg/kubeconfig],
      [pkg/token]: what is kept in the cluster's secrets.
    - [Locking]: [pkg/locking/control_plane_init_mutex.go], as programs and as
      interleaved threads on one API server.
    - [Etcd], [Proxy]: [pkg/etcd], [pkg/k3s/etcd_client_generator.go] and, with
      commands of its own, the port-forwarding dialer of [pkg/proxy].
    - [MachineFilters]: [pkg/machinefilters/machine_filters.go].
    - [ControlPlane]: [pkg/k3s/control_plane.go].
    - [Workload], [Conditions], [CoreDNS]: the workload cluster, from
      [pkg/k3s/management_cluster.go], [pkg/k3s/workload_cluster.go],
      [pkg/k3s/workload_cluster_etcd.go] and
      [pkg/k3s/workload_cluster_coredns.go].
    - [Cloudinit]: [pkg/cloudinit].

    The control-plane provider ([controlplane/controllers]):
    - [Remediation], [Scale]: remediation.go and scale.go.
    - [KcpController]: kthreescontrolplane_controller.go, from the request to
      the patch at its end; its theorems are in [KcpSafety] (how many changes),
      [KcpFrame] (what it leaves alone, deletion), [WellFormed] (the shape of
      its state), [Rollout] (an abstract fleet that it refines), [KcpStatus]
      and [KcpKubeconfig].
    - [MachineController]: machine_controller.go.
    - [Deletion]: scaling down, remediation and the machine controller together,
      for any number of their reconciliations at once.
    - [SsaCache]: the cache of apply requests, [pkg/util/ssa/cache.go], and the
      updates of machines that share it.

    The bootstrap provider ([bootstrap/controllers]):
    - [Bootstrap]: kthreesconfig_controller.go.
    - [FirstNode]: that controller and the lock together, for many machines at
      once.

    [Conversion]: the conversions between API versions of both providers.

    The generated deep copies of the API types, one file for each API package
    and version: [DeepCopyBootstrapV1beta1], [DeepCopyBootstrapV1beta2],
    [DeepCopyControlPlaneV1beta1], [DeepCopyControlPlaneV1beta2] ([T_shape] is
    the type [T], [T_DeepCopyInto], [T_DeepCopy] and [T_DeepCopyObject] its
    functions), with [ExternalTypes] for the types of Kubernetes and Cluster API
    in them, as parameters, and [DeepCopies] for the theorem. The conversions on
    memory, which share what they cast: [Converting] (what their statements do),
    [ConvertBootstrap], [ConvertControlPlane] (the functions, under their full
    names, and their registration) and [ConversionMemory], which relates them to
    [Conversion]. Beside the providers: [ReleaseNotes] (hack/tools/release), whose
    pool of workers is a step relation.

    ** What the theorems show

    - One reconciliation of a control plane changes at most one machine
      ([Reconcile_one_change]), patches only its own object and keeps its
      specification and identity ([Reconcile_patches]), and keeps its state
      well formed ([control_plane_well_formed]); deletion releases the object
      last ([reconcileDelete_spec]).
    - Rolling out and scaling implement an abstract fleet
      ([rollout_refines]) that makes progress, comes to rest as long as new
      machines are found up to date, and stays within its bounds
      ([rollout_progress], [rollout_terminates], [rollout_bounds]).
    - Safety of the cluster: remediation and scale-down delete one machine at
      most, under the conditions that keep a quorum ([remediation_safe],
      [scale_down_safe]), and the machine stays until its etcd member has left
      ([hook_resolved_safe], [hook_progress]), also when both controllers run at
      the same time ([deletion_waits_for_etcd]); etcd members and its leader
      change only as they may ([ReconcileEtcdMembers_spec],
      [ForwardEtcdLeadership_spec], [RemoveEtcdMemberForMachine_spec]);
      machines are made one at a time, all or nothing
      ([cloneConfigsAndGenerateMachine_spec], [scale_up_safe],
      [initialize_once]).
    - The first node: the lock excludes although it is read through a cache
      ([Lock_mutual_exclusion]); where it does not, when its holder is gone
      ([Lock_race]) or its release has not been seen ([Lock_stale]); data of a
      first node are made under the lock ([init_under_lock]); and with any number
      of machines, interleavings, failures and restarts a cluster gets one first
      node ([one_first_node]).
    - Bootstrap data: a configuration is ready only with its data
      ([ready_has_data]); every outcome of joining ([join_outcomes]); the
      cloud-init documents of nodes have exactly the lines that are meant
      ([user_data_lines]).
    - Secrets: [LookupOrGenerate_creates_missing], [reconcileKubeconfig_spec].
    - Reporting: [updateStatus_spec], [UpdateConditions_frame];
      [checkRetryLimits_spec] and [remediation_tracked] for the retries.
    - Resources: every etcd connection and every proxied connection is closed
      or handed over ([forLeader_closes_connections],
      [DialContext_leaks_nothing]).
    - Conversions and defaults: [hub_round_trip], [conversions_refine], [cloud_provider_kept],
      [old_edit_lost], [new_machine_up_to_date].
    - Server-side apply: what is sent ([FilterObject_spec]) and when it may be
      skipped ([cache_hit_sound]); contract versions:
      [GetLatestContract_spec].
    - CoreDNS always finds a configuration: [corefile_served].
    - The release notes: the pool of workers stops ([pool_stops]), is never stuck
      ([pool_progress]) and delivers an entry of every commit once
      ([pool_delivers]); a report that is printed has them all ([report_complete]),
      in an order that does not depend on the workers ([section_order_free]).
    - A deep copy shares nothing with its original: [copies_isolated]. It is what
      lets the other files treat the copies that the controllers make as values.

    ** Bounds

    Go's [int] is [Z] with its wrap-around written out where it can matter
    ([GoStd.wrap64]); durations and times are nanoseconds. Loops of the code go
    over finite lists and are folds; no definition uses fuel. Map iteration,
    whose order Go leaves open, is a parameter (class [MapOrder]).

    ** What is not modelled, and why

    Logging; timeouts of calls (an answer may be any error); cryptography,
    PEM, YAML and JSON texts, which are parameters with the laws the code relies
    on; the set-up of watches and the entry points ([controlplane/main.go],
    [bootstrap/main.go]), which register and parse flags; the typed accessors of
    [pkg/util/contract], which nothing calls; the end-to-end tests. *)

From Stdlib Require Export ZArith Lia Ascii String.
From stdpp Require Export base gmap strings list option sorting.

#[global] Set Default Goal Selector "!".

(** ** Notations of the development *)

Declare Scope k3s_scope.
Delimit Scope k3s_scope with k3s.
#[global] Open Scope k3s_scope.

(** Go's string concatenation. *)
Infix "+++" := String.append (at level 60, right associativity) : k3s_scope.
#[global] Arguments String.append : simpl nomatch.

(** A Go slice is [nil] or a list of elements: [reflect.DeepEqual] and JSON's
    [omitempty] tell the two apart. *)
Abbreviation slice A := (option (list A)).

(** A Go map is [nil] or a finite map: a lookup in a nil map finds nothing, a
    write to it panics. *)
Abbreviation gomap V := (option (gmap string V)).

(** ** Tactics *)

(** Splits every conjunction and existential of the context. *)
Ltac destr_all :=
  repeat match goal with
  | H : _ /\ _ |- _ => destruct H
  | H : exists _, _ |- _ => destruct H
  end.

(** Case analysis on the innermost match or conditional of hypothesis [H]. *)
Ltac case_in H :=
  match type of H with
  | context [match ?x with _ => _ end] =>
      lazymatch x with
      | context [match _ with _ => _ end] => fail
      | _ => destruct x eqn:?
      end
  end.

(** The same on the goal. *)
Ltac case_goal :=
  match goal with
  | |- context [match ?x with _ => _ end] =>
      lazymatch x with
      | context [match _ with _ => _ end] => fail
      | _ => destruct x eqn:?
      end
  end.

(** ** Booleans *)

Lemma bool_decide_negb (P : Prop) `{Decision P} :
  negb (bool_decide P) = bool_decide (not P).
Proof. by rewrite bool_decide_not. Qed.

(** ** Lists *)

Section Lists.
Context {A : Type}.
Implicit Types (l : list A).

(** The first element that satisfies a test, as a Go loop with [break] finds it. *)
Fixpoint find_first (p : A -> bool) (l : list A) : option A :=
  match l with
  | [] => None
  | x :: l' => if p x then Some x else find_first p l'
  end.

Lemma find_first_Some (p : A -> bool) l x :
  find_first p l = Some x -> x ∈ l /\ p x = true.
Proof.
  induction l as [|y l IH]; simpl; [done|].
  destruct (p y) eqn:E; [|intros; destruct IH; auto; split; [by right|done]].
  intros [= ->]. split; [by left|done].
Qed.

Lemma find_first_None (p : A -> bool) l :
  find_first p l = None <-> (forall x, x ∈ l -> p x = false).
Proof.
  induction l as [|y l IH]; simpl.
  - split; [intros _ x Hx; by apply elem_of_nil in Hx|done].
  - destruct (p y) eqn:E.
    + split; [done|]. intros H. specialize (H y ltac:(by left)). congruence.
    + rewrite IH. split.
      * intros H x [->|Hx]%elem_of_cons; auto.
      * intros H x Hx. apply H. by right.
Qed.

Lemma find_first_app (p : A -> bool) l1 l2 :
  find_first p (l1 ++ l2)
  = match find_first p l1 with Some x => Some x | None => find_first p l2 end.
Proof. induction l1 as [|x l1 IH]; simpl; [done|]. by destruct (p x). Qed.

(** How many elements satisfy a test. *)
Definition count (p : A -> bool) (l : list A) : nat := length (List.filter p l).

Lemma count_le (p : A -> bool) l : count p l <= length l.
Proof. unfold count. induction l as [|x l IH]; simpl; [lia|]. destruct (p x); simpl; lia. Qed.

Lemma count_cons (p : A -> bool) x l :
  count p (x :: l) = (if p x then 1 else 0) + count p l.
Proof. unfold count; simpl. by destruct (p x). Qed.

Lemma count_app (p : A -> bool) l1 l2 : count p (l1 ++ l2) = count p l1 + count p l2.
Proof. unfold count. by rewrite List.filter_app, length_app. Qed.

Lemma count_ext (p q : A -> bool) l :
  (forall x, x ∈ l -> p x = q x) -> count p l = count q l.
Proof.
  induction l as [|x l IH]; intros H; [done|].
  rewrite !count_cons, (H x), IH; [done| |by left].
  intros y Hy. apply H. by right.
Qed.
End Lists.

(** ** Go maps *)

Section GoMaps.
Context {V : Type}.

Definition gomap_get (m : gomap V) (k : string) : option V :=
  match m with Some m' => m' !! k | None => None end.

(** [delete(m, k)]: nothing happens on a nil map. *)
Definition gomap_delete (k : string) (m : gomap V) : gomap V := delete k <$> m.

(** [m[k] = v]: a nil map panics, here [None]. *)
Definition gomap_set (k : string) (v : V) (m : gomap V) : option (gomap V) :=
  match m with Some m' => Some (Some (<[k := v]> m')) | None => None end.

Lemma gomap_get_delete_eq k (m : gomap V) : gomap_get (gomap_delete k m) k = None.
Proof. destruct m; simpl; [apply lookup_delete_eq|done]. Qed.

Lemma gomap_get_delete_ne k k' (m : gomap V) :
  k <> k' -> gomap_get (gomap_delete k m) k' = gomap_get m k'.
Proof. intros. destruct m; simpl; [by apply lookup_delete_ne|done]. Qed.

Lemma gomap_get_set_eq k v (m m' : gomap V) :
  gomap_set k v m = Some m' -> gomap_get m' k = Some v.
Proof. destruct m; simpl; [|done]. intros [= <-]. apply lookup_insert_eq. Qed.

Lemma gomap_get_set_ne k k' v (m m' : gomap V) :
  k <> k' -> gomap_set k v m = Some m' -> gomap_get m' k' = gomap_get m k'.
Proof. intros ?. destruct m; simpl; [|done]. intros [= <-]. by apply lookup_insert_ne. Qed.
End GoMaps.

(** The elements of a slice, as [range] visits them. *)
Definition elems {A} (s : slice A) : list A := default [] s.

(** [append(s, xs...)]: appending nothing leaves a nil slice nil. *)
Definition go_append {A} (s : slice A) (xs : list A) : slice A :=
  match s, xs with
  | None, [] => None
  | _, _ => Some (elems s ++ xs)
  end.

Lemma elems_go_append {A} (s : slice A) xs : elems (go_append s xs) = elems s ++ xs.
Proof. destruct s, xs; simpl; rewrite ?app_nil_r; done. Qed.

(** ** The order of a Go [for range] over a map

    The language leaves the order open. The definitions take it as an argument
    of this class, a function of the map's content, so that each theorem holds
    for every choice of an order; only two loops over the very same content are
    taken to agree. *)
Class MapOrder := {
  range_order : forall {V : Type}, gmap string V -> list (string * V);
  range_order_perm : forall V (m : gmap string V), range_order m ≡ₚ map_to_list m;
}.

Section Range.
Context `{MapOrder}.

Definition range_values {V} (m : gmap string V) : list V := (range_order m).*2.

Lemma elem_of_range {V} (m : gmap string V) k v :
  (k, v) ∈ range_order m <-> m !! k = Some v.
Proof. rewrite range_order_perm. apply elem_of_map_to_list. Qed.

Lemma elem_of_range_values {V} (m : gmap string V) v :
  v ∈ range_values m <-> exists k, m !! k = Some v.
Proof.
  unfold range_values. rewrite list_elem_of_fmap. split.
  - intros ([k v'] & -> & Hin). exists k. by apply elem_of_range.
  - intros [k Hk]. exists (k, v). split; [done|]. by apply elem_of_range.
Qed.

Lemma length_range_values {V} (m : gmap string V) : length (range_values m) = size m.
Proof. unfold range_values. by rewrite length_fmap, range_order_perm, length_map_to_list. Qed.
End Range.

(** A concrete order, for evaluation. *)
#[export] Instance map_to_list_order : MapOrder | 100 := {
  range_order := fun V m => map_to_list m;
  range_order_perm := fun V m => reflexivity _;
}.

(** ** Hints of the development *)

Create HintDb k3s.
#[export] Hint Resolve count_le : k3s.

