(* ===== verification/GoStd.v ===== *)
(** The Go language and standard library, as far as the program uses them:
    error values, [strings], machine integers, [time.Duration]. *)

From S2P Require Import Prelude.

(** ** Errors *)

(** The reason of a Kubernetes API status error. *)
Inductive status_reason :=
| NotFound
| AlreadyExists
| Conflict
| OtherReason (reason : string).

#[export] Instance status_reason_eq_dec : EqDecision status_reason.
Proof. solve_decision. Defined.

(** A Go [error]: an API status error, a package-level sentinel (compared by
    identity, here by name), a fresh error, an error wrapped with [%w] or
    [errors.Wrap], the [RemoteClusterConnectionError] of pkg/k3s, and an
    aggregate of errors. *)
Inductive error :=
| EStatus (reason : status_reason)
| ESentinel (name : string)
| ENew (msg : string)
| EWrap (msg : string) (err : error)
| ERemoteClusterConnection (name : string) (err : error)
| EAggregate (errs : list error).

(** [apierrors.IsNotFound] and friends look for a status error along the
    [Unwrap] chain; an aggregate has no [Unwrap]. *)
Fixpoint ReasonForError (e : error) : option status_reason :=
  match e with
  | EStatus r => Some r
  | EWrap _ e' => ReasonForError e'
  | ERemoteClusterConnection _ e' => ReasonForError e'
  | ESentinel _ | ENew _ | EAggregate _ => None
  end.

Definition IsNotFound (e : error) : bool :=
  bool_decide (ReasonForError e = Some NotFound).

Definition IsAlreadyExists (e : error) : bool :=
  bool_decide (ReasonForError e = Some AlreadyExists).

(** [errors.Is(err, sentinel)]; an aggregate answers for its members. *)
Fixpoint errors_Is (e : error) (sentinel : string) : bool :=
  match e with
  | ESentinel n => bool_decide (n = sentinel)
  | EWrap _ e' => errors_Is e' sentinel
  | ERemoteClusterConnection _ e' => errors_Is e' sentinel
  | EAggregate es => existsb (fun e' => errors_Is e' sentinel) es
  | EStatus _ | ENew _ => false
  end.

(** [errors.As(err, &connFailure)] for a [*RemoteClusterConnectionError]. *)
Fixpoint errors_As_connFailure (e : error) : bool :=
  match e with
  | ERemoteClusterConnection _ _ => true
  | EWrap _ e' => errors_As_connFailure e'
  | EStatus _ | ESentinel _ | ENew _ | EAggregate _ => false
  end.

(** [kerrors.NewAggregate]: no errors give a nil error. *)
Definition NewAggregate (errs : list error) : option error :=
  match errs with [] => None | _ => Some (EAggregate errs) end.

Lemma NewAggregate_None errs : NewAggregate errs = None <-> errs = [].
Proof. by destruct errs. Qed.

(** ** Strings *)

Definition ascii_dash : ascii := "-"%char.
Definition ascii_comma : ascii := ","%char.

(** [strings.LastIndex(s, c)] for a one-character separator; -1 is [None]. *)
Fixpoint LastIndex (c : ascii) (s : string) : option nat :=
  match s with
  | EmptyString => None
  | String a s' =>
      match LastIndex c s' with
      | Some i => Some (S i)
      | None => if Ascii.eqb a c then Some 0 else None
      end
  end.

(** [s[:n]] and [s[n:]]. *)
Fixpoint str_take (n : nat) (s : string) : string :=
  match n, s with
  | S n', String a s' => String a (str_take n' s')
  | _, _ => EmptyString
  end.

Fixpoint str_drop (n : nat) (s : string) : string :=
  match n, s with
  | O, _ => s
  | S n', String _ s' => str_drop n' s'
  | S _, EmptyString => EmptyString
  end.

Fixpoint has_char (c : ascii) (s : string) : bool :=
  match s with
  | EmptyString => false
  | String a s' => Ascii.eqb a c || has_char c s'
  end.

(** [strings.Join]. *)
Fixpoint Join (xs : list string) (sep : string) : string :=
  match xs with
  | [] => ""
  | [x] => x
  | x :: xs' => x +++ sep +++ Join xs' sep
  end.

(** [strings.TrimRight(s, c)] for a one-character cutset. *)
Fixpoint TrimRight (s : string) (c : ascii) : string :=
  match s with
  | EmptyString => EmptyString
  | String a s' =>
      match TrimRight s' c with
      | EmptyString => if Ascii.eqb a c then EmptyString else String a EmptyString
      | t => String a t
      end
  end.

(** [strings.HasPrefix] and [strings.HasSuffix]. *)
Fixpoint HasPrefix (s prefix : string) : bool :=
  match prefix, s with
  | EmptyString, _ => true
  | String a p', String b s' => Ascii.eqb a b && HasPrefix s' p'
  | String _ _, EmptyString => false
  end.

Definition HasSuffix (s suffix : string) : bool :=
  String.eqb (str_drop (String.length s - String.length suffix) s) suffix
  && (String.length suffix <=? String.length s)%nat.

(** [strings.Repeat]. *)
Fixpoint Repeat (s : string) (n : nat) : string :=
  match n with O => "" | S n' => s +++ Repeat s n' end.

(** [strings.Split(s, c)] for a one-character separator. *)
Fixpoint Split (s : string) (c : ascii) : list string :=
  match s with
  | EmptyString => [""]
  | String a s' =>
      if Ascii.eqb a c then "" :: Split s' c
      else match Split s' c with
           | [] => [String a ""]
           | x :: xs => String a x :: xs
           end
  end.

(** ** Lemmas on strings *)

Lemma append_assoc (s t u : string) : (s +++ t) +++ u = s +++ (t +++ u).
Proof. induction s as [|a s IH]; simpl; [done|]. by rewrite IH. Qed.

Lemma append_nil_r (s : string) : s +++ "" = s.
Proof. induction s as [|a s IH]; simpl; [done|]. by rewrite IH. Qed.

Lemma Split_not_nil s c : Split s c <> [].
Proof. destruct s; simpl; repeat case_match; done. Qed.

Lemma append_inv_l (s t u : string) : s +++ t = s +++ u -> t = u.
Proof. induction s as [|a s IH]; simpl; [done|]. intros [= ?]. auto. Qed.

Lemma append_length (s t : string) :
  String.length (s +++ t) = String.length s + String.length t.
Proof. induction s as [|a s IH]; simpl; [done|]. by rewrite IH. Qed.

Lemma LastIndex_None c s : LastIndex c s = None <-> has_char c s = false.
Proof.
  induction s as [|a s IH]; simpl; [done|].
  destruct (LastIndex c s) eqn:E.
  - split; [done|]. intros [_ H]%orb_false_iff. destruct IH as [_ IH].
    specialize (IH H). done.
  - destruct (Ascii.eqb a c); simpl; [done|]. tauto.
Qed.

(** The last separator of [s ++ c ++ t], when [t] has none. *)
Lemma LastIndex_app c s t :
  has_char c t = false -> LastIndex c (s +++ String c t) = Some (String.length s).
Proof.
  intros Ht. induction s as [|a s IH]; simpl.
  - apply LastIndex_None in Ht. by rewrite Ht, Ascii.eqb_refl.
  - by rewrite IH.
Qed.

Lemma str_take_app s t : str_take (String.length s) (s +++ t) = s.
Proof. induction s as [|a s IH]; simpl; [by destruct t|]. by rewrite IH. Qed.

Lemma str_drop_app s t : str_drop (String.length s) (s +++ t) = t.
Proof. induction s as [|a s IH]; simpl; [done|]. done. Qed.

Lemma str_drop_S_app s c t : str_drop (S (String.length s)) (s +++ String c t) = t.
Proof. induction s as [|a s IH]; simpl; [done|]. exact IH. Qed.

(** Every string with a separator splits at its last one. *)
Lemma LastIndex_split c s i :
  LastIndex c s = Some i ->
  s = str_take i s +++ String c (str_drop (S i) s)
  /\ has_char c (str_drop (S i) s) = false.
Proof.
  revert i. induction s as [|a s IH]; intros i; simpl; [done|].
  destruct (LastIndex c s) as [j|] eqn:E.
  - intros [= <-]. destruct (IH j eq_refl) as [H1 H2]. simpl in *.
    split; [by rewrite <- H1|done].
  - destruct (Ascii.eqb_spec a c) as [->|]; [|done]. intros [= <-].
    simpl. split; [by destruct s|]. by apply LastIndex_None.
Qed.

Lemma TrimRight_app s t c :
  TrimRight (s +++ t) c
  = match TrimRight t c with EmptyString => TrimRight s c | t' => s +++ t' end.
Proof.
  induction s as [|a s IH]; simpl.
  - by destruct (TrimRight t c).
  - rewrite IH. destruct (TrimRight t c) as [|b t']; [done|].
    by destruct s.
Qed.

(** ** Machine integers and durations *)

Definition int32_min : Z := - 2 ^ 31.
Definition int64_min : Z := - 2 ^ 63.

(** The conversion [int32(x)] and the 64-bit arithmetic of [time.Duration]. *)
Definition wrap32 (z : Z) : Z := (z - int32_min) mod 2 ^ 32 + int32_min.
Definition wrap64 (z : Z) : Z := (z - int64_min) mod 2 ^ 64 + int64_min.

Lemma wrap32_id z : (- 2 ^ 31 <= z < 2 ^ 31)%Z -> wrap32 z = z.
Proof. intros. unfold wrap32, int32_min. rewrite Z.mod_small; lia. Qed.

Lemma wrap64_id z : (- 2 ^ 63 <= z < 2 ^ 63)%Z -> wrap64 z = z.
Proof. intros. unfold wrap64, int64_min. rewrite Z.mod_small; lia. Qed.

Lemma wrap32_range z : (- 2 ^ 31 <= wrap32 z < 2 ^ 31)%Z.
Proof.
  unfold wrap32, int32_min. pose proof (Z.mod_pos_bound (z - - 2 ^ 31) (2 ^ 32) ltac:(lia)). lia.
Qed.

(** [time.Duration] counts nanoseconds. *)
Definition Second : Z := 1000000000.
Definition Minute : Z := 60 * Second.
Definition Hour : Z := 60 * Minute.

(** [ctrl.Result]. *)
Record Result := mkResult { Requeue : bool; RequeueAfter : Z }.

Definition emptyResult : Result := mkResult false 0.
Definition requeue : Result := mkResult true 0.
Definition requeueAfter (d : Z) : Result := mkResult false d.

(** [result.IsZero()]. *)
Definition Result_IsZero (r : Result) : bool := negb (Requeue r) && (RequeueAfter r =? 0)%Z.

#[export] Instance Result_eq_dec : EqDecision Result.
Proof. solve_decision. Defined.
