(* ===== verification/Effects.v ===== *)
(** Programs that call an environment.

    A controller is Go code that computes on objects in memory and calls
    services it does not control: the API server of the management cluster,
    that of the workload cluster, etcd, the clock, a random generator. A
    [prog] is such code: a tree that stops with a value or issues a command
    and goes on with whatever the environment answers. What the environment
    answers is left open, so a statement about every execution of a [prog]
    holds for every state of those services, every failure and every
    interleaving with other writers. *)

From S2P Require Import Prelude GoStd.

(** The commands of a development and the type of their answers. *)
Class Signature := {
  Cmd : Type;
  Resp : Cmd -> Type;
}.

Inductive prog `{Signature} (A : Type) : Type :=
| Ret (a : A)
| Do (c : Cmd) (k : Resp c -> prog A).
Arguments Ret {_ _} a.
Arguments Do {_ _} c k.

Section Prog.
Context `{Signature}.

Fixpoint prog_bind {A B} (p : prog A) (f : A -> prog B) : prog B :=
  match p with
  | Ret a => f a
  | Do c k => Do c (fun r => prog_bind (k r) f)
  end.

(** A command together with the answer it got. *)
Definition event : Type := { c : Cmd & Resp c }.
Definition ev (c : Cmd) (r : Resp c) : event := existT c r.

(** [exec p tr a]: [p] can issue the commands of [tr], get the answers of
    [tr], and stop with [a]. *)
Fixpoint exec {A} (p : prog A) (tr : list event) (a : A) : Prop :=
  match p with
  | Ret a' => tr = [] /\ a = a'
  | Do c k => exists r tr', tr = ev c r :: tr' /\ exec (k r) tr' a
  end.

(** Every execution of [p] satisfies [Q]. *)
Fixpoint always {A} (p : prog A) (Q : list event -> A -> Prop) : Prop :=
  match p with
  | Ret a => Q [] a
  | Do c k => forall r, always (k r) (fun tr a => Q (ev c r :: tr) a)
  end.

Lemma always_exec {A} (p : prog A) Q :
  always p Q <-> (forall tr a, exec p tr a -> Q tr a).
Proof.
  revert Q. induction p as [a|c k IH]; intros Q; simpl.
  - split; [by intros HQ tr a' [-> ->]|]. intros HQ. by apply HQ.
  - split.
    + intros HQ tr a (r & tr' & -> & He). specialize (HQ r).
      rewrite IH in HQ. by apply HQ.
    + intros HQ r. rewrite IH. intros tr a He. apply HQ. eauto.
Qed.

Lemma always_mono {A} (p : prog A) (Q Q' : list event -> A -> Prop) :
  (forall tr a, Q tr a -> Q' tr a) -> always p Q -> always p Q'.
Proof. rewrite !always_exec. eauto. Qed.

Lemma always_bind {A B} (p : prog A) (f : A -> prog B) Q :
  always (prog_bind p f) Q
  <-> always p (fun tr a => always (f a) (fun tr' b => Q (tr ++ tr') b)).
Proof. revert Q. induction p as [a|c k IH]; intros Q; simpl; [done|]. by setoid_rewrite IH. Qed.

Lemma exec_bind {A B} (p : prog A) (f : A -> prog B) tr b :
  exec (prog_bind p f) tr b
  <-> exists tr1 a tr2, tr = tr1 ++ tr2 /\ exec p tr1 a /\ exec (f a) tr2 b.
Proof.
  revert tr. induction p as [a|c k IH]; intros tr; simpl.
  - split; [intros He; exists [], a, tr; auto|].
    by intros (? & ? & ? & -> & [-> ->] & ?).
  - split.
    + intros (r & tr' & -> & He). apply IH in He as (t1 & a & t2 & -> & H1 & H2).
      exists (ev c r :: t1), a, t2. eauto 10.
    + intros (? & a & t2 & -> & (r & t1 & -> & H1) & H2).
      exists r, (t1 ++ t2). split; [done|]. apply IH. eauto 10.
Qed.

(** Running a program against a concrete environment. *)
Definition handler (W : Type) : Type := forall c : Cmd, W -> Resp c * W.

Fixpoint run {W A} (h : handler W) (p : prog A) (w : W) : A * list event * W :=
  match p with
  | Ret a => (a, [], w)
  | Do c k =>
      let '(r, w1) := h c w in
      let '(a, tr, w2) := run h (k r) w1 in
      (a, ev c r :: tr, w2)
  end.

(** A run is an execution: every program stops, whatever it is answered. *)
Lemma run_exec {W A} (h : handler W) (p : prog A) w a tr w' :
  run h p w = (a, tr, w') -> exec p tr a.
Proof.
  revert w a tr w'. induction p as [a0|c k IH]; intros w a tr w'; simpl.
  - by intros [= <- <- <-].
  - destruct (h c w) as [r w1]. destruct (run h (k r) w1) as [[a1 tr1] w2] eqn:E.
    intros [= <- <- <-]. eauto.
Qed.

(** Two programs are equivalent when they have the same executions. *)
Definition prog_equiv {A} (p q : prog A) : Prop :=
  forall tr a, exec p tr a <-> exec q tr a.

#[export] Instance prog_equiv_equivalence {A} : Equivalence (@prog_equiv A).
Proof.
  split; [by intros p tr a|by intros p q E tr a|].
  intros p q r E1 E2 tr a. by rewrite (E1 tr a).
Qed.

#[export] Instance prog_bind_proper {A B} :
  Proper (prog_equiv ==> pointwise_relation A prog_equiv ==> prog_equiv) (@prog_bind A B).
Proof.
  intros p p' Ep f f' Ef tr b. rewrite !exec_bind.
  split; intros (t1 & a & t2 & -> & H1 & H2); exists t1, a, t2;
    (split; [done|]; split; [by apply Ep|by apply Ef]).
Qed.

#[export] Instance always_proper {A} :
  Proper (prog_equiv ==> pointwise_relation _ (pointwise_relation A iff) ==> iff) (@always A).
Proof.
  intros p p' Ep Q Q' EQ. rewrite !always_exec.
  split; intros HQ tr a He; apply EQ, HQ, Ep, He.
Qed.

Lemma prog_bind_assoc {A B C} (p : prog A) (f : A -> prog B) (g : B -> prog C) :
  prog_equiv (prog_bind (prog_bind p f) g) (prog_bind p (fun a => prog_bind (f a) g)).
Proof.
  induction p as [a|c k IH]; simpl; [done|]. intros tr b. simpl.
  split; intros (r & tr' & -> & He); exists r, tr'; (split; [done|]); by apply IH.
Qed.
End Prog.

(** ** State, errors and panics

    Go code mutates the objects it holds pointers to, returns an error next
    to a result, and may panic. [M S A] is code over the objects [S]: the
    state survives an error. *)

Inductive outcome (A : Type) : Type :=
| Val (a : A)
| Err (e : error)
| Panic.
Arguments Val {_} a.
Arguments Err {_} e.
Arguments Panic {_}.

Definition M `{Signature} (S A : Type) : Type := S -> prog (S * outcome A).

Section Monad.
Context `{Signature} {S : Type}.

Definition ret {A} (a : A) : M S A := fun s => Ret (s, Val a).
Definition throw {A} (e : error) : M S A := fun s => Ret (s, Err e).
Definition panic {A} : M S A := fun s => Ret (s, Panic).

Definition bind {A B} (m : M S A) (f : A -> M S B) : M S B :=
  fun s => prog_bind (m s) (fun so =>
    match so with
    | (s', Val a) => f a s'
    | (s', Err e) => Ret (s', Err e)
    | (s', Panic) => Ret (s', Panic)
    end).

Definition get : M S S := fun s => Ret (s, Val s).
Definition modify (f : S -> S) : M S unit := fun s => Ret (f s, Val tt).

(** Issues a command; the code inspects the answer. *)
Definition call (c : Cmd) : M S (Resp c) := fun s => Do c (fun r => Ret (s, Val r)).

(** [v, err := f()]: the error becomes a value to inspect; a panic goes on. *)
Definition try {A} (m : M S A) : M S (A + error) :=
  fun s => prog_bind (m s) (fun so =>
    match so with
    | (s', Val a) => Ret (s', Val (inl a))
    | (s', Err e) => Ret (s', Val (inr e))
    | (s', Panic) => Ret (s', Panic)
    end).

(** [if err != nil { return err }] on an answer. *)
Definition lift_res {A} (r : A + error) : M S A :=
  match r with inl a => ret a | inr e => throw e end.

(** [if err != nil { return fmt.Errorf(msg, err) }] *)
Definition lift_wrap {A} (msg : string) (r : A + error) : M S A :=
  match r with inl a => ret a | inr e => throw (EWrap msg e) end.

(** [for _, x := range xs { body }], without early exit other than an error. *)
Fixpoint for_each {X} (xs : list X) (body : X -> M S unit) : M S unit :=
  match xs with
  | [] => ret tt
  | x :: xs' => bind (body x) (fun _ => for_each xs' body)
  end.

(** The same loop with an accumulator. *)
Fixpoint fold_each {X Acc} (xs : list X) (acc : Acc) (body : Acc -> X -> M S Acc) : M S Acc :=
  match xs with
  | [] => ret acc
  | x :: xs' => bind (body acc x) (fun acc' => fold_each xs' acc' body)
  end.

(** [for _, x := range xs { body }] where [xs] holds pointers and [body]
    mutates what [x] points to: an error leaves the rest as it was. *)
Fixpoint for_each_ptr {X} (body : M X unit) (xs : list X) : prog (list X * outcome unit) :=
  match xs with
  | [] => Ret ([], Val tt)
  | x :: xs' =>
      prog_bind (body x) (fun so =>
        match so with
        | (x', Val _) =>
            prog_bind (for_each_ptr body xs') (fun rs => Ret (x' :: rs.1, rs.2))
        | (x', Err e) => Ret (x' :: xs', Err e)
        | (x', Panic) => Ret (x' :: xs', Panic)
        end)
  end.
End Monad.

Notation "x <- m ;; k" := (bind m (fun x => k))
  (at level 100, m at next level, right associativity) : k3s_scope.
Notation "'let*' p ':=' m 'in' k" := (bind m (fun x => match x with p => k end))
  (at level 100, p pattern, m at level 99, right associativity) : k3s_scope.
Notation "m ;;; k" := (bind m (fun _ => k))
  (at level 100, right associativity) : k3s_scope.

(** Code on a part of the state, seen from the whole. *)
Definition zoom `{Signature} {S T A} (get_part : S -> T) (set_part : T -> S -> S)
    (m : M T A) : M S A :=
  fun s => prog_bind (m (get_part s)) (fun to => Ret (set_part to.1 s, to.2)).

(** Code that holds no object of its own. *)
Abbreviation IO A := (M unit A).

Definition lift_io `{Signature} {S A} (m : IO A) : M S A :=
  zoom (fun _ => tt) (fun _ s => s) m.

(** Go's [defer]: [after] runs when [m] ends, also when it panics, and may change
    the outcome. *)
Definition deferred `{Signature} {S A} (m : M S A) (after : outcome A -> M S (outcome A)) : M S A :=
  fun s => prog_bind (m s) (fun so =>
    prog_bind (after so.2 so.1) (fun so' =>
      match so'.2 with
      | Val o => Ret (so'.1, o)
      | Err e => Ret (so'.1, Err e)
      | Panic => Ret (so'.1, Panic)
      end)).

(** ** Executions of [M] *)

Section Logic.
Context `{Signature} {S : Type}.

(** [m], started on [s], can issue [tr] and leave [s'] and [o]. *)
Definition runs {A} (m : M S A) (s : S) (tr : list event) (s' : S) (o : outcome A) : Prop :=
  exec (m s) tr (s', o).

(** Every execution of [m] from [s] satisfies [Q]. *)
Definition wp {A} (m : M S A) (s : S) (Q : list event -> S -> outcome A -> Prop) : Prop :=
  always (m s) (fun tr so => Q tr so.1 so.2).

Lemma wp_runs {A} (m : M S A) s Q :
  wp m s Q <-> (forall tr s' o, runs m s tr s' o -> Q tr s' o).
Proof.
  unfold wp, runs. rewrite always_exec. split; [intros HQ tr s' o He|intros HQ tr [s' o]]; eauto.
  apply (HQ _ _ He).
Qed.

(** Every execution is one. *)
Lemma wp_self {A} (m : M S A) s : wp m s (runs m s).
Proof. by apply wp_runs. Qed.

Lemma wp_mono {A} (m : M S A) s (Q Q' : list event -> S -> outcome A -> Prop) :
  wp m s Q -> (forall tr s' o, Q tr s' o -> Q' tr s' o) -> wp m s Q'.
Proof. intros HQ HQQ. eapply always_mono; [|exact HQ]. intros tr [s' o]. apply HQQ. Qed.

Lemma wp_ret {A} (a : A) s Q : wp (ret a) s Q <-> Q [] s (Val a).
Proof. done. Qed.

Lemma wp_throw {A} (e : error) s (Q : _ -> _ -> outcome A -> Prop) :
  wp (throw e) s Q <-> Q [] s (Err e).
Proof. done. Qed.

Lemma wp_call c s Q : wp (call c) s Q <-> (forall r, Q [ev c r] s (Val r)).
Proof. done. Qed.

Lemma wp_get s Q : wp get s Q <-> Q [] s (Val s).
Proof. done. Qed.

Lemma wp_modify (f : S -> S) s Q : wp (modify f) s Q <-> Q [] (f s) (Val tt).
Proof. done. Qed.

Lemma wp_panic {A} s (Q : _ -> _ -> outcome A -> Prop) : wp panic s Q <-> Q [] s Panic.
Proof. done. Qed.

Lemma wp_bind {A B} (m : M S A) (f : A -> M S B) s Q :
  wp (bind m f) s Q
  <-> wp m s (fun tr s' o =>
        match o with
        | Val a => wp (f a) s' (fun tr' s'' o' => Q (tr ++ tr') s'' o')
        | Err e => Q tr s' (Err e)
        | Panic => Q tr s' Panic
        end).
Proof.
  unfold wp, bind. rewrite always_bind.
  split; intros HQ; eapply always_mono; try exact HQ;
    intros tr [s' [a|e|]]; simpl; rewrite ?app_nil_r; done.
Qed.

Lemma wp_try {A} (m : M S A) s Q :
  wp (try m) s Q
  <-> wp m s (fun tr s' o =>
        match o with
        | Val a => Q tr s' (Val (inl a))
        | Err e => Q tr s' (Val (inr e))
        | Panic => Q tr s' Panic
        end).
Proof.
  unfold wp, try. rewrite always_bind.
  split; intros HQ; eapply always_mono; try exact HQ;
    intros tr [s' [a|e|]]; simpl; rewrite ?app_nil_r; done.
Qed.

(** A loop keeps an invariant that its body keeps. *)
Lemma wp_for_each {X} (I : list event -> S -> Prop) (E : list event -> S -> outcome unit -> Prop)
    (xs : list X) (body : X -> M S unit) tr0 s :
  I tr0 s ->
  (forall x tr s, x ∈ xs -> I tr s ->
     wp (body x) s (fun tr' s' o =>
       match o with
       | Val _ => I (tr ++ tr') s'
       | Err e => E (tr ++ tr') s' (Err e)
       | Panic => E (tr ++ tr') s' Panic
       end)) ->
  wp (for_each xs body) s (fun tr' s' o =>
    match o with
    | Val _ => I (tr0 ++ tr') s'
    | Err e => E (tr0 ++ tr') s' (Err e)
    | Panic => E (tr0 ++ tr') s' Panic
    end).
Proof.
  revert tr0 s. induction xs as [|x xs IH]; intros tr0 s HI Hbody; simpl.
  - rewrite wp_ret. by rewrite app_nil_r.
  - rewrite wp_bind. eapply wp_mono; [apply Hbody; [by left|exact HI]|].
    intros tr s' [[]|e|]; simpl; try done.
    intros HI'. eapply wp_mono; [apply (IH (tr0 ++ tr)); [done|]|].
    + intros y tr1 s1 Hy. apply Hbody. by right.
    + intros tr1 s1 [[]|e|]; by rewrite app_assoc.
Qed.

Lemma wp_fold_each {X Acc} (I : list X -> list event -> S -> Acc -> Prop)
    (E : list event -> S -> outcome Acc -> Prop)
    (xs : list X) acc (body : Acc -> X -> M S Acc) vis tr0 s :
  I vis tr0 s acc ->
  (forall vis x acc tr s, x ∈ xs -> I vis tr s acc ->
     wp (body acc x) s (fun tr' s' o =>
       match o with
       | Val acc' => I (vis ++ [x]) (tr ++ tr') s' acc'
       | Err e => E (tr ++ tr') s' (Err e)
       | Panic => E (tr ++ tr') s' Panic
       end)) ->
  wp (fold_each xs acc body) s (fun tr' s' o =>
    match o with
    | Val acc' => I (vis ++ xs) (tr0 ++ tr') s' acc'
    | Err e => E (tr0 ++ tr') s' (Err e)
    | Panic => E (tr0 ++ tr') s' Panic
    end).
Proof.
  revert acc vis tr0 s. induction xs as [|x xs IH]; intros acc vis tr0 s HI Hbody; simpl.
  - rewrite wp_ret. by rewrite !app_nil_r.
  - rewrite wp_bind. eapply wp_mono; [apply Hbody; [by left|exact HI]|].
    intros tr s' [acc'|e|]; simpl; try done.
    intros HI'. eapply wp_mono; [apply (IH _ (vis ++ [x]) (tr0 ++ tr)); [done|]|].
    + intros vis1 y acc1 tr1 s1 Hy. apply Hbody. by right.
    + intros tr1 s1 [acc1|e|]; rewrite <- ?app_assoc; done.
Qed.
End Logic.

(** The same for a loop over pointers: [I tr ys zs] relates the elements
    visited so far, before and after. *)
Lemma wp_for_each_ptr `{Signature} {X} (I : list event -> list X -> list X -> Prop)
    (E : list event -> outcome unit -> Prop) (body : M X unit) xs tr0 ys zs :
  I tr0 ys zs ->
  (forall x tr ys zs, x ∈ xs -> I tr ys zs ->
     wp body x (fun tr' x' o =>
       match o with
       | Val _ => I (tr ++ tr') (ys ++ [x]) (zs ++ [x'])
       | Err e => E (tr ++ tr') (Err e)
       | Panic => E (tr ++ tr') Panic
       end)) ->
  wp (for_each_ptr body) xs (fun tr' zs' o =>
    match o with
    | Val _ => I (tr0 ++ tr') (ys ++ xs) (zs ++ zs')
    | Err e => E (tr0 ++ tr') (Err e)
    | Panic => E (tr0 ++ tr') Panic
    end).
Proof.
  revert tr0 ys zs. induction xs as [|x xs IH]; intros tr0 ys zs HI Hbody.
  - unfold wp. simpl. by rewrite !app_nil_r.
  - unfold wp. simpl. rewrite always_bind.
    eapply always_mono; [|apply (Hbody x tr0 ys zs); [by left|exact HI]].
    intros tr [x' [[]|e|]]; simpl; rewrite ?app_nil_r; try done.
    intros HI'. rewrite always_bind.
    eapply always_mono; [|apply (IH (tr0 ++ tr) (ys ++ [x]) (zs ++ [x'])); [done|]].
    + intros tr1 [zs1 [[]|e|]]; simpl;
        by rewrite ?app_nil_r, <- ?app_assoc.
    + intros y tr1 ys1 zs1 Hy. apply Hbody. by right.
Qed.

Lemma wp_deferred `{Signature} {S A} (m : M S A) after s Q :
  wp (S := S) m s (fun tr s' o => wp (after o) s' (fun tr' s'' o' =>
    Q (tr ++ tr') s'' (match o' with Val o'' => o'' | Err e => Err e | Panic => Panic end))) ->
  wp (deferred m after) s Q.
Proof.
  intros HQ. unfold wp, deferred. rewrite always_bind. eapply always_mono; [|exact HQ].
  intros tr [s' o] Hw. cbn [fst snd] in *. rewrite always_bind. eapply always_mono; [|exact Hw].
  intros tr' [s'' [o'|e|]]; simpl; by rewrite app_nil_r.
Qed.

Lemma wp_lift_io `{Signature} {S A} (m : IO A) (s : S) Q :
  wp (lift_io m) s Q <-> wp m tt (fun tr _ o => Q tr s o).
Proof.
  unfold wp, lift_io, zoom. rewrite always_bind.
  split; intros HQ; eapply always_mono; try exact HQ;
    intros tr [s' o]; simpl; by rewrite ?app_nil_r.
Qed.

#[global] Arguments ret {_ _ _} _ _ /.
#[global] Arguments throw {_ _ _} _ _ /.
#[global] Arguments panic {_ _ _} _ /.
#[global] Arguments bind {_ _ _ _} _ _ _ /.
#[global] Arguments get {_ _} _ /.
#[global] Arguments modify {_ _} _ _ /.
#[global] Arguments call {_ _} _ _ /.
#[global] Arguments try {_ _ _} _ _ /.

(** ** Automation

    [wp_go] pushes [wp] through code without loops: it evaluates the program
    to its tree of commands and answers, introduces the answers and splits on
    the tests. *)
Ltac wp_split :=
  match goal with
  | |- wp (bind _ _) _ _ => apply wp_bind
  | |- wp (try _) _ _ => apply wp_try
  | |- wp (ret _) _ _ => apply wp_ret
  | |- wp (throw _) _ _ => apply wp_throw
  | |- wp (call ?c) ?s ?Q => refine (proj2 (wp_call c s Q) _); intros ?
  | |- wp (lift_io _) _ _ => apply wp_lift_io
  | |- wp (match ?x with _ => _ end) _ _ => destruct x eqn:?
  | |- wp (if ?x then _ else _) _ _ => destruct x eqn:?
  | |- wp (lift_res (inl _)) _ _ => apply wp_ret
  | |- wp (lift_res (inr _)) _ _ => apply wp_throw
  | |- wp (lift_wrap _ (inl _)) _ _ => apply wp_ret
  | |- wp (lift_wrap _ (inr _)) _ _ => apply wp_throw
  | |- wp (lift_res ?r) _ _ => destruct r eqn:?; cbn [lift_res]
  | |- wp (lift_wrap _ ?r) _ _ => destruct r eqn:?; cbn [lift_wrap]
  | |- wp get _ _ => apply wp_get
  | |- wp (modify _) _ _ => apply wp_modify
  | |- wp panic _ _ => apply wp_panic
  end.

Ltac wp_go := repeat (cbv beta iota zeta; wp_split).

(** ** What a program does

    [traces T m]: whatever it is answered and whatever the state, what [m] does
    satisfies [T], a property that goes from the parts of an execution to the
    whole. The rules follow the code. *)

Section Traces.
Context `{Signature} {S : Type} (T : list event -> Prop).

Definition traces {A} (m : M S A) : Prop := forall s, wp m s (fun tr _ _ => T tr).

Lemma traces_call c : (forall r : Resp c, T [ev c r]) -> traces (call c).
Proof. intros Hc s. by apply wp_call. Qed.

Lemma traces_try {A} (m : M S A) : traces m -> traces (try m).
Proof. intros Hm s. apply wp_try. eapply wp_mono; [apply Hm|]. by intros tr s' [a|e|]. Qed.

Lemma traces_runs {A} (m : M S A) s tr s' o : traces m -> runs m s tr s' o -> T tr.
Proof. intros Hm Hr. specialize (Hm s). rewrite wp_runs in Hm. eauto. Qed.

Hypothesis T_nil : T [].

Lemma traces_ret {A} (a : A) : traces (ret a).
Proof. intros s. by apply wp_ret. Qed.

Lemma traces_throw {A} e : traces (@throw _ S A e).
Proof. intros s. by apply wp_throw. Qed.

Lemma traces_panic {A} : traces (@panic _ S A).
Proof. intros s. by apply wp_panic. Qed.

Lemma traces_get : traces get.
Proof. intros s. by apply wp_get. Qed.

Lemma traces_modify f : traces (modify f).
Proof. intros s. by apply wp_modify. Qed.

Lemma traces_lift_res {A} (r : A + error) : traces (lift_res r).
Proof. destruct r; [apply traces_ret|apply traces_throw]. Qed.

Lemma traces_lift_wrap {A} msg (r : A + error) : traces (lift_wrap msg r).
Proof. destruct r; [apply traces_ret|apply traces_throw]. Qed.

Hypothesis T_app : forall tr tr', T tr -> T tr' -> T (tr ++ tr').

Lemma traces_bind {A B} (m : M S A) (f : A -> M S B) :
  traces m -> (forall a, traces (f a)) -> traces (bind m f).
Proof.
  intros Hm Hf s. apply wp_bind. eapply wp_mono; [apply Hm|]. intros tr s' [a|e|] Ht; [|done..].
  eapply wp_mono; [apply Hf|]. auto.
Qed.

Lemma traces_for_each {X} (xs : list X) body :
  (forall x, traces (body x)) -> traces (for_each xs body).
Proof.
  intros Hb. induction xs as [|x xs IH]; [apply traces_ret|]. by apply traces_bind.
Qed.

Lemma traces_fold_each {X Acc} (xs : list X) (acc : Acc) body :
  (forall acc x, traces (body acc x)) -> traces (fold_each xs acc body).
Proof.
  intros Hb. revert acc. induction xs as [|x xs IH]; intros acc; [apply traces_ret|].
  by apply traces_bind.
Qed.

Lemma traces_deferred {A} (m : M S A) after :
  traces m -> (forall o, traces (after o)) -> traces (deferred m after).
Proof.
  intros Hm Ha s. apply wp_deferred. eapply wp_mono; [apply Hm|]. cbn beta. intros tr s' o HF.
  eapply wp_mono; [apply Ha|]. cbn beta. auto.
Qed.
End Traces.

Lemma traces_zoom `{Signature} {S V A} T (g : S -> V) (f : V -> S -> S) (m : M V A) :
  traces T m -> traces T (zoom g f m).
Proof.
  intros Hm s. unfold zoom, wp. rewrite always_bind. eapply always_mono; [|apply Hm].
  intros tr [t o]. simpl. by rewrite app_nil_r.
Qed.

Lemma traces_mono `{Signature} {S A} (T T' : list event -> Prop) (m : M S A) :
  (forall tr, T tr -> T' tr) -> traces T m -> traces T' m.
Proof. intros HT Hm s. eapply wp_mono; [apply Hm|]. auto. Qed.

(** ** The commands a program can issue

    [issues P m]: whatever it is answered and whatever the state, [m] issues
    only commands that satisfy [P]. [issues_go] applies the rules, with the
    lemmas of the database [issues] for the procedures. *)
Create HintDb issues.

Definition issued_in `{Signature} (P : Cmd -> bool) (tr : list event) : Prop :=
  Forall (fun e => P (projT1 e) = true) tr.

Section Issues.
Context `{Signature} {S : Type} (P : Cmd -> bool).

Lemma issued_in_app tr tr' : issued_in P tr -> issued_in P tr' -> issued_in P (tr ++ tr').
Proof. intros. by apply Forall_app. Qed.

Definition issues {A} (m : M S A) : Prop :=
  forall s, wp m s (fun tr _ _ => Forall (fun e => P (projT1 e) = true) tr).

Lemma issues_ret {A} (a : A) : issues (ret a).
Proof. apply (traces_ret (issued_in P)). constructor. Qed.

Lemma issues_throw {A} e : issues (@throw _ S A e).
Proof. apply (traces_throw (issued_in P)). constructor. Qed.

Lemma issues_panic {A} : issues (@panic _ S A).
Proof. apply (traces_panic (issued_in P)). constructor. Qed.

Lemma issues_get : issues get.
Proof. apply (traces_get (issued_in P)). constructor. Qed.

Lemma issues_modify f : issues (modify f).
Proof. apply (traces_modify (issued_in P)). constructor. Qed.

Lemma issues_call c : P c = true -> issues (call c).
Proof. intros Hc. apply (traces_call (issued_in P)). by repeat constructor. Qed.

Lemma issues_lift_res {A} (r : A + error) : issues (lift_res r).
Proof. apply (traces_lift_res (issued_in P)). constructor. Qed.

Lemma issues_lift_wrap {A} msg (r : A + error) : issues (lift_wrap msg r).
Proof. apply (traces_lift_wrap (issued_in P)). constructor. Qed.

Lemma issues_bind {A B} (m : M S A) (f : A -> M S B) :
  issues m -> (forall a, issues (f a)) -> issues (bind m f).
Proof. apply (traces_bind (issued_in P)), issued_in_app. Qed.

Lemma issues_try {A} (m : M S A) : issues m -> issues (try m).
Proof. apply (traces_try (issued_in P)). Qed.

Lemma issues_for_each {X} (xs : list X) body :
  (forall x, issues (body x)) -> issues (for_each xs body).
Proof. apply (traces_for_each (issued_in P)); [constructor|apply issued_in_app]. Qed.

Lemma issues_fold_each {X Acc} (xs : list X) (acc : Acc) body :
  (forall acc x, issues (body acc x)) -> issues (fold_each xs acc body).
Proof. apply (traces_fold_each (issued_in P)); [constructor|apply issued_in_app]. Qed.

Lemma issues_runs {A} (m : M S A) s tr s' o :
  issues m -> runs m s tr s' o -> Forall (fun e => P (projT1 e) = true) tr.
Proof. apply (traces_runs (issued_in P)). Qed.

Lemma issues_deferred {A} (m : M S A) after :
  issues m -> (forall o, issues (after o)) -> issues (deferred m after).
Proof. apply (traces_deferred (issued_in P)), issued_in_app. Qed.
End Issues.

Lemma issues_zoom `{Signature} {S T A} P (g : S -> T) (f : T -> S -> S) (m : M T A) :
  issues P m -> issues P (zoom g f m).
Proof. apply (traces_zoom (issued_in P)). Qed.

Lemma issues_lift_io `{Signature} {S A} P (m : IO A) : issues P m -> issues (S := S) P (lift_io m).
Proof. apply issues_zoom. Qed.

Lemma issues_mono `{Signature} {S A} (P Q : Cmd -> bool) (m : M S A) :
  (forall c, P c = true -> Q c = true) -> issues P m -> issues Q m.
Proof.
  intros HPQ. apply (traces_mono (issued_in P) (issued_in Q)). intros tr HF.
  eapply Forall_impl; [exact HF|]. auto.
Qed.

(** Several postconditions of the same execution. *)
Lemma wp_and `{Signature} {S A} (m : M S A) s Q1 Q2 :
  wp m s Q1 -> wp m s Q2 -> wp m s (fun tr s' o => Q1 tr s' o /\ Q2 tr s' o).
Proof. rewrite !wp_runs. intros H1 H2 tr s' o Hr. split; auto. Qed.

Lemma issues_for_each_ptr `{Signature} {X} P (body : M X unit) :
  issues P body -> issues (S := list X) P (for_each_ptr body).
Proof.
  intros Hb xs. unfold wp. induction xs as [|x xs IH]; simpl; [constructor|].
  rewrite always_bind. eapply always_mono; [|apply Hb]. intros tr [x' [u|e|]] HF; simpl in *;
    rewrite ?app_nil_r; try done.
  rewrite always_bind. eapply always_mono; [|exact IH]. intros tr2 rs HF2. simpl.
  rewrite app_nil_r. by apply Forall_app.
Qed.

Ltac issues_step :=
  first
    [ solve [auto with issues nocore] | apply issues_ret | apply issues_throw | apply issues_panic | apply issues_get
    | apply issues_modify | apply issues_lift_res | apply issues_lift_wrap
    | apply issues_call; reflexivity | apply issues_try | apply issues_bind
    | apply issues_for_each | apply issues_for_each_ptr | apply issues_fold_each | apply issues_lift_io | apply issues_zoom
    | apply issues_deferred
    | progress intros
    | match goal with
      | |- issues _ (match ?x with _ => _ end) => destruct x
      end ].

Ltac issues_go := repeat issues_step.

(** The same for traces: the property comes as the lemmas on the empty trace and
    on the concatenation, and as those of the database [traces] on calls and
    procedures. *)
Create HintDb traces.

Ltac traces_step Hnil Happ :=
  first
    [ solve [auto with traces nocore] | apply traces_try
    | apply traces_ret; exact Hnil | apply traces_throw; exact Hnil | apply traces_panic; exact Hnil
    | apply traces_get; exact Hnil | apply traces_modify; exact Hnil
    | apply traces_lift_res; exact Hnil | apply traces_lift_wrap; exact Hnil
    | apply (traces_bind _ Happ)
    | apply (traces_for_each _ Hnil Happ) | apply (traces_fold_each _ Hnil Happ)
    | apply (traces_deferred _ Happ)
    | progress intros
    | match goal with
      | |- traces _ (match ?x with _ => _ end) => destruct x
      end ].

Ltac traces_go Hnil Happ := repeat traces_step Hnil Happ.

(** ** What a program leaves alone

    [keeps f m]: whatever it is answered, [m] leaves a state on which [f] is as
    it was. [keeps_go] follows the code like [issues_go]. *)
Create HintDb keeps.

Section Keeps.
Context `{Signature} {S X : Type} (f : S -> X).

Definition keeps {A} (m : M S A) : Prop := forall s, wp m s (fun _ s' _ => f s' = f s).

Lemma keeps_ret {A} (a : A) : keeps (ret a).
Proof. intros s. by apply wp_ret. Qed.

Lemma keeps_throw {A} e : keeps (@throw _ S A e).
Proof. intros s. by apply wp_throw. Qed.

Lemma keeps_panic {A} : keeps (@panic _ S A).
Proof. intros s. by apply wp_panic. Qed.

Lemma keeps_get : keeps get.
Proof. intros s. by apply wp_get. Qed.

Lemma keeps_modify g : (forall s, f (g s) = f s) -> keeps (modify g).
Proof. intros Hg s. apply wp_modify, Hg. Qed.

Lemma keeps_call c : keeps (call c).
Proof. intros s. by apply wp_call. Qed.

Lemma keeps_lift_res {A} (r : A + error) : keeps (lift_res r).
Proof. destruct r; [apply keeps_ret|apply keeps_throw]. Qed.

Lemma keeps_lift_wrap {A} msg (r : A + error) : keeps (lift_wrap msg r).
Proof. destruct r; [apply keeps_ret|apply keeps_throw]. Qed.

Lemma keeps_bind {A B} (m : M S A) (g : A -> M S B) :
  keeps m -> (forall a, keeps (g a)) -> keeps (bind m g).
Proof.
  intros Hm Hg s. apply wp_bind. eapply wp_mono; [apply Hm|]. intros tr s' [a|e|] Hs; [|done..].
  eapply wp_mono; [apply Hg|]. intros tr' s'' o Hs'. congruence.
Qed.

Lemma keeps_try {A} (m : M S A) : keeps m -> keeps (try m).
Proof. intros Hm s. apply wp_try. eapply wp_mono; [apply Hm|]. by intros tr s' [a|e|]. Qed.

Lemma keeps_fold_each {Y Acc} (xs : list Y) (acc : Acc) body :
  (forall acc x, keeps (body acc x)) -> keeps (fold_each xs acc body).
Proof.
  intros Hb. revert acc. induction xs as [|x xs IH]; intros acc; [apply keeps_ret|].
  by apply keeps_bind.
Qed.

(** Code on a part of the state that [f] does not look at. *)
Lemma keeps_zoom {T A} (g : S -> T) (h : T -> S -> S) (m : M T A) :
  (forall s t, f (h t s) = f s) -> keeps (zoom g h m).
Proof.
  intros Hh s. unfold zoom, wp. rewrite always_bind. apply always_exec. intros tr [t o] _. apply Hh.
Qed.
End Keeps.

(** Code on a part of the state that keeps what [f] looks at. *)
Lemma keeps_zoom_in `{Signature} {S T X A} (f : S -> X) (f' : T -> X) (g : S -> T) (h : T -> S -> S)
    (m : M T A) :
  (forall s, f' (g s) = f s) -> (forall s t, f (h t s) = f' t) -> keeps f' m -> keeps f (zoom g h m).
Proof.
  intros Hg Hh Hm s. unfold zoom, wp. rewrite always_bind. eapply always_mono; [|apply (Hm (g s))].
  intros tr [t o] Ht. simpl in *. rewrite Hh, Ht. apply Hg.
Qed.

(** Code without an effect on the state keeps everything. *)
Lemma keeps_of_wp `{Signature} {S X A} (f : S -> X) (m : M S A) :
  (forall s, wp m s (fun _ s' _ => s' = s)) -> keeps f m.
Proof. intros Hm s. eapply wp_mono; [apply Hm|]. by intros tr s' o ->. Qed.

Lemma keeps_of `{Signature} {S A} (m : M S A) s :
  keeps (fun s => s) m -> wp m s (fun _ s' _ => s' = s).
Proof. auto. Qed.

Ltac keeps_step :=
  first
    [ solve [auto with keeps nocore] | apply keeps_ret | apply keeps_throw | apply keeps_panic
    | apply keeps_get | apply keeps_call | apply keeps_lift_res | apply keeps_lift_wrap
    | apply keeps_try | apply keeps_bind | apply keeps_fold_each
    | apply keeps_modify; reflexivity | apply keeps_zoom; reflexivity
    | progress intros
    | match goal with
      | |- keeps _ (match ?x with _ => _ end) => destruct x
      end ].

Ltac keeps_go := repeat keeps_step.
