(* ===== verification/Interleave.v ===== *)
(** Programs that run at the same time against one server, and rely-guarantee
    reasoning about them.

    Threads take turns call by call: a step is one call of one thread, which the
    server answers. A thread is [safe] when every call it makes keeps an
    invariant of the server and changes it only as the thread guarantees,
    provided the others change it only as the thread relies on. *)

From S2P Require Import Prelude GoStd Effects.

Section Interleave.
Context `{Signature} {W : Type}.

(** [serves w c r w']: in state [w] the server can answer [r] to the call [c],
    and is then in [w']. *)
Variable serves : W -> forall c : Cmd, Resp c -> W -> Prop.

Inductive step {A} : W * list (prog A) -> W * list (prog A) -> Prop :=
| step_call w ts i c k r w' :
    ts !! i = Some (Do c k) -> serves w c r w' ->
    step (w, ts) (w', <[i := k r]> ts).

(** ** Safe threads *)

Variable inv : W -> Prop.

(** Relying on [R], the thread guarantees [G], makes each call only where [C]
    allows it, and ends as [Q] says. *)
Fixpoint safe {A} (R G : W -> W -> Prop) (C : W -> Cmd -> Prop) (Q : W -> A -> Prop)
    (p : prog A) (w : W) : Prop :=
  match p with
  | Ret a => Q w a
  | Do c k => forall w1, inv w1 -> R w w1 ->
      C w1 c /\ forall r w2, serves w1 c r w2 -> inv w2 /\ G w1 w2 /\ safe R G C Q (k r) w2
  end.

Lemma safe_mono {A} (R R' G G' : W -> W -> Prop) (C C' : W -> Cmd -> Prop) (Q Q' : W -> A -> Prop) p w :
  (forall w w', R' w w' -> R w w') -> (forall w w', G w w' -> G' w w') ->
  (forall w c, C w c -> C' w c) -> (forall w a, Q w a -> Q' w a) ->
  safe R G C Q p w -> safe R' G' C' Q' p w.
Proof.
  intros HR HG HC HQ. revert w. induction p as [a|c k IH]; intros w; simpl; [auto|].
  intros Hs w1 Hi Hr. destruct (Hs w1 Hi (HR _ _ Hr)) as [Hc Hk]. split; [auto|].
  intros r w2 Hsv. destruct (Hk r w2 Hsv) as (? & ? & ?). auto.
Qed.

Lemma safe_bind {A B} (R G : W -> W -> Prop) C (Q : W -> A -> Prop) (Q' : W -> B -> Prop) p f w :
  safe R G C Q p w -> (forall w a, Q w a -> safe R G C Q' (f a) w) ->
  safe R G C Q' (prog_bind p f) w.
Proof.
  intros Hp Hf. revert w Hp. induction p as [a|c k IH]; intros w; simpl; [auto|].
  intros Hs w1 Hi Hr. destruct (Hs w1 Hi Hr) as [Hc Hk]. split; [done|].
  intros r w2 Hsv. destruct (Hk r w2 Hsv) as (? & ? & ?). auto.
Qed.

Lemma safe_weaken {A} (R G : W -> W -> Prop) C (Q Q' : W -> A -> Prop) p w :
  (forall w a, Q w a -> Q' w a) -> safe R G C Q p w -> safe R G C Q' p w.
Proof. by apply safe_mono. Qed.

(** Through the effect monad. *)
Section Monadic.
Context {S : Type} (R G : W -> W -> Prop) (C : W -> Cmd -> Prop).

Lemma safe_M_bind {A B} (m : M S A) (f : A -> M S B) (Q : W -> S * outcome B -> Prop) s w :
  safe R G C (fun w so => match so with
    | (s', Val a) => safe R G C Q (f a s') w
    | (s', Err e) => Q w (s', Err e)
    | (s', Panic) => Q w (s', Panic)
    end) (m s) w ->
  safe R G C Q (bind m f s) w.
Proof. intros Hm. eapply safe_bind; [exact Hm|]. by intros w' [s' [a|e|]]. Qed.

Lemma safe_lift_io {A} (m : IO A) (Q : W -> S * outcome A -> Prop) s w :
  safe R G C (fun w so => Q w (s, so.2)) (m tt) w -> safe R G C Q (lift_io m s) w.
Proof. intros Hm. by eapply safe_bind; [exact Hm|]. Qed.

Lemma safe_deferred {A} (m : M S A) after (Q : W -> S * outcome A -> Prop) s w :
  safe R G C (fun w so => safe R G C (fun w so' => Q w (so'.1,
      match so'.2 with Val o => o | Err e => Err e | Panic => Panic end)) (after so.2 so.1) w) (m s) w ->
  safe R G C Q (deferred m after s) w.
Proof.
  intros Hm. eapply safe_bind; [exact Hm|]. cbn beta. intros w' so Ha.
  eapply safe_bind; [exact Ha|]. by intros w'' [s'' [o|e|]].
Qed.
End Monadic.

(** What the others do leaves a thread safe. *)
Lemma safe_stable {A} (R G : W -> W -> Prop) `{!PreOrder R} C (Q : W -> A -> Prop) p w w' :
  (forall w w' a, R w w' -> Q w a -> Q w' a) ->
  R w w' -> safe R G C Q p w -> safe R G C Q p w'.
Proof.
  intros HQ Hr. destruct p as [a|c k]; simpl; [by apply HQ|].
  intros Hs w1 Hi Hr1. apply Hs; [done|]. by transitivity w'.
Qed.

(** ** Systems of safe threads *)

Section System.
Context {A : Type} (R G : nat -> W -> W -> Prop) (C : nat -> W -> Cmd -> Prop)
  (Q : nat -> W -> A -> Prop).

Definition threads_safe (s : W * list (prog A)) : Prop :=
  inv s.1 /\ forall i p, s.2 !! i = Some p -> safe (R i) (G i) (C i) (Q i) p s.1.

Hypothesis R_preorder : forall i, PreOrder (R i).
Hypothesis Q_stable : forall i w w' a, R i w w' -> Q i w a -> Q i w' a.
Hypothesis compatible : forall i j w w', i <> j -> inv w -> G i w w' -> R j w w'.

Lemma step_safe s s' : step s s' -> threads_safe s -> threads_safe s'.
Proof.
  intros [w ts i c k r w' Hi Hs] [Hinv Hts]. simpl in *.
  destruct (Hts i _ Hi w Hinv ltac:(reflexivity)) as [_ Hk].
  destruct (Hk r w' Hs) as (Hinv' & Hg & Hp). split; [done|]. simpl. intros j p Hj.
  destruct (decide (i = j)) as [<-|Hne].
  - rewrite list_lookup_insert_eq in Hj by (apply lookup_lt_is_Some_1; eauto). by simplify_eq.
  - rewrite list_lookup_insert_ne in Hj by done. eapply safe_stable; eauto.
Qed.

(** A call that a thread is about to make is one it may make. *)
Lemma next_call_allowed w ts i c k :
  threads_safe (w, ts) -> ts !! i = Some (Do c k) -> C i w c.
Proof.
  intros [Hinv Hts] Hi. by destruct (Hts i _ Hi w Hinv ltac:(reflexivity)).
Qed.
End System.
End Interleave.

(** A server that can answer more takes the same steps. *)
Lemma step_mono `{Signature} {W A} (S1 S2 : W -> forall c : Cmd, Resp c -> W -> Prop) (s s' : W * list (prog A)) :
  (forall w c r w', S1 w c r w' -> S2 w c r w') -> step S1 s s' -> step S2 s s'.
Proof. intros HS [w ts i c k r w' Hi Hs]. econstructor; [exact Hi|by apply HS]. Qed.
