(* ===== verification/ApiTypes.v ===== *)
(** The objects of the program: the API types of bootstrap/api/v1beta2 and
    controlplane/api/v1beta2 field by field, and the Kubernetes and Cluster
    API types as far as the program reads or writes their fields. *)

From S2P Require Import Prelude GoStd.

(** ** Kubernetes and Cluster API objects *)

(** A time in nanoseconds since Go's zero time; 0 is the zero time. *)
Abbreviation Time := Z.

Definition Time_IsZero (t : Time) : bool := (t =? 0)%Z.

(** [IsZero] of a pointer to a time: nil or the zero time. *)
Definition TimePtr_IsZero (t : option Time) : bool :=
  match t with None => true | Some t' => Time_IsZero t' end.

Record ObjectKey := mkKey { KeyNamespace : string; KeyName : string }.

(** [types.NamespacedName.String]. *)
Definition ObjectKey_String (k : ObjectKey) : string := KeyNamespace k +++ "/" +++ KeyName k.

#[export] Instance ObjectKey_eq_dec : EqDecision ObjectKey.
Proof. solve_decision. Defined.

#[export] Instance ObjectKey_countable : Countable ObjectKey.
Proof.
  refine (inj_countable' (fun k => (KeyNamespace k, KeyName k)) (fun p => mkKey p.1 p.2) _).
  by intros [].
Defined.

Record OwnerReference := mkOwnerReference {
  OwnerAPIVersion : string;
  OwnerKind : string;
  OwnerName : string;
  OwnerUID : string;
  OwnerController : option bool;
  OwnerBlockOwnerDeletion : option bool;
}.

#[export] Instance OwnerReference_eq_dec : EqDecision OwnerReference.
Proof. solve_decision. Defined.

(** An entry of [metadata.managedFields]; the raw bytes of [FieldsV1] are a
    string behind a pointer. *)
Record ManagedFieldsEntry := mkManagedFieldsEntry {
  Manager : string;
  Operation : string;
  EntryAPIVersion : string;
  EntryTime : option Time;
  FieldsType : string;
  FieldsV1 : option string;
}.

#[export] Instance ManagedFieldsEntry_eq_dec : EqDecision ManagedFieldsEntry.
Proof. solve_decision. Defined.

Record ObjectMeta := mkObjectMeta {
  Name : string;
  Namespace : string;
  UID : string;
  ResourceVersion : string;
  Labels : gomap string;
  Annotations : gomap string;
  OwnerReferences : list OwnerReference;
  Finalizers : list string;
  CreationTimestamp : Time;
  DeletionTimestamp : option Time;
  ManagedFields : list ManagedFieldsEntry;
}.

#[export] Instance ObjectMeta_eq_dec : EqDecision ObjectMeta.
Proof. solve_decision. Defined.

Definition emptyMeta : ObjectMeta := mkObjectMeta "" "" "" "" None None [] [] 0 None [].

Definition with_annotations (a : gomap string) (m : ObjectMeta) : ObjectMeta :=
  mkObjectMeta (Name m) (Namespace m) (UID m) (ResourceVersion m) (Labels m) a
    (OwnerReferences m) (Finalizers m) (CreationTimestamp m) (DeletionTimestamp m) (ManagedFields m).

Definition with_owner_references (o : list OwnerReference) (m : ObjectMeta) : ObjectMeta :=
  mkObjectMeta (Name m) (Namespace m) (UID m) (ResourceVersion m) (Labels m) (Annotations m)
    o (Finalizers m) (CreationTimestamp m) (DeletionTimestamp m) (ManagedFields m).

Definition with_finalizers (f : list string) (m : ObjectMeta) : ObjectMeta :=
  mkObjectMeta (Name m) (Namespace m) (UID m) (ResourceVersion m) (Labels m) (Annotations m)
    (OwnerReferences m) f (CreationTimestamp m) (DeletionTimestamp m) (ManagedFields m).

Definition with_managed_fields (f : list ManagedFieldsEntry) (m : ObjectMeta) : ObjectMeta :=
  mkObjectMeta (Name m) (Namespace m) (UID m) (ResourceVersion m) (Labels m) (Annotations m)
    (OwnerReferences m) (Finalizers m) (CreationTimestamp m) (DeletionTimestamp m) f.

(** [corev1.Secret] and [corev1.ConfigMap]; byte strings are Go strings. *)
Record Secret := mkSecret {
  SecretMeta : ObjectMeta;
  SecretData : gomap string;
  SecretType : string;
}.

Record ConfigMap := mkConfigMap {
  ConfigMapMeta : ObjectMeta;
  ConfigMapData : gomap string;
}.

#[export] Instance Secret_eq_dec : EqDecision Secret.
Proof. solve_decision. Defined.
#[export] Instance ConfigMap_eq_dec : EqDecision ConfigMap.
Proof. solve_decision. Defined.

(** [appsv1.Deployment], as far as it is read and changed: the volumes that are
    made of config maps, with the keys they show, and the containers. *)
Record KeyToPath := mkKeyToPath { ItemKey : string; ItemPath : string }.
Record ConfigMapVolume := mkConfigMapVolume { VolumeConfigMapName : string; VolumeItems : list KeyToPath }.
Record Volume := mkVolume { VolumeName : string; VolumeConfigMap : option ConfigMapVolume }.
Record Container := mkContainer { ContainerName : string; ContainerImage : string }.
Record Deployment := mkDeployment {
  DeploymentMeta : ObjectMeta;
  Volumes : list Volume;
  Containers : list Container;
}.

#[export] Instance KeyToPath_eq_dec : EqDecision KeyToPath.
Proof. solve_decision. Defined.
#[export] Instance ConfigMapVolume_eq_dec : EqDecision ConfigMapVolume.
Proof. solve_decision. Defined.
#[export] Instance Volume_eq_dec : EqDecision Volume.
Proof. solve_decision. Defined.
#[export] Instance Container_eq_dec : EqDecision Container.
Proof. solve_decision. Defined.
#[export] Instance Deployment_eq_dec : EqDecision Deployment.
Proof. solve_decision. Defined.

(** [corev1.ObjectReference] and CAPI's [ContractVersionedObjectReference]. *)
Record ObjectReference := mkObjectReference {
  RefKind : string;
  RefNamespace : string;
  RefName : string;
  RefUID : string;
  RefAPIVersion : string;
}.

Record ContractRef := mkContractRef {
  RefAPIGroup : string;
  ContractKind : string;
  ContractName : string;
}.

#[export] Instance ObjectReference_eq_dec : EqDecision ObjectReference.
Proof. solve_decision. Defined.
#[export] Instance ContractRef_eq_dec : EqDecision ContractRef.
Proof. solve_decision. Defined.

(** ** Conditions *)

Inductive ConditionStatus := ConditionTrue | ConditionFalse | ConditionUnknown.

#[export] Instance ConditionStatus_eq_dec : EqDecision ConditionStatus.
Proof. solve_decision. Defined.

(** [metav1.Condition]; the transition time, set by the conditions library, is
    not modelled. *)
Record Condition := mkCondition {
  CondType : string;
  CondStatus : ConditionStatus;
  CondReason : string;
  CondMessage : string;
}.

#[export] Instance Condition_eq_dec : EqDecision Condition.
Proof. solve_decision. Defined.

(** [clusterv1beta1.Condition], the older kind KCP and KThreesConfig carry. *)
Record V1Condition := mkV1Condition {
  V1Type : string;
  V1Status : ConditionStatus;
  V1Severity : string;
  V1Reason : string;
  V1Message : string;
}.

#[export] Instance V1Condition_eq_dec : EqDecision V1Condition.
Proof. solve_decision. Defined.

(** ** Machines and clusters of Cluster API *)

Record Machine := mkMachine {
  MachineMeta : ObjectMeta;
  ClusterName : string;
  MachineVersion : string;
  FailureDomain : string;
  BootstrapConfigRef : ContractRef;
  InfrastructureRef : ContractRef;
  NodeDrainTimeoutSeconds : option Z;
  NodeVolumeDetachTimeoutSeconds : option Z;
  NodeDeletionTimeoutSeconds : option Z;
  NodeRefName : string;
  MachineConditions : list Condition;
  MachineV1Conditions : list V1Condition;
}.

#[export] Instance Machine_eq_dec : EqDecision Machine.
Proof. solve_decision. Defined.

Definition MName (m : Machine) : string := Name (MachineMeta m).
Definition MAnnotations (m : Machine) : gomap string := Annotations (MachineMeta m).
Definition MDeletionTimestamp (m : Machine) : option Time := DeletionTimestamp (MachineMeta m).
Definition MCreationTimestamp (m : Machine) : Time := CreationTimestamp (MachineMeta m).

Definition with_conditions (cs : list Condition) (m : Machine) : Machine :=
  mkMachine (MachineMeta m) (ClusterName m) (MachineVersion m) (FailureDomain m)
    (BootstrapConfigRef m) (InfrastructureRef m) (NodeDrainTimeoutSeconds m)
    (NodeVolumeDetachTimeoutSeconds m) (NodeDeletionTimeoutSeconds m) (NodeRefName m)
    cs (MachineV1Conditions m).

Definition with_meta (om : ObjectMeta) (m : Machine) : Machine :=
  mkMachine om (ClusterName m) (MachineVersion m) (FailureDomain m)
    (BootstrapConfigRef m) (InfrastructureRef m) (NodeDrainTimeoutSeconds m)
    (NodeVolumeDetachTimeoutSeconds m) (NodeDeletionTimeoutSeconds m) (NodeRefName m)
    (MachineConditions m) (MachineV1Conditions m).

(** [collections.Machines], keyed by machine name. *)
Abbreviation Machines := (gmap string Machine).

Record ClusterFailureDomain := mkFailureDomain {
  FDName : string;
  FDControlPlane : option bool;
}.

Record Cluster := mkCluster {
  ClusterMeta : ObjectMeta;
  ControlPlaneEndpointHost : string;
  ControlPlaneEndpointPort : Z;
  ControlPlaneRef : ContractRef;
  InfrastructureProvisioned : option bool;
  ControlPlaneInitialized : option bool;
  FailureDomains : slice ClusterFailureDomain;
}.

Definition ClusterKey (c : Cluster) : ObjectKey :=
  mkKey (Namespace (ClusterMeta c)) (Name (ClusterMeta c)).

(** An object the program only knows by its metadata (infrastructure machines,
    templates): [unstructured.Unstructured]. *)
Record Unstructured := mkUnstructured {
  UAPIVersion : string;
  UKind : string;
  UMeta : ObjectMeta;
}.

(** A node of the workload cluster. *)
Record Taint := mkTaint { TaintKey : string; TaintEffect : string }.
Record NodeCondition := mkNodeCondition { NodeCondType : string; NodeCondStatus : string }.
Record Node := mkNode {
  NodeMeta : ObjectMeta;
  NodeTaints : list Taint;
  NodeConditions : list NodeCondition;
}.

(** ** bootstrap/api/v1beta2: KThreesConfig *)

Record KThreesServerConfig := mkKThreesServerConfig {
  KubeAPIServerArgs : slice string;
  KubeControllerManagerArgs : slice string;
  KubeSchedulerArgs : slice string;
  TLSSan : slice string;
  BindAddress : string;
  HTTPSListenPort : string;
  AdvertiseAddress : string;
  AdvertisePort : string;
  ClusterCidr : string;
  ServiceCidr : string;
  ClusterDNS : string;
  ClusterDomain : string;
  DisableComponents : slice string;
  DeprecatedDisableExternalCloudProvider : bool;
  DisableCloudController : option bool;
  CloudProviderName : option string;
  SystemDefaultRegistry : string;
  EtcdProxyImage : string;
}.

Record KThreesAgentConfig := mkKThreesAgentConfig {
  NodeLabels : slice string;
  AgentNodeTaints : slice string;
  PrivateRegistry : string;
  KubeletArgs : slice string;
  KubeProxyArgs : slice string;
  NodeName : string;
  AirGapped : bool;
  AirGappedInstallScriptPath : string;
}.

Record SecretFileSource := mkSecretFileSource { SourceName : string; SourceKey : string }.

Record FileSource := mkFileSource { FileSourceSecret : SecretFileSource }.

Record File := mkFile {
  FilePath : string;
  FileOwner : string;
  FilePermissions : string;
  FileEncoding : string;
  FileContent : string;
  FileContentFrom : option FileSource;
}.

Record KThreesConfigSpec := mkKThreesConfigSpec {
  Files : slice File;
  PreK3sCommands : slice string;
  PostK3sCommands : slice string;
  AgentConfig : KThreesAgentConfig;
  ServerConfig : KThreesServerConfig;
  ConfigVersion : string;
}.

Record KThreesConfigStatus := mkKThreesConfigStatus {
  ConfigReady : bool;
  BootstrapData : slice Byte.byte;
  DataSecretName : option string;
  ConfigFailureReason : string;
  ConfigFailureMessage : string;
  ConfigObservedGeneration : Z;
  ConfigConditions : list V1Condition;
}.

Record KThreesConfig := mkKThreesConfig {
  ConfigMeta : ObjectMeta;
  ConfigSpec : KThreesConfigSpec;
  ConfigStatus : KThreesConfigStatus;
}.

#[export] Instance KThreesServerConfig_eq_dec : EqDecision KThreesServerConfig.
Proof. solve_decision. Defined.
#[export] Instance KThreesAgentConfig_eq_dec : EqDecision KThreesAgentConfig.
Proof. solve_decision. Defined.
#[export] Instance SecretFileSource_eq_dec : EqDecision SecretFileSource.
Proof. solve_decision. Defined.
#[export] Instance FileSource_eq_dec : EqDecision FileSource.
Proof. solve_decision. Defined.
#[export] Instance File_eq_dec : EqDecision File.
Proof. solve_decision. Defined.
#[export] Instance KThreesConfigSpec_eq_dec : EqDecision KThreesConfigSpec.
Proof. solve_decision. Defined.

(** [KThreesConfigSpec.IsEtcdEmbedded]. *)
Definition IsEtcdEmbedded (c : KThreesConfigSpec) : bool := true.

Definition with_version (v : string) (c : KThreesConfigSpec) : KThreesConfigSpec :=
  mkKThreesConfigSpec (Files c) (PreK3sCommands c) (PostK3sCommands c)
    (AgentConfig c) (ServerConfig c) v.

Definition with_spec (s : KThreesConfigSpec) (c : KThreesConfig) : KThreesConfig :=
  mkKThreesConfig (ConfigMeta c) s (ConfigStatus c).

Definition emptyConfigStatus : KThreesConfigStatus :=
  mkKThreesConfigStatus false None None "" "" 0 [].

(** ** controlplane/api/v1beta2: KThreesControlPlane *)

Record KThreesControlPlaneMachineTemplate := mkMachineTemplate {
  TemplateLabels : gomap string;
  TemplateAnnotations : gomap string;
  TemplateInfrastructureRef : ObjectReference;
  NodeDrainTimeout : option Z;
  NodeVolumeDetachTimeout : option Z;
  NodeDeletionTimeout : option Z;
}.

Record RemediationStrategy := mkRemediationStrategy {
  MaxRetry : option Z;
  RetryPeriod : Z;
  MinHealthyPeriod : option Z;
}.

Record KThreesControlPlaneSpec := mkKCPSpec {
  Replicas : option Z;
  Version : string;
  KCPConfigSpec : KThreesConfigSpec;
  RolloutAfter : option Time;
  MachineTemplate : KThreesControlPlaneMachineTemplate;
  KCPRemediationStrategy : option RemediationStrategy;
}.

Record LastRemediationStatus := mkLastRemediationStatus {
  LastMachine : string;
  LastTimestamp : Time;
  LastRetryCount : Z;
}.

Record KThreesControlPlaneStatus := mkKCPStatus {
  Selector : string;
  StatusReplicas : Z;
  StatusVersion : option string;
  UpdatedReplicas : Z;
  ReadyReplicas : Z;
  UnavailableReplicas : Z;
  Initialized : bool;
  Ready : bool;
  FailureReason : string;
  FailureMessage : option string;
  ObservedGeneration : Z;
  KCPConditions : list V1Condition;
  LastRemediation : option LastRemediationStatus;
}.

Record KThreesControlPlane := mkKCP {
  KCPMeta : ObjectMeta;
  KCPSpec : KThreesControlPlaneSpec;
  KCPStatus : KThreesControlPlaneStatus;
}.

Definition KThreesControlPlaneFinalizer : string := "kthrees.controlplane.cluster.x-k8s.io".
Definition KThreesServerConfigurationAnnotation : string :=
  "controlplane.cluster.x-k8s.io/kthrees-server-configuration".
Definition RemediationInProgressAnnotation : string :=
  "controlplane.cluster.x-k8s.io/remediation-in-progress".
Definition RemediationForAnnotation : string := "controlplane.cluster.x-k8s.io/remediation-for".
Definition DefaultMinHealthyPeriod : Z := 1 * Hour.

Definition KCPAnnotations (k : KThreesControlPlane) : gomap string := Annotations (KCPMeta k).

Definition with_kcp_meta (om : ObjectMeta) (k : KThreesControlPlane) : KThreesControlPlane :=
  mkKCP om (KCPSpec k) (KCPStatus k).

Definition with_kcp_status (s : KThreesControlPlaneStatus) (k : KThreesControlPlane)
    : KThreesControlPlane :=
  mkKCP (KCPMeta k) (KCPSpec k) s.

Definition with_kcp_conditions (cs : list V1Condition) (k : KThreesControlPlane)
    : KThreesControlPlane :=
  let s := KCPStatus k in
  with_kcp_status (mkKCPStatus (Selector s) (StatusReplicas s) (StatusVersion s)
    (UpdatedReplicas s) (ReadyReplicas s) (UnavailableReplicas s) (Initialized s) (Ready s)
    (FailureReason s) (FailureMessage s) (ObservedGeneration s) cs (LastRemediation s)) k.

Definition emptyKCPStatus : KThreesControlPlaneStatus :=
  mkKCPStatus "" 0 None 0 0 0 false false "" None 0 [] None.

(** Condition types (controlplane/api/v1beta2/condition_consts.go). *)
Definition MachinesReadyCondition : string := "MachinesReady".
Definition CertificatesAvailableCondition : string := "CertificatesAvailable".
Definition AvailableCondition : string := "Available".
Definition MachinesSpecUpToDateCondition : string := "MachinesSpecUpToDate".
Definition ResizedCondition : string := "Resized".
Definition ControlPlaneComponentsHealthyCondition : string := "ControlPlaneComponentsHealthy".
Definition MachineAgentHealthyCondition : string := "AgentHealthy".
Definition EtcdClusterHealthyCondition : string := "EtcdClusterHealthyCondition".
Definition MachineEtcdMemberHealthyCondition : string := "EtcdMemberHealthy".
Definition TokenAvailableCondition : string := "TokenAvailable".

(** Labels, annotations and conditions that Cluster API defines. *)
Definition ClusterNameLabel : string := "cluster.x-k8s.io/cluster-name".
Definition MachineControlPlaneLabel : string := "cluster.x-k8s.io/control-plane".
Definition MachineControlPlaneNameLabel : string := "cluster.x-k8s.io/control-plane-name".
Definition DeleteMachineAnnotation : string := "cluster.x-k8s.io/delete-machine".
Definition TemplateClonedFromNameAnnotation : string := "cluster.x-k8s.io/cloned-from-name".
Definition TemplateClonedFromGroupKindAnnotation : string :=
  "cluster.x-k8s.io/cloned-from-groupkind".
Definition PreTerminateDeleteHookAnnotationPrefix : string :=
  "pre-terminate.delete.hook.machine.cluster.x-k8s.io".
Definition MachineHealthCheckSucceededCondition : string := "HealthCheckSucceeded".
Definition MachineOwnerRemediatedCondition : string := "OwnerRemediated".
Definition ClusterSecretType : string := "cluster.x-k8s.io/secret".

(** ** Decidable equality *)

#[export] Instance byte_eq_dec : EqDecision Byte.byte := Byte.byte_eq_dec.
#[export] Instance Taint_eq_dec : EqDecision Taint.
Proof. solve_decision. Defined.
#[export] Instance NodeCondition_eq_dec : EqDecision NodeCondition.
Proof. solve_decision. Defined.
#[export] Instance Node_eq_dec : EqDecision Node.
Proof. solve_decision. Defined.
#[export] Instance Unstructured_eq_dec : EqDecision Unstructured.
Proof. solve_decision. Defined.
#[export] Instance KThreesConfigStatus_eq_dec : EqDecision KThreesConfigStatus.
Proof. solve_decision. Defined.
#[export] Instance KThreesConfig_eq_dec : EqDecision KThreesConfig.
Proof. solve_decision. Defined.
#[export] Instance MachineTemplate_eq_dec : EqDecision KThreesControlPlaneMachineTemplate.
Proof. solve_decision. Defined.
#[export] Instance RemediationStrategy_eq_dec : EqDecision RemediationStrategy.
Proof. solve_decision. Defined.
#[export] Instance KThreesControlPlaneSpec_eq_dec : EqDecision KThreesControlPlaneSpec.
Proof. solve_decision. Defined.
#[export] Instance LastRemediationStatus_eq_dec : EqDecision LastRemediationStatus.
Proof. solve_decision. Defined.
#[export] Instance KThreesControlPlaneStatus_eq_dec : EqDecision KThreesControlPlaneStatus.
Proof. solve_decision. Defined.
#[export] Instance KThreesControlPlane_eq_dec : EqDecision KThreesControlPlane.
Proof. solve_decision. Defined.
