(* ===== verification/Api.v ===== *)
(** The services the program calls, one command per kind of call.

    A management-cluster command is a call of the controller-runtime client,
    of the patch helpers or of Cluster API's [external] package; a workload
    command carries the key of the workload cluster it goes to; an etcd command
    carries the connection it uses. What a service answers is not constrained:
    the typed answer of [resp] is all that is known of it. *)

From Stdlib Require Import Eqdep_dec.
From S2P Require Import Prelude GoStd Effects ApiTypes.

(** ** What etcd and the workload clusters answer *)

(** A member as [etcdserverpb.Member] has it, the answer of [MemberList] and
    an alarm of [AlarmList]. *)
Record PbMember := mkPbMember {
  PbID : Z;
  PbName : string;
  PbPeerURLs : list string;
  PbClientURLs : list string;
  PbIsLearner : bool;
}.

Record MemberListResponse := mkMemberListResponse {
  HeaderClusterId : Z;
  ResponseMembers : list PbMember;
}.

Record PbAlarm := mkPbAlarm { PbAlarmMemberID : Z; PbAlarmType : Z }.

Record StatusResponse := mkStatusResponse {
  StatusLeader : Z;
  StatusErrors : list string;
}.

(** The fields of a pod that the program reads. *)
Record Pod := mkPod { PodName : string; PodNodeName : string }.

(** A connection to an etcd server. *)
Definition conn : Type := nat.

(** What [external.CreateFromTemplate] is given. *)
Record CreateFromTemplateInput := mkCreateFromTemplateInput {
  TemplateRef : ObjectReference;
  TemplateNamespace : string;
  TemplateOwnerRef : OwnerReference;
  TemplateClusterName : string;
  TemplateObjectLabels : gomap string;
}.

(** The fields of an [x509.Certificate] used as a template. Keys and
    certificates are opaque strings. *)
Record CertTemplate := mkCertTemplate {
  SerialNumber : Z;
  CommonName : string;
  Organization : list string;
  NotBefore : Time;
  NotAfter : Time;
  KeyUsage : Z;
  ExtKeyUsageClientAuth : bool;
  MaxPathLenZero : bool;
  BasicConstraintsValid : bool;
  MaxPathLen : Z;
  IsCA : bool;
}.

(** The owner of a KThreesConfig, as [bsutil.ConfigOwner] answers for it; a
    machine pool has no machine to convert to. *)
Record ConfigOwner := mkConfigOwner {
  ConfigOwnerKind : string;
  ConfigOwnerNamespace : string;
  ConfigOwnerClusterName : string;
  OwnerDataSecretName : option string;
  IsControlPlaneOwner : bool;
  OwnerMachine : Machine + error;
}.

(** ** Commands *)

Inductive cmd :=
(* the process: clock, random numbers, names, events *)
| Now
| GenerateName (base : string)
| RandRead (n : nat)
| Eventf (eventtype reason : string)
(* secrets and config maps *)
| GetSecret (key : ObjectKey)
| CreateSecret (s : Secret)
| UpdateSecret (s : Secret)
| GetConfigMap (key : ObjectKey)
| CreateConfigMap (c : ConfigMap)
| DeleteConfigMap (key : ObjectKey)
(* machines *)
| GetMachine (key : ObjectKey)
| ListMachines (uncached : bool) (cluster : ObjectKey)
| NewPatchHelper (m : Machine)
| PatchMachine (before after : Machine) (owned : list string)
| DeleteMachine (m : Machine)
| ApplyMachine (m : Machine)
| MergePatchMachine (base m : Machine)
(* the cache of server-side apply requests *)
| CacheHas (key : string)
| CacheAdd (key : string)
(* clusters, control planes, external objects, configs *)
| GetClusterFromMetadata (om : ObjectMeta)
| GetCRDMetadata (name : string)
| GetOwnerCluster (om : ObjectMeta)
| GetKCP (key : ObjectKey)
| NewKCPPatchHelper (k : KThreesControlPlane)
| PatchKCP (before after : KThreesControlPlane) (owned : list string)
| GetExternal (ref : ContractRef) (namespace : string)
| GetReferenced (ref : ObjectReference)
| NewExternalPatchHelper (obj : Unstructured)
| PatchExternal (before after : Unstructured)
| ApplyExternal (obj : Unstructured)
| MergePatchExternal (base obj : Unstructured)
| DeleteExternal (obj : Unstructured)
| CreateFromTemplate (input : CreateFromTemplateInput)
| GetKThreesConfig (key : ObjectKey)
| CreateKThreesConfig (c : KThreesConfig)
| MergePatchConfig (base c : KThreesConfig)
| GetConfigOwner (c : KThreesConfig)
| GetClusterByName (namespace name : string)
| NewConfigPatchHelper (c : KThreesConfig)
| PatchConfig (before after : KThreesConfig) (observed : bool)
(* certificates *)
| NewPrivateKey
| CreateCertificate (tmpl : CertTemplate) (parent : CertTemplate + string) (key signer : string)
| ParseCertificate (der : string)
| NewSignedCert (commonName : string) (organization : list string) (key caCert caKey : string)
(* a workload cluster *)
| RESTConfig (cluster : ObjectKey)
| NewClient (cluster : ObjectKey)
| ListNodes (cluster : ObjectKey)
| GetNode (cluster : ObjectKey) (key : ObjectKey)
| NewNodePatchHelper (cluster : ObjectKey) (n : Node)
| PatchNode (cluster : ObjectKey) (before after : Node)
| GetWorkloadSecret (cluster : ObjectKey) (key : ObjectKey)
| NewClientset (cluster : ObjectKey)
| ListProxyPods (cluster : ObjectKey)
| UpdateWorkloadConfigMap (cluster : ObjectKey) (c : ConfigMap)
| NewDeploymentPatchHelper (cluster : ObjectKey) (d : Deployment)
| PatchDeployment (cluster : ObjectKey) (before after : Deployment)
(* etcd *)
| NewDialer (cluster : ObjectKey)
| EtcdNew (endpoint : string)
| EtcdEndpoints (c : conn)
| EtcdStatus (c : conn) (endpoint : string)
| EtcdMemberList (c : conn)
| EtcdAlarmList (c : conn)
| EtcdMoveLeader (c : conn) (id : Z)
| EtcdMemberRemove (c : conn) (id : Z)
| EtcdMemberUpdate (c : conn) (id : Z) (peerURLs : list string)
| EtcdClose (c : conn).

(** [nil] or an error. *)
Abbreviation errorOr A := (A + error)%type.

Definition resp (c : cmd) : Type :=
  match c with
  | Now => Time
  | GenerateName _ => string
  | RandRead _ => errorOr (list Byte.byte)
  | Eventf _ _ => unit
  | GetSecret _ => errorOr Secret
  | CreateSecret _ | UpdateSecret _ => errorOr unit
  | GetConfigMap _ => errorOr ConfigMap
  | CreateConfigMap _ | DeleteConfigMap _ => errorOr unit
  | GetMachine _ => errorOr Machine
  | ListMachines _ _ => errorOr (list Machine)
  | NewPatchHelper _ => errorOr unit
  | PatchMachine _ _ _ => errorOr unit
  | DeleteMachine _ => errorOr unit
  | ApplyMachine _ | MergePatchMachine _ _ => errorOr Machine
  | CacheHas _ => bool
  | CacheAdd _ => unit
  | GetClusterFromMetadata _ => errorOr Cluster
  | GetCRDMetadata _ => errorOr ObjectMeta
  | GetOwnerCluster _ => errorOr (option Cluster)
  | GetKCP _ => errorOr KThreesControlPlane
  | NewKCPPatchHelper _ => errorOr unit
  | PatchKCP _ _ _ => errorOr unit
  | GetExternal _ _ => errorOr Unstructured
  | GetReferenced _ => errorOr Unstructured
  | NewExternalPatchHelper _ | PatchExternal _ _ => errorOr unit
  | ApplyExternal _ | MergePatchExternal _ _ => errorOr Unstructured
  | DeleteExternal _ => errorOr unit
  | CreateFromTemplate _ => errorOr ContractRef
  | GetKThreesConfig _ => errorOr KThreesConfig
  | CreateKThreesConfig _ => errorOr unit
  | MergePatchConfig _ _ => errorOr KThreesConfig
  | GetConfigOwner _ => errorOr (option ConfigOwner)
  | GetClusterByName _ _ => errorOr Cluster
  | NewConfigPatchHelper _ | PatchConfig _ _ _ => errorOr unit
  | NewPrivateKey => errorOr string
  | CreateCertificate _ _ _ _ => errorOr string
  | ParseCertificate _ => errorOr string
  | NewSignedCert _ _ _ _ _ => errorOr string
  | RESTConfig _ | NewClient _ => errorOr unit
  | ListNodes _ => errorOr (list Node)
  | GetNode _ _ => errorOr Node
  | NewNodePatchHelper _ _ | PatchNode _ _ _ => errorOr unit
  | GetWorkloadSecret _ _ => errorOr Secret
  | NewClientset _ => errorOr unit
  | ListProxyPods _ => errorOr (list Pod)
  | UpdateWorkloadConfigMap _ _ | NewDeploymentPatchHelper _ _ | PatchDeployment _ _ _ => errorOr unit
  | NewDialer _ => errorOr unit
  | EtcdNew _ => errorOr conn
  | EtcdEndpoints _ => list string
  | EtcdStatus _ _ => errorOr StatusResponse
  | EtcdMemberList _ => errorOr MemberListResponse
  | EtcdAlarmList _ => errorOr (list PbAlarm)
  | EtcdMoveLeader _ _ => errorOr unit
  | EtcdMemberRemove _ _ => errorOr unit
  | EtcdMemberUpdate _ _ _ => errorOr (list PbMember)
  | EtcdClose _ => option error
  end.

#[export] Instance conn_eq_dec : EqDecision conn := Nat.eq_dec.
#[export] Instance CreateFromTemplateInput_eq_dec : EqDecision CreateFromTemplateInput.
Proof. solve_decision. Defined.
#[export] Instance CertTemplate_eq_dec : EqDecision CertTemplate.
Proof. solve_decision. Defined.
#[export] Instance cmd_eq_dec : EqDecision cmd.
Proof. solve_decision. Defined.

#[export] Instance services : Signature := { Cmd := cmd; Resp := resp }.

(** ** Classes of events *)

(** The command of an event. *)
Definition ev_cmd (e : event) : cmd := projT1 e.

(** How many events of a trace issue a command that satisfies a test. *)
Definition issued (p : cmd -> bool) (tr : list event) : nat := count (fun e => p (ev_cmd e)) tr.

Definition is_delete_machine (c : cmd) : bool :=
  match c with DeleteMachine _ => true | _ => false end.

Definition is_apply_machine (c : cmd) : bool :=
  match c with ApplyMachine _ => true | _ => false end.

Definition is_move_leader (c : cmd) : bool :=
  match c with EtcdMoveLeader _ _ => true | _ => false end.

(** The commands that change the management cluster. *)
Definition is_mgmt_write (c : cmd) : bool :=
  match c with
  | CreateSecret _ | UpdateSecret _ | CreateConfigMap _ | DeleteConfigMap _
  | PatchMachine _ _ _ | DeleteMachine _ | ApplyMachine _ | MergePatchMachine _ _ | PatchKCP _ _ _
  | PatchExternal _ _ | ApplyExternal _ | MergePatchExternal _ _ | DeleteExternal _
  | CreateFromTemplate _ | CreateKThreesConfig _ | MergePatchConfig _ _ | PatchConfig _ _ _ => true
  | _ => false
  end.

Definition not_mgmt_write (c : cmd) : bool := negb (is_mgmt_write c).

(** [tr] leaves the management cluster as it is. *)
Definition mgmt_quiet (tr : list event) : Prop :=
  Forall (fun e => not_mgmt_write (ev_cmd e) = true) tr.

Lemma issued_nil p : issued p [] = 0.
Proof. done. Qed.

Lemma issued_cons p e tr : issued p (e :: tr) = (if p (ev_cmd e) then 1 else 0) + issued p tr.
Proof. unfold issued. by rewrite count_cons. Qed.

Lemma issued_app p tr1 tr2 : issued p (tr1 ++ tr2) = issued p tr1 + issued p tr2.
Proof.
  induction tr1 as [|e tr1 IH]; simpl; [done|].
  rewrite !issued_cons, IH. lia.
Qed.

Lemma issued_0 p tr : issued p tr = 0 <-> (forall e, e ∈ tr -> p (ev_cmd e) = false).
Proof.
  induction tr as [|e tr IH].
  - split; [intros _ e He; by apply elem_of_nil in He|done].
  - rewrite issued_cons. destruct (p (ev_cmd e)) eqn:E.
    + split; [lia|]. intros HN. specialize (HN e ltac:(by left)). congruence.
    + rewrite Nat.add_0_l, IH. split.
      * intros HN e' [->|He']%elem_of_cons; auto.
      * intros HN e' He'. apply HN. by right.
Qed.

Lemma mgmt_quiet_issued p tr :
  (forall c, p c = true -> is_mgmt_write c = true) -> mgmt_quiet tr -> issued p tr = 0.
Proof.
  intros Hp Hq. apply issued_0. intros e He. unfold mgmt_quiet in Hq. rewrite Forall_forall in Hq.
  specialize (Hq e He). unfold not_mgmt_write in Hq. destruct (p (ev_cmd e)) eqn:E; [|done].
  by rewrite (Hp _ E) in Hq.
Qed.

Lemma mgmt_quiet_not_in p tr e :
  (forall c, p c = true -> is_mgmt_write c = true) -> mgmt_quiet tr -> e ∈ tr -> p (ev_cmd e) = false.
Proof. intros Hp Hq He. by eapply issued_0; [apply (mgmt_quiet_issued p tr Hp Hq)|]. Qed.

(** [at_most p n m]: whatever it is answered, [m] issues at most [n] commands
    that satisfy [p]. *)
Definition at_most {S A} (p : cmd -> bool) (n : nat) (m : M S A) : Prop :=
  forall s, wp m s (fun tr _ _ => (issued p tr <= n)%nat).

Lemma at_most_quiet {S A} p (m : M S A) : issues (fun c => negb (p c)) m -> at_most p 0 m.
Proof.
  intros Hm s. eapply wp_mono; [apply Hm|]. cbv beta. intros tr _ _ HF.
  enough (issued p tr = 0) by lia. apply issued_0. intros e He. rewrite Forall_forall in HF.
  by apply negb_true_iff, HF.
Qed.

Lemma at_most_0 {S A} p (m : M S A) s :
  issues (fun c => negb (p c)) m -> wp m s (fun tr _ _ => issued p tr = 0).
Proof.
  intros Hm. eapply wp_mono; [by apply (at_most_quiet p)|]. cbv beta. intros. lia.
Qed.

Lemma at_most_le {S A} p n k (m : M S A) : (n <= k)%nat -> at_most p n m -> at_most p k m.
Proof. intros Hle Hm s. eapply wp_mono; [apply Hm|]. cbv beta. intros. lia. Qed.

Lemma at_most_bind {S A B} p n k (m : M S A) (f : A -> M S B) :
  at_most p n m -> (forall a, at_most p k (f a)) -> at_most p (n + k) (bind m f).
Proof.
  intros Hm Hf s. apply wp_bind. eapply wp_mono; [apply Hm|]. cbv beta.
  intros tr s' [a|e|] Ht; [|lia..].
  eapply wp_mono; [apply Hf|]. cbv beta. intros tr' s'' o Ht'. rewrite issued_app. lia.
Qed.

Lemma at_most_try {S A} p n (m : M S A) : at_most p n m -> at_most p n (try m).
Proof. intros Hm s. apply wp_try. eapply wp_mono; [apply Hm|]. by intros tr s' [a|e|]. Qed.

Lemma at_most_zoom {S T A} p n (g : S -> T) (h : T -> S -> S) (m : M T A) :
  at_most p n m -> at_most p n (zoom g h m).
Proof.
  intros Hm s. unfold zoom, wp. rewrite always_bind. eapply always_mono; [|apply Hm].
  intros tr [t o]. simpl. by rewrite app_nil_r.
Qed.

Lemma mgmt_quiet_app tr1 tr2 : mgmt_quiet tr1 -> mgmt_quiet tr2 -> mgmt_quiet (tr1 ++ tr2).
Proof. intros. by apply Forall_app. Qed.

Lemma mgmt_quiet_nil : mgmt_quiet [].
Proof. constructor. Qed.

(** Two events of the same command are equal when the answers are; commands
    have decidable equality, so no axiom is needed. *)
Lemma ev_inj (c : cmd) (r r' : resp c) : ev (c : Cmd) r = ev (c : Cmd) r' -> r = r'.
Proof. intros E. apply inj_pair2_eq_dec in E; [done|]. exact (decide_rel (=@{cmd})). Qed.

Lemma ev_DeleteMachine_inj m m' r r' :
  ev (DeleteMachine m) r = ev (DeleteMachine m') r' -> m = m' /\ r = r'.
Proof.
  intros E. apply (f_equal ev_cmd) in E as E1. injection E1 as <-. by apply ev_inj in E.
Qed.

(** Case analysis on where in an explicit trace an event is. *)
Ltac ev_eq H :=
  let E := fresh in
  pose proof (f_equal ev_cmd H) as E; simpl in E;
  first [ discriminate E | injection E; intros; clear E; subst; apply ev_inj in H ].

Ltac ev_in H :=
  repeat (rewrite ?elem_of_app, ?elem_of_cons, ?elem_of_nil in H);
  repeat match type of H with _ \/ _ => destruct H as [H|H] end;
  try contradiction; try (ev_eq H).

(** Counts the commands of a concrete trace. *)
Ltac count_events := rewrite ?issued_app, ?issued_cons, ?issued_nil in *; simpl in *.

(** ** A concrete environment

    Everything that is created, changed or deleted succeeds, nothing that is
    looked up exists. The examples override it where they need more. *)
Definition not_found : error := EStatus NotFound.

Definition default_resp (c : cmd) : resp c :=
  match c with
  | Now => 0%Z
  | GenerateName base => base +++ "x"
  | RandRead n => inl (repeat Byte.x00 n)
  | Eventf _ _ => tt
  | GetSecret _ => inr not_found
  | CreateSecret _ | UpdateSecret _ => inl tt
  | GetConfigMap _ => inr not_found
  | CreateConfigMap _ | DeleteConfigMap _ => inl tt
  | GetMachine _ => inr not_found
  | ListMachines _ _ => inl []
  | NewPatchHelper _ => inl tt
  | PatchMachine _ _ _ => inl tt
  | DeleteMachine _ => inl tt
  | ApplyMachine m | MergePatchMachine _ m => inl m
  | CacheHas _ => false
  | CacheAdd _ => tt
  | GetClusterFromMetadata _ => inr not_found
  | GetCRDMetadata _ => inr not_found
  | GetOwnerCluster _ => inl None
  | GetKCP _ => inr not_found
  | NewKCPPatchHelper _ => inl tt
  | PatchKCP _ _ _ => inl tt
  | GetExternal _ _ => inr not_found
  | GetReferenced _ => inr not_found
  | NewExternalPatchHelper _ | PatchExternal _ _ => inl tt
  | ApplyExternal u | MergePatchExternal _ u => inl u
  | DeleteExternal _ => inl tt
  | CreateFromTemplate _ => inl (mkContractRef "" "" "infra")
  | GetKThreesConfig _ => inr not_found
  | CreateKThreesConfig _ => inl tt
  | MergePatchConfig _ c => inl c
  | GetConfigOwner _ => inl None
  | GetClusterByName _ _ => inr not_found
  | NewConfigPatchHelper _ | PatchConfig _ _ _ => inl tt
  | NewPrivateKey => inl "key"
  | CreateCertificate _ _ _ _ => inl "der"
  | ParseCertificate der => inl der
  | NewSignedCert _ _ _ _ _ => inl "signed"
  | RESTConfig _ | NewClient _ => inl tt
  | ListNodes _ => inl []
  | GetNode _ _ => inr not_found
  | NewNodePatchHelper _ _ | PatchNode _ _ _ => inl tt
  | GetWorkloadSecret _ _ => inr not_found
  | NewClientset _ => inl tt
  | ListProxyPods _ => inl []
  | UpdateWorkloadConfigMap _ _ | NewDeploymentPatchHelper _ _ | PatchDeployment _ _ _ => inl tt
  | NewDialer _ => inl tt
  | EtcdNew _ => inl (0 : nat)
  | EtcdEndpoints _ => ["endpoint"]
  | EtcdStatus _ _ => inl (mkStatusResponse 0 [])
  | EtcdMemberList _ => inl (mkMemberListResponse 0 [])
  | EtcdAlarmList _ => inl []
  | EtcdMoveLeader _ _ => inl tt
  | EtcdMemberRemove _ _ => inl tt
  | EtcdMemberUpdate _ _ _ => inl []
  | EtcdClose _ => None
  end.

Definition default_handler : handler unit := fun c w => (default_resp c, w).

(** Objects for the examples. *)
Definition named_machine (n : string) : Machine :=
  mkMachine (mkObjectMeta n "ns" "" "" None None [] [] 0 None []) "c" "" ""
    (mkContractRef "" "" "") (mkContractRef "" "" "") None None None "" [] [].

Definition a_cluster : Cluster :=
  mkCluster (mkObjectMeta "c" "ns" "" "" None None [] [] 0 None []) "" 0
    (mkContractRef "" "" "") None None None.

Definition a_server_config : KThreesServerConfig :=
  mkKThreesServerConfig None None None None "" "" "" "" "" "" "" "" None false None None "" "".

Definition an_agent_config : KThreesAgentConfig :=
  mkKThreesAgentConfig None None "" None None "" false "".

Definition a_config_spec : KThreesConfigSpec :=
  mkKThreesConfigSpec None None None an_agent_config a_server_config "".

(** A control plane "k" with the given replicas, annotations and strategy. *)
Definition a_kcp (replicas : Z) (annotations : gomap string) (rs : option RemediationStrategy)
    (initialized : bool) : KThreesControlPlane :=
  mkKCP (mkObjectMeta "k" "ns" "kuid" "" None annotations [] [] 0 None [])
    (mkKCPSpec (Some replicas) "v1" a_config_spec None
       (mkMachineTemplate None None (mkObjectReference "T" "ns" "t" "" "g/v1") None None None) rs)
    (mkKCPStatus "" 0 None 0 0 0 initialized false "" None 0 [] None).

(** A run of a monadic program in an environment. *)
Lemma runs_of_run {S A} (h : handler unit) (m : M S A) s tr s' o :
  (run h (m s) tt).1 = ((s', o), tr) -> runs m s tr s' o.
Proof.
  destruct (run h (m s) tt) as [[so tr'] w] eqn:E. simpl. intros [= -> ->].
  by eapply run_exec.
Qed.

(** ** What has been done before each call *)

Section Ordered.
Context (G : list event -> event -> Prop).

(** Each event of a trace is justified by what came before it. *)
Fixpoint ordered (past tr : list event) : Prop :=
  match tr with
  | [] => True
  | e :: tr' => G past e /\ ordered (past ++ [e]) tr'
  end.

Lemma ordered_app past tr1 tr2 :
  ordered past (tr1 ++ tr2) <-> ordered past tr1 /\ ordered (past ++ tr1) tr2.
Proof.
  revert past. induction tr1 as [|e tr1 IH]; intros past; simpl; [rewrite app_nil_r; tauto|].
  rewrite IH, <- app_assoc. simpl. tauto.
Qed.

Lemma ordered_forall past tr :
  (forall past' e, e ∈ tr -> G (past ++ past') e) -> ordered past tr.
Proof.
  revert past. induction tr as [|e tr IH]; intros past HG; simpl; [done|]. split.
  - rewrite <- (app_nil_r past). apply HG. by left.
  - apply IH. intros past' e' He'. rewrite <- app_assoc. apply HG. by right.
Qed.

(** The call that a program makes next is justified, and so are the others when
    it is answered. *)
Lemma ordered_call {A} past (c : cmd) (k : resp c -> prog A) :
  always (Do c k) (fun tr _ => ordered past tr) ->
  forall r : resp c, G past (ev c r) /\ always (k r) (fun tr _ => ordered (past ++ [ev c r]) tr).
Proof.
  intros HP r.
  assert (Hr : forall tr a, exec (k r) tr a -> ordered past (ev c r :: tr))
    by (apply (always_exec (k r) (fun tr _ => ordered past (@ev services c r :: tr))), HP).
  split.
  - destruct (run default_handler (k r) tt) as [[a tr] w] eqn:E. by apply (Hr tr a), (run_exec _ _ _ _ _ _ E).
  - apply always_exec. intros tr a He. by apply (Hr tr a).
Qed.

(** An event of a trace in order. *)
Lemma ordered_event past tr1 e tr2 : ordered past (tr1 ++ e :: tr2) -> G (past ++ tr1) e.
Proof. intros [_ [He _]]%ordered_app. done. Qed.

Hypothesis G_mono : forall past past' e, past ⊆ past' -> G past e -> G past' e.

Lemma ordered_mono past past' tr : past ⊆ past' -> ordered past tr -> ordered past' tr.
Proof.
  revert past past'. induction tr as [|e tr IH]; intros past past' Hs; simpl; [done|].
  intros [He Ho]. split; [by eapply G_mono|]. eapply IH, Ho.
  intros x. rewrite !elem_of_app. intros [?|?]; auto.
Qed.

Lemma ordered_concat tr tr' : ordered [] tr -> ordered [] tr' -> ordered [] (tr ++ tr').
Proof.
  intros Ho Ho'. apply ordered_app. split; [done|]. eapply ordered_mono, Ho'. intros x []%elem_of_nil.
Qed.
End Ordered.
