(* ===== verification/Ssa.v ===== *)
(** Server-side apply (pkg/util/ssa, pkg/util/contract): paths in an object,
    the filter that reduces an object to what the controller has an opinion on,
    the hand-over of fields from the manager of earlier releases, and the apply
    request with its cache. *)

From stdpp Require Import pretty.
From S2P Require Import Prelude GoStd Effects ApiTypes Api.

(** ** Paths (pkg/util/contract/types.go) *)

Abbreviation Path := (list string).

Definition Append (p : Path) (k : string) : Path := p ++ [k].

(** The loop that compares two paths up to the end of the first. *)
Fixpoint agree (p other : Path) : bool :=
  match p, other with
  | a :: p', b :: other' => if String.eqb a b then agree p' other' else false
  | _, _ => true
  end.

Definition IsParentOf (p other : Path) : bool :=
  if (length other <=? length p)%nat then false else agree p other.

Definition Equal (p other : Path) : bool :=
  if negb (length p =? length other)%nat then false else agree p other.

Definition Overlaps (p other : Path) : bool :=
  Equal other p || IsParentOf other p || IsParentOf p other.

Definition Path_String (p : Path) : string := Join p ".".

Lemma agree_prefix p other :
  (length p <= length other)%nat -> agree p other = true <-> p `prefix_of` other.
Proof.
  revert other. induction p as [|a p IH]; intros other Hl; simpl.
  - split; [intros _; apply prefix_nil|done].
  - destruct other as [|b other]; simpl in Hl; [lia|].
    destruct (String.eqb_spec a b) as [->|Hne].
    + rewrite IH by lia. split; [by apply prefix_cons|by apply prefix_cons_inv_2].
    + split; [done|]. by intros ?%prefix_cons_inv_1.
Qed.

Lemma IsParentOf_prefix p other :
  IsParentOf p other = true <-> p `prefix_of` other /\ p <> other.
Proof.
  unfold IsParentOf. destruct (Nat.leb_spec (length other) (length p)) as [Hl|Hl].
  - split; [done|]. intros [Hp Hne]. destruct Hne. by apply prefix_length_eq.
  - rewrite agree_prefix by lia. split; [|by intros [? _]].
    intros Hp. split; [done|]. intros ->. lia.
Qed.

Lemma Equal_eq p other : Equal p other = true <-> p = other.
Proof.
  unfold Equal. destruct (Nat.eqb_spec (length p) (length other)) as [Hl|Hl]; simpl.
  - rewrite agree_prefix by lia. split; [|by intros ->].
    intros Hp. apply prefix_length_eq; [done|lia].
  - split; [done|]. by intros ->.
Qed.

(** Two paths overlap when one is a prefix of the other. *)
Lemma Overlaps_prefix p other :
  Overlaps p other = true <-> p `prefix_of` other \/ other `prefix_of` p.
Proof.
  unfold Overlaps. rewrite !orb_true_iff, Equal_eq, !IsParentOf_prefix.
  destruct (decide (p = other)) as [->|Hne]; split; naive_solver.
Qed.

(** ** Values

    The content of an unstructured object: maps with string keys, and anything
    else, which the filter never looks into. Go maps have no order; the list
    holds the fields in the order in which a loop meets them. *)

Inductive value :=
| Scalar (text : string)
| Map (fields : list (string * value)).

Definition value_rect_nested (P : value -> Prop)
    (HS : forall t, P (Scalar t))
    (HM : forall fields, Forall (fun f => P f.2) fields -> P (Map fields)) : forall v, P v :=
  fix go v :=
    match v with
    | Scalar t => HS t
    | Map fields =>
        HM fields ((fix go_fields l : Forall (fun f => P f.2) l :=
          match l with
          | [] => List.Forall_nil _
          | f :: l' => List.Forall_cons _ f l' (go f.2) (go_fields l')
          end) fields)
    end.

Definition is_empty_map (v : value) : bool :=
  match v with Map [] => true | _ => false end.

(** Lookup in the fields of a map. *)
Definition field (fields : list (string * value)) (k : string) : option value :=
  snd <$> find_first (fun f => String.eqb f.1 k) fields.

(** No map holds a key twice. *)
Fixpoint wf (v : value) : Prop :=
  match v with
  | Scalar _ => True
  | Map fields => NoDup (fst <$> fields) /\ foldr (fun f P => wf f.2 /\ P) True fields
  end.

(** What is at a path where the tree ends: not a map, or an empty one. *)
Fixpoint leaf_at (v : value) (p : Path) : option value :=
  match p, v with
  | [], Map (_ :: _) => None
  | [], _ => Some v
  | k :: p', Map fields => x ← field fields k; leaf_at x p'
  | _ :: _, Scalar _ => None
  end.

(** ** Filtering (pkg/util/ssa/filterintent.go) *)

(** What the loop makes of a field, given what the recursive call made of it:
    the field that stays, if any, and whether it was deleted. *)
Definition filter_field (ShouldFilter : Path -> bool) (path : Path) (k : string)
    (nested : value * bool) : option (string * value) * bool :=
  if ShouldFilter (Append path k) then (None, true)
  else if nested.2 && is_empty_map nested.1 then (None, true)
  else (Some (k, nested.1), false).

Fixpoint FilterIntent (ShouldFilter : Path -> bool) (path : Path) (v : value) : value * bool :=
  match v with
  | Scalar _ => (v, false)
  | Map fields =>
      let results := List.map (fun f =>
        filter_field ShouldFilter path f.1 (FilterIntent ShouldFilter (Append path f.1) f.2)) fields in
      (Map (omap fst results), existsb snd results)
  end.

Definition IsPathAllowed (allowedPaths : list Path) (path : Path) : bool :=
  existsb (fun p => Overlaps path p) allowedPaths.

Definition IsPathNotAllowed (allowedPaths : list Path) (path : Path) : bool :=
  negb (IsPathAllowed allowedPaths path).

Definition IsPathIgnored (ignorePaths : list Path) (path : Path) : bool :=
  existsb (fun p => Equal path p) ignorePaths.

Record FilterObjectInput := mkFilterObjectInput {
  AllowedPaths : list Path;
  IgnorePaths : list Path;
}.

Definition FilterObject (obj : value) (input : FilterObjectInput) : value :=
  let obj1 :=
    if (0 <? length (AllowedPaths input))%nat
    then (FilterIntent (IsPathNotAllowed (AllowedPaths input)) [] obj).1 else obj in
  if (0 <? length (IgnorePaths input))%nat
  then (FilterIntent (IsPathIgnored (IgnorePaths input)) [] obj1).1 else obj1.

(** *** What the filter keeps *)

(** Some step on the way from [path] along [p] is filtered out. *)
Fixpoint blocked (ShouldFilter : Path -> bool) (path p : Path) : bool :=
  match p with
  | [] => false
  | k :: p' => ShouldFilter (Append path k) || blocked ShouldFilter (Append path k) p'
  end.

Lemma blocked_prefix f path p :
  blocked f path p = true
  <-> exists q, q `prefix_of` p /\ q <> [] /\ f (path ++ q) = true.
Proof.
  revert path. induction p as [|k p IH]; intros path; simpl.
  - split; [done|]. intros (q & ->%prefix_nil_inv & Hne & _). done.
  - rewrite orb_true_iff, IH. unfold Append. split.
    + intros [Hf|(q & Hq & Hne & Hf)].
      * exists [k]. split; [|done]. by apply prefix_cons, prefix_nil.
      * exists (k :: q). split; [by apply prefix_cons|]. split; [done|].
        by rewrite <- app_assoc in Hf.
    + intros ([|k' q] & Hq & Hne & Hf); [done|].
      assert (k' = k) as -> by by eapply prefix_cons_inv_1.
      apply prefix_cons_inv_2 in Hq.
      destruct q as [|k2 q]; [by left|right]. exists (k2 :: q). split; [done|].
      split; [done|]. by rewrite <- app_assoc.
Qed.

Lemma wf_field fields k x : wf (Map fields) -> field fields k = Some x -> wf x.
Proof.
  intros [_ Hw]. unfold field. induction fields as [|[k' x'] fields IH]; simpl; [done|].
  destruct Hw as [Hx Hw]. destruct (String.eqb k' k); simpl; [by intros [= <-]|]. by apply IH.
Qed.

Lemma field_None fields k : k ∉ (fst <$> fields) -> field fields k = None.
Proof.
  unfold field. induction fields as [|[k' x'] fields IH]; simpl; [done|].
  intros [Hne Hn]%not_elem_of_cons. destruct (String.eqb_spec k' k); [congruence|]. by apply IH.
Qed.

(** Lookup in the fields that stay. *)
Lemma field_filter (g : string -> value -> option (string * value) * bool) fields k :
  (forall k x k' x' b, g k x = (Some (k', x'), b) -> k' = k) ->
  NoDup (fst <$> fields) ->
  field (omap fst (List.map (fun f => g f.1 f.2) fields)) k
  = (x ← field fields k; snd <$> (g k x).1).
Proof.
  intros Hg. induction fields as [|[k1 x1] fields IH]; simpl; [done|].
  rewrite NoDup_cons. intros [Hn Hd].
  assert (Hrest : k = k1 -> field (omap fst (List.map (fun f => g f.1 f.2) fields)) k = None).
  { intros ->. rewrite IH by done. by rewrite field_None. }
  unfold field in *. destruct (g k1 x1) as [[[k2 x2]|] b] eqn:E; simpl.
  - apply Hg in E as E'. subst k2. destruct (String.eqb_spec k1 k) as [->|Hne]; simpl; [by rewrite E|].
    by apply IH.
  - destruct (String.eqb_spec k1 k) as [->|Hne]; simpl; [rewrite E; simpl|by apply IH].
    by apply Hrest.
Qed.

Lemma filter_field_key f path k nested k' x' b :
  filter_field f path k nested = (Some (k', x'), b) -> k' = k.
Proof. unfold filter_field. repeat case_match; congruence. Qed.

Lemma is_empty_map_leaf v : is_empty_map v = true -> v = Map [].
Proof. by destruct v as [|[]]. Qed.

Lemma field_elem fields k x : field fields k = Some x -> (k, x) ∈ fields.
Proof.
  unfold field. destruct (find_first _ fields) as [[k' x']|] eqn:E; [|done].
  intros [= <-]. apply find_first_Some in E as [Hin Hk]. simpl in Hk.
  by apply String.eqb_eq in Hk as ->.
Qed.

(** A map that the filter empties is reported as changed. *)
Lemma FilterIntent_empty f path v :
  is_empty_map (FilterIntent f path v).1 = true ->
  (FilterIntent f path v).2 = true \/ v = Map [].
Proof.
  destruct v as [t|[|[k x] fields]]; [done|by right|].
  cbn [FilterIntent List.map fst snd]. unfold filter_field at 1 3.
  destruct (f _); [by left|].
  destruct (_ && is_empty_map _); [by left|]. done.
Qed.

Lemma FilterIntent_root f path v :
  (FilterIntent f path v).2 && is_empty_map (FilterIntent f path v).1 = false ->
  leaf_at (FilterIntent f path v).1 [] = leaf_at v [].
Proof.
  intros Hk. destruct (is_empty_map (FilterIntent f path v).1) eqn:E.
  - apply FilterIntent_empty in E as E'. destruct E' as [E'| ->]; [by rewrite E' in Hk|done].
  - destruct v as [t|[|kx fields]]; [done|done|]. clear Hk.
    set (l := omap fst (List.map (fun kx =>
      filter_field f path kx.1 (FilterIntent f (Append path kx.1) kx.2)) (kx :: fields))).
    change (is_empty_map (Map l) = false) in E. change (leaf_at (Map l) [] = None).
    by destruct l.
Qed.

(** What is left at a path is what was there, unless a step of the path is
    filtered out; in particular no empty map is left behind. *)
Lemma FilterIntent_leaf f v :
  wf v -> forall path p, p <> [] ->
  leaf_at (FilterIntent f path v).1 p = if blocked f path p then None else leaf_at v p.
Proof.
  induction v as [t|fields IH] using value_rect_nested; intros Hw path [|k p] Hp; try done.
  { simpl. by destruct (_ || _). }
  set (g := fun k x => filter_field f path k (FilterIntent f (Append path k) x)).
  change (leaf_at (FilterIntent f path (Map fields)).1 (k :: p))
    with (x ← field (omap fst (List.map (fun kx => g kx.1 kx.2) fields)) k; leaf_at x p).
  rewrite field_filter by first [apply Hw | by intros ????? ?%filter_field_key].
  simpl. destruct (field fields k) as [x|] eqn:Ex; simpl; [|by destruct (_ || _)].
  assert (Hx : forall q, q <> [] -> leaf_at (FilterIntent f (Append path k) x).1 q
                 = if blocked f (Append path k) q then None else leaf_at x q).
  { intros q Hq. rewrite Forall_forall in IH. apply (IH (k, x)); [by apply field_elem| |done].
    by eapply wf_field. }
  unfold g, filter_field. destruct (f (Append path k)); simpl; [done|].
  destruct (_ && _) eqn:Ed; simpl.
  - apply andb_true_iff in Ed as [Hd He%is_empty_map_leaf]. destruct p as [|k2 p].
    + by destruct x as [t|[|kx xs]].
    + specialize (Hx (k2 :: p) ltac:(done)). by rewrite He in Hx.
  - destruct p as [|k2 p]; [by apply FilterIntent_root|by apply Hx].
Qed.

Lemma wf_Map fields : wf (Map fields) <-> NoDup (fst <$> fields) /\ Forall (fun f => wf f.2) fields.
Proof.
  simpl. f_equiv. induction fields as [|kx fields IH]; simpl; [by rewrite Forall_nil|].
  by rewrite IH, Forall_cons.
Qed.

Lemma FilterIntent_wf f v : forall path, wf v -> wf (FilterIntent f path v).1.
Proof.
  induction v as [t|fields IH] using value_rect_nested; intros path; [done|].
  rewrite wf_Map. intros [Hd Hf]. cbn [FilterIntent fst]. rewrite wf_Map.
  set (g := fun kx : string * value =>
    filter_field f path kx.1 (FilterIntent f (Append path kx.1) kx.2)).
  assert (Hin : forall ky, ky ∈ omap fst (List.map g fields) ->
    exists x, (ky.1, x) ∈ fields /\ ky.2 = (FilterIntent f (Append path ky.1) x).1).
  { intros ky Hky. apply list_elem_of_omap in Hky as (r & Hr & Er).
    apply list_elem_of_In, in_map_iff in Hr as ([k x] & <- & Hx). exists x.
    unfold g, filter_field in Er. simpl in Er. repeat case_match; simpl in Er; try done.
    injection Er as <-. split; [by apply list_elem_of_In|done]. }
  split.
  - clear Hf IH Hin. induction fields as [|[k x] fields IHf]; simpl; [constructor|].
    apply NoDup_cons in Hd as [Hn Hd].
    destruct (g (k, x)) as [[[k' x']|] b] eqn:E; simpl; [|by apply IHf].
    apply filter_field_key in E as E'. simpl in E'. subst k'. apply NoDup_cons. split; [|by apply IHf].
    intros Hk. apply list_elem_of_fmap in Hk as ([k2 y] & -> & Hy). simpl in Hn.
    apply list_elem_of_omap in Hy as (r & Hr & Er).
    apply list_elem_of_In, in_map_iff in Hr as ([k3 z] & <- & Hz).
    destruct (g (k3, z)) as [o b'] eqn:E3. simpl in Er. subst o. apply filter_field_key in E3.
    simpl in E3. subst k3. apply Hn. apply list_elem_of_fmap. exists (k2, z).
    split; [done|]. by apply list_elem_of_In.
  - apply Forall_forall. intros ky (x & Hx & ->)%Hin. rewrite Forall_forall in IH, Hf.
    apply (IH _ Hx). exact (Hf _ Hx).
Qed.

Lemma blocked_not_allowed allowed p :
  p <> [] -> blocked (IsPathNotAllowed allowed) [] p = negb (IsPathAllowed allowed p).
Proof.
  intros Hp. apply eq_bool_prop_intro. rewrite !Is_true_true, blocked_prefix. simpl. split.
  - intros (q & Hq & _ & Hf). unfold IsPathNotAllowed, IsPathAllowed in *.
    rewrite negb_true_iff, <- not_true_iff_false, existsb_exists in *.
    intros (a & Hin & Ha). apply Hf. exists a. split; [done|].
    rewrite Overlaps_prefix in *. destruct Ha as [Ha|Ha]; [left; by trans p|].
    by eapply prefix_weak_total.
  - intros Hf. by exists p.
Qed.

Lemma blocked_ignored ignored p :
  blocked (IsPathIgnored ignored) [] p = true
  <-> exists i, i ∈ ignored /\ i <> [] /\ i `prefix_of` p.
Proof.
  rewrite blocked_prefix. unfold IsPathIgnored. simpl. split.
  - intros (q & Hq & Hne & (i & Hi & Ei)%existsb_exists).
    apply Equal_eq in Ei as <-. exists q. split; [by apply list_elem_of_In|done].
  - intros (i & Hi & Hne & Hp). exists i. split; [done|]. split; [done|].
    apply existsb_exists. exists i. split; [by apply list_elem_of_In|by apply Equal_eq].
Qed.

(** The paths that an input keeps. *)
Definition retains (input : FilterObjectInput) (p : Path) : Prop :=
  (AllowedPaths input = []
   \/ exists a, a ∈ AllowedPaths input /\ (p `prefix_of` a \/ a `prefix_of` p))
  /\ forall i, i ∈ IgnorePaths input -> i <> [] -> ~ i `prefix_of` p.

(** C36: an apply intent says exactly what it should. At every path below the
    root at which the object ends, the filtered object has what the object has
    if the path is at or below an allowed path, or on the way to one, and not
    at or below an ignored path; otherwise it has nothing, and no empty map is
    left where everything below was dropped. *)
Theorem FilterObject_spec obj input p :
  wf obj -> p <> [] ->
  (retains input p -> leaf_at (FilterObject obj input) p = leaf_at obj p)
  /\ (~ retains input p -> leaf_at (FilterObject obj input) p = None).
Proof.
  intros Hw Hp. unfold FilterObject, retains.
  set (obj1 := if (0 <? length (AllowedPaths input))%nat then _ else obj).
  assert (Hw1 : wf obj1)
    by (unfold obj1; destruct (0 <? length (AllowedPaths input))%nat; [by apply FilterIntent_wf|done]).
  assert (E1 : leaf_at obj1 p
    = if bool_decide (AllowedPaths input = []) || IsPathAllowed (AllowedPaths input) p
      then leaf_at obj p else None).
  { unfold obj1. destruct (AllowedPaths input) as [|a l]; [done|].
    change (0 <? length (a :: l))%nat with true. cbn match.
    rewrite FilterIntent_leaf, blocked_not_allowed by done. by destruct (IsPathAllowed _ p). }
  cbn zeta.
  replace (leaf_at (if (0 <? length (IgnorePaths input))%nat then _ else obj1) p)
    with (if blocked (IsPathIgnored (IgnorePaths input)) [] p then None else leaf_at obj1 p).
  2: { destruct (IgnorePaths input) as [|i l]; simpl; [|by rewrite FilterIntent_leaf].
    destruct (blocked _ [] p) eqn:Eb; [|done].
    apply blocked_ignored in Eb as (i & Hi & _). by apply not_elem_of_nil in Hi. }
  rewrite E1.
  assert (HA : bool_decide (AllowedPaths input = []) || IsPathAllowed (AllowedPaths input) p = true
    <-> AllowedPaths input = []
        \/ exists a, a ∈ AllowedPaths input /\ (p `prefix_of` a \/ a `prefix_of` p)).
  { rewrite orb_true_iff, bool_decide_eq_true. f_equiv. unfold IsPathAllowed.
    rewrite existsb_exists. setoid_rewrite Overlaps_prefix. by setoid_rewrite list_elem_of_In. }
  pose proof (blocked_ignored (IgnorePaths input) p) as HI.
  destruct (blocked _ [] p).
  - destruct (proj1 HI eq_refl) as (i & Hi & Hne & Hpre). split; [|done].
    intros [_ HN]. by destruct (HN i Hi Hne).
  - assert (HN : forall i, i ∈ IgnorePaths input -> i <> [] -> ~ i `prefix_of` p).
    { intros i Hi Hne Hpre. by discriminate (proj2 HI (ex_intro _ i (conj Hi (conj Hne Hpre)))). }
    destruct (_ || _); [split; [done|]|split; [|done]].
    + intros HK. destruct HK. split; [by apply HA|done].
    + intros [HK _]. by apply HA in HK.
Qed.

(** ** Objects

    What the helpers use of an object and of the client: its metadata, its
    kind, and the calls that patch it. [Apply] sends an apply intent with forced
    ownership and returns the answer; [FromAnswer] converts it back. *)

Record GroupVersionKind := mkGVK { GVKAPIVersion : string; GVKKind : string }.

Class ClientObject (O : Type) := {
  object_meta : O -> ObjectMeta;
  set_object_meta : ObjectMeta -> O -> O;
  GVKForObject : O -> GroupVersionKind + error;
  MergePatch : forall {S}, O -> O -> M S (O + error);
}.

Class Appliable (O : Type) := {
  ToUnstructured : O -> value + error;
  FromAnswer : O -> O + error;
  Apply : forall {S}, O -> value -> M S (O + error);
}.

(** The JSON text of managed fields, and spew's text of an object. *)
Class Texts := {
  Unmarshal_fields : string -> list (string * value) + error;
  Marshal_fields : list (string * value) -> string + error;
  GVK_String : GroupVersionKind -> string;
  spew_Fprintf : value -> string + error;
}.

(** ** Managed fields (pkg/util/ssa/managedfields.go) *)

Definition classicManager : string := "manager".
Definition ManagedFieldsOperationUpdate : string := "Update".
Definition ManagedFieldsOperationApply : string := "Apply".

Section ManagedFields.
Context {O : Type} `{ClientObject O} `{Texts} {S : Type}.

Definition hasFieldsManagedBy (obj : O) (manager : string) : bool :=
  existsb (fun mf => String.eqb (Manager mf) manager) (ManagedFields (object_meta obj)).

Definition is_classic (mf : ManagedFieldsEntry) : bool :=
  String.eqb (Manager mf) classicManager && String.eqb (Operation mf) ManagedFieldsOperationUpdate.

Definition set_managed_fields (f : list ManagedFieldsEntry) (obj : O) : O :=
  set_object_meta (with_managed_fields f (object_meta obj)) obj.

(** The entry of a classic manager without the given paths. The code follows
    the pointer to the raw fields without looking whether it is nil. *)
Definition drop_entry (paths : list Path) (managedField : ManagedFieldsEntry)
    : M S ManagedFieldsEntry :=
  if is_classic managedField then
    match FieldsV1 managedField with
    | None => panic
    | Some raw =>
        fieldsV1 <- lift_wrap "failed to unmarshal managed fields" (Unmarshal_fields raw) ;;
        let filtered :=
          match (FilterIntent (IsPathIgnored paths) [] (Map fieldsV1)).1 with
          | Map fields => fields
          | Scalar _ => []
          end in
        fieldsV1Raw <- lift_wrap "failed to marshal managed fields" (Marshal_fields filtered) ;;
        ret (mkManagedFieldsEntry (Manager managedField) (Operation managedField)
               (EntryAPIVersion managedField) (EntryTime managedField) (FieldsType managedField)
               (Some fieldsV1Raw))
    end
  else ret managedField.

(** The object as it is after the call; the callers drop it on an error. *)
Definition DropManagedFields (obj : O) (ssaManager : string) (paths : list Path) : M S O :=
  if hasFieldsManagedBy obj ssaManager then ret obj
  else
    managedFields <- fold_each (ManagedFields (object_meta obj)) [] (fun managedFields managedField =>
      entry <- drop_entry paths managedField ;;
      ret (managedFields ++ [entry])) ;;
    r <- MergePatch obj (set_managed_fields managedFields obj) ;;
    lift_res r.

Definition seed_fields : list (string * value) := [("f:metadata", Map [("f:name", Map [])])].

Definition seed_entry (ssaManager apiVersion fieldV1 : string) (now : Time) : ManagedFieldsEntry :=
  mkManagedFieldsEntry ssaManager ManagedFieldsOperationApply apiVersion (Some now) "FieldsV1"
    (Some fieldV1).

Definition CleanUpManagedFieldsForSSAAdoption (obj : O) (ssaManager : string) : M S O :=
  if hasFieldsManagedBy obj ssaManager then ret obj
  else
    let managedFields :=
      List.filter (fun mf => negb (is_classic mf)) (ManagedFields (object_meta obj)) in
    fieldV1 <- lift_wrap "failed to create seeding fieldV1Map for cleaning up legacy managed fields"
      (Marshal_fields seed_fields) ;;
    now <- call Now ;;
    gvk <- lift_wrap "failed to get GroupVersionKind of object" (GVKForObject obj) ;;
    r <- MergePatch obj (set_managed_fields
           (managedFields ++ [seed_entry ssaManager (GVKAPIVersion gvk) fieldV1 now]) obj) ;;
    lift_res r.
End ManagedFields.

(** ** The apply request (pkg/util/ssa/patch.go, cache.go, pkg/util/hash) *)

(** The 32-bit FNV-1a hash of Go's [hash/fnv]. *)
Definition fnv32a_step (h : Z) (c : ascii) : Z :=
  Z.land (Z.lxor h (Z.of_N (N_of_ascii c)) * 16777619) (Z.ones 32).

Definition fnv32a (s : string) : Z :=
  fold_left fnv32a_step (list_ascii_of_string s) 2166136261%Z.

Section Request.
Context `{Texts}.

(** [hash.Compute]. *)
Definition Compute (obj : value) : Z + error :=
  match spew_Fprintf obj with
  | inr _ => inr (ENew "failed to calculate hash")
  | inl text => inl (fnv32a text)
  end.

(** The paths that the controller has an opinion on. *)
Definition allowed_paths : list Path :=
  [["apiVersion"]; ["kind"]; ["metadata"; "name"]; ["metadata"; "namespace"]; ["metadata"; "uid"];
   ["metadata"; "labels"]; ["metadata"; "annotations"]; ["metadata"; "finalizers"];
   ["metadata"; "ownerReferences"]; ["spec"]].

Definition prepareModified {O} `{Appliable O} (obj : O) : value + error :=
  match ToUnstructured obj with
  | inr err => inr (EWrap "failed to convert object to Unstructured" err)
  | inl u => inl (FilterObject u (mkFilterObjectInput allowed_paths []))
  end.

(** [klog.KObj(obj).String()]. *)
Definition KObj (om : ObjectMeta) : string :=
  if String.eqb (Namespace om) "" then Name om else Namespace om +++ "/" +++ Name om.

Definition ComputeRequestIdentifier {O} `{ClientObject O} (original : O) (modified : value)
    : string + error :=
  match Compute modified with
  | inr err => inr (EWrap "failed to calculate request identifier: failed to compute hash for modified object" err)
  | inl modifiedObjectHash =>
      match GVKForObject original with
      | inr err => inr (EWrap "failed to calculate request identifier: failed to get GroupVersionKind of original object" err)
      | inl gvk =>
          inl (GVK_String gvk +++ "." +++ KObj (object_meta original) +++ "."
               +++ ResourceVersion (object_meta original) +++ "." +++ pretty modifiedObjectHash)
      end
  end.

(** [Patch] without options. The kind that the code writes back into the typed
    object is not part of the model. *)
Definition Patch {O S} `{ClientObject O} `{!Appliable O} (modified : O) : M S O :=
  u <- lift_res (prepareModified modified) ;;
  gvk <- lift_wrap "failed to apply object: failed to get GroupVersionKind of modified object"
    (GVKForObject modified) ;;
  r <- Apply modified u ;;
  answer <- lift_wrap "failed to apply" r ;;
  lift_wrap "failed to write modified object" (FromAnswer answer).

(** [Patch] with the caching proxy; [Convert] writes the original into the
    modified object. *)
Definition PatchCached {O O' S} `{ClientObject O} `{!Appliable O} `{ClientObject O'} (Convert : O' -> O + error)
    (modified : O) (original : O') : M S O :=
  u <- lift_res (prepareModified modified) ;;
  gvk <- lift_wrap "failed to apply object: failed to get GroupVersionKind of modified object"
    (GVKForObject modified) ;;
  requestIdentifier <- lift_wrap "failed to apply object" (ComputeRequestIdentifier original u) ;;
  hit <- call (CacheHas requestIdentifier) ;;
  if (hit : bool) then
    lift_wrap "failed to write original into modified object" (Convert original)
  else
    r <- Apply modified u ;;
    answer <- lift_wrap "failed to apply" r ;;
    patched <- lift_wrap "failed to write modified object" (FromAnswer answer) ;;
    (if String.eqb (ResourceVersion (object_meta original)) (ResourceVersion (object_meta answer))
     then call (CacheAdd requestIdentifier) else ret tt) ;;;
    ret patched.
End Request.

(** ** The objects that are patched

    The scheme of the client, as far as it is used: kinds, conversions and their
    failures. The command of an apply names the object whose filtered content
    is sent. *)

Class Scheme := {
  machine_GVK : Machine -> GroupVersionKind + error;
  machine_unstructured : Machine -> value + error;
  machine_of_answer : Machine -> Machine + error;
  machine_convert : Machine -> Machine + error;
  config_GVK : KThreesConfig -> GroupVersionKind + error;
  config_to_external : KThreesConfig -> Unstructured + error;
  external_GVK : Unstructured -> GroupVersionKind + error;
  external_unstructured : Unstructured -> value + error;
  external_convert : Unstructured -> Unstructured + error;
}.

Section Instances.
Context `{Scheme}.

#[export] Instance machine_object : ClientObject Machine := {
  object_meta := MachineMeta;
  set_object_meta := with_meta;
  GVKForObject := machine_GVK;
  MergePatch S base m := call (MergePatchMachine base m);
}.

#[export] Instance machine_appliable : Appliable Machine := {
  ToUnstructured := machine_unstructured;
  FromAnswer := machine_of_answer;
  Apply S m u := call (ApplyMachine m);
}.

#[export] Instance config_object : ClientObject KThreesConfig := {
  object_meta := ConfigMeta;
  set_object_meta om c := mkKThreesConfig om (ConfigSpec c) (ConfigStatus c);
  GVKForObject := config_GVK;
  MergePatch S base c := call (MergePatchConfig base c);
}.

#[export] Instance external_object : ClientObject Unstructured := {
  object_meta := UMeta;
  set_object_meta om u := mkUnstructured (UAPIVersion u) (UKind u) om;
  GVKForObject := external_GVK;
  MergePatch S base u := call (MergePatchExternal base u);
}.

#[export] Instance external_appliable : Appliable Unstructured := {
  ToUnstructured := external_unstructured;
  FromAnswer := inl;
  Apply S u v := call (ApplyExternal u);
}.
End Instances.

(** ** Example *)

Definition a_tree : value :=
  Map [("kind", Scalar "T"); ("status", Map [("ready", Scalar "true")]);
       ("metadata", Map [("name", Scalar "n"); ("generation", Scalar "3")])].

Example FilterObject_spec_witness :
  wf a_tree /\ ["metadata"; "generation"] <> []
  /\ leaf_at (FilterObject a_tree (mkFilterObjectInput allowed_paths [])) ["metadata"; "generation"] = None.
Proof.
  assert (Hw : wf a_tree).
  { simpl. split_and!; try done; apply (bool_decide_unpack _); vm_compute; exact I. }
  assert (Hp : ["metadata"; "generation"] <> []) by discriminate.
  split; [exact Hw|]. split; [exact Hp|].
  apply (FilterObject_spec a_tree (mkFilterObjectInput allowed_paths []) ["metadata"; "generation"] Hw Hp).
  intros [[HN|(a & Ha & Hpre)] _]; [discriminate HN|].
  assert (HF : Forall (fun a => ~ (["metadata"; "generation"] `prefix_of` a \/ a `prefix_of` ["metadata"; "generation"]))
    (AllowedPaths (mkFilterObjectInput allowed_paths [])))
    by (apply (bool_decide_unpack _); vm_compute; exact I).
  rewrite Forall_forall in HF. exact (HF a Ha Hpre).
Defined.
