(* ===== verification/ContractVersion.v ===== *)
(** The API version of a kind for the provider's contract
    (pkg/contract/version.go): the labels of a CRD name, per version of the
    Cluster API contract, the API versions that implement it. *)

From S2P Require Import Prelude GoStd Effects ApiTypes Api.

(** apimachinery's order of versions (v2, v1, v1beta2, v1beta1, ...), its
    parser of API versions and the name of a CRD. *)
Class KubeVersions := {
  CompareKubeAwareVersionStrings : string -> string -> Z;
  Compare_refl : forall a, CompareKubeAwareVersionStrings a a = 0%Z;
  Compare_antisym : forall a b,
    CompareKubeAwareVersionStrings b a = (- CompareKubeAwareVersionStrings a b)%Z;
  Compare_trans : forall a b c,
    (CompareKubeAwareVersionStrings a b <= 0)%Z -> (CompareKubeAwareVersionStrings b c <= 0)%Z ->
    (CompareKubeAwareVersionStrings a c <= 0)%Z;
  Compare_beta : (CompareKubeAwareVersionStrings "v1beta1" "v1beta2" < 0)%Z;
  CalculateCRDName : string -> string -> string;
  ParseGroupVersion : string -> string + error;
}.

Section ContractVersion.
Context `{KubeVersions}.

(** The contract version of this provider. *)
Definition ContractVersion : string := "v1beta2".

(** [clusterv1.GroupVersion.Group]. *)
Definition clusterGroup : string := "cluster.x-k8s.io".

Definition GetCompatibleVersions (contract : string) : gset string :=
  let compatibleContracts : gset string := {[ contract ]} in
  if String.eqb contract "v1beta2" then {[ "v1beta1" ]} ∪ compatibleContracts
  else compatibleContracts.

(** [sort.Sort(versions)] and [sort.Sort(sort.Reverse(versions))]. *)
Definition version_le (a b : string) : Prop := (CompareKubeAwareVersionStrings a b <= 0)%Z.
#[export] Instance version_le_dec : RelDecision version_le.
Proof. intros a b. exact (Z_le_dec _ _). Defined.

#[export] Instance version_le_total : Total version_le.
Proof. intros a b. unfold version_le. pose proof (Compare_antisym a b). lia. Qed.
#[export] Instance version_le_trans : Transitive version_le.
Proof. intros a b c. apply Compare_trans. Qed.
#[export] Instance version_ge_total : Total (flip version_le).
Proof. intros a b. unfold flip. apply (version_le_total b a). Qed.
#[export] Instance version_ge_trans : Transitive (flip version_le).
Proof. intros a b c Hab Hbc. exact (version_le_trans c b a Hbc Hab). Qed.

Definition sorted_versions (l : list string) : list string := merge_sort version_le l.
Definition reverse_sorted_versions (l : list string) : list string := merge_sort (flip version_le) l.

(** The loop over the contract versions, newest first. [strings.Split] never
    gives an empty slice, so that there is a last version. *)
Fixpoint find_contract (labels : gomap string) (contractVersions : list string)
    : option (string * string) :=
  match contractVersions with
  | [] => None
  | contractVersion :: rest =>
      let contractGroupVersion := clusterGroup +++ "/" +++ contractVersion in
      match gomap_get labels contractGroupVersion with
      | None => find_contract labels rest
      | Some supportedVersions =>
          if String.eqb supportedVersions "" then find_contract labels rest
          else
            let kubeVersions := sorted_versions (Split supportedVersions "_"%char) in
            Some (contractVersion, default "" (last kubeVersions))
      end
  end.

Definition GetLatestContractAndAPIVersionFromContract (metadata : ObjectMeta)
    (currentContractVersion : string) : (string * string) + error :=
  if String.eqb currentContractVersion "" then inr (ENew "current contract version cannot be empty")
  else
    let sortedCompatibleContractVersions :=
      reverse_sorted_versions (elements (GetCompatibleVersions currentContractVersion)) in
    match find_contract (Labels metadata) sortedCompatibleContractVersions with
    | Some r => inl r
    | None => inr (ENew "cannot find any versions matching contract versions")
    end.

Definition GetGKMetadata {S} (group kind : string) : M S ObjectMeta :=
  r <- call (GetCRDMetadata (CalculateCRDName group kind)) ;;
  lift_wrap "failed to get CustomResourceDefinition metadata" r.

(** [schema.GroupVersion.String()]. *)
Definition GroupVersion_String (group version : string) : string :=
  if String.eqb group "" then version else group +++ "/" +++ version.

Definition GetAPIVersion {S} (group kind : string) : M S string :=
  m <- try (GetGKMetadata group kind) ;;
  crdMetadata <- lift_wrap "failed to get apiVersion for kind" m ;;
  v <- lift_wrap "failed to get apiVersion for kind"
    (GetLatestContractAndAPIVersionFromContract crdMetadata ContractVersion) ;;
  ret (GroupVersion_String group v.2).

(** ** Which version is picked *)

Lemma compatible_order :
  reverse_sorted_versions (elements (GetCompatibleVersions ContractVersion)) = ["v1beta2"; "v1beta1"].
Proof.
  unfold reverse_sorted_versions.
  assert (HP : elements (GetCompatibleVersions ContractVersion) ≡ₚ ["v1beta2"; "v1beta1"]).
  { unfold GetCompatibleVersions, ContractVersion. simpl.
    rewrite elements_union_singleton by set_solver. rewrite elements_singleton. constructor. }
  set (l := merge_sort _ _).
  assert (Hl : l ≡ₚ ["v1beta2"; "v1beta1"]) by (unfold l; by rewrite merge_sort_Permutation).
  assert (Hs : StronglySorted (flip version_le) l) by (apply StronglySorted_merge_sort; apply _).
  clearbody l. pose proof Compare_beta as Hb. symmetry in Hl.
  destruct (Permutation_length_2_inv Hl) as [->| ->]; [done|].
  apply StronglySorted_inv in Hs as [_ Hs]. apply Forall_cons in Hs as [Hs _].
  unfold flip, version_le in Hs. pose proof (Compare_antisym "v1beta1" "v1beta2"). lia.
Qed.

(** The versions that a CRD offers for a contract version, if it names any. *)
Definition offered (metadata : ObjectMeta) (contract : string) : option (list string) :=
  match gomap_get (Labels metadata) (clusterGroup +++ "/" +++ contract) with
  | None => None
  | Some s => if String.eqb s "" then None else Some (Split s "_"%char)
  end.

Lemma last_sorted (l : list string) :
  l <> [] ->
  default "" (last (sorted_versions l)) ∈ l
  /\ forall v, v ∈ l -> version_le v (default "" (last (sorted_versions l))).
Proof.
  intros Hne. unfold sorted_versions.
  pose proof (merge_sort_Permutation version_le l) as HP.
  assert (Hs : StronglySorted version_le (merge_sort version_le l))
    by (apply StronglySorted_merge_sort; apply _).
  destruct (merge_sort version_le l) as [|x l'] eqn:E using rev_ind.
  - symmetry in HP. by apply Permutation_nil_r in HP.
  - clear IHl'. rewrite last_snoc. simpl. split.
    + rewrite <- HP. apply elem_of_app. right. by left.
    + intros v Hv. rewrite <- HP in Hv. apply elem_of_app in Hv as [Hv|Hv%list_elem_of_singleton].
      * eapply StronglySorted_app_1_elem_of; [exact Hs|done|by left].
      * subst v. unfold version_le. rewrite Compare_refl. lia.
Qed.

Lemma find_contract_cons md contract rest :
  find_contract (Labels md) (contract :: rest)
  = match offered md contract with
    | Some vs => Some (contract, default "" (last (sorted_versions vs)))
    | None => find_contract (Labels md) rest
    end.
Proof. unfold offered. simpl. repeat case_match; congruence. Qed.

Lemma offered_not_nil md contract vs : offered md contract = Some vs -> vs <> [].
Proof.
  unfold offered. intros Ho. repeat case_match; simplify_eq. apply Split_not_nil.
Qed.

(** Which API version of a kind is used. For the provider's contract the
    result is the greatest of the versions that the CRD's label of the newest
    contract offers, the contract v1beta1 counting only when the label of
    v1beta2 is missing or empty; there is an error exactly when both are. *)
Theorem GetLatestContract_spec (md : ObjectMeta) :
  match GetLatestContractAndAPIVersionFromContract md ContractVersion with
  | inl (contract, version) =>
      exists vs, offered md contract = Some vs /\ version ∈ vs
        /\ (forall v, v ∈ vs -> version_le v version)
        /\ (contract = "v1beta2" \/ contract = "v1beta1" /\ offered md "v1beta2" = None)
  | inr _ => offered md "v1beta2" = None /\ offered md "v1beta1" = None
  end.
Proof.
  unfold GetLatestContractAndAPIVersionFromContract. rewrite compatible_order.
  change (String.eqb ContractVersion "") with false. cbn match. rewrite !find_contract_cons.
  destruct (offered md "v1beta2") as [vs|] eqn:E2.
  - destruct (last_sorted vs (offered_not_nil _ _ _ E2)). exists vs. auto.
  - destruct (offered md "v1beta1") as [vs|] eqn:E1; [|done].
    destruct (last_sorted vs (offered_not_nil _ _ _ E1)). exists vs. auto 10.
Qed.
End ContractVersion.

(** An instance: versions in the order of their encodings as numbers. *)
Module reference_versions.
Definition compare (a b : string) : Z := (Z.pos (encode a) - Z.pos (encode b))%Z.

#[local] Obligation Tactic := idtac.
#[export] Program Instance kube_versions : KubeVersions | 100 := {
  CompareKubeAwareVersionStrings := compare;
  CalculateCRDName := fun group kind => kind +++ "." +++ group;
  ParseGroupVersion := inl;
}.
Next Obligation. intros a. unfold compare. lia. Qed.
Next Obligation. intros a b. unfold compare. lia. Qed.
Next Obligation. intros a b c. unfold compare. lia. Qed.
Next Obligation. reflexivity. Qed.
End reference_versions.
