(* ===== verification/Capi.v ===== *)
(** Cluster API's helper packages, as an interface.

    The program filters machines with [collections], reads and writes
    conditions with [conditions] and picks failure domains with
    [failuredomains]. Their code is not part of the repository: the class
    [CAPI] states what their documentation promises, the development is proved
    against it, and [reference] is an instance that keeps the promises. *)

From S2P Require Import Prelude GoStd ApiTypes.

Class CAPI := {
  (* collections: filters *)
  Filter : (Machine -> bool) -> Machines -> Machines;
  Filter_lookup : forall f ms k m,
    Filter f ms !! k = Some m <-> ms !! k = Some m /\ f m = true;
  AnyFilter : list (Machine -> bool) -> Machines -> Machines;
  AnyFilter_lookup : forall fs ms k m,
    AnyFilter fs ms !! k = Some m
    <-> ms !! k = Some m /\ existsb (fun f => f m) fs = true;
  Difference : Machines -> Machines -> Machines;
  Difference_lookup : forall ms1 ms2 k m,
    Difference ms1 ms2 !! k = Some m <-> ms1 !! k = Some m /\ ms2 !! k = None;
  Oldest : Machines -> option Machine;
  Oldest_None : forall ms, Oldest ms = None <-> ms = ∅;
  Oldest_Some : forall ms m, Oldest ms = Some m ->
    (exists k, ms !! k = Some m)
    /\ forall k m', ms !! k = Some m' -> (MCreationTimestamp m <= MCreationTimestamp m')%Z;
  Newest : Machines -> option Machine;
  Newest_None : forall ms, Newest ms = None <-> ms = ∅;
  Newest_Some : forall ms m, Newest ms = Some m ->
    (exists k, ms !! k = Some m)
    /\ forall k m', ms !! k = Some m' -> (MCreationTimestamp m' <= MCreationTimestamp m)%Z;
  (* collections: predicates on a machine *)
  HasDeletionTimestamp : Machine -> bool;
  HasDeletionTimestamp_spec : forall m,
    HasDeletionTimestamp m = negb (TimePtr_IsZero (MDeletionTimestamp m));
  NodeRef_IsDefined : Machine -> bool;
  NodeRef_IsDefined_spec : forall m, NodeRef_IsDefined m = true <-> NodeRefName m <> "";
  ContractRef_IsDefined : ContractRef -> bool;
  IsUnhealthy : Machine -> bool;
  IsReady : Machine -> bool;
  IsControlPlaneMachine : Machine -> bool;
  InFailureDomains : list string -> Machine -> bool;
  InFailureDomains_spec : forall fds m,
    InFailureDomains fds m = true <-> FailureDomain m ∈ fds;
  ShouldRolloutAfter : Time -> Time -> Machine -> bool;
  ShouldRolloutAfter_spec : forall now after m,
    ShouldRolloutAfter now after m = true ->
    (MCreationTimestamp m < after)%Z /\ (after < now)%Z;
  OwnedMachines : KThreesControlPlane -> Machine -> bool;
  ControlPlaneMachines : string -> Machine -> bool;
  AdoptableControlPlaneMachines : string -> Machine -> bool;
  ActiveMachines : Machine -> bool;
  LowestVersion : Machines -> string;
  (* conditions *)
  conditions_Get : list Condition -> string -> option Condition;
  conditions_Set : Condition -> list Condition -> list Condition;
  conditions_Delete : string -> list Condition -> list Condition;
  Get_type : forall cs t c, conditions_Get cs t = Some c -> CondType c = t;
  Get_Set_eq : forall cs c, conditions_Get (conditions_Set c cs) (CondType c) = Some c;
  Get_Set_ne : forall cs c t,
    t <> CondType c -> conditions_Get (conditions_Set c cs) t = conditions_Get cs t;
  Get_Delete_eq : forall cs t, conditions_Get (conditions_Delete t cs) t = None;
  Get_Delete_ne : forall cs t t',
    t <> t' -> conditions_Get (conditions_Delete t cs) t' = conditions_Get cs t';
  IsTrue : list Condition -> string -> bool;
  IsTrue_spec : forall cs t, IsTrue cs t = true <->
    exists c, conditions_Get cs t = Some c /\ CondStatus c = ConditionTrue;
  IsFalse : list Condition -> string -> bool;
  IsFalse_spec : forall cs t, IsFalse cs t = true <->
    exists c, conditions_Get cs t = Some c /\ CondStatus c = ConditionFalse;
  (* the older conditions: mark, look up *)
  v1_Get : list V1Condition -> string -> option V1Condition;
  v1_Mark : V1Condition -> list V1Condition -> list V1Condition;
  v1_Get_Mark_eq : forall cs c, v1_Get (v1_Mark c cs) (V1Type c) = Some c;
  v1_Get_Mark_ne : forall cs c t,
    t <> V1Type c -> v1_Get (v1_Mark c cs) t = v1_Get cs t;
  v1_IsTrue : list V1Condition -> string -> bool;
  v1_IsTrue_spec : forall cs t, v1_IsTrue cs t = true <->
    exists c, v1_Get cs t = Some c /\ V1Status c = ConditionTrue;
  v1_IsFalse : list V1Condition -> string -> bool;
  v1_IsFalse_spec : forall cs t, v1_IsFalse cs t = true <->
    exists c, v1_Get cs t = Some c /\ V1Status c = ConditionFalse;
  (* failuredomains *)
  PickMost : list ClusterFailureDomain -> Machines -> Machines -> string;
  PickFewest : list ClusterFailureDomain -> Machines -> Machines -> string;
  PickFewest_in : forall fds all ms,
    fds <> [] -> PickFewest fds all ms ∈ (FDName <$> fds);
  (* the text of the group and kind of an API version and a kind, of an error
     and of a duration *)
  GroupKind_String : string -> string -> string;
  Error : error -> string;
  Duration_String : Z -> string;
}.

(** The PEM and key functions of Cluster API's [certs] and of the Go library,
    on which nothing is assumed. *)
Class Crypto := {
  EncodeCertPEM : string -> string;
  EncodePrivateKeyPEM : string -> string;
  EncodePublicKeyPEM : string -> string + error;
  DecodeCertPEM : string -> option string + error;
  DecodePrivateKeyPEM : string -> option string + error;
  X509KeyPair : string -> string -> unit + error;
}.

Section Derived.
Context `{CAPI}.

(** The marks of the older conditions: [MarkTrue(obj, t)],
    [MarkFalse(obj, t, reason, severity, message)], [MarkUnknown]. *)
Definition MarkTrue (t : string) : list V1Condition -> list V1Condition :=
  v1_Mark (mkV1Condition t ConditionTrue "" "" "").
Definition MarkFalse (t reason severity message : string)
  : list V1Condition -> list V1Condition :=
  v1_Mark (mkV1Condition t ConditionFalse severity reason message).
Definition MarkUnknown (t reason message : string)
  : list V1Condition -> list V1Condition :=
  v1_Mark (mkV1Condition t ConditionUnknown "" reason message).

(** A filter keeps a sub-map. *)
Lemma Filter_subseteq f ms : Filter f ms ⊆ ms.
Proof. apply map_subseteq_spec. intros k m Hk. by apply Filter_lookup in Hk as [? _]. Qed.

Lemma Filter_empty_iff f ms :
  Filter f ms = ∅ <-> (forall k m, ms !! k = Some m -> f m = false).
Proof.
  rewrite map_empty. split.
  - intros HN k m Hk. destruct (f m) eqn:E; [|done].
    pose proof (proj2 (Filter_lookup f ms k m) (conj Hk E)) as HS.
    specialize (HN k). congruence.
  - intros HF k. destruct (Filter f ms !! k) as [m|] eqn:E; [|done].
    apply Filter_lookup in E as [Hk Hf]. rewrite (HF _ _ Hk) in Hf. done.
Qed.

(** [len(m.Filter(f)) > 0]. *)
Lemma Filter_size f ms :
  (0 <? size (Filter f ms))%nat = true <-> exists k m, ms !! k = Some m /\ f m = true.
Proof.
  rewrite Nat.ltb_lt. split.
  - intros Hs. destruct (map_choose (Filter f ms)) as (k & m & Hk).
    + intros E. rewrite E, map_size_empty in Hs. lia.
    + exists k, m. by apply Filter_lookup.
  - intros (k & m & Hk). apply Filter_lookup in Hk.
    enough (size (Filter f ms) <> 0) by lia.
    intros E%map_size_empty_iff. by rewrite E, lookup_empty in Hk.
Qed.

Lemma Filter_size_0 f ms :
  (0 <? size (Filter f ms))%nat = false <-> (forall k m, ms !! k = Some m -> f m = false).
Proof.
  rewrite <- not_true_iff_false, Filter_size. split.
  - intros HN k m Hk. destruct (f m) eqn:E; [|done]. exfalso. eauto.
  - intros HF (k & m & Hk & Hf). rewrite (HF _ _ Hk) in Hf. done.
Qed.

Lemma IsTrue_Set cs c : IsTrue (conditions_Set c cs) (CondType c)
  = bool_decide (CondStatus c = ConditionTrue).
Proof.
  apply eq_bool_prop_intro. rewrite !Is_true_true, IsTrue_spec, bool_decide_eq_true.
  rewrite Get_Set_eq. split; [by intros (? & [= <-] & ?)|eauto].
Qed.

Lemma IsTrue_Set_ne cs c t : t <> CondType c -> IsTrue (conditions_Set c cs) t = IsTrue cs t.
Proof.
  intros. apply eq_bool_prop_intro. rewrite !Is_true_true, !IsTrue_spec. by rewrite Get_Set_ne.
Qed.
End Derived.

(** ** An instance

    Conditions are kept as a list without duplicates of a type; failure
    domains are picked in the order of the list; the oldest machine is the
    first of least creation time in the order of names. *)
Module reference.
Definition min_by (lt : Machine -> Machine -> bool) (ms : Machines) : option Machine :=
  foldr (fun m acc => match acc with
                      | None => Some m
                      | Some m' => if lt m' m then Some m' else Some m
                      end) None (map_to_list ms).*2.

Lemma min_by_None lt ms : min_by lt ms = None <-> ms = ∅.
Proof.
  unfold min_by. rewrite <- map_to_list_empty_iff.
  destruct (map_to_list ms) as [|[k m] l]; [done|]. simpl.
  split; [|done]. intros E. repeat case_match; done.
Qed.

Lemma fold_min_Some (key : Machine -> Z) (l : list Machine) m :
  foldr (fun m acc => match acc with
                      | None => Some m
                      | Some m' => if (key m' <? key m)%Z then Some m' else Some m
                      end) None l = Some m ->
  m ∈ l /\ forall m', m' ∈ l -> (key m <= key m')%Z.
Proof.
  revert m. induction l as [|x l IH]; intros m; simpl; [done|].
  destruct (foldr _ None l) as [m'|] eqn:E.
  - destruct (IH m' eq_refl) as [Hin Hmin].
    destruct (Z.ltb_spec (key m') (key x)); intros [= <-].
    + split; [by right|]. intros y [->|Hy]%elem_of_cons; [lia|auto].
    + split; [by left|]. intros y [->|Hy]%elem_of_cons; [lia|].
      specialize (Hmin y Hy). lia.
  - intros [= <-]. split; [by left|].
    intros y [->|Hy]%elem_of_cons; [lia|].
    destruct l as [|z l]; [by apply elem_of_nil in Hy|].
    simpl in E. repeat case_match; done.
Qed.

Lemma min_by_Some (key : Machine -> Z) ms m :
  min_by (fun a b => key a <? key b)%Z ms = Some m ->
  (exists k, ms !! k = Some m) /\ forall k m', ms !! k = Some m' -> (key m <= key m')%Z.
Proof.
  intros (Hin & Hmin)%fold_min_Some. split.
  - apply list_elem_of_fmap in Hin as ([k x] & -> & Hx).
    exists k. by apply elem_of_map_to_list.
  - intros k x Hk. apply Hmin. apply list_elem_of_fmap. exists (k, x).
    split; [done|]. by apply elem_of_map_to_list.
Qed.

Definition get {C} (ty : C -> string) (cs : list C) (t : string) : option C :=
  find_first (fun c => String.eqb (ty c) t) cs.

Definition delete {C} (ty : C -> string) (t : string) (cs : list C) : list C :=
  List.filter (fun c => negb (String.eqb (ty c) t)) cs.

Definition set {C} (ty : C -> string) (c : C) (cs : list C) : list C :=
  c :: delete ty (ty c) cs.

Lemma get_type {C} (ty : C -> string) cs t c : get ty cs t = Some c -> ty c = t.
Proof. intros [_ E]%find_first_Some. by apply String.eqb_eq. Qed.

Lemma get_delete_eq {C} (ty : C -> string) cs t : get ty (delete ty t cs) t = None.
Proof.
  apply find_first_None. intros c Hc. unfold delete in Hc.
  apply list_elem_of_In, List.filter_In in Hc as [_ E].
  by destruct (String.eqb (ty c) t).
Qed.

Lemma get_delete_ne {C} (ty : C -> string) cs t t' :
  t <> t' -> get ty (delete ty t cs) t' = get ty cs t'.
Proof.
  intros Hne. unfold get, delete. induction cs as [|c cs IH]; simpl; [done|].
  destruct (String.eqb_spec (ty c) t); simpl.
  - rewrite IH. destruct (String.eqb_spec (ty c) t'); congruence.
  - by rewrite IH.
Qed.

Lemma get_set_eq {C} (ty : C -> string) cs c : get ty (set ty c cs) (ty c) = Some c.
Proof. unfold get, set. simpl. by rewrite String.eqb_refl. Qed.

Lemma get_set_ne {C} (ty : C -> string) cs c t :
  t <> ty c -> get ty (set ty c cs) t = get ty cs t.
Proof.
  intros Hne. unfold get, set. simpl.
  destruct (String.eqb_spec (ty c) t); [congruence|]. by apply get_delete_ne.
Qed.

Definition has_status {C} (ty : C -> string) (st : C -> ConditionStatus) (s : ConditionStatus)
    (cs : list C) (t : string) : bool :=
  match get ty cs t with Some c => bool_decide (st c = s) | None => false end.

Lemma has_status_spec {C} (ty : C -> string) st s cs t :
  has_status ty st s cs t = true <-> exists c, get ty cs t = Some c /\ st c = s.
Proof.
  unfold has_status. destruct (get ty cs t) as [c|].
  - rewrite bool_decide_eq_true. split; [eauto|]. by intros (? & [= <-] & ?).
  - split; [done|]. by intros (? & ? & _).
Qed.

Definition first_domain (fds : list ClusterFailureDomain) : string :=
  match fds with [] => "" | fd :: _ => FDName fd end.

#[export] Instance crypto : Crypto | 100 := {
  EncodeCertPEM := fun s => s;
  EncodePrivateKeyPEM := fun s => s;
  EncodePublicKeyPEM := inl;
  DecodeCertPEM := fun s => inl (Some s);
  DecodePrivateKeyPEM := fun s => inl (Some s);
  X509KeyPair := fun _ _ => inl tt;
}.

Definition error_text (e : error) : string := match e with ENew m => m | _ => "" end.

#[local] Obligation Tactic := idtac.
#[export] Program Instance capi : CAPI | 100 := {
  Filter := fun f ms => filter (fun km => f km.2 = true) ms;
  AnyFilter := fun fs ms => filter (fun km => existsb (fun f => f km.2) fs = true) ms;
  Difference := fun ms1 ms2 => ms1 ∖ ms2;
  Oldest := min_by (fun a b => MCreationTimestamp a <? MCreationTimestamp b)%Z;
  Newest := min_by (fun a b => - MCreationTimestamp a <? - MCreationTimestamp b)%Z;
  HasDeletionTimestamp := fun m => negb (TimePtr_IsZero (MDeletionTimestamp m));
  NodeRef_IsDefined := fun m => negb (String.eqb (NodeRefName m) "");
  ContractRef_IsDefined := fun r => negb (String.eqb (ContractName r) "");
  IsUnhealthy := fun m =>
    match get CondType (MachineConditions m) MachineOwnerRemediatedCondition with
    | Some _ => match get CondType (MachineConditions m) MachineHealthCheckSucceededCondition with
                | Some c => bool_decide (CondStatus c = ConditionFalse)
                | None => false
                end
    | None => false
    end;
  IsReady := fun m =>
    has_status V1Type V1Status ConditionTrue (MachineV1Conditions m) "Ready";
  IsControlPlaneMachine := fun m =>
    match gomap_get (Labels (MachineMeta m)) MachineControlPlaneLabel with
    | Some _ => true | None => false end;
  InFailureDomains := fun fds m => bool_decide (FailureDomain m ∈ fds);
  ShouldRolloutAfter := fun now after m =>
    (negb (after =? 0) && (MCreationTimestamp m <? after) && (after <? now))%Z;
  OwnedMachines := fun k m =>
    existsb (fun r => String.eqb (OwnerUID r) (UID (KCPMeta k))) (OwnerReferences (MachineMeta m));
  ControlPlaneMachines := fun c m => String.eqb (ClusterName m) c;
  AdoptableControlPlaneMachines := fun c m =>
    String.eqb (ClusterName m) c && bool_decide (OwnerReferences (MachineMeta m) = []);
  ActiveMachines := fun m => TimePtr_IsZero (MDeletionTimestamp m);
  LowestVersion := fun ms =>
    match (map_to_list ms).*2 with [] => "" | m :: _ => MachineVersion m end;
  conditions_Get := get CondType;
  conditions_Set := set CondType;
  conditions_Delete := delete CondType;
  IsTrue := has_status CondType CondStatus ConditionTrue;
  IsFalse := has_status CondType CondStatus ConditionFalse;
  v1_Get := get V1Type;
  v1_Mark := set V1Type;
  v1_IsTrue := has_status V1Type V1Status ConditionTrue;
  v1_IsFalse := has_status V1Type V1Status ConditionFalse;
  PickMost := fun fds _ _ => first_domain fds;
  PickFewest := fun fds _ _ => first_domain fds;
  GroupKind_String := fun apiVersion kind => kind;
  Error := error_text;
  Duration_String := fun _ => "";
}.
Next Obligation. intros. simpl. by rewrite map_lookup_filter_Some. Qed.
Next Obligation. intros. simpl. by rewrite map_lookup_filter_Some. Qed.
Next Obligation. intros. simpl. by rewrite lookup_difference_Some. Qed.
Next Obligation. intros. apply min_by_None. Qed.
Next Obligation. intros ms m E. by apply (min_by_Some MCreationTimestamp) in E. Qed.
Next Obligation. intros. apply min_by_None. Qed.
Next Obligation.
  intros ms m E. apply (min_by_Some (fun a => - MCreationTimestamp a)%Z) in E as [? Hmin].
  split; [done|]. intros k m' Hk. specialize (Hmin k m' Hk). simpl in Hmin. lia.
Qed.
Next Obligation. done. Qed.
Next Obligation. intros m. simpl. by destruct (String.eqb_spec (NodeRefName m) ""). Qed.
Next Obligation. intros. simpl. apply bool_decide_eq_true. Qed.
Next Obligation. intros now after m. simpl. lia. Qed.
Next Obligation. intros cs t c E. by apply get_type in E. Qed.
Next Obligation. intros. apply get_set_eq. Qed.
Next Obligation. intros. by apply get_set_ne. Qed.
Next Obligation. intros. apply get_delete_eq. Qed.
Next Obligation. intros. by apply get_delete_ne. Qed.
Next Obligation. intros. apply has_status_spec. Qed.
Next Obligation. intros. apply has_status_spec. Qed.
Next Obligation. intros. apply get_set_eq. Qed.
Next Obligation. intros. by apply get_set_ne. Qed.
Next Obligation. intros. apply has_status_spec. Qed.
Next Obligation. intros. apply has_status_spec. Qed.
Next Obligation. intros [|fd fds] all ms; simpl; [done|]. intros _. left. Qed.
End reference.
