(* ===== verification/K3sConfig.v ===== *)
(** The k3s configuration of a node (pkg/k3s/config.go) and the defaults the
    webhooks give a KThreesConfig and a KThreesControlPlane
    (kthreesconfig_webhook.go, kthreescontrolplane_webhook.go). *)

From S2P Require Import Prelude GoStd ApiTypes.

(** ** Data *)

Record K3sAgentConfig := mkK3sAgentConfig {
  AgentToken : string;
  AgentServer : string;
  AgentKubeletArgs : slice string;
  AgentNodeLabels : slice string;
  AgentTaints : slice string;
  AgentPrivateRegistry : string;
  AgentKubeProxyArgs : slice string;
  AgentNodeName : string;
}.

Record K3sServerConfig := mkK3sServerConfig {
  SrvDisableCloudController : bool;
  SrvKubeAPIServerArgs : slice string;
  SrvKubeControllerManagerArgs : slice string;
  SrvKubeSchedulerArgs : slice string;
  SrvTLSSan : slice string;
  SrvBindAddress : string;
  SrvHTTPSListenPort : string;
  SrvAdvertiseAddress : string;
  SrvAdvertisePort : string;
  SrvClusterCidr : string;
  SrvServiceCidr : string;
  SrvClusterDNS : string;
  SrvClusterDomain : string;
  SrvDisableComponents : slice string;
  SrvClusterInit : bool;
  SrvSystemDefaultRegistry : string;
  SrvAgent : K3sAgentConfig;
}.

(** ** Helpers *)

Definition ciphers : list string := [
  "TLS_ECDHE_ECDSA_WITH_AES_256_GCM_SHA384";
  "TLS_ECDHE_RSA_WITH_AES_256_GCM_SHA384";
  "TLS_ECDHE_ECDSA_WITH_AES_128_GCM_SHA256";
  "TLS_ECDHE_RSA_WITH_AES_128_GCM_SHA256";
  "TLS_ECDHE_ECDSA_WITH_CHACHA20_POLY1305";
  "TLS_ECDHE_RSA_WITH_CHACHA20_POLY1305";
  "TLS_RSA_WITH_AES_128_GCM_SHA256";
  "TLS_RSA_WITH_AES_256_GCM_SHA384"].

(** The loop [for _, cc := range ciphers { ciphersList += cc + "," }]. *)
Fixpoint cipher_loop (ciphersList : string) (ccs : list string) : string :=
  match ccs with
  | [] => ciphersList
  | cc :: ccs' => cipher_loop (ciphersList +++ cc +++ ",") ccs'
  end.

Definition getTLSCipherSuiteArg : string :=
  "tls-cipher-suites=" +++ TrimRight (cipher_loop "" ciphers) ascii_comma.

Definition getKubeletExtraArgs (serverConfig : KThreesServerConfig) : slice string :=
  match CloudProviderName serverConfig with
  | Some name =>
      if (0 <? String.length name)%nat then Some ["cloud-provider=" +++ name] else Some []
  | None => Some []
  end.

Definition getDisableCloudController (serverConfig : KThreesServerConfig) : bool :=
  match DisableCloudController serverConfig with
  | None => true
  | Some b => b
  end.

(** ** The three configurations *)

Definition GenerateInitControlPlaneConfig (controlPlaneEndpoint token : string)
    (serverConfig : KThreesServerConfig) (agentConfig : KThreesAgentConfig) : K3sServerConfig :=
  let kubeletExtraArgs := elems (getKubeletExtraArgs serverConfig) in
  {| SrvDisableCloudController := getDisableCloudController serverConfig;
     SrvClusterInit := true;
     SrvKubeAPIServerArgs :=
       go_append (KubeAPIServerArgs serverConfig) ["anonymous-auth=true"; getTLSCipherSuiteArg];
     SrvTLSSan := go_append (TLSSan serverConfig) [controlPlaneEndpoint];
     SrvKubeControllerManagerArgs :=
       go_append (KubeControllerManagerArgs serverConfig) kubeletExtraArgs;
     SrvKubeSchedulerArgs := KubeSchedulerArgs serverConfig;
     SrvBindAddress := BindAddress serverConfig;
     SrvHTTPSListenPort := HTTPSListenPort serverConfig;
     SrvAdvertiseAddress := AdvertiseAddress serverConfig;
     SrvAdvertisePort := AdvertisePort serverConfig;
     SrvClusterCidr := ClusterCidr serverConfig;
     SrvServiceCidr := ServiceCidr serverConfig;
     SrvClusterDNS := ClusterDNS serverConfig;
     SrvClusterDomain := ClusterDomain serverConfig;
     SrvDisableComponents := DisableComponents serverConfig;
     SrvSystemDefaultRegistry := SystemDefaultRegistry serverConfig;
     SrvAgent :=
       {| AgentToken := token;
          AgentServer := "";
          AgentKubeletArgs := go_append (KubeletArgs agentConfig) kubeletExtraArgs;
          AgentNodeLabels := NodeLabels agentConfig;
          AgentTaints := AgentNodeTaints agentConfig;
          AgentPrivateRegistry := PrivateRegistry agentConfig;
          AgentKubeProxyArgs := KubeProxyArgs agentConfig;
          AgentNodeName := NodeName agentConfig |} |}.

Definition GenerateJoinControlPlaneConfig (serverURL token controlplaneendpoint : string)
    (serverConfig : KThreesServerConfig) (agentConfig : KThreesAgentConfig) : K3sServerConfig :=
  let kubeletExtraArgs := elems (getKubeletExtraArgs serverConfig) in
  {| SrvDisableCloudController := getDisableCloudController serverConfig;
     SrvClusterInit := false;
     SrvKubeAPIServerArgs :=
       go_append (KubeAPIServerArgs serverConfig) ["anonymous-auth=true"; getTLSCipherSuiteArg];
     SrvTLSSan := go_append (TLSSan serverConfig) [controlplaneendpoint];
     SrvKubeControllerManagerArgs :=
       go_append (KubeControllerManagerArgs serverConfig) kubeletExtraArgs;
     SrvKubeSchedulerArgs := KubeSchedulerArgs serverConfig;
     SrvBindAddress := BindAddress serverConfig;
     SrvHTTPSListenPort := HTTPSListenPort serverConfig;
     SrvAdvertiseAddress := AdvertiseAddress serverConfig;
     SrvAdvertisePort := AdvertisePort serverConfig;
     SrvClusterCidr := ClusterCidr serverConfig;
     SrvServiceCidr := ServiceCidr serverConfig;
     SrvClusterDNS := ClusterDNS serverConfig;
     SrvClusterDomain := ClusterDomain serverConfig;
     SrvDisableComponents := DisableComponents serverConfig;
     SrvSystemDefaultRegistry := SystemDefaultRegistry serverConfig;
     SrvAgent :=
       {| AgentToken := token;
          AgentServer := serverURL;
          AgentKubeletArgs := go_append (KubeletArgs agentConfig) kubeletExtraArgs;
          AgentNodeLabels := NodeLabels agentConfig;
          AgentTaints := AgentNodeTaints agentConfig;
          AgentPrivateRegistry := PrivateRegistry agentConfig;
          AgentKubeProxyArgs := KubeProxyArgs agentConfig;
          AgentNodeName := NodeName agentConfig |} |}.

Definition GenerateWorkerConfig (serverURL token : string)
    (serverConfig : KThreesServerConfig) (agentConfig : KThreesAgentConfig) : K3sAgentConfig :=
  let kubeletExtraArgs := elems (getKubeletExtraArgs serverConfig) in
  {| AgentServer := serverURL;
     AgentToken := token;
     AgentKubeletArgs := go_append (KubeletArgs agentConfig) kubeletExtraArgs;
     AgentNodeLabels := NodeLabels agentConfig;
     AgentTaints := AgentNodeTaints agentConfig;
     AgentPrivateRegistry := PrivateRegistry agentConfig;
     AgentKubeProxyArgs := KubeProxyArgs agentConfig;
     AgentNodeName := NodeName agentConfig |}.

(** ** The webhooks' defaults *)

Definition with_cloud_defaults (disable : option bool) (provider : option string)
    (c : KThreesServerConfig) : KThreesServerConfig :=
  mkKThreesServerConfig (KubeAPIServerArgs c) (KubeControllerManagerArgs c)
    (KubeSchedulerArgs c) (TLSSan c) (BindAddress c) (HTTPSListenPort c) (AdvertiseAddress c)
    (AdvertisePort c) (ClusterCidr c) (ServiceCidr c) (ClusterDNS c) (ClusterDomain c)
    (DisableComponents c) (DeprecatedDisableExternalCloudProvider c) disable provider
    (SystemDefaultRegistry c) (EtcdProxyImage c).

Definition with_server_config (sc : KThreesServerConfig) (c : KThreesConfigSpec)
    : KThreesConfigSpec :=
  mkKThreesConfigSpec (Files c) (PreK3sCommands c) (PostK3sCommands c) (AgentConfig c) sc
    (ConfigVersion c).

(** The two assignments both webhooks make to a server configuration. *)
Definition defaultServerConfig (c : KThreesServerConfig) : KThreesServerConfig :=
  let disable := match DisableCloudController c with None => Some true | d => d end in
  let provider := match CloudProviderName c with None => Some "external" | p => p end in
  with_cloud_defaults disable provider c.

(** [KThreesConfig.Default], on an object of its own type. *)
Definition KThreesConfig_Default (c : KThreesConfig) : KThreesConfig :=
  with_spec (with_server_config (defaultServerConfig (ServerConfig (ConfigSpec c))) (ConfigSpec c)) c.

Definition with_ref_namespace (ns : string) (r : ObjectReference) : ObjectReference :=
  mkObjectReference (RefKind r) ns (RefName r) (RefUID r) (RefAPIVersion r).

Definition with_infra_ref (r : ObjectReference) (t : KThreesControlPlaneMachineTemplate)
    : KThreesControlPlaneMachineTemplate :=
  mkMachineTemplate (TemplateLabels t) (TemplateAnnotations t) r (NodeDrainTimeout t)
    (NodeVolumeDetachTimeout t) (NodeDeletionTimeout t).

Definition defaultKThreesControlPlaneSpec (s : KThreesControlPlaneSpec) (namespace : string)
    : KThreesControlPlaneSpec :=
  let replicas := match Replicas s with None => Some 1%Z | r => r end in
  let ref := TemplateInfrastructureRef (MachineTemplate s) in
  let ref' := if String.eqb (RefNamespace ref) "" then with_ref_namespace namespace ref else ref in
  mkKCPSpec replicas (Version s)
    (with_server_config (defaultServerConfig (ServerConfig (KCPConfigSpec s))) (KCPConfigSpec s))
    (RolloutAfter s) (with_infra_ref ref' (MachineTemplate s)) (KCPRemediationStrategy s).

(** [KThreesControlPlane.Default]. *)
Definition KThreesControlPlane_Default (k : KThreesControlPlane) : KThreesControlPlane :=
  mkKCP (KCPMeta k) (defaultKThreesControlPlaneSpec (KCPSpec k) (Namespace (KCPMeta k)))
    (KCPStatus k).

(** ** Properties *)

Lemma cipher_loop_app acc ccs : cipher_loop acc ccs = acc +++ cipher_loop "" ccs.
Proof.
  revert acc. induction ccs as [|c ccs IH]; intros acc; simpl; [by rewrite append_nil_r|].
  rewrite IH, (IH (c +++ ",")). by rewrite append_assoc.
Qed.

Lemma TrimRight_comma s : TrimRight (s +++ ",") ascii_comma = TrimRight s ascii_comma.
Proof. rewrite TrimRight_app. done. Qed.

Lemma TrimRight_id s : has_char ascii_comma s = false -> TrimRight s ascii_comma = s.
Proof.
  induction s as [|a s IH]; simpl; [done|]. intros [Ha Hs]%orb_false_iff.
  rewrite (IH Hs), Ha. by destruct s.
Qed.

(** The loop builds what [strings.Join] would, for any names without commas
    of which the last is not empty. *)
Lemma cipher_loop_Join ccs :
  (forall c, c ∈ ccs -> has_char ascii_comma c = false /\ c <> "") ->
  TrimRight (cipher_loop "" ccs) ascii_comma = Join ccs ",".
Proof.
  induction ccs as [|c ccs IH]; intros Hc; [done|]. simpl cipher_loop.
  rewrite cipher_loop_app. destruct ccs as [|c' ccs].
  - simpl. rewrite append_nil_r, TrimRight_comma. apply TrimRight_id, Hc. by left.
  - rewrite TrimRight_app, IH; [|intros; apply Hc; by right].
    assert (HJ : exists a t, Join (c' :: ccs) "," = String a t).
    { destruct (Hc c') as [_ Hne]; [right; by left|].
      destruct c' as [|a t]; [done|]. destruct ccs; simpl; eauto. }
    destruct HJ as (a & t & HJ). rewrite HJ. rewrite append_assoc. simpl.
    by rewrite <- HJ.
Qed.

(** What a joining server's configuration has instead of the initial one's. *)
Definition as_join (serverURL : string) (c : K3sServerConfig) : K3sServerConfig :=
  let a := SrvAgent c in
  mkK3sServerConfig (SrvDisableCloudController c) (SrvKubeAPIServerArgs c)
    (SrvKubeControllerManagerArgs c) (SrvKubeSchedulerArgs c) (SrvTLSSan c) (SrvBindAddress c)
    (SrvHTTPSListenPort c) (SrvAdvertiseAddress c) (SrvAdvertisePort c) (SrvClusterCidr c)
    (SrvServiceCidr c) (SrvClusterDNS c) (SrvClusterDomain c) (SrvDisableComponents c) false
    (SrvSystemDefaultRegistry c)
    (mkK3sAgentConfig (AgentToken a) serverURL (AgentKubeletArgs a) (AgentNodeLabels a)
       (AgentTaints a) (AgentPrivateRegistry a) (AgentKubeProxyArgs a) (AgentNodeName a)).

(** A server that joins gets the configuration of the initial server,
    except that it does not initialise a cluster and has the URL to join; a
    worker gets exactly the agent part of it; and the API server of both is
    started with anonymous authentication and the comma-separated list of the
    eight cipher suites, after the user's own arguments. *)
Theorem join_config_is_init_config serverURL token endpoint serverConfig agentConfig :
  let init := GenerateInitControlPlaneConfig endpoint token serverConfig agentConfig in
  let join := GenerateJoinControlPlaneConfig serverURL token endpoint serverConfig agentConfig in
  join = as_join serverURL init
  /\ SrvAgent join = GenerateWorkerConfig serverURL token serverConfig agentConfig
  /\ SrvClusterInit init = true
  /\ SrvKubeAPIServerArgs join
     = Some (elems (KubeAPIServerArgs serverConfig)
             ++ ["anonymous-auth=true"; "tls-cipher-suites=" +++ Join ciphers ","])
  /\ SrvTLSSan join = Some (elems (TLSSan serverConfig) ++ [endpoint]).
Proof.
  assert (Harg : getTLSCipherSuiteArg = "tls-cipher-suites=" +++ Join ciphers ",").
  { unfold getTLSCipherSuiteArg. rewrite cipher_loop_Join; [done|].
    intros c Hc. unfold ciphers in Hc. split.
    - repeat (apply elem_of_cons in Hc as [->|Hc]; [done|]). by apply elem_of_nil in Hc.
    - intros ->. repeat (apply elem_of_cons in Hc as [?|Hc]; [done|]).
      by apply elem_of_nil in Hc. }
  rewrite <- Harg. repeat split;
    unfold GenerateJoinControlPlaneConfig; simpl; unfold go_append;
    by repeat case_match.
Qed.

Lemma defaultServerConfig_idem c :
  defaultServerConfig (defaultServerConfig c) = defaultServerConfig c.
Proof.
  destruct c as [a1 a2 a3 a4 a5 a6 a7 a8 a9 a10 a11 a12 a13 a14 dcc cpn a17 a18].
  by destruct dcc, cpn.
Qed.

(** The control plane's webhook fills what is missing and nothing else.
    Afterwards the replicas, the namespace of the infrastructure template (when
    the object has a namespace), the cloud-controller switch and the cloud
    provider are set; a field the user set keeps its value; defaulting again
    changes nothing; and the KThreesConfig webhook leaves a configuration made
    from a defaulted control plane as it is. *)
Theorem default_control_plane (k : KThreesControlPlane) :
  let d := KThreesControlPlane_Default k in
  let sc := ServerConfig (KCPConfigSpec (KCPSpec k)) in
  let sc' := ServerConfig (KCPConfigSpec (KCPSpec d)) in
  Replicas (KCPSpec d) = Some (default 1%Z (Replicas (KCPSpec k)))
  /\ DisableCloudController sc' = Some (default true (DisableCloudController sc))
  /\ CloudProviderName sc' = Some (default "external" (CloudProviderName sc))
  /\ (Namespace (KCPMeta k) <> "" ->
      RefNamespace (TemplateInfrastructureRef (MachineTemplate (KCPSpec d))) <> "")
  /\ KThreesControlPlane_Default d = d
  /\ (forall om st,
        let c := mkKThreesConfig om (KCPConfigSpec (KCPSpec d)) st in
        KThreesConfig_Default c = c)
  /\ getDisableCloudController sc' = getDisableCloudController sc.
Proof.
  destruct k as [om [reps v [fs pre post ac sc cv] ra [tl ta [rk rn rname ru rav] t1 t2 t3] rs] st].
  destruct sc as [a1 a2 a3 a4 a5 a6 a7 a8 a9 a10 a11 a12 a13 a14 dcc cpn a17 a18].
  unfold KThreesControlPlane_Default, defaultKThreesControlPlaneSpec, KThreesConfig_Default. simpl.
  assert (HR : forall ns, ns <> "" ->
    RefNamespace (if String.eqb rn "" then mkObjectReference rk ns rname ru rav
                  else mkObjectReference rk rn rname ru rav) <> "").
  { intros ns Hns. by destruct (String.eqb_spec rn ""). }
  repeat split.
  - by destruct reps.
  - by destruct dcc.
  - by destruct cpn.
  - apply HR.
  - unfold with_ref_namespace; simpl. f_equal; f_equal.
    + by destruct reps.
    + by destruct dcc, cpn.
    + unfold with_infra_ref; simpl. f_equal.
      destruct (String.eqb_spec rn "") as [->|Hne]; simpl.
      * destruct (String.eqb_spec (Namespace om) "") as [E|]; [by rewrite E|done].
      * destruct (String.eqb_spec rn ""); done.
  - intros om' st'. by destruct dcc, cpn.
  - by destruct dcc.
Qed.
