(* ===== verification/Certificates.v ===== *)
(** Cluster secrets: their names (pkg/secret/secret.go, const.go) and the
    certificates kept in them (pkg/secret/certificates.go). *)

From S2P Require Import Prelude GoStd Effects ApiTypes Api Capi.

(** ** Names *)

Abbreviation Purpose := string.

Definition KubeconfigDataName : string := "value".
Definition TLSKeyDataName : string := "tls.key".
Definition TLSCrtDataName : string := "tls.crt".
Definition Kubeconfig : Purpose := "kubeconfig".
Definition ClusterCA : Purpose := "ca".
Definition ClientClusterCA : Purpose := "cca".
Definition EtcdCA : Purpose := "etcd".
Definition ServiceAccount : Purpose := "sa".
Definition FrontProxyCA : Purpose := "proxy".
Definition APIServerEtcdClient : Purpose := "apiserver-etcd-client".

Definition allSecretPurposes : list Purpose :=
  [Kubeconfig; ClusterCA; EtcdCA; ServiceAccount; FrontProxyCA; APIServerEtcdClient].

Definition ErrSecretInvalidSuffix : error := ESentinel "not a valid cluster secret name".

(** [Name(cluster, suffix)]; [Name] is a field of [ObjectMeta] here. *)
Definition SecretName (cluster : string) (suffix : Purpose) : string :=
  cluster +++ "-" +++ suffix.

Definition ParseSecretName (name : string) : (string * Purpose) + error :=
  match LastIndex ascii_dash name with
  | None => inr (EWrap "the purpose of the suffix is missing" ErrSecretInvalidSuffix)
  | Some separatorPos =>
      let clusterName := str_take separatorPos name in
      let purposeSuffix := str_drop (S separatorPos) name in
      match find_first (fun purpose => String.eqb purpose purposeSuffix) allSecretPurposes with
      | Some _ => inl (clusterName, purposeSuffix)
      | None => inr (EWrap "invalid purpose suffix" ErrSecretInvalidSuffix)
      end
  end.

(** [GetFromNamespacedName] and [Get]. *)
Definition GetFromNamespacedName {S} (clusterName : ObjectKey) (purpose : Purpose)
    : M S (Secret + error) :=
  call (GetSecret (mkKey (KeyNamespace clusterName) (SecretName (KeyName clusterName) purpose))).

Definition SecretGet {S} (cluster : ObjectKey) (purpose : Purpose) : M S (Secret + error) :=
  GetFromNamespacedName cluster purpose.

(** ** Certificates *)

Record KeyPair := mkKeyPair { Cert : string; Key : string }.

Record Certificate := mkCertificate {
  Generated : bool;
  External : bool;
  CertPurpose : Purpose;
  CertKeyPair : option KeyPair;
  CertFile : string;
  KeyFile : string;
}.

Definition rootOwnerValue : string := "root:root".
Definition DefaultCertificatesDir : string := "/var/lib/rancher/k3s/server/tls".

Definition ErrMissingCertificate : error := ESentinel "missing certificate".
Definition ErrMissingCrt : error := ESentinel "missing crt data".
Definition ErrMissingKey : error := ESentinel "missing key data".
Definition ErrMissingData : error := ESentinel "missing data".

Definition newCertificate (purpose : Purpose) (crt key : string) : Certificate :=
  mkCertificate false false purpose None (DefaultCertificatesDir +++ "/" +++ crt)
    (DefaultCertificatesDir +++ "/" +++ key).

Definition NewCertificatesForInitialControlPlane (config : KThreesConfigSpec) : list Certificate :=
  let certificates :=
    [newCertificate ClusterCA "server-ca.crt" "server-ca.key";
     newCertificate ClientClusterCA "client-ca.crt" "client-ca.key"] in
  if IsEtcdEmbedded config
  then certificates ++ [newCertificate EtcdCA "etcd/server-ca.crt" "etcd/server-ca.key"]
  else certificates.

Definition GetByPurpose (c : list Certificate) (purpose : Purpose) : option Certificate :=
  find_first (fun certificate => String.eqb (CertPurpose certificate) purpose) c.

Definition secretToKeyPair (s : Secret) : KeyPair + error :=
  match gomap_get (SecretData s) TLSCrtDataName with
  | None => inr (EWrap "key tls.crt" ErrMissingData)
  | Some c => inl (mkKeyPair c (default "" (gomap_get (SecretData s) TLSKeyDataName)))
  end.

Definition set_key_pair (kp : KeyPair) (c : Certificate) : Certificate :=
  mkCertificate (Generated c) (External c) (CertPurpose c) (Some kp) (CertFile c) (KeyFile c).

Definition set_generated (kp : KeyPair) (c : Certificate) : Certificate :=
  mkCertificate true (External c) (CertPurpose c) (Some kp) (CertFile c) (KeyFile c).

(** The body of the loop of [Lookup]. *)
Definition lookup_one (clusterName : ObjectKey) : M Certificate unit :=
  certificate <- get ;;
  r <- call (GetSecret (mkKey (KeyNamespace clusterName)
                          (SecretName (KeyName clusterName) (CertPurpose certificate)))) ;;
  match r with
  | inr err =>
      if IsNotFound err then
        if External certificate then throw (EWrap "external certificate not found" err)
        else ret tt
      else throw err
  | inl s =>
      match secretToKeyPair s with
      | inr err => throw err
      | inl kp => modify (set_key_pair kp)
      end
  end.

Definition Lookup (clusterName : ObjectKey) : M (list Certificate) unit :=
  for_each_ptr (lookup_one clusterName).

Fixpoint EnsureAllExist (c : list Certificate) : option error :=
  match c with
  | [] => None
  | certificate :: c' =>
      match CertKeyPair certificate with
      | None => Some ErrMissingCertificate
      | Some kp =>
          if (String.length (Cert kp) =? 0)%nat then
            Some (EWrap ("for certificate " +++ CertPurpose certificate) ErrMissingCrt)
          else if negb (External certificate) && (String.length (Key kp) =? 0)%nat then
            Some (EWrap ("for certificate " +++ CertPurpose certificate) ErrMissingKey)
          else EnsureAllExist c'
      end
  end.

(** ** Generation *)

Definition KeyUsageDigitalSignature : Z := 1.
Definition KeyUsageKeyEncipherment : Z := 4.
Definition KeyUsageCertSign : Z := 32.

Section Generation.
Context `{Crypto} {S : Type}.

Definition ca_template (now : Time) : CertTemplate :=
  {| SerialNumber := 0;
     CommonName := "kubernetes";
     Organization := [];
     NotBefore := now + Minute * -5;
     NotAfter := now + Hour * 24 * 365 * 10;
     KeyUsage := Z.lor (Z.lor KeyUsageKeyEncipherment KeyUsageDigitalSignature) KeyUsageCertSign;
     ExtKeyUsageClientAuth := false;
     MaxPathLenZero := true;
     BasicConstraintsValid := true;
     MaxPathLen := 0;
     IsCA := true |}.

Definition newSelfSignedCACert (key : string) : M S string :=
  now <- call Now ;;
  let tmpl := ca_template now in
  r <- call (CreateCertificate tmpl (inl tmpl) key key) ;;
  b <- lift_wrap "failed to create self signed CA certificate" r ;;
  c <- call (ParseCertificate b) ;;
  lift_res c.

Definition newCertificateAuthority : M S (string * string) :=
  k <- call NewPrivateKey ;;
  key <- lift_res k ;;
  c <- newSelfSignedCACert key ;;
  ret (c, key).

Definition generateCACert : M S KeyPair :=
  let* (x509Cert, privKey) := newCertificateAuthority in
  ret (mkKeyPair (EncodeCertPEM x509Cert) (EncodePrivateKeyPEM privKey)).

Definition generateServiceAccountKeys : M S KeyPair :=
  k <- call NewPrivateKey ;;
  saCreds <- lift_res k ;;
  saPub <- lift_res (EncodePublicKeyPEM saCreds) ;;
  ret (mkKeyPair saPub (EncodePrivateKeyPEM saCreds)).
End Generation.

Section Certificates.
Context `{Crypto}.

(** The method [Generate] of one certificate. *)
Definition Certificate_Generate : M Certificate unit :=
  c <- get ;;
  if String.eqb (CertPurpose c) APIServerEtcdClient then ret tt
  else
    kp <- (if String.eqb (CertPurpose c) ServiceAccount
           then generateServiceAccountKeys else generateCACert) ;;
    modify (set_generated kp).

Definition generate_one : M Certificate unit :=
  certificate <- get ;;
  match CertKeyPair certificate with
  | None => Certificate_Generate
  | Some _ => ret tt
  end.

Definition Generate : M (list Certificate) unit := for_each_ptr generate_one.

(** A nil key pair is dereferenced: the code panics. *)
Definition AsSecret (c : Certificate) (clusterName : ObjectKey) (owner : OwnerReference)
    : option Secret :=
  match CertKeyPair c with
  | None => None
  | Some kp =>
      Some (mkSecret
        (mkObjectMeta (SecretName (KeyName clusterName) (CertPurpose c))
           (KeyNamespace clusterName) "" ""
           (Some {[ ClusterNameLabel := KeyName clusterName ]}) None
           (if Generated c then [owner] else []) [] 0 None [])
        (Some {[ TLSKeyDataName := Key kp; TLSCrtDataName := Cert kp ]})
        ClusterSecretType)
  end.

Definition save_one (clusterName : ObjectKey) (owner : OwnerReference) : M Certificate unit :=
  certificate <- get ;;
  if negb (Generated certificate) then ret tt
  else
    match AsSecret certificate clusterName owner with
    | None => panic
    | Some s => r <- call (CreateSecret s) ;; lift_res r
    end.

Definition SaveGenerated (clusterName : ObjectKey) (owner : OwnerReference)
    : M (list Certificate) unit :=
  for_each_ptr (save_one clusterName owner).

Definition LookupOrGenerate (clusterName : ObjectKey) (owner : OwnerReference)
    : M (list Certificate) unit :=
  Lookup clusterName ;;;
  Generate ;;;
  SaveGenerated clusterName owner.
End Certificates.

(** ** Files *)

Definition cert_file (path permissions content : string) : File :=
  mkFile path rootOwnerValue permissions "" content None.

(** The method [AsFiles] of one certificate; a nil key pair panics. *)
Definition Certificate_AsFiles (c : Certificate) : option (list File) :=
  match CertKeyPair c with
  | None => None
  | Some kp =>
      Some ((if (0 <? String.length (Cert kp))%nat
             then [cert_file (CertFile c) "0640" (Cert kp)] else [])
            ++ (if (0 <? String.length (Key kp))%nat
                then [cert_file (KeyFile c) "0600" (Key kp)] else []))
  end.

Definition files_of (c : list Certificate) (purpose : Purpose) : option (list File) :=
  match GetByPurpose c purpose with
  | None => Some []
  | Some certificate => Certificate_AsFiles certificate
  end.

(** [Certificates.AsFiles]. *)
Definition Certificates_AsFiles (c : list Certificate) : option (list File) :=
  f1 ← files_of c ClusterCA;
  f2 ← files_of c ClientClusterCA;
  f3 ← files_of c EtcdCA;
  f4 ← files_of c APIServerEtcdClient;
  Some (f1 ++ f2 ++ f3 ++ f4).

(** ** Names and purposes *)

(** The purposes a secret name can be parsed back to: those of
    [allSecretPurposes] without a dash. *)
Definition parsed_purposes : list Purpose :=
  [Kubeconfig; ClusterCA; EtcdCA; ServiceAccount; FrontProxyCA].

Lemma parsed_purpose_no_dash p : p ∈ parsed_purposes -> has_char ascii_dash p = false.
Proof.
  unfold parsed_purposes. intros Hp.
  repeat (apply elem_of_cons in Hp as [->|Hp]; [done|]). by apply elem_of_nil in Hp.
Qed.

Lemma purpose_without_dash p :
  p ∈ allSecretPurposes -> has_char ascii_dash p = false -> p ∈ parsed_purposes.
Proof.
  unfold allSecretPurposes. intros Hp Hd. unfold parsed_purposes.
  repeat (apply elem_of_cons in Hp as [->|Hp]; [set_solver|]). by apply elem_of_nil in Hp.
Qed.

(** A secret name parses to a cluster and a purpose exactly when it is the
    name the code gives that cluster's secret of that purpose, for the five
    purposes kubeconfig, ca, etcd, sa and proxy. In particular a cluster name
    may itself contain dashes, and the client CA (suffix cca) and the API
    server's etcd client secret never parse. *)
Theorem ParseSecretName_iff name cluster purpose :
  ParseSecretName name = inl (cluster, purpose)
  <-> name = SecretName cluster purpose /\ purpose ∈ parsed_purposes.
Proof.
  unfold ParseSecretName, SecretName. split.
  - destruct (LastIndex ascii_dash name) as [i|] eqn:Ei; [|done].
    destruct (find_first _ _) as [p|] eqn:Ef; [|done]. intros [= <- <-].
    apply find_first_Some in Ef as [Hin ->%String.eqb_eq].
    apply LastIndex_split in Ei as [Hn Hd]. split; [exact Hn|].
    by apply purpose_without_dash.
  - intros [-> Hp]. pose proof (parsed_purpose_no_dash _ Hp) as Hd.
    change ("-" +++ purpose) with (String ascii_dash purpose).
    rewrite (LastIndex_app ascii_dash cluster purpose Hd), str_take_app, str_drop_S_app.
    destruct (find_first _ _) as [p|] eqn:Ef; [done|].
    rewrite find_first_None in Ef. specialize (Ef purpose).
    rewrite String.eqb_refl in Ef.
    enough (purpose ∈ allSecretPurposes) as Hin by (by specialize (Ef Hin)).
    clear -Hp. unfold parsed_purposes in Hp.
    repeat (apply elem_of_cons in Hp as [->|Hp]; [set_solver|]). by apply elem_of_nil in Hp.
Qed.

(** ** What [LookupOrGenerate] does to the secrets *)

(** The secrets a trace creates, and the keys it finds no secret for. *)
Definition created_secret (e : event) : option Secret :=
  match ev_cmd e with CreateSecret s => Some s | _ => None end.

Definition missing_key (e : event) : option ObjectKey :=
  let '(existT c r) := e in
  match c return Resp c -> option ObjectKey with
  | GetSecret k => fun r => match r with
                            | inr err => if IsNotFound err then Some k else None
                            | inl _ => None
                            end
  | _ => fun _ => None
  end r.

Definition secret_key (s : Secret) : ObjectKey :=
  mkKey (Namespace (SecretMeta s)) (Name (SecretMeta s)).

Definition certificate_key (clusterName : ObjectKey) (c : Certificate) : ObjectKey :=
  mkKey (KeyNamespace clusterName) (SecretName (KeyName clusterName) (CertPurpose c)).

(** A certificate as [NewCertificatesForInitialControlPlane] makes it. *)
Definition fresh (c : Certificate) : Prop :=
  Generated c = false /\ External c = false /\ CertKeyPair c = None
  /\ CertPurpose c <> APIServerEtcdClient.

Section LookupOrGenerate.
Context `{Crypto} (clusterName : ObjectKey) (owner : OwnerReference).

Let key_if (p : Certificate -> bool) (c : Certificate) : option ObjectKey :=
  if p c then Some (certificate_key clusterName c) else None.
Let no_pair (c : Certificate) : bool :=
  match CertKeyPair c with None => true | Some _ => false end.
Let secret_of (c : Certificate) : option Secret :=
  if Generated c then AsSecret c clusterName owner else None.

(** What is known of a certificate after the lookup. *)
Let looked_up (c : Certificate) : Prop :=
  Generated c = false /\ CertPurpose c <> APIServerEtcdClient.

Lemma Lookup_spec cs :
  Forall fresh cs ->
  wp (Lookup clusterName) cs (fun tr cs' o =>
    omap created_secret tr = [] /\ o <> Panic
    /\ (o = Val tt -> Forall looked_up cs' /\ CertPurpose <$> cs' = CertPurpose <$> cs
        /\ omap missing_key tr = omap (key_if no_pair) cs')).
Proof.
  intros Hfresh. rewrite Forall_forall in Hfresh.
  eapply wp_mono; [apply (wp_for_each_ptr (fun tr ys zs =>
    omap created_secret tr = [] /\ Forall looked_up zs /\ CertPurpose <$> zs = CertPurpose <$> ys
    /\ omap missing_key tr = omap (key_if no_pair) zs)
    (fun tr o => omap created_secret tr = [] /\ o <> Panic) _ _ [] [] [])|].
  - done.
  - intros c tr ys zs Hc (Htr & Hzs & Hp & Hm).
    destruct (Hfresh c Hc) as (Hg & Hext & Hk & Hne).
    unfold lookup_one.
    wp_go; simpl; rewrite ?omap_app, ?Htr; simpl; try done;
      rewrite Forall_app, !fmap_app, Hm, Hp; unfold key_if, no_pair; simpl.
    + rewrite !app_nil_r. repeat split; try done. by constructor; [|constructor].
    + rewrite Heqb, Hk. repeat split; try done. by constructor; [|constructor].
  - intros tr zs [[]|e|]; simpl; [|by intros [? ?]..].
    intros (? & ? & ? & ?). repeat split; done.
Qed.

Lemma generateCACert_spec {S} (s : S) :
  wp generateCACert s (fun tr s' o =>
    omap created_secret tr = [] /\ omap missing_key tr = [] /\ s' = s /\ o <> Panic).
Proof. unfold generateCACert, newCertificateAuthority, newSelfSignedCACert. wp_go; done. Qed.

Lemma generateServiceAccountKeys_spec {S} (s : S) :
  wp generateServiceAccountKeys s (fun tr s' o =>
    omap created_secret tr = [] /\ omap missing_key tr = [] /\ s' = s /\ o <> Panic).
Proof. unfold generateServiceAccountKeys. wp_go; done. Qed.

Lemma Generate_spec cs :
  Forall looked_up cs ->
  wp Generate cs (fun tr cs' o =>
    omap created_secret tr = [] /\ omap missing_key tr = [] /\ o <> Panic
    /\ (o = Val tt ->
        Forall (fun c => no_pair c = false) cs' /\ CertPurpose <$> cs' = CertPurpose <$> cs
        /\ omap (key_if Generated) cs' = omap (key_if no_pair) cs)).
Proof.
  intros Hl. rewrite Forall_forall in Hl.
  eapply wp_mono; [apply (wp_for_each_ptr (fun tr ys zs =>
    omap created_secret tr = [] /\ omap missing_key tr = []
    /\ Forall (fun c => no_pair c = false) zs /\ CertPurpose <$> zs = CertPurpose <$> ys
    /\ omap (key_if Generated) zs = omap (key_if no_pair) ys)
    (fun tr o => omap created_secret tr = [] /\ omap missing_key tr = [] /\ o <> Panic)
    _ _ [] [] [])|].
  - done.
  - intros c tr ys zs Hc (Htr & Hm & Hzs & Hp & Hk).
    destruct (Hl c Hc) as (Hg & Hne).
    assert (Hpair : forall m : M Certificate KeyPair,
      CertKeyPair c = None ->
      wp m c (fun tr s' o =>
        omap created_secret tr = [] /\ omap missing_key tr = [] /\ s' = c /\ o <> Panic) ->
      wp m c (fun tr' s' o =>
        match o with
        | Val kp => omap created_secret (tr ++ tr') = [] /\ omap missing_key (tr ++ tr') = []
            /\ Forall (fun c => no_pair c = false) (zs ++ [set_generated kp s'])
            /\ CertPurpose <$> (zs ++ [set_generated kp s']) = CertPurpose <$> (ys ++ [c])
            /\ omap (key_if Generated) (zs ++ [set_generated kp s'])
               = omap (key_if no_pair) (ys ++ [c])
        | _ => omap created_secret (tr ++ tr') = [] /\ omap missing_key (tr ++ tr') = []
            /\ s' = c /\ match o with Panic => False | _ => True end
        end)).
    { intros m Hnone Hm'. eapply wp_mono; [exact Hm'|].
      intros tr1 c1 [kp|e|] (H1 & H2 & -> & H3); rewrite !omap_app, Htr, Hm, H1, H2; [|done..].
      rewrite Forall_app, !fmap_app, ?omap_app, Hp, Hk. unfold key_if, no_pair. simpl.
      rewrite Hnone. repeat split; try done. by constructor; [|constructor]. }
    unfold generate_one, Certificate_Generate.
    wp_go; simpl; rewrite ?app_nil_r.
    + rewrite Forall_app, !fmap_app, ?omap_app, Hp, Hk. simpl.
      unfold key_if, no_pair. simpl. rewrite Heqo, Hg. repeat split; try done.
      by constructor; [rewrite Heqo|constructor].
    + by apply String.eqb_eq in Heqb.
    + eapply wp_mono; [apply Hpair, generateServiceAccountKeys_spec; done|].
      intros tr1 c1 [kp|e|]; rewrite ?wp_modify, ?app_nil_r; [done|..];
        intros (? & ? & _ & ?); repeat split; done.
    + eapply wp_mono; [apply Hpair, generateCACert_spec; done|].
      intros tr1 c1 [kp|e|]; rewrite ?wp_modify, ?app_nil_r; [done|..];
        intros (? & ? & _ & ?); repeat split; done.
  - intros tr zs [[]|e|]; simpl; [|by intros (? & ? & ?)..].
    intros (? & ? & ? & ? & ?). repeat split; done.
Qed.

Lemma save_one_spec c :
  no_pair c = false ->
  wp (save_one clusterName owner) c (fun tr c' o =>
    omap missing_key tr = [] /\ o <> Panic
    /\ omap created_secret tr `prefix_of` omap secret_of [c]
    /\ (o = Val tt -> c' = c /\ omap created_secret tr = omap secret_of [c])).
Proof.
  intros Hpair. unfold save_one. wp_go; simpl; unfold secret_of.
  - apply negb_true_iff in Heqb. rewrite Heqb. repeat split; done.
  - apply negb_false_iff in Heqb. rewrite Heqb, Heqo. repeat split; done.
  - apply negb_false_iff in Heqb. rewrite Heqb, Heqo. repeat split; done.
  - unfold AsSecret in Heqo. unfold no_pair in Hpair. by case_match.
Qed.

Lemma SaveGenerated_spec cs :
  Forall (fun c => no_pair c = false) cs ->
  wp (SaveGenerated clusterName owner) cs (fun tr cs' o =>
    omap missing_key tr = [] /\ o <> Panic
    /\ omap created_secret tr `prefix_of` omap secret_of cs
    /\ (o = Val tt -> cs' = cs /\ omap created_secret tr = omap secret_of cs)).
Proof.
  intros Hk.
  assert (Hloop : forall tr0 ys rest, cs = ys ++ rest ->
    omap missing_key tr0 = [] -> omap created_secret tr0 = omap secret_of ys ->
    wp (for_each_ptr (save_one clusterName owner)) rest (fun tr cs' o =>
      omap missing_key (tr0 ++ tr) = [] /\ o <> Panic
      /\ omap created_secret (tr0 ++ tr) `prefix_of` omap secret_of cs
      /\ (o = Val tt -> cs' = rest
          /\ omap created_secret (tr0 ++ tr) = omap secret_of cs))).
  { intros tr0 ys rest. revert tr0 ys. induction rest as [|c rest IH]; intros tr0 ys -> Hm Hc.
    - unfold wp. simpl. rewrite !app_nil_r, Hc. by repeat split.
    - assert (Hpair : no_pair c = false).
      { rewrite Forall_app, Forall_cons in Hk. tauto. }
      unfold wp. simpl. rewrite always_bind.
      enough (wp (save_one clusterName owner) c (fun tr c' o =>
        omap missing_key tr = [] /\ o <> Panic
        /\ omap created_secret tr `prefix_of` omap secret_of [c]
        /\ (o = Val tt -> c' = c /\ omap created_secret tr = omap secret_of [c]))) as Hone.
      { eapply always_mono; [|exact Hone]. intros tr [c' [[]|e|]]; simpl.
        - intros (H1 & _ & _ & HV). destruct (HV eq_refl) as [-> H2]. rewrite always_bind.
          eapply always_mono; [|apply (IH (tr0 ++ tr) (ys ++ [c]))].
          + intros tr1 [cs1 o1]. simpl. rewrite app_nil_r, <- !app_assoc. simpl.
            intros (? & ? & ? & HV1). repeat split; try done; by destruct HV1 as [-> ?].
          + by rewrite <- app_assoc.
          + by rewrite omap_app, Hm, H1.
          + rewrite !omap_app, Hc, H2. done.
        - intros (H1 & _ & H2 & _). rewrite !omap_app, Hm, H1, Hc. repeat split; try done.
          apply prefix_app. change (c :: rest) with ([c] ++ rest).
          rewrite !omap_app, app_nil_r. apply prefix_app_r. exact H2.
        - by intros (_ & ? & _). }
      by apply save_one_spec. }
  eapply wp_mono; [by apply (Hloop [] [] cs)|]. simpl. done.
Qed.

Lemma secret_of_keys cs :
  Forall (fun c => no_pair c = false) cs ->
  secret_key <$> omap secret_of cs = omap (key_if Generated) cs.
Proof.
  induction cs as [|c cs IH]; intros Hk; [done|].
  apply Forall_cons in Hk as [Hc Hk]. simpl. unfold secret_of at 1, key_if at 1, AsSecret.
  unfold no_pair in Hc. destruct (Generated c); [|by apply IH].
  destruct (CertKeyPair c); [|done]. simpl. f_equal. by apply IH.
Qed.

Lemma LookupOrGenerate_wp cs :
  Forall fresh cs ->
  wp (LookupOrGenerate clusterName owner) cs (fun tr cs' o =>
    o <> Panic
    /\ (secret_key <$> omap created_secret tr) `prefix_of` omap missing_key tr
    /\ (o = Val tt ->
        secret_key <$> omap created_secret tr = omap missing_key tr
        /\ omap created_secret tr = omap secret_of cs'
        /\ Forall (fun c => no_pair c = false) cs'
        /\ CertPurpose <$> cs' = CertPurpose <$> cs)).
Proof.
  intros Hfresh. unfold LookupOrGenerate. apply wp_bind.
  eapply wp_mono; [by apply Lookup_spec|].
  intros tr1 cs1 [[]|e|]; simpl; intros (H1 & H2 & H3);
    rewrite ?H1; [|by split; [done|split; [apply prefix_nil|done]]..].
  destruct (H3 eq_refl) as (Hl & Hp1 & Hm1). clear H3. apply wp_bind.
  eapply wp_mono; [by apply Generate_spec|].
  intros tr2 cs2 [[]|e|]; simpl; intros (G1 & G2 & G3 & G4);
    rewrite ?omap_app, ?H1, ?G1; [|by split; [done|split; [apply prefix_nil|done]]..].
  destruct (G4 eq_refl) as (Hk & Hp2 & Hg). clear G4.
  eapply wp_mono; [by apply SaveGenerated_spec|].
  intros tr3 cs3 o; simpl; intros (S1 & S2 & S3 & S4).
  rewrite !omap_app, H1, G1, G2, S1, Hm1, <- Hg, <- secret_of_keys by done. simpl.
  rewrite app_nil_r. split; [done|]. split.
  - destruct S3 as [k ->]. rewrite fmap_app. by apply prefix_app_r.
  - intros Hv. destruct (S4 Hv) as [-> ->]. by rewrite Hp2, Hp1.
Qed.

(** A creation that fails ends the run with its error. *)
Definition failure_ends {A} (tr : list event) (o : outcome A) : Prop :=
  forall s e, ev (CreateSecret s) (inr e) ∈ tr -> o = Err e.

Lemma no_creation_ends {A} tr (o : outcome A) : omap created_secret tr = [] -> failure_ends tr o.
Proof.
  intros Hn s e Hin. exfalso. assert (Hs : s ∈ omap created_secret tr).
  { apply list_elem_of_omap. eexists. split; [exact Hin|done]. }
  rewrite Hn in Hs. by apply elem_of_nil in Hs.
Qed.

Lemma failure_ends_app {B} tr tr' (o' : outcome B) :
  failure_ends tr (Val tt) -> failure_ends tr' o' -> failure_ends (tr ++ tr') o'.
Proof. intros H1 H2 s e [Hin|Hin]%elem_of_app; [discriminate (H1 s e Hin)|by eapply H2]. Qed.

Lemma save_one_failure c :
  wp (save_one clusterName owner) c (fun tr _ o => failure_ends tr o).
Proof.
  unfold save_one. wp_go; try (by apply no_creation_ends).
  all: intros sec err Hin; apply list_elem_of_singleton in Hin; ev_eq Hin; congruence.
Qed.

Lemma SaveGenerated_failure cs :
  wp (SaveGenerated clusterName owner) cs (fun tr _ o => failure_ends tr o).
Proof.
  eapply wp_mono; [apply (wp_for_each_ptr (fun tr _ _ => failure_ends tr (Val tt)) (@failure_ends unit) _ _ [] [] [])|].
  - intros s e Hin. by apply elem_of_nil in Hin.
  - intros c tr ys zs _ Htr. eapply wp_mono; [apply save_one_failure|]. cbn beta.
    intros tr' c' [[]|e|] Ht; by apply failure_ends_app.
  - by intros tr zs [[]|e|].
Qed.

Lemma LookupOrGenerate_failure cs :
  Forall fresh cs -> wp (LookupOrGenerate clusterName owner) cs (fun tr _ o => failure_ends tr o).
Proof.
  intros Hfresh. unfold LookupOrGenerate. apply wp_bind.
  eapply wp_mono; [by apply Lookup_spec|].
  intros tr1 cs1 [[]|e|]; intros (H1 & _ & H3); [|by apply no_creation_ends..].
  destruct (H3 eq_refl) as (Hl & _). apply wp_bind.
  eapply wp_mono; [by apply Generate_spec|].
  intros tr2 cs2 [[]|e|]; intros (G1 & _); [|by apply no_creation_ends; rewrite omap_app, H1, G1..].
  eapply wp_mono; [apply SaveGenerated_failure|]. cbn beta. intros tr3 cs3 o S1.
  repeat (apply failure_ends_app; [by apply no_creation_ends|]). done.
Qed.
End LookupOrGenerate.

(** The calls that make certificates. *)
Definition certificate_call (c : cmd) : bool :=
  match c with
  | GetSecret _ | CreateSecret _ | Now | NewPrivateKey | CreateCertificate _ _ _ _ | ParseCertificate _ => true
  | _ => false
  end.

Lemma LookupOrGenerate_calls `{Crypto} key owner : issues certificate_call (LookupOrGenerate key owner).
Proof.
  unfold LookupOrGenerate, Lookup, Generate, SaveGenerated, lookup_one, generate_one, save_one.
  issues_go.
Qed.

(** C33: [LookupOrGenerate], run on certificates as the control plane makes
    them, never panics and never replaces a secret: beside making keys and
    certificates it only reads and creates secrets, and updates none. Every
    secret it asks the API server to create has the key of one that the API
    server had just said does not exist, in that order and each once; a creation
    that is refused ends it with that error. When it succeeds it has asked for
    all of those, with the generated key pair and the owner given; and every
    certificate holds a key pair. *)
Theorem LookupOrGenerate_creates_missing `{Crypto} clusterName owner cs tr cs' o :
  Forall fresh cs ->
  runs (LookupOrGenerate clusterName owner) cs tr cs' o ->
  o <> Panic
  /\ Forall (fun e => certificate_call (ev_cmd e) = true) tr
  /\ (forall s e, ev (CreateSecret s) (inr e) ∈ tr -> o = Err e)
  /\ (secret_key <$> omap created_secret tr) `prefix_of` omap missing_key tr
  /\ (o = Val tt ->
      secret_key <$> omap created_secret tr = omap missing_key tr
      /\ omap created_secret tr
         = omap (fun c => if Generated c then AsSecret c clusterName owner else None) cs'
      /\ (forall c, c ∈ cs' -> CertKeyPair c <> None)
      /\ CertPurpose <$> cs' = CertPurpose <$> cs).
Proof.
  intros Hf Hr.
  pose proof (wp_and _ _ _ _ (LookupOrGenerate_wp clusterName owner cs Hf)
    (LookupOrGenerate_failure clusterName owner cs Hf)) as HW.
  rewrite wp_runs in HW. destruct (HW _ _ _ Hr) as ((H1 & H2 & H3) & H4).
  split; [done|]. split; [by eapply issues_runs, Hr; apply LookupOrGenerate_calls|].
  split; [exact H4|]. split; [done|]. intros Hv. destruct (H3 Hv) as (? & ? & Hk & ?). split_and!; try done.
  intros c Hc E. rewrite Forall_forall in Hk. specialize (Hk c Hc). by rewrite E in Hk.
Qed.

#[local] Existing Instance reference.crypto.

Example LookupOrGenerate_witness :
  exists tr cs', runs (LookupOrGenerate (mkKey "ns" "c") (mkOwnerReference "" "" "" "" None None))
      [newCertificate ClusterCA "crt" "key"; newCertificate EtcdCA "crt" "key"] tr cs' (Val tt)
  /\ secret_key <$> omap created_secret tr = [mkKey "ns" "c-ca"; mkKey "ns" "c-etcd"].
Proof.
  eexists _, _. split; [apply (runs_of_run default_handler); vm_compute; reflexivity|].
  pose proof (LookupOrGenerate_creates_missing (mkKey "ns" "c")
    (mkOwnerReference "" "" "" "" None None)
    [newCertificate ClusterCA "crt" "key"; newCertificate EtcdCA "crt" "key"]) as H.
  edestruct H as (_ & _ & _ & _ & H3).
  - repeat constructor; done.
  - apply (runs_of_run default_handler). vm_compute. reflexivity.
  - destruct (H3 eq_refl) as [-> _]. reflexivity.
Defined.
