(* ===== verification/Kubeconfig.v ===== *)
(** Kubeconfig secrets (pkg/kubeconfig/kubeconfig.go): the client configuration
    of a cluster's administrator, made from the cluster's two certificate
    authorities, its secret and its renewal. *)

From S2P Require Import Prelude GoStd Effects ApiTypes Api Capi Certificates.

Definition ErrDependentCertificateNotFound : error := ESentinel "could not find secret ca".
Definition ErrCertNotInKubeconfig : error := ESentinel "certificate not found in config".
Definition ErrCAPrivateKeyNotFound : error := ESentinel "CA private key not found".

(** ** Client configurations

    [clientcmd]'s [api.Config], with its text and the expiry of a certificate
    as parameters. *)
Record ConfigCluster := mkConfigCluster {
  Server : string;
  CertificateAuthorityData : string;
}.
Record ConfigContext := mkConfigContext { ContextCluster : string; ContextAuthInfo : string }.
Record AuthInfo := mkAuthInfo {
  ClientKeyData : string;
  ClientCertificateData : string;
}.
Record Config := mkConfig {
  ConfigClusters : gmap string ConfigCluster;
  Contexts : gmap string ConfigContext;
  AuthInfos : gmap string AuthInfo;
  CurrentContext : string;
}.

Class ClientCmd := {
  clientcmd_Write : Config -> string + error;
  clientcmd_Load : string -> Config + error;
  CertNotAfter : string -> Time;
}.

(** [t.Sub(u)]: a duration of 64 bits, at its bounds when it does not fit. *)
Definition Time_Sub (t u : Time) : Z := Z.max int64_min (Z.min (- int64_min - 1) (t - u)).

Section Kubeconfig.
Context `{CAPI} `{Crypto} `{ClientCmd} {S : Type}.

(** ** Making one *)

Definition client_config (clusterName endpoint clientKey clientCert serverCACert : string) : Config :=
  let userName := clusterName +++ "-admin" in
  let contextName := userName +++ "@" +++ clusterName in
  mkConfig
    {[ clusterName := mkConfigCluster endpoint (EncodeCertPEM serverCACert) ]}
    {[ contextName := mkConfigContext clusterName userName ]}
    {[ userName := mkAuthInfo (EncodePrivateKeyPEM clientKey) (EncodeCertPEM clientCert) ]}
    contextName.

Definition New (clusterName endpoint clientCACert clientCAKey serverCACert : string) : M S Config :=
  k <- call NewPrivateKey ;;
  clientKey <- lift_wrap "unable to create private key" k ;;
  c <- call (NewSignedCert "kubernetes-admin" ["system:masters"] clientKey clientCACert clientCAKey) ;;
  clientCert <- lift_wrap "unable to sign certificate" c ;;
  ret (client_config clusterName endpoint clientKey clientCert serverCACert).

(** A secret that the kubeconfig depends on. *)
Definition dependent_secret (clusterName : ObjectKey) (purpose : Purpose) : M S Secret :=
  r <- GetFromNamespacedName clusterName purpose ;;
  match r with
  | inr err => if IsNotFound err then throw ErrDependentCertificateNotFound else throw err
  | inl s => ret s
  end.

Definition data_of (s : Secret) (k : string) : string := default "" (gomap_get (SecretData s) k).

(** [certs.DecodeCertPEM] and [DecodePrivateKeyPEM] may find nothing. *)
Definition decoded (wrap : string) (missing : error) (r : option string + error) : M S string :=
  match r with
  | inr err => throw (EWrap wrap err)
  | inl None => throw missing
  | inl (Some x) => ret x
  end.

Definition generateKubeconfig (clusterName : ObjectKey) (endpoint : string) : M S string :=
  clusterCA <- dependent_secret clusterName ClusterCA ;;
  clientClusterCA <- dependent_secret clusterName ClientClusterCA ;;
  clientCACert <- decoded "failed to decode CA Cert" ErrCertNotInKubeconfig
    (DecodeCertPEM (data_of clientClusterCA TLSCrtDataName)) ;;
  clientCAKey <- decoded "failed to decode private key" ErrCAPrivateKeyNotFound
    (DecodePrivateKeyPEM (data_of clientClusterCA TLSKeyDataName)) ;;
  serverCACert <- decoded "failed to decode CA Cert" ErrCertNotInKubeconfig
    (DecodeCertPEM (data_of clusterCA TLSCrtDataName)) ;;
  c <- try (New (KeyName clusterName) endpoint clientCACert clientCAKey serverCACert) ;;
  cfg <- lift_wrap "failed to generate a kubeconfig" c ;;
  lift_wrap "failed to serialize config to yaml" (clientcmd_Write cfg).

Definition GenerateSecretWithOwner (clusterName : ObjectKey) (data : string) (owner : OwnerReference)
    : Secret :=
  mkSecret
    (mkObjectMeta (SecretName (KeyName clusterName) Kubeconfig) (KeyNamespace clusterName) "" ""
       (Some {[ ClusterNameLabel := KeyName clusterName ]}) None [owner] [] 0 None [])
    (Some {[ KubeconfigDataName := data ]}) "".

(** The owner reference of [GenerateSecret] and [CreateSecret]. *)
Definition cluster_owner (cluster : Cluster) : OwnerReference :=
  mkOwnerReference "cluster.x-k8s.io/v1beta1" "Cluster" (Name (ClusterMeta cluster))
    (UID (ClusterMeta cluster)) None None.

Definition GenerateSecret (cluster : Cluster) (data : string) : Secret :=
  GenerateSecretWithOwner (ClusterKey cluster) data (cluster_owner cluster).

Definition CreateSecretWithOwner (clusterName : ObjectKey) (endpoint : string)
    (owner : OwnerReference) : M S unit :=
  let server := "https://" +++ endpoint in
  out <- generateKubeconfig clusterName server ;;
  r <- call (CreateSecret (GenerateSecretWithOwner clusterName out owner)) ;;
  lift_res r.

(** [endpoint] is the text of the cluster's endpoint. *)
Definition CreateKubeconfigSecret (cluster : Cluster) (endpoint : string) : M S unit :=
  CreateSecretWithOwner (ClusterKey cluster) endpoint (cluster_owner cluster).

(** ** Renewing one *)

Definition toKubeconfigBytes (out : Secret) : string + error :=
  match gomap_get (SecretData out) KubeconfigDataName with
  | Some data => inl data
  | None => inr (ENew "missing key in secret data")
  end.

(** The loop over the users stops at the first that expires; a certificate
    that decodes to nil is dereferenced. *)
Fixpoint expires_soon (now threshold : Z) (infos : list AuthInfo) : M S bool :=
  match infos with
  | [] => ret false
  | authInfo :: infos' =>
      match DecodeCertPEM (ClientCertificateData authInfo) with
      | inr err => throw (EWrap "failed to decode kubeconfig client certificate" err)
      | inl None => panic
      | inl (Some cert) =>
          if (Time_Sub (CertNotAfter cert) now <? threshold)%Z then ret true
          else expires_soon now threshold infos'
      end
  end.

Definition NeedsClientCertRotation `{MapOrder} (configSecret : Secret) (threshold : Z) : M S bool :=
  now <- call Now ;;
  data <- lift_res (toKubeconfigBytes configSecret) ;;
  config <- lift_wrap "failed to convert kubeconfig Secret into a clientcmdapi.Config"
    (clientcmd_Load data) ;;
  expires_soon now threshold (range_values (AuthInfos config)).

(** A configuration without an entry for the cluster is dereferenced. *)
Definition RegenerateSecret (configSecret : Secret) : M S unit :=
  n <- lift_wrap "failed to parse secret name" (ParseSecretName (Name (SecretMeta configSecret))) ;;
  let clusterName := n.1 in
  data <- lift_res (toKubeconfigBytes configSecret) ;;
  config <- lift_wrap "failed to convert kubeconfig Secret into a clientcmdapi.Config"
    (clientcmd_Load data) ;;
  match ConfigClusters config !! clusterName with
  | None => panic
  | Some c =>
      out <- generateKubeconfig (mkKey (Namespace (SecretMeta configSecret)) clusterName) (Server c) ;;
      match gomap_set KubeconfigDataName out (SecretData configSecret) with
      | None => panic
      | Some d =>
          r <- call (UpdateSecret (mkSecret (SecretMeta configSecret) d
                                     (SecretType configSecret))) ;;
          lift_res r
      end
  end.

(** ** What is in a kubeconfig

    The text [data] is that of a configuration for the administrators' group
    whose key and certificate were made in [tr] and signed with the client
    authority that [tr] read, and which trusts the cluster authority that [tr]
    read. *)
Definition kubeconfig_of (tr : list event) (clusterName : ObjectKey) (server data : string) : Prop :=
  exists ca cca clientCACert clientCAKey serverCACert key cert,
    ev (GetSecret (mkKey (KeyNamespace clusterName) (SecretName (KeyName clusterName) ClusterCA)))
       (inl ca) ∈ tr
    /\ ev (GetSecret (mkKey (KeyNamespace clusterName) (SecretName (KeyName clusterName) ClientClusterCA)))
       (inl cca) ∈ tr
    /\ DecodeCertPEM (data_of ca TLSCrtDataName) = inl (Some serverCACert)
    /\ DecodeCertPEM (data_of cca TLSCrtDataName) = inl (Some clientCACert)
    /\ DecodePrivateKeyPEM (data_of cca TLSKeyDataName) = inl (Some clientCAKey)
    /\ ev NewPrivateKey (inl key) ∈ tr
    /\ ev (NewSignedCert "kubernetes-admin" ["system:masters"] key clientCACert clientCAKey) (inl cert) ∈ tr
    /\ clientcmd_Write (client_config (KeyName clusterName) server key cert serverCACert) = inl data.

Lemma kubeconfig_of_mono tr tr' clusterName server data :
  kubeconfig_of tr clusterName server data -> tr ⊆ tr' -> kubeconfig_of tr' clusterName server data.
Proof.
  intros (ca & cca & c1 & k1 & c2 & key & cert & Hk) Hs. exists ca, cca, c1, k1, c2, key, cert.
  naive_solver.
Qed.

Lemma generateKubeconfig_ok clusterName endpoint (s : S) :
  wp (generateKubeconfig clusterName endpoint) s (fun tr s' o =>
    s' = s /\ mgmt_quiet tr /\ o <> Panic
    /\ forall data, o = Val data -> kubeconfig_of tr clusterName endpoint data).
Proof.
  unfold generateKubeconfig, dependent_secret, GetFromNamespacedName, decoded, New.
  wp_go; (split; [done|]); (split; [by repeat constructor|]); (split; [done|]); intros data [= <-].
  subst. simpl. eexists s0, s1, _, _, _, _, _.
  split_and!; try eassumption; simpl; rewrite !elem_of_cons; tauto.
Qed.

(** The update that renews the kubeconfig in [sec]: the server stays. *)
Definition renewal (tr : list event) (sec : Secret) (c : cmd) : Prop :=
  exists clusterName purpose old config cl data d,
    ParseSecretName (Name (SecretMeta sec)) = inl (clusterName, purpose)
    /\ toKubeconfigBytes sec = inl old /\ clientcmd_Load old = inl config
    /\ ConfigClusters config !! clusterName = Some cl
    /\ kubeconfig_of tr (mkKey (Namespace (SecretMeta sec)) clusterName) (Server cl) data
    /\ gomap_set KubeconfigDataName data (SecretData sec) = Some d
    /\ c = UpdateSecret (mkSecret (SecretMeta sec) d (SecretType sec)).

Lemma RegenerateSecret_ok sec (s : S) :
  wp (RegenerateSecret sec) s (fun tr s' o =>
    s' = s /\ (issued is_mgmt_write tr <= 1)%nat
    /\ (forall e, e ∈ tr -> is_mgmt_write (ev_cmd e) = true -> renewal tr sec (ev_cmd e))
    /\ (o = Val tt -> issued is_mgmt_write tr = 1%nat)).
Proof.
  assert (HQ : forall tr s' (o : outcome unit), s' = s -> mgmt_quiet tr -> o <> Val tt ->
    s' = s /\ (issued is_mgmt_write tr <= 1)%nat
    /\ (forall e, e ∈ tr -> is_mgmt_write (ev_cmd e) = true -> renewal tr sec (ev_cmd e))
    /\ (o = Val tt -> issued is_mgmt_write tr = 1%nat)).
  { intros tr s' o -> Q Ho. rewrite (mgmt_quiet_issued is_mgmt_write tr) by done.
    split_and!; [done|lia| |done]. intros e He Hw.
    by rewrite (mgmt_quiet_not_in is_mgmt_write tr e) in Hw. }
  unfold RegenerateSecret. apply wp_bind.
  destruct (ParseSecretName _) as [[clusterName purpose]|err] eqn:Ep; cbn [lift_wrap];
    [apply wp_ret|apply wp_throw, HQ; by repeat constructor].
  cbn beta zeta. apply wp_bind.
  destruct (toKubeconfigBytes sec) as [old|err] eqn:Eo; cbn [lift_res];
    [apply wp_ret|apply wp_throw, HQ; by repeat constructor].
  apply wp_bind. destruct (clientcmd_Load old) as [config|err] eqn:El; cbn [lift_wrap];
    [apply wp_ret|apply wp_throw, HQ; by repeat constructor].
  simpl fst. destruct (ConfigClusters config !! clusterName) as [cl|] eqn:Ec;
    [|apply wp_panic, HQ; by repeat constructor].
  apply wp_bind. eapply wp_mono; [apply generateKubeconfig_ok|].
  intros tr s' o (-> & Q & Hp & Hd). destruct o as [data|err|]; [|by apply HQ|done].
  destruct (gomap_set KubeconfigDataName data (SecretData sec)) as [d|] eqn:Es;
    [|apply wp_panic, HQ; [done| |done]; simpl; by rewrite app_nil_r].
  apply wp_bind, wp_call. intros r.
  assert (Hev : forall e, e ∈ tr ++ [ev (UpdateSecret (mkSecret (SecretMeta sec) d (SecretType sec))) r] ->
    is_mgmt_write (ev_cmd e) = true ->
    renewal (tr ++ [ev (UpdateSecret (mkSecret (SecretMeta sec) d (SecretType sec))) r]) sec (ev_cmd e)).
  { intros e [He|He%list_elem_of_singleton]%elem_of_app Hw;
      [by rewrite (mgmt_quiet_not_in is_mgmt_write tr e) in Hw|]. subst e.
    exists clusterName, purpose, old, config, cl, data, d. split_and!; try done.
    eapply kubeconfig_of_mono; [by apply Hd|]. intros x. rewrite elem_of_app. auto. }
  destruct r; cbn [lift_res]; [apply wp_ret|apply wp_throw]; simpl;
    rewrite issued_app, issued_cons, issued_nil, (mgmt_quiet_issued is_mgmt_write tr) by done; simpl;
    (split; [done|]); (split; [lia|]); (split; [exact Hev|done]).
Qed.
End Kubeconfig.
