(* ===== verification/Token.v ===== *)
(** The join token of a cluster (pkg/token/token.go). *)

From S2P Require Import Prelude GoStd Effects ApiTypes Api Capi.

(** What the code needs of an owner object: its key, kind and UID. *)
Record Owner := mkOwner {
  OwnerObjName : string;
  OwnerObjNamespace : string;
  OwnerObjUID : string;
  OwnerObjAPIVersion : string;
  OwnerObjKind : string;
}.

(** [metav1.NewControllerRef(owner, owner's kind)]. *)
Definition NewControllerRef (o : Owner) : OwnerReference :=
  mkOwnerReference (OwnerObjAPIVersion o) (OwnerObjKind o) (OwnerObjName o) (OwnerObjUID o)
    (Some true) (Some true).

Definition is_controller (r : OwnerReference) : bool :=
  match OwnerController r with Some b => b | None => false end.

Definition name (clusterName : string) : string := clusterName +++ "-token".

(** The hexadecimal text of bytes ([hex.EncodeToString]). *)
Definition hex_digit (n : nat) : ascii :=
  ascii_of_nat (if (n <? 10)%nat then 48 + n else 87 + n).

Fixpoint EncodeToString (bs : list Byte.byte) : string :=
  match bs with
  | [] => ""
  | b :: bs' =>
      let n := N.to_nat (Byte.to_N b) in
      String (hex_digit (n / 16)) (String (hex_digit (n mod 16)) (EncodeToString bs'))
  end.

Definition randomB64 {S} (size : nat) : M S string :=
  r <- call (RandRead size) ;;
  match r with
  | inr err => throw err
  | inl token => ret (EncodeToString token)
  end.

Definition getSecret {S} (clusterKey : ObjectKey) : M S Secret :=
  r <- call (GetSecret (mkKey (KeyNamespace clusterKey) (name (KeyName clusterKey)))) ;;
  lift_res r.

(** The loop of [upsertControllerRef] over the owner references. *)
Fixpoint upsert_loop (newControllerRef : OwnerReference) (refs updated : list OwnerReference)
    (controllerRefUpdated : bool) : list OwnerReference * bool :=
  match refs with
  | [] => (updated, controllerRefUpdated)
  | ownerRef :: refs' =>
      if is_controller ownerRef
      then upsert_loop newControllerRef refs' (updated ++ [newControllerRef]) true
      else upsert_loop newControllerRef refs' (updated ++ [ownerRef]) controllerRefUpdated
  end.

Definition upsertControllerRef (controllee : ObjectMeta) (controller : Owner) : ObjectMeta :=
  let newControllerRef := NewControllerRef controller in
  let '(updated, controllerRefUpdated) :=
    upsert_loop newControllerRef (OwnerReferences controllee) [] false in
  with_owner_references
    (if controllerRefUpdated then updated else updated ++ [newControllerRef]) controllee.

Section Token.
(** [metav1.IsControlledBy] and [controllerutil.SetControllerReference], which
    may fail; the code ignores its error. *)
Context (IsControlledBy : ObjectMeta -> Owner -> bool)
  (SetControllerReference : Owner -> ObjectMeta -> ObjectMeta).

Definition generateAndStore {S} (clusterKey : ObjectKey) (owner : Owner) : M S string :=
  t <- try (randomB64 16) ;;
  match t with
  | inr err => throw (ENew "failed to generate token")
  | inl tokn =>
      let om := mkObjectMeta (name (KeyName clusterKey)) (KeyNamespace clusterKey) "" ""
        (Some {[ ClusterNameLabel := KeyName clusterKey ]}) None [] [] 0 None [] in
      let secret := mkSecret (SetControllerReference owner om) (Some {[ "value" := tokn ]})
        ClusterSecretType in
      r <- call (CreateSecret secret) ;;
      match r with
      | inr err => throw (ENew "failed to store token")
      | inl _ => ret tokn
      end
  end.

(** A nil secret is dereferenced when the lookup fails with any other error
    than not-found: the code panics. *)
Definition Reconcile {S} (clusterKey : ObjectKey) (owner : Owner) : M S unit :=
  r <- try (getSecret clusterKey) ;;
  match r with
  | inr err =>
      if IsNotFound err then generateAndStore clusterKey owner ;;; ret tt else panic
  | inl s =>
      if negb (IsControlledBy (SecretMeta s) owner) then
        u <- call (UpdateSecret (mkSecret (upsertControllerRef (SecretMeta s) owner)
                                   (SecretData s) (SecretType s))) ;;
        match u with
        | inr err => throw (ENew "failed to update ownership of token")
        | inl _ => ret tt
        end
      else ret tt
  end.
End Token.

(** [Lookup]. *)
Definition Lookup {S} (clusterKey : ObjectKey) : M S string :=
  r <- try (getSecret clusterKey) ;;
  match r with
  | inr err => throw (ENew "failed to lookup token")
  | inl s =>
      match gomap_get (SecretData s) "value" with
      | Some val => ret val
      | None => throw (ENew "found token secret without value")
      end
  end.

(** ** Owner references *)

Lemma upsert_loop_map new refs updated b :
  upsert_loop new refs updated b
  = (updated ++ ((fun r => if is_controller r then new else r) <$> refs),
     b || existsb is_controller refs).
Proof.
  revert updated b. induction refs as [|r refs IH]; intros updated b; simpl.
  - by rewrite app_nil_r, orb_false_r.
  - destruct (is_controller r); rewrite IH, <- app_assoc; simpl; [|done].
    by rewrite orb_true_r.
Qed.

(** [upsertControllerRef] makes the owner the controller of the object and
    keeps every other owner reference in its place: each controlling reference
    is replaced by the owner's and, when there was none, the owner's is added
    at the end. An object with at most one controller has exactly one
    afterwards, the owner; nothing but the references changes. *)
Theorem upsertControllerRef_spec om owner :
  let refs := OwnerReferences om in
  let refs' := OwnerReferences (upsertControllerRef om owner) in
  refs' = ((fun r => if is_controller r then NewControllerRef owner else r) <$> refs)
          ++ (if existsb is_controller refs then [] else [NewControllerRef owner])
  /\ List.filter (fun r => negb (is_controller r)) refs'
     = List.filter (fun r => negb (is_controller r)) refs
  /\ count is_controller refs' = max 1 (count is_controller refs)
  /\ upsertControllerRef om owner = with_owner_references refs' om.
Proof.
  unfold upsertControllerRef. rewrite upsert_loop_map. simpl.
  set (f := fun r => if is_controller r then NewControllerRef owner else r).
  assert (Hf : forall r, is_controller (f r) = is_controller r).
  { intros r. unfold f. destruct (is_controller r) eqn:E; done. }
  assert (Hkeep : forall l, List.filter (fun r => negb (is_controller r)) (f <$> l)
    = List.filter (fun r => negb (is_controller r)) l).
  { induction l as [|r l IH]; [done|]. simpl. rewrite Hf.
    destruct (is_controller r) eqn:E; simpl; [done|].
    f_equal; [unfold f; by rewrite E|done]. }
  assert (Hcnt : forall l, count is_controller (f <$> l) = count is_controller l).
  { induction l as [|r l IH]; [done|]. by rewrite fmap_cons, !count_cons, Hf, IH. }
  assert (Hex : forall l, existsb is_controller l = false -> count is_controller l = 0).
  { induction l as [|r l IH]; [done|]. simpl. intros [Hr Hl]%orb_false_iff.
    by rewrite count_cons, Hr, IH. }
  assert (Hex' : forall l, existsb is_controller l = true -> 1 <= count is_controller l).
  { induction l as [|r l IH]; [done|]. simpl. rewrite count_cons.
    destruct (is_controller r); simpl; [lia|]. intros ?. specialize (IH ltac:(done)). lia. }
  destruct (existsb is_controller (OwnerReferences om)) eqn:E; simpl; repeat split.
  - by rewrite app_nil_r.
  - apply Hkeep.
  - rewrite Hcnt. specialize (Hex' _ E). lia.
  - rewrite List.filter_app, Hkeep. simpl. by rewrite app_nil_r.
  - rewrite count_app, Hcnt, (Hex _ E). done.
Qed.

(** ** The token is written once *)

(** The secret [generateAndStore] stores. *)
Definition token_secret (SetControllerReference : Owner -> ObjectMeta -> ObjectMeta)
    (clusterKey : ObjectKey) (owner : Owner) (bytes : list Byte.byte) : Secret :=
  mkSecret (SetControllerReference owner
      (mkObjectMeta (name (KeyName clusterKey)) (KeyNamespace clusterKey) "" ""
        (Some {[ ClusterNameLabel := KeyName clusterKey ]}) None [] [] 0 None []))
    (Some {[ "value" := EncodeToString bytes ]}) ClusterSecretType.

(** A stored token is never changed. When the token secret exists, the only
    write [Reconcile] can make is one update of that secret that keeps its data
    and type and makes the owner its controller, and only when the owner does
    not control it yet. When it does not exist, one secret is created, holding
    the hexadecimal text of the sixteen random bytes. When the lookup fails
    otherwise, the code goes on with a nil secret and panics. *)
Theorem token_Reconcile_spec {S} IsControlledBy SetControllerReference
    clusterKey owner (s : S) :
  wp (Reconcile IsControlledBy SetControllerReference clusterKey owner) s (fun tr _ o =>
  exists r tr', tr = ev (GetSecret (mkKey (KeyNamespace clusterKey) (name (KeyName clusterKey)))) r :: tr'
  /\ match r with
     | inl sec =>
         o <> Panic
         /\ (forall e, e ∈ tr' -> IsControlledBy (SecretMeta sec) owner = false
              /\ ev_cmd e = UpdateSecret (mkSecret (upsertControllerRef (SecretMeta sec) owner)
                                            (SecretData sec) (SecretType sec)))
         /\ length tr' <= 1
     | inr err =>
         if IsNotFound err then
           o <> Panic /\ exists b tr'', tr' = ev (RandRead 16) b :: tr''
           /\ match b with
              | inl bytes => exists u, tr'' = [ev (CreateSecret
                  (token_secret SetControllerReference clusterKey owner bytes)) u]
              | inr _ => tr'' = []
              end
         else o = Panic /\ tr' = []
     end).
Proof.
  unfold Reconcile, getSecret, generateAndStore, randomB64.
  wp_go; simpl; do 2 eexists; (split; [reflexivity|]); simpl; rewrite ?Heqb.
  - split; [done|]. split; [|done]. intros e ->%list_elem_of_singleton.
    split; [by apply negb_true_iff|done].
  - split; [done|]. split; [|done]. intros e' ->%list_elem_of_singleton.
    split; [by apply negb_true_iff|done].
  - split; [done|]. split; [|lia]. intros e He. by apply elem_of_nil in He.
  - split; [done|]. eexists (inl _), _. split; [reflexivity|]. by eexists.
  - split; [done|]. eexists (inl _), _. split; [reflexivity|]. by eexists.
  - split; [done|]. eexists (inr _), _. split; [reflexivity|done].
  - done.
Qed.
