(* ===== verification/CapiLib.v ===== *)
(** What the controllers use of Cluster API and of controller-runtime, and of
    values of their own. *)

From S2P Require Import Prelude GoStd Effects ApiTypes Api Capi Certificates Token.

(** ** What the controllers use

    Finalizers, owner references, endpoints, the pause test and the summaries
    of the older conditions, as they are documented. *)
Class ControllerLib `{CAPI} := {
  ContainsFinalizer : list string -> string -> bool;
  ContainsFinalizer_spec : forall fs f, ContainsFinalizer fs f = true <-> f ∈ fs;
  AddFinalizer : string -> list string -> list string;
  AddFinalizer_spec : forall f fs g, g ∈ AddFinalizer f fs <-> g = f \/ g ∈ fs;
  RemoveFinalizer : string -> list string -> list string;
  RemoveFinalizer_spec : forall f fs g, g ∈ RemoveFinalizer f fs <-> g <> f /\ g ∈ fs;
  IsPaused : Cluster -> KThreesControlPlane -> bool;
  config_IsPaused : Cluster -> KThreesConfig -> bool;
  Endpoint_IsValid : string -> Z -> bool;
  Endpoint_IsZero : string -> Z -> bool;
  Endpoint_String : string -> Z -> string;
  EnsureOwnerRef : list OwnerReference -> OwnerReference -> list OwnerReference;
  EnsureOwnerRef_in : forall refs r, exists r', r' ∈ EnsureOwnerRef refs r /\ OwnerUID r' = OwnerUID r;
  util_IsControlledBy : ObjectMeta -> ObjectMeta -> bool;
  metav1_IsControlledBy : ObjectMeta -> Owner -> bool;
  SetControllerReference : Owner -> ObjectMeta -> ObjectMeta;
  ControlPlaneSelectorForCluster : string -> string;
  IsNodeReady : Node -> bool;
  ClientCertificateRenewalDuration : Z;
  machine_is_v1_getter : bool;
  SetAggregate : string -> list Machine -> list V1Condition -> list V1Condition;
  SetAggregate_ne : forall t ms cs t', t' <> t -> v1_Get (SetAggregate t ms cs) t' = v1_Get cs t';
  SetSummary : list string -> list V1Condition -> list V1Condition;
  SetSummary_ne : forall ts cs t', t' <> "Ready" -> v1_Get (SetSummary ts cs) t' = v1_Get cs t';
  v1_Has : list V1Condition -> string -> bool;
  v1_Has_spec : forall cs t, v1_Has cs t = true <-> exists c, v1_Get cs t = Some c;
}.

(** A value of its own, from which the code keeps only the result. *)
Definition with_local {S T A} (x : T) (m : M T A) : M S A := zoom (fun _ => x) (fun _ s => s) m.

Lemma wp_with_local {S T A} (x : T) (m : M T A) (s : S) Q :
  wp m x (fun tr _ o => Q tr s o) -> wp (with_local x m) s Q.
Proof.
  unfold wp, with_local, zoom. rewrite always_bind. intros HQ. eapply always_mono; [|exact HQ].
  intros tr [s' o]. simpl. by rewrite app_nil_r.
Qed.


(** ** A reference instance

    The smallest functions that behave as documented: conditions are not
    summarized, and of the owners the one to ensure comes last. *)
Module reference_lib.
#[local] Existing Instance reference.capi.

Program Definition controller_lib : ControllerLib := {|
  ContainsFinalizer fs f := bool_decide (f ∈ fs);
  AddFinalizer f fs := f :: fs;
  RemoveFinalizer f fs := filter (fun g => g <> f) fs;
  IsPaused _ k := false;
  config_IsPaused _ _ := false;
  Endpoint_IsValid host port := negb (String.eqb host "") && negb (port =? 0)%Z;
  Endpoint_IsZero host port := String.eqb host "" && (port =? 0)%Z;
  Endpoint_String host _ := host;
  EnsureOwnerRef refs r := refs ++ [r];
  util_IsControlledBy _ _ := true;
  metav1_IsControlledBy _ _ := true;
  SetControllerReference _ om := om;
  ControlPlaneSelectorForCluster name := name;
  IsNodeReady _ := true;
  ClientCertificateRenewalDuration := 0%Z;
  machine_is_v1_getter := true;
  SetAggregate _ _ cs := cs;
  SetSummary _ cs := cs;
  v1_Has cs t := bool_decide (is_Some (v1_Get cs t));
|}.
Next Obligation. simpl. intros. apply bool_decide_eq_true. Qed.
Next Obligation. simpl. intros. by rewrite elem_of_cons. Qed.
Next Obligation. simpl. intros. by rewrite list_elem_of_filter. Qed.
Next Obligation. simpl. intros refs r. exists r. split; [|done]. apply elem_of_app. right. left. Qed.
Next Obligation. done. Qed.
Next Obligation. done. Qed.
Next Obligation. simpl. intros. by rewrite bool_decide_eq_true. Qed.
End reference_lib.
