(* ===== verification/Locking.v ===== *)
(** The mutex that lets one machine run the initial k3s server
    (pkg/locking/control_plane_init_mutex.go), and what it guarantees when the
    controller tries to take it for several machines at once.

    [Lock] and [Unlock] are programs over the API server. The second half runs
    any number of them interleaved, one API call at a time, against a server
    of which only the documented behaviour of Get, Create and Delete is
    assumed; its reads come from a cache that may be behind. *)

From S2P Require Import Prelude GoStd Effects Interleave ApiTypes Api.

(** ** The mutex *)

Definition semaphoreInformationKey : string := "lock-information".
Definition configMapName (clusterName : string) : string := clusterName +++ "-lock".

Record information := mkInformation { MachineName : string }.

(** The JSON text of the lock information, written by [encoding/json]. *)
Class InformationCodec := {
  Marshal : information -> string + error;
  Unmarshal : string -> information + error;
}.

Definition setMetadata (cluster : Cluster) : ObjectMeta :=
  let om := ClusterMeta cluster in
  mkObjectMeta (configMapName (Name om)) (Namespace om) "" ""
    (Some {[ ClusterNameLabel := Name om ]}) None
    [mkOwnerReference "cluster.x-k8s.io/v1beta1" "Cluster" (Name om) (UID om) None None] [] 0 None [].

Section Mutex.
Context `{InformationCodec}.

(** [semaphore.information]: a key absent from the data reads as "". *)
Definition getInformation (cm : ConfigMap) : information + error :=
  match Unmarshal (default "" (gomap_get (ConfigMapData cm) semaphoreInformationKey)) with
  | inl li => inl li
  | inr err => inr (EWrap "failed to unmarshal semaphore information" err)
  end.

Definition setInformation (i : information) : gomap string + error :=
  match Marshal i with
  | inl b => inl (Some {[ semaphoreInformationKey := b ]})
  | inr err => inr (EWrap "failed to marshal semaphore information" err)
  end.

Definition lock_key (cluster : Cluster) : ObjectKey :=
  mkKey (Namespace (ClusterMeta cluster)) (configMapName (Name (ClusterMeta cluster))).

Definition Unlock (cluster : Cluster) : IO bool :=
  r <- call (GetConfigMap (lock_key cluster)) ;;
  match r with
  | inr err => if IsNotFound err then ret true else ret false
  | inl cm =>
      d <- call (DeleteConfigMap (mkKey (Namespace (ConfigMapMeta cm)) (Name (ConfigMapMeta cm)))) ;;
      match d with
      | inr err => if IsNotFound err then ret true else ret false
      | inl _ => ret true
      end
  end.

(** The end of [Lock]: create the semaphore. *)
Definition acquire (cluster : Cluster) (machine : Machine) : IO bool :=
  match setInformation (mkInformation (MName machine)) with
  | inr _ => ret false
  | inl data =>
      c <- call (CreateConfigMap (mkConfigMap (setMetadata cluster) data)) ;;
      match c with
      | inr err => if IsAlreadyExists err then ret false else ret false
      | inl _ => ret true
      end
  end.

Definition Lock (cluster : Cluster) (machine : Machine) : IO bool :=
  r <- call (GetConfigMap (lock_key cluster)) ;;
  match r with
  | inr err => if IsNotFound err then acquire cluster machine else ret false
  | inl cm =>
      match getInformation cm with
      | inr _ => ret false
      | inl info =>
          if String.eqb (MachineName info) (MName machine) then ret true
          else
            m <- call (GetMachine (mkKey (Namespace (ClusterMeta cluster)) (MachineName info))) ;;
            match m with
            | inr err => (if IsNotFound err then Unlock cluster else ret true) ;;; ret false
            | inl _ => ret false
            end
      end
  end.
End Mutex.

(** ** Interleaved executions *)

(** The calls the mutex makes. *)
Definition lock_call (c : cmd) : bool :=
  match c with
  | GetConfigMap _ | CreateConfigMap _ | DeleteConfigMap _ | GetMachine _ => true
  | _ => false
  end.

(** A server that holds config maps and machines; [serves w c r w'] is one call.
    The client of the controller writes to the server but reads from a cache that
    follows it, so that a read may answer what was stored at some earlier time:
    [shown w k cm] says that a read of [k] may still answer [cm], and [missed w k]
    that a read may say that there is no machine [k]. The laws are what Kubernetes
    and the cache document: a create fails when the object exists, a failed
    create may or may not have taken effect, reading changes nothing, none of
    these calls adds or removes a machine, and what a cache begins to show has
    been stored since. *)
Class ApiServer (W : Type) := {
  serves : W -> forall c : cmd, resp c -> W -> Prop;
  config_maps : W -> gmap ObjectKey ConfigMap;
  machines : W -> gset ObjectKey;
  shown : W -> ObjectKey -> ConfigMap -> Prop;
  missed : W -> ObjectKey -> Prop;
  serves_get : forall w k r w', serves w (GetConfigMap k) r w' ->
    config_maps w' = config_maps w
    /\ match r with inl cm => shown w k cm | inr _ => True end;
  serves_create : forall w cm r w', serves w (CreateConfigMap cm) r w' ->
    let k := mkKey (Namespace (ConfigMapMeta cm)) (Name (ConfigMapMeta cm)) in
    match r with
    | inl _ => config_maps w !! k = None /\ config_maps w' = <[k := cm]> (config_maps w)
    | inr _ => config_maps w' = config_maps w
        \/ config_maps w !! k = None /\ config_maps w' = <[k := cm]> (config_maps w)
    end;
  serves_delete : forall w k r w', serves w (DeleteConfigMap k) r w' ->
    config_maps w' = config_maps w \/ config_maps w' = delete k (config_maps w);
  serves_machine : forall w k r w', serves w (GetMachine k) r w' ->
    config_maps w' = config_maps w
    /\ match r with inl _ => True | inr e => IsNotFound e = true -> missed w k end;
  serves_machines : forall w c r w', lock_call c = true -> serves w c r w' ->
    machines w' = machines w;
  serves_shown : forall w c r w' k cm, serves w c r w' -> shown w' k cm ->
    shown w k cm \/ config_maps w' !! k = Some cm;
  serves_missed : forall w c r w' k, serves w c r w' -> missed w' k ->
    missed w k \/ k ∉ machines w';
}.

Section Interleaving.
Context `{InformationCodec} {W : Type} `{ApiServer W}.

(** One [Lock] per machine, all running at once. *)
Definition thread : Type := prog (unit * outcome bool).

Definition lockers (cluster : Cluster) (ms : list Machine) : list thread :=
  (fun m => Lock cluster m tt) <$> ms.

(** Thread [i] has returned true. *)
Definition acquired (ts : list thread) (i : nat) : Prop :=
  ts !! i = Some (Ret (tt, Val true)).

(** *** Rely and guarantee

    What every call of every thread keeps: a lock that is stored, or that a read
    may still answer, names one of the machines, and reads find these. *)
Section Exclusion.
Context (cluster : Cluster) (ms : list Machine).

Definition lock_names (cm : ConfigMap) (m : Machine) : Prop :=
  getInformation cm = inl (mkInformation (MName m)).

Definition stored_lock (w : W) : option ConfigMap := config_maps w !! lock_key cluster.

Definition holds (w : W) (m : Machine) : Prop := exists cm, stored_lock w = Some cm /\ lock_names cm m.

Definition machine_key (m : Machine) : ObjectKey :=
  mkKey (Namespace (ClusterMeta cluster)) (MName m).

(** The machine exists, and no read says otherwise. *)
Definition found (w : W) (m : Machine) : Prop :=
  machine_key m ∈ machines w /\ ~ missed w (machine_key m).

Definition lock_inv (w : W) : Prop :=
  (forall cm, stored_lock w = Some cm \/ shown w (lock_key cluster) cm -> exists m, m ∈ ms /\ lock_names cm m)
  /\ forall m, m ∈ ms -> found w m.

(** The lock, once stored, stays, and the cache catches up with what is stored. *)
Definition shows_later (w w' : W) : Prop :=
  forall cm, shown w' (lock_key cluster) cm -> shown w (lock_key cluster) cm \/ stored_lock w' = Some cm.

Definition lock_le (w w' : W) : Prop :=
  (forall cm, stored_lock w = Some cm -> stored_lock w' = Some cm) /\ shows_later w w'.

(** No read answers an earlier lock of the machine's own, which it has released:
    the cache has seen the release. *)
Definition fresh_view (w : W) (m : Machine) : Prop :=
  forall cm, shown w (lock_key cluster) cm -> lock_names cm m -> stored_lock w = Some cm.

(** What a machine relies on: nobody takes its lock away. *)
Definition keeps_own (m : Machine) (w w' : W) : Prop :=
  (holds w m -> holds w' m) /\ (fresh_view w m -> fresh_view w' m).

#[export] Instance lock_le_preorder : PreOrder lock_le.
Proof.
  split; [by intros w; split; [|intros cm; left]|]. intros w1 w2 w3 [H1 S1] [H2 S2].
  split; [auto|]. intros cm Hc. destruct (S2 cm Hc) as [Hc2|]; [|by right].
  destruct (S1 cm Hc2); [by left|right; auto].
Qed.

#[export] Instance keeps_own_preorder m : PreOrder (keeps_own m).
Proof. split; [by intros w|intros w1 w2 w3 [H1 F1] [H2 F2]; split; auto]. Qed.

Lemma holds_le w w' m : lock_le w w' -> holds w m -> holds w' m.
Proof. intros [Hle _] (cm & Hcm & Hi). exists cm. auto. Qed.

Lemma le_keeps_own m w w' : lock_le w w' -> keeps_own m w w'.
Proof.
  intros Hle. split; [by apply holds_le|]. intros Hf cm Hc Hn.
  destruct Hle as [Hs Hl]. destruct (Hl cm Hc); [apply Hs; by apply Hf|done].
Qed.

(** A call that leaves a good lock, and the machines as they are. *)
Lemma served_inv w1 c r w2 :
  serves w1 c r w2 -> machines w2 = machines w1 ->
  (forall cm, stored_lock w2 = Some cm -> exists m, m ∈ ms /\ lock_names cm m) ->
  lock_inv w1 -> lock_inv w2.
Proof.
  intros Hs Hm Hst [Hl Hf]. split.
  - intros cm [Hc|Hc]; [by apply Hst|]. destruct (serves_shown _ _ _ _ _ _ Hs Hc); [apply Hl; by right|by apply Hst].
  - intros m Hin. destruct (Hf m Hin) as [He Hv]. unfold found. rewrite Hm. split; [done|]. intros Hv2.
    apply (serves_missed _ _ _ _ _ Hs) in Hv2 as [?|Hv2]; [done|by rewrite Hm in Hv2].
Qed.

Lemma served_later w1 c r w2 : serves w1 c r w2 -> shows_later w1 w2.
Proof. intros Hs cm Hc. by eapply serves_shown. Qed.

(** A call that leaves the config maps alone. *)
Lemma same_maps w1 c r w2 :
  serves w1 c r w2 -> config_maps w2 = config_maps w1 -> machines w2 = machines w1 ->
  lock_inv w1 -> lock_inv w2 /\ lock_le w1 w2.
Proof.
  intros Hs E Em Hi. assert (Est : stored_lock w2 = stored_lock w1) by (unfold stored_lock; by rewrite E). split.
  - eapply served_inv; [done..| |done]. intros cm. rewrite Est. intros Hc. apply Hi. by left.
  - split; [intros cm; by rewrite Est|by eapply served_later].
Qed.

(** The machines' names survive the JSON text. *)
Hypothesis codec_ok : forall m, m ∈ ms -> exists b,
  Marshal (mkInformation (MName m)) = inl b
  /\ Unmarshal b = inl (mkInformation (MName m)).

(** A thread keeps the lock that is stored, and returns true only with the lock
    of its machine. *)
Abbreviation keeps_lock m p w :=
  (safe serves lock_inv (keeps_own m) lock_le (fun _ c => lock_call c = true)
     (fun w (so : unit * outcome bool) => so.2 = Val true -> holds w m) p w).

Lemma acquire_safe m w : m ∈ ms -> keeps_lock m (acquire cluster m tt) w.
Proof.
  intros Hm. destruct (codec_ok m Hm) as (b & Hb & Hu).
  unfold acquire, setInformation. rewrite Hb. simpl.
  intros w1 Hi _. split; [done|]. intros r w2 Hs.
  pose proof (serves_machines _ (CreateConfigMap _) _ _ eq_refl Hs) as Hms.
  pose proof (serves_create _ _ _ _ Hs) as Hcr. simpl in Hcr.
  set (cm := mkConfigMap (setMetadata cluster) (Some {[semaphoreInformationKey := b]})) in *.
  assert (Hinfo : lock_names cm m).
  { unfold lock_names, getInformation, cm. simpl. rewrite lookup_singleton_eq. simpl. by rewrite Hu. }
  assert (Hput : stored_lock w1 = None -> config_maps w2 = <[lock_key cluster := cm]> (config_maps w1) ->
    lock_inv w2 /\ lock_le w1 w2 /\ holds w2 m).
  { intros Hn He. assert (Est : stored_lock w2 = Some cm) by (unfold stored_lock; by rewrite He, lookup_insert_eq).
    split; [|split].
    - eapply served_inv; [done..| |done]. intros cm' E. rewrite Est in E. injection E as <-. eauto.
    - split; [intros cm' E; congruence|by eapply served_later].
    - by exists cm. }
  destruct r as [[]|e].
  - destruct Hcr as [Hn He]. destruct (Hput Hn He) as (? & ? & ?). by simpl; auto.
  - assert (Hend : lock_inv w2 /\ lock_le w1 w2).
    { destruct Hcr as [Hsame|[Hn He]]; [by eapply same_maps|]. by destruct (Hput Hn He) as (? & ? & ?). }
    destruct Hend as [? ?]. split; [done|]. split; [done|].
    simpl. by destruct (IsAlreadyExists e).
Qed.

Lemma Lock_safe m w : m ∈ ms -> fresh_view w m -> keeps_lock m (Lock cluster m tt) w.
Proof.
  intros Hm Hfresh. unfold Lock. simpl. intros w1 Hi Hr1. apply Hr1 in Hfresh. split; [done|]. intros r w2 Hs.
  pose proof (serves_machines _ (GetConfigMap _) _ _ eq_refl Hs) as Hms.
  destruct (serves_get _ _ _ _ Hs) as [Hsame Hr].
  destruct (same_maps _ _ _ _ Hs Hsame Hms Hi) as [Hi2 Hle2]. split; [done|]. split; [done|].
  destruct r as [cm|e]; [|destruct (IsNotFound e); [by apply acquire_safe|done]].
  destruct (proj1 Hi cm ltac:(by right)) as (h & Hh & Hinfo). unfold lock_names in Hinfo. rewrite Hinfo. simpl.
  destruct (String.eqb_spec (MName h) (MName m)) as [E|].
  - rewrite E in Hinfo. intros _. eapply holds_le; [exact Hle2|]. exists cm. split; [by apply Hfresh|done].
  - simpl. intros w3 Hi3 _. split; [done|]. intros r3 w4 Hs3.
    pose proof (serves_machines _ (GetMachine _) _ _ eq_refl Hs3) as Hms3.
    destruct (serves_machine _ _ _ _ Hs3) as [Hsame3 Hr3].
    destruct (same_maps _ _ _ _ Hs3 Hsame3 Hms3 Hi3) as [Hi4 Hle4]. split; [done|]. split; [done|].
    destruct r3 as [|e]; [done|]. destruct (IsNotFound e); simpl; [|done].
    exfalso. destruct (proj2 Hi3 h Hh) as [_ Hv]. by apply Hv, Hr3.
Qed.

Definition lockers_safe : W * list thread -> Prop :=
  threads_safe serves lock_inv (fun _ => lock_le) (fun _ => lock_le) (fun _ _ _ => True)
    (fun i w so => forall m, ms !! i = Some m -> so.2 = Val true -> holds w m).

Lemma lockers_step s s' : step serves s s' -> lockers_safe s -> lockers_safe s'.
Proof.
  apply step_safe; [intros _; apply lock_le_preorder|..|done].
  intros i w w' so Hle HQ m Hm Ht. eapply holds_le; [exact Hle|]. by apply HQ.
Qed.

(** Nobody has the lock, and no read says that anybody has. *)
Definition unlocked (w : W) : Prop :=
  stored_lock w = None /\ forall cm, ~ shown w (lock_key cluster) cm.

Lemma unlocked_inv w :
  unlocked w -> (forall m, m ∈ ms -> found w m) -> lock_inv w /\ forall m, fresh_view w m.
Proof.
  intros [Hn Hv] Hm. split; [split; [|done]|by intros m cm Hc; destruct (Hv cm)].
  intros cm [Hc|Hc]; [congruence|by destruct (Hv cm)].
Qed.

Lemma lockers_start w :
  unlocked w -> (forall m, m ∈ ms -> found w m) -> lockers_safe (w, lockers cluster ms).
Proof.
  intros Hn Hm0. destruct (unlocked_inv w Hn Hm0) as [Hi Hf]. split; [done|]. simpl. intros i p Hp.
  unfold lockers in Hp. rewrite list_lookup_fmap in Hp.
  destruct (ms !! i) as [m|] eqn:Hm; [|done]. injection Hp as <-.
  eapply safe_mono; [..|apply (Lock_safe m); [by eapply list_elem_of_lookup_2|done]]; try done.
  - intros w1 w2. apply le_keeps_own.
  - simpl. intros w' so Ht m' Hm'. by simplify_eq.
Qed.
End Exclusion.
End Interleaving.

(** C11: mutual exclusion. Any number of machines call [Lock] for a cluster that
    is not locked, their API calls interleaved in any way and failing in any
    way, and their reads answered by a cache that may be behind the server. As
    long as these machines exist and no read misses them, and no read shows a
    lock from before, at most one machine is told it has the lock, and the lock
    that is stored then names that machine. *)
Theorem Lock_mutual_exclusion `{InformationCodec} {W} `{ApiServer W}
    (cluster : Cluster) (ms : list Machine) (w0 w : W) ts i j mi mj :
  (forall m, m ∈ ms -> exists b,
     Marshal (mkInformation (MName m)) = inl b
     /\ Unmarshal b = inl (mkInformation (MName m))) ->
  (forall m, m ∈ ms -> found cluster w0 m) ->
  unlocked cluster w0 ->
  rtc (step serves) (w0, lockers cluster ms) (w, ts) ->
  ms !! i = Some mi -> ms !! j = Some mj ->
  acquired ts i -> acquired ts j ->
  MName mi = MName mj /\ holds cluster w mi.
Proof.
  intros Hcodec Hexist Hfree Hsteps Hmi Hmj Hi Hj.
  assert (Hinv : lockers_safe cluster ms (w, ts)).
  { eapply (rtc_ind_r (lockers_safe cluster ms) (w0, lockers cluster ms)); [|  |exact Hsteps].
    - by apply lockers_start.
    - intros s s' _ Hst. by eapply lockers_step. }
  destruct Hinv as (_ & Hsafe). simpl in Hsafe.
  destruct (Hsafe i _ Hi mi Hmi eq_refl) as (cm & Hcm & Hinfo).
  destruct (Hsafe j _ Hj mj Hmj eq_refl) as (cm' & Hcm' & Hinfo').
  split; [|by exists cm]. unfold lock_names in *. congruence.
Qed.

(** ** A server, and where exclusion fails *)

(** A server that never fails, read through a cache that may be behind: its
    config maps, those it had before, and the machines that exist. *)
Record store := mkStore {
  store_maps : gmap ObjectKey ConfigMap;
  store_past : list (gmap ObjectKey ConfigMap);
  store_machines : gset ObjectKey;
}.

Definition store_write (maps : gmap ObjectKey ConfigMap) (w : store) : store :=
  mkStore maps (store_maps w :: store_past w) (store_machines w).

Definition read_map (maps : gmap ObjectKey ConfigMap) (k : ObjectKey) : ConfigMap + error :=
  match maps !! k with Some cm => inl cm | None => inr (EStatus NotFound) end.

Definition store_handler : handler store := fun c w =>
  match c return resp c * store with
  | GetConfigMap k => (read_map (store_maps w) k, w)
  | CreateConfigMap cm =>
      let k := mkKey (Namespace (ConfigMapMeta cm)) (Name (ConfigMapMeta cm)) in
      match store_maps w !! k with
      | Some _ => (inr (EStatus AlreadyExists), w)
      | None => (inl tt, store_write (<[k := cm]> (store_maps w)) w)
      end
  | DeleteConfigMap k =>
      match store_maps w !! k with
      | Some _ => (inl tt, store_write (delete k (store_maps w)) w)
      | None => (inr (EStatus NotFound), w)
      end
  | GetMachine k =>
      (if decide (k ∈ store_machines w)
       then inl (mkMachine emptyMeta "" "" "" (mkContractRef "" "" "") (mkContractRef "" "" "")
                   None None None "" [] [])
       else inr (EStatus NotFound), w)
  | c => (default_resp c, w)
  end.

(** The server answers as it is, or a read of a config map as it was. *)
Inductive cached_serves (h : handler store) (w : store) : forall c : cmd, resp c -> store -> Prop :=
| serves_now c : cached_serves h w c (h c w).1 (h c w).2
| serves_past k maps : maps ∈ store_past w -> cached_serves h w (GetConfigMap k) (read_map maps k) w.

Definition store_shown (w : store) (k : ObjectKey) (cm : ConfigMap) : Prop :=
  exists maps, maps ∈ store_maps w :: store_past w /\ maps !! k = Some cm.

Definition store_missed (w : store) (k : ObjectKey) : Prop := k ∉ store_machines w.

(** A handler that answers the calls of the lock as the store does, and leaves the
    store alone at all other calls. *)
Definition keeps_store (h : handler store) : Prop :=
  forall c w, if lock_call c then h c w = store_handler c w else (h c w).2 = w.

Lemma read_map_shown maps k w :
  maps ∈ store_maps w :: store_past w ->
  match read_map maps k with inl cm => store_shown w k cm | inr _ => True end.
Proof. intros Hm. unfold read_map. destruct (maps !! k) eqn:E; [|done]. by exists maps. Qed.

(** What a call does to the store, whatever the command. *)
Lemma cached_changes h w c r w' :
  keeps_store h -> cached_serves h w c r w' ->
  w' = w \/ exists maps, w' = store_write maps w.
Proof.
  intros Hk [c0|k maps Hm]; [|by left]. pose proof (Hk c0 w) as Hc.
  destruct (lock_call c0) eqn:El; [rewrite Hc|by left].
  destruct c0; try discriminate El; simpl; try case_match; eauto.
Qed.

#[local] Obligation Tactic := idtac.
Program Definition cached_server (h : handler store) (Hk : keeps_store h) : ApiServer store := {|
  serves := cached_serves h;
  config_maps := store_maps;
  machines := store_machines;
  shown := store_shown;
  missed := store_missed;
|}.
Next Obligation.
  intros h Hk w k r w' Hs.
  refine (match Hs in cached_serves _ _ c r w' return
    match c return resp c -> Prop with
    | GetConfigMap k => fun r => store_maps w' = store_maps w
        /\ match r with inl cm => store_shown w k cm | inr _ => True end
    | _ => fun _ => True
    end r with serves_now _ _ c => _ | serves_past _ _ k maps Hm => _ end).
  - pose proof (Hk c w) as Hc. destruct c; try exact I. simpl in Hc. rewrite Hc. simpl.
    split; [done|]. apply read_map_shown. by left.
  - split; [done|]. apply read_map_shown. by right.
Qed.
Next Obligation.
  intros h Hk w cm r w' Hs.
  refine (match Hs in cached_serves _ _ c r w' return
    match c return resp c -> Prop with
    | CreateConfigMap cm => fun r =>
        let k := mkKey (Namespace (ConfigMapMeta cm)) (Name (ConfigMapMeta cm)) in
        match r with
        | inl _ => store_maps w !! k = None /\ store_maps w' = <[k := cm]> (store_maps w)
        | inr _ => store_maps w' = store_maps w
            \/ store_maps w !! k = None /\ store_maps w' = <[k := cm]> (store_maps w)
        end
    | _ => fun _ => True
    end r with serves_now _ _ c => _ | serves_past _ _ k maps Hm => I end).
  pose proof (Hk c w) as Hc. destruct c; try exact I. simpl in Hc. rewrite Hc. simpl.
  case_match eqn:E; simpl; auto.
Qed.
Next Obligation.
  intros h Hk w k r w' Hs.
  refine (match Hs in cached_serves _ _ c r w' return
    match c with
    | DeleteConfigMap k => store_maps w' = store_maps w \/ store_maps w' = delete k (store_maps w)
    | _ => True
    end with serves_now _ _ c => _ | serves_past _ _ k maps Hm => I end).
  pose proof (Hk c w) as Hc. destruct c; try exact I. simpl in Hc. rewrite Hc. simpl.
  case_match eqn:E; simpl; auto.
Qed.
Next Obligation.
  intros h Hk w k r w' Hs.
  refine (match Hs in cached_serves _ _ c r w' return
    match c return resp c -> Prop with
    | GetMachine k => fun r => store_maps w' = store_maps w
        /\ match r with inl _ => True | inr e => IsNotFound e = true -> store_missed w k end
    | _ => fun _ => True
    end r with serves_now _ _ c => _ | serves_past _ _ k maps Hm => I end).
  pose proof (Hk c w) as Hc. destruct c; try exact I. simpl in Hc. rewrite Hc. simpl.
  by case_decide.
Qed.
Next Obligation.
  intros h Hk w c r w' _ Hs. by destruct (cached_changes h w c r w' Hk Hs) as [->|[maps ->]].
Qed.
Next Obligation.
  intros h Hk w c r w' k cm Hs (maps & Hin & Hm). destruct (cached_changes h w c r w' Hk Hs) as [->|[new ->]].
  - left. by exists maps.
  - apply elem_of_cons in Hin as [->|Hin]; [by right|]. left. by exists maps.
Qed.
Next Obligation.
  intros h Hk w c r w' k Hs Hm. right. done.
Qed.

#[export, refine] Instance store_server : ApiServer store := cached_server store_handler _.
Proof. intros c w. destruct c; done. Defined.

(** Lets the threads of a schedule make one call each, in its order. *)
Fixpoint run_schedule {W A} (h : handler W) (sched : list nat) (s : W * list (prog A))
    : W * list (prog A) :=
  match sched with
  | [] => s
  | i :: sched' =>
      match s.2 !! i with
      | Some (Do c k) =>
          let '(r, w') := h c s.1 in
          run_schedule h sched' (w', <[i := k r]> s.2)
      | _ => run_schedule h sched' s
      end
  end.

Lemma run_schedule_steps {W A} (h : handler W) sched (s : W * list (prog A)) :
  rtc (step (fun w c r w' => h c w = (r, w'))) s (run_schedule h sched s).
Proof.
  revert s. induction sched as [|i sched IH]; intros [w ts]; [done|]. cbn [run_schedule fst snd].
  destruct (ts !! i) as [[so|c k]|] eqn:E; [apply IH| |apply IH].
  destruct (h c w) as [r w'] eqn:Eh.
  eapply rtc_l; [eapply step_call; [exact E|exact Eh]|apply IH].
Qed.

Lemma cached_schedule_steps {A} (h : handler store) sched (s : store * list (prog A)) :
  rtc (step (cached_serves h)) s (run_schedule h sched s).
Proof.
  eapply rtc_subrel; [|apply run_schedule_steps]. intros s1 s2. apply step_mono.
  intros w c r w' E. pose proof (serves_now h w c) as Hs. by rewrite E in Hs.
Qed.

(** A codec that writes the bare name. *)
Definition name_codec : InformationCodec := {|
  Marshal := fun i => inl (MachineName i);
  Unmarshal := fun s => inl (mkInformation s);
|}.

(** A server on which a machine that is gone holds the lock, if any. *)
Definition store_with (holder : option string) (machines : list string) : store :=
  mkStore
    (match holder with
     | Some h => {[ lock_key a_cluster :=
         mkConfigMap (setMetadata a_cluster) (Some {[ semaphoreInformationKey := h ]}) ]}
     | None => ∅
     end) []
    (list_to_set (mkKey "ns" <$> machines)).

Section Examples.
#[local] Existing Instance name_codec.

(** Where a machine is missing, two machines can both be told they have the
    lock. The lock is held by a machine that no longer exists; machines b and
    c each call [Lock] twice. Both find the holder missing and both release
    the lock, but b's deletion reaches the server after c has taken the lock
    anew, deletes c's lock, and b takes it too. *)
Lemma Lock_race :
  exists w ts,
    rtc (step serves) (store_with (Some "a") ["b"; "c"],
              lockers a_cluster (named_machine <$> ["b"; "c"; "c"; "b"])) (w, ts)
    /\ acquired ts 2 /\ acquired ts 3 /\ holds a_cluster w (named_machine "b").
Proof.
  set (s0 := (store_with (Some "a") ["b"; "c"],
              lockers a_cluster (named_machine <$> ["b"; "c"; "c"; "b"]))).
  set (sched := [0; 0; 0; 1; 1; 1; 1; 2; 2; 0; 3; 3]).
  exists (run_schedule store_handler sched s0).1, (run_schedule store_handler sched s0).2. split.
  - rewrite <- surjective_pairing. apply cached_schedule_steps.
  - split; [by vm_compute|]. split; [by vm_compute|]. eexists. split; by vm_compute.
Qed.

(** Where the cache still shows a lock that was released, too. Machine b takes the
    lock and releases it, c takes it, and b asks again: the cache answers with
    b's lock, and b is told that it has it while c has it. *)
Lemma Lock_stale :
  exists w ts,
    rtc (step serves) (store_with None ["b"; "c"],
      [Lock a_cluster (named_machine "b") tt; Unlock a_cluster tt;
       Lock a_cluster (named_machine "c") tt; Lock a_cluster (named_machine "b") tt]) (w, ts)
    /\ acquired ts 2 /\ acquired ts 3 /\ holds a_cluster w (named_machine "c").
Proof.
  set (s0 := (store_with None ["b"; "c"],
    [Lock a_cluster (named_machine "b") tt; Unlock a_cluster tt;
     Lock a_cluster (named_machine "c") tt; Lock a_cluster (named_machine "b") tt])).
  set (s1 := run_schedule store_handler [0; 0; 1; 1; 2; 2] s0).
  assert (Hst : rtc (step serves) s0 s1) by apply cached_schedule_steps.
  destruct s1 as [w1 ts1] eqn:E1.
  assert (Hd : exists k, ts1 !! 3 = Some (Do (GetConfigMap (lock_key a_cluster)) k)
    /\ forall maps, store_past w1 !! 1 = Some maps ->
         k (read_map maps (lock_key a_cluster)) = Ret (tt, Val true)).
  { assert (Hw : w1 = s1.1) by (by rewrite E1). assert (Ht : ts1 = s1.2) by (by rewrite E1). subst w1 ts1.
    eexists. split; [reflexivity|]. intros maps Hm. vm_compute in Hm. injection Hm as <-. reflexivity. }
  destruct Hd as (k & Hk & Hr).
  assert (Hp : exists maps, store_past w1 !! 1 = Some maps).
  { assert (Hw : w1 = s1.1) by (by rewrite E1). rewrite Hw. eexists. vm_compute. reflexivity. }
  destruct Hp as [maps Hp]. specialize (Hr maps Hp).
  exists w1, (<[3 := Ret (tt, Val true)]> ts1). split_and!.
  - eapply rtc_r; [exact Hst|]. rewrite <- Hr. eapply step_call; [exact Hk|].
    apply serves_past. by eapply list_elem_of_lookup_2.
  - unfold acquired. rewrite list_lookup_insert_ne by done.
    assert (Ht : ts1 = s1.2) by (by rewrite E1). rewrite Ht. by vm_compute.
  - unfold acquired. apply list_lookup_insert_eq. apply lookup_lt_is_Some_1. eauto.
  - assert (Hw : w1 = s1.1) by (by rewrite E1). rewrite Hw. eexists. split; by vm_compute.
Qed.

(** The machines of a store without a lock are found. *)
Lemma store_with_unlocked ns : unlocked a_cluster (store_with None ns).
Proof.
  split; [reflexivity|]. intros cm (maps & Hm & E).
  apply list_elem_of_singleton in Hm as ->.
  change ((∅ : gmap ObjectKey ConfigMap) !! lock_key a_cluster = Some cm) in E. by rewrite lookup_empty in E.
Qed.

Lemma store_with_found ns m :
  m ∈ named_machine <$> ns -> found a_cluster (store_with None ns) m.
Proof.
  intros (n & -> & Hn)%list_elem_of_fmap.
  assert (He : machine_key a_cluster (named_machine n) ∈ store_machines (store_with None ns)).
  { apply elem_of_list_to_set, list_elem_of_fmap. by exists n. }
  split; [exact He|]. intros Hm. by apply Hm.
Qed.

Example Lock_mutual_exclusion_witness :
  let ms := named_machine <$> ["b"; "c"] in
  exists w ts, rtc (step serves) (store_with None ["b"; "c"], lockers a_cluster ms) (w, ts)
    /\ acquired ts 1 /\ holds a_cluster w (named_machine "c").
Proof.
  set (s0 := (store_with None ["b"; "c"], lockers a_cluster (named_machine <$> ["b"; "c"]))).
  set (sched := [0; 1; 1; 0]).
  assert (Hst : rtc (step serves) s0 (run_schedule store_handler sched s0)) by apply cached_schedule_steps.
  exists (run_schedule store_handler sched s0).1, (run_schedule store_handler sched s0).2.
  assert (Ha : acquired (run_schedule store_handler sched s0).2 1) by (by vm_compute).
  rewrite <- surjective_pairing. split; [exact Hst|]. split; [exact Ha|].
  eapply (Lock_mutual_exclusion a_cluster (named_machine <$> ["b"; "c"])
    (store_with None ["b"; "c"]) _ (run_schedule store_handler sched s0).2 1 1 (named_machine "c")
    (named_machine "c")).
  - intros m _. eexists. split; reflexivity.
  - apply store_with_found.
  - apply store_with_unlocked.
  - exact Hst.
  - reflexivity.
  - reflexivity.
  - exact Ha.
  - exact Ha.
Defined.
End Examples.
