(* ===== verification/Etcd.v ===== *)
(** The etcd client (pkg/etcd/etcd.go), the names of its members
    (pkg/etcd/util/util.go) and the generator that connects to the etcd server
    of a node (pkg/k3s/etcd_client_generator.go). *)

From S2P Require Import Prelude GoStd Effects ApiTypes Api.

(** ** Members *)

Definition AlarmOK : Z := 0.
Definition AlarmNoSpace : Z := 1.
Definition AlarmCorrupt : Z := 2.

(** A lookup in the map [AlarmTypeName]; a missing key reads as "". *)
Definition AlarmTypeName (t : Z) : string :=
  if (t =? AlarmOK)%Z then "NONE"
  else if (t =? AlarmNoSpace)%Z then "NOSPACE"
  else if (t =? AlarmCorrupt)%Z then "CORRUPT" else "".

Record MemberAlarm := mkMemberAlarm { AlarmMemberID : Z; AlarmType : Z }.

Record Member := mkMember {
  MemberClusterID : Z;
  MemberID : Z;
  MemberName : string;
  MemberPeerURLs : list string;
  MemberClientURLs : list string;
  MemberIsLearner : bool;
  MemberAlarms : list Z;
}.

Definition pbMemberToMember (m : PbMember) : Member :=
  mkMember 0 (PbID m) (PbName m) (PbPeerURLs m) (PbClientURLs m) (PbIsLearner m) [].

Definition NodeNameFromMember (member : Member) : string :=
  let memberName := MemberName member in
  match LastIndex ascii_dash memberName with
  | Some lastIndex => str_take lastIndex memberName
  | None => memberName
  end.

Definition MemberForName (members : list Member) (name : string) : option Member :=
  find_first (fun m => String.eqb (NodeNameFromMember m) name) members.

Definition MemberNames (members : list Member) : list string := NodeNameFromMember <$> members.

Definition MemberEqual (members1 members2 : list Member) : bool :=
  let names1 : gset string := list_to_set (MemberNames members1) in
  let names2 : gset string := list_to_set (MemberNames members2) in
  bool_decide (names1 = names2).

(** ** The client *)

Record Client := mkClient {
  EtcdClient : conn;
  Endpoint : string;
  LeaderID : Z;
  ClientErrors : list string;
  CallTimeout : Z;
}.

Definition DefaultCallTimeout : Z := 15 * Second.

Section Client.
Context {S : Type}.

(** Timeouts are a matter of when the server answers, which is open. *)
Definition newEtcdClient (etcdClient : conn) (callTimeout : Z) : M S Client :=
  endpoints <- call (EtcdEndpoints etcdClient) ;;
  match endpoints with
  | [] => throw (ENew "etcd client was not configured with any endpoints")
  | endpoint :: _ =>
      r <- call (EtcdStatus etcdClient endpoint) ;;
      status <- lift_wrap "failed to get etcd status" r ;;
      ret (mkClient etcdClient endpoint (StatusLeader status) (StatusErrors status) callTimeout)
  end.

(** [NewClient]; the proxied dialer is that of [cluster]. *)
Definition NewEtcdClient (cluster : ObjectKey) (endpoint : string) (callTimeout : Z) : M S Client :=
  d <- call (NewDialer cluster) ;;
  lift_wrap "unable to create a dialer for etcd client" d ;;;
  n <- call (EtcdNew endpoint) ;;
  etcdClient <- lift_wrap "unable to create etcd client" n ;;
  let timeout := if (callTimeout =? 0)%Z then DefaultCallTimeout else callTimeout in
  c <- try (newEtcdClient etcdClient timeout) ;;
  match c with
  | inl client => ret client
  | inr err =>
      closeErr <- call (EtcdClose etcdClient) ;;
      throw (EWrap "unable to create etcd client"
               (EAggregate (err :: match closeErr with Some e => [e] | None => [] end)))
  end.

Definition Close (c : Client) : M S unit :=
  call (EtcdClose (EtcdClient c)) ;;; ret tt.

Definition Alarms (c : Client) : M S (list MemberAlarm) :=
  r <- call (EtcdAlarmList (EtcdClient c)) ;;
  alarms <- lift_wrap "failed to get alarms for etcd cluster" r ;;
  ret ((fun a => mkMemberAlarm (PbAlarmMemberID a) (PbAlarmType a)) <$> alarms).

(** The body of the loop of [Members]. *)
Definition newMember (clusterID : Z) (alarms : list MemberAlarm) (m : PbMember) : Member :=
  let newMember := pbMemberToMember m in
  mkMember clusterID (MemberID newMember) (MemberName newMember) (MemberPeerURLs newMember)
    (MemberClientURLs newMember) (MemberIsLearner newMember)
    (AlarmType <$> List.filter (fun a => (AlarmMemberID a =? MemberID newMember)%Z) alarms).

Definition Members (c : Client) : M S (list Member) :=
  r <- call (EtcdMemberList (EtcdClient c)) ;;
  response <- lift_wrap "failed to get list of members for etcd cluster" r ;;
  alarms <- Alarms c ;;
  ret (newMember (HeaderClusterId response) alarms <$> ResponseMembers response).

Definition MoveLeader (c : Client) (newLeaderID : Z) : M S unit :=
  r <- call (EtcdMoveLeader (EtcdClient c) newLeaderID) ;;
  lift_wrap "failed to move etcd leader" r.

Definition RemoveMember (c : Client) (id : Z) : M S unit :=
  r <- call (EtcdMemberRemove (EtcdClient c) id) ;;
  lift_wrap "failed to remove member" r.

Definition UpdateMemberPeerURLs (c : Client) (id : Z) (peerURLs : list string)
    : M S (list Member) :=
  r <- call (EtcdMemberUpdate (EtcdClient c) id peerURLs) ;;
  response <- lift_wrap "failed to update etcd member's peer list" r ;;
  ret (pbMemberToMember <$> response).

(** [defer c.Close()] around a body: the connection is closed whether the
    body returns, fails or panics. *)
Definition with_close {A} (c : Client) (body : M S A) : M S A :=
  fun s => prog_bind (body s) (fun so =>
    prog_bind (Close c so.1) (fun so' => Ret (so'.1, so.2))).
End Client.

(** ** The generator *)

(** [EtcdClientGenerator]: the cluster its REST configuration points to, the
    timeout it gives its clients and the pod map it has cached. *)
Record EtcdClientGenerator := mkGenerator {
  GenCluster : ObjectKey;
  GenCallTimeout : Z;
  etcdPodMap : option (gmap string string);
}.

Definition set_pod_map (m : option (gmap string string)) (g : EtcdClientGenerator)
    : EtcdClientGenerator := mkGenerator (GenCluster g) (GenCallTimeout g) m.

Definition NewEtcdClientGenerator (cluster : ObjectKey) (etcdCallTimeout : Z)
    : EtcdClientGenerator := mkGenerator cluster etcdCallTimeout None.

(** [NewAggregate] of the errors of a loop, wrapped. [errors.Wrap] of a nil
    error is nil, which the guard on an empty list of nodes rules out. *)
Definition wrap_aggregate (msg : string) (errs : list error) : error := EWrap msg (EAggregate errs).

Definition errEtcdNodeConnection : error := ESentinel "failed to connect to etcd node".

Section Generator.
Abbreviation G := (M EtcdClientGenerator).

Definition createClient (endpoint : string) : G Client :=
  g <- get ;;
  NewEtcdClient (GenCluster g) endpoint (GenCallTimeout g).

(** The map from nodes to proxy pods; the last pod listed for a node wins. *)
Definition pods_to_map (pods : list Pod) : gmap string string :=
  fold_left (fun m pod => <[PodNodeName pod := PodName pod]> m) pods ∅.

Definition findEtcdProxyPod (nodeName : string) : G string :=
  g <- get ;;
  podMap <- (match etcdPodMap g with
    | Some m => ret m
    | None =>
        c <- call (NewClientset (GenCluster g)) ;;
        lift_wrap "unable to create client to target cluster" c ;;;
        l <- call (ListProxyPods (GenCluster g)) ;;
        pods <- lift_wrap "unable to list etcd-proxy pods in target cluster" l ;;
        match pods with
        | [] => throw (ENew "there isn't any etcd-proxy pods in target cluster")
        | _ =>
            let etcdmap := pods_to_map pods in
            modify (set_pod_map (Some etcdmap)) ;;;
            ret etcdmap
        end
    end) ;;
  match podMap !! nodeName with
  | Some podName => ret podName
  | None => throw (ENew "unable to find etcd proxy pod for node")
  end.

(** The loop of [forFirstAvailableNode] over the nodes. *)
Fixpoint first_available (nodeNames : list string) (errs : list error) : G Client :=
  match nodeNames with
  | [] => throw (wrap_aggregate "could not establish a connection to any etcd node" errs)
  | name :: nodeNames' =>
      p <- try (findEtcdProxyPod name) ;;
      match p with
      | inr err => first_available nodeNames' (errs ++ [err])
      | inl podName =>
          c <- try (createClient podName) ;;
          match c with
          | inr err =>
              modify (set_pod_map None) ;;;
              first_available nodeNames' (errs ++ [err])
          | inl client => ret client
          end
      end
  end.

Definition forFirstAvailableNode (nodeNames : list string) : G Client :=
  match nodeNames with
  | [] => throw (ENew "invalid argument: forLeader can't be called with an empty list of nodes")
  | _ => first_available nodeNames []
  end.

Definition getLeaderClient (nodeName : string) (allNodes : gset string) : G Client :=
  c <- try (forFirstAvailableNode [nodeName]) ;;
  match c with
  | inr err => throw (EAggregate [err; errEtcdNodeConnection])
  | inl client =>
      with_close client (
        ms <- try (Members client) ;;
        match ms with
        | inr err => throw (EAggregate [err; errEtcdNodeConnection])
        | inl members =>
            match find_first (fun member => (MemberID member =? LeaderID client)%Z) members with
            | Some leaderMember =>
                let nodeName := NodeNameFromMember leaderMember in
                if negb (bool_decide (nodeName ∈ allNodes))
                then throw (ENew "etcd leader has no corresponding Node in the cluster")
                else forFirstAvailableNode [nodeName]
            | None => throw (ENew "etcd leader is not among the members")
            end
        end)
  end.

(** The loop of [forLeader]. *)
Fixpoint leader_loop (nodeNames : list string) (allNodes : gset string) (errs : list error)
    : G Client :=
  match nodeNames with
  | [] => throw (wrap_aggregate "could not establish a connection to the etcd leader" errs)
  | nodeName :: nodeNames' =>
      c <- try (getLeaderClient nodeName allNodes) ;;
      match c with
      | inl cl => ret cl
      | inr err =>
          if errors_Is err "failed to connect to etcd node"
          then leader_loop nodeNames' allNodes (errs ++ [err])
          else throw err
      end
  end.

Definition forLeader (nodeNames : list string) : G Client :=
  match nodeNames with
  | [] => throw (ENew "invalid argument: forLeader can't be called with an empty list of nodes")
  | _ => leader_loop nodeNames (list_to_set nodeNames) []
  end.
End Generator.

(** ** Names *)

(** K3s names an etcd member after its node, a dash and a suffix without
    dashes; the node's name, which may have dashes, is recovered from it. A
    member whose name has no dash is taken for its node, and a member that has
    not started yet, with the empty name, for the empty node name. *)
Theorem NodeNameFromMember_roundtrip (m : Member) (node suffix : string) :
  (has_char ascii_dash suffix = false ->
   MemberName m = node +++ "-" +++ suffix -> NodeNameFromMember m = node)
  /\ (has_char ascii_dash (MemberName m) = false -> NodeNameFromMember m = MemberName m)
  /\ (NodeNameFromMember m <> MemberName m ->
      exists suffix', MemberName m = NodeNameFromMember m +++ "-" +++ suffix'
        /\ has_char ascii_dash suffix' = false).
Proof.
  unfold NodeNameFromMember. repeat split.
  - intros Hs ->. change ("-" +++ suffix) with (String ascii_dash suffix).
    by rewrite LastIndex_app, str_take_app.
  - intros Hd. apply LastIndex_None in Hd. by rewrite Hd.
  - destruct (LastIndex ascii_dash (MemberName m)) as [i|] eqn:E; [|done]. intros _.
    apply LastIndex_split in E as [E1 E2].
    exists (str_drop (S i) (MemberName m)). split; [exact E1|exact E2].
Qed.

Example NodeNameFromMember_roundtrip_witness :
  NodeNameFromMember (mkMember 0 1 "node-1-9f3a" [] [] false []) = "node-1".
Proof.
  apply (NodeNameFromMember_roundtrip (mkMember 0 1 "node-1-9f3a" [] [] false [])
    "node-1" "9f3a"); reflexivity.
Defined.

(** Two member lists are equal exactly when they name the same nodes, in any
    order and any number of times; so [MemberEqual] is an equivalence, and
    [MemberForName] finds a member on one side exactly when it does on the
    other. *)
Theorem MemberEqual_iff members1 members2 :
  MemberEqual members1 members2 = true
  <-> forall name, MemberForName members1 name = None <-> MemberForName members2 name = None.
Proof.
  assert (Hn : forall ms name,
    MemberForName ms name = None <-> name ∉ MemberNames ms).
  { intros ms name. unfold MemberForName, MemberNames.
    rewrite find_first_None, list_elem_of_fmap. split.
    - intros Hf (m & -> & Hm). specialize (Hf m Hm). by rewrite String.eqb_refl in Hf.
    - intros Hni m Hm. apply String.eqb_neq. intros <-. apply Hni. eauto. }
  unfold MemberEqual. rewrite bool_decide_eq_true. setoid_rewrite Hn. split.
  - intros E name. apply not_iff_compat. rewrite <- !(elem_of_list_to_set (C := gset string)).
    by rewrite E.
  - intros E. apply set_eq. intros name. rewrite !elem_of_list_to_set.
    destruct (decide (name ∈ MemberNames members1)), (decide (name ∈ MemberNames members2));
      specialize (E name); tauto.
Qed.

(** ** Connections *)

(** The connections a trace opens and closes. *)
Definition opened_conn (e : event) : option conn :=
  let '(existT c r) := e in
  match c return Resp c -> option conn with
  | EtcdNew _ => fun r => match r with inl x => Some x | inr _ => None end
  | _ => fun _ => None
  end r.

Definition closed_conn (e : event) : option conn :=
  match ev_cmd e with EtcdClose c => Some c | _ => None end.

(** The commands of connecting to etcd and looking around. *)
Definition is_connect (c : cmd) : bool :=
  match c with
  | NewClientset _ | ListProxyPods _ | NewDialer _ | EtcdNew _ | EtcdEndpoints _ | EtcdStatus _ _
  | EtcdMemberList _ | EtcdAlarmList _ | EtcdClose _ => true
  | _ => false
  end.

Definition connects_only (tr : list event) : Prop :=
  Forall (fun e => is_connect (ev_cmd e) = true) tr.

(** [tr] only connects and looks around, and every connection it opens is
    closed in it, but those [left] open. *)
Definition balanced (tr : list event) (left : list conn) : Prop :=
  omap opened_conn tr ≡ₚ omap closed_conn tr ++ left /\ connects_only tr.

(** The connection of a client that is returned. *)
Definition client_conn (o : outcome Client) : list conn :=
  match o with Val c => [EtcdClient c] | _ => [] end.

(** The leader a client remembers is what its own connection answered. *)
Definition status_seen (tr : list event) (c : Client) : Prop :=
  exists ep st, ev (EtcdStatus (EtcdClient c) ep) (inl st) ∈ tr /\ StatusLeader st = LeaderID c.

(** What every way to get a client guarantees. *)
Definition client_ok (tr : list event) (o : outcome Client) : Prop :=
  balanced tr (client_conn o) /\ o <> Panic /\ forall c, o = Val c -> status_seen tr c.

(** Decides [balanced] on an explicit trace. *)
Ltac bal := split; [reflexivity|repeat constructor].

Lemma balanced_nil : balanced [] [].
Proof. bal. Qed.

Lemma balanced_app tr1 tr2 l1 l2 :
  balanced tr1 l1 -> balanced tr2 l2 -> balanced (tr1 ++ tr2) (l1 ++ l2).
Proof.
  intros [H1 C1] [H2 C2]. split; [|by apply Forall_app].
  rewrite !omap_app, H1, H2. solve_Permutation.
Qed.

Lemma balanced_close tr1 tr2 c l :
  balanced tr1 [c] -> balanced tr2 l ->
  forall r, balanced (tr1 ++ tr2 ++ [ev (EtcdClose c) r]) l.
Proof.
  intros [H1 C1] [H2 C2] r. split.
  - rewrite !omap_app, H1, H2. simpl. solve_Permutation.
  - apply Forall_app. split; [done|]. apply Forall_app. split; [done|repeat constructor].
Qed.

Lemma client_ok_err tr e : balanced tr [] -> client_ok tr (Err e).
Proof. intros H. by split. Qed.

Lemma client_ok_app tr1 tr2 o : balanced tr1 [] -> client_ok tr2 o -> client_ok (tr1 ++ tr2) o.
Proof.
  intros H1 (H2 & Hp & Hs). split; [by apply (balanced_app tr1 tr2 [])|]. split; [done|].
  intros c Hc. destruct (Hs c Hc) as (ep & st & Hin & Hl). exists ep, st.
  split; [|done]. apply elem_of_app. by right.
Qed.

Lemma client_ok_balanced tr e : client_ok tr (Err e) -> balanced tr [].
Proof. by intros [H _]. Qed.

Section Balanced.
Context {S : Type}.

Lemma newEtcdClient_ok c t (s : S) :
  wp (newEtcdClient c t) s (fun tr _ o => balanced tr [] /\ o <> Panic
    /\ forall cl, o = Val cl -> EtcdClient cl = c /\ status_seen tr cl).
Proof.
  unfold newEtcdClient. wp_go; (split; [bal|]); (split; [done|]); intros cl [=]; subst.
  split; [done|]. eexists _, _. split; [right; left|done].
Qed.

Lemma NewEtcdClient_ok k e t (s : S) : wp (NewEtcdClient k e t) s (fun tr _ o => client_ok tr o).
Proof.
  unfold NewEtcdClient. wp_go; try (apply client_ok_err; bal).
  eapply wp_mono; [apply newEtcdClient_ok|]. intros tr s' o (Hb & Hp & Hc).
  destruct o as [cl|er|]; [|wp_go|done].
  - wp_go. destruct (Hc cl eq_refl) as (Hcl & ep & st & Hin & Hl). rewrite app_nil_r.
    split; [|split; [done|]].
    + simpl. rewrite Hcl. apply (balanced_app [_; _] tr [c] []); [bal|done].
    + intros ? [= <-]. exists ep, st. split; [|done]. do 2 right. exact Hin.
  - apply client_ok_err. apply (balanced_close [_; _] tr c []); [bal|done].
Qed.

Lemma Members_balanced c (s : S) :
  wp (Members c) s (fun tr _ o => balanced tr [] /\ o <> Panic).
Proof. unfold Members, Alarms. wp_go; (split; [bal|done]). Qed.

(** A body run with a deferred [Close] leaves the client's connection closed. *)
Lemma with_close_ok c (body : M S Client) s tr0 :
  balanced tr0 [EtcdClient c] ->
  wp body s (fun tr _ o => client_ok tr o) ->
  wp (with_close c body) s (fun tr _ o => client_ok (tr0 ++ tr) o).
Proof.
  intros H0 Hb. unfold wp, with_close. rewrite always_bind.
  eapply always_mono; [|exact Hb]. intros tr [s' o]. simpl. intros (Htr & Hp & Hs) r.
  split; [by apply balanced_close|]. split; [done|].
  intros c' Hc. destruct (Hs c' Hc) as (ep & st & Hin & Hl). exists ep, st. split; [|done].
  rewrite !elem_of_app. auto.
Qed.
End Balanced.

Section GeneratorBalanced.
Implicit Types g : EtcdClientGenerator.

Lemma findEtcdProxyPod_balanced n g :
  wp (findEtcdProxyPod n) g (fun tr _ o => balanced tr [] /\ o <> Panic).
Proof. unfold findEtcdProxyPod. wp_go; (split; [bal|done]). Qed.

Lemma createClient_ok e g : wp (createClient e) g (fun tr _ o => client_ok tr o).
Proof. unfold createClient. wp_go. eapply wp_mono; [apply NewEtcdClient_ok|]. done. Qed.

Lemma first_available_ok ns errs g :
  wp (first_available ns errs) g (fun tr _ o => client_ok tr o).
Proof.
  revert errs g. induction ns as [|n ns IH]; intros errs g; [wp_go; apply client_ok_err; bal|].
  simpl. apply wp_bind, wp_try.
  eapply wp_mono; [apply findEtcdProxyPod_balanced|]. intros tr1 g1 [pod|e|] [H1 P1]; [| |done].
  - apply wp_bind, wp_try.
    eapply wp_mono; [apply createClient_ok|]. intros tr2 g2 [cl|e|] Hc; [| |by destruct Hc as (_ & ? & _)].
    + wp_go. rewrite app_nil_r. by apply client_ok_app.
    + apply wp_bind, wp_modify. eapply wp_mono; [apply IH|]. intros tr3 g3 o Ho.
      apply client_ok_app; [done|]. apply client_ok_app; [by eapply client_ok_balanced|exact Ho].
  - eapply wp_mono; [apply IH|]. intros tr3 g3 o Ho. by apply client_ok_app.
Qed.

Lemma forFirstAvailableNode_ok ns g :
  wp (forFirstAvailableNode ns) g (fun tr _ o => client_ok tr o).
Proof. destruct ns; [wp_go; apply client_ok_err; bal|]. apply first_available_ok. Qed.

Lemma getLeaderClient_ok n all g :
  wp (getLeaderClient n all) g (fun tr _ o => client_ok tr o).
Proof.
  unfold getLeaderClient. apply wp_bind, wp_try.
  eapply wp_mono; [apply forFirstAvailableNode_ok|].
  intros tr1 g1 [cl|e|] Hc; [| |by destruct Hc as (_ & ? & _)].
  - apply with_close_ok; [by destruct Hc|]. apply wp_bind, wp_try.
    eapply wp_mono; [apply Members_balanced|]. intros tr2 g2 [ms|e|] [H2 P2]; [| |done].
    + wp_go; rewrite ?app_nil_r; try by apply client_ok_err.
      eapply wp_mono; [apply forFirstAvailableNode_ok|].
      intros tr3 g3 o Ho. by apply client_ok_app.
    + wp_go. rewrite app_nil_r. by apply client_ok_err.
  - wp_go. rewrite app_nil_r. apply client_ok_err. by eapply client_ok_balanced.
Qed.

Lemma leader_loop_ok ns all errs g :
  wp (leader_loop ns all errs) g (fun tr _ o => client_ok tr o).
Proof.
  revert errs g. induction ns as [|n ns IH]; intros errs g; [wp_go; apply client_ok_err; bal|].
  simpl. apply wp_bind, wp_try.
  eapply wp_mono; [apply getLeaderClient_ok|].
  intros tr1 g1 [cl|e|] Hc; [| |by destruct Hc as (_ & ? & _)].
  - wp_go. by rewrite app_nil_r.
  - apply client_ok_balanced in Hc. wp_go; [|by rewrite app_nil_r; apply client_ok_err].
    eapply wp_mono; [apply IH|]. intros tr3 g3 o Ho. by apply client_ok_app.
Qed.

Lemma forLeader_ok ns g : wp (forLeader ns) g (fun tr _ o => client_ok tr o).
Proof. destruct ns; [wp_go; apply client_ok_err; bal|]. apply leader_loop_ok. Qed.
End GeneratorBalanced.

(** C37: looking for the leader leaks no connection. In every execution of
    [forLeader], whatever fails on the way, the connections it opened are those
    it closed and, when it returns a client, that client's; the leader that
    client remembers is what its own connection answered; it only connects and
    reads; and it never panics. The temporary client of [getLeaderClient] in
    particular is closed after the leader's client replaced it in the same
    variable. *)
Theorem forLeader_closes_connections nodeNames (g : EtcdClientGenerator) :
  wp (forLeader nodeNames) g (fun tr _ o =>
    omap opened_conn tr
    ≡ₚ omap closed_conn tr ++ match o with Val client => [EtcdClient client] | _ => [] end
    /\ (forall client, o = Val client -> status_seen tr client)
    /\ (forall e, e ∈ tr -> is_connect (ev_cmd e) = true)
    /\ o <> Panic).
Proof.
  eapply wp_mono; [apply forLeader_ok|]. intros tr g' o ((Hb & Hc) & Hp & Hs).
  split; [done|]. split; [done|]. split; [|done]. by apply Forall_forall.
Qed.

(** ** The commands of the client and the generator *)

Section Commands.
Context (P : cmd -> bool).
Hypothesis P_connect : forall c, is_connect c = true -> P c = true.

Lemma issues_with_close {S A} c (body : M S A) :
  issues P body -> issues P (with_close c body).
Proof.
  intros Hb s. unfold with_close, wp. rewrite always_bind. eapply always_mono; [|apply Hb].
  intros tr [s' o] HF r. simpl. apply Forall_app. split; [done|].
  repeat constructor. by apply P_connect.
Qed.

Lemma issues_Members {S} c : issues (S := S) P (Members c).
Proof. unfold Members, Alarms. issues_go; apply issues_call; by apply P_connect. Qed.

Lemma connects_issues {S A} (m : M S A) :
  (forall s, wp m s (fun tr _ _ => connects_only tr)) -> issues P m.
Proof.
  intros Hm s. eapply wp_mono; [apply Hm|]. cbv beta. intros tr s0 o HF.
  eapply Forall_impl; [exact HF|]. intros e. apply P_connect.
Qed.

Lemma issues_forLeader ns : issues P (forLeader ns).
Proof.
  apply connects_issues. intros g. eapply wp_mono; [apply forLeader_ok|]. by intros tr s' o ([_ ?] & _).
Qed.

Lemma issues_forFirstAvailableNode ns : issues P (forFirstAvailableNode ns).
Proof.
  apply connects_issues. intros g. eapply wp_mono; [apply forFirstAvailableNode_ok|].
  by intros tr s' o ([_ ?] & _).
Qed.
End Commands.
