(* ===== verification/MachineFilters.v ===== *)
(** Which machines match the control plane's configuration
    (pkg/machinefilters/machine_filters.go). The filters' test for a nil
    machine is left out: a machine collection holds none. *)

From S2P Require Import Prelude GoStd ApiTypes Capi K3sConfig.

Section MachineFilters.
Context `{CAPI}.

Definition MatchesKubernetesVersion (kubernetesVersion : string) (machine : Machine) : bool :=
  if String.eqb (MachineVersion machine) "" then false
  else String.eqb (MachineVersion machine) kubernetesVersion.

(** [reflect.DeepEqual] tells a nil slice from an empty one, as equality of
    slices does here. The code blanks the version in the machine's own
    configuration object; nothing reads that field of it afterwards. *)
Definition MatchesKThreesBootstrapConfig (machineConfigs : gmap string KThreesConfig)
    (kcp : KThreesControlPlane) (machine : Machine) : bool :=
  if negb (ContractRef_IsDefined (BootstrapConfigRef machine)) then true
  else
    match machineConfigs !! MName machine with
    | None => true
    | Some machineConfig =>
        let kcpConfig := with_version "" (KCPConfigSpec (KCPSpec kcp)) in
        bool_decide (with_version "" (ConfigSpec machineConfig) = kcpConfig)
    end.

Definition MatchesTemplateClonedFrom (infraConfigs : gmap string Unstructured)
    (kcp : KThreesControlPlane) (machine : Machine) : bool :=
  match infraConfigs !! MName machine with
  | None => true
  | Some infraObj =>
      let clonedFromName :=
        gomap_get (Annotations (UMeta infraObj)) TemplateClonedFromNameAnnotation in
      let clonedFromGroupKind :=
        gomap_get (Annotations (UMeta infraObj)) TemplateClonedFromGroupKindAnnotation in
      match clonedFromName, clonedFromGroupKind with
      | Some name, Some groupKind =>
          let ref := TemplateInfrastructureRef (MachineTemplate (KCPSpec kcp)) in
          if negb (String.eqb name (RefName ref))
             || negb (String.eqb groupKind (GroupKind_String (RefAPIVersion ref) (RefKind ref)))
          then false else true
      | _, _ => true
      end
  end.

Definition MatchesKCPConfiguration (infraConfigs : gmap string Unstructured)
    (machineConfigs : gmap string KThreesConfig) (kcp : KThreesControlPlane) (machine : Machine)
    : bool :=
  MatchesKubernetesVersion (Version (KCPSpec kcp)) machine
  && MatchesKThreesBootstrapConfig machineConfigs kcp machine
  && MatchesTemplateClonedFrom infraConfigs kcp machine.

Definition AgentHealthy (machine : Machine) : bool :=
  IsTrue (MachineConditions machine) MachineAgentHealthyCondition.

Lemma with_version_inj a b :
  with_version "" a = with_version "" b <->
  Files a = Files b /\ PreK3sCommands a = PreK3sCommands b /\ PostK3sCommands a = PostK3sCommands b
  /\ AgentConfig a = AgentConfig b /\ ServerConfig a = ServerConfig b.
Proof. destruct a, b; unfold with_version; simpl. split; [intros [=]; subst; auto|]. by intros (-> & -> & -> & -> & ->). Qed.

(** A machine is left alone by a rollout exactly when its version is the
    control plane's and not empty, the configuration read for it (if any) has
    the control plane's specification but for the version, slice by slice and
    nil slices told from empty ones, and the infrastructure object read for it
    (if any) was cloned, as far as its annotations say, from the control
    plane's template. What could not be read never makes a machine outdated. *)
Theorem MatchesKCPConfiguration_iff infra configs kcp m :
  let spec := KCPSpec kcp in
  let ref := TemplateInfrastructureRef (MachineTemplate spec) in
  MatchesKCPConfiguration infra configs kcp m = true
  <-> (MachineVersion m = Version spec /\ MachineVersion m <> "")
      /\ (forall c, ContractRef_IsDefined (BootstrapConfigRef m) = true ->
            configs !! MName m = Some c ->
            Files (ConfigSpec c) = Files (KCPConfigSpec spec)
            /\ PreK3sCommands (ConfigSpec c) = PreK3sCommands (KCPConfigSpec spec)
            /\ PostK3sCommands (ConfigSpec c) = PostK3sCommands (KCPConfigSpec spec)
            /\ AgentConfig (ConfigSpec c) = AgentConfig (KCPConfigSpec spec)
            /\ ServerConfig (ConfigSpec c) = ServerConfig (KCPConfigSpec spec))
      /\ (forall o n gk, infra !! MName m = Some o ->
            gomap_get (Annotations (UMeta o)) TemplateClonedFromNameAnnotation = Some n ->
            gomap_get (Annotations (UMeta o)) TemplateClonedFromGroupKindAnnotation = Some gk ->
            n = RefName ref /\ gk = GroupKind_String (RefAPIVersion ref) (RefKind ref)).
Proof.
  simpl. unfold MatchesKCPConfiguration. rewrite !andb_true_iff, Corelib.Init.Logic.and_assoc.
  f_equiv; [|f_equiv].
  - unfold MatchesKubernetesVersion.
    destruct (String.eqb_spec (MachineVersion m) ""); rewrite ?String.eqb_eq; intuition congruence.
  - unfold MatchesKThreesBootstrapConfig. setoid_rewrite <- with_version_inj.
    destruct (ContractRef_IsDefined _); simpl; [|by split].
    destruct (configs !! MName m) as [c|]; [|by split].
    rewrite bool_decide_eq_true. split; [by intros E c' _ [= <-]|eauto].
  - unfold MatchesTemplateClonedFrom. destruct (infra !! MName m) as [o|]; [|by split].
    set (ref := TemplateInfrastructureRef (MachineTemplate (KCPSpec kcp))).
    destruct (gomap_get _ TemplateClonedFromNameAnnotation) as [n|] eqn:E1;
      [|by split; [intros _ ??? [= <-]; rewrite E1|]].
    destruct (gomap_get _ TemplateClonedFromGroupKindAnnotation) as [gk|] eqn:E2;
      [|by split; [intros _ ??? [= <-]; rewrite E2|]].
    trans (n = RefName ref /\ gk = GroupKind_String (RefAPIVersion ref) (RefKind ref)).
    + destruct (String.eqb_spec n (RefName ref)); simpl; [|intuition congruence].
      destruct (String.eqb_spec gk (GroupKind_String (RefAPIVersion ref) (RefKind ref)));
        simpl; intuition congruence.
    + split; [|by intros HF; apply (HF o)]. intros ? o' n' gk' [= <-]. rewrite E1, E2. congruence.
Qed.

End MachineFilters.
