(* ===== verification/ControlPlane.v ===== *)
(** The control plane seen by one reconciliation (pkg/k3s/control_plane.go):
    the KThreesControlPlane, its machines and what was read about them. The
    machines are a map by name; a pointer to one of them is its name, and a
    write through the pointer is an update of the map. *)

From S2P Require Import Prelude GoStd Effects ApiTypes Api Capi K3sConfig MachineFilters.

(** ** State *)

(** A patch helper remembers the object it was made from. *)
Record ControlPlane := mkControlPlane {
  KCP : KThreesControlPlane;
  CPCluster : Cluster;
  CPMachines : Machines;
  machinesPatchHelpers : gomap Machine;
  hasEtcdCA : bool;
  reconciliationTime : Time;
  KthreesConfigs : gmap string KThreesConfig;
  InfraResources : gmap string Unstructured;
}.

Definition set_machines (ms : Machines) (c : ControlPlane) : ControlPlane :=
  mkControlPlane (KCP c) (CPCluster c) ms (machinesPatchHelpers c) (hasEtcdCA c)
    (reconciliationTime c) (KthreesConfigs c) (InfraResources c).

Definition set_kcp (k : KThreesControlPlane) (c : ControlPlane) : ControlPlane :=
  mkControlPlane k (CPCluster c) (CPMachines c) (machinesPatchHelpers c) (hasEtcdCA c)
    (reconciliationTime c) (KthreesConfigs c) (InfraResources c).

Definition set_patch_helpers (h : gomap Machine) (c : ControlPlane) : ControlPlane :=
  mkControlPlane (KCP c) (CPCluster c) (CPMachines c) h (hasEtcdCA c)
    (reconciliationTime c) (KthreesConfigs c) (InfraResources c).

(** A write through the pointer to machine [name]. *)
Definition update_machine (name : string) (f : Machine -> Machine) (c : ControlPlane)
    : ControlPlane :=
  set_machines (alter f name (CPMachines c)) c.

(** [controlplanev1.GroupVersion.String()]. *)
Definition ControlPlaneGroupVersion : string := "controlplane.cluster.x-k8s.io/v1beta2".

(** Every machine is kept under its own name. *)
Definition named (ms : Machines) : Prop := forall k m, ms !! k = Some m -> MName m = k.

(** ** Labels, owners, configurations *)

Definition ControlPlaneLabelsForCluster (clusterName : string)
    (machineTemplate : KThreesControlPlaneMachineTemplate) : gomap string :=
  Some (<[ MachineControlPlaneLabel := "" ]>
       (<[ MachineControlPlaneNameLabel := "" ]>
       (<[ ClusterNameLabel := clusterName ]> (default ∅ (TemplateLabels machineTemplate))))).

Definition kcp_owner (k : KThreesControlPlane) : OwnerReference :=
  mkOwnerReference ControlPlaneGroupVersion "KThreesControlPlane" (Name (KCPMeta k))
    (UID (KCPMeta k)) None None.

Definition AsOwnerReference (c : ControlPlane) : OwnerReference := kcp_owner (KCP c).

Definition InitialControlPlaneConfig (c : ControlPlane) : KThreesConfigSpec :=
  KCPConfigSpec (KCPSpec (KCP c)).

Definition JoinControlPlaneConfig (c : ControlPlane) : KThreesConfigSpec :=
  KCPConfigSpec (KCPSpec (KCP c)).

Definition GenerateKThreesConfig {S} (c : ControlPlane) (spec : KThreesConfigSpec)
    : M S KThreesConfig :=
  n <- call (GenerateName (Name (KCPMeta (KCP c)) +++ "-")) ;;
  ret (mkKThreesConfig
    (mkObjectMeta n (Namespace (KCPMeta (KCP c))) "" ""
      (ControlPlaneLabelsForCluster (Name (ClusterMeta (CPCluster c))) (MachineTemplate (KCPSpec (KCP c))))
      None [kcp_owner (KCP c)] [] 0 None [])
    spec emptyConfigStatus).

(** [metav1.NewControllerRef(kcp, KThreesControlPlane)]. *)
Definition controller_ref (kcp : KThreesControlPlane) : OwnerReference :=
  mkOwnerReference ControlPlaneGroupVersion "KThreesControlPlane" (Name (KCPMeta kcp))
    (UID (KCPMeta kcp)) (Some true) (Some true).

(** [clusterv1beta1.Machine]: what [NewMachine] sets of it. References are
    [corev1.ObjectReference]s, version and failure domain are pointers. *)
Record V1beta1Machine := mkV1beta1Machine {
  V1MachineMeta : ObjectMeta;
  V1ClusterName : string;
  V1Version : option string;
  V1InfrastructureRef : ObjectReference;
  V1ConfigRef : option ObjectReference;
  V1FailureDomain : option string;
}.

(** The pointers of the two accessors are never nil and point into the control
    plane; what they point to is the field. *)
Definition CPVersion (c : ControlPlane) : string := Version (KCPSpec (KCP c)).

Definition InfrastructureTemplate (c : ControlPlane) : ObjectReference :=
  TemplateInfrastructureRef (MachineTemplate (KCPSpec (KCP c))).

Definition EtcdImageData (c : ControlPlane) : string * string := ("", "").

(** The name is generated before the nil reference is dereferenced. *)
Definition NewMachine {S} (c : ControlPlane) (infraRef bootstrapRef : option ObjectReference)
    (failureDomain : option string) : M S V1beta1Machine :=
  n <- call (GenerateName (Name (KCPMeta (KCP c)) +++ "-")) ;;
  match infraRef with
  | None => panic
  | Some ref =>
      ret (mkV1beta1Machine
        (mkObjectMeta n (Namespace (KCPMeta (KCP c))) "" ""
          (ControlPlaneLabelsForCluster (Name (ClusterMeta (CPCluster c))) (MachineTemplate (KCPSpec (KCP c))))
          None [controller_ref (KCP c)] [] 0 None [])
        (Name (ClusterMeta (CPCluster c))) (Some (CPVersion c)) ref bootstrapRef failureDomain)
  end.

(** ** Queries *)

Section Queries.
Context `{CAPI}.
Implicit Types c : ControlPlane.

(** Two of the three failure-domain accessors turn nil into an empty slice. *)
Definition CPFailureDomains c : list ClusterFailureDomain := elems (FailureDomains (CPCluster c)).

Definition FailureDomainNames c : list string := FDName <$> elems (FailureDomains (CPCluster c)).

Definition ControlPlaneFailureDomains c : list ClusterFailureDomain :=
  List.filter (fun fd => default false (FDControlPlane fd)) (elems (FailureDomains (CPCluster c))).

Definition FilterControlPlane : Machine -> bool := IsControlPlaneMachine.

Definition FailureDomainWithMostMachines c (machines : Machines) : string :=
  let notInFailureDomains :=
    Filter (fun m => negb (InFailureDomains (FailureDomainNames c) m) && FilterControlPlane m)
      machines in
  match Oldest notInFailureDomains with
  | Some m => FailureDomain m
  | None => PickMost (ControlPlaneFailureDomains c) (CPMachines c) machines
  end.

Definition ErrFailedToPickForDeletion : error :=
  ESentinel "failed to pick machine to mark for deletion".

Definition MachineInFailureDomainWithMostMachines c (machines : Machines) : Machine + error :=
  let fd := FailureDomainWithMostMachines c machines in
  let machinesInFailureDomain := Filter (InFailureDomains [fd]) machines in
  match Oldest machinesInFailureDomain with
  | None => inr ErrFailedToPickForDeletion
  | Some machineToMark => inl machineToMark
  end.

(** [collections.HasAnnotationKey]. *)
Definition has_annotation (key : string) (m : Machine) : bool :=
  match gomap_get (MAnnotations m) key with Some _ => true | None => false end.

Definition MachineWithDeleteAnnotation (machines : Machines) : Machines :=
  Filter (has_annotation DeleteMachineAnnotation) machines.

Definition MachinesNeedingRollout c : Machines :=
  let machines := Filter (fun m => negb (HasDeletionTimestamp m)) (CPMachines c) in
  let rolloutAfter := default 0%Z (RolloutAfter (KCPSpec (KCP c))) in
  AnyFilter
    [ShouldRolloutAfter (reconciliationTime c) rolloutAfter;
     fun m => negb (MatchesKCPConfiguration (InfraResources c) (KthreesConfigs c) (KCP c) m)]
    machines.

Definition UpToDateMachines c : Machines := Difference (CPMachines c) (MachinesNeedingRollout c).

Definition NextFailureDomainForScaleUp c : string :=
  match ControlPlaneFailureDomains c with
  | [] => ""
  | _ => PickFewest (ControlPlaneFailureDomains c) (CPMachines c) (UpToDateMachines c)
  end.

Definition NeedsReplacementNode c : bool :=
  match Replicas (KCPSpec (KCP c)) with
  | None => false
  | Some replicas => (Z.of_nat (size (CPMachines c)) + 1 =? replicas)%Z
  end.

Definition UnhealthyMachines c : Machines := Filter IsUnhealthy (CPMachines c).

Definition HealthyMachines c : Machines := Filter (fun m => negb (IsUnhealthy m)) (CPMachines c).

Definition HasUnhealthyMachine c : bool := (0 <? size (UnhealthyMachines c))%nat.

Definition HasHealthyMachineStillProvisioning c : bool :=
  (0 <? size (Filter (fun m => negb (NodeRef_IsDefined m)) (HealthyMachines c)))%nat.

Definition HasDeletingMachine c : bool :=
  (0 <? size (Filter HasDeletionTimestamp (CPMachines c)))%nat.

Definition IsEtcdManaged c : bool := IsEtcdEmbedded (KCPConfigSpec (KCPSpec (KCP c))) && hasEtcdCA c.

End Queries.

(** ** Reading and patching *)

Section Effects.
Context `{CAPI} `{MapOrder} {S : Type}.

Definition getInfraResources (machines : Machines) : M S (gmap string Unstructured) :=
  fold_each (range_values machines) ∅ (fun result m =>
    r <- call (GetExternal (InfrastructureRef m) (Namespace (MachineMeta m))) ;;
    match r with
    | inr err =>
        if IsNotFound err then ret result else throw (EWrap "failed to retrieve infra obj for machine" err)
    | inl infraObj => ret (<[ MName m := infraObj ]> result)
    end).

Definition getKThreesConfigs (machines : Machines) : M S (gmap string KThreesConfig) :=
  fold_each (range_values machines) ∅ (fun result m =>
    let bootstrapRef := BootstrapConfigRef m in
    if negb (ContractRef_IsDefined bootstrapRef) then ret result
    else
      r <- call (GetKThreesConfig (mkKey (Namespace (MachineMeta m)) (ContractName bootstrapRef))) ;;
      match r with
      | inr err =>
          if IsNotFound err then ret result
          else throw (EWrap "failed to retrieve bootstrap config for machine" err)
      | inl machineConfig => ret (<[ MName m := machineConfig ]> result)
      end).

Definition ErrFailedToCreatePatchHelper : error := ESentinel "failed to create patch for machine".

Definition NewControlPlane (cluster : Cluster) (kcp : KThreesControlPlane)
    (ownedMachines : Machines) : M S ControlPlane :=
  infraObjects <- getInfraResources ownedMachines ;;
  kthreesConfigs <- getKThreesConfigs ownedMachines ;;
  patchHelpers <- fold_each (range_values ownedMachines) ∅ (fun patchHelpers machine =>
    r <- call (NewPatchHelper machine) ;;
    match r with
    | inr _ => throw (EWrap "machine" ErrFailedToCreatePatchHelper)
    | inl _ => ret (<[ MName machine := machine ]> patchHelpers)
    end) ;;
  s <- call (GetSecret (mkKey (Namespace (ClusterMeta cluster)) (Name (ClusterMeta cluster) +++ "-etcd"))) ;;
  hasCA <- (match s with
    | inl _ => ret true
    | inr err => if IsNotFound err then ret false else throw err
    end) ;;
  now <- call Now ;;
  ret (mkControlPlane kcp cluster ownedMachines (Some patchHelpers) hasCA now kthreesConfigs infraObjects).

(** The errors collected by the loop of [PatchMachines]. *)
Definition patch_one (c : ControlPlane) (errList : list error) (machine : Machine) : M S (list error) :=
  match gomap_get (machinesPatchHelpers c) (MName machine) with
  | Some helper =>
      r <- call (PatchMachine helper machine
                   [MachineAgentHealthyCondition; MachineEtcdMemberHealthyCondition]) ;;
      match r with
      | inr err => ret (errList ++ [EWrap "failed to patch machine" err])
      | inl _ => ret errList
      end
  | None => ret (errList ++ [EWrap "machine" ErrFailedToCreatePatchHelper])
  end.

Definition PatchMachines (c : ControlPlane) : M S unit :=
  errList <- fold_each (range_values (CPMachines c)) [] (patch_one c) ;;
  match NewAggregate errList with
  | Some err => throw err
  | None => ret tt
  end.

Definition SetPatchHelpers (patchHelpers : gmap string Machine) (c : ControlPlane) : ControlPlane :=
  let helpers := default ∅ (machinesPatchHelpers c) in
  set_patch_helpers (Some (patchHelpers ∪ helpers)) c.

End Effects.

(** ** Rollouts *)

Section Rollout.
Context `{CAPI}.

Lemma MachinesNeedingRollout_lookup c k m :
  MachinesNeedingRollout c !! k = Some m
  <-> CPMachines c !! k = Some m /\ HasDeletionTimestamp m = false
      /\ (ShouldRolloutAfter (reconciliationTime c) (default 0%Z (RolloutAfter (KCPSpec (KCP c)))) m = true
          \/ MatchesKCPConfiguration (InfraResources c) (KthreesConfigs c) (KCP c) m = false).
Proof.
  unfold MachinesNeedingRollout. rewrite AnyFilter_lookup, Filter_lookup. simpl.
  rewrite orb_false_r, orb_true_iff, !negb_true_iff. tauto.
Qed.

(** The machines split in two: those a rollout replaces and those that are
    up to date, and no machine is in both. A rollout replaces the machines that
    are not being deleted and either were created before a rollout time that
    has passed or do not match the configuration; in particular a machine that
    is being deleted counts as up to date, and without a rollout time only
    machines that do not match are replaced. *)
Theorem rollout_partition c k m :
  (CPMachines c !! k = Some m
   <-> MachinesNeedingRollout c !! k = Some m \/ UpToDateMachines c !! k = Some m)
  /\ ~ (MachinesNeedingRollout c !! k = Some m /\ UpToDateMachines c !! k = Some m)
  /\ (MachinesNeedingRollout c !! k = Some m ->
      HasDeletionTimestamp m = false
      /\ (MatchesKCPConfiguration (InfraResources c) (KthreesConfigs c) (KCP c) m = false
          \/ (exists after, RolloutAfter (KCPSpec (KCP c)) = Some after
             /\ (MCreationTimestamp m < after < reconciliationTime c)%Z)
          \/ RolloutAfter (KCPSpec (KCP c)) = None
             /\ (MCreationTimestamp m < 0)%Z)).
Proof.
  unfold UpToDateMachines. rewrite Difference_lookup. split; [split|split].
  - intros Hm. destruct (MachinesNeedingRollout c !! k) as [m'|] eqn:E; [|auto].
    left. apply MachinesNeedingRollout_lookup in E as [Hm' _]. congruence.
  - intros [E%MachinesNeedingRollout_lookup|[Hm _]]; [by destruct E|done].
  - intros [E [_ Hn]]. congruence.
  - intros (_ & Hd & [Hr|Hm])%MachinesNeedingRollout_lookup; (split; [done|]); [|by left].
    right. apply ShouldRolloutAfter_spec in Hr.
    destruct (RolloutAfter _) as [after|]; simpl in Hr; [left|right].
    + exists after. split; [done|]. lia.
    + split; [done|]. lia.
Qed.

(** *** A configuration that the API server keeps

    A KThreesConfig goes to the API server and back as JSON. Its lists are
    [omitempty]: an empty list is not written, and what is not written reads as
    [nil]. All other fields read as they were written. *)
Definition omit_empty {A} (s : slice A) : slice A := match s with Some [] => None | _ => s end.

Definition stored_agent (c : KThreesAgentConfig) : KThreesAgentConfig :=
  mkKThreesAgentConfig (omit_empty (NodeLabels c)) (omit_empty (AgentNodeTaints c)) (PrivateRegistry c)
    (omit_empty (KubeletArgs c)) (omit_empty (KubeProxyArgs c)) (NodeName c) (AirGapped c)
    (AirGappedInstallScriptPath c).

Definition stored_server (c : KThreesServerConfig) : KThreesServerConfig :=
  mkKThreesServerConfig (omit_empty (KubeAPIServerArgs c)) (omit_empty (KubeControllerManagerArgs c))
    (omit_empty (KubeSchedulerArgs c)) (omit_empty (TLSSan c)) (BindAddress c) (HTTPSListenPort c)
    (AdvertiseAddress c) (AdvertisePort c) (ClusterCidr c) (ServiceCidr c) (ClusterDNS c) (ClusterDomain c)
    (omit_empty (DisableComponents c)) (DeprecatedDisableExternalCloudProvider c)
    (DisableCloudController c) (CloudProviderName c) (SystemDefaultRegistry c) (EtcdProxyImage c).

Definition stored_spec (c : KThreesConfigSpec) : KThreesConfigSpec :=
  mkKThreesConfigSpec (omit_empty (Files c)) (omit_empty (PreK3sCommands c)) (omit_empty (PostK3sCommands c))
    (stored_agent (AgentConfig c)) (stored_server (ServerConfig c)) (ConfigVersion c).

Definition stored_config (c : KThreesConfig) : KThreesConfig :=
  mkKThreesConfig (ConfigMeta c) (stored_spec (ConfigSpec c)) (ConfigStatus c).

(** What is read back of a configuration made with the specification [spec] and
    the version [v]: the webhook defaults what it is sent, and its result is kept. *)
Definition read_back (om : ObjectMeta) (v : string) (spec : KThreesConfigSpec) (st : KThreesConfigStatus)
    : KThreesConfig :=
  stored_config (KThreesConfig_Default (stored_config (mkKThreesConfig om (with_version v spec) st))).

Lemma omit_empty_idem {A} (s : slice A) : omit_empty (omit_empty s) = omit_empty s.
Proof. by destruct s as [[]|]. Qed.

(** Without its version, what is read back of a defaulted specification is that
    specification as JSON keeps it. *)
Lemma read_back_spec om v s st :
  ServerConfig s = defaultServerConfig (ServerConfig s) ->
  with_version "" (ConfigSpec (read_back om v s st)) = with_version "" (stored_spec s).
Proof.
  intros Hd. unfold read_back, stored_config, stored_spec, with_version, stored_agent.
  cbn [ConfigSpec KThreesConfig_Default with_spec with_server_config ServerConfig Files PreK3sCommands
    PostK3sCommands AgentConfig NodeLabels AgentNodeTaints PrivateRegistry KubeletArgs KubeProxyArgs NodeName
    AirGapped AirGappedInstallScriptPath].
  rewrite !omit_empty_idem. f_equal. unfold defaultServerConfig, with_cloud_defaults, stored_server in *.
  cbn in *. rewrite !omit_empty_idem. rewrite Hd. cbn. by repeat case_match.
Qed.

(** A machine that was made for the control plane [k], as far as its version, its
    infrastructure object and its age tell. *)
Record made_from (k : KThreesControlPlane) (c : ControlPlane) (m : Machine) : Prop := mkMadeFrom {
  made_kcp : KCP c = k;
  made_member : CPMachines c !! MName m = Some m;
  made_since : (default 0 (RolloutAfter (KCPSpec k)) <= MCreationTimestamp m)%Z;
  made_version : MachineVersion m = Version (KCPSpec k) /\ Version (KCPSpec k) <> "";
  made_infra : exists o, InfraResources c !! MName m = Some o
    /\ let ref := TemplateInfrastructureRef (MachineTemplate (KCPSpec k)) in
       Annotations (UMeta o) = Some
         {[ TemplateClonedFromNameAnnotation := RefName ref;
            TemplateClonedFromGroupKindAnnotation := GroupKind_String (RefAPIVersion ref) (RefKind ref) ]};
}.

(** Such a machine matches when its configuration does. *)
Lemma made_from_matches k c m :
  made_from k c m ->
  MatchesKCPConfiguration (InfraResources c) (KthreesConfigs c) k m
  = MatchesKThreesBootstrapConfig (KthreesConfigs c) k m.
Proof.
  intros [_ _ _ [Hv Hne] (o & Ho & Ha)]. unfold MatchesKCPConfiguration.
  assert (HV : MatchesKubernetesVersion (Version (KCPSpec k)) m = true).
  { unfold MatchesKubernetesVersion. rewrite Hv.
    destruct (String.eqb_spec (Version (KCPSpec k)) ""); [done|]. apply String.eqb_refl. }
  assert (HT : MatchesTemplateClonedFrom (InfraResources c) k m = true).
  { unfold MatchesTemplateClonedFrom. rewrite Ho, Ha. simpl.
    rewrite lookup_insert_eq, lookup_insert_ne, lookup_singleton_eq by done.
    by rewrite !String.eqb_refl. }
  by rewrite HV, HT, andb_true_r.
Qed.

(** A configuration that was made from a specification matches it exactly when the
    specification is as JSON keeps it. *)
Lemma read_back_matches configs k m om v st :
  let spec := KCPConfigSpec (KCPSpec (KThreesControlPlane_Default k)) in
  ContractRef_IsDefined (BootstrapConfigRef m) = true ->
  configs !! MName m = Some (read_back om v spec st) ->
  MatchesKThreesBootstrapConfig configs (KThreesControlPlane_Default k) m = true <-> stored_spec spec = spec.
Proof.
  intros spec Hb Hc. unfold MatchesKThreesBootstrapConfig. rewrite Hb, Hc. cbn [negb]. cbv zeta.
  rewrite bool_decide_eq_true.
  assert (Hd : ServerConfig spec = defaultServerConfig (ServerConfig spec)) by (symmetry; apply defaultServerConfig_idem).
  rewrite read_back_spec by exact Hd. change (with_version "" (stored_spec spec) = with_version "" spec <-> stored_spec spec = spec).
  split; [|by intros ->]. intros (H1 & H2 & H3 & H4 & H5)%with_version_inj.
  destruct spec as [f p q ag sv vs]. unfold stored_spec in *. simpl in *. by rewrite H1, H2, H3, H4, H5.
Qed.

(** C34: a rollout settles, but for empty lists. A machine made from a control plane
    that went through the defaulting webhook, no earlier than its rollout time, with
    its version and an infrastructure object cloned from its template, has a
    KThreesConfig that was made from the specification, defaulted by its own
    webhook, and kept and read as JSON. Whatever version that configuration got, the
    machine is up to date and never picked for a rollout when the specification has
    no list that is empty and not nil; and when it has one, the machine is found
    outdated, although it was just made, unless it is being deleted. *)
Theorem new_machine_up_to_date (k : KThreesControlPlane) (c : ControlPlane) m om v st :
  let kcp := KThreesControlPlane_Default k in
  let spec := KCPConfigSpec (KCPSpec kcp) in
  made_from kcp c m ->
  ContractRef_IsDefined (BootstrapConfigRef m) = true ->
  KthreesConfigs c !! MName m = Some (read_back om v spec st) ->
  (stored_spec spec = spec ->
     MachinesNeedingRollout c !! MName m = None /\ UpToDateMachines c !! MName m = Some m)
  /\ (stored_spec spec <> spec -> HasDeletionTimestamp m = false ->
     MachinesNeedingRollout c !! MName m = Some m).
Proof.
  intros kcp spec Hmade Hb Hc. pose proof (read_back_matches _ k m om v st Hb Hc) as HM. fold kcp spec in HM.
  pose proof (made_from_matches _ _ _ Hmade) as HE. destruct Hmade as [Hk Hin Hr _ _]. split; intros Hs.
  - assert (HN : MachinesNeedingRollout c !! MName m = None).
    { apply eq_None_not_Some. intros [m' (Hm' & _ & Hd)%MachinesNeedingRollout_lookup].
      rewrite Hin in Hm'. injection Hm' as <-. rewrite Hk in Hd. destruct Hd as [Hd|Hd].
      - apply ShouldRolloutAfter_spec in Hd. simpl in Hr, Hd. lia.
      - rewrite HE in Hd. apply HM in Hs. congruence. }
    split; [done|]. unfold UpToDateMachines. by apply Difference_lookup.
  - intros Hd. apply MachinesNeedingRollout_lookup. split; [done|]. split; [done|]. right. rewrite Hk, HE.
    destruct (MatchesKThreesBootstrapConfig _ _ _); [|done]. destruct Hs. by apply HM.
Qed.

End Rollout.

(** ** Reading changes nothing *)

(** The commands that only read, or that prepare a patch locally. *)
Definition is_read (c : cmd) : bool :=
  match c with
  | Now | GetSecret _ | GetConfigMap _ | GetMachine _ | ListMachines _ _ | NewPatchHelper _
  | GetExternal _ _ | GetKThreesConfig _ | GetOwnerCluster _ | GetKCP _ => true
  | _ => false
  end.

Definition only_reads (tr : list event) : Prop := Forall (fun e => is_read (ev_cmd e) = true) tr.

Lemma only_reads_app tr1 tr2 : only_reads tr1 -> only_reads tr2 -> only_reads (tr1 ++ tr2).
Proof. intros. by apply Forall_app. Qed.

Section NewControlPlane.
Context `{CAPI} `{MapOrder} {S : Type}.

(** A loop that reads something about each machine and keeps it by name. *)
Lemma read_loop_spec {A} (body : gmap string A -> Machine -> M S (gmap string A))
    (P : Machine -> A -> Prop) (ms : list Machine) (s : S) :
  (forall acc m s, m ∈ ms ->
     wp (body acc m) s (fun tr _ o => only_reads tr /\ o <> Panic
       /\ forall acc', o = Val acc' -> acc' = acc \/ exists a, P m a /\ acc' = <[ MName m := a ]> acc)) ->
  wp (fold_each ms ∅ body) s (fun tr _ o => only_reads tr /\ o <> Panic
    /\ forall acc, o = Val acc -> forall k a, acc !! k = Some a ->
         exists m, m ∈ ms /\ MName m = k /\ P m a).
Proof.
  intros Hbody.
  eapply wp_mono; [apply (wp_fold_each (fun _ tr _ acc => only_reads tr
      /\ forall k a, acc !! k = Some a -> exists m, m ∈ ms /\ MName m = k /\ P m a)
    (fun tr _ o => only_reads tr /\ o <> Panic) _ _ _ [] [])|].
  - split; [constructor|]. intros k a E. by rewrite lookup_empty in E.
  - intros vis m acc tr s' Hm [Htr HP]. eapply wp_mono; [by apply Hbody|].
    intros tr' s'' o (Htr' & Hp & Hacc).
    destruct o as [acc'|e|]; (split; [by apply only_reads_app|]); [|done..].
    intros k a E. destruct (Hacc acc' eq_refl) as [->|(a' & HPm & ->)]; [by apply HP|].
    apply lookup_insert_Some in E as [[<- <-]|[_ E]]; [by exists m|by apply HP].
  - intros tr s' o. destruct o as [acc|e|]; simpl; [|by intros [? ?]..].
    intros [? ?]. split; [done|]. split; [done|]. by intros acc' [= <-].
Qed.

(** The loop that makes a patch helper for each machine. *)
Lemma patch_helpers_spec owned (s : S) :
  named owned ->
  wp (fold_each (range_values owned) ∅ (fun patchHelpers machine =>
    r <- call (NewPatchHelper machine) ;;
    match r with
    | inr _ => throw (EWrap "machine" ErrFailedToCreatePatchHelper)
    | inl _ => ret (<[ MName machine := machine ]> patchHelpers)
    end)) s (fun tr _ o => only_reads tr /\ o <> Panic
      /\ forall helpers, o = Val helpers -> helpers = owned).
Proof.
  intros Hnamed.
  assert (Hran : forall m, m ∈ range_values owned -> owned !! MName m = Some m).
  { intros m (k & Hk)%elem_of_range_values. by rewrite (Hnamed k m Hk). }
  eapply wp_mono; [apply (wp_fold_each (fun vis tr _ acc => only_reads tr
      /\ (forall m, m ∈ vis -> owned !! MName m = Some m -> acc !! MName m = Some m)
      /\ acc ⊆ owned)
    (fun tr _ o => only_reads tr /\ o <> Panic) _ _ _ [] [])|].
  - split; [constructor|]. split; [intros m Hm; by apply elem_of_nil in Hm|apply map_empty_subseteq].
  - intros vis m acc tr s' Hm (Htr & Hvis & Hsub). specialize (Hran m Hm).
    wp_go; simpl; (split; [apply only_reads_app; [done|by repeat constructor]|]); [|done].
    split; [|by apply insert_subseteq_l].
    intros m' Hm' E. destruct (decide (MName m' = MName m)) as [En|Hne].
    + rewrite En, lookup_insert_eq. congruence.
    + rewrite lookup_insert_ne by done. apply Hvis; [|done].
      apply elem_of_app in Hm' as [?|E'%list_elem_of_singleton]; [done|congruence].
  - intros tr s' [helpers|e|]; simpl; [|by intros [? ?]..].
    intros (? & Hvis & Hsub). split; [done|]. split; [done|]. intros ? [= <-].
    apply map_eq. intros k. destruct (owned !! k) as [m|] eqn:E.
    + rewrite <- (Hnamed k m E). apply Hvis; [apply elem_of_range_values; eauto|].
      by rewrite (Hnamed k m E).
    + destruct (helpers !! k) as [m|] eqn:E'; [|done].
      rewrite map_subseteq_spec in Hsub. apply Hsub in E'. congruence.
Qed.

(** Building the control plane of a reconciliation changes nothing: every
    call it makes reads. When it succeeds, the control plane holds the given
    object, cluster and machines; each machine has a patch helper that remembers
    the machine as it is (so that no later patch can fail for want of one); and
    every infrastructure object and configuration kept under a name belongs to
    the machine of that name. *)
Theorem NewControlPlane_spec cluster kcp owned (s : S) :
  named owned ->
  wp (NewControlPlane cluster kcp owned) s (fun tr _ o =>
    only_reads tr /\ o <> Panic
    /\ forall c, o = Val c ->
       KCP c = kcp /\ CPCluster c = cluster /\ CPMachines c = owned
       /\ machinesPatchHelpers c = Some owned
       /\ (forall k x, InfraResources c !! k = Some x -> is_Some (owned !! k))
       /\ (forall k x, KthreesConfigs c !! k = Some x -> exists m, owned !! k = Some m
            /\ ContractRef_IsDefined (BootstrapConfigRef m) = true)).
Proof.
  intros Hnamed. unfold NewControlPlane.
  assert (Hran : forall m, m ∈ range_values owned -> owned !! MName m = Some m).
  { intros m (k & Hk)%elem_of_range_values. by rewrite (Hnamed k m Hk). }
  assert (Hreads : forall c, is_read c = true -> forall r, only_reads [ev c r]).
  { intros c Hc r. by constructor. }
  apply wp_bind. eapply wp_mono; [apply (read_loop_spec _ (fun _ _ => True))|].
  { intros acc m s' Hm. wp_go; simpl; (split; [by repeat constructor|]); (split; [done|]);
      intros acc' [= <-]; eauto. }
  intros tr1 s1 [infra|e|] (R1 & P1 & I1); [|by (split; [done|split; done])..].
  apply wp_bind. eapply wp_mono; [apply (read_loop_spec _ (fun m _ =>
    ContractRef_IsDefined (BootstrapConfigRef m) = true))|].
  { intros acc m s' Hm. wp_go; simpl; (split; [by repeat constructor|]); (split; [done|]);
      intros acc' [= <-];
      first [by left|right; eexists; split; [by apply negb_false_iff|reflexivity]]. }
  intros tr2 s2 [configs|e|] (R2 & P2 & I2); [|by (split; [apply only_reads_app; done|split; done])..].
  apply wp_bind. eapply wp_mono; [by apply patch_helpers_spec|].
  intros tr3 s3 [helpers|e|] (R3 & P3 & I3);
    [|by (split; [repeat apply only_reads_app; done|split; done])..].
  rewrite (I3 helpers eq_refl). clear helpers P3 I3.
  wp_go; simpl; (split; [repeat (apply only_reads_app; [done|]); by repeat constructor|]);
    (split; [done|]); intros c [= <-]; simpl; (do 4 (split; [done|])); split.
  all: try (intros k x Hx; destruct (I1 infra eq_refl _ _ Hx) as (m & Hm & <- & _);
    rewrite (Hran m Hm); eauto).
  all: intros k x Hx; destruct (I2 configs eq_refl _ _ Hx) as (m & Hm & <- & Hb);
    exists m; split; [by apply Hran|done].
Qed.
End NewControlPlane.

Section Examples.
#[local] Existing Instance reference.capi.

Example NewControlPlane_spec_witness :
  let owned : Machines := {[ "m" := named_machine "m" ]} in
  exists tr c, runs (NewControlPlane a_cluster (a_kcp 1 None None false) owned) tt tr tt (Val c)
  /\ machinesPatchHelpers c = Some owned.
Proof.
  intros owned. assert (Hn : named owned).
  { intros k m [<- <-]%lookup_singleton_Some. reflexivity. }
  eexists _, _. split; [apply (runs_of_run default_handler); vm_compute; reflexivity|].
  pose proof (NewControlPlane_spec a_cluster (a_kcp 1 None None false) owned tt Hn) as HW.
  rewrite wp_runs in HW. edestruct HW as (_ & _ & Hc).
  - apply (runs_of_run default_handler). vm_compute. reflexivity.
  - destruct (Hc _ eq_refl) as (_ & _ & _ & -> & _). reflexivity.
Defined.

Example new_machine_up_to_date_witness :
  let kcp := KThreesControlPlane_Default (a_kcp 1 None None false) in
  let m := mkMachine (mkObjectMeta "m" "ns" "" "" None None [] [] 0 None []) "c" "v1" ""
    (mkContractRef "" "KThreesConfig" "cfg") (mkContractRef "" "" "") None None None "" [] [] in
  let c := mkControlPlane kcp a_cluster {[ "m" := m ]} None false 5
    {[ "m" := read_back emptyMeta "v1" (KCPConfigSpec (KCPSpec kcp)) emptyConfigStatus ]}
    {[ "m" := mkUnstructured "" "" (with_annotations (Some
         {[ TemplateClonedFromNameAnnotation := "t";
            TemplateClonedFromGroupKindAnnotation := "T" ]}) emptyMeta) ]} in
  stored_spec (KCPConfigSpec (KCPSpec kcp)) = KCPConfigSpec (KCPSpec kcp)
  /\ MachinesNeedingRollout c !! "m" = None /\ UpToDateMachines c !! "m" = Some m.
Proof.
  intros kcp m c.
  assert (Hs : stored_spec (KCPConfigSpec (KCPSpec kcp)) = KCPConfigSpec (KCPSpec kcp)) by reflexivity.
  split; [exact Hs|].
  apply (new_machine_up_to_date (a_kcp 1 None None false) c m emptyMeta "v1" emptyConfigStatus);
    [|reflexivity|reflexivity|exact Hs].
  split; [reflexivity|reflexivity|vm_compute; discriminate|split; [reflexivity|done]|].
  eexists. split; reflexivity.
Defined.
End Examples.
