(* ===== verification/Workload.v ===== *)
(** A workload cluster and its etcd: how the management cluster reaches it
    (pkg/k3s/management_cluster.go), its nodes and status
    (pkg/k3s/workload_cluster.go) and the etcd tasks
    (pkg/k3s/workload_cluster_etcd.go). The conditions that are computed from
    it are in the file Conditions. *)

From S2P Require Import Prelude GoStd Effects ApiTypes Api Capi Certificates Etcd.

(** ** State *)

(** [Workload]: the cluster its client talks to and its etcd client generator,
    nil for a cluster without an etcd CA. *)
Record Workload := mkWorkload {
  WCluster : ObjectKey;
  etcdClientGenerator : option EtcdClientGenerator;
}.

Record ClusterStatus := mkClusterStatus {
  Nodes : Z;
  ReadyNodes : Z;
  HasK3sServingSecret : bool;
}.

(** A method call on the generator: it panics when the generator is nil, and
    the generator keeps what the call changed in it. *)
Definition on_generator {A} (m : M EtcdClientGenerator A) : M Workload A := fun w =>
  match etcdClientGenerator w with
  | None => Ret (w, Panic)
  | Some g => prog_bind (m g) (fun so => Ret (mkWorkload (WCluster w) (Some so.1), so.2))
  end.

Definition labelNodeRoleMaster : string := "node-role.kubernetes.io/master".
Definition labelNodeRoleControlPlane : string := "node-role.kubernetes.io/control-plane".
Definition k3sServingSecretKey : string := "k3s-serving".
Definition NamespaceSystem : string := "kube-system".
Definition EtcdRemoveAnnotation : string := "etcd.k3s.cattle.io/remove".
Definition EtcdRemovedNodeAnnotation : string := "etcd.k3s.cattle.io/removed-node-name".

Definition ErrControlPlaneMinNodes : error :=
  ESentinel "cluster has fewer than 2 control plane nodes; removing an etcd member is not supported".

(** ** The management cluster *)

Section Management.
Context `{CAPI} `{Crypto} {S : Type}.

(** [GetMachinesForCluster], of the management cluster with a cached client or
    of the uncached one; the list becomes a map by name. *)
Definition FromMachineList (ml : list Machine) : Machines :=
  fold_left (fun ms m => <[ MName m := m ]> ms) ml ∅.

Definition GetMachinesForCluster (uncached : bool) (cluster : ObjectKey) (filters : list (Machine -> bool))
    : M S Machines :=
  r <- call (ListMachines uncached cluster) ;;
  ml <- lift_wrap "failed to list machines" r ;;
  ret (Filter (fun m => forallb (fun f => f m) filters) (FromMachineList ml)).

Definition getEtcdCAKeyPair (clusterKey : ObjectKey) : M S (option (string * string)) :=
  r <- call (GetSecret (mkKey (KeyNamespace clusterKey) (KeyName clusterKey +++ "-etcd"))) ;;
  match r with
  | inr err =>
      if IsNotFound err then ret None
      else throw (EWrap "failed to get secret; etcd CA bundle" err)
  | inl etcdCASecret =>
      match gomap_get (SecretData etcdCASecret) TLSCrtDataName with
      | None => throw (ENew "etcd tls crt does not exist for cluster")
      | Some crtData =>
          ret (Some (crtData, default "" (gomap_get (SecretData etcdCASecret) TLSKeyDataName)))
      end
  end.

Definition client_template (now : Time) : CertTemplate :=
  {| SerialNumber := 0;
     CommonName := "cluster-api.x-k8s.io";
     Organization := [];
     NotBefore := now + Minute * -5;
     NotAfter := now + Hour * 24 * 365 * 10;
     KeyUsage := KeyUsageDigitalSignature;
     ExtKeyUsageClientAuth := true;
     MaxPathLenZero := false;
     BasicConstraintsValid := false;
     MaxPathLen := 0;
     IsCA := false |}.

Definition newClientCert (caCert key caKey : string) : M S string :=
  now <- call Now ;;
  r <- call (CreateCertificate (client_template now) (inr caCert) key caKey) ;;
  b <- lift_wrap "failed to create signed client certificate" r ;;
  c <- call (ParseCertificate b) ;;
  lift_res c.

(** A decoded certificate or key may be nil, which the library code that gets
    it dereferences. *)
Definition generateClientCert (caCertEncoded caKeyEncoded : string) : M S unit :=
  k <- call NewPrivateKey ;;
  clientKey <- lift_wrap "error creating client key" k ;;
  caCert <- lift_res (DecodeCertPEM caCertEncoded) ;;
  caKey <- lift_res (DecodePrivateKeyPEM caKeyEncoded) ;;
  match caCert, caKey with
  | Some cert, Some key =>
      x509Cert <- newClientCert cert clientKey key ;;
      lift_res (X509KeyPair (EncodeCertPEM x509Cert) (EncodePrivateKeyPEM clientKey))
  | _, _ => panic
  end.

Definition GetWorkloadCluster (etcdCallTimeout : Z) (clusterKey : ObjectKey) : M S Workload :=
  r <- call (RESTConfig clusterKey) ;;
  match r with
  | inr err => throw (ERemoteClusterConnection (ObjectKey_String clusterKey) err)
  | inl _ =>
      c <- call (NewClient clusterKey) ;;
      match c with
      | inr err => throw (ERemoteClusterConnection (ObjectKey_String clusterKey) err)
      | inl _ =>
          ca <- getEtcdCAKeyPair clusterKey ;;
          match ca with
          | None => ret (mkWorkload clusterKey None)
          | Some (crtData, keyData) =>
              generateClientCert crtData keyData ;;;
              ret (mkWorkload clusterKey (Some (NewEtcdClientGenerator clusterKey etcdCallTimeout)))
          end
      end
  end.
End Management.

(** ** Nodes *)

Definition hasControlPlaneRoleLabel (labels : gomap string) : bool :=
  match gomap_get labels labelNodeRoleMaster, gomap_get labels labelNodeRoleControlPlane with
  | None, None => false
  | _, _ => true
  end.

Definition NName (n : Node) : string := Name (NodeMeta n).

Definition getControlPlaneNodes : M Workload (list Node) :=
  w <- get ;;
  r <- call (ListNodes (WCluster w)) ;;
  nodes <- lift_res r ;;
  ret (List.filter (fun n => hasControlPlaneRoleLabel (Labels (NodeMeta n))) nodes).

Definition nodeHasUnreachableTaint (node : Node) : bool :=
  existsb (fun taint => String.eqb (TaintKey taint) "node.kubernetes.io/unreachable"
                        && String.eqb (TaintEffect taint) "NoExecute") (NodeTaints node).

(** [ClusterStatus]; [IsNodeReady] is Cluster API's. The counters are 32 bits
    wide. *)
Definition GetClusterStatus (IsNodeReady : Node -> bool) : M Workload ClusterStatus :=
  w <- get ;;
  nodes <- getControlPlaneNodes ;;
  s <- call (GetWorkloadSecret (WCluster w) (mkKey NamespaceSystem k3sServingSecretKey)) ;;
  ret (mkClusterStatus (wrap32 (Z.of_nat (length nodes)))
         (wrap32 (Z.of_nat (count IsNodeReady nodes)))
         (match s with inl _ => true | inr _ => false end)).

(** ** etcd tasks *)

Section EtcdTasks.
Context `{CAPI}.

(** The last node of that name; the zero node when there is none. *)
Definition find_last_node (name : string) (nodes : list Node) : Node :=
  fold_left (fun acc n => if String.eqb (NName n) name then n else acc) nodes
    (mkNode emptyMeta [] []).

Definition removeMemberForNode (name : string) : M Workload bool :=
  w <- get ;;
  controlPlaneNodes <- getControlPlaneNodes ;;
  if (length controlPlaneNodes <? 2)%nat then throw ErrControlPlaneMinNodes
  else
    let removingNode := find_last_node name controlPlaneNodes in
    if negb (String.eqb (NName removingNode) name) then ret true
    else
      let annotations := Annotations (NodeMeta removingNode) in
      match gomap_get annotations EtcdRemovedNodeAnnotation with
      | Some _ => ret true
      | None =>
          h <- call (NewNodePatchHelper (WCluster w) removingNode) ;;
          lift_wrap "failed to create patch helper for node" h ;;;
          match gomap_set EtcdRemoveAnnotation "true" annotations with
          | None => panic
          | Some annotations' =>
              p <- call (PatchNode (WCluster w) removingNode
                (mkNode (with_annotations annotations' (NodeMeta removingNode))
                   (NodeTaints removingNode) (NodeConditions removingNode))) ;;
              lift_wrap "failed patch node" p ;;;
              ret false
          end
      end.

Definition RemoveEtcdMemberForMachine (machine : option Machine) : M Workload bool :=
  match machine with
  | None => ret true
  | Some m => if negb (NodeRef_IsDefined m) then ret true else removeMemberForNode (NodeRefName m)
  end.

Definition removeMemberForNonExistingNode (name : string) : M Workload unit :=
  controlPlaneNodes <- getControlPlaneNodes ;;
  if (length controlPlaneNodes <? 2)%nat then throw ErrControlPlaneMinNodes
  else
    let remainingNodes :=
      List.filter (fun n => negb (String.eqb n name)) (NName <$> controlPlaneNodes) in
    c <- try (on_generator (forFirstAvailableNode remainingNodes)) ;;
    etcdClient <- lift_wrap "failed to create etcd client" c ;;
    with_close etcdClient (
      ms <- try (Members etcdClient) ;;
      members <- lift_wrap "failed to list etcd members using etcd client" ms ;;
      match MemberForName members name with
      | None => ret tt
      | Some member =>
          r <- try (RemoveMember etcdClient (MemberID member)) ;;
          lift_wrap "failed to remove member from etcd" r
      end).

(** The loop of [reconcileEtcdMember] over the members: a member that has just
    been added has no name yet, one whose node exists is kept. *)
Definition remove_missing (nodeNames : list string) (acc : list string * list error) (member : Member)
    : M Workload (list string * list error) :=
  let '(removedMembers, errs) := acc in
  let curNodeName := NodeNameFromMember member in
  if String.eqb curNodeName "" then ret acc
  else if existsb (String.eqb curNodeName) nodeNames then ret acc
  else
    r <- try (removeMemberForNonExistingNode curNodeName) ;;
    match r with
    | inl _ => ret (removedMembers ++ [curNodeName], errs)
    | inr err => ret (removedMembers ++ [curNodeName], errs ++ [err])
    end.

Definition reconcileEtcdMember (nodeNames : list string) (nodeName : string)
    : M Workload (list string * list error) :=
  c <- try (on_generator (forFirstAvailableNode [nodeName])) ;;
  match c with
  | inr _ => ret ([], [])
  | inl etcdClient =>
      with_close etcdClient (
        ms <- try (Members etcdClient) ;;
        match ms with
        | inr _ => ret ([], [])
        | inl members => fold_each members ([], []) (remove_missing nodeNames)
        end)
  end.

Definition ReconcileEtcdMembers (nodeNames : list string)
    : M Workload (list string * option error) :=
  let* (allRemovedMembers, allErrs) := fold_each nodeNames ([], []) (fun acc nodeName =>
    let* (removedMembers, errs) := reconcileEtcdMember nodeNames nodeName in
    ret (acc.1 ++ removedMembers, acc.2 ++ errs)) in
  ret (allRemovedMembers, NewAggregate allErrs).

Definition ForwardEtcdLeadership (machine leaderCandidate : option Machine) : M Workload unit :=
  match machine with
  | None => ret tt
  | Some m =>
      if negb (NodeRef_IsDefined m) then ret tt
      else
        match leaderCandidate with
        | None => throw (ENew "leader candidate cannot be nil")
        | Some candidate =>
            if negb (NodeRef_IsDefined candidate) then throw (ENew "leader has no node reference")
            else
              ns <- try getControlPlaneNodes ;;
              nodes <- lift_wrap "failed to list control plane nodes" ns ;;
              c <- try (on_generator (forLeader (NName <$> nodes))) ;;
              etcdClient <- lift_wrap "failed to create etcd client" c ;;
              with_close etcdClient (
                ms <- try (Members etcdClient) ;;
                members <- lift_wrap "failed to list etcd members using etcd client" ms ;;
                match MemberForName members (NodeRefName m) with
                | None => ret tt
                | Some currentMember =>
                    if negb (MemberID currentMember =? LeaderID etcdClient)%Z then ret tt
                    else
                      match MemberForName members (NodeRefName candidate) with
                      | None => throw (ENew "failed to get etcd member from node")
                      | Some nextLeader =>
                          r <- try (MoveLeader etcdClient (MemberID nextLeader)) ;;
                          lift_wrap "failed to move leader" r
                      end
                end)
        end
  end.

Definition EtcdMembers : M Workload (list string) :=
  ns <- try getControlPlaneNodes ;;
  nodes <- lift_wrap "failed to list control plane nodes" ns ;;
  c <- try (on_generator (forLeader (NName <$> nodes))) ;;
  etcdClient <- lift_wrap "failed to create etcd client" c ;;
  with_close etcdClient (
    ms <- try (Members etcdClient) ;;
    members <- lift_wrap "failed to list etcd members using etcd client" ms ;;
    ret (NodeNameFromMember <$> members)).
End EtcdTasks.

(** ** What the etcd tasks do *)

(** Every connection opened in a trace is closed in it. *)
Definition closes_all (tr : list event) : Prop := omap opened_conn tr ≡ₚ omap closed_conn tr.

Lemma closes_all_app tr1 tr2 : closes_all tr1 -> closes_all tr2 -> closes_all (tr1 ++ tr2).
Proof. unfold closes_all. rewrite !omap_app. by intros -> ->. Qed.

(** The command neither changes etcd nor connects to it. *)
Definition no_etcd (tr : list event) : Prop :=
  Forall (fun e => opened_conn e = None /\ closed_conn e = None) tr.

Lemma no_etcd_closes tr : no_etcd tr -> closes_all tr.
Proof.
  unfold closes_all. induction 1 as [|e tr [H1 H2] _ IH]; [done|]. simpl. by rewrite H1, H2.
Qed.

Lemma closes_all_nil : closes_all [].
Proof. unfold closes_all. done. Qed.
#[local] Hint Resolve closes_all_nil : core.

Lemma balanced_closes tr : balanced tr [] -> closes_all tr.
Proof. intros [H _]. unfold closes_all. by rewrite H, app_nil_r. Qed.

(** The members [ms] are those the connection [c] listed in [tr]. *)
Definition members_seen (tr : list event) (c : conn) (ms : list Member) : Prop :=
  exists response alarms, ev (EtcdMemberList c) (inl response) ∈ tr
    /\ ms = newMember (HeaderClusterId response) alarms <$> ResponseMembers response.

Lemma members_seen_mono tr tr' c ms :
  members_seen tr c ms -> tr ⊆ tr' -> members_seen tr' c ms.
Proof. intros (response & alarms & Hin & ->) Hs. exists response, alarms. auto. Qed.

Lemma MemberForName_pb tr c ms name m :
  members_seen tr c ms -> MemberForName ms name = Some m ->
  exists response pm, ev (EtcdMemberList c) (inl response) ∈ tr
    /\ pm ∈ ResponseMembers response /\ PbID pm = MemberID m
    /\ NodeNameFromMember (pbMemberToMember pm) = name.
Proof.
  intros (response & alarms & Hin & ->) [Hm Hn]%find_first_Some.
  apply String.eqb_eq in Hn. apply list_elem_of_fmap in Hm as (pm & -> & Hpm).
  by exists response, pm.
Qed.

Lemma Members_seen {S} c (s : S) :
  wp (Members c) s (fun tr s' o => s' = s /\ balanced tr [] /\ o <> Panic
    /\ forall ms, o = Val ms -> members_seen tr (EtcdClient c) ms).
Proof.
  unfold Members, Alarms. wp_go; (split; [done|]); (split; [bal|]); (split; [done|]); intros ms [=]; subst.
  eexists _, _. split; [left|reflexivity].
Qed.

Lemma wp_on_generator {A} (m : M EtcdClientGenerator A) w (Q : list event -> outcome A -> Prop) :
  (etcdClientGenerator w = None -> Q [] Panic) ->
  (forall g, etcdClientGenerator w = Some g -> wp m g (fun tr _ o => Q tr o)) ->
  wp (on_generator m) w (fun tr w' o =>
    Q tr o /\ WCluster w' = WCluster w
    /\ (etcdClientGenerator w' = None <-> etcdClientGenerator w = None)).
Proof.
  intros HN HS. unfold on_generator, wp. destruct (etcdClientGenerator w) as [g|] eqn:E.
  - rewrite always_bind. eapply always_mono; [|apply (HS g eq_refl)].
    intros tr [g' o] HQ. simpl. rewrite app_nil_r. by split_and!.
  - simpl. rewrite E. by split_and!; [apply HN| |].
Qed.

(** [defer Close()]: the body's trace, then the close. *)
Lemma wp_with_close {S A} c (body : M S A) s Q :
  wp (with_close c body) s Q
  <-> wp body s (fun tr s' o => forall r, Q (tr ++ [ev (EtcdClose (EtcdClient c)) r]) s' o).
Proof.
  unfold wp, with_close. rewrite always_bind. simpl.
  split; intros HQ; eapply always_mono; try exact HQ; intros tr [s' o]; simpl; auto.
Qed.

Definition is_etcd_write (c : cmd) : bool :=
  match c with
  | EtcdMoveLeader _ _ | EtcdMemberRemove _ _ | EtcdMemberUpdate _ _ _ => true
  | _ => false
  end.

Lemma connects_no_write tr : connects_only tr -> issued is_etcd_write tr = 0.
Proof.
  intros HF. apply issued_0. intros e He.
  unfold connects_only in HF. rewrite Forall_forall in HF. specialize (HF e He).
  by destruct (ev_cmd e).
Qed.

(** The leadership may move over connection [c] to member [id]: the server of
    that connection is led by the member of the machine, and [id] is the member
    of the candidate among those it listed. *)
Definition may_move (tr : list event) (machine candidate : Machine) (c : conn) (id : Z) : Prop :=
  exists ep st response pm pc,
    ev (EtcdStatus c ep) (inl st) ∈ tr
    /\ ev (EtcdMemberList c) (inl response) ∈ tr
    /\ pm ∈ ResponseMembers response /\ PbID pm = StatusLeader st
    /\ NodeNameFromMember (pbMemberToMember pm) = NodeRefName machine
    /\ pc ∈ ResponseMembers response /\ PbID pc = id
    /\ NodeNameFromMember (pbMemberToMember pc) = NodeRefName candidate.

(** Member [id] may be removed over connection [c]: it belongs to node [name]
    in the list of that connection, and the cluster had two control-plane nodes. *)
Definition may_remove (tr : list event) (cluster : ObjectKey) (name : string) (c : conn) (id : Z)
    : Prop :=
  (exists nodes, ev (ListNodes cluster) (inl nodes) ∈ tr
     /\ (2 <= count (fun n => hasControlPlaneRoleLabel (Labels (NodeMeta n))) nodes)%nat)
  /\ exists response pm, ev (EtcdMemberList c) (inl response) ∈ tr
     /\ pm ∈ ResponseMembers response /\ PbID pm = id
     /\ NodeNameFromMember (pbMemberToMember pm) = name.

Lemma may_move_intro tr machine candidate client ep st ms m1 m2 :
  ev (EtcdStatus (EtcdClient client) ep) (inl st) ∈ tr -> StatusLeader st = LeaderID client ->
  members_seen tr (EtcdClient client) ms -> MemberID m1 = LeaderID client ->
  MemberForName ms (NodeRefName machine) = Some m1 ->
  MemberForName ms (NodeRefName candidate) = Some m2 ->
  may_move tr machine candidate (EtcdClient client) (MemberID m2).
Proof.
  intros Hst Hl (response & alarms & Hin & ->) Hid [H1 E1]%find_first_Some [H2 E2]%find_first_Some.
  apply String.eqb_eq in E1, E2.
  apply list_elem_of_fmap in H1 as (pm & -> & Hpm), H2 as (pc & -> & Hpc).
  exists ep, st, response, pm, pc. simpl in *. split_and!; try done. congruence.
Qed.

Section Tasks.
Context `{CAPI}.

Lemma getControlPlaneNodes_ok w :
  wp getControlPlaneNodes w (fun tr w' o => w' = w /\ o <> Panic
    /\ exists r, tr = [ev (ListNodes (WCluster w)) r]
       /\ forall nodes, o = Val nodes -> exists all, r = inl all
          /\ nodes = List.filter (fun n => hasControlPlaneRoleLabel (Labels (NodeMeta n))) all).
Proof.
  unfold getControlPlaneNodes. wp_go; (split; [done|]); (split; [done|]);
    (eexists; split; [reflexivity|]); intros nodes [= <-]; eauto.
Qed.

Lemma getControlPlaneNodes_closes w r : closes_all [ev (ListNodes (WCluster w)) r].
Proof. apply no_etcd_closes. by repeat constructor. Qed.

(** What [ForwardEtcdLeadership] does once it holds the client. *)
Lemma move_body_ok {S} (m candidate : Machine) (client : Client) tr0 (s : S) :
  status_seen tr0 client ->
  wp (ms <- try (Members client) ;;
      members <- lift_wrap "failed to list etcd members using etcd client" ms ;;
      match MemberForName members (NodeRefName m) with
      | None => ret tt
      | Some currentMember =>
          if negb (MemberID currentMember =? LeaderID client)%Z then ret tt
          else
            match MemberForName members (NodeRefName candidate) with
            | None => throw (ENew "failed to get etcd member from node")
            | Some nextLeader =>
                r <- try (MoveLeader client (MemberID nextLeader)) ;;
                lift_wrap "failed to move leader" r
            end
      end) s (fun tr _ o => o <> Panic /\ closes_all tr
        /\ (issued is_etcd_write tr <= 1)%nat
        /\ forall e, e ∈ tr -> is_etcd_write (ev_cmd e) = true ->
             exists c id, ev_cmd e = EtcdMoveLeader c id /\ may_move (tr0 ++ tr) m candidate c id).
Proof.
  intros (ep & st & Hst & Hl). apply wp_bind, wp_try.
  eapply wp_mono; [apply Members_seen|]. intros tr1 s1 o1 (_ & [Hb Hc1] & Hp & Hms).
  apply connects_no_write in Hc1 as Hw.
  assert (Hcl : closes_all tr1) by (unfold closes_all; by rewrite Hb, app_nil_r).
  assert (Hno : forall e, e ∈ tr1 ++ [] -> is_etcd_write (ev_cmd e) = true ->
    exists c id, ev_cmd e = EtcdMoveLeader c id /\ may_move (tr0 ++ tr1 ++ []) m candidate c id).
  { rewrite app_nil_r. intros e He Hwe. rewrite issued_0 in Hw. rewrite (Hw e He) in Hwe. done. }
  destruct o1 as [ms|e1|]; [|wp_go; rewrite app_nil_r in *; by split_and!; [| |lia|]|done].
  unfold MoveLeader. wp_go; try (rewrite app_nil_r in *; by split_and!; [| |lia|]).
  all: split; [done|]; split; [apply closes_all_app; [done|by apply no_etcd_closes; repeat constructor]|].
  all: split; [rewrite issued_app, Hw; simpl; unfold issued, count; simpl; lia|].
  all: intros ev0 [He|He]%elem_of_app Hwe;
    [rewrite issued_0 in Hw; rewrite (Hw ev0 He) in Hwe; done|].
  all: apply list_elem_of_singleton in He as ->; eexists _, _; split; [reflexivity|].
  all: eapply may_move_intro; [apply elem_of_app; left; exact Hst|exact Hl| | |eassumption|eassumption].
  all: try by (eapply members_seen_mono; [by apply Hms|]; intros x; rewrite !elem_of_app; auto).
  all: match goal with H : negb _ = false |- _ => by apply negb_false_iff, Z.eqb_eq in H end.
Qed.

Lemma client_ok_open tr o : client_ok tr o ->
  issued is_etcd_write tr = 0
  /\ match o with
     | Val c => forall tr2 r, closes_all tr2 -> closes_all (tr ++ tr2 ++ [ev (EtcdClose (EtcdClient c)) r])
     | _ => closes_all tr
     end.
Proof.
  intros ([Hb Hc] & _ & _). split; [by apply connects_no_write|].
  destruct o as [c| |]; simpl in Hb; [|by apply balanced_closes..].
  intros tr2 r H2. unfold closes_all in *. rewrite !omap_app, Hb, H2. simpl. solve_Permutation.
Qed.
End Tasks.

Section TaskTheorems.
Context `{CAPI}.

Definition forward_ok machine leaderCandidate w (tr : list event) (o : outcome unit) : Prop :=
  (issued is_etcd_write tr <= 1)%nat
  /\ (forall e, e ∈ tr -> is_etcd_write (ev_cmd e) = true ->
       exists m candidate c id, machine = Some m /\ leaderCandidate = Some candidate
         /\ ev_cmd e = EtcdMoveLeader c id /\ may_move tr m candidate c id)
  /\ closes_all tr
  /\ (o = Panic -> etcdClientGenerator w = None).

Lemma forward_quiet machine leaderCandidate w o tr :
  o <> Panic -> closes_all tr -> issued is_etcd_write tr = 0 ->
  forward_ok machine leaderCandidate w tr o.
Proof.
  intros Ho Hc H0. unfold forward_ok. split_and!; [lia| |done|done].
  rewrite issued_0 in H0. intros e He Hw. by rewrite (H0 e He) in Hw.
Qed.

Lemma forward_ok_holds machine leaderCandidate w :
  wp (ForwardEtcdLeadership machine leaderCandidate) w (fun tr _ o =>
    forward_ok machine leaderCandidate w tr o).
Proof.
  unfold ForwardEtcdLeadership. destruct machine as [m|]; [|by apply wp_ret, forward_quiet].
  destruct (negb _); [by apply wp_ret, forward_quiet|].
  destruct leaderCandidate as [candidate|]; [|by apply wp_throw, forward_quiet].
  destruct (negb _); [by apply wp_throw, forward_quiet|].
  apply wp_bind, wp_try. eapply wp_mono; [apply getControlPlaneNodes_ok|].
  intros tr1 w1 o1 (-> & Hp1 & r & -> & _).
  destruct o1 as [nodes|e|]; [|wp_go; by apply forward_quiet|done].
  apply wp_bind, wp_ret. cbn beta. apply wp_bind, wp_try. eapply wp_mono.
  { apply (wp_on_generator _ _ (fun tr o =>
      (o = Panic /\ etcdClientGenerator w = None /\ tr = []) \/ client_ok tr o)); [by left; auto|].
    intros g _. eapply wp_mono; [apply forLeader_ok|]. by right. }
  intros tr2 w2 o2 ([(-> & HN & ->)|Hok] & _ & _);
    [unfold forward_ok; split_and!; [unfold issued, count; simpl; lia| | |done];
     [by intros e [->|He%elem_of_nil]%elem_of_cons|apply getControlPlaneNodes_closes]|].
  destruct (client_ok_open _ _ Hok) as [Hw2 Hcl2]. destruct Hok as (_ & Hp2 & Hst).
  destruct o2 as [client|e|]; [| |done].
  - apply wp_bind, wp_ret. cbn beta. apply wp_with_close.
    eapply wp_mono; [apply (move_body_ok m candidate client tr2); by apply Hst|].
    intros tr3 w3 o3 (Hp3 & Hcl3 & Hw3 & Hall) r3. rewrite !app_nil_l.
    split_and!.
    + rewrite !issued_app, Hw2, !issued_cons, !issued_nil. simpl. lia.
    + intros e He Hwe. rewrite !elem_of_app, !list_elem_of_singleton in He.
      rewrite issued_0 in Hw2. destruct He as [He|[He|[He|He]]];
        [by subst|by rewrite (Hw2 e He) in Hwe| |by subst].
      destruct (Hall e He Hwe) as (c & id & Hc & Hm). exists m, candidate, c, id. split_and!; try done.
      destruct Hm as (ep & st & response & pm & pc & Hin1 & Hin2 & Hr).
      exists ep, st, response, pm, pc. rewrite !elem_of_app in *. tauto.
    + apply closes_all_app; [apply getControlPlaneNodes_closes|]. by apply Hcl2.
    + by intros ->.
  - wp_go. apply forward_quiet; [done| |].
    + rewrite !app_nil_r. apply closes_all_app; [apply getControlPlaneNodes_closes|done].
    + rewrite !app_nil_r, !issued_app, Hw2. done.
Qed.

(** C13: leadership moves only away from the machine that is going away, and
    only to the candidate. In every execution of [ForwardEtcdLeadership] the
    only write to etcd is at most one move of the leadership; it goes over a
    connection whose server said that its leader is the member of the machine's
    node, and the new leader is the member of the candidate's node in the list
    the same connection gave. Every connection is closed, failures included,
    and the code panics only on a cluster whose etcd it does not manage. *)
Theorem ForwardEtcdLeadership_spec machine leaderCandidate w :
  wp (ForwardEtcdLeadership machine leaderCandidate) w (fun tr _ o =>
    (issued is_etcd_write tr <= 1)%nat
    /\ (forall e, e ∈ tr -> is_etcd_write (ev_cmd e) = true ->
         exists m candidate c id, machine = Some m /\ leaderCandidate = Some candidate
           /\ ev_cmd e = EtcdMoveLeader c id /\ may_move tr m candidate c id)
    /\ closes_all tr
    /\ (o = Panic -> etcdClientGenerator w = None)).
Proof. apply forward_ok_holds. Qed.
End TaskTheorems.

(** ** Removing members without a node *)

(** The only writes of [tr] are removals of members whose node is not among
    [nodeNames]. *)
Definition removals_ok (nodeNames : list string) (cluster : ObjectKey) (tr : list event) : Prop :=
  forall e, e ∈ tr -> is_etcd_write (ev_cmd e) = true ->
    exists c id name, ev_cmd e = EtcdMemberRemove c id /\ name <> "" /\ (name ∉ nodeNames)
      /\ may_remove tr cluster name c id.

(** A task leaves its workload pointing to the same cluster and etcd, closes
    its connections and removes only what it may. *)
Definition task {A} (nodeNames : list string) (w : Workload) (tr : list event) (w' : Workload)
    (o : outcome A) : Prop :=
  removals_ok nodeNames (WCluster w) tr /\ closes_all tr
  /\ (WCluster w' = WCluster w /\ (etcdClientGenerator w' = None <-> etcdClientGenerator w = None))
  /\ (o = Panic -> etcdClientGenerator w = None).

Lemma may_remove_mono tr tr' cluster name c id :
  may_remove tr cluster name c id -> tr ⊆ tr' -> may_remove tr' cluster name c id.
Proof.
  intros [(nodes & Hn & Hc) (response & pm & Hr & Hp)] Hs.
  split; [by exists nodes; auto|by exists response, pm; auto].
Qed.

Lemma removals_app ns cl tr1 tr2 :
  removals_ok ns cl tr1 -> removals_ok ns cl tr2 -> removals_ok ns cl (tr1 ++ tr2).
Proof.
  intros H1 H2 e [He|He]%elem_of_app Hw;
    [pose proof (H1 e He Hw) as (c & id & n & Hc & Hn & Hni & Hm)
    |destruct (H2 e He Hw) as (c & id & n & Hc & Hn & Hni & Hm)];
    exists c, id, n; split_and!; try done; (eapply may_remove_mono; [exact Hm|]);
    intros x; rewrite elem_of_app; auto.
Qed.

Lemma removals_quiet ns cl tr : issued is_etcd_write tr = 0 -> removals_ok ns cl tr.
Proof. intros H0 e He Hw. rewrite issued_0 in H0. by rewrite (H0 e He) in Hw. Qed.

Lemma task_app {A B} ns w tr1 w1 (o1 : outcome A) tr2 w2 (o2 : outcome B) :
  task ns w tr1 w1 o1 -> task ns w1 tr2 w2 o2 -> task ns w (tr1 ++ tr2) w2 o2.
Proof.
  intros (R1 & C1 & (K1 & G1) & P1) (R2 & C2 & (K2 & G2) & P2). rewrite K1 in *.
  split_and!; [by apply removals_app|by apply closes_all_app|done| |]; tauto.
Qed.

Section TaskRules.
Context {A B : Type}.

Lemma task_ret ns w (a : A) : task ns w [] w (Val a).
Proof. split_and!; [by apply removals_quiet|done..]. Qed.

Lemma task_throw ns w (e : error) : task ns w [] w (@Err A e).
Proof. split_and!; [by apply removals_quiet|done..]. Qed.

Lemma task_outcome {X Y} ns w tr w' (o : outcome X) (o' : outcome Y) :
  (o' = Panic -> o = Panic) -> task ns w tr w' o -> task ns w tr w' o'.
Proof. intros Ho (R & C & K & P). split_and!; try done; tauto. Qed.

Lemma wp_task_bind ns (m : M Workload A) (f : A -> M Workload B) w :
  wp m w (task ns w) -> (forall a w', wp (f a) w' (task ns w')) -> wp (bind m f) w (task ns w).
Proof.
  intros Hm Hf. apply wp_bind. eapply wp_mono; [exact Hm|]. intros tr w' [a|e|] Ht.
  - eapply wp_mono; [apply Hf|]. intros tr2 w2 o. by eapply task_app.
  - by refine (task_outcome _ _ _ _ _ _ _ Ht).
  - by refine (task_outcome _ _ _ _ _ _ _ Ht).
Qed.

Lemma wp_task_try ns (m : M Workload A) w : wp m w (task ns w) -> wp (try m) w (task ns w).
Proof.
  intros Hm. apply wp_try. eapply wp_mono; [exact Hm|].
  intros tr w' [a|e|] Ht; by refine (task_outcome _ _ _ _ _ _ _ Ht).
Qed.

Lemma wp_task_fold {X} ns (xs : list X) acc (body : A -> X -> M Workload A) w :
  (forall acc x w, x ∈ xs -> wp (body acc x) w (task ns w)) ->
  wp (fold_each xs acc body) w (task ns w).
Proof.
  intros Hb. revert acc w. induction xs as [|x xs IH]; intros acc w; [apply task_ret|].
  simpl. apply wp_bind. eapply wp_mono; [apply Hb; by left|]. intros tr w' [a|e|] Ht.
  - eapply wp_mono; [apply IH; intros; apply Hb; by right|]. intros tr2 w2 o. by eapply task_app.
  - by refine (task_outcome _ _ _ _ _ _ _ Ht).
  - by refine (task_outcome _ _ _ _ _ _ _ Ht).
Qed.

End TaskRules.

Section Reconciling.
Context `{CAPI}.
Implicit Types w : Workload.

(** What [removeMemberForNonExistingNode] does once it holds the client. *)
Lemma remove_body_ok {S} (name : string) (client : Client) (s : S) :
  wp (ms <- try (Members client) ;;
      members <- lift_wrap "failed to list etcd members using etcd client" ms ;;
      match MemberForName members name with
      | None => ret tt
      | Some member =>
          r <- try (RemoveMember client (MemberID member)) ;;
          lift_wrap "failed to remove member from etcd" r
      end) s (fun tr s' o => o <> Panic /\ s' = s /\ closes_all tr
        /\ forall e, e ∈ tr -> is_etcd_write (ev_cmd e) = true ->
             exists c id, ev_cmd e = EtcdMemberRemove c id
               /\ exists response pm, ev (EtcdMemberList c) (inl response) ∈ tr
                  /\ pm ∈ ResponseMembers response /\ PbID pm = id
                  /\ NodeNameFromMember (pbMemberToMember pm) = name).
Proof.
  apply wp_bind, wp_try.
  eapply wp_mono; [apply Members_seen|]. intros tr1 s1 o1 (-> & [Hb Hc1] & Hp & Hms).
  apply connects_no_write in Hc1 as Hw. rewrite issued_0 in Hw.
  assert (Hcl : closes_all tr1) by (unfold closes_all; by rewrite Hb, app_nil_r).
  assert (Hno : forall e, e ∈ tr1 -> is_etcd_write (ev_cmd e) = true -> False)
    by (intros e He Hwe; by rewrite (Hw e He) in Hwe).
  destruct o1 as [ms|e1|]; [| |done].
  - unfold RemoveMember. wp_go; rewrite ?app_nil_r; (split; [done|]); (split; [done|]); simpl.
    3: { split; [done|]. intros e He Hwe. by destruct (Hno e He Hwe). }
    all: split; [apply closes_all_app; [done|by apply no_etcd_closes; repeat constructor]|].
    all: intros ev0 [He|He]%elem_of_app Hwe; [by destruct (Hno ev0 He Hwe)|].
    all: apply list_elem_of_singleton in He as ->; eexists _, _; split; [reflexivity|].
    all: eapply MemberForName_pb; [|eassumption].
    all: eapply members_seen_mono; [by apply Hms|]; intros x; rewrite elem_of_app; auto.
  - wp_go. rewrite app_nil_r. split_and!; [done..|].
    intros e He Hwe. by destruct (Hno e He Hwe).
Qed.

Lemma removeMemberForNonExistingNode_task ns name w :
  name <> "" -> name ∉ ns -> wp (removeMemberForNonExistingNode name) w (task ns w).
Proof.
  intros Hne Hni. unfold removeMemberForNonExistingNode. apply wp_bind.
  eapply wp_mono; [apply getControlPlaneNodes_ok|]. intros tr1 w1 o1 (-> & Hp1 & r & -> & Hr).
  assert (Hq : forall {X} (o : outcome X), o <> Panic -> task ns w [ev (ListNodes (WCluster w)) r] w o)
    by (intros; split_and!; [by apply removals_quiet|apply getControlPlaneNodes_closes|done..]).
  destruct o1 as [nodes|e|]; [|by apply Hq|done]. destruct (Hr nodes eq_refl) as (all & -> & Hall).
  destruct (_ <? 2)%nat eqn:E2; [by apply wp_throw, Hq|]. apply Nat.ltb_ge in E2.
  apply wp_bind, wp_try. eapply wp_mono.
  { apply (wp_on_generator _ _ (fun tr o =>
      (o = Panic /\ etcdClientGenerator w = None /\ tr = []) \/ client_ok tr o)); [by left; auto|].
    intros g _. eapply wp_mono; [apply forFirstAvailableNode_ok|]. by right. }
  intros tr2 w2 o2 ([(-> & HN & ->)|Hok] & Kw & Kg).
  { split_and!; [by apply removals_quiet|apply getControlPlaneNodes_closes|done..]. }
  destruct (client_ok_open _ _ Hok) as [Hw2 Hcl2]. destruct Hok as (_ & Hp2 & _).
  assert (Hq2 : closes_all tr2 -> forall {X} (o : outcome X), o <> Panic ->
    task ns w ([ev (ListNodes (WCluster w)) (inl all)] ++ tr2) w2 o).
  { intros Hc X o Ho. split_and!; [|apply closes_all_app; [apply getControlPlaneNodes_closes|done]|done..].
    apply removals_app; by apply removals_quiet. }
  destruct o2 as [client|e|]; [|wp_go; rewrite !app_nil_r; by apply Hq2|done].
  apply wp_bind, wp_ret. cbn beta. apply wp_with_close.
  eapply wp_mono; [apply (remove_body_ok name client)|].
  intros tr3 w3 o3 (Hp3 & -> & Hcl3 & Hall3) r3. rewrite !app_nil_l.
  split_and!; [|apply closes_all_app; [apply getControlPlaneNodes_closes|by apply Hcl2]| | |done].
  - intros e He Hwe. rewrite !elem_of_app, !list_elem_of_singleton in He.
    rewrite issued_0 in Hw2. destruct He as [He|[He|[He|He]]];
      [by subst|by rewrite (Hw2 e He) in Hwe| |by subst].
    destruct (Hall3 e He Hwe) as (c & id & Hc & response & pm & Hin & Hr3).
    exists c, id, name. split_and!; try done.
    split; [exists all; split; [by left|by subst]|].
    exists response, pm. rewrite !elem_of_app. tauto.
  - done.
  - done.
Qed.

Lemma remove_missing_task ns acc member w : wp (remove_missing ns acc member) w (task ns w).
Proof.
  destruct acc as [removed errs]. unfold remove_missing.
  destruct (String.eqb_spec (NodeNameFromMember member) ""); [apply task_ret|].
  destruct (existsb _ ns) eqn:E; [apply task_ret|].
  apply wp_task_bind.
  - apply wp_task_try, removeMemberForNonExistingNode_task; [done|]. intros Hin.
    apply not_true_iff_false in E. apply E, existsb_exists.
    exists (NodeNameFromMember member). split; [by apply list_elem_of_In|apply String.eqb_refl].
  - intros [|] w'; apply task_ret.
Qed.

Lemma reconcileEtcdMember_task ns name w : wp (reconcileEtcdMember ns name) w (task ns w).
Proof.
  unfold reconcileEtcdMember. apply wp_bind, wp_try. eapply wp_mono.
  { apply (wp_on_generator _ _ (fun tr o =>
      (o = Panic /\ etcdClientGenerator w = None /\ tr = []) \/ client_ok tr o)); [by left; auto|].
    intros g _. eapply wp_mono; [apply forFirstAvailableNode_ok|]. by right. }
  intros tr2 w2 o2 ([(-> & HN & ->)|Hok] & Kw & Kg).
  { split_and!; [by apply removals_quiet|done..]. }
  destruct (client_ok_open _ _ Hok) as [Hw2 Hcl2]. destruct Hok as (_ & Hp2 & _).
  destruct o2 as [client|e|]; [| |done].
  - apply wp_with_close. eapply wp_mono.
    + apply wp_task_bind; [|intros [ms|err] w'; [apply wp_task_fold; intros; apply remove_missing_task|
        apply (task_ret ns w' ([], []))]].
      apply wp_task_try. eapply wp_mono; [apply Members_seen|]. intros tr s o (-> & Hb & Hp & _).
      split_and!; [apply removals_quiet, connects_no_write; by destruct Hb
                  |by apply balanced_closes|done..].
    + intros tr3 w3 o3 (R & C & (K & G) & P) r. rewrite Kw in *.
      split_and!; [|by apply Hcl2|done|tauto|tauto].
      apply removals_app; [by apply removals_quiet|]. by apply removals_app; [|apply removals_quiet].
  - apply wp_ret. rewrite app_nil_r. by split_and!; [apply removals_quiet| | | |].
Qed.

Lemma ReconcileEtcdMembers_ok nodeNames w :
  wp (ReconcileEtcdMembers nodeNames) w (fun tr w' o =>
    (forall e, e ∈ tr -> is_etcd_write (ev_cmd e) = true ->
       exists c id name, ev_cmd e = EtcdMemberRemove c id /\ name <> "" /\ (name ∉ nodeNames)
         /\ may_remove tr (WCluster w) name c id)
    /\ closes_all tr
    /\ WCluster w' = WCluster w
    /\ (o = Panic -> etcdClientGenerator w = None)).
Proof.
  eapply (wp_mono _ _ (task nodeNames w)).
  - unfold ReconcileEtcdMembers. apply wp_task_bind; [|intros [] w'; apply task_ret].
    apply wp_task_fold. intros acc name w' _.
    apply wp_task_bind; [apply reconcileEtcdMember_task|intros [] w''; apply task_ret].
  - intros tr w' o (R & C & (K & _) & P). by split_and!.
Qed.

(** C12: etcd loses no member that has a node. In every execution of
    [ReconcileEtcdMembers], whatever the nodes and etcd servers answer, the
    only writes to etcd are removals, and every removal goes over a connection
    that listed the removed member under a node name that is neither empty (a
    member that has not started) nor among the names given, while the cluster
    listed at least two control-plane nodes. All connections are closed, and
    it panics only when etcd is not managed. *)
Theorem ReconcileEtcdMembers_spec nodeNames w :
  wp (ReconcileEtcdMembers nodeNames) w (fun tr w' o =>
    (forall e, e ∈ tr -> is_etcd_write (ev_cmd e) = true ->
       exists c id name, ev_cmd e = EtcdMemberRemove c id /\ name <> "" /\ (name ∉ nodeNames)
         /\ may_remove tr (WCluster w) name c id)
    /\ closes_all tr
    /\ WCluster w' = WCluster w
    /\ (o = Panic -> etcdClientGenerator w = None)).
Proof. apply ReconcileEtcdMembers_ok. Qed.
End Reconciling.

(** ** Asking a node to leave etcd *)

Section Leaving.
Context `{CAPI}.

(** The loop that looks for the node finds the last one of that name. *)
Lemma find_last_node_spec name nodes :
  let n := find_last_node name nodes in
  (n ∈ nodes /\ NName n = name)
  \/ n = mkNode emptyMeta [] [] /\ forall x, x ∈ nodes -> NName x <> name.
Proof.
  unfold find_last_node. simpl. generalize (mkNode emptyMeta [] []) as d.
  induction nodes as [|x nodes IH]; intros d; simpl.
  - right. split; [done|]. intros x Hx. by apply elem_of_nil in Hx.
  - destruct (String.eqb_spec (NName x) name) as [E|E].
    + left. destruct (IH x) as [[Hin Hn]|[-> Hno]]; [by split; [right|]|by split; [left|]].
    + destruct (IH d) as [[Hin Hn]|[-> Hno]]; [by left; split; [right|]|right].
      split; [done|]. by intros y [->|Hy]%elem_of_cons; [|apply Hno].
Qed.

Definition is_control_plane_node (n : Node) : bool :=
  hasControlPlaneRoleLabel (Labels (NodeMeta n)).

(** Whether an event patched a node. *)
Definition patched_node (e : event) : bool :=
  let '(existT c r) := e in
  match c return Resp c -> bool with
  | PatchNode _ _ _ => fun r => match r with inl _ => true | inr _ => false end
  | _ => fun _ => false
  end r.

Lemma RemoveEtcdMemberForMachine_ok m w :
  let cluster := WCluster w in
  wp (RemoveEtcdMemberForMachine (Some m)) w (fun tr w' o =>
    w' = w /\
    match o with
    | Val true =>
        (NodeRefName m = "" /\ tr = [])
        \/ exists all, tr = [ev (ListNodes cluster) (inl all)]
             /\ (2 <= count is_control_plane_node all)%nat
             /\ forall n, n ∈ List.filter is_control_plane_node all ->
                  NName n = NodeRefName m -> NoDup (NName <$> List.filter is_control_plane_node all) ->
                  gomap_get (Annotations (NodeMeta n)) EtcdRemovedNodeAnnotation <> None
    | Val false =>
        exists all n a, n ∈ List.filter is_control_plane_node all /\ NName n = NodeRefName m
          /\ (2 <= count is_control_plane_node all)%nat
          /\ gomap_get (Annotations (NodeMeta n)) EtcdRemovedNodeAnnotation = None
          /\ gomap_set EtcdRemoveAnnotation "true" (Annotations (NodeMeta n)) = Some a
          /\ tr = [ev (ListNodes cluster) (inl all); ev (NewNodePatchHelper cluster n) (inl tt);
                   ev (PatchNode cluster n (mkNode (with_annotations a (NodeMeta n))
                         (NodeTaints n) (NodeConditions n))) (inl tt)]
    | Err _ => forall e, e ∈ tr -> patched_node e = false
    | Panic =>
        exists all n, ev (ListNodes cluster) (inl all) ∈ tr
          /\ n ∈ List.filter is_control_plane_node all /\ NName n = NodeRefName m
          /\ Annotations (NodeMeta n) = None
    end).
Proof.
  simpl. unfold RemoveEtcdMemberForMachine. destruct (negb _) eqn:E0.
  { apply wp_ret. split; [done|]. left. apply negb_true_iff in E0. split; [|done].
    destruct (String.eqb_spec (NodeRefName m) "") as [|Hne]; [done|].
    apply NodeRef_IsDefined_spec in Hne. congruence. }
  apply negb_false_iff, NodeRef_IsDefined_spec in E0.
  unfold removeMemberForNode, getControlPlaneNodes.
  apply wp_bind, wp_get, wp_bind. cbn beta. apply wp_bind, wp_get, wp_bind, wp_call. intros [all|err]; cbn [lift_res].
  2: { apply wp_bind, wp_throw. split; [done|]. by intros e [->|?%elem_of_nil]%elem_of_cons. }
  apply wp_bind, wp_ret, wp_ret. fold is_control_plane_node. change (fun n => hasControlPlaneRoleLabel (Labels (NodeMeta n))) with is_control_plane_node.
  cbn [app]. set (nodes := List.filter is_control_plane_node all).
  destruct (_ <? 2)%nat eqn:E2.
  { apply wp_throw. split; [done|]. by intros e [->|?%elem_of_nil]%elem_of_cons. }
  apply Nat.ltb_ge in E2. assert (Hc : (2 <= count is_control_plane_node all)%nat) by exact E2.
  pose proof (find_last_node_spec (NodeRefName m) nodes) as Hl.
  cbv zeta. set (n := find_last_node (NodeRefName m) nodes) in *.
  destruct Hl as [[Hin Hn]|[Hn Hno]].
  2: { assert (HnN : NName n = "") by (by rewrite Hn). rewrite HnN.
    destruct (String.eqb_spec "" (NodeRefName m)); [by destruct E0|]. cbn [negb].
    apply wp_ret. split; [done|]. right. exists all. split_and!; [done..|].
    intros x Hx Hxn. by destruct (Hno x Hx). }
  rewrite Hn, String.eqb_refl. cbn [negb].
  destruct (gomap_get _ EtcdRemovedNodeAnnotation) eqn:Ea.
  { apply wp_ret. split; [done|]. right. exists all. split_and!; [done..|].
    intros x Hx Hxn Hnd. fold nodes in Hx, Hnd.
    apply list_elem_of_lookup in Hx as [i Hi], Hin as [j Hj].
    assert (i = j) as ->; [|congruence].
    apply (NoDup_lookup (NName <$> nodes) i j (NodeRefName m) Hnd);
      rewrite list_lookup_fmap; [rewrite Hi|rewrite Hj]; simpl; congruence. }
  wp_go; try (split; [done|]; simpl;
    intros ev0 Hx; rewrite !elem_of_cons, elem_of_nil in Hx; by intuition subst).
  - split; [done|]. simpl. destruct u, u0. exists all, n. eexists. by split_and!.
  - split; [done|]. simpl. exists all, n. split_and!; [left|done|done|].
    by destruct (Annotations (NodeMeta n)).
Qed.

(** C31: a machine leaves etcd through its node. [RemoveEtcdMemberForMachine]
    answers that the member is gone only for a machine without a node or when at
    least two control-plane nodes were listed and none of them is the machine's
    and lacks the annotation of a removed member. It answers that the member is
    not gone yet exactly when it has just set, on the machine's node alone and
    changing nothing else of it, the annotation that asks the node to leave. No
    patch goes through when it fails, and it panics only on a control-plane
    node of that name whose annotation map is nil. *)
Theorem RemoveEtcdMemberForMachine_spec m w :
  let cluster := WCluster w in
  wp (RemoveEtcdMemberForMachine (Some m)) w (fun tr w' o =>
    w' = w /\
    match o with
    | Val true =>
        (NodeRefName m = "" /\ tr = [])
        \/ exists all, tr = [ev (ListNodes cluster) (inl all)]
             /\ (2 <= count is_control_plane_node all)%nat
             /\ forall n, n ∈ List.filter is_control_plane_node all ->
                  NName n = NodeRefName m -> NoDup (NName <$> List.filter is_control_plane_node all) ->
                  gomap_get (Annotations (NodeMeta n)) EtcdRemovedNodeAnnotation <> None
    | Val false =>
        exists all n a, n ∈ List.filter is_control_plane_node all /\ NName n = NodeRefName m
          /\ (2 <= count is_control_plane_node all)%nat
          /\ gomap_get (Annotations (NodeMeta n)) EtcdRemovedNodeAnnotation = None
          /\ gomap_set EtcdRemoveAnnotation "true" (Annotations (NodeMeta n)) = Some a
          /\ tr = [ev (ListNodes cluster) (inl all); ev (NewNodePatchHelper cluster n) (inl tt);
                   ev (PatchNode cluster n (mkNode (with_annotations a (NodeMeta n))
                         (NodeTaints n) (NodeConditions n))) (inl tt)]
    | Err _ => forall e, e ∈ tr -> patched_node e = false
    | Panic =>
        exists all n, ev (ListNodes cluster) (inl all) ∈ tr
          /\ n ∈ List.filter is_control_plane_node all /\ NName n = NodeRefName m
          /\ Annotations (NodeMeta n) = None
    end).
Proof. apply RemoveEtcdMemberForMachine_ok. Qed.
End Leaving.

(** ** The management cluster is left alone *)

Section Quiet.
Context `{CAPI} `{Crypto}.

Lemma connect_not_write c : is_connect c = true -> not_mgmt_write c = true.
Proof. by destruct c. Qed.

Lemma issues_on_generator {A} P (m : M EtcdClientGenerator A) :
  issues P m -> issues P (on_generator m).
Proof.
  intros Hm w. unfold on_generator, wp. destruct (etcdClientGenerator w) as [g|]; [|constructor].
  rewrite always_bind. eapply always_mono; [|apply Hm]. intros tr [g' o]. simpl. by rewrite app_nil_r.
Qed.

Lemma GetWorkloadCluster_quiet {S} t key : issues (S := S) not_mgmt_write (GetWorkloadCluster t key).
Proof.
  unfold GetWorkloadCluster, getEtcdCAKeyPair, generateClientCert, newClientCert. issues_go.
Qed.

Lemma getControlPlaneNodes_quiet : issues not_mgmt_write getControlPlaneNodes.
Proof. unfold getControlPlaneNodes. issues_go. Qed.
#[local] Hint Resolve getControlPlaneNodes_quiet : issues.

Lemma GetClusterStatus_quiet ready : issues not_mgmt_write (GetClusterStatus ready).
Proof. unfold GetClusterStatus. issues_go. Qed.

Ltac quiet_go :=
  repeat first [ issues_step | apply issues_on_generator
               | apply issues_forLeader; apply connect_not_write
               | apply issues_forFirstAvailableNode; apply connect_not_write
               | apply issues_with_close; [apply connect_not_write|]
               | apply issues_Members; apply connect_not_write ].

Lemma EtcdMembers_quiet : issues not_mgmt_write EtcdMembers.
Proof. unfold EtcdMembers. quiet_go. Qed.

Lemma ForwardEtcdLeadership_quiet m c : issues not_mgmt_write (ForwardEtcdLeadership m c).
Proof. unfold ForwardEtcdLeadership, MoveLeader. quiet_go. Qed.

Lemma removeMemberForNonExistingNode_quiet n :
  issues not_mgmt_write (removeMemberForNonExistingNode n).
Proof. unfold removeMemberForNonExistingNode, RemoveMember. quiet_go. Qed.
#[local] Hint Resolve removeMemberForNonExistingNode_quiet : issues.

Lemma ReconcileEtcdMembers_quiet ns : issues not_mgmt_write (ReconcileEtcdMembers ns).
Proof. unfold ReconcileEtcdMembers, reconcileEtcdMember, remove_missing. quiet_go. Qed.

Lemma RemoveEtcdMemberForMachine_quiet m : issues not_mgmt_write (RemoveEtcdMemberForMachine m).
Proof. unfold RemoveEtcdMemberForMachine, removeMemberForNode. quiet_go. Qed.

(** The names that [EtcdMembers] returns are those of a list it was given. *)
Lemma EtcdMembers_seen w :
  wp EtcdMembers w (fun tr _ o => forall names, o = Val names ->
    exists c response, ev (EtcdMemberList c) (inl response) ∈ tr
      /\ names = (fun pm => NodeNameFromMember (pbMemberToMember pm)) <$> ResponseMembers response).
Proof.
  unfold EtcdMembers. apply wp_bind, wp_try. eapply wp_mono; [apply getControlPlaneNodes_ok|].
  intros tr1 w1 [nodes|e|] _; [|by wp_go|done].
  apply wp_bind, wp_ret. cbn beta. apply wp_bind, wp_try. eapply wp_mono.
  { apply (wp_on_generator _ _ (fun _ _ => True)); [done|]. intros g _. by apply wp_runs. }
  intros tr2 w2 [client|e|] _; [|by wp_go|done].
  apply wp_bind, wp_ret. cbn beta. apply wp_with_close, wp_bind, wp_try.
  eapply wp_mono; [apply Members_seen|]. intros tr3 w3 [ms|e|] (_ & _ & _ & Hms); [|by wp_go|done].
  apply wp_bind, wp_ret, wp_ret. intros r names [= <-].
  destruct (Hms ms eq_refl) as (response & alarms & Hin & ->).
  exists (EtcdClient client), response. rewrite !elem_of_app. split; [tauto|].
  rewrite <- list_fmap_compose. by apply list_fmap_ext.
Qed.
End Quiet.

#[export] Hint Resolve GetWorkloadCluster_quiet getControlPlaneNodes_quiet GetClusterStatus_quiet
  EtcdMembers_quiet ForwardEtcdLeadership_quiet ReconcileEtcdMembers_quiet
  RemoveEtcdMemberForMachine_quiet : issues.
