(* ===== verification/CoreDNS.v ===== *)
(** The migration of the CoreDNS configuration of a workload cluster
    (pkg/k3s/workload_cluster_coredns.go). The reconciliation does not call it:
    its call there is commented out, and so is the part of the source that
    gathers the versions. *)

From stdpp Require Import pretty.
From S2P Require Import Prelude GoStd Effects ApiTypes Api Workload.

Definition corefileKey : string := "Corefile".
Definition corefileBackupKey : string := "Corefile-backup".
Definition coreDNSKey : string := "coredns".
Definition coreDNSVolumeKey : string := "config-volume".
Definition SkipCoreDNSAnnotation : string := "controlplane.cluster.x-k8s.io/skip-coredns".

Definition ErrInvalidCoreDNSVersion : error := ESentinel "invalid CoreDNS version given".

Record coreDNSInfo := mkCoreDNSInfo {
  Corefile : string;
  InfoDeployment : Deployment;
  FromImageTag : string;
  ToImageTag : string;
  CurrentMajorMinorPatch : string;
  TargetMajorMinorPatch : string;
  FromImage : string;
  ToImage : string;
}.

(** [migration.Migrate], behind the interface [coreDNSMigrator], and Cluster
    API's parser of versions. *)
Class CoreDNSLib := {
  Migrate : string -> string -> string -> bool -> string + error;
  ParseMajorMinorPatch : string -> (N * N * N) + error;
}.

Section CoreDNS.
Context `{CoreDNSLib}.

(** What is left of it returns nothing on both branches. *)
Definition UpdateCoreDNS {S} (kcp : KThreesControlPlane) : M S unit :=
  match gomap_get (Annotations (KCPMeta kcp)) SkipCoreDNSAnnotation with
  | Some _ => ret tt
  | None => ret tt
  end.

(** The items of the volume are changed where they are. *)
Definition patch_item (fromKey toKey : string) (item : KeyToPath) : KeyToPath :=
  if String.eqb (ItemKey item) fromKey || String.eqb (ItemKey item) toKey
  then mkKeyToPath toKey (ItemPath item) else item.

Definition is_coredns_volume (volume : Volume) : bool :=
  String.eqb (VolumeName volume) coreDNSVolumeKey
  && match VolumeConfigMap volume with
     | None => false
     | Some cm => String.eqb (VolumeConfigMapName cm) coreDNSKey
     end.

Definition patch_volume (fromKey toKey : string) (volume : Volume) : Volume :=
  match VolumeConfigMap volume with
  | Some cm =>
      if is_coredns_volume volume
      then mkVolume (VolumeName volume)
             (Some (mkConfigMapVolume (VolumeConfigMapName cm)
                (patch_item fromKey toKey <$> VolumeItems cm)))
      else volume
  | None => volume
  end.

Definition patchCoreDNSDeploymentVolume (fromKey toKey : string) (d : Deployment) : Deployment :=
  mkDeployment (DeploymentMeta d) (patch_volume fromKey toKey <$> Volumes d) (Containers d).

Definition patchCoreDNSDeploymentImage (image : string) (d : Deployment) : Deployment :=
  mkDeployment (DeploymentMeta d) (Volumes d)
    ((fun c => if String.eqb (ContainerName c) coreDNSKey then mkContainer (ContainerName c) image else c)
       <$> Containers d).

Definition extractImageVersion (tag : string) : string + error :=
  match ParseMajorMinorPatch tag with
  | inr err => inr err
  | inl (major, minor, patch) => inl (pretty major +++ "." +++ pretty minor +++ "." +++ pretty patch)
  end.

Definition coredns_data (corefile backup : string) : gmap string string :=
  <[ corefileKey := corefile ]> {[ corefileBackupKey := backup ]}.

Definition coredns_config_map (corefile backup : string) : ConfigMap :=
  mkConfigMap
    (mkObjectMeta coreDNSKey NamespaceSystem "" "" None None [] [] 0 None [])
    (Some (coredns_data corefile backup)).

Definition with_deployment (d : Deployment) (i : coreDNSInfo) : coreDNSInfo :=
  mkCoreDNSInfo (Corefile i) d (FromImageTag i) (ToImageTag i) (CurrentMajorMinorPatch i)
    (TargetMajorMinorPatch i) (FromImage i) (ToImage i).

(** The deployment is shared with the caller, who sees it changed. *)
Definition updateCoreDNSCorefile (w : Workload) : M coreDNSInfo unit :=
  info <- get ;;
  updatedCorefile <- lift_wrap "unable to migrate CoreDNS corefile"
    (Migrate (CurrentMajorMinorPatch info) (TargetMajorMinorPatch info) (Corefile info) false) ;;
  u <- call (UpdateWorkloadConfigMap (WCluster w) (coredns_config_map (Corefile info) (Corefile info))) ;;
  lift_wrap "unable to update CoreDNS config map with backup Corefile" u ;;;
  let before := InfoDeployment info in
  h <- call (NewDeploymentPatchHelper (WCluster w) before) ;;
  lift_res h ;;;
  modify (fun i => with_deployment
    (patchCoreDNSDeploymentVolume corefileKey corefileBackupKey (InfoDeployment i)) i) ;;;
  info' <- get ;;
  p <- call (PatchDeployment (WCluster w) before (InfoDeployment info')) ;;
  lift_res p ;;;
  u' <- call (UpdateWorkloadConfigMap (WCluster w) (coredns_config_map updatedCorefile (Corefile info))) ;;
  match u' with
  | inr _ => throw (EWrap "unable to update CoreDNS config map" ErrInvalidCoreDNSVersion)
  | inl _ => ret tt
  end.
End CoreDNS.

(** ** The configuration that CoreDNS reads meanwhile *)

Section Served.
Context `{CoreDNSLib}.

(** What the workload cluster holds: the data of the config map, and the
    deployment. *)
Record world := mkWorld { stored_data : gmap string string; stored_deployment : Deployment }.

Definition carry_out (c : cmd) (s : world) : world :=
  match c with
  | UpdateWorkloadConfigMap _ cm => mkWorld (default ∅ (ConfigMapData cm)) (stored_deployment s)
  | PatchDeployment _ _ after => mkWorld (stored_data s) after
  | _ => s
  end.

Definition failed (e : event) : Prop :=
  match projT1 e as c return resp c -> Prop with
  | UpdateWorkloadConfigMap _ _ => fun r => exists err, r = inr err
  | PatchDeployment _ _ _ => fun r => exists err, r = inr err
  | _ => fun _ => False
  end (projT2 e).

(** The calls of a trace carried out one after the other; one that failed was
    carried out or not. Nobody else writes the two objects. *)
Inductive becomes : world -> list event -> world -> Prop :=
  | becomes_nil s : becomes s [] s
  | becomes_done s e tr s' : becomes (carry_out (ev_cmd e) s) tr s' -> becomes s (e :: tr) s'
  | becomes_lost s e tr s' : failed e -> becomes s tr s' -> becomes s (e :: tr) s'.

(** The keys under which CoreDNS reads its configuration. *)
Definition read_keys (d : Deployment) : list string :=
  concat ((fun volume =>
    match VolumeConfigMap volume with
    | Some cm => if is_coredns_volume volume then ItemKey <$> VolumeItems cm else []
    | None => []
    end) <$> Volumes d).

Definition corefile_key (k : string) : Prop := k = corefileKey \/ k = corefileBackupKey.

(** What it reads under the two keys is [corefile]. *)
Definition reads (corefile : string) (s : world) : Prop :=
  forall k, k ∈ read_keys (stored_deployment s) -> corefile_key k -> stored_data s !! k = Some corefile.

Lemma read_keys_in d k :
  k ∈ read_keys d <-> exists v cm item, v ∈ Volumes d /\ VolumeConfigMap v = Some cm
    /\ is_coredns_volume v = true /\ item ∈ VolumeItems cm /\ ItemKey item = k.
Proof.
  unfold read_keys. rewrite list_elem_of_In, in_concat. split.
  - intros (ks & Hks & Hk). apply list_elem_of_In, list_elem_of_fmap in Hks as (v & -> & Hv).
    apply list_elem_of_In in Hk. destruct (VolumeConfigMap v) as [cm|] eqn:Ec; [|by apply elem_of_nil in Hk].
    destruct (is_coredns_volume v) eqn:Ev; [|by apply elem_of_nil in Hk].
    apply list_elem_of_fmap in Hk as (item & -> & Hi). by exists v, cm, item.
  - intros (v & cm & item & Hv & Hc & Hd & Hi & <-). eexists. split.
    + apply list_elem_of_In, list_elem_of_fmap. exists v. split; [reflexivity|done].
    + rewrite Hc, Hd. apply list_elem_of_In. by apply list_elem_of_fmap_2.
Qed.

(** A deployment whose items were flipped to [toKey] reads no [fromKey]. *)
Lemma patched_keys fromKey toKey d k :
  k ∈ read_keys (patchCoreDNSDeploymentVolume fromKey toKey d) -> k = fromKey \/ k = toKey -> k = toKey.
Proof.
  intros (v & cm & item & Hv & Hc & Hd & Hi & <-)%read_keys_in.
  apply list_elem_of_fmap in Hv as (v0 & -> & Hv0). unfold patch_volume in Hc.
  destruct (VolumeConfigMap v0) as [cm0|] eqn:E0; [|congruence].
  destruct (is_coredns_volume v0) eqn:Ed0.
  - simpl in Hc. injection Hc as <-. apply list_elem_of_fmap in Hi as (item0 & -> & _).
    unfold patch_item. destruct (_ || _) eqn:E; [done|]. simpl.
    apply orb_false_iff in E as [E1 E2]. apply String.eqb_neq in E1, E2. tauto.
  - unfold patch_volume in Hd. rewrite E0, Ed0 in Hd. congruence.
Qed.

(** At every moment of a trace that starts in [s]. *)
Fixpoint throughout (P : world -> Prop) (s : world) (tr : list event) : Prop :=
  P s /\ match tr with
         | [] => True
         | e :: tr' => throughout P (carry_out (ev_cmd e) s) tr' /\ (failed e -> throughout P s tr')
         end.

Lemma throughout_becomes P s tr tr1 tr2 s' :
  throughout P s tr -> tr = tr1 ++ tr2 -> becomes s tr1 s' -> P s'.
Proof.
  intros HP E Hb. revert tr E HP. induction Hb as [s|s e tr1 s' Hb IH|s e tr1 s' Hf Hb IH]; intros tr E HP.
  - by destruct tr; destruct HP.
  - subst tr. destruct HP as (_ & HP & _). by eapply IH.
  - subst tr. destruct HP as (_ & _ & HP). eapply IH; [reflexivity|]. by apply HP.
Qed.

(** Without a failure the trace decides the end. *)
Lemma becomes_ok s tr s' :
  Forall (fun e => ~ failed e) tr -> becomes s tr s' -> s' = fold_left (fun s e => carry_out (ev_cmd e) s) tr s.
Proof.
  intros HF Hb. induction Hb as [s|s e tr s' Hb IH|s e tr s' Hf Hb IH]; [done|..];
    apply Forall_cons in HF as [He HF]; [by apply IH|done].
Qed.

Lemma coredns_data_backup corefile backup : coredns_data corefile backup !! corefileBackupKey = Some backup.
Proof. unfold coredns_data. by rewrite lookup_insert_ne, lookup_singleton_eq. Qed.

Lemma coredns_data_corefile corefile backup : coredns_data corefile backup !! corefileKey = Some corefile.
Proof. apply lookup_insert_eq. Qed.

Lemma reads_both corefile d : reads corefile (mkWorld (coredns_data corefile corefile) d).
Proof. intros k _ [->| ->]; [apply coredns_data_corefile|apply coredns_data_backup]. Qed.

Lemma reads_backup corefile migrated d :
  reads corefile (mkWorld (coredns_data migrated corefile)
    (patchCoreDNSDeploymentVolume corefileKey corefileBackupKey d)).
Proof. intros k Hk Hc. rewrite (patched_keys _ _ _ _ Hk Hc). apply coredns_data_backup. Qed.

(** CoreDNS keeps reading the configuration it has. At every moment of the
    migration, whatever call fails, and whether a failed call was carried out
    or not, the deployment finds the configuration that was to be migrated
    under the key it reads, and never the one that is being written. When the
    migration succeeds, the config map holds the migrated configuration and,
    under the key that the deployment reads, the old one. *)
Theorem corefile_served w i data :
  let s := mkWorld data (InfoDeployment i) in
  reads (Corefile i) s ->
  wp (updateCoreDNSCorefile w) i (fun tr i' o =>
    (forall tr1 tr2 s', tr = tr1 ++ tr2 -> becomes s tr1 s' -> reads (Corefile i) s')
    /\ (o = Val tt -> forall s', becomes s tr s' ->
         stored_deployment s' = InfoDeployment i'
         /\ stored_data s' !! corefileBackupKey = Some (Corefile i)
         /\ exists migrated, Migrate (CurrentMajorMinorPatch i) (TargetMajorMinorPatch i) (Corefile i) false
              = inl migrated /\ stored_data s' !! corefileKey = Some migrated)).
Proof.
  intros s Hs.
  assert (HT : forall tr (o : outcome unit) (Q : Prop), throughout (reads (Corefile i)) s tr ->
    (o = Val tt -> Q) ->
    (forall tr1 tr2 s', tr = tr1 ++ tr2 -> becomes s tr1 s' -> reads (Corefile i) s') /\ (o = Val tt -> Q)).
  { intros tr o Q Ht Hq. split; [|done]. intros tr1 tr2 s'. by apply throughout_becomes. }
  unfold updateCoreDNSCorefile. wp_go; subst; (apply HT; [|try done]);
    cbn [throughout app ev_cmd ev projT1 carry_out stored_data stored_deployment ConfigMapData coredns_config_map
      default from_option InfoDeployment with_deployment id];
    try (repeat lazymatch goal with
    | |- True => exact I
    | |- _ /\ _ => split
    | |- failed _ -> _ => first [intros [err [=]]|intros []|intros _]
    | |- reads _ (mkWorld (coredns_data _ _) (patchCoreDNSDeploymentVolume _ _ _)) => apply reads_backup
    | |- reads _ (mkWorld (coredns_data _ _) _) => apply reads_both
    | |- reads _ _ => exact Hs
    end).
  intros _ s' Hb. apply becomes_ok in Hb as ->.
  { split_and!; [done|apply coredns_data_backup|]. exists s0. split; [done|]. apply coredns_data_corefile. }
  repeat constructor; first [intros [err [=]]|intros []].
Qed.
End Served.

(** ** Example *)

Section Examples.
#[local] Instance a_lib : CoreDNSLib := {|
  Migrate := fun _ _ corefile _ => inl (corefile +++ " migrated");
  ParseMajorMinorPatch := fun _ => inl (1, 11, 1)%N;
|}.

Definition a_deployment : Deployment :=
  mkDeployment emptyMeta
    [mkVolume coreDNSVolumeKey (Some (mkConfigMapVolume coreDNSKey [mkKeyToPath corefileKey "Corefile"]))]
    [mkContainer coreDNSKey "coredns:1.10.1"].

Definition an_info : coreDNSInfo := mkCoreDNSInfo "old" a_deployment "" "" "1.10.1" "1.11.1" "" "".

Example corefile_served_witness :
  let s := mkWorld {[ corefileKey := "old" ]} a_deployment in
  reads "old" s
  /\ exists tr i', runs (updateCoreDNSCorefile (mkWorkload (mkKey "ns" "c") None)) an_info tr i' (Val tt)
       /\ read_keys (InfoDeployment i') = [corefileBackupKey]
       /\ forall s', becomes s tr s' -> stored_data s' !! corefileBackupKey = Some "old".
Proof.
  intros s. assert (Hs : reads "old" s).
  { intros k Hk _. apply list_elem_of_singleton in Hk as ->. reflexivity. }
  split; [exact Hs|]. eexists _, _. split; [apply (runs_of_run default_handler); vm_compute; reflexivity|].
  split; [reflexivity|]. intros s' Hb.
  pose proof (corefile_served (mkWorkload (mkKey "ns" "c") None) an_info {[ corefileKey := "old" ]} Hs) as HW.
  rewrite wp_runs in HW. eapply HW; [apply (runs_of_run default_handler); vm_compute; reflexivity|reflexivity|].
  exact Hb.
Defined.
End Examples.
