(* ===== verification/Proxy.v ===== *)
(** The port-forwarding proxy through which etcd is reached (pkg/proxy): the
    dialer (dial.go), the connection it hands out (conn.go) and the address of
    that connection (addr.go).

    The code stands on the SPDY transport of client-go, whose calls are the
    commands of this file; it makes no call to an API server of its own, so the
    commands of [Api] play no part. *)

From stdpp Require Import pretty.
From S2P Require Import Prelude GoStd Effects.

(** ** [http.Header] *)

(** [validHeaderFieldByte] of net/textproto: the characters of a token. *)
Definition token_char (a : ascii) : bool :=
  let n := nat_of_ascii a in
  (48 <=? n) && (n <=? 57) || (65 <=? n) && (n <=? 90) || (97 <=? n) && (n <=? 122)
  || has_char a "!#$%&'*+-.^_`|~".

Definition to_upper (a : ascii) : ascii :=
  let n := nat_of_ascii a in if (97 <=? n) && (n <=? 122) then ascii_of_nat (n - 32) else a.

Definition to_lower (a : ascii) : ascii :=
  let n := nat_of_ascii a in if (65 <=? n) && (n <=? 90) then ascii_of_nat (n + 32) else a.

(** Upper case at the start and after a dash, lower case elsewhere. *)
Fixpoint canonical_from (upper : bool) (s : string) : string :=
  match s with
  | EmptyString => EmptyString
  | String a s' =>
      let a' := if upper then to_upper a else to_lower a in
      String a' (canonical_from (Ascii.eqb a' ascii_dash) s')
  end.

(** [CanonicalMIMEHeaderKey]: a key that is not a token stays as it is. *)
Definition CanonicalMIMEHeaderKey (s : string) : string :=
  if forallb token_char (list_ascii_of_string s) then canonical_from true s else s.

Abbreviation Header := (gmap string (list string)).

Definition Header_Set (key value : string) (h : Header) : Header :=
  <[ CanonicalMIMEHeaderKey key := [value] ]> h.

Definition Header_Get (h : Header) (key : string) : string :=
  default "" (h !! CanonicalMIMEHeaderKey key ≫= head).

Lemma Header_Get_Set_eq k v h : Header_Get (Header_Set k v h) k = v.
Proof. unfold Header_Get, Header_Set. by simplify_map_eq. Qed.

Lemma Header_Get_Set_ne k k' v h :
  CanonicalMIMEHeaderKey k <> CanonicalMIMEHeaderKey k' ->
  Header_Get (Header_Set k v h) k' = Header_Get h k'.
Proof. intros Hk. unfold Header_Get, Header_Set. by simplify_map_eq. Qed.

(** ** The transport *)

(** The constants of the port-forwarding protocol (k8s.io/api/core/v1 and
    client-go/tools/portforward). The code relies on the three header names being
    different headers. *)
Class PortForward := {
  PortHeader : string;
  PortForwardRequestIDHeader : string;
  StreamType : string;
  StreamTypeError : string;
  StreamTypeData : string;
  PortForwardProtocolV1Name : string;
  port_not_id : CanonicalMIMEHeaderKey PortHeader <> CanonicalMIMEHeaderKey PortForwardRequestIDHeader;
  port_not_type : CanonicalMIMEHeaderKey PortHeader <> CanonicalMIMEHeaderKey StreamType;
  id_not_type : CanonicalMIMEHeaderKey PortForwardRequestIDHeader <> CanonicalMIMEHeaderKey StreamType;
}.

(** The part of [rest.Config] that the code writes, and where it points. *)
Record RestConfig := mkRestConfig { ConfigHost : string; ConfigTimeout : Z }.

Definition with_timeout (t : Z) (c : RestConfig) : RestConfig := mkRestConfig (ConfigHost c) t.

(** What client-go hands out is named, not looked into. *)
Record Clientset := mkClientset { clientset_handle : N }.
Record RoundTripper := mkRoundTripper { transport_handle : N; upgrader_handle : N }.
Record Connection := mkConnection { connection_handle : N }.

(** [httpstream.Stream]; its headers are those it was made with. *)
Record Stream := mkStream {
  stream_handle : N;
  Headers : Header;
  Identifier : Z;
}.

(** The request of a port-forwarding upgrade: POST
    [/api/v1/namespaces/<ns>/<resource>/<name>/portforward]. *)
Record UpgradeRequest := mkUpgradeRequest {
  ReqClientset : Clientset;
  ReqResource : string;
  ReqNamespace : string;
  ReqName : string;
  ReqSubResource : string;
}.

Inductive proxy_cmd :=
| NewForConfig (c : RestConfig)
| RoundTripperFor (c : RestConfig)
| Dial (t : RoundTripper) (req : UpgradeRequest) (protocol : string)
| CreateStream (c : Connection) (headers : Header)
| CloseStream (s : Stream)
| CloseConnection (c : Connection)
| ReadStream (s : Stream) (size : nat)
| WriteStream (s : Stream) (b : list Byte.byte).

(** A Go call that returns [(n, err)] may return both. *)
Definition proxy_resp (c : proxy_cmd) : Type :=
  match c with
  | NewForConfig _ => Clientset + error
  | RoundTripperFor _ => RoundTripper + error
  | Dial _ _ _ => Connection + error
  | CreateStream _ _ => Stream + error
  | CloseStream _ | CloseConnection _ => option error
  | ReadStream _ _ => list Byte.byte * Z * option error
  | WriteStream _ _ => Z * option error
  end.

#[export] Instance proxy_signature : Signature := { Cmd := proxy_cmd; Resp := proxy_resp }.

(** [kerrors.NewAggregate] on errors of which some are nil. *)
Definition aggregate_of (errs : list (option error)) : option error := NewAggregate (omap id errs).

(** ** The dialer *)

Definition scheme : string := "proxy".
Definition defaultTimeout : Z := 10 * Second.

(** The configuration is shared with the caller: it is the state of [NewDialer]. *)
Record Proxy := mkProxy {
  Kind : string;
  ProxyNamespace : string;
  ResourceName : string;
  KeepAlive : option Z;
  Port : Z;
}.

Record Dialer := mkDialer {
  dialer_proxy : Proxy;
  dialer_clientset : option Clientset;
  dialer_transport : option RoundTripper;
  timeout : Z;
}.

(** A functional option mutates the dialer and may fail. *)
Definition Option := Dialer -> Dialer * option error.

Definition setTimeout (duration : Z) : Option :=
  fun d => (mkDialer (dialer_proxy d) (dialer_clientset d) (dialer_transport d) duration, None).

Definition DialTimeout (duration : Z) : Option := setTimeout duration.

Fixpoint apply_options (options : list Option) (d : Dialer) : Dialer + error :=
  match options with
  | [] => inl d
  | option :: options' =>
      match option d with
      | (_, Some err) => inr err
      | (d', None) => apply_options options' d'
      end
  end.

Definition NewDialer (p : Proxy) (options : list Option) : M (option RestConfig) Dialer :=
  if (Port p =? 0)%Z then throw (ENew "port required")
  else
    dialer <- lift_res (apply_options options (mkDialer p None None 0)) ;;
    let t := if (timeout dialer =? 0)%Z then defaultTimeout else timeout dialer in
    KubeConfig <- get ;;
    match KubeConfig with
    | None => panic
    | Some c =>
        let c' := with_timeout t c in
        modify (fun _ => Some c') ;;;
        r <- call (NewForConfig c') ;;
        clientset <- lift_res r ;;
        r' <- call (RoundTripperFor c') ;;
        transport <- lift_res r' ;;
        ret (mkDialer (dialer_proxy dialer) (Some clientset) (Some transport) t)
    end.

(** ** A connection *)

Record Conn := mkConn {
  connection : Connection;
  stream : Stream;
  readDeadline : Z;
  writeDeadline : Z;
}.

(** The zero [time.Time] of a new connection is written 0. *)
Definition NewConn (connection : Connection) (stream : Stream) : Conn := mkConn connection stream 0 0.

Definition Conn_Read (size : nat) : M Conn (list Byte.byte * Z * option error) :=
  c <- get ;; call (ReadStream (stream c) size).

Definition Conn_Write (b : list Byte.byte) : M Conn (Z * option error) :=
  c <- get ;; call (WriteStream (stream c) b).

Definition Conn_Close : M Conn (option error) :=
  c <- get ;;
  e <- call (CloseStream (stream c)) ;;
  e' <- call (CloseConnection (connection c)) ;;
  ret (aggregate_of [e; e']).

Definition SetDeadline (t : Z) (c : Conn) : Conn := mkConn (connection c) (stream c) t t.
Definition SetWriteDeadline (t : Z) (c : Conn) : Conn :=
  mkConn (connection c) (stream c) (readDeadline c) t.
Definition SetReadDeadline (t : Z) (c : Conn) : Conn :=
  mkConn (connection c) (stream c) t (writeDeadline c).

Section Proxy.
Context `{PortForward}.

(** ** Addresses *)

Record Addr := mkAddr { addr_port : string; identifier : Z }.

Definition Network (a : Addr) : string := PortForwardProtocolV1Name.

Definition Addr_String (a : Addr) : string :=
  scheme +++ "://" +++ pretty (identifier a) +++ "." +++ PortForwardProtocolV1Name +++ ".local:"
    +++ addr_port a.

Definition NewAddrFromConn (c : Conn) : Addr :=
  mkAddr (Header_Get (Headers (stream c)) PortHeader) (Identifier (stream c)).

Definition LocalAddr (c : Conn) : Addr := NewAddrFromConn c.
Definition RemoteAddr (c : Conn) : Addr := NewAddrFromConn c.

(** ** Dialling *)

(** [return nil, kerrors.NewAggregate([]error{err, connection.Close()})], where [err]
    is an error, and so the aggregate is one. *)
Definition fail_closing {S A} (connection : Connection) (err : error) : M S A :=
  e <- call (CloseConnection connection) ;;
  throw (EAggregate (omap id [Some err; e])).

(** A dialer without its clients is none that [NewDialer] makes. *)
Definition DialContext {S} (d : Dialer) (addr : string) : M S Conn :=
  match dialer_clientset d, dialer_transport d with
  | Some clientset, Some transport =>
      let req := mkUpgradeRequest clientset (Kind (dialer_proxy d)) (ProxyNamespace (dialer_proxy d))
        addr "portforward" in
      r <- call (Dial transport req PortForwardProtocolV1Name) ;;
      connection <- lift_wrap "error upgrading connection" r ;;
      let headers := Header_Set PortHeader (pretty (Port (dialer_proxy d))) ∅ in
      let headers := Header_Set PortForwardRequestIDHeader "0" headers in
      let headers := Header_Set StreamType StreamTypeError headers in
      r <- call (CreateStream connection headers) ;;
      match r with
      | inr err => fail_closing connection err
      | inl errorStream =>
          e <- call (CloseStream errorStream) ;;
          match e with
          | Some err => fail_closing connection err
          | None =>
              let headers := Header_Set StreamType StreamTypeData headers in
              r <- call (CreateStream connection headers) ;;
              match r with
              | inr err => fail_closing connection (EWrap "error creating forwarding stream" err)
              | inl dataStream => ret (NewConn connection dataStream)
              end
          end
      end
  | _, _ => panic
  end.

Definition DialContextWithAddr {S} (d : Dialer) (addr : string) : M S Conn := DialContext d addr.
End Proxy.

(** ** No connection is left open *)

(** The connections that a trace opens and closes. *)
Definition opened_connection (e : event) : option Connection :=
  match projT1 e as c return proxy_resp c -> option Connection with
  | Dial _ _ _ => fun r => match r with inl x => Some x | inr _ => None end
  | _ => fun _ => None
  end (projT2 e).

Definition closed_connection (e : event) : option Connection :=
  match projT1 e with CloseConnection c => Some c | _ => None end.

(** What a caller holds after a dial. *)
Definition held (o : outcome Conn) : list Connection :=
  match o with Val c => [connection c] | _ => [] end.

Section Dialling.
Context `{PortForward} {S : Type}.
Variables (p : Proxy) (cs : Clientset) (rt : RoundTripper) (t : Z) (addr : string) (s : S).

Abbreviation d := (mkDialer p (Some cs) (Some rt) t).

(** What the data stream is asked for. *)
Definition asks_for (kind : string) (headers : Header) : Prop :=
  Header_Get headers PortHeader = pretty (Port p)
  /\ Header_Get headers PortForwardRequestIDHeader = "0"
  /\ Header_Get headers StreamType = kind.

(** The trace of a dial that succeeds. *)
Definition dialled (tr : list event) (c : Conn) : Prop :=
  exists errorStream he hd,
    tr = [ev (Dial rt (mkUpgradeRequest cs (Kind p) (ProxyNamespace p) addr "portforward")
                PortForwardProtocolV1Name) (inl (connection c));
          ev (CreateStream (connection c) he) (inl errorStream);
          ev (CloseStream errorStream) None;
          ev (CreateStream (connection c) hd) (inl (stream c))]
    /\ asks_for StreamTypeError he /\ asks_for StreamTypeData hd.

Lemma asks_for_set (kind : string) (h : Header) :
  Header_Get h PortHeader = pretty (Port p) -> Header_Get h PortForwardRequestIDHeader = "0" ->
  asks_for kind (Header_Set StreamType kind h).
Proof.
  intros Hp Hi. unfold asks_for. rewrite Header_Get_Set_eq.
  rewrite !Header_Get_Set_ne; [done|apply not_eq_sym, id_not_type|apply not_eq_sym, port_not_type].
Qed.

(** The headers before the kind of the stream is set. *)
Lemma base_headers kind :
  let h := Header_Set PortForwardRequestIDHeader "0" (Header_Set PortHeader (pretty (Port p)) ∅) in
  asks_for kind (Header_Set StreamType kind h).
Proof.
  apply asks_for_set; [|apply Header_Get_Set_eq].
  rewrite Header_Get_Set_ne; [apply Header_Get_Set_eq|apply not_eq_sym, port_not_id].
Qed.

Lemma DialContext_ok :
  wp (DialContext d addr) s (fun tr s' o => s' = s
    /\ omap opened_connection tr ≡ₚ omap closed_connection tr ++ held o
    /\ match o with Val c => dialled tr c | Err _ => True | Panic => False end).
Proof.
  unfold DialContext, fail_closing. cbn [dialer_clientset dialer_transport dialer_proxy].
  wp_go; (split; [done|]); (split; [reflexivity|]); try done.
  eexists _, _, _. split; [reflexivity|]. split; [apply base_headers|].
  destruct (base_headers StreamTypeError) as (Hp & Hi & _). by apply asks_for_set.
Qed.
End Dialling.

Lemma Conn_Close_ok c :
  wp Conn_Close c (fun tr c' o => c' = c /\ exists e e',
    tr = [ev (CloseStream (stream c)) e; ev (CloseConnection (connection c)) e']
    /\ o = Val (NewAggregate (omap id [e; e']))).
Proof. unfold Conn_Close. wp_go. split; [done|]. by eexists _, _. Qed.

(** C38: Dialling, with whatever fails on the way, leaves no connection open
    but the one it returns: each early return closes what was opened. On success the
    trace is exactly one upgrade of the named pod, an error stream that is
    closed before anything else is made, and a data stream to the configured port; the
    address of the connection shows that port when the stream keeps the headers
    it was made with. Closing the connection closes both the stream and the
    connection, the second also when the first fails, and returns an
    error exactly when one of them did. It never panics. *)
Theorem DialContext_leaks_nothing `{PortForward} {S} (p : Proxy) (cs : Clientset)
    (rt : RoundTripper) (t : Z) (addr : string) (s : S) :
  wp (DialContextWithAddr (mkDialer p (Some cs) (Some rt) t) addr) s (fun tr s' o =>
    s' = s
    /\ omap opened_connection tr ≡ₚ omap closed_connection tr ++ held o
    /\ match o with
       | Val c =>
           dialled p cs rt addr tr c
           /\ (ev (CreateStream (connection c) (Headers (stream c))) (inl (stream c)) ∈ tr ->
               Addr_String (RemoteAddr c) = "proxy://" +++ pretty (Identifier (stream c)) +++ "."
                 +++ PortForwardProtocolV1Name +++ ".local:" +++ pretty (Port p))
           /\ wp Conn_Close c (fun tr' c' o' =>
               c' = c /\ omap opened_connection (tr ++ tr') ≡ₚ omap closed_connection (tr ++ tr')
               /\ exists e e',
                 tr' = [ev (CloseStream (stream c)) e; ev (CloseConnection (connection c)) e']
                 /\ exists r, o' = Val r /\ (r = None <-> e = None /\ e' = None))
       | Err _ => True
       | Panic => False
       end).
Proof.
  eapply wp_mono; [apply DialContext_ok|]. cbv beta. intros tr s' [c|e|] (-> & Hb & Hd); [|done..].
  split; [done|]. split; [done|]. split; [done|]. split.
  - intros Hin. destruct Hd as (es & he & hd & -> & He & Hd).
    destruct Hd as (Hd & _). destruct He as (He & _).
    apply (list_elem_of_fmap_2 (fun e : event => projT1 e)) in Hin.
    assert (Header_Get (Headers (stream c)) PortHeader = pretty (Port p)) as Hport.
    { cbn in Hin. rewrite !elem_of_cons, elem_of_nil in Hin.
      destruct Hin as [?|[?|[?|[?|[]]]]]; congruence. }
    unfold Addr_String, RemoteAddr, NewAddrFromConn. cbn [addr_port identifier]. by rewrite Hport.
  - eapply wp_mono; [apply Conn_Close_ok|]. cbv beta. intros tr' c' o (-> & e & e' & -> & ->).
    split; [done|]. split.
    + rewrite !omap_app, Hb. simpl. by rewrite app_nil_r.
    + eexists _, _. split; [done|]. eexists. split; [done|].
      rewrite NewAggregate_None. destruct e, e'; simpl; naive_solver.
Qed.

(** The constants as the libraries have them. *)
#[export, refine] Instance kubernetes_port_forward : PortForward | 100 := {
  PortHeader := "port";
  PortForwardRequestIDHeader := "requestID";
  StreamType := "streamType";
  StreamTypeError := "error";
  StreamTypeData := "data";
  PortForwardProtocolV1Name := "portforward.k8s.io";
}.
Proof. all: by vm_compute. Defined.

(** A transport that refuses the stream of number [refuse]. *)
Definition refusing (refuse : nat) : handler nat := fun c =>
  match c as c return nat -> proxy_resp c * nat with
  | NewForConfig _ => fun n => (inl (mkClientset 1), n)
  | RoundTripperFor _ => fun n => (inl (mkRoundTripper 2 3), n)
  | Dial _ _ _ => fun n => (inl (mkConnection 4), n)
  | CreateStream _ h => fun n =>
      if n =? refuse then (inr (ENew "refused"), S n) else (inl (mkStream 5 h (Z.of_nat n)), S n)
  | CloseStream _ | CloseConnection _ => fun n => (None, n)
  | ReadStream _ _ => fun n => ([], 0%Z, None, n)
  | WriteStream _ b => fun n => (Z.of_nat (length b), None, n)
  end.

Definition etcd_proxy : Proxy := mkProxy "pods" "kube-system" "" None 2379.

(** Making a dialer and dialling, both after the other. *)
Definition dial_session (options : list Option) (addr : string) : M (option RestConfig) Conn :=
  d <- NewDialer etcd_proxy options ;; DialContextWithAddr d addr.

Example dial_reaches_the_port :
  (let '(s, o, _, _) := run (refusing 9)
     (dial_session [DialTimeout (5 * Second)] "etcd-proxy-x" (Some (mkRestConfig "https://h" 0))) 0 in
   (s, match o with Val c => Some (Addr_String (LocalAddr c)) | _ => None end))
  = (Some (mkRestConfig "https://h" (5 * Second)), Some "proxy://1.portforward.k8s.io.local:2379").
Proof. by vm_compute. Qed.

Example dial_refused_closes :
  (let '(_, o, tr, _) := run (refusing 1)
     (dial_session [] "etcd-proxy-x" (Some (mkRestConfig "https://h" 0))) 0 in
   (o, omap closed_connection tr))
  = (Err (EAggregate [EWrap "error creating forwarding stream" (ENew "refused")]), [mkConnection 4]).
Proof. by vm_compute. Qed.

(** ** Making a dialer *)

(** The timeout that options of the one kind there is leave: the last one, and
    the default for none or zero. *)
Definition timeout_of (durations : list Z) : Z :=
  let t := default 0%Z (last durations) in if (t =? 0)%Z then defaultTimeout else t.

Lemma apply_options_timeouts durations d :
  apply_options (DialTimeout <$> durations) d
  = inl (mkDialer (dialer_proxy d) (dialer_clientset d) (dialer_transport d)
      (default (timeout d) (last durations))).
Proof.
  revert d. induction durations as [|t ts IH]; intros d; [by destruct d|].
  cbn [fmap list_fmap apply_options DialTimeout setTimeout]. rewrite IH. simpl.
  destruct ts as [|t' ts]; [done|]. simpl. by destruct (last (t' :: ts)) eqn:E; [|apply last_None in E].
Qed.

(** A dialer without a port is refused before anything is done. Otherwise the
    timeout is the last one asked for, ten seconds when there is none; it is
    written to the configuration of the caller, also when a client cannot be
    made, both clients are made from that configuration, and the dialer that
    is returned holds them both. A nil configuration panics. *)
Lemma NewDialer_spec p durations KubeConfig :
  wp (NewDialer p (DialTimeout <$> durations)) KubeConfig (fun tr s o =>
    let t := timeout_of durations in
    (Port p = 0%Z /\ tr = [] /\ s = KubeConfig /\ o = Err (ENew "port required"))
    \/ (Port p <> 0%Z /\ KubeConfig = None /\ tr = [] /\ s = None /\ o = Panic)
    \/ (Port p <> 0%Z /\ exists c, KubeConfig = Some c /\ s = Some (with_timeout t c)
        /\ ((exists err, tr = [ev (NewForConfig (with_timeout t c)) (inr err)] /\ o = Err err)
           \/ exists cs r, tr = [ev (NewForConfig (with_timeout t c)) (inl cs);
                                ev (RoundTripperFor (with_timeout t c)) r]
                /\ o = match r with
                       | inl rt => Val (mkDialer p (Some cs) (Some rt) t)
                       | inr err => Err err
                       end))).
Proof.
  unfold NewDialer. rewrite apply_options_timeouts.
  destruct (Z.eqb_spec (Port p) 0) as [Hp|Hp]; [apply wp_throw; auto 6|].
  apply wp_bind. cbn [lift_res]. apply wp_ret. cbn [timeout dialer_proxy].
  fold (timeout_of durations). destruct KubeConfig as [c|]; wp_go; subst; [..|by right; left];
    right; right; (split; [done|]); eexists; (split; [done|]); (split; [done|]);
    [right; by eexists _, (inl _)|right; by eexists _, (inr _)|left; by eexists].
Qed.

(** A dialer that was made can always dial: making it and dialling never panic
    on a configuration, and leave open at most the connection they return. *)
Lemma NewDialer_DialContext `{PortForward} p durations c addr :
  wp (d <- NewDialer p (DialTimeout <$> durations) ;; DialContextWithAddr d addr) (Some c)
    (fun tr _ o => o <> Panic
      /\ omap opened_connection tr ≡ₚ omap closed_connection tr ++ held o).
Proof.
  apply wp_bind. eapply wp_mono; [apply NewDialer_spec|]. cbv beta zeta.
  intros tr s o [(_ & -> & _ & ->)|[(_ & [=] & _)|(_ & c' & [= <-] & -> & Ho)]]; [done|].
  destruct Ho as [(err & -> & ->)|(cs & [rt|err] & -> & ->)]; [done| |done].
  eapply wp_mono; [apply DialContext_ok|]. cbv beta. intros tr s' o (_ & Hb & Ho).
  split; [by intros ->|]. done.
Qed.

Lemma DialContext_leaks_nothing_witness :
  let d := mkDialer etcd_proxy (Some (mkClientset 1)) (Some (mkRoundTripper 2 3)) defaultTimeout in
  let '(s, o, tr, _) := run (refusing 1) (DialContextWithAddr d "etcd-proxy-x" tt) 0 in
  o <> Panic /\ tr <> [] /\ omap opened_connection tr ≡ₚ omap closed_connection tr ++ held o.
Proof.
  cbv zeta. match goal with |- context [run ?h ?p ?w] => destruct (run h p w) as [[[s o] tr] n] eqn:E end.
  destruct (proj1 (wp_runs _ _ _) (DialContext_leaks_nothing etcd_proxy (mkClientset 1)
    (mkRoundTripper 2 3) defaultTimeout "etcd-proxy-x" tt) tr s o (run_exec _ _ _ _ _ _ E))
    as (_ & Hb & _).
  split; [|split; [|exact Hb]]; vm_compute in E; by injection E as <- <- <- <-.
Defined.
