(* ===== verification/Conditions.v ===== *)
(** The conditions computed from a workload cluster (pkg/k3s/workload_cluster.go):
    the agent condition of each machine from its node, the etcd condition of
    each machine from its member, and their aggregates on the control plane.

    The code works on pointers to the machines of the control plane; a pointer
    is here the machine's key in the map, and a write through it an update of
    the map, so a loop sees what an earlier iteration wrote. *)

From stdpp Require Import pretty.
From S2P Require Import Prelude GoStd Effects ApiTypes Api Capi ControlPlane Etcd Workload.

(** ** Reasons *)

Definition DeletingReason : string := "Deleting".
Definition NodeReadyReason : string := "NodeReady".
Definition PodMissingReason : string := "PodMissing".
Definition PodFailedReason : string := "PodFailed".
Definition PodInspectionFailedReason : string := "PodInspectionFailed".
Definition ControlPlaneComponentsUnhealthyReason : string := "ControlPlaneComponentsUnhealthy".
Definition ControlPlaneComponentsUnknownReason : string := "ControlPlaneComponentsUnknown".
Definition ControlPlaneComponentsInspectionFailedReason : string :=
  "ControlPlaneComponentsInspectionFailed".
Definition EtcdClusterInspectionFailedReason : string := "EtcdClusterInspectionFailed".
Definition EtcdClusterUnknownReason : string := "EtcdClusterUnknown".
Definition EtcdClusterUnhealthyReason : string := "EtcdClusterUnhealthy".
Definition EtcdMemberInspectionFailedReason : string := "MemberInspectionFailed".
Definition EtcdMemberUnhealthyReason : string := "EtcdMemberUnhealthy".
Definition EtcdMemberHealthyReason : string := "EtcdMemberHealthy".

Definition ConditionSeverityError : string := "Error".
Definition ConditionSeverityWarning : string := "Warning".
Definition ConditionSeverityInfo : string := "Info".

(** ** Text *)

(** [fmt]'s [%s] of a slice of strings. *)
Definition fmt_strings (xs : list string) : string := "[" +++ Join xs " " +++ "]".

(** [sets.String.List]: the elements in byte order. *)
Definition set_List (s : gset string) : list string :=
  merge_sort (fun a b => Is_true (String.leb a b)) (elements s).

(** ** State *)

(** The workload cluster and the control plane that is updated from it. *)
Definition WC : Type := (Workload * ControlPlane)%type.

Definition on_workload {A} (m : M Workload A) : M WC A := zoom fst (fun w s => (w, s.2)) m.

Definition mod_cp (f : ControlPlane -> ControlPlane) : M WC unit :=
  modify (fun s => (s.1, f s.2)).

Section Conditions.
Context `{CAPI} `{MapOrder}.

(** [conditions.Set(machine, c)] through a pointer. *)
Definition set_condition (c : Condition) (m : Machine) : Machine :=
  with_conditions (conditions_Set c (MachineConditions m)) m.

Definition machine_condition (name : string) (c : Condition) : ControlPlane -> ControlPlane :=
  update_machine name (set_condition c).

(** [for _, condition := range conditions { conditions.Set(machine, ...) }] *)
Definition machine_conditions (name : string) (types : list string) (status : ConditionStatus)
    (reason message : string) (cp : ControlPlane) : ControlPlane :=
  fold_left (fun cp t => machine_condition name (mkCondition t status reason message) cp) types cp.

(** A mark on the control plane's conditions. *)
Definition mark_kcp (f : list V1Condition -> list V1Condition) (cp : ControlPlane) : ControlPlane :=
  set_kcp (with_kcp_conditions (f (KCPConditions (KCPStatus (KCP cp)))) (KCP cp)) cp.

Definition has_node (nodeName : string) (m : Machine) : bool :=
  NodeRef_IsDefined m && String.eqb (NodeRefName m) nodeName.

Definition hasProvisioningMachine (machines : Machines) : bool :=
  existsb (fun m => negb (NodeRef_IsDefined m)) (range_values machines).

Definition allMachinePodConditions : list string := [MachineAgentHealthyCondition].

(** ** Aggregation *)

Record aggregateFromMachinesToKCPInput := mkAggregateInput {
  machineConditions : list string;
  kcpErrors : list string;
  agg_condition : string;
  unhealthyReason : string;
  unknownReason : string;
  note : string;
}.

(** The names of the machines that have one of the conditions at a status. *)
Definition machines_with (status : ConditionStatus) (types : list string) (ms : Machines)
    : gset string :=
  list_to_set (MName <$> List.filter (fun m => existsb (fun t =>
    match conditions_Get (MachineConditions m) t with
    | Some c => bool_decide (CondStatus c = status)
    | None => false
    end) types) (range_values ms)).

(** [kcpMachinesWithInfo] is never filled. *)
Definition aggregateFromMachinesToKCP (input : aggregateFromMachinesToKCPInput)
    (cp : ControlPlane) : ControlPlane :=
  let kcpMachinesWithInfo : gset string := ∅ in
  let kcpMachinesWithTrue := machines_with ConditionTrue (machineConditions input) (CPMachines cp) in
  let kcpMachinesWithFalse := machines_with ConditionFalse (machineConditions input) (CPMachines cp) in
  let kcpMachinesWithUnknown :=
    machines_with ConditionUnknown (machineConditions input) (CPMachines cp) in
  let errs :=
    if (0 <? size kcpMachinesWithFalse)%nat
    then kcpErrors input ++ ["Following machines are reporting " +++ note input +++ " false: "
                             +++ Join (set_List kcpMachinesWithFalse) ", "]
    else kcpErrors input in
  if (0 <? length errs)%nat then
    mark_kcp (MarkFalse (agg_condition input) (unhealthyReason input) ConditionSeverityError
                ("errors found: " +++ Join errs "; ")) cp
  else if (0 <? size kcpMachinesWithInfo)%nat then
    mark_kcp (MarkFalse (agg_condition input) (unhealthyReason input) ConditionSeverityWarning
                ("Following machines are reporting " +++ note input +++ " info: "
                 +++ Join (set_List kcpMachinesWithInfo) ", ")) cp
  else if (0 <? size kcpMachinesWithTrue)%nat then
    mark_kcp (MarkTrue (agg_condition input)) cp
  else if (0 <? size kcpMachinesWithUnknown)%nat then
    mark_kcp (MarkUnknown (agg_condition input) (unknownReason input)
                ("Following machines are reporting unknown " +++ note input +++ " status: "
                 +++ Join (set_List kcpMachinesWithUnknown) ", ")) cp
  else cp.

(** ** Agent conditions *)

(** The first machine, in the order of the loop, of a node. *)
Definition machine_of_node (nodeName : string) (ms : Machines) : option string :=
  fst <$> find_first (fun km => has_node nodeName km.2) (range_order ms).

Definition no_machine_error (nodeName : string) : string :=
  "Control plane node " +++ nodeName +++ " does not have a corresponding machine".

(** The loop over the control-plane nodes; [None] is the [return] that leaves
    the whole function when a node cannot be read again. *)
Fixpoint agent_loop (nodes : list Node) (errs : list string) : M WC (option (list string)) :=
  match nodes with
  | [] => ret (Some errs)
  | node :: nodes' =>
      s <- get ;;
      let ms := CPMachines s.2 in
      match machine_of_node (NName node) ms with
      | None =>
          if hasProvisioningMachine ms then agent_loop nodes' errs
          else agent_loop nodes' (errs ++ [no_machine_error (NName node)])
      | Some name =>
          if negb (TimePtr_IsZero (from_option MDeletionTimestamp None (ms !! name))) then
            mod_cp (machine_conditions name allMachinePodConditions ConditionFalse DeletingReason "") ;;;
            agent_loop nodes' errs
          else if nodeHasUnreachableTaint node then
            mod_cp (machine_conditions name allMachinePodConditions ConditionUnknown
                      PodInspectionFailedReason "Node is unreachable") ;;;
            agent_loop nodes' errs
          else
            r <- call (GetNode (WCluster s.1) (mkKey NamespaceSystem (NName node))) ;;
            match r with
            | inr err =>
                if IsNotFound err then
                  mod_cp (machine_condition name (mkCondition MachineAgentHealthyCondition
                    ConditionFalse PodMissingReason ("Node " +++ NName node +++ " is missing"))) ;;;
                  ret None
                else
                  mod_cp (machine_condition name (mkCondition MachineAgentHealthyCondition
                    ConditionUnknown PodInspectionFailedReason
                    ("Failed to get node status: " +++ Error err))) ;;;
                  ret None
            | inl targetnode =>
                for_each (NodeConditions targetnode) (fun condition =>
                  if String.eqb (NodeCondType condition) "Ready"
                     && String.eqb (NodeCondStatus condition) "True"
                  then mod_cp (machine_condition name (mkCondition MachineAgentHealthyCondition
                         ConditionTrue NodeReadyReason ""))
                  else ret tt) ;;;
                agent_loop nodes' errs
            end
      end
  end.

(** The machines with a node that was not listed. *)
Definition mark_missing_nodes (nodes : list Node) (cp : ControlPlane) : ControlPlane :=
  fold_left (fun cp km =>
    let '(name, machine) := km in
    if negb (NodeRef_IsDefined machine) then cp
    else if existsb (fun node => String.eqb (NodeRefName machine) (NName node)) nodes then cp
    else machine_conditions name allMachinePodConditions ConditionFalse PodFailedReason
           "Missing node" cp)
    (range_order (CPMachines cp)) cp.

Definition UpdateAgentConditions : M WC unit :=
  r <- try (on_workload getControlPlaneNodes) ;;
  match r with
  | inr _ =>
      mod_cp (fun cp =>
        fold_left (fun cp km => machine_conditions km.1 allMachinePodConditions ConditionUnknown
            PodInspectionFailedReason "Failed to get the node which is hosting this component" cp)
          (range_order (CPMachines cp)) cp) ;;;
      mod_cp (mark_kcp (MarkUnknown ControlPlaneComponentsHealthyCondition
        ControlPlaneComponentsInspectionFailedReason
        "Failed to list nodes which are hosting control plane components"))
  | inl controlPlaneNodes =>
      e <- agent_loop controlPlaneNodes [] ;;
      match e with
      | None => ret tt
      | Some errs =>
          mod_cp (mark_missing_nodes controlPlaneNodes) ;;;
          mod_cp (aggregateFromMachinesToKCP
            (mkAggregateInput allMachinePodConditions errs ControlPlaneComponentsHealthyCondition
               ControlPlaneComponentsUnhealthyReason ControlPlaneComponentsUnknownReason
               "control plane"))
      end
  end.

(** ** etcd conditions *)

(** The search without [break]: the last machine, in the order of the loop. *)
Definition last_machine_of_node (nodeName : string) (ms : Machines) : option string :=
  fst <$> find_first (fun km => has_node nodeName km.2) (rev (range_order ms)).

Definition etcd_condition (name : string) (status : ConditionStatus) (reason message : string)
    : ControlPlane -> ControlPlane :=
  machine_condition name (mkCondition MachineEtcdMemberHealthyCondition status reason message).

Definition getCurrentEtcdMembers (name nodeName : string) : M WC (list Member) :=
  c <- try (on_workload (on_generator (forFirstAvailableNode [nodeName]))) ;;
  match c with
  | inr err =>
      mod_cp (etcd_condition name ConditionFalse EtcdMemberInspectionFailedReason
        ("Failed to connect to the etcd pod on the " +++ nodeName +++ " node: " +++ Error err)) ;;;
      throw (EWrap "failed to get current etcd members: failed to connect to the etcd pod" err)
  | inl etcdClient =>
      with_close etcdClient (
        match ClientErrors etcdClient with
        | _ :: _ =>
            mod_cp (etcd_condition name ConditionFalse EtcdMemberUnhealthyReason
              ("Etcd member status reports errors: " +++ Join (ClientErrors etcdClient) ", ")) ;;;
            throw (ENew "failed to get current etcd members: etcd member status reports errors")
        | [] =>
            r <- try (Members etcdClient) ;;
            match r with
            | inr _ =>
                mod_cp (etcd_condition name ConditionFalse EtcdMemberUnhealthyReason
                  ("Failed get answer from the etcd member on the " +++ nodeName +++ " node")) ;;;
                throw (ENew "failed to get current etcd members: failed get answer")
            | inl currentMembers => ret currentMembers
            end
        end)
  end.

(** What the loop over the nodes carries: the errors that no machine can show,
    and the cluster ID and the member list of the first member that gave one. *)
Record etcd_acc := mkEtcdAcc {
  acc_errors : list string;
  acc_clusterID : option Z;
  acc_members : option (list Member);
}.

Definition alarm_names (alarms : list Z) : list string :=
  AlarmTypeName <$> List.filter (fun alarm => negb (alarm =? AlarmOK)%Z) alarms.

(** The checks on what one member reports; [Some] of a status for the machine. *)
Definition etcd_checks (acc : etcd_acc) (currentMembers : list Member) (nodeName : string)
    : etcd_acc * (ConditionStatus * string * string) :=
  let members := default currentMembers (acc_members acc) in
  let acc1 := mkEtcdAcc (acc_errors acc) (acc_clusterID acc) (Some members) in
  if negb (MemberEqual members currentMembers) then
    (acc1, (ConditionFalse, EtcdMemberUnhealthyReason,
       "etcd member reports the cluster is composed by members "
       +++ fmt_strings (MemberNames currentMembers)
       +++ ", but all previously seen etcd members are reporting "
       +++ fmt_strings (MemberNames members)))
  else
    match MemberForName currentMembers nodeName with
    | None =>
        (acc1, (ConditionFalse, EtcdMemberUnhealthyReason,
           "etcd member reports the cluster is composed by members "
           +++ fmt_strings (MemberNames currentMembers)
           +++ ", but the member itself (" +++ nodeName +++ ") is not included"))
    | Some member =>
        match alarm_names (MemberAlarms member) with
        | _ :: _ =>
            (acc1, (ConditionFalse, EtcdMemberUnhealthyReason,
               "etcd member reports alarms: " +++ Join (alarm_names (MemberAlarms member)) ", "))
        | [] =>
            let clusterID := default (MemberClusterID member) (acc_clusterID acc) in
            let acc2 := mkEtcdAcc (acc_errors acc) (Some clusterID) (Some members) in
            if negb (clusterID =? MemberClusterID member)%Z then
              (acc2, (ConditionFalse, EtcdMemberUnhealthyReason,
                 "etcd member has cluster ID " +++ pretty (MemberClusterID member)
                 +++ ", but all previously seen etcd members have cluster ID " +++ pretty clusterID))
            else (acc2, (ConditionTrue, EtcdMemberHealthyReason, ""))
        end
    end.

(** One iteration of the loop over the nodes. *)
Definition etcd_node (acc : etcd_acc) (node : Node) : M WC etcd_acc :=
  s <- get ;;
  let ms := CPMachines s.2 in
  match last_machine_of_node (NName node) ms with
  | None =>
      if hasProvisioningMachine ms then ret acc
      else ret (mkEtcdAcc (acc_errors acc ++ [no_machine_error (NName node)])
                  (acc_clusterID acc) (acc_members acc))
  | Some name =>
      if negb (TimePtr_IsZero (from_option MDeletionTimestamp None (ms !! name))) then
        mod_cp (etcd_condition name ConditionFalse DeletingReason "") ;;;
        ret acc
      else
        r <- try (getCurrentEtcdMembers name (NName node)) ;;
        match r with
        | inr _ => ret acc
        | inl currentMembers =>
            let '(acc', (status, reason, message)) := etcd_checks acc currentMembers (NName node) in
            mod_cp (etcd_condition name status reason message) ;;;
            ret acc'
        end
  end.

(** The name of a member in a message. *)
Definition member_name (member : Member) : string :=
  let name := NodeNameFromMember member in
  if String.eqb name "" then pretty (MemberID member) +++ " (Name not yet assigned)" else name.

Definition compareMachinesAndMembers (members : option (list Member)) (errs : list string)
    (cp : ControlPlane) : ControlPlane * list string :=
  match members with
  | None => (cp, errs)
  | Some members =>
      let cp' := fold_left (fun cp km =>
        let '(name, machine) := km in
        if negb (NodeRef_IsDefined machine) then cp
        else if existsb (fun member => String.eqb (NodeRefName machine) (NodeNameFromMember member)) members
        then cp
        else etcd_condition name ConditionFalse EtcdMemberUnhealthyReason "Missing etcd member" cp)
        (range_order (CPMachines cp)) cp in
      (cp', fold_left (fun errs member =>
        if existsb (has_node (NodeNameFromMember member)) (range_values (CPMachines cp')) then errs
        else errs ++ ["etcd member " +++ member_name member +++ " does not have a corresponding machine"])
        members errs)
  end.

Definition updateManagedEtcdConditions : M WC unit :=
  r <- try (on_workload getControlPlaneNodes) ;;
  match r with
  | inr _ =>
      mod_cp (mark_kcp (MarkUnknown EtcdClusterHealthyCondition EtcdClusterInspectionFailedReason
        "Failed to list nodes which are hosting the etcd members")) ;;;
      mod_cp (fun cp =>
        fold_left (fun cp km => etcd_condition km.1 ConditionUnknown EtcdMemberInspectionFailedReason
            "Failed to get the node which is hosting the etcd member" cp)
          (range_order (CPMachines cp)) cp)
  | inl controlPlaneNodes =>
      acc <- fold_each controlPlaneNodes (mkEtcdAcc [] None None) etcd_node ;;
      s <- get ;;
      let '(cp, errs) := compareMachinesAndMembers (acc_members acc) (acc_errors acc) s.2 in
      mod_cp (fun _ => cp) ;;;
      mod_cp (aggregateFromMachinesToKCP
        (mkAggregateInput [MachineEtcdMemberHealthyCondition] errs EtcdClusterHealthyCondition
           EtcdClusterUnhealthyReason EtcdClusterUnknownReason "etcd member"))
  end.

Definition UpdateEtcdConditions : M WC unit := updateManagedEtcdConditions.
End Conditions.

(** ** What the updates touch *)

Section Frame.
Context `{CAPI}.

(** [cp'] is [cp] but for the condition [mt] of machines and the condition
    [kt] of the control plane. *)
Definition same_but_conditions (mt kt : string) (cp cp' : ControlPlane) : Prop :=
  (forall k, match CPMachines cp !! k, CPMachines cp' !! k with
             | Some m, Some m' =>
                 m' = with_conditions (MachineConditions m') m
                 /\ forall t, t <> mt ->
                      conditions_Get (MachineConditions m') t = conditions_Get (MachineConditions m) t
             | None, None => True
             | _, _ => False
             end)
  /\ cp' = set_kcp (with_kcp_conditions (KCPConditions (KCPStatus (KCP cp'))) (KCP cp))
             (set_machines (CPMachines cp') cp)
  /\ forall t, t <> kt ->
       v1_Get (KCPConditions (KCPStatus (KCP cp'))) t = v1_Get (KCPConditions (KCPStatus (KCP cp))) t.

#[export] Instance same_but_conditions_preorder mt kt : PreOrder (same_but_conditions mt kt).
Proof.
  split.
  - intros [[km ks kst] cl ms h e t kc ir]. split; [|split]; [|by destruct kst|done].
    intros k. simpl. destruct (ms !! k) as [m|]; [|done]. by destruct m.
  - intros x y z (M1 & K1 & V1) (M2 & K2 & V2). split; [|split].
    + intros k. specialize (M1 k). specialize (M2 k).
      destruct (CPMachines x !! k) as [m|], (CPMachines y !! k) as [m1|], (CPMachines z !! k) as [m2|];
        try done.
      destruct M1 as [E1 T1], M2 as [E2 T2]. split.
      * rewrite E2, E1. by destruct m.
      * intros t Ht. by rewrite T2, T1.
    + rewrite K2, K1. by destruct x as [[]].
    + intros t Ht. by rewrite V2, V1.
Qed.

Lemma same_machine_condition mt kt name c cp :
  CondType c = mt -> same_but_conditions mt kt cp (machine_condition name c cp).
Proof.
  intros <-. split; [|split]; [|by destruct cp as [[? ? []]]|done].
  intros k. unfold machine_condition, update_machine. simpl.
  destruct (decide (k = name)) as [->|Hne].
  - rewrite lookup_alter_eq. destruct (CPMachines cp !! name) as [m|]; [|done]. simpl.
    split; [by destruct m|]. intros t Ht. by apply Get_Set_ne.
  - rewrite lookup_alter_ne by done. destruct (CPMachines cp !! k) as [m|]; [|done].
    split; [by destruct m|done].
Qed.

Lemma same_mark_kcp mt kt f cp :
  (forall cs t, t <> kt -> v1_Get (f cs) t = v1_Get cs t) ->
  same_but_conditions mt kt cp (mark_kcp f cp).
Proof.
  intros Hf. split; [|split].
  - intros k. simpl. destruct (CPMachines cp !! k) as [m|]; [|done]. by destruct m.
  - by destruct cp as [[? ? []]].
  - intros t Ht. simpl. by apply Hf.
Qed.

Lemma same_fold {X} mt kt (f : ControlPlane -> X -> ControlPlane) (xs : list X) cp :
  (forall cp x, same_but_conditions mt kt cp (f cp x)) ->
  same_but_conditions mt kt cp (fold_left f xs cp).
Proof.
  intros Hf. revert cp. induction xs as [|x xs IH]; intros cp; simpl; [reflexivity|].
  transitivity (f cp x); [apply Hf|apply IH].
Qed.

Lemma same_machine_conditions mt kt name status reason message cp :
  same_but_conditions mt kt cp (machine_conditions name [mt] status reason message cp).
Proof. simpl. by apply same_machine_condition. Qed.

Lemma same_aggregate `{MapOrder} mt input cp :
  same_but_conditions mt (agg_condition input) cp (aggregateFromMachinesToKCP input cp).
Proof.
  unfold aggregateFromMachinesToKCP. repeat case_match; try reflexivity;
    apply same_mark_kcp; intros cs t Ht; by apply v1_Get_Mark_ne.
Qed.
End Frame.

(** The commands that inspect a workload cluster and its etcd. *)
Definition is_observation (c : cmd) : bool :=
  is_connect c || match c with ListNodes _ | GetNode _ _ => true | _ => false end.

Definition observes (tr : list event) : Prop :=
  Forall (fun e => is_observation (ev_cmd e) = true) tr.

Lemma connects_observes tr : connects_only tr -> observes tr.
Proof. intros HF. eapply Forall_impl; [exact HF|]. intros e He. unfold is_observation. by rewrite He. Qed.

Section Updates.
Context `{CAPI} `{MapOrder}.
Context (mt kt : string).

(** The contract of code that updates conditions; [err] tells whether it may
    fail. *)
Definition update {A} (err : Prop) (s : WC) (tr : list event) (s' : WC) (o : outcome A) : Prop :=
  (same_but_conditions mt kt s.2 s'.2 /\ WCluster s'.1 = WCluster s.1
   /\ (etcdClientGenerator s'.1 = None <-> etcdClientGenerator s.1 = None))
  /\ (observes tr /\ closes_all tr)
  /\ (o = Panic -> etcdClientGenerator s.1 = None) /\ (forall e, o = Err e -> err).

Lemma update_app {A B} (err err' : Prop) s tr1 s1 (o1 : outcome A) tr2 s2 (o2 : outcome B) :
  update err' s tr1 s1 o1 -> update err s1 tr2 s2 o2 -> update err s (tr1 ++ tr2) s2 o2.
Proof.
  intros ((S1 & W1 & G1) & (O1 & C1) & P1 & _) ((S2 & W2 & G2) & (O2 & C2) & P2 & E2).
  split; [split; [by transitivity s1.2|split; [congruence|tauto]]|].
  split; [split; [by apply Forall_app|by apply closes_all_app]|]. split; [tauto|done].
Qed.

Lemma update_nil {A} (err : Prop) s s' (o : outcome A) :
  s'.1 = s.1 -> same_but_conditions mt kt s.2 s'.2 -> o <> Panic -> (forall e, o = Err e -> err) ->
  update err s [] s' o.
Proof.
  intros E1 E2 Hp He. unfold update. rewrite E1. split_and!; try done; [|by apply closes_all_nil].
  constructor.
Qed.

Lemma update_call {A} err s e (o : outcome A) :
  is_observation (ev_cmd e) = true -> opened_conn e = None -> closed_conn e = None ->
  o <> Panic -> (forall e, o = Err e -> err) -> update err s [e] s o.
Proof.
  intros H1 H2 H3 Ho He. split; [by split_and!|]. split; [|done]. split; [by repeat constructor|].
  unfold closes_all. simpl. by rewrite H2, H3.
Qed.

Lemma update_outcome {X Y} err err' s tr s' (o : outcome X) (o' : outcome Y) :
  update err s tr s' o -> (o' = Panic -> o = Panic) -> (forall e, o' = Err e -> err') ->
  update err' s tr s' o'.
Proof. intros (S & O & P & E) Hp He. split; [done|]. split; [done|]. split; [tauto|done]. Qed.

Lemma wp_update_bind {A B} err (m : M WC A) (f : A -> M WC B) s :
  wp m s (update err s) -> (forall a s', wp (f a) s' (update err s')) -> wp (bind m f) s (update err s).
Proof.
  intros Hm Hf. apply wp_bind. eapply wp_mono; [exact Hm|]. intros tr s' [a|e|] Hu.
  - eapply wp_mono; [apply Hf|]. intros tr2 s2 o. by eapply update_app.
  - eapply update_outcome; [exact Hu|done|]. intros _ _. by eapply (proj2 (proj2 (proj2 Hu))).
  - by eapply update_outcome; [exact Hu| |].
Qed.

Lemma wp_update_try {A} err (m : M WC A) s :
  wp m s (update True s) -> wp (try m) s (update err s).
Proof.
  intros Hm. apply wp_try. eapply wp_mono; [exact Hm|].
  intros tr s' [a|e|] Hu; by eapply update_outcome; [exact Hu|..].
Qed.

Lemma wp_update_ret {A} err (a : A) s : wp (ret a) s (update err s).
Proof. by apply update_nil. Qed.

Lemma wp_update_mod err f s :
  same_but_conditions mt kt s.2 (f s.2) -> wp (mod_cp f) s (update err s).
Proof. intros Hf. by apply update_nil. Qed.

Lemma wp_update_fold {X Acc} err (xs : list X) acc (body : Acc -> X -> M WC Acc) s :
  (forall acc x s, wp (body acc x) s (update err s)) ->
  wp (fold_each xs acc body) s (update err s).
Proof.
  intros Hb. revert acc s. induction xs as [|x xs IH]; intros acc s; [apply wp_update_ret|].
  apply wp_update_bind; [apply Hb|intros; apply IH].
Qed.

Lemma wp_update_each {X} err (xs : list X) (body : X -> M WC unit) s :
  (forall x s, wp (body x) s (update err s)) -> wp (for_each xs body) s (update err s).
Proof.
  intros Hb. revert s. induction xs as [|x xs IH]; intros s; [apply wp_update_ret|].
  apply wp_update_bind; [apply Hb|intros; apply IH].
Qed.

Lemma wp_update_nodes s : wp (try (on_workload getControlPlaneNodes)) s (update False s).
Proof.
  apply wp_update_try. unfold on_workload, zoom, wp. rewrite always_bind.
  eapply always_mono; [|exact (getControlPlaneNodes_ok s.1)].
  intros tr [w o] (E & Hp & r & Etr & _). simpl in *. rewrite E, Etr. destruct s as [w0 cp].
  by apply update_call.
Qed.
End Updates.

Section UpdateTheorems.
Context `{CAPI} `{MapOrder}.

Abbreviation agent_update := (update MachineAgentHealthyCondition ControlPlaneComponentsHealthyCondition False).
Abbreviation etcd_update := (update MachineEtcdMemberHealthyCondition EtcdClusterHealthyCondition).

Lemma agent_loop_update nodes errs s : wp (agent_loop nodes errs) s (agent_update s).
Proof.
  revert errs s. induction nodes as [|node nodes IH]; intros errs s; simpl; [apply wp_update_ret|].
  apply wp_bind, wp_get. destruct (machine_of_node _ _) as [name|]; [|destruct (hasProvisioningMachine _); apply IH].
  destruct (negb _).
  { apply wp_update_bind; [apply wp_update_mod, same_machine_conditions|intros; apply IH]. }
  destruct (nodeHasUnreachableTaint node).
  { apply wp_update_bind; [apply wp_update_mod, same_machine_conditions|intros; apply IH]. }
  apply wp_update_bind; [apply wp_call; intros r; by apply update_call|]. intros [target|err] s'.
  - apply wp_update_bind; [|intros; apply IH]. apply wp_update_each. intros c s2.
    destruct (_ && _); [|apply wp_update_ret]. by apply wp_update_mod, same_machine_condition.
  - destruct (IsNotFound err); (apply wp_update_bind; [by apply wp_update_mod, same_machine_condition|]);
      intros; apply wp_update_ret.
Qed.

Lemma UpdateAgentConditions_update s : wp UpdateAgentConditions s (agent_update s).
Proof.
  unfold UpdateAgentConditions. apply wp_update_bind; [apply wp_update_nodes|]. intros [nodes|err] s1.
  - apply wp_update_bind; [apply agent_loop_update|]. intros [errs|] s2; [|apply wp_update_ret].
    apply wp_update_bind.
    + apply wp_update_mod, same_fold. intros cp [name machine]. repeat case_match; try reflexivity.
      apply same_machine_conditions.
    + intros _ s3. by apply wp_update_mod, same_aggregate.
  - apply wp_update_bind.
    + apply wp_update_mod, same_fold. intros cp km. apply same_machine_conditions.
    + intros _ s2. apply wp_update_mod, same_mark_kcp. intros cs t Ht. by apply v1_Get_Mark_ne.
Qed.

Lemma getCurrentEtcdMembers_update name nodeName s :
  wp (getCurrentEtcdMembers name nodeName) s (etcd_update True s).
Proof.
  unfold getCurrentEtcdMembers. apply wp_bind, wp_try. unfold on_workload, zoom, wp at 1.
  rewrite always_bind. eapply always_mono; [|apply (wp_on_generator _ s.1 (fun tr o =>
      (o = Panic /\ etcdClientGenerator s.1 = None /\ tr = []) \/ client_ok tr o)); [by left; auto|]].
  2: { intros g _. eapply wp_mono; [apply forFirstAvailableNode_ok|]. by right. }
  intros tr1 [w1 o1] ([(-> & HN & ->)|Hok] & Kw & Kg).
  { split; [split; [reflexivity|done]|]. split; [split; [by apply Forall_nil|apply closes_all_nil]|done]. }
  destruct (client_ok_open _ _ Hok) as [_ Hcl]. destruct Hok as ([_ Hc] & Hp & _).
  cbn [fst snd always] in *. rewrite app_nil_r.
  assert (Ho : observes tr1) by (by apply connects_observes).
  destruct o1 as [client|err|]; [| |done].
  - apply wp_with_close. eapply wp_mono.
    + instantiate (1 := etcd_update True (w1, s.2)).
      destruct (ClientErrors client).
      * apply wp_update_bind.
        { apply wp_update_try. eapply wp_mono; [apply Members_seen|].
          intros tr s' o (-> & Hb & Hpm & _). split; [split; [reflexivity|done]|].
          split; [split; [apply connects_observes; by destruct Hb|by apply balanced_closes]|done]. }
        intros [ms|err] s2; [apply wp_update_ret|].
        apply wp_update_bind; [by apply wp_update_mod, same_machine_condition|].
        intros _ s3. by apply update_nil.
      * apply wp_update_bind; [by apply wp_update_mod, same_machine_condition|].
        intros _ s3. by apply update_nil.
    + intros tr s' o ((S & W & G) & (O & C) & P & E) r. simpl in *.
      split; [split; [done|split; [congruence|tauto]]|]. split; [|split; [tauto|done]].
      split; [|by apply Hcl]. apply Forall_app. split; [done|]. apply Forall_app. by repeat constructor.
  - eapply wp_mono.
    + instantiate (1 := etcd_update True (w1, s.2)).
      apply wp_update_bind; [by apply wp_update_mod, same_machine_condition|].
      intros _ s3. by apply update_nil.
    + intros tr s' o. apply (update_app _ _ True True s tr1 (w1, s.2) (Val tt)).
      split; [split; [reflexivity|done]|]. by split.
Qed.

Lemma etcd_node_update acc node s : wp (etcd_node acc node) s (etcd_update False s).
Proof.
  unfold etcd_node. apply wp_bind, wp_get.
  destruct (last_machine_of_node _ _) as [name|];
    [|destruct (hasProvisioningMachine _); apply wp_update_ret].
  destruct (negb _).
  { apply wp_update_bind; [by apply wp_update_mod, same_machine_condition|intros; apply wp_update_ret]. }
  apply wp_update_bind; [apply wp_update_try, getCurrentEtcdMembers_update|].
  intros [ms|err] s1; [|apply wp_update_ret].
  destruct (etcd_checks acc ms (NName node)) as [acc' [[st reason] msg]].
  apply wp_update_bind; [by apply wp_update_mod, same_machine_condition|intros; apply wp_update_ret].
Qed.

Lemma compareMachinesAndMembers_same kt members errs cp :
  same_but_conditions MachineEtcdMemberHealthyCondition kt cp
    (compareMachinesAndMembers members errs cp).1.
Proof.
  unfold compareMachinesAndMembers. destruct members as [ms|]; [|reflexivity]. cbn [fst].
  apply same_fold. intros cp' [name machine]. repeat case_match; try reflexivity.
  by apply same_machine_condition.
Qed.

Lemma UpdateEtcdConditions_update s : wp UpdateEtcdConditions s (etcd_update False s).
Proof.
  unfold UpdateEtcdConditions, updateManagedEtcdConditions.
  apply wp_update_bind; [apply wp_update_nodes|]. intros [nodes|err] s1.
  - apply wp_update_bind; [apply wp_update_fold; intros; apply etcd_node_update|].
    intros acc s2. apply wp_bind, wp_get.
    pose proof (compareMachinesAndMembers_same EtcdClusterHealthyCondition
      (acc_members acc) (acc_errors acc) s2.2) as Hs.
    destruct (compareMachinesAndMembers _ _ _) as [cp errs].
    apply wp_update_bind; [by apply wp_update_mod|]. intros _ s3. by apply wp_update_mod, same_aggregate.
  - apply wp_update_bind.
    + apply wp_update_mod, same_mark_kcp. intros cs t Ht. by apply v1_Get_Mark_ne.
    + intros _ s2. apply wp_update_mod, same_fold. intros cp km. by apply same_machine_condition.
Qed.

(** C32: reporting health changes nothing but the report. Whatever the workload
    cluster and its etcd answer, updating the agent and then the etcd
    conditions returns no error, issues only commands that look (it lists and
    reads nodes, connects to etcd and lists members and alarms) and closes
    every connection it opens; the control plane it leaves has the same
    machines, each of them with every field and every condition as it was but
    the agent and the etcd-member condition, and the same KThreesControlPlane
    but for the two conditions that aggregate them. It panics only without an
    etcd client generator, that is, when the cluster has no etcd CA. *)
Theorem UpdateConditions_frame w cp :
  wp (UpdateAgentConditions ;;; UpdateEtcdConditions) (w, cp) (fun tr s' o =>
    (exists mid,
       same_but_conditions MachineAgentHealthyCondition ControlPlaneComponentsHealthyCondition cp mid
       /\ same_but_conditions MachineEtcdMemberHealthyCondition EtcdClusterHealthyCondition mid s'.2)
    /\ (forall e, e ∈ tr -> is_observation (ev_cmd e) = true)
    /\ closes_all tr
    /\ (forall err, o <> Err err)
    /\ (o = Panic -> etcdClientGenerator w = None)).
Proof.
  apply wp_bind. eapply wp_mono; [apply UpdateAgentConditions_update|].
  intros tr1 s1 [[]|e|] ((S1 & W1 & G1) & (O1 & C1) & P1 & E1); [|by destruct (E1 e)|].
  - eapply wp_mono; [apply UpdateEtcdConditions_update|].
    intros tr2 s2 o ((S2 & W2 & G2) & (O2 & C2) & P2 & E2). split; [by exists s1.2|].
    split; [apply Forall_forall; by apply Forall_app|].
    split; [by apply closes_all_app|]. split; [by intros err Ho; apply (E2 err)|].
    intros Ho. apply G1, P2, Ho.
  - split; [exists s1.2; by split|]. split; [by apply Forall_forall|].
    split; [done|]. split; [done|]. intros _. by apply P1.
Qed.
End UpdateTheorems.

(** ** The aggregate *)

Section Aggregate.
Context `{CAPI} `{MapOrder}.

(** Some machine has one of the conditions at a status. *)
Definition reports (status : ConditionStatus) (types : list string) (ms : Machines) : Prop :=
  exists k m t c, ms !! k = Some m /\ t ∈ types
    /\ conditions_Get (MachineConditions m) t = Some c /\ CondStatus c = status.

Lemma machines_with_reports status types ms :
  (0 <? size (machines_with status types ms))%nat = true <-> reports status types ms.
Proof.
  rewrite Nat.ltb_lt. unfold machines_with, reports. split.
  - intros Hs. destruct (set_choose_or_empty (C := gset string) (list_to_set (MName <$> List.filter (fun m =>
      existsb (fun t => match conditions_Get (MachineConditions m) t with
        | Some c => bool_decide (CondStatus c = status) | None => false end) types) (range_values ms))))
      as [[n Hn]|He]; [|apply size_empty_iff in He; lia].
    apply elem_of_list_to_set, list_elem_of_fmap in Hn as (m & -> & Hm).
    apply list_elem_of_In, List.filter_In in Hm as [Hm He].
    apply list_elem_of_In, elem_of_range_values in Hm as [k Hk].
    apply existsb_exists in He as (t & Ht & Hc). apply list_elem_of_In in Ht.
    destruct (conditions_Get _ t) as [c|] eqn:E; [|done]. apply bool_decide_eq_true in Hc.
    by exists k, m, t, c.
  - intros (k & m & t & c & Hk & Ht & Hc & Hst).
    enough (size (C := gset string) (list_to_set (MName <$> List.filter (fun m =>
      existsb (fun t => match conditions_Get (MachineConditions m) t with
        | Some c => bool_decide (CondStatus c = status) | None => false end) types) (range_values ms))) <> 0)
      by lia.
    apply size_non_empty_iff. intros He. apply (not_elem_of_empty (C := gset string) (MName m)).
    rewrite <- He. apply elem_of_list_to_set, list_elem_of_fmap. exists m. split; [done|].
    apply list_elem_of_In, List.filter_In. split; [apply list_elem_of_In, elem_of_range_values; eauto|].
    apply existsb_exists. exists t. split; [by apply list_elem_of_In|]. rewrite Hc. by apply bool_decide_eq_true.
Qed.

Lemma machines_with_none status types ms :
  (0 <? size (machines_with status types ms))%nat = false <-> ~ reports status types ms.
Proof. rewrite <- machines_with_reports. by destruct (_ <? _)%nat. Qed.

Lemma v1_Get_marked t st sev reason msg cp :
  v1_Get (KCPConditions (KCPStatus (KCP (mark_kcp (v1_Mark (mkV1Condition t st sev reason msg)) cp)))) t
  = Some (mkV1Condition t st sev reason msg).
Proof. apply (v1_Get_Mark_eq _ (mkV1Condition t st sev reason msg)). Qed.

Lemma aggregate_ok input cp :
  let cp' := aggregateFromMachinesToKCP input cp in
  let after := v1_Get (KCPConditions (KCPStatus (KCP cp'))) (agg_condition input) in
  let has := fun st => reports st (machineConditions input) (CPMachines cp) in
  CPMachines cp' = CPMachines cp
  /\ (kcpErrors input <> [] \/ has ConditionFalse ->
      exists c, after = Some c /\ V1Status c = ConditionFalse /\ V1Severity c = ConditionSeverityError)
  /\ (kcpErrors input = [] -> ~ has ConditionFalse -> has ConditionTrue ->
      exists c, after = Some c /\ V1Status c = ConditionTrue)
  /\ (kcpErrors input = [] -> ~ has ConditionFalse -> ~ has ConditionTrue -> has ConditionUnknown ->
      exists c, after = Some c /\ V1Status c = ConditionUnknown)
  /\ (kcpErrors input = [] -> ~ has ConditionFalse -> ~ has ConditionTrue -> ~ has ConditionUnknown ->
      cp' = cp).
Proof.
  simpl. unfold aggregateFromMachinesToKCP.
  rewrite <- !machines_with_reports, !not_true_iff_false.
  destruct (0 <? size (machines_with ConditionFalse _ _))%nat eqn:EF.
  { replace (0 <? length (kcpErrors input ++ [_]))%nat with true
      by (symmetry; apply Nat.ltb_lt; rewrite length_app; simpl; lia).
    split; [done|]. split; [intros _; eexists; split; [apply v1_Get_marked|done]|]. by split_and!. }
  destruct (kcpErrors input) as [|e es] eqn:Ee.
  2: { simpl. split; [done|]. split; [intros _; eexists; split; [apply v1_Get_marked|done]|].
    by split_and!. }
  assert (HI : (0 <? size (∅ : gset string))%nat = false) by (by rewrite size_empty).
  change (0 <? length (@nil string))%nat with false. rewrite HI. cbn match.
  destruct (0 <? size (machines_with ConditionTrue _ _))%nat eqn:ET.
  { split; [done|]. split; [intros [?|?]; done|].
    split; [intros _ _ _; eexists; split; [apply v1_Get_marked|done]|]. by split_and!. }
  destruct (0 <? size (machines_with ConditionUnknown _ _))%nat eqn:EU.
  { split; [done|]. split; [intros [?|?]; done|]. split; [done|].
    split; [intros _ _ _ _; eexists; split; [apply v1_Get_marked|done]|done]. }
  split; [done|]. split; [intros [?|?]; done|]. split; [done|]. by split.
Qed.

(** What the machines report is what the control plane reports. After
    aggregating, the control plane's condition is False, with severity Error,
    as soon as there is an error of its own or a machine has one of the
    conditions False; else True as soon as a machine has one True; else Unknown
    as soon as a machine has one Unknown; and without any such report the
    control plane is left untouched. The machines are never touched. *)
Theorem aggregate_spec input cp :
  let cp' := aggregateFromMachinesToKCP input cp in
  let after := v1_Get (KCPConditions (KCPStatus (KCP cp'))) (agg_condition input) in
  let has := fun st => reports st (machineConditions input) (CPMachines cp) in
  CPMachines cp' = CPMachines cp
  /\ (kcpErrors input <> [] \/ has ConditionFalse ->
      exists c, after = Some c /\ V1Status c = ConditionFalse /\ V1Severity c = ConditionSeverityError)
  /\ (kcpErrors input = [] -> ~ has ConditionFalse -> has ConditionTrue ->
      exists c, after = Some c /\ V1Status c = ConditionTrue)
  /\ (kcpErrors input = [] -> ~ has ConditionFalse -> ~ has ConditionTrue -> has ConditionUnknown ->
      exists c, after = Some c /\ V1Status c = ConditionUnknown)
  /\ (kcpErrors input = [] -> ~ has ConditionFalse -> ~ has ConditionTrue -> ~ has ConditionUnknown ->
      cp' = cp).
Proof. apply aggregate_ok. Qed.
End Aggregate.

(** ** Members and machines *)

Section Consistency.
Context `{CAPI} `{MapOrder}.

(** Machine [k] has condition [c]. *)
Definition has_condition (k : string) (c : Condition) (cp : ControlPlane) : Prop :=
  exists m, CPMachines cp !! k = Some m
    /\ conditions_Get (MachineConditions m) (CondType c) = Some c.

Lemma has_condition_write k c name cp :
  has_condition k c cp -> has_condition k c (machine_condition name c cp).
Proof.
  intros (m & Hk & Hc). unfold has_condition, machine_condition, update_machine. simpl.
  destruct (decide (k = name)) as [->|Hne].
  - rewrite lookup_alter_eq, Hk. eexists. split; [reflexivity|]. apply Get_Set_eq.
  - rewrite lookup_alter_ne by done. by exists m.
Qed.

Lemma machine_condition_has k c cp :
  is_Some (CPMachines cp !! k) -> has_condition k c (machine_condition k c cp).
Proof.
  intros [m Hm]. unfold has_condition, machine_condition, update_machine. simpl.
  rewrite lookup_alter_eq, Hm. eexists. split; [reflexivity|]. apply Get_Set_eq.
Qed.

(** A loop that sets one condition on the machines that fail a test. *)
Lemma fold_condition_has (body : ControlPlane -> string * Machine -> ControlPlane)
    (skip : Machine -> bool) c l cp k :
  (forall cp k m, body cp (k, m) = if skip m then cp else machine_condition k c cp) ->
  (has_condition k c cp \/ is_Some (CPMachines cp !! k) /\ exists m, (k, m) ∈ l /\ skip m = false) ->
  has_condition k c (fold_left body l cp).
Proof.
  intros Hbody. revert cp. induction l as [|[k' m'] l IH]; intros cp; simpl.
  - intros [Hc|(_ & m & Hin & _)]; [done|by apply elem_of_nil in Hin].
  - rewrite Hbody. intros [Hc|(Hs & m & [[= <- <-]|Hin]%elem_of_cons & Hk)]; apply IH.
    + left. destruct (skip m'); [done|]. by apply has_condition_write.
    + left. rewrite Hk. by apply machine_condition_has.
    + destruct (skip m'); [right; eauto|].
      destruct (decide (k = k')) as [->|Hne]; [left; by apply machine_condition_has|].
      right. split; [|eauto]. unfold machine_condition, update_machine. simpl.
      by rewrite lookup_alter_ne.
Qed.

Lemma same_node mt kt cp cp' k m :
  same_but_conditions mt kt cp cp' -> CPMachines cp' !! k = Some m ->
  exists m0, CPMachines cp !! k = Some m0 /\ NodeRefName m0 = NodeRefName m.
Proof.
  intros (HM & _ & _) Hk. specialize (HM k). rewrite Hk in HM.
  destruct (CPMachines cp !! k) as [m0|]; [|done]. exists m0. split; [done|].
  destruct HM as [-> _]. done.
Qed.

Lemma fold_errs_grow {X} (test : X -> bool) (msg : X -> string) xs errs :
  errs <> [] \/ (exists x, x ∈ xs /\ test x = false) ->
  fold_left (fun errs x => if test x then errs else errs ++ [msg x]) xs errs <> [].
Proof.
  revert errs. induction xs as [|x xs IH]; intros errs; simpl.
  - intros [?|(x & Hx & _)]; [done|by apply elem_of_nil in Hx].
  - intros [He|(y & [->|Hy]%elem_of_cons & Ht)]; apply IH.
    + left. destruct (test x); [done|]. by destruct errs.
    + left. rewrite Ht. by destruct errs.
    + right. eauto.
Qed.

(** An etcd cluster that does not match the machines is never reported
    healthy. When a machine with a node has no member of that node, or a member
    (of whatever name, the empty one of a member that has not started included)
    has no machine with that node, or an error was already collected, then
    after comparing and aggregating, the control plane's etcd condition is
    False. The removal of members without nodes, which is skipped while that
    condition is True, is then tried. *)
Theorem inconsistent_members_unhealthy members errs cp :
  let '(cp1, errs1) := compareMachinesAndMembers (Some members) errs cp in
  let cp2 := aggregateFromMachinesToKCP
    (mkAggregateInput [MachineEtcdMemberHealthyCondition] errs1 EtcdClusterHealthyCondition
       EtcdClusterUnhealthyReason EtcdClusterUnknownReason "etcd member") cp1 in
  (exists k m, CPMachines cp !! k = Some m /\ NodeRefName m <> ""
     /\ forall mb, mb ∈ members -> NodeNameFromMember mb <> NodeRefName m)
  \/ (exists mb, mb ∈ members /\ forall k m, CPMachines cp !! k = Some m -> NodeRefName m <> "" ->
        NodeRefName m <> NodeNameFromMember mb)
  \/ errs <> [] ->
  v1_IsFalse (KCPConditions (KCPStatus (KCP cp2))) EtcdClusterHealthyCondition = true.
Proof.
  pose proof (compareMachinesAndMembers_same EtcdClusterHealthyCondition (Some members) errs cp) as Hsame.
  destruct (compareMachinesAndMembers (Some members) errs cp) as [cp1 errs1] eqn:E. cbn [fst] in Hsame.
  unfold compareMachinesAndMembers in E. injection E as E1 E2. cbv zeta.
  intros Hbad. apply v1_IsFalse_spec.
  match goal with |- context [aggregateFromMachinesToKCP ?i ?c] =>
    destruct (aggregate_ok i c) as (_ & HF & _) end.
  destruct HF as (c & Hc & Hst & _); [|by exists c].
  destruct Hbad as [(k & m & Hk & Hn & Hno)|Hbad].
  - right. destruct (fold_condition_has (fun cp km =>
        let '(name, machine) := km in
        if negb (NodeRef_IsDefined machine) then cp
        else if existsb (fun member => String.eqb (NodeRefName machine) (NodeNameFromMember member)) members
        then cp
        else etcd_condition name ConditionFalse EtcdMemberUnhealthyReason "Missing etcd member" cp)
      (fun m => negb (NodeRef_IsDefined m)
        || existsb (fun member => String.eqb (NodeRefName m) (NodeNameFromMember member)) members)
      (mkCondition MachineEtcdMemberHealthyCondition ConditionFalse EtcdMemberUnhealthyReason
         "Missing etcd member") (range_order (CPMachines cp)) cp k) as (m' & Hm' & Hc').
    + intros cp' k' m'. by destruct (negb _), (existsb _ members).
    + right. split; [by exists m|]. exists m. split; [by apply elem_of_range|].
      apply orb_false_iff. split; [by apply negb_false_iff, NodeRef_IsDefined_spec|].
      apply not_true_iff_false. intros (mb & Hmb & He)%existsb_exists.
      apply list_elem_of_In in Hmb. apply (Hno mb Hmb). by apply String.eqb_eq in He.
    + rewrite E1 in Hm'. exists k, m', MachineEtcdMemberHealthyCondition. eexists.
      split; [exact Hm'|]. split; [left|]. split; [exact Hc'|done].
  - left. cbn [kcpErrors]. rewrite E1 in E2. rewrite <- E2. apply fold_errs_grow.
    destruct Hbad as [(mb & Hmb & Hno)|He]; [right|by left]. exists mb. split; [done|].
    apply not_true_iff_false. intros (m & Hm & Hh)%existsb_exists.
    apply list_elem_of_In, elem_of_range_values in Hm as [k Hk].
    destruct (same_node _ _ _ _ _ _ Hsame Hk) as (m0 & Hk0 & Hn).
    apply andb_true_iff in Hh as [Hd He]. apply String.eqb_eq in He.
    apply NodeRef_IsDefined_spec in Hd. rewrite <- Hn in Hd, He. by apply (Hno k m0).
Qed.
End Consistency.

Section Examples.
#[local] Existing Instance reference.capi.

(** A machine whose node "n" is known, and etcd with the member of node "o". *)
Definition a_node_machine : Machine :=
  mkMachine (mkObjectMeta "m" "ns" "" "" None None [] [] 0 None []) "c" "" ""
    (mkContractRef "" "" "") (mkContractRef "" "" "") None None None "n" [] [].

Example inconsistent_members_unhealthy_witness :
  let cp := mkControlPlane (a_kcp 1 None None true) a_cluster {[ "m" := a_node_machine ]} None true 0 ∅ ∅ in
  let members := [mkMember 1 7 "o-1" [] [] false []] in
  let '(cp1, errs1) := compareMachinesAndMembers (Some members) [] cp in
  v1_IsFalse (KCPConditions (KCPStatus (KCP (aggregateFromMachinesToKCP
    (mkAggregateInput [MachineEtcdMemberHealthyCondition] errs1 EtcdClusterHealthyCondition
       EtcdClusterUnhealthyReason EtcdClusterUnknownReason "etcd member") cp1))))
    EtcdClusterHealthyCondition = true.
Proof.
  apply (inconsistent_members_unhealthy [mkMember 1 7 "o-1" [] [] false []] []
    (mkControlPlane (a_kcp 1 None None true) a_cluster {[ "m" := a_node_machine ]} None true 0 ∅ ∅)).
  left. exists "m", a_node_machine. split; [reflexivity|]. split; [done|].
  intros mb [->|Hm%elem_of_nil]%elem_of_cons; [vm_compute; discriminate|done].
Defined.
End Examples.
