(* ===== verification/Remediation.v ===== *)
(** Remediation of unhealthy machines (controlplane/controllers/remediation.go):
    one machine is deleted when that is safe, and what was done is kept in
    annotations for the machine that replaces it. *)

From stdpp Require Import pretty.
From S2P Require Import Prelude GoStd Effects ApiTypes Api Capi ControlPlane Etcd Workload Conditions.

(** ** Constants *)

Definition k3sHookName : string := "k3s".
Definition deleteRequeueAfter : Z := 30 * Second.
Definition preflightFailedRequeueAfter : Z := 15 * Second.
Definition dependentCertRequeueAfter : Z := 30 * Second.

Definition RemediationFailedReason : string := "RemediationFailed".
Definition RemediationInProgressReason : string := "RemediationInProgress".
Definition WaitingForRemediationReason : string := "WaitingForRemediation".

(** ** Remediation data *)

Record RemediationData := mkRemediationData {
  RDMachine : string;
  RDTimestamp : Time;
  RDRetryCount : Z;
}.

(** [ToStatus]; the count is cut to 32 bits. *)
Definition ToStatus (r : RemediationData) : LastRemediationStatus :=
  mkLastRemediationStatus (RDMachine r) (RDTimestamp r) (wrap32 (RDRetryCount r)).

(** The text of remediation data: JSON whose time is that of apimachinery,
    RFC 3339 with a resolution of a second. Names are ASCII and times have a
    year of four digits. *)
Definition representable (r : RemediationData) : Prop :=
  (0 <= RDTimestamp r < 315537897600 * Second)%Z
  /\ Forall (fun a => (N_of_ascii a < 128)%N) (list_ascii_of_string (RDMachine r)).

Definition to_seconds (r : RemediationData) : RemediationData :=
  mkRemediationData (RDMachine r) (RDTimestamp r / Second * Second) (RDRetryCount r).

Class RemediationCodec := {
  Marshal : RemediationData -> string + error;
  json_Unmarshal : string -> RemediationData + error;
  Unmarshal_range : forall s r,
    json_Unmarshal s = inl r -> (- 2 ^ 63 <= RDRetryCount r < 2 ^ 63)%Z;
  Unmarshal_Marshal : forall r s,
    representable r -> Marshal r = inl s -> json_Unmarshal s = inl (to_seconds r);
}.

Definition RemediationDataFromAnnotation `{RemediationCodec} (value : string)
    : RemediationData + error :=
  match json_Unmarshal value with
  | inr err => inr (EWrap "failed to unmarshal value for annotation" err)
  | inl r => inl r
  end.

Definition maxDuration (x y : Z) : Z := if (x <? y)%Z then y else x.

(** ** Working on a control plane *)

Section Helpers.
Context `{CAPI}.

(** A call of a workload cluster that the code got for the occasion. *)
Definition with_workload {A} (w : Workload) (m : M Workload A) : M ControlPlane A :=
  zoom (fun _ => w) (fun _ s => s) m.

(** What the pointer [m] points to now. *)
Definition current (m : Machine) (cp : ControlPlane) : Machine :=
  default m (CPMachines cp !! MName m).

(** [conditions.Set(machine, OwnerRemediated = False)]. *)
Definition owner_remediated (m : Machine) (reason message : string) : M ControlPlane unit :=
  modify (machine_condition (MName m)
            (mkCondition MachineOwnerRemediatedCondition ConditionFalse reason message)).

Definition machine_annotations (m : Machine) (a : gomap string) : M ControlPlane unit :=
  modify (update_machine (MName m) (fun m => with_meta (with_annotations a (MachineMeta m)) m)).

(** Adds the hook that keeps the machine until its etcd member is gone, with a
    patch of its own. *)
Definition add_preterminate_hook (m : Machine) : M ControlPlane unit :=
  s <- get ;;
  let before := current m s in
  h <- call (NewPatchHelper before) ;;
  lift_wrap "failed to create patch helper for machine" h ;;;
  match gomap_set PreTerminateDeleteHookAnnotationPrefix k3sHookName (MAnnotations before) with
  | None => panic
  | Some a =>
      machine_annotations m a ;;;
      s' <- get ;;
      p <- call (PatchMachine before (current m s') []) ;;
      lift_wrap "failed patch machine for adding preTerminate hook" p
  end.
End Helpers.

Section Remediation.
Context `{CAPI} `{Crypto} `{MapOrder} `{RemediationCodec}.
Context (etcdCallTimeout : Z).

(** The oldest unhealthy machine without a node, or else the oldest one. *)
Definition getMachineToBeRemediated (unhealthyMachines : Machines) : option Machine :=
  match Oldest (Filter (fun m => negb (NodeRef_IsDefined m)) unhealthyMachines) with
  | Some m => Some m
  | None => Oldest unhealthyMachines
  end.

(** ** Retry limits *)

Definition minHealthyPeriod (strategy : option RemediationStrategy) : Z :=
  match strategy with
  | Some rs => default DefaultMinHealthyPeriod (MinHealthyPeriod rs)
  | None => DefaultMinHealthyPeriod
  end.

Definition retryPeriod (strategy : option RemediationStrategy) : Z :=
  match strategy with Some rs => RetryPeriod rs | None => 0%Z end.

Definition lastRemediationTime (strategy : option RemediationStrategy) (last : RemediationData)
    (reconciliationTime : Time) : Time :=
  if Time_IsZero (RDTimestamp last)
  then (reconciliationTime
        + wrap64 (-2 * maxDuration (minHealthyPeriod strategy) (retryPeriod strategy)))%Z
  else RDTimestamp last.

Definition checkRetryLimits (machineToBeRemediated : Machine) (reconciliationTime : Time)
    : M ControlPlane (RemediationData * bool) :=
  s <- get ;;
  let strategy := KCPRemediationStrategy (KCPSpec (KCP s)) in
  lastRemediationData <-
    (match gomap_get (MAnnotations (current machineToBeRemediated s)) RemediationForAnnotation with
     | Some value => l <- lift_res (RemediationDataFromAnnotation value) ;; ret (Some l)
     | None => ret None
     end) ;;
  let remediationInProgressData :=
    mkRemediationData (MName machineToBeRemediated) reconciliationTime 0 in
  match lastRemediationData with
  | None => ret (remediationInProgressData, true)
  | Some last =>
      let lastTime := lastRemediationTime strategy last reconciliationTime in
      let retryForSameMachineInProgress :=
        (reconciliationTime <? lastTime + minHealthyPeriod strategy)%Z in
      if negb retryForSameMachineInProgress then ret (remediationInProgressData, true)
      else
        let data :=
          mkRemediationData (MName machineToBeRemediated) reconciliationTime (RDRetryCount last) in
        if (reconciliationTime <? lastTime + retryPeriod strategy)%Z then
          owner_remediated machineToBeRemediated WaitingForRemediationReason
            ("KCP can't remediate this machine because the operation already failed in the latest "
             +++ Duration_String (retryPeriod strategy) +++ " (RetryPeriod)") ;;;
          ret (data, false)
        else
          let increased := mkRemediationData (MName machineToBeRemediated) reconciliationTime
            (wrap64 (RDRetryCount last + 1)) in
          match from_option MaxRetry None strategy with
          | None => ret (increased, true)
          | Some maxRetry =>
              if (maxRetry <=? RDRetryCount last)%Z then
                owner_remediated machineToBeRemediated WaitingForRemediationReason
                  ("KCP can't remediate this machine because the operation already failed "
                   +++ pretty maxRetry +++ " times (MaxRetry)") ;;;
                ret (data, false)
              else ret (increased, true)
          end
  end.

(** ** etcd quorum *)

(** The first machine, in the order of the loop, of the node of a member. *)
Definition machine_of_member (ms : Machines) (etcdMember : string) : option Machine :=
  snd <$> find_first (fun km => has_node etcdMember km.2) (range_order ms).

(** The members that stay after the removal, and those of them that count as
    unhealthy. *)
Definition target_members (machineToBeRemediated : Machine) (etcdMembers : list string)
    : list string :=
  List.filter (fun etcdMember => negb (has_node etcdMember machineToBeRemediated)) etcdMembers.

Definition unhealthy_member (ms : Machines) (etcdMember : string) : bool :=
  match machine_of_member ms etcdMember with
  | None => true
  | Some machine => negb (IsTrue (MachineConditions machine) MachineEtcdMemberHealthyCondition)
  end.

Definition canSafelyRemoveEtcdMember (machineToBeRemediated : Machine) : M ControlPlane bool :=
  s <- get ;;
  let key := ClusterKey (CPCluster s) in
  w <- try (GetWorkloadCluster etcdCallTimeout key) ;;
  workloadCluster <- lift_wrap "failed to get client for workload cluster" w ;;
  m <- try (with_workload workloadCluster EtcdMembers) ;;
  etcdMembers <- lift_wrap "failed to get etcdStatus for workload cluster" m ;;
  let target := target_members (current machineToBeRemediated s) etcdMembers in
  let targetTotalMembers := Z.of_nat (length target) in
  let targetUnhealthyMembers := Z.of_nat (count (unhealthy_member (CPMachines s)) target) in
  let targetQuorum := (targetTotalMembers / 2 + 1)%Z in
  ret (targetQuorum <=? targetTotalMembers - targetUnhealthyMembers)%Z.

(** ** The reconciliation *)

(** Removes the condition of machines that are healthy again. *)
Definition cleanup_remediated (errList : list error) (m : Machine) : M ControlPlane (list error) :=
  s <- get ;;
  let before := current m s in
  if IsTrue (MachineConditions before) MachineHealthCheckSucceededCondition
     && IsFalse (MachineConditions before) MachineOwnerRemediatedCondition
     && TimePtr_IsZero (MDeletionTimestamp before) then
    h <- call (NewPatchHelper before) ;;
    match h with
    | inr err => ret (errList ++ [EWrap "failed to get PatchHelper for machine" err])
    | inl _ =>
        modify (update_machine (MName m) (fun m =>
          with_conditions (conditions_Delete MachineOwnerRemediatedCondition (MachineConditions m)) m)) ;;;
        s' <- get ;;
        p <- call (PatchMachine before (current m s') [MachineOwnerRemediatedCondition]) ;;
        match p with
        | inr err => ret (errList ++ [EWrap "failed to patch machine" err])
        | inl _ => ret errList
        end
    end
  else ret errList.

(** The deferred patch of the machine. When it fails and nothing else did, its
    error is returned; the result next to an error is not looked at by any
    caller. *)
Definition with_deferred_patch (before : Machine) (body : M ControlPlane Result)
    : M ControlPlane Result := fun s =>
  prog_bind (body s) (fun so =>
    Do (PatchMachine before (current before so.1) [MachineOwnerRemediatedCondition]) (fun r =>
      match r, so.2 with
      | inr err, Val _ => Ret (so.1, Err (EWrap "failed to patch control plane Machine" err))
      | _, o => Ret (so.1, o)
      end)).

(** What is added to the machine's condition before an early return. *)
Definition waiting (m : Machine) (reason message : string) : M ControlPlane (option Result) :=
  owner_remediated m reason message ;;;
  ret (Some emptyResult).

(** The checks on an initialized control plane; [Some] is an early return. *)
Definition initialized_checks (m : Machine) : M ControlPlane (option Result) :=
  s <- get ;;
  if (size (CPMachines s) <=? 1)%nat then
    waiting m WaitingForRemediationReason
      "KCP can't remediate if current replicas are less or equal to 1"
  else if HasHealthyMachineStillProvisioning s then
    waiting m WaitingForRemediationReason
      "KCP waiting for control plane machine provisioning to complete before triggering remediation"
  else if HasDeletingMachine s then
    waiting m WaitingForRemediationReason
      "KCP waiting for control plane machine deletion to complete before triggering remediation"
  else if IsEtcdManaged s then
    r <- try (canSafelyRemoveEtcdMember m) ;;
    match r with
    | inr err =>
        owner_remediated m RemediationFailedReason (Error err) ;;;
        throw err
    | inl false =>
        waiting m WaitingForRemediationReason
          "KCP can't remediate this machine because this could result in etcd loosing quorum"
    | inl true => ret None
    end
  else ret None.

(** What happens between the checks and the deletion on an initialized control
    plane: the leadership moves and the hook is added. *)
Definition forward_and_hook (m : Machine) : M ControlPlane (option Result) :=
  s <- get ;;
  w <- try (GetWorkloadCluster etcdCallTimeout (ClusterKey (CPCluster s))) ;;
  workloadCluster <- lift_wrap "failed to create client to workload cluster" w ;;
  if IsEtcdManaged s then
    match Newest (HealthyMachines s) with
    | None =>
        waiting m RemediationFailedReason
          "A control plane machine needs remediation, but there is no healthy machine to forward etcd leadership to. Skipping remediation"
    | Some etcdLeaderCandidate =>
        f <- try (with_workload workloadCluster
               (ForwardEtcdLeadership (Some (current m s)) (Some etcdLeaderCandidate))) ;;
        match f with
        | inr err =>
            owner_remediated m RemediationFailedReason (Error err) ;;;
            throw err
        | inl _ =>
            add_preterminate_hook m ;;;
            ret None
        end
    end
  else ret None.

(** [annotations.AddAnnotations]. *)
Definition AddAnnotation (key value : string) (om : ObjectMeta) : ObjectMeta :=
  with_annotations (Some (<[ key := value ]> (default ∅ (Annotations om)))) om.

Definition delete_and_track (m : Machine) (data : RemediationData) : M ControlPlane Result :=
  s <- get ;;
  d <- call (DeleteMachine (current m s)) ;;
  match d with
  | inr err =>
      owner_remediated m RemediationFailedReason (Error err) ;;;
      throw (EWrap "failed to delete unhealthy machine" err)
  | inl _ =>
      owner_remediated m RemediationInProgressReason "" ;;;
      value <- lift_res (Marshal data) ;;
      modify (fun s => set_kcp (with_kcp_meta
        (AddAnnotation RemediationInProgressAnnotation value (KCPMeta (KCP s))) (KCP s)) s) ;;;
      ret requeue
  end.

(** The steps under the deferred patch. *)
Definition remediate (m : Machine) (reconciliationTime : Time) : M ControlPlane Result :=
  let* (data, canRemediate) := checkRetryLimits m reconciliationTime in
  if negb canRemediate then ret emptyResult
  else
    s <- get ;;
    if Initialized (KCPStatus (KCP s)) then
      c <- initialized_checks m ;;
      match c with
      | Some result => ret result
      | None =>
          f <- forward_and_hook m ;;
          match f with
          | Some result => ret result
          | None => delete_and_track m data
          end
      end
    else delete_and_track m data.

Definition reconcileUnhealthyMachines : M ControlPlane Result :=
  reconciliationTime <- call Now ;;
  s <- get ;;
  errList <- fold_each (range_values (HealthyMachines s)) [] cleanup_remediated ;;
  match NewAggregate errList with
  | Some err => throw err
  | None =>
      s <- get ;;
      let unhealthyMachines := UnhealthyMachines s in
      match getMachineToBeRemediated unhealthyMachines with
      | None => ret emptyResult
      | Some machineToBeRemediated =>
          if negb (TimePtr_IsZero (MDeletionTimestamp machineToBeRemediated)) then ret emptyResult
          else
            match gomap_get (KCPAnnotations (KCP s)) RemediationInProgressAnnotation with
            | Some _ => ret emptyResult
            | None =>
                h <- call (NewPatchHelper machineToBeRemediated) ;;
                lift_res h ;;;
                with_deferred_patch machineToBeRemediated
                  (remediate machineToBeRemediated reconciliationTime)
            end
      end
  end.
End Remediation.

(** ** What remediation may do *)

Section Theorems.
Context `{CAPI} `{Crypto} `{MapOrder} `{RemediationCodec}.
Context (etcdCallTimeout : Z).

(** The retry of a remediation that is still in progress for a machine. *)
Definition retry_in_progress (m : Machine) (now : Time) (cp : ControlPlane)
    (last : RemediationData) : Prop :=
  let strategy := KCPRemediationStrategy (KCPSpec (KCP cp)) in
  (exists value, gomap_get (MAnnotations (current m cp)) RemediationForAnnotation = Some value
     /\ RemediationDataFromAnnotation value = inl last)
  /\ (now < lastRemediationTime strategy last now + minHealthyPeriod strategy)%Z.

Lemma FromAnnotation_range value r :
  RemediationDataFromAnnotation value = inl r -> (- 2 ^ 63 <= RDRetryCount r < 2 ^ 63)%Z.
Proof.
  unfold RemediationDataFromAnnotation. destruct (json_Unmarshal value) eqn:E; [|done].
  intros [= <-]. by eapply Unmarshal_range.
Qed.

(** C40: how often a machine may be remediated. [checkRetryLimits] calls no
    service. It refuses exactly when a remediation of the machine's predecessor
    is in progress, less than the minimum healthy period ago, and either the
    retry period has not passed or the maximum number of retries is reached; it
    then says so in the machine's condition. When it agrees, it changes
    nothing, records the machine and the time, and either starts a new sequence
    with count 0 or adds one to the count of the one in progress, so that a
    count never exceeds a maximum that is set. It fails, changing nothing, only
    on an annotation that does not decode, and never panics. *)
Theorem checkRetryLimits_spec m now cp :
  let strategy := KCPRemediationStrategy (KCPSpec (KCP cp)) in
  wp (checkRetryLimits m now) cp (fun tr cp' o =>
    tr = [] /\
    match o with
    | Val (d, allowed) =>
        RDMachine d = MName m /\ RDTimestamp d = now
        /\ (allowed = false <-> exists last, retry_in_progress m now cp last
             /\ ((now < lastRemediationTime strategy last now + retryPeriod strategy)%Z
                 \/ exists rs n, strategy = Some rs /\ MaxRetry rs = Some n /\ (n <= RDRetryCount last)%Z))
        /\ (allowed = true -> cp' = cp
             /\ (RDRetryCount d = 0%Z
                 \/ exists last, retry_in_progress m now cp last
                      /\ RDRetryCount d = wrap64 (RDRetryCount last + 1))
             /\ forall rs n, strategy = Some rs -> MaxRetry rs = Some n -> (0 <= n < 2 ^ 31)%Z ->
                  (RDRetryCount d <= n)%Z)
        /\ (allowed = false -> exists msg, cp' = machine_condition (MName m)
             (mkCondition MachineOwnerRemediatedCondition ConditionFalse WaitingForRemediationReason msg) cp)
    | Err err => cp' = cp /\ exists value,
        gomap_get (MAnnotations (current m cp)) RemediationForAnnotation = Some value
        /\ RemediationDataFromAnnotation value = inr err
    | Panic => False
    end).
Proof.
  simpl. unfold checkRetryLimits. apply wp_bind, wp_get. cbv zeta. unfold retry_in_progress.
  set (strategy := KCPRemediationStrategy (KCPSpec (KCP cp))).
  destruct (gomap_get _ RemediationForAnnotation) as [value|] eqn:Ea.
  2: { apply wp_bind, wp_ret, wp_ret. refine (conj eq_refl (conj eq_refl (conj eq_refl (conj _ (conj _ _))))).
    - split; [done|]. by intros (l & ((v & ? & _) & _) & _).
    - intros _. split_and!; [done|by left|]. simpl. lia.
    - done. }
  destruct (RemediationDataFromAnnotation value) as [last|err] eqn:Er.
  2: { apply wp_bind, wp_bind, wp_throw. split; [done|]. split; [done|]. by exists value. }
  apply wp_bind, wp_bind, wp_ret, wp_ret. cbn [app].
  pose proof (FromAnnotation_range _ _ Er) as Hrange.
  set (lastTime := lastRemediationTime strategy last now).
  assert (Hlast : forall last', (exists value', Some value = Some value'
      /\ RemediationDataFromAnnotation value' = inl last') -> last' = last)
    by (intros last' (v & [= <-] & E); congruence).
  destruct (Z.ltb_spec now (lastTime + minHealthyPeriod strategy)) as [Hin|Hout]; simpl.
  2: { apply wp_ret. refine (conj eq_refl (conj eq_refl (conj eq_refl (conj _ (conj _ _))))).
    - split; [done|]. intros (l & (Hl & Ht) & _). apply Hlast in Hl as ->. unfold lastTime in *. lia.
    - intros _. split_and!; [done|by left|]. simpl. lia.
    - done. }
  assert (Hprog : (exists value', Some value = Some value'
      /\ RemediationDataFromAnnotation value' = inl last)
    /\ (now < lastRemediationTime strategy last now + minHealthyPeriod strategy)%Z)
    by (split; [by exists value|done]).
  destruct (Z.ltb_spec now (lastTime + retryPeriod strategy)) as [Hr|Hr].
  { apply wp_bind, wp_modify, wp_ret. refine (conj eq_refl (conj eq_refl (conj eq_refl (conj _ (conj _ _))))).
    - split; [intros _|done]. exists last. split; [done|by left].
    - done.
    - intros _. eexists. reflexivity. }
  assert (Hallow : (forall n, from_option MaxRetry None strategy = Some n -> (RDRetryCount last < n)%Z) ->
    (true = false <-> exists last0, ((exists value', Some value = Some value'
        /\ RemediationDataFromAnnotation value' = inl last0)
      /\ (now < lastRemediationTime strategy last0 now + minHealthyPeriod strategy)%Z)
      /\ ((now < lastRemediationTime strategy last0 now + retryPeriod strategy)%Z
          \/ exists rs n, strategy = Some rs /\ MaxRetry rs = Some n /\ (n <= RDRetryCount last0)%Z))).
  { intros Hmax. split; [done|]. intros (l & (Hl & Ht) & [Hrp|(rs & n & Hs & Hn & Hle)]);
      apply Hlast in Hl as ->; [unfold lastTime in *; lia|].
    rewrite Hs in Hmax. specialize (Hmax n Hn). lia. }
  destruct (from_option MaxRetry None strategy) as [n|] eqn:En.
  - destruct (Z.leb_spec n (RDRetryCount last)) as [Hle|Hlt].
    + apply wp_bind, wp_modify, wp_ret. refine (conj eq_refl (conj eq_refl (conj eq_refl (conj _ (conj _ _))))).
      * split; [intros _|done]. exists last. split; [done|right].
        destruct strategy as [rs|]; [|done]. by exists rs, n.
      * done.
      * intros _. eexists. reflexivity.
    + apply wp_ret. refine (conj eq_refl (conj eq_refl (conj eq_refl (conj _ (conj _ _))))).
      * apply Hallow. congruence.
      * intros _. split_and!; [done|right; by exists last|]. simpl. intros rs n' Hs Hn' Hb.
        rewrite Hs in En. simpl in En. assert (n' = n) as -> by congruence.
        rewrite wrap64_id; lia.
      * done.
  - apply wp_ret. refine (conj eq_refl (conj eq_refl (conj eq_refl (conj _ (conj _ _))))).
    + by apply Hallow.
    + intros _. split_and!; [done|right; by exists last|]. intros rs n Hs Hn.
      rewrite Hs in En. simpl in En. congruence.
    + done.
Qed.

(** *** Frames *)

(** Code that leaves the control plane as it is. *)
Definition keeps_state {S A} (m : M S A) : Prop := forall s, wp m s (fun _ s' _ => s' = s).

Lemma GetWorkloadCluster_keeps {S} t key : keeps_state (S := S) (GetWorkloadCluster t key).
Proof.
  intros s. unfold GetWorkloadCluster, getEtcdCAKeyPair, generateClientCert, newClientCert. by wp_go.
Qed.

Lemma with_workload_keeps {A} w (m : M Workload A) : keeps_state (with_workload w m).
Proof.
  intros s. unfold with_workload, zoom, wp. rewrite always_bind. simpl.
  induction (m w) as [so|c k IH]; simpl; [done|]. intros r. apply IH.
Qed.

Lemma wp_with_workload {A} w (m : M Workload A) s (Q : list event -> outcome A -> Prop) :
  wp m w (fun tr _ o => Q tr o) -> wp (with_workload w m) s (fun tr s' o => s' = s /\ Q tr o).
Proof.
  intros Hm. unfold with_workload, zoom, wp. rewrite always_bind. eapply always_mono; [|exact Hm].
  intros tr [w' o] HQ. simpl. by rewrite app_nil_r.
Qed.

Lemma wp_quiet {S A} (m : M S A) s Q :
  issues not_mgmt_write m -> wp m s Q -> wp m s (fun tr s' o => mgmt_quiet tr /\ Q tr s' o).
Proof. intros Hi Hm. apply wp_and; [apply Hi|exact Hm]. Qed.

(** The machines are those of before, under their names. *)
Definition names_kept (cp cp' : ControlPlane) : Prop :=
  forall k m, CPMachines cp' !! k = Some m ->
    exists m0, CPMachines cp !! k = Some m0 /\ MName m0 = MName m.

#[export] Instance names_kept_preorder : PreOrder names_kept.
Proof.
  split; [by intros cp k m; eauto|]. intros x y z Hxy Hyz k m Hk.
  destruct (Hyz k m Hk) as (m1 & Hk1 & <-). by apply Hxy.
Qed.

Lemma names_kept_named cp cp' : names_kept cp cp' -> named (CPMachines cp) -> named (CPMachines cp').
Proof. intros HN Hn k m Hk. destruct (HN k m Hk) as (m0 & H0' & <-). by apply Hn. Qed.

Lemma same_names mt kt cp cp' : same_but_conditions mt kt cp cp' -> names_kept cp cp'.
Proof.
  intros (HM & _ & _) k m Hk. specialize (HM k). rewrite Hk in HM.
  destruct (CPMachines cp !! k) as [m0|]; [|done]. exists m0. split; [done|].
  by destruct HM as [-> _].
Qed.

Lemma update_machine_names name f cp :
  (forall m, MName (f m) = MName m) -> names_kept cp (update_machine name f cp).
Proof.
  intros Hf k m. unfold update_machine. simpl. destruct (decide (k = name)) as [->|Hne].
  - rewrite lookup_alter_eq. destruct (CPMachines cp !! name) as [m0|]; [|done].
    intros [= <-]. exists m0. by rewrite Hf.
  - rewrite lookup_alter_ne by done. eauto.
Qed.

Lemma current_name m cp : named (CPMachines cp) -> MName (current m cp) = MName m.
Proof.
  intros Hn. unfold current. destruct (CPMachines cp !! MName m) as [m'|] eqn:E; [|done]. by apply Hn.
Qed.

Lemma current_in m k cp : named (CPMachines cp) -> CPMachines cp !! k = Some m -> current m cp = m.
Proof. intros Hn Hk. unfold current. by rewrite (Hn k m Hk), Hk. Qed.

(** *** Quorum *)

(** Without the machine's member, more than half of the members are known to
    be healthy. *)
Definition keeps_quorum (ms : Machines) (m : Machine) (etcdMembers : list string) : Prop :=
  let target := target_members m etcdMembers in
  (length target < 2 * count (fun x => negb (unhealthy_member ms x)) target)%nat.

(** The names are those of a list that etcd gave. *)
Definition listed (tr : list event) (names : list string) : Prop :=
  exists c response, ev (EtcdMemberList c) (inl response) ∈ tr
    /\ names = (fun pm => NodeNameFromMember (pbMemberToMember pm)) <$> ResponseMembers response.

Lemma listed_mono tr tr' names : listed tr names -> tr ⊆ tr' -> listed tr' names.
Proof. intros (c & r & Hin & ->) Hs. exists c, r. auto. Qed.

Lemma count_negb {A} (p : A -> bool) l : count p l + count (fun x => negb (p x)) l = length l.
Proof.
  induction l as [|x l IH]; [done|]. rewrite !count_cons. simpl. destruct (p x); simpl; lia.
Qed.

Lemma canSafelyRemoveEtcdMember_ok m cp :
  wp (canSafelyRemoveEtcdMember etcdCallTimeout m) cp (fun tr cp' o => mgmt_quiet tr /\ cp' = cp
    /\ (o = Val true -> exists names, listed tr names
         /\ keeps_quorum (CPMachines cp) (current m cp) names)).
Proof.
  apply wp_quiet; [unfold canSafelyRemoveEtcdMember, with_workload; issues_go|].
  unfold canSafelyRemoveEtcdMember. apply wp_bind, wp_get. apply wp_bind, wp_try.
  eapply wp_mono; [apply GetWorkloadCluster_keeps|]. intros tr1 s1 [w|e|] ->; [|by wp_go|done].
  apply wp_bind, wp_ret. cbn beta. apply wp_bind, wp_try.
  eapply wp_mono; [apply wp_with_workload, EtcdMembers_seen|].
  intros tr2 s2 [names|e|] [-> Hs]; [|by wp_go|done].
  apply wp_bind, wp_ret, wp_ret. split; [done|]. intros [= Hq]. exists names. split.
  - eapply listed_mono; [apply (Hs names eq_refl)|]. intros x. rewrite !elem_of_app. tauto.
  - apply Z.leb_le in Hq. unfold keeps_quorum.
    pose proof (count_negb (unhealthy_member (CPMachines cp)) (target_members (current m cp) names)).
    pose proof (Z.div_mod (Z.of_nat (length (target_members (current m cp) names))) 2 ltac:(lia)).
    pose proof (Z.mod_pos_bound (Z.of_nat (length (target_members (current m cp) names))) 2 ltac:(lia)).
    lia.
Qed.

(** *** The steps *)

Definition no_deletion (c : cmd) : bool := negb (is_delete_machine c) && negb (is_apply_machine c).

Lemma not_write_no_deletion c : not_mgmt_write c = true -> no_deletion c = true.
Proof. by destruct c. Qed.

Abbreviation keeps_machines := (issues no_deletion).

(** The conditions under which an initialized control plane lets [m] go. *)
Definition checks_passed (tr : list event) (cp : ControlPlane) (m : Machine) : Prop :=
  (2 <= size (CPMachines cp))%nat
  /\ HasHealthyMachineStillProvisioning cp = false
  /\ HasDeletingMachine cp = false
  /\ (IsEtcdManaged cp = true ->
      exists names, listed tr names /\ keeps_quorum (CPMachines cp) (current m cp) names).

Lemma initialized_checks_ok m cp :
  wp (initialized_checks etcdCallTimeout m) cp (fun tr cp' o => mgmt_quiet tr
    /\ names_kept cp cp' /\ KCP cp' = KCP cp
    /\ (forall res, o = Val (Some res) -> res = emptyResult)
    /\ (o = Val None -> cp' = cp /\ checks_passed tr cp m)).
Proof.
  assert (Hw : forall reason msg, names_kept cp (machine_condition (MName m)
      (mkCondition MachineOwnerRemediatedCondition ConditionFalse reason msg) cp))
    by (intros; by eapply (same_names _ ""), same_machine_condition).
  assert (Hwait : forall reason msg, wp (waiting m reason msg) cp (fun tr cp' o => mgmt_quiet tr
    /\ names_kept cp cp' /\ KCP cp' = KCP cp /\ (forall res, o = Val (Some res) -> res = emptyResult)
    /\ o <> Val None)).
  { intros reason msg. unfold waiting, owner_remediated. wp_go.
    split; [constructor|]. split; [done|]. split; [done|]. split; [by intros ? [= <-]|done]. }
  assert (Hwait' : forall reason msg, wp (waiting m reason msg) cp (fun tr cp' o => mgmt_quiet tr
    /\ names_kept cp cp' /\ KCP cp' = KCP cp /\ (forall res, o = Val (Some res) -> res = emptyResult)
    /\ (o = Val None -> cp' = cp /\ checks_passed tr cp m)))
    by (intros; eapply wp_mono; [apply Hwait|]; cbv beta; intros ??? (Hq&Hn&Hk&Hr&Hc); (split; [done|]); (split; [done|]); (split; [done|]); (split; [done|]); intros Ho; by destruct Hc).
  unfold initialized_checks. apply wp_bind, wp_get. cbv beta.
  destruct (size (CPMachines cp) <=? 1)%nat eqn:E1; [apply Hwait'|]. apply Nat.leb_gt in E1.
  destruct (HasHealthyMachineStillProvisioning cp) eqn:E2; [apply Hwait'|].
  destruct (HasDeletingMachine cp) eqn:E3; [apply Hwait'|].
  destruct (IsEtcdManaged cp) eqn:E4.
  - apply wp_bind, wp_try. eapply wp_mono; [apply canSafelyRemoveEtcdMember_ok|].
    intros tr cp' [b|e|] (Hq & -> & Hok).
    + destruct b.
      * apply wp_ret. rewrite app_nil_r. split; [done|]. split; [done|]. split; [done|]. split; [done|].
        intros _. split; [done|]. split_and!; [lia|done|done|]. intros _. by apply Hok.
      * eapply wp_mono; [apply Hwait|]. intros tr2 cp2 o (Hq2 & Hn & Hk & Hr & Hc).
        split; [by apply (mgmt_quiet_app tr tr2)|]. split; [done|]. split; [done|]. split; [done|].
        intros Ho. by destruct Hc.
    + unfold owner_remediated. wp_go. rewrite app_nil_r. by split_and!.
    + by split_and!.
  - apply wp_ret. split; [constructor|]. split; [done|]. split; [done|]. split; [done|].
    intros _. split; [done|]. split_and!; [lia|done|done|]. by rewrite E4.
Qed.

Lemma add_preterminate_hook_ok m cp :
  wp (add_preterminate_hook m) cp (fun tr cp' o =>
    Forall (fun e => no_deletion (ev_cmd e) = true) tr
    /\ names_kept cp cp' /\ KCP cp' = KCP cp).
Proof.
  unfold add_preterminate_hook, machine_annotations. wp_go; split_and!; try done;
    try (by repeat constructor); by apply update_machine_names.
Qed.

Lemma forward_and_hook_ok m cp :
  wp (forward_and_hook etcdCallTimeout m) cp (fun tr cp' o =>
    Forall (fun e => no_deletion (ev_cmd e) = true) tr
    /\ names_kept cp cp' /\ KCP cp' = KCP cp
    /\ (forall res, o = Val (Some res) -> res = emptyResult)).
Proof.
  assert (Hq : forall tr, mgmt_quiet tr -> Forall (fun e => no_deletion (ev_cmd e) = true) tr)
    by (intros tr HF; eapply Forall_impl; [exact HF|]; intros; by apply not_write_no_deletion).
  assert (Hw : forall reason msg, names_kept cp (machine_condition (MName m)
      (mkCondition MachineOwnerRemediatedCondition ConditionFalse reason msg) cp))
    by (intros; by eapply (same_names _ ""), same_machine_condition).
  unfold forward_and_hook. apply wp_bind, wp_get, wp_bind, wp_try.
  eapply wp_mono; [apply wp_quiet; [apply GetWorkloadCluster_quiet|apply GetWorkloadCluster_keeps]|].
  intros tr1 s1 [w|e|] [Q1 ->]; [| |by split_and!; [apply Hq| | |]].
  2: { wp_go. rewrite app_nil_r. by split_and!; [apply Hq| | |]. }
  apply wp_bind, wp_ret. cbn beta. destruct (IsEtcdManaged cp).
  2: { apply wp_ret. rewrite !app_nil_r. by split_and!; [apply Hq| | |]. }
  destruct (Newest (HealthyMachines cp)) as [cand|].
  2: { unfold waiting, owner_remediated. wp_go. rewrite !app_nil_r.
    split_and!; [by apply Hq|done|done|]. by intros res [= <-]. }
  apply wp_bind, wp_try. eapply wp_mono.
  { apply wp_quiet; [|apply with_workload_keeps]. unfold with_workload. issues_go. }
  intros tr2 s2 [u|e|] [Q2 ->]; rewrite ?app_nil_l.
  - apply wp_bind. eapply wp_mono; [apply add_preterminate_hook_ok|].
    intros tr3 s3 [[]|e|] (F3 & N3 & K3); [apply wp_ret; rewrite app_nil_r|..];
      (split_and!; [|done|done|done]); repeat (apply Forall_app; split);
      first [by constructor|done|by apply Hq].
  - unfold owner_remediated. wp_go. rewrite !app_nil_r.
    split_and!; [|apply Hw|done|done]. repeat (apply Forall_app; split); first [by constructor|by apply Hq].
  - split_and!; [|done|done|done]. apply Forall_app. split; by apply Hq.
Qed.

Lemma no_deletion_nothing tr :
  Forall (fun e => no_deletion (ev_cmd e) = true) tr ->
  issued is_delete_machine tr = 0 /\ issued is_apply_machine tr = 0.
Proof.
  intros HF. rewrite !issued_0. rewrite Forall_forall in HF.
  split; intros e He; specialize (HF e He); unfold no_deletion in HF;
    by destruct (is_delete_machine _), (is_apply_machine _).
Qed.

(** The deletion of a successful remediation leaves its data on the control
    plane. *)
Definition tracked (d : RemediationData) (cp' : ControlPlane) : Prop :=
  forall v, Marshal d = inl v ->
    gomap_get (KCPAnnotations (KCP cp')) RemediationInProgressAnnotation = Some v.

Lemma delete_and_track_ok m d cp :
  wp (delete_and_track m d) cp (fun tr cp' o => names_kept cp cp' /\
    exists r, tr = [ev (DeleteMachine (current m cp)) r] /\ (r = inl tt -> tracked d cp')).
Proof.
  assert (Hw : forall reason msg, names_kept cp (machine_condition (MName m)
      (mkCondition MachineOwnerRemediatedCondition ConditionFalse reason msg) cp))
    by (intros; by eapply (same_names _ ""), same_machine_condition).
  unfold delete_and_track, owner_remediated. apply wp_bind, wp_get, wp_bind, wp_call.
  intros [[]|err]; cbn match.
  - apply wp_bind, wp_modify, wp_bind. destruct (Marshal d) as [v|err] eqn:Em; cbn [lift_res].
    + apply wp_ret, wp_bind, wp_modify, wp_ret. split; [apply Hw|].
      eexists. split; [reflexivity|]. intros _ v' Hv'. rewrite Em in Hv'. injection Hv' as <-.
      simpl. by rewrite lookup_insert_eq.
    + apply wp_throw. split; [apply Hw|]. eexists. split; [reflexivity|].
      intros _ v' Hv'. congruence.
  - apply wp_bind, wp_modify, wp_throw. split; [apply Hw|]. by eexists.
Qed.

(** What the steps under the deferred patch guarantee. *)
Definition remediation_ok (m : Machine) (now : Time) (cp : ControlPlane)
    (tr : list event) (cp' : ControlPlane) : Prop :=
  (issued is_delete_machine tr <= 1)%nat /\ issued is_apply_machine tr = 0
  /\ forall m' r, ev (DeleteMachine m') r ∈ tr ->
       (named (CPMachines cp) -> MName m' = MName m)
       /\ (Initialized (KCPStatus (KCP cp)) = true -> checks_passed tr cp m)
       /\ (r = inl tt -> exists d, RDMachine d = MName m /\ RDTimestamp d = now /\ tracked d cp').

Lemma remediation_ok_quiet m now cp tr cp' :
  Forall (fun e => no_deletion (ev_cmd e) = true) tr -> remediation_ok m now cp tr cp'.
Proof.
  intros HF. destruct (no_deletion_nothing tr HF) as [Hd Ha].
  split; [lia|]. split; [done|]. intros m' r Hin. rewrite issued_0 in Hd. by specialize (Hd _ Hin).
Qed.

Lemma mgmt_quiet_no_deletion tr :
  mgmt_quiet tr -> Forall (fun e => no_deletion (ev_cmd e) = true) tr.
Proof. intros HF. eapply Forall_impl; [exact HF|]. intros e. apply not_write_no_deletion. Qed.

(** A deletion after checks that deleted nothing. *)
Lemma remediation_ok_delete m now d cp cp1 tr cp' r :
  Forall (fun e => no_deletion (ev_cmd e) = true) tr -> names_kept cp cp1 ->
  (Initialized (KCPStatus (KCP cp)) = true -> checks_passed tr cp m) ->
  RDMachine d = MName m -> RDTimestamp d = now -> (r = inl tt -> tracked d cp') ->
  remediation_ok m now cp (tr ++ [ev (DeleteMachine (current m cp1)) r]) cp'.
Proof.
  intros HF Hn Hc Hm Ht Htr. destruct (no_deletion_nothing tr HF) as [Hd Ha].
  unfold remediation_ok. rewrite !issued_app, Hd, Ha, !issued_cons, !issued_nil. simpl.
  split; [lia|]. split; [done|]. intros m' r' [Hin|Hin]%elem_of_app.
  { rewrite issued_0 in Hd. by specialize (Hd _ Hin). }
  apply list_elem_of_singleton, ev_DeleteMachine_inj in Hin as [-> ->].
  split; [|split].
  - intros Hnm. apply current_name. by eapply names_kept_named.
  - intros Hi. destruct (Hc Hi) as (C1 & C2 & C3 & C4). split_and!; [done..|].
    intros He. destruct (C4 He) as (names & Hl & Hq). exists names. split; [|done].
    eapply listed_mono; [exact Hl|]. intros x. rewrite elem_of_app. auto.
  - intros ->. exists d. split_and!; [done..|]. by apply Htr.
Qed.

(** [checkRetryLimits] for its caller. *)
Lemma checkRetryLimits_ok m now cp :
  wp (checkRetryLimits m now) cp (fun tr cp' o => tr = [] /\ o <> Panic
    /\ forall d, o = Val (d, true) -> cp' = cp /\ RDMachine d = MName m /\ RDTimestamp d = now).
Proof.
  unfold checkRetryLimits, owner_remediated. apply wp_bind, wp_get. cbv zeta.
  destruct (gomap_get _ RemediationForAnnotation) as [value|];
    [destruct (RemediationDataFromAnnotation value)|].
  all: wp_go; (split; [done|]); (split; [done|]); intros d [=]; by subst.
Qed.

Lemma remediate_ok m now cp :
  wp (remediate etcdCallTimeout m now) cp (fun tr cp' _ => remediation_ok m now cp tr cp').
Proof.
  unfold remediate. apply wp_bind. eapply wp_mono; [apply checkRetryLimits_ok|].
  intros tr1 cp1 [[d b]|e|] (-> & Hp & Hok); [|by apply remediation_ok_quiet|done].
  destruct b; simpl negb; cbn match; [|by apply wp_ret, remediation_ok_quiet].
  destruct (Hok d eq_refl) as (-> & Hm & Ht). apply wp_bind, wp_get. cbn beta.
  destruct (Initialized (KCPStatus (KCP cp))) eqn:Ei.
  2: { eapply wp_mono; [apply delete_and_track_ok|]. intros tr cp' o (Hn & r & -> & Htr).
    apply (remediation_ok_delete m now d cp cp []); by rewrite ?Ei. }
  apply wp_bind. eapply wp_mono; [apply initialized_checks_ok|].
  intros tr2 cp2 o2 (Q2 & N2 & K2 & R2 & C2).
  destruct o2 as [[res|]|e|]; [..|rewrite ?app_nil_l; by apply remediation_ok_quiet, mgmt_quiet_no_deletion
    |rewrite ?app_nil_l; by apply remediation_ok_quiet, mgmt_quiet_no_deletion].
  { apply wp_ret. rewrite app_nil_r. by apply remediation_ok_quiet, mgmt_quiet_no_deletion. }
  destruct (C2 eq_refl) as [-> Hc]. apply mgmt_quiet_no_deletion in Q2.
  apply wp_bind. eapply wp_mono; [apply forward_and_hook_ok|].
  intros tr3 cp3 o3 (F3 & N3 & K3 & R3).
  assert (F23 : Forall (fun e => no_deletion (ev_cmd e) = true) (tr2 ++ tr3)) by (by apply Forall_app).
  destruct o3 as [[res|]|e|]; [..|by apply remediation_ok_quiet|by apply remediation_ok_quiet].
  { apply wp_ret. rewrite app_nil_r. by apply remediation_ok_quiet. }
  eapply wp_mono; [apply delete_and_track_ok|]. intros tr4 cp4 o4 (N4 & r & -> & Htr).
  rewrite !app_nil_l, app_assoc.
  apply (remediation_ok_delete m now d cp cp3); try done.
  intros _. destruct Hc as (C3 & C4 & C5 & C6). split_and!; [done..|].
  intros He. destruct (C6 He) as (names & Hl & Hq). exists names. split; [|done].
  eapply listed_mono; [exact Hl|]. intros x. rewrite elem_of_app. auto.
Qed.

(** The loop that cleans up conditions. *)
Lemma cleanup_ok errs m cp :
  wp (cleanup_remediated errs m) cp (fun tr cp' o =>
    Forall (fun e => no_deletion (ev_cmd e) = true) tr
    /\ (forall kt, same_but_conditions MachineOwnerRemediatedCondition kt cp cp')
    /\ KCP cp' = KCP cp /\ hasEtcdCA cp' = hasEtcdCA cp).
Proof.
  assert (Hd : forall kt, same_but_conditions MachineOwnerRemediatedCondition kt cp
    (update_machine (MName m) (fun m => with_conditions
       (conditions_Delete MachineOwnerRemediatedCondition (MachineConditions m)) m) cp)).
  { intros kt. split; [|split]; [|by destruct cp as [[? ? []]]|done].
    intros k. unfold update_machine. simpl. destruct (decide (k = MName m)) as [->|Hne].
    - rewrite lookup_alter_eq. destruct (CPMachines cp !! MName m) as [m0|]; [|done]. simpl.
      split; [by destruct m0|]. intros t Hne. by apply Get_Delete_ne.
    - rewrite lookup_alter_ne by done. destruct (CPMachines cp !! k) as [m0|]; [|done].
      split; [by destruct m0|done]. }
  unfold cleanup_remediated. wp_go; (split; [by repeat constructor|]); split; try done.
Qed.

Lemma cleanup_loop_ok ms cp :
  wp (fold_each ms [] cleanup_remediated) cp (fun tr cp' o =>
    Forall (fun e => no_deletion (ev_cmd e) = true) tr
    /\ (forall kt, same_but_conditions MachineOwnerRemediatedCondition kt cp cp')
    /\ KCP cp' = KCP cp /\ hasEtcdCA cp' = hasEtcdCA cp).
Proof.
  eapply wp_mono; [eapply (wp_fold_each (fun _ tr cp' _ =>
      Forall (fun e => no_deletion (ev_cmd e) = true) tr
      /\ (forall kt, same_but_conditions MachineOwnerRemediatedCondition kt cp cp')
      /\ KCP cp' = KCP cp /\ hasEtcdCA cp' = hasEtcdCA cp)
    (fun tr cp' _ => Forall (fun e => no_deletion (ev_cmd e) = true) tr
      /\ (forall kt, same_but_conditions MachineOwnerRemediatedCondition kt cp cp')
      /\ KCP cp' = KCP cp /\ hasEtcdCA cp' = hasEtcdCA cp) _ _ _ [] [])|].
  - by split_and!.
  - intros vis m errs tr cp1 _ (F1 & S1 & K1 & E1). eapply wp_mono; [apply cleanup_ok|].
    intros tr2 cp2 o (F2 & S2 & K2 & E2).
    assert (HG : Forall (fun e => no_deletion (ev_cmd e) = true) (tr ++ tr2)
      /\ (forall kt, same_but_conditions MachineOwnerRemediatedCondition kt cp cp2)
      /\ KCP cp2 = KCP cp /\ hasEtcdCA cp2 = hasEtcdCA cp)
      by (split_and!; [by apply Forall_app|intros kt; by transitivity cp1|congruence|congruence]).
    by destruct o.
  - by intros tr cp' [|e|].
Qed.

(** The whole: where the machine comes from, and what is known of its
    deletion. *)
Definition remediates (cp : ControlPlane) (tr : list event) (cp' : ControlPlane) : Prop :=
  (issued is_delete_machine tr <= 1)%nat /\ issued is_apply_machine tr = 0
  /\ forall m' r, ev (DeleteMachine m') r ∈ tr ->
       exists cp1 m k now,
         (forall kt, same_but_conditions MachineOwnerRemediatedCondition kt cp cp1)
         /\ KCP cp1 = KCP cp /\ hasEtcdCA cp1 = hasEtcdCA cp
         /\ UnhealthyMachines cp1 !! k = Some m /\ TimePtr_IsZero (MDeletionTimestamp m) = true
         /\ gomap_get (KCPAnnotations (KCP cp)) RemediationInProgressAnnotation = None
         /\ (named (CPMachines cp) -> k = MName m /\ MName m' = MName m)
         /\ (Initialized (KCPStatus (KCP cp)) = true -> checks_passed tr cp1 m)
         /\ ev Now now ∈ tr
         /\ (r = inl tt -> exists d, RDMachine d = MName m /\ RDTimestamp d = now /\ tracked d cp').

Lemma getMachineToBeRemediated_in ms m :
  getMachineToBeRemediated ms = Some m -> exists k, ms !! k = Some m.
Proof.
  unfold getMachineToBeRemediated. destruct (Oldest (Filter _ ms)) as [m'|] eqn:E.
  - intros [= <-]. apply Oldest_Some in E as [[k Hk] _]. apply Filter_lookup in Hk as [Hk _]. by exists k.
  - intros Ho. apply Oldest_Some in Ho as [? _]. done.
Qed.

Lemma checks_passed_mono tr tr' cp m : checks_passed tr cp m -> tr ⊆ tr' -> checks_passed tr' cp m.
Proof.
  intros (C1 & C2 & C3 & C4) Hs. split_and!; [done..|]. intros He.
  destruct (C4 He) as (names & Hl & Hq). exists names. split; [by eapply listed_mono|done].
Qed.

Lemma remediates_quiet cp tr cp' :
  Forall (fun e => no_deletion (ev_cmd e) = true) tr -> remediates cp tr cp'.
Proof.
  intros HF. destruct (no_deletion_nothing tr HF) as [Hd Ha].
  split; [lia|]. split; [done|]. intros m' r Hin. rewrite issued_0 in Hd. by specialize (Hd _ Hin).
Qed.

Lemma wp_deferred_patch before body cp (Q : list event -> ControlPlane -> Prop) :
  wp body cp (fun tr cp' _ => forall r,
    Q (tr ++ [ev (PatchMachine before (current before cp') [MachineOwnerRemediatedCondition]) r]) cp') ->
  wp (with_deferred_patch before body) cp (fun tr cp' _ => Q tr cp').
Proof.
  intros Hb. unfold with_deferred_patch, wp. rewrite always_bind. eapply always_mono; [|exact Hb].
  intros tr [cp' o] HQ r. simpl in *. destruct r; [apply HQ|]. destruct o; apply HQ.
Qed.

(** A trace that is made of pieces without a deletion. *)
Ltac quiet_tr :=
  apply remediates_quiet; rewrite ?app_nil_r;
  repeat (apply Forall_app; split); try done; by repeat constructor.

Lemma reconcileUnhealthyMachines_ok cp :
  wp (reconcileUnhealthyMachines etcdCallTimeout) cp (fun tr cp' _ => remediates cp tr cp').
Proof.
  unfold reconcileUnhealthyMachines. apply wp_bind, wp_call. intros now. apply wp_bind, wp_get.
  cbn beta. apply wp_bind. eapply wp_mono; [apply cleanup_loop_ok|].
  intros tr1 cp1 o1 (F1 & S1 & K1 & E1).
  destruct o1 as [errs|e|]; [|quiet_tr|quiet_tr].
  destruct (NewAggregate errs); [apply wp_throw; quiet_tr|].
  apply wp_bind, wp_get. cbn beta zeta.
  destruct (getMachineToBeRemediated _) as [m|] eqn:Em;
    [|apply wp_ret; quiet_tr].
  apply getMachineToBeRemediated_in in Em as [k Hk].
  destruct (negb _) eqn:Ed; [apply wp_ret; quiet_tr|].
  apply negb_false_iff in Ed. rewrite K1.
  destruct (gomap_get _ RemediationInProgressAnnotation) eqn:Ea;
    [apply wp_ret; quiet_tr|].
  apply wp_bind, wp_call. intros h. cbn beta. apply wp_bind.
  assert (F2 : Forall (fun e => no_deletion (ev_cmd e) = true)
    ([ev Now now] ++ [] ++ tr1 ++ [] ++ [ev (NewPatchHelper m) h]))
    by (repeat (apply Forall_app; split); try done; by repeat constructor).
  destruct h as [u|err]; cbn [lift_res];
    [apply wp_ret|apply wp_throw; quiet_tr].
  apply wp_deferred_patch.
  eapply wp_mono; [apply remediate_ok|]. intros tr cp' _ (Hd & Ha & Hall) r.
  match goal with |- context [tr ++ [?e]] => remember e as p eqn:Ep end.
  match type of F2 with Forall _ ?t => remember t as t0 eqn:Et0 end.
  match goal with |- remediates _ ?t _ => replace t with (t0 ++ tr ++ [p])
    by (subst t0; rewrite <- ?app_assoc; simpl; by rewrite <- ?app_assoc) end.
  destruct (no_deletion_nothing _ F2) as [Hd2 Ha2].
  split; [rewrite !issued_app, Hd2, Ep, issued_cons, issued_nil; simpl; lia|].
  split; [rewrite !issued_app, Ha2, Ha, Ep; done|].
  intros m' r' Hin. rewrite !elem_of_app in Hin. destruct Hin as [Hin|[Hin|Hin]].
  - rewrite issued_0 in Hd2. by specialize (Hd2 _ Hin).
  - destruct (Hall m' r' Hin) as (Hn & Hc & Htr). exists cp1, m, k, now.
    rewrite K1 in Hc. split_and!; try done.
    + intros Hnm. apply (names_kept_named _ cp1) in Hnm; [|by eapply (same_names _ "")].
      split; [|by apply Hn]. apply Filter_lookup in Hk as [Hk _]. symmetry. by apply Hnm.
    + intros Hi. eapply checks_passed_mono; [by apply Hc|]. intros x. rewrite !elem_of_app. auto.
    + apply elem_of_app. left. rewrite Et0. left.
  - apply list_elem_of_singleton in Hin. rewrite Ep in Hin. by apply (f_equal ev_cmd) in Hin.
Qed.

(** *** The properties *)

(** C9: remediation never endangers the cluster. Whatever its services answer,
    one reconciliation of the unhealthy machines deletes at most one machine and
    creates none. The machine it deletes is one of the control plane's, is
    unhealthy and is not being deleted, and no remediation was in progress. If
    the control plane is initialized, it has at least two machines, no healthy
    machine still waits for its node and no machine is being deleted; and if it
    manages etcd, then in a member list that etcd gave in this execution more
    than half of the members that stay belong to machines whose member is
    reported healthy. All this is evaluated after the only change made before:
    machines that recovered lost their remediation condition. *)
Theorem remediation_safe cp :
  named (CPMachines cp) ->
  wp (reconcileUnhealthyMachines etcdCallTimeout) cp (fun tr _ _ =>
    (issued is_delete_machine tr <= 1)%nat /\ issued is_apply_machine tr = 0
    /\ forall m' r, ev (DeleteMachine m') r ∈ tr ->
         exists cp1 m,
           (forall kt, same_but_conditions MachineOwnerRemediatedCondition kt cp cp1)
           /\ CPMachines cp1 !! MName m' = Some m /\ IsUnhealthy m = true
           /\ TimePtr_IsZero (MDeletionTimestamp m) = true
           /\ gomap_get (KCPAnnotations (KCP cp)) RemediationInProgressAnnotation = None
           /\ (Initialized (KCPStatus (KCP cp)) = true ->
               (2 <= size (CPMachines cp1))%nat
               /\ (forall k x, CPMachines cp1 !! k = Some x ->
                    (IsUnhealthy x = false -> NodeRefName x <> "") /\ HasDeletionTimestamp x = false)
               /\ (IsEtcdManaged cp = true ->
                   exists names, listed tr names /\ keeps_quorum (CPMachines cp1) m names))).
Proof.
  intros Hnamed. eapply wp_mono; [apply reconcileUnhealthyMachines_ok|].
  intros tr cp' o (Hd & Ha & Hall). split; [done|]. split; [done|]. intros m' r Hin.
  destruct (Hall m' r Hin) as (cp1 & m & k & now & Hs & HK & HE & Hk & Ht & Han & Hnm & Hc & _).
  destruct (Hnm Hnamed) as [-> Hn']. apply Filter_lookup in Hk as [Hk Hu].
  exists cp1, m. rewrite Hn'. split_and!; [done..|].
  intros Hi. destruct (Hc Hi) as (C1 & C2 & C3 & C4). split; [done|]. split.
  - intros k x Hx. split.
    + intros Hx'. unfold HasHealthyMachineStillProvisioning in C2. rewrite Filter_size_0 in C2.
      specialize (C2 k x). apply NodeRef_IsDefined_spec, negb_false_iff, C2.
      apply Filter_lookup. by rewrite Hx'.
    + unfold HasDeletingMachine in C3. rewrite Filter_size_0 in C3. by eapply C3.
  - intros He. assert (Hnamed1 : named (CPMachines cp1))
      by (apply (names_kept_named cp); [apply (same_names _ "" _ _ (Hs ""))|done]).
    destruct C4 as (names & Hl & Hq); [unfold IsEtcdManaged in *; by rewrite HK, HE|].
    exists names. split; [done|]. by rewrite (current_in m (MName m) cp1 Hnamed1 Hk) in Hq.
Qed.

(** C30: a remediation is remembered. When a machine was deleted, the control
    plane's annotation holds, unless its text could not be made, remediation
    data that decodes to the name of that machine and the time of the
    reconciliation, cut to seconds by the encoding; this is what the machine
    that replaces it is given, and what [checkRetryLimits] reads back. *)
Theorem remediation_tracked cp :
  named (CPMachines cp) ->
  wp (reconcileUnhealthyMachines etcdCallTimeout) cp (fun tr cp' _ =>
    forall m', ev (DeleteMachine m') (inl tt) ∈ tr ->
      exists now d, ev Now now ∈ tr /\ RDMachine d = MName m' /\ RDTimestamp d = now
        /\ forall v, Marshal d = inl v ->
             gomap_get (KCPAnnotations (KCP cp')) RemediationInProgressAnnotation = Some v
             /\ (representable d ->
                 RemediationDataFromAnnotation v
                 = inl (mkRemediationData (MName m') (now / Second * Second) (RDRetryCount d)))).
Proof.
  intros Hnamed. eapply wp_mono; [apply reconcileUnhealthyMachines_ok|].
  intros tr cp' o (_ & _ & Hall) m' Hin.
  destruct (Hall m' _ Hin) as (cp1 & m & k & now & _ & _ & _ & _ & _ & _ & Hnm & _ & Hnow & Hd).
  destruct (Hnm Hnamed) as [_ Hn']. destruct (Hd eq_refl) as (d & Hm & Ht & Htr).
  exists now, d. rewrite Hn'. split_and!; [done..|]. intros v Hv. split; [by apply Htr|].
  intros Hr. unfold RemediationDataFromAnnotation. rewrite (Unmarshal_Marshal d v Hr Hv).
  unfold to_seconds. by rewrite Hm, Ht.
Qed.
End Theorems.

(** ** Examples *)

(** A codec that keeps the promises: the data as the digits of a number. *)
Module reference_codec.
Fixpoint pos_text (p : positive) : string :=
  match p with
  | xH => ""
  | xO p' => String "0" (pos_text p')
  | xI p' => String "1" (pos_text p')
  end.

Fixpoint text_pos (s : string) : positive :=
  match s with
  | EmptyString => xH
  | String a s' => if Ascii.eqb a "0" then xO (text_pos s') else xI (text_pos s')
  end.

Lemma text_pos_text p : text_pos (pos_text p) = p.
Proof. induction p as [p IH|p IH|]; simpl; by rewrite ?IH. Qed.

#[local] Obligation Tactic := idtac.
#[export] Program Instance codec : RemediationCodec | 100 := {
  Marshal := fun r =>
    if bool_decide (- 2 ^ 63 <= RDRetryCount r < 2 ^ 63)%Z
    then inl (pos_text (encode (RDMachine r, (RDTimestamp r / Second * Second)%Z, RDRetryCount r)))
    else inr (ENew "count");
  json_Unmarshal := fun s =>
    match decode (A := string * Z * Z) (text_pos s) with
    | Some (m, t, c) =>
        if bool_decide (- 2 ^ 63 <= c < 2 ^ 63)%Z then inl (mkRemediationData m t c)
        else inr (ENew "count")
    | None => inr (ENew "text")
    end;
}.
Next Obligation.
  intros s r. simpl. destruct (decode _) as [[[m t] c]|]; [|done].
  case_bool_decide; [|done]. by intros [= <-].
Qed.
Next Obligation.
  intros r s _. simpl. case_bool_decide; [|done]. intros [= <-].
  rewrite text_pos_text, decode_encode, bool_decide_eq_true_2 by done. done.
Qed.
End reference_codec.

Section Examples.
#[local] Existing Instance reference.capi.
#[local] Existing Instance reference.crypto.
#[local] Existing Instance reference_codec.codec.

(** An uninitialized control plane with the unhealthy machine "m". *)
Definition unhealthy_machine : Machine :=
  with_conditions [mkCondition MachineOwnerRemediatedCondition ConditionFalse "" "";
                   mkCondition MachineHealthCheckSucceededCondition ConditionFalse "" ""]
    (named_machine "m").

Definition unhealthy_cp : ControlPlane :=
  mkControlPlane (a_kcp 1 None None false) a_cluster {[ "m" := unhealthy_machine ]} None true 0 ∅ ∅.

Lemma unhealthy_cp_named : named (CPMachines unhealthy_cp).
Proof.
  intros k m Hk. cbn [unhealthy_cp CPMachines] in Hk.
  by apply lookup_singleton_Some in Hk as [<- <-].
Qed.

Example remediation_safe_witness :
  named (CPMachines unhealthy_cp)
  /\ exists tr cp' m', runs (reconcileUnhealthyMachines 0) unhealthy_cp tr cp' (Val requeue)
       /\ ev (DeleteMachine m') (inl tt) ∈ tr
       /\ (issued is_delete_machine tr <= 1)%nat.
Proof.
  split; [exact unhealthy_cp_named|].
  eexists _, _, _. split; [apply (runs_of_run default_handler); vm_compute; reflexivity|].
  split; [right; right; left|].
  pose proof (remediation_safe 0 unhealthy_cp unhealthy_cp_named) as Hs.
  rewrite wp_runs in Hs. eapply Hs. apply (runs_of_run default_handler). vm_compute. reflexivity.
Defined.

Example remediation_tracked_witness :
  exists tr cp' m', runs (reconcileUnhealthyMachines 0) unhealthy_cp tr cp' (Val requeue)
    /\ ev (DeleteMachine m') (inl tt) ∈ tr
    /\ exists now d, ev Now now ∈ tr /\ RDMachine d = MName m' /\ RDTimestamp d = now
         /\ forall v, Marshal d = inl v ->
              gomap_get (KCPAnnotations (KCP cp')) RemediationInProgressAnnotation = Some v.
Proof.
  eexists _, _, _. split; [apply (runs_of_run default_handler); vm_compute; reflexivity|].
  split; [right; right; left|].
  pose proof (remediation_tracked 0 unhealthy_cp unhealthy_cp_named) as Hs.
  rewrite wp_runs in Hs.
  edestruct Hs as (now & d & Hn & Hm & Ht & Hv);
    [apply (runs_of_run default_handler); vm_compute; reflexivity|right; right; left|].
  exists now, d. split; [exact Hn|]. split; [exact Hm|]. split; [exact Ht|].
  intros v Hv'. apply (Hv v Hv').
Defined.
End Examples.
