(* ===== verification/Scale.v ===== *)
(** Scaling (controlplane/controllers/scale.go): the first machine, one machine
    more, one machine less, the preflight checks before them, and the objects a
    new machine is made of. *)

From S2P Require Import Prelude GoStd Effects ApiTypes Api Ssa Capi ControlPlane Etcd Workload Conditions Remediation.

Definition ErrPreConditionFailed : error := ESentinel "precondition check failed".

(** [json.Marshal] of the server configuration, kept as text in an annotation
    that is only ever copied. *)
Class ServerConfigCodec := {
  json_Marshal_ServerConfig : KThreesServerConfig -> string + error;
}.

(** ** Machines *)

Section Machines.
Context `{ServerConfigCodec}.

(** [ptr.To(int32(d.Seconds()))]: whole seconds, toward zero, at 32 bits. The
    code goes through a floating-point number, which is exact in this for the
    timeouts below fifty days that are in use. *)
Definition seconds32 (d : option Z) : option Z := (fun d => wrap32 (Z.quot d Second)) <$> d.

(** The annotations of a machine that is created, and of one that exists. *)
Definition new_annotations (kcp : KThreesControlPlane) (serverConfig : string) : gmap string string :=
  match gomap_get (KCPAnnotations kcp) RemediationInProgressAnnotation with
  | Some remediationData =>
      <[ RemediationForAnnotation := remediationData ]>
        {[ KThreesServerConfigurationAnnotation := serverConfig ]}
  | None => {[ KThreesServerConfigurationAnnotation := serverConfig ]}
  end.

Definition copy_annotation (key : string) (from : gomap string) (a : gmap string string)
    : gmap string string :=
  match gomap_get from key with Some v => <[ key := v ]> a | None => a end.

Definition kept_annotations (existing : Machine) : gmap string string :=
  copy_annotation RemediationForAnnotation (MAnnotations existing)
    (copy_annotation KThreesServerConfigurationAnnotation (MAnnotations existing) ∅).

(** The machine that both branches build; the template's annotations win. *)
Definition desired_machine (kcp : KThreesControlPlane) (cluster : Cluster) (failureDomain : string)
    (name uid version : string) (annotations : gmap string string)
    (bootstrapRef infraRef : ContractRef) : Machine :=
  let template := MachineTemplate (KCPSpec kcp) in
  mkMachine
    (mkObjectMeta name (Namespace (KCPMeta kcp)) uid ""
       (ControlPlaneLabelsForCluster (Name (ClusterMeta cluster)) template)
       (Some (default ∅ (TemplateAnnotations template) ∪ annotations))
       [controller_ref kcp] [] 0 None [])
    (Name (ClusterMeta cluster)) version failureDomain bootstrapRef infraRef
    (seconds32 (NodeDrainTimeout template)) (seconds32 (NodeVolumeDetachTimeout template))
    (seconds32 (NodeDeletionTimeout template)) "" [] [].

Definition computeDesiredMachine {S} (kcp : KThreesControlPlane) (cluster : Cluster)
    (failureDomain : string) (existingMachine : option Machine) : M S Machine :=
  match existingMachine with
  | None =>
      machineName <- call (GenerateName (Name (KCPMeta kcp) +++ "-")) ;;
      serverConfig <- lift_wrap "failed to marshal cluster configuration"
        (json_Marshal_ServerConfig (ServerConfig (KCPConfigSpec (KCPSpec kcp)))) ;;
      ret (desired_machine kcp cluster failureDomain machineName "" (Version (KCPSpec kcp))
             (new_annotations kcp serverConfig) (mkContractRef "" "" "") (mkContractRef "" "" ""))
  | Some existing =>
      ret (desired_machine kcp cluster failureDomain (MName existing) (UID (MachineMeta existing))
             (MachineVersion existing) (kept_annotations existing)
             (BootstrapConfigRef existing) (InfrastructureRef existing))
  end.
End Machines.

(** ** Creating a machine *)

Section Create.
Context `{CAPI} `{ServerConfigCodec} {scheme : Scheme}.

Definition with_infra_ref (r : ContractRef) (m : Machine) : Machine :=
  mkMachine (MachineMeta m) (ClusterName m) (MachineVersion m) (FailureDomain m)
    (BootstrapConfigRef m) r (NodeDrainTimeoutSeconds m) (NodeVolumeDetachTimeoutSeconds m)
    (NodeDeletionTimeoutSeconds m) (NodeRefName m) (MachineConditions m) (MachineV1Conditions m).

Definition with_bootstrap_ref (r : ContractRef) (m : Machine) : Machine :=
  mkMachine (MachineMeta m) (ClusterName m) (MachineVersion m) (FailureDomain m)
    r (InfrastructureRef m) (NodeDrainTimeoutSeconds m) (NodeVolumeDetachTimeoutSeconds m)
    (NodeDeletionTimeoutSeconds m) (NodeRefName m) (MachineConditions m) (MachineV1Conditions m).

Definition bootstrapGroup : string := "bootstrap.cluster.x-k8s.io".

Definition generateKThreesConfig (kcp : KThreesControlPlane) (cluster : Cluster)
    (spec : KThreesConfigSpec) : M ControlPlane ContractRef :=
  n <- call (GenerateName (Name (KCPMeta kcp) +++ "-")) ;;
  let bootstrapConfig := mkKThreesConfig
    (mkObjectMeta n (Namespace (KCPMeta kcp)) "" ""
       (ControlPlaneLabelsForCluster (Name (ClusterMeta cluster)) (MachineTemplate (KCPSpec kcp)))
       None [kcp_owner kcp] [] 0 None []) spec emptyConfigStatus in
  c <- call (CreateKThreesConfig bootstrapConfig) ;;
  lift_wrap "failed to create bootstrap configuration" c ;;;
  ret (mkContractRef bootstrapGroup "KThreesConfig" n).

(** Server-side apply of the machine without the cache; then the annotation of
    the remediation that it completes is gone. *)
Definition createMachine (machine : Machine) : M ControlPlane unit :=
  r <- try (Patch machine) ;;
  lift_wrap "failed to create Machine" r ;;;
  modify (fun s => set_kcp (with_kcp_meta
    (with_annotations (gomap_delete RemediationInProgressAnnotation (KCPAnnotations (KCP s)))
       (KCPMeta (KCP s))) (KCP s)) s).

(** The loop of [cleanupFromGeneration]; a nil reference is skipped. *)
Definition cleanup_ref (namespace : string) (errs : list error) (ref : option ContractRef)
    : M ControlPlane (list error) :=
  match ref with
  | None => ret errs
  | Some r =>
      o <- call (GetExternal r namespace) ;;
      match o with
      | inr err =>
          if IsNotFound err then ret errs
          else ret (errs ++ [EWrap "failed to retrieve generated resource" err])
      | inl obj =>
          d <- call (DeleteExternal obj) ;;
          match d with
          | inr err =>
              if IsNotFound err then ret errs
              else ret (errs ++ [EWrap "failed to cleanup generated resources after error" err])
          | inl _ => ret errs
          end
      end
  end.

Definition cleanupFromGeneration (namespace : string) (remoteRefs : list (option ContractRef))
    : M ControlPlane unit :=
  errs <- fold_each remoteRefs [] (cleanup_ref namespace) ;;
  match NewAggregate errs with Some err => throw err | None => ret tt end.

(** [kcp] and [cluster] are those of the control plane. *)
Definition cloneConfigsAndGenerateMachine (bootstrapSpec : KThreesConfigSpec) (failureDomain : string)
    : M ControlPlane unit :=
  s <- get ;;
  let kcp := KCP s in
  let cluster := CPCluster s in
  d <- try (computeDesiredMachine kcp cluster failureDomain None) ;;
  machine <- lift_wrap "failed to create Machine: failed to compute desired Machine" d ;;
  i <- call (CreateFromTemplate (mkCreateFromTemplateInput
         (TemplateInfrastructureRef (MachineTemplate (KCPSpec kcp))) (Namespace (KCPMeta kcp))
         (kcp_owner kcp) (Name (ClusterMeta cluster))
         (ControlPlaneLabelsForCluster (Name (ClusterMeta cluster)) (MachineTemplate (KCPSpec kcp))))) ;;
  infraRef <- lift_wrap "failed to clone infrastructure template" i ;;
  let machine := with_infra_ref infraRef machine in
  b <- try (generateKThreesConfig kcp cluster bootstrapSpec) ;;
  let bootstrapRef := match b with inl r => Some r | inr _ => None end in
  errs <- (match b with
    | inr err => ret [EWrap "failed to generate bootstrap config" err]
    | inl r =>
        c <- try (createMachine (with_bootstrap_ref r machine)) ;;
        ret (match c with inr err => [EWrap "failed to create Machine" err] | inl _ => [] end)
    end) ;;
  match errs with
  | [] => ret tt
  | _ =>
      c <- try (cleanupFromGeneration (Namespace (MachineMeta machine)) [Some infraRef; bootstrapRef]) ;;
      let errs' :=
        match c with
        | inr err => errs ++ [EWrap "failed to cleanup generated resources" err]
        | inl _ => errs
        end in
      throw (EAggregate errs')
  end.
End Create.

(** ** Preflight checks *)

Section Preflight.
Context `{CAPI} `{MapOrder}.

Definition preflightCheckCondition (kind : string) (cs : list Condition) (condition : string)
    : option error :=
  match conditions_Get cs condition with
  | None => Some (EWrap "does not have condition" ErrPreConditionFailed)
  | Some c =>
      match CondStatus c with
      | ConditionFalse => Some (EWrap "reports condition is false" ErrPreConditionFailed)
      | ConditionUnknown => Some (EWrap "reports condition is unknown" ErrPreConditionFailed)
      | ConditionTrue => None
      end
  end.

Definition allMachineHealthConditions (cp : ControlPlane) : list string :=
  if IsEtcdManaged cp then [MachineAgentHealthyCondition; MachineEtcdMemberHealthyCondition]
  else [MachineAgentHealthyCondition].

(** The errors of the loop over the machines. *)
Definition machine_errors (cp : ControlPlane) (excludeFor : list Machine) : list error :=
  concat ((fun machine =>
    if existsb (fun excluded => String.eqb (MName machine) (MName excluded)) excludeFor then []
    else omap (preflightCheckCondition "machine" (MachineConditions machine))
           (allMachineHealthConditions cp))
    <$> range_values (CPMachines cp)).

(** A nil machine among the excluded ones would be dereferenced by the loop. *)
Definition preflightChecks (excludeFor : list Machine) : M ControlPlane Result :=
  cp <- get ;;
  if (size (CPMachines cp) =? 0)%nat then ret emptyResult
  else if HasDeletingMachine cp then ret (requeueAfter deleteRequeueAfter)
  else
    match machine_errors cp excludeFor with
    | [] => ret emptyResult
    | _ =>
        call (Eventf "Warning" "ControlPlaneUnhealthy") ;;;
        ret (requeueAfter preflightFailedRequeueAfter)
    end.
End Preflight.

(** ** Scaling *)

Section Scaling.
Context `{CAPI} `{Crypto} `{MapOrder} `{ServerConfigCodec} {scheme : Scheme}.
Context (etcdCallTimeout : Z).

Definition initializeControlPlane : M ControlPlane Result :=
  cp <- get ;;
  ownedMachines <- GetMachinesForCluster true (ClusterKey (CPCluster cp)) [OwnedMachines (KCP cp)] ;;
  if (0 <? size ownedMachines)%nat then
    throw (ENew "control plane has already been initialized: controller cache or management cluster is misbehaving")
  else
    r <- try (cloneConfigsAndGenerateMachine (InitialControlPlaneConfig cp) (NextFailureDomainForScaleUp cp)) ;;
    match r with
    | inr err => call (Eventf "Warning" "FailedInitialization") ;;; throw err
    | inl _ => ret requeue
    end.

Definition scaleUpControlPlane : M ControlPlane Result :=
  result <- preflightChecks [] ;;
  if negb (Result_IsZero result) then ret result
  else
    cp <- get ;;
    r <- try (cloneConfigsAndGenerateMachine (JoinControlPlaneConfig cp) (NextFailureDomainForScaleUp cp)) ;;
    match r with
    | inr err => call (Eventf "Warning" "FailedScaleUp") ;;; throw err
    | inl _ => ret requeue
    end.

Definition selectMachineForScaleDown (cp : ControlPlane) (outdatedMachines : Machines)
    : Machine + error :=
  let machines :=
    if (0 <? size (MachineWithDeleteAnnotation outdatedMachines))%nat
    then MachineWithDeleteAnnotation outdatedMachines
    else if (0 <? size (MachineWithDeleteAnnotation (CPMachines cp)))%nat
    then MachineWithDeleteAnnotation (CPMachines cp)
    else if (0 <? size outdatedMachines)%nat then outdatedMachines
    else CPMachines cp in
  MachineInFailureDomainWithMostMachines cp machines.

(** The error branches of the selection leave no machine, so that the code's
    later test for a nil machine never succeeds. *)
Definition scaleDownControlPlane (outdatedMachines : Machines) : M ControlPlane Result :=
  cp <- get ;;
  machineToDelete <- lift_wrap "failed to select machine for scale down"
    (selectMachineForScaleDown cp outdatedMachines) ;;
  result <- preflightChecks [machineToDelete] ;;
  if negb (Result_IsZero result) then ret result
  else
    (if IsEtcdManaged cp then
       w <- try (GetWorkloadCluster etcdCallTimeout (ClusterKey (CPCluster cp))) ;;
       workloadCluster <- lift_wrap "failed to create client to workload cluster" w ;;
       with_workload workloadCluster
         (ForwardEtcdLeadership (Some machineToDelete) (Newest (CPMachines cp))) ;;;
       add_preterminate_hook machineToDelete
     else ret tt) ;;;
    cp' <- get ;;
    d <- call (DeleteMachine (current machineToDelete cp')) ;;
    match d with
    | inr err =>
        if IsNotFound err then ret requeue
        else call (Eventf "Warning" "FailedScaleDown") ;;; throw err
    | inl _ => ret requeue
    end.
End Scaling.

(** ** Preflight checks decide stability *)

Section PreflightTheorems.
Context `{CAPI} `{MapOrder}.

Lemma preflightCheckCondition_None kind cs t :
  preflightCheckCondition kind cs t = None <-> IsTrue cs t = true.
Proof.
  unfold preflightCheckCondition. rewrite IsTrue_spec.
  destruct (conditions_Get cs t) as [c|]; [|split; [done|by intros (? & ? & _)]].
  destruct (CondStatus c) eqn:E; split; try done; try (by intros (c' & [= <-] & Hc); congruence).
  intros _. by exists c.
Qed.

(** Every machine but the excluded ones reports itself healthy. *)
Definition stable (cp : ControlPlane) (excludeFor : list Machine) : Prop :=
  (forall k m, CPMachines cp !! k = Some m -> HasDeletionTimestamp m = false)
  /\ (forall k m, CPMachines cp !! k = Some m ->
       (forall e, e ∈ excludeFor -> MName m <> MName e) ->
       IsTrue (MachineConditions m) MachineAgentHealthyCondition = true
       /\ (IsEtcdManaged cp = true ->
           IsTrue (MachineConditions m) MachineEtcdMemberHealthyCondition = true)).

Lemma concat_nil {A} (xss : list (list A)) : concat xss = [] <-> forall xs, xs ∈ xss -> xs = [].
Proof.
  induction xss as [|xs xss IH]; simpl.
  - split; [intros _ xs Hx; by apply elem_of_nil in Hx|done].
  - rewrite app_nil, IH. split.
    + intros [-> HN] ys [->|Hy]%elem_of_cons; auto.
    + intros HN. split; [apply HN; by left|]. intros ys Hy. apply HN. by right.
Qed.

Lemma omap_nil {A B} (f : A -> option B) xs : omap f xs = [] <-> forall x, x ∈ xs -> f x = None.
Proof.
  induction xs as [|x xs IH]; simpl.
  - split; [intros _ x Hx; by apply elem_of_nil in Hx|done].
  - destruct (f x) eqn:E.
    + split; [done|]. intros HN. specialize (HN x ltac:(by left)). congruence.
    + rewrite IH. split; [intros HN y [->|Hy]%elem_of_cons; auto|intros HN y Hy; apply HN; by right].
Qed.

Lemma machine_errors_nil cp excl :
  machine_errors cp excl = []
  <-> forall k m, CPMachines cp !! k = Some m -> (forall e, e ∈ excl -> MName m <> MName e) ->
       IsTrue (MachineConditions m) MachineAgentHealthyCondition = true
       /\ (IsEtcdManaged cp = true ->
           IsTrue (MachineConditions m) MachineEtcdMemberHealthyCondition = true).
Proof.
  unfold machine_errors, allMachineHealthConditions. rewrite concat_nil. split.
  - intros HN k m Hk He.
    assert (E : existsb (fun excluded => String.eqb (MName m) (MName excluded)) excl = false).
    { apply not_true_iff_false. intros (e & He1 & He2)%existsb_exists.
      apply (He e); [by apply list_elem_of_In|by apply String.eqb_eq]. }
    assert (Hm : omap (preflightCheckCondition "machine" (MachineConditions m))
       (if IsEtcdManaged cp then [MachineAgentHealthyCondition; MachineEtcdMemberHealthyCondition]
        else [MachineAgentHealthyCondition]) = []).
    { apply HN, list_elem_of_fmap. exists m. rewrite E. split; [done|].
      apply elem_of_range_values. by exists k. }
    rewrite omap_nil in Hm. split.
    + apply (preflightCheckCondition_None "machine"), Hm. destruct (IsEtcdManaged cp); left.
    + intros Hi. apply (preflightCheckCondition_None "machine"), Hm. rewrite Hi. right. left.
  - intros HH xs (m & -> & Hm)%list_elem_of_fmap. apply elem_of_range_values in Hm as [k Hk].
    destruct (existsb _ excl) eqn:E; [done|]. destruct (HH k m Hk) as [H1 H2].
    { intros e He Hn. apply not_true_iff_false in E. apply E, existsb_exists. exists e.
      split; [by apply list_elem_of_In|by apply String.eqb_eq]. }
    apply omap_nil. intros t Ht. apply preflightCheckCondition_None.
    destruct (IsEtcdManaged cp); rewrite ?elem_of_cons, elem_of_nil in Ht.
    + destruct Ht as [->|[->|[]]]; auto.
    + by destruct Ht as [->|[]].
Qed.

(** The preflight checks let a scaling operation proceed exactly when the
    control plane is stable: it has no machines yet, or none of them is being
    deleted and every machine but the excluded one reports its agent and, when
    etcd is managed, its etcd member healthy. A missing condition counts as
    unhealthy. Otherwise they ask to come back later; they never fail and
    change nothing. *)
Lemma preflightChecks_ok excludeFor cp :
  wp (preflightChecks excludeFor) cp (fun tr cp' o =>
    cp' = cp /\ mgmt_quiet tr
    /\ exists result, o = Val result
         /\ (Result_IsZero result = true <-> CPMachines cp = ∅ \/ stable cp excludeFor)
         /\ (Result_IsZero result = false -> (0 < RequeueAfter result)%Z)).
Proof.
  unfold preflightChecks, stable. apply wp_bind, wp_get. cbn beta.
  destruct (Nat.eqb_spec (size (CPMachines cp)) 0) as [E|E].
  { apply wp_ret. split; [done|]. split; [constructor|]. eexists. split; [done|]. split; [|done].
    apply map_size_empty_iff in E. split; [by left|done]. }
  assert (Hne : CPMachines cp <> ∅) by (intros E'; apply E; by rewrite E', map_size_empty).
  destruct (HasDeletingMachine cp) eqn:Ed.
  { apply wp_ret. split; [done|]. split; [constructor|]. eexists. split; [done|]. split; [|done].
    split; [done|]. intros [?|[Hnd _]]; [done|]. exfalso.
    unfold HasDeletingMachine in Ed. apply Filter_size in Ed as (k & m & Hk & Hm).
    by rewrite (Hnd k m Hk) in Hm. }
  assert (Hnd : forall k m, CPMachines cp !! k = Some m -> HasDeletionTimestamp m = false)
    by (by apply Filter_size_0).
  destruct (machine_errors cp excludeFor) as [|e es] eqn:Ee.
  - apply wp_ret. split; [done|]. split; [constructor|]. eexists. split; [done|]. split; [|done].
    split; [|done]. intros _. right. split; [done|]. by apply machine_errors_nil.
  - apply wp_bind, wp_call. intros r. apply wp_ret. split; [done|]. split; [by repeat constructor|].
    eexists. split; [done|]. split; [|done]. split; [done|]. intros [?|[_ Hs]]; [done|]. exfalso.
    apply machine_errors_nil in Hs. congruence.
Qed.
End PreflightTheorems.

(** ** Scaling down *)

Section ScaleDown.
Context `{CAPI} `{Crypto} `{MapOrder} `{ServerConfigCodec} {scheme : Scheme}.
Context (etcdCallTimeout : Z).

(** A machine with the hook that keeps it until its etcd member is gone. *)
Definition has_hook (m : Machine) : Prop :=
  gomap_get (MAnnotations m) PreTerminateDeleteHookAnnotationPrefix = Some k3sHookName.

Lemma selectMachineForScaleDown_in cp outdated m :
  outdated ⊆ CPMachines cp -> selectMachineForScaleDown cp outdated = inl m ->
  exists k, CPMachines cp !! k = Some m.
Proof.
  intros Hsub. unfold selectMachineForScaleDown, MachineInFailureDomainWithMostMachines. cbv zeta.
  set (machines := if (0 <? size (MachineWithDeleteAnnotation outdated))%nat then _ else _).
  assert (Hms : machines ⊆ CPMachines cp).
  { unfold machines. repeat case_match; [|apply Filter_subseteq|done|done].
    transitivity outdated; [apply Filter_subseteq|done]. }
  destruct (Oldest _) as [m0|] eqn:E; [|done]. intros [= <-].
  apply Oldest_Some in E as [[k Hk] _]. apply Filter_lookup in Hk as [Hk _].
  exists k. by eapply lookup_weaken.
Qed.

Lemma add_preterminate_hook_spec m cp :
  CPMachines cp !! MName m = Some m ->
  wp (add_preterminate_hook m) cp (fun tr cp' o =>
    Forall (fun e => no_deletion (ev_cmd e) = true) tr /\
    (o = Val tt -> has_hook (current m cp') /\ MName (current m cp') = MName m
       /\ ev (PatchMachine m (current m cp') []) (inl tt) ∈ tr)).
Proof.
  intros Hm. unfold add_preterminate_hook, machine_annotations.
  assert (Hc : current m cp = m) by (unfold current; by rewrite Hm).
  assert (Hu : forall a, current m (update_machine (MName m)
      (fun m => with_meta (with_annotations a (MachineMeta m)) m) cp)
    = with_meta (with_annotations a (MachineMeta m)) m).
  { intros a. unfold current, update_machine. simpl. by rewrite lookup_alter_eq, Hm. }
  apply wp_bind, wp_get. cbn beta zeta. rewrite Hc.
  apply wp_bind, wp_call. intros [[]|err]; [|apply wp_bind, wp_throw; split; [by repeat constructor|done]].
  apply wp_bind, wp_ret. destruct (gomap_set _ _ _) as [a|] eqn:Ea;
    [|apply wp_panic; split; [by repeat constructor|done]].
  apply wp_bind, wp_modify, wp_bind, wp_get. rewrite Hu. apply wp_bind, wp_call.
  intros [[]|err]; [apply wp_ret|apply wp_throw]; (split; [by repeat constructor|]); [intros _|done].
  rewrite Hu. split; [by eapply gomap_get_set_eq|]. split; [done|]. right. left.
Qed.

(** At most one machine is deleted, one of which [P] is known, and none is
    created. *)
Definition deletes_only (P : Machine -> Prop) (tr : list event) : Prop :=
  (issued is_delete_machine tr <= 1)%nat /\ issued is_apply_machine tr = 0
  /\ forall m' r, ev (DeleteMachine m') r ∈ tr -> P m'.

Lemma deletes_none P tr :
  Forall (fun e => no_deletion (ev_cmd e) = true) tr -> deletes_only P tr.
Proof.
  intros HF. destruct (no_deletion_nothing tr HF) as [Hd Ha].
  split; [lia|]. split; [done|]. intros m' r Hin. rewrite issued_0 in Hd. by specialize (Hd _ Hin).
Qed.

Lemma deletes_one (P : Machine -> Prop) tr1 m r tr2 :
  Forall (fun e => no_deletion (ev_cmd e) = true) tr1 ->
  Forall (fun e => no_deletion (ev_cmd e) = true) tr2 -> P m ->
  deletes_only P (tr1 ++ ev (DeleteMachine m) r :: tr2).
Proof.
  intros F1 F2 HP. destruct (no_deletion_nothing _ F1) as [D1 A1], (no_deletion_nothing _ F2) as [D2 A2].
  unfold deletes_only. rewrite !issued_app, !issued_cons, D1, A1, D2, A2. simpl.
  split; [lia|]. split; [done|]. rewrite issued_0 in D1, D2.
  intros m' r' [Hin|[Hin|Hin]%elem_of_cons]%elem_of_app;
    [by specialize (D1 _ Hin)| |by specialize (D2 _ Hin)].
  by apply ev_DeleteMachine_inj in Hin as [-> _].
Qed.

(** The etcd steps between the checks and the deletion. *)
Lemma scale_down_etcd_ok m cp :
  CPMachines cp !! MName m = Some m ->
  wp (if IsEtcdManaged cp then
       w <- try (GetWorkloadCluster etcdCallTimeout (ClusterKey (CPCluster cp))) ;;
       workloadCluster <- lift_wrap "failed to create client to workload cluster" w ;;
       with_workload workloadCluster
         (ForwardEtcdLeadership (Some m) (Newest (CPMachines cp))) ;;;
       add_preterminate_hook m
      else ret tt) cp (fun tr cp' o =>
    Forall (fun e => no_deletion (ev_cmd e) = true) tr
    /\ (o = Val tt -> MName (current m cp') = MName m
        /\ (IsEtcdManaged cp = true ->
            has_hook (current m cp') /\ ev (PatchMachine m (current m cp') []) (inl tt) ∈ tr))).
Proof.
  intros Hm. destruct (IsEtcdManaged cp).
  2: { apply wp_ret. split; [constructor|]. intros _. split; [|done]. unfold current. by rewrite Hm. }
  apply wp_bind, wp_try.
  eapply wp_mono; [apply wp_quiet; [apply GetWorkloadCluster_quiet|apply GetWorkloadCluster_keeps]|].
  intros tr1 s1 o1 [Q1 ->]. apply mgmt_quiet_no_deletion in Q1.
  destruct o1 as [w|e|]; [|apply wp_bind, wp_throw; by rewrite app_nil_r|done].
  apply wp_bind, wp_ret. cbn beta. apply wp_bind. eapply wp_mono.
  { apply wp_quiet; [|apply with_workload_keeps]. unfold with_workload. issues_go. }
  intros tr2 s2 o2 [Q2 ->]. apply mgmt_quiet_no_deletion in Q2.
  assert (Q12 : Forall (fun e => no_deletion (ev_cmd e) = true) (tr1 ++ tr2)) by (by apply Forall_app).
  destruct o2 as [u|e|]; [|done|done].
  eapply wp_mono; [by apply add_preterminate_hook_spec|]. intros tr3 cp3 o3 [F3 H3].
  split; [repeat (apply Forall_app; split); try done; constructor|].
  intros Ho. destruct (H3 Ho) as (Hh & Hn & Hp). split; [done|]. intros _. split; [done|].
  rewrite !elem_of_app. tauto.
Qed.

Lemma scale_down_ok outdatedMachines cp :
  named (CPMachines cp) -> outdatedMachines ⊆ CPMachines cp ->
  wp (scaleDownControlPlane etcdCallTimeout outdatedMachines) cp (fun tr _ _ =>
    (issued is_delete_machine tr <= 1)%nat /\ issued is_apply_machine tr = 0
    /\ forall m' r, ev (DeleteMachine m') r ∈ tr ->
         exists m, selectMachineForScaleDown cp outdatedMachines = inl m
           /\ MName m' = MName m /\ CPMachines cp !! MName m = Some m
           /\ stable cp [m]
           /\ (IsEtcdManaged cp = true ->
               has_hook m' /\ ev (PatchMachine m m' []) (inl tt) ∈ tr)).
Proof.
  intros Hnamed Hsub. unfold scaleDownControlPlane. apply wp_bind, wp_get. cbn beta. apply wp_bind.
  destruct (selectMachineForScaleDown cp outdatedMachines) as [m|err] eqn:Em; cbn [lift_wrap];
    [apply wp_ret|apply wp_throw, (deletes_none (fun m' => exists m, _)); constructor].
  destruct (selectMachineForScaleDown_in cp outdatedMachines m Hsub Em) as [k Hk].
  assert (Hm : CPMachines cp !! MName m = Some m) by (by rewrite (Hnamed k m Hk)).
  apply wp_bind. eapply wp_mono; [apply preflightChecks_ok|].
  intros tr1 cp1 o1 (-> & Q1 & result & -> & Hres & _). cbn beta iota.
  apply mgmt_quiet_no_deletion in Q1.
  destruct (Result_IsZero result); simpl negb; cbn match;
    [|apply wp_ret, (deletes_none (fun m' => exists m, _)); by rewrite !app_nil_r].
  assert (Hst : stable cp [m]).
  { destruct (proj1 Hres eq_refl) as [He|]; [|done]. by rewrite He, lookup_empty in Hm. }
  apply wp_bind. eapply wp_mono; [by apply scale_down_etcd_ok|].
  intros tr2 cp2 o2 [F2 Het]. rewrite !app_nil_l.
  assert (F12 : Forall (fun e => no_deletion (ev_cmd e) = true) (tr1 ++ tr2)) by (by apply Forall_app).
  destruct o2 as [[]|e|]; [|by apply (deletes_none (fun m' => exists m, _))..].
  destruct (Het eq_refl) as [Hn Hh].
  apply wp_bind, wp_get. cbn beta. apply wp_bind, wp_call. intros r.
  assert (HP : forall tr3, Forall (fun e => no_deletion (ev_cmd e) = true) tr3 ->
    deletes_only (fun m' => exists m0, inl m = inl (B := error) m0
      /\ MName m' = MName m0 /\ CPMachines cp !! MName m0 = Some m0 /\ stable cp [m0]
      /\ (IsEtcdManaged cp = true -> has_hook m'
          /\ ev (PatchMachine m0 m' []) (inl tt) ∈ tr1 ++ tr2 ++ ev (DeleteMachine (current m cp2)) r :: tr3))
      (tr1 ++ tr2 ++ ev (DeleteMachine (current m cp2)) r :: tr3)).
  { intros tr3 F3. rewrite (app_assoc tr1 tr2). apply deletes_one; [done|done|]. exists m. split_and!; try done.
    - intros Hi. destruct (Hh Hi) as [Hh1 Hh2]. split; [done|]. rewrite !elem_of_app. tauto. }
  destruct r as [u|err]; [apply wp_ret; by apply HP|].
  destruct (IsNotFound err); [apply wp_ret; by apply HP|].
  apply wp_bind, wp_call. intros r3. apply wp_throw. apply HP. by repeat constructor.
Qed.

(** A scale-down that succeeds has asked for the deletion of a machine, or it
    waits for the other machines. *)
Lemma scale_down_outcome outdatedMachines cp :
  named (CPMachines cp) -> outdatedMachines ⊆ CPMachines cp ->
  wp (scaleDownControlPlane etcdCallTimeout outdatedMachines) cp (fun tr _ o =>
    forall res, o = Val res ->
      (res = requeue /\ exists m' r, ev (DeleteMachine m') r ∈ tr
         /\ forall err, r = inr err -> IsNotFound err = true)
      \/ (0 < RequeueAfter res)%Z
         /\ exists m, selectMachineForScaleDown cp outdatedMachines = inl m /\ ~ stable cp [m]).
Proof.
  intros Hnamed Hsub. unfold scaleDownControlPlane. apply wp_bind, wp_get. cbn beta. apply wp_bind.
  destruct (selectMachineForScaleDown cp outdatedMachines) as [m|err] eqn:Em; cbn [lift_wrap];
    [apply wp_ret|by apply wp_throw].
  destruct (selectMachineForScaleDown_in cp outdatedMachines m Hsub Em) as [k Hk].
  assert (Hm : CPMachines cp !! MName m = Some m) by (by rewrite (Hnamed k m Hk)).
  apply wp_bind. eapply wp_mono; [apply preflightChecks_ok|].
  intros tr1 cp1 o1 (-> & _ & result & -> & Hres & Hwait). cbn beta iota.
  destruct (Result_IsZero result); simpl negb; cbn match.
  2: { apply wp_ret. intros res [= <-]. right. split; [by apply Hwait|]. exists m. split; [done|].
       intros Hst. destruct Hres as [_ Hres]. discriminate Hres. by right. }
  apply wp_bind. eapply wp_mono; [by apply scale_down_etcd_ok|].
  intros tr2 cp2 [[]|e|] _; [|done..]. apply wp_bind, wp_get. cbn beta. apply wp_bind, wp_call. intros [u|err].
  - apply wp_ret. intros res [= <-]. left. split; [done|]. exists (current m cp2), (inl u).
    split; [repeat (first [left | apply elem_of_app; right])|done].
  - destruct (IsNotFound err) eqn:En; [|by apply wp_bind, wp_call; intros; apply wp_throw].
    apply wp_ret. intros res [= <-]. left. split; [done|]. exists (current m cp2), (inr err).
    split; [repeat (first [left | apply elem_of_app; right])|congruence].
Qed.

(** C10: scaling down is safe. One scale-down deletes at most one machine and
    creates none; the machine is the one selected, and it is deleted only when
    no machine is being deleted and every other machine reports its agent and,
    when etcd is managed, its etcd member healthy. When etcd is managed, the
    machine carries, before it is deleted, the hook that keeps it until its
    etcd member has left, and the API server has accepted that patch. *)
Theorem scale_down_safe outdatedMachines cp :
  named (CPMachines cp) -> outdatedMachines ⊆ CPMachines cp ->
  wp (scaleDownControlPlane etcdCallTimeout outdatedMachines) cp (fun tr _ _ =>
    (issued is_delete_machine tr <= 1)%nat /\ issued is_apply_machine tr = 0
    /\ forall m' r, ev (DeleteMachine m') r ∈ tr ->
         exists m, selectMachineForScaleDown cp outdatedMachines = inl m
           /\ MName m' = MName m /\ CPMachines cp !! MName m = Some m
           /\ stable cp [m]
           /\ (IsEtcdManaged cp = true ->
               has_hook m' /\ ev (PatchMachine m m' []) (inl tt) ∈ tr)).
Proof. apply scale_down_ok. Qed.
End ScaleDown.

(** ** Creating a machine *)

Section CreateTheorems.
Context `{CAPI} `{ServerConfigCodec} {scheme : Scheme}.

(** The object of a reference was looked up and, if found, asked to go. *)
Definition cleaned (tr : list event) (namespace : string) (ref : ContractRef) : Prop :=
  exists r, ev (GetExternal ref namespace) r ∈ tr
    /\ forall obj, r = inl obj -> exists d, ev (DeleteExternal obj) d ∈ tr.

Lemma cleaned_mono tr tr' ns ref : cleaned tr ns ref -> tr ⊆ tr' -> cleaned tr' ns ref.
Proof.
  intros (r & Hr & Hd) Hs. exists r. split; [by apply Hs|]. intros obj Ho.
  destruct (Hd obj Ho) as [d Hin]. exists d. by apply Hs.
Qed.

Definition is_cleanup (c : cmd) : bool :=
  match c with GetExternal _ _ | DeleteExternal _ => true | _ => false end.

Lemma cleanupFromGeneration_ok ns refs cp :
  wp (cleanupFromGeneration ns refs) cp (fun tr cp' o =>
    cp' = cp /\ o <> Panic /\ Forall (fun e => is_cleanup (ev_cmd e) = true) tr
    /\ forall ref, Some ref ∈ refs -> cleaned tr ns ref).
Proof.
  unfold cleanupFromGeneration. apply wp_bind. eapply wp_mono.
  { eapply (wp_fold_each (fun vis tr s _ => s = cp
        /\ Forall (fun e => is_cleanup (ev_cmd e) = true) tr
        /\ forall ref, Some ref ∈ vis -> cleaned tr ns ref)
      (fun _ _ _ => False) _ _ _ [] []).
    - split; [done|]. split; [constructor|]. intros ref Hr. by apply elem_of_nil in Hr.
    - intros vis ref errs tr s _ (-> & F & Hc).
      assert (Hstep : forall tr', Forall (fun e => is_cleanup (ev_cmd e) = true) tr' ->
        (forall r, ref = Some r -> cleaned tr' ns r) ->
        cp = cp /\ Forall (fun e => is_cleanup (ev_cmd e) = true) (tr ++ tr')
        /\ forall r, Some r ∈ vis ++ [ref] -> cleaned (tr ++ tr') ns r).
      { intros tr' F' Hr'. split; [done|]. split; [by apply Forall_app|].
        intros r [Hr|Hr%list_elem_of_singleton]%elem_of_app.
        - eapply cleaned_mono; [by apply Hc|]. intros x. rewrite elem_of_app. auto.
        - eapply cleaned_mono; [by apply Hr'|]. intros x. rewrite elem_of_app. auto. }
      unfold cleanup_ref. destruct ref as [r0|]; [|apply wp_ret; by apply Hstep].
      wp_go; (apply Hstep; [simpl; by repeat constructor|]); intros ref [= <-]; simpl.
      all: (eexists; split; [left|]); intros obj [= <-]; eexists; right; left. }
  intros tr s [errs|e|] HI; [|done..]. destruct HI as (-> & F & Hc).
  destruct (NewAggregate errs); [apply wp_throw|apply wp_ret]; rewrite app_nil_r; by split_and!.
Qed.

Lemma cleanup_nothing tr :
  (forall e, e ∈ tr -> is_cleanup (ev_cmd e) = true) ->
  issued is_apply_machine tr = 0 /\ issued is_delete_machine tr = 0.
Proof.
  intros F. split; apply issued_0; intros e He; specialize (F e He); by destruct (ev_cmd e).
Qed.

(** The end of an attempt that failed. *)
Lemma clone_failed_ok ns refs errs cp :
  wp (c <- try (cleanupFromGeneration ns refs) ;;
      let errs' :=
        match c with
        | inr err => errs ++ [EWrap "failed to cleanup generated resources" err]
        | inl _ => errs
        end in
      @throw _ _ unit (EAggregate errs')) cp (fun tr cp' o =>
    cp' = cp /\ (exists e, o = Err e) /\ Forall (fun e => is_cleanup (ev_cmd e) = true) tr
    /\ forall ref, Some ref ∈ refs -> cleaned tr ns ref).
Proof.
  apply wp_bind, wp_try. eapply wp_mono; [apply cleanupFromGeneration_ok|].
  intros tr cp' o (-> & Hp & F & Hc). destruct o; [| |done]; apply wp_throw;
    rewrite app_nil_r; split_and!; eauto.
Qed.

(** What an attempt to make a machine leaves behind. *)
Definition machine_created (cp : ControlPlane) (failureDomain : string) (machine : Machine)
    (tr : list event) : Prop :=
  exists name serverConfig bootstrapRef infraRef,
    json_Marshal_ServerConfig (ServerConfig (KCPConfigSpec (KCPSpec (KCP cp)))) = inl serverConfig
    /\ machine = desired_machine (KCP cp) (CPCluster cp) failureDomain name ""
         (Version (KCPSpec (KCP cp))) (new_annotations (KCP cp) serverConfig) bootstrapRef infraRef
    /\ (exists input, ev (CreateFromTemplate input) (inl infraRef) ∈ tr)
    /\ (exists config, ev (CreateKThreesConfig config) (inl tt) ∈ tr
         /\ bootstrapRef = mkContractRef bootstrapGroup "KThreesConfig" (Name (ConfigMeta config))).

Lemma createMachine_ok machine cp :
  wp (createMachine machine) cp (fun tr cp' o =>
    match o with
    | Val _ => (exists applied, tr = [ev (ApplyMachine machine) (inl applied)])
               /\ cp' = set_kcp (with_kcp_meta (with_annotations
                    (gomap_delete RemediationInProgressAnnotation (KCPAnnotations (KCP cp)))
                    (KCPMeta (KCP cp))) (KCP cp)) cp
    | Err _ => (tr = [] \/ exists r, tr = [ev (ApplyMachine machine) r]) /\ cp' = cp
    | Panic => False
    end).
Proof.
  unfold createMachine, Patch. cbn [Apply machine_appliable]. wp_go; simpl; eauto.
Qed.

Lemma clone_ok bootstrapSpec failureDomain cp :
  let ns := Namespace (KCPMeta (KCP cp)) in
  wp (cloneConfigsAndGenerateMachine bootstrapSpec failureDomain) cp (fun tr cp' o =>
    (issued is_apply_machine tr <= 1)%nat /\ issued is_delete_machine tr = 0
    /\ (forall machine r, ev (ApplyMachine machine) r ∈ tr ->
          machine_created cp failureDomain machine tr)
    /\ match o with
       | Val _ =>
           (exists machine applied, ev (ApplyMachine machine) (inl applied) ∈ tr)
           /\ cp' = set_kcp (with_kcp_meta (with_annotations
                (gomap_delete RemediationInProgressAnnotation (KCPAnnotations (KCP cp)))
                (KCPMeta (KCP cp))) (KCP cp)) cp
       | Err _ =>
           cp' = cp
           /\ (forall input ref, ev (CreateFromTemplate input) (inl ref) ∈ tr -> cleaned tr ns ref)
           /\ (forall config, ev (CreateKThreesConfig config) (inl tt) ∈ tr ->
                 cleaned tr ns (mkContractRef bootstrapGroup "KThreesConfig" (Name (ConfigMeta config))))
       | Panic => False
       end).
Proof.
  simpl. unfold cloneConfigsAndGenerateMachine, computeDesiredMachine, generateKThreesConfig.
  apply wp_bind, wp_get. cbn beta zeta.
  apply wp_bind, wp_try, wp_bind, wp_call. intros name.
  destruct (json_Marshal_ServerConfig _) as [serverConfig|err] eqn:Ej; cbn [lift_wrap].
  2: { apply wp_bind, wp_throw, wp_bind, wp_throw. split_and!; [count_events; lia|by count_events|intros m0 r0 Hin; ev_in Hin|done|..].
    - intros input ref Hin. ev_in Hin.
    - intros config Hin. ev_in Hin. }
  apply wp_bind, wp_ret, wp_ret, wp_bind, wp_ret. cbn beta.
  apply wp_bind, wp_call. intros [infraRef|err]; cbn [lift_wrap].
  2: { apply wp_bind, wp_throw. split_and!; [count_events; lia|by count_events|intros m0 r0 Hin; ev_in Hin|done|..].
    - intros input ref Hin. ev_in Hin. done.
    - intros config Hin. ev_in Hin. }
  apply wp_bind, wp_ret. cbn beta. apply wp_bind, wp_try, wp_bind, wp_call. intros name2.
  apply wp_bind, wp_call. intros [[]|err]; cbn [lift_wrap].
  - apply wp_bind, wp_ret, wp_ret. cbn beta iota. apply wp_bind, wp_bind, wp_try.
    eapply wp_mono; [apply createMachine_ok|]. intros tr3 cp3 [u|err|] Hout; [| |done]; cbn beta iota.
    + destruct Hout as [[applied ->] ->]. apply wp_ret. cbn beta iota. apply wp_ret.
      split_and!; [count_events; lia|by count_events| |eexists _, applied; simpl; do 4 right; left|done].
      intros machine r Hin. ev_in Hin.
      exists name, serverConfig. eexists _, infraRef. split; [done|]. split; [reflexivity|].
      split; [eexists; simpl; right; left|]. eexists. split; [simpl; do 3 right; left|done].
    + destruct Hout as [Htr ->]. apply wp_ret. cbn beta iota.
      eapply wp_mono; [apply clone_failed_ok|].
      intros tr cp' o (-> & [e ->] & F & Hc). rewrite Forall_forall in F.
      destruct (cleanup_nothing tr F) as [Ha Hd].
      split_and!; [destruct Htr as [->|[r ->]]; count_events; rewrite Ha; lia
                  |destruct Htr as [->|[r ->]]; count_events; rewrite Hd; lia| |done|..].
      * intros machine r Hin. destruct Htr as [->|[r1 ->]]; ev_in Hin; try by specialize (F _ Hin).
        exists name, serverConfig. eexists _, infraRef. split; [done|]. split; [reflexivity|].
        split; [eexists; simpl; right; left|]. eexists. split; [simpl; do 3 right; left|done].
      * intros input ref Hin.
        assert (E : infraRef = ref)
          by (destruct Htr as [->|[r1 ->]]; ev_in Hin;
              first [by injection Hin|by specialize (F _ Hin)]).
        subst ref. eapply cleaned_mono; [apply Hc; left|]. intros x Hx. rewrite !elem_of_app. tauto.
      * intros config Hin.
        destruct Htr as [->|[r1 ->]]; ev_in Hin; try (by specialize (F _ Hin));
          (eapply cleaned_mono; [apply Hc; right; left|]); intros x Hx; rewrite !elem_of_app; tauto.
  - apply wp_bind, wp_throw. cbn beta iota. apply wp_bind, wp_ret. cbn beta iota.
    eapply wp_mono; [apply clone_failed_ok|].
    intros tr cp' o (-> & [e ->] & F & Hc). rewrite Forall_forall in F.
    destruct (cleanup_nothing tr F) as [Ha Hd].
    split_and!; [count_events; rewrite Ha; lia|count_events; rewrite Hd; lia| |done|..].
    * intros machine r Hin. ev_in Hin. by specialize (F _ Hin).
    * intros input ref Hin. ev_in Hin; [injection Hin as <-|by specialize (F _ Hin)].
      eapply cleaned_mono; [apply Hc; left|]. intros x Hx. rewrite !elem_of_app. tauto.
    * intros config Hin. ev_in Hin; [done|by specialize (F _ Hin)].
Qed.
(** C15: making a machine is all or nothing, as far as the services allow. An
    attempt applies at most one machine and deletes none. If it succeeds, the
    machine is the desired one, refers to the infrastructure object and to the
    KThreesConfig created in the same attempt, and the only change to the
    control plane is that the annotation of a remediation in progress is gone.
    If it fails, the control plane is unchanged, so that annotation is kept,
    and whatever the attempt created, the infrastructure object and the
    KThreesConfig, was looked up again and, where found, asked to be deleted.
    It never panics. *)
Theorem cloneConfigsAndGenerateMachine_spec bootstrapSpec failureDomain cp :
  let ns := Namespace (KCPMeta (KCP cp)) in
  wp (cloneConfigsAndGenerateMachine bootstrapSpec failureDomain) cp (fun tr cp' o =>
    (issued is_apply_machine tr <= 1)%nat /\ issued is_delete_machine tr = 0
    /\ (forall machine r, ev (ApplyMachine machine) r ∈ tr ->
          machine_created cp failureDomain machine tr)
    /\ match o with
       | Val _ =>
           (exists machine applied, ev (ApplyMachine machine) (inl applied) ∈ tr)
           /\ cp' = set_kcp (with_kcp_meta (with_annotations
                (gomap_delete RemediationInProgressAnnotation (KCPAnnotations (KCP cp)))
                (KCPMeta (KCP cp))) (KCP cp)) cp
       | Err _ =>
           cp' = cp
           /\ (forall input ref, ev (CreateFromTemplate input) (inl ref) ∈ tr -> cleaned tr ns ref)
           /\ (forall config, ev (CreateKThreesConfig config) (inl tt) ∈ tr ->
                 cleaned tr ns (mkContractRef bootstrapGroup "KThreesConfig" (Name (ConfigMeta config))))
       | Panic => False
       end).
Proof. apply clone_ok. Qed.
End CreateTheorems.

(** ** Scaling up *)

Section ScaleUp.
Context `{CAPI} `{Crypto} `{MapOrder} `{ServerConfigCodec} {scheme : Scheme}.

Lemma new_annotations_remediation kcp sc :
  gomap_get (Some (new_annotations kcp sc)) RemediationForAnnotation
  = gomap_get (KCPAnnotations kcp) RemediationInProgressAnnotation.
Proof.
  unfold new_annotations. destruct (gomap_get _ RemediationInProgressAnnotation); simpl;
    [by rewrite lookup_insert_eq|by rewrite lookup_singleton_ne].
Qed.

Lemma desired_annotation kcp cluster fd n u v a b i k :
  gomap_get (TemplateAnnotations (MachineTemplate (KCPSpec kcp))) k = None ->
  gomap_get (MAnnotations (desired_machine kcp cluster fd n u v a b i)) k = a !! k.
Proof.
  intros Hk. simpl. destruct (TemplateAnnotations _) as [t|]; simpl in *;
    [by apply lookup_union_r|by rewrite (left_id_L ∅ _)].
Qed.

(** The machine that an attempt makes, in the failure domain that is due. *)
Definition made_for (cp : ControlPlane) (m : Machine) : Prop :=
  exists name serverConfig bootstrapRef infraRef,
    m = desired_machine (KCP cp) (CPCluster cp) (NextFailureDomainForScaleUp cp) name ""
          (Version (KCPSpec (KCP cp))) (new_annotations (KCP cp) serverConfig) bootstrapRef infraRef.

Lemma made_for_annotation cp m k :
  made_for cp m -> k <> RemediationForAnnotation -> k <> KThreesServerConfigurationAnnotation ->
  gomap_get (MAnnotations m) k = gomap_get (TemplateAnnotations (MachineTemplate (KCPSpec (KCP cp)))) k.
Proof.
  intros (n & sc & br & ir & ->) H1' H2'.
  assert (HN : new_annotations (KCP cp) sc !! k = None).
  { unfold new_annotations. destruct (gomap_get _ _); by rewrite ?lookup_insert_ne, lookup_singleton_ne. }
  simpl. destruct (TemplateAnnotations _) as [t|]; simpl.
  - destruct (t !! k) eqn:E; [by apply lookup_union_Some_l|]. by apply lookup_union_None.
  - by rewrite (left_id_L ∅ _).
Qed.

Lemma scale_up_ok cp :
  wp scaleUpControlPlane cp (fun tr cp' o =>
    (issued is_apply_machine tr <= 1)%nat /\ issued is_delete_machine tr = 0
    /\ (forall m r, ev (ApplyMachine m) r ∈ tr ->
         (CPMachines cp = ∅ \/ stable cp [])
         /\ made_for cp m)
    /\ (o = Val requeue ->
         issued is_apply_machine tr = 1 /\ (exists m a, ev (ApplyMachine m) (inl a) ∈ tr)
         /\ gomap_get (KCPAnnotations (KCP cp')) RemediationInProgressAnnotation = None)
    /\ (forall res, o = Val res -> res <> requeue ->
         (0 < RequeueAfter res)%Z /\ CPMachines cp <> ∅ /\ ~ stable cp [])
    /\ o <> Panic).
Proof.
  unfold scaleUpControlPlane. apply wp_bind. eapply wp_mono; [apply preflightChecks_ok|].
  intros tr1 cp1 o1 (-> & Q1 & result & -> & Hres & Hreq). cbn beta iota.
  destruct (no_deletion_nothing tr1 (mgmt_quiet_no_deletion _ Q1)) as [D1 A1].
  assert (N1 : forall m r, ev (ApplyMachine m) r ∈ tr1 -> False)
    by (rewrite issued_0 in A1; intros m r Hin; by specialize (A1 _ Hin)).
  destruct (Result_IsZero result) eqn:Er; simpl negb; cbn match.
  2: { apply wp_ret. rewrite app_nil_r, A1, D1. split_and!; [lia|done| | | |done].
    - intros m r Hin. by destruct (N1 m r Hin).
    - intros [= ->]. by specialize (Hreq eq_refl).
    - intros res [= <-] _. split; [by apply Hreq|].
      split; intros HN; destruct Hres as [_ Hres]; discriminate Hres; auto. }
  assert (Hst : CPMachines cp = ∅ \/ stable cp []) by (by apply Hres).
  apply wp_bind, wp_get. cbn beta. apply wp_bind, wp_try. eapply wp_mono; [apply clone_ok|].
  intros tr2 cp2 o2 (A2 & D2 & Hm & Ho).
  assert (Hall : forall tr3, (forall m r, ev (ApplyMachine m) r ∈ tr3 -> False) ->
    forall m r, ev (ApplyMachine m) r ∈ tr1 ++ [] ++ tr2 ++ tr3 ->
         (CPMachines cp = ∅ \/ stable cp [])
         /\ made_for cp m).
  { intros tr3 N3 m r Hin. rewrite !elem_of_app in Hin.
    destruct Hin as [Hin|[Hin|[Hin|Hin]]];
      [by destruct (N1 m r Hin)|by apply elem_of_nil in Hin| |by destruct (N3 m r Hin)].
    destruct (Hm m r Hin) as (name & sc & br & ir & _ & -> & _).
    split; [done|by eexists _, _, _, _]. }
  destruct o2 as [u|err|]; [| |done]; cbn beta iota.
  - destruct Ho as [(machine & applied & Hin) ->]. apply wp_ret.
    assert (A2' : issued is_apply_machine tr2 = 1).
    { assert (issued is_apply_machine tr2 <> 0) by (rewrite issued_0; intros HN; by specialize (HN _ Hin)).
      lia. }
    split_and!; [rewrite !issued_app, A1, A2'; done|rewrite !issued_app, D1, D2; done| | |congruence|done].
    + apply Hall. intros m r Hi. by apply elem_of_nil in Hi.
    + intros _. split_and!; [by rewrite !issued_app, A1, A2'| |apply gomap_get_delete_eq].
      exists machine, applied. rewrite !elem_of_app. tauto.
  - apply wp_bind, wp_call. intros r. apply wp_throw.
    split_and!; [count_events; rewrite A1; lia|count_events; rewrite D1, D2; done| |done|done|done].
    rewrite app_nil_r. apply Hall. intros m r' Hi. ev_in Hi.
Qed.

End ScaleUp.

(** ** The first machine, and machines that exist *)

Section Others.
Context `{CAPI} `{Crypto} `{MapOrder} `{ServerConfigCodec} {scheme : Scheme}.

Lemma initialize_ok cp :
  wp initializeControlPlane cp (fun tr _ o =>
    (issued is_apply_machine tr <= 1)%nat /\ issued is_delete_machine tr = 0
    /\ (forall m r, ev (ApplyMachine m) r ∈ tr ->
         made_for cp m
         /\ exists ml, ev (ListMachines true (ClusterKey (CPCluster cp))) (inl ml) ∈ tr
              /\ forall k x, FromMachineList ml !! k = Some x -> OwnedMachines (KCP cp) x = false)
    /\ (forall res, o = Val res -> res = requeue /\ exists m a, ev (ApplyMachine m) (inl a) ∈ tr)
    /\ o <> Panic).
Proof.
  unfold initializeControlPlane, GetMachinesForCluster. apply wp_bind, wp_get. cbn beta.
  apply wp_bind, wp_bind, wp_call. intros [ml|err]; cbn [lift_wrap].
  2: { apply wp_bind, wp_throw. split_and!; [count_events; lia|by count_events| |done|done].
    intros m r Hin. ev_in Hin. }
  apply wp_bind, wp_ret, wp_ret. cbn beta.
  destruct (0 <? _)%nat eqn:E.
  { apply wp_throw. split_and!; [count_events; lia|by count_events| |done|done].
    intros m r Hin. ev_in Hin. }
  rewrite Filter_size_0 in E.
  assert (Hml : forall k x, FromMachineList ml !! k = Some x -> OwnedMachines (KCP cp) x = false).
  { intros k x Hk. specialize (E k x Hk). simpl in E. by rewrite andb_true_r in E. }
  apply wp_bind, wp_try. eapply wp_mono; [apply clone_ok|].
  intros tr2 cp2 o2 (A2 & D2 & Hm & Ho).
  assert (Hall : forall tr1 tr3, ev (ListMachines true (ClusterKey (CPCluster cp))) (inl ml) ∈ tr1 ->
    (forall m r, ev (ApplyMachine m) r ∈ tr1 -> False) -> (forall m r, ev (ApplyMachine m) r ∈ tr3 -> False) ->
    forall m r, ev (ApplyMachine m) r ∈ tr1 ++ tr2 ++ tr3 ->
         made_for cp m
         /\ exists ml, ev (ListMachines true (ClusterKey (CPCluster cp))) (inl ml) ∈ tr1 ++ tr2 ++ tr3
              /\ forall k x, FromMachineList ml !! k = Some x -> OwnedMachines (KCP cp) x = false).
  { intros tr1 tr3 H1' N1 N3 m r Hin. rewrite !elem_of_app in Hin.
    destruct Hin as [Hin|[Hin|Hin]]; [by destruct (N1 m r Hin)| |by destruct (N3 m r Hin)].
    destruct (Hm m r Hin) as (name & sc & br & ir & _ & -> & _). split; [by eexists _, _, _, _|].
    exists ml. split; [|done]. apply elem_of_app. by left. }
  destruct o2 as [u|err|]; [| |done]; cbn beta iota.
  - apply wp_ret. destruct Ho as [(machine & applied & Hin) _].
    split_and!; [count_events; lia|count_events; lia| | |done].
    + apply (Hall [_] []); [left|..]; intros m r Hi; ev_in Hi.
    + intros res [= <-]. split; [done|]. exists machine, applied. apply elem_of_cons. right.
      rewrite !elem_of_app. tauto.
  - apply wp_bind, wp_call. intros r. apply wp_throw.
    split_and!; [count_events; lia|count_events; lia| |done|done].
    apply (Hall [_] [_]); [left|..];
      intros m r' Hi; ev_in Hi.
Qed.

(** A cluster is initialized at most once. The first machine is applied only
    after an uncached list of the cluster's machines, in the same execution,
    held no machine of this control plane; at most one is applied, and it gets
    the control plane's version. *)
Theorem initialize_once cp :
  wp initializeControlPlane cp (fun tr _ o =>
    (issued is_apply_machine tr <= 1)%nat /\ issued is_delete_machine tr = 0
    /\ (forall m r, ev (ApplyMachine m) r ∈ tr ->
         MachineVersion m = Version (KCPSpec (KCP cp))
         /\ OwnerReferences (MachineMeta m) = [controller_ref (KCP cp)]
         /\ exists ml, ev (ListMachines true (ClusterKey (CPCluster cp))) (inl ml) ∈ tr
              /\ forall k x, FromMachineList ml !! k = Some x -> OwnedMachines (KCP cp) x = false)
    /\ (forall res, o = Val res -> res = requeue /\ exists m a, ev (ApplyMachine m) (inl a) ∈ tr)
    /\ o <> Panic).
Proof.
  eapply wp_mono; [apply initialize_ok|]. intros tr _ o (HA & HD & HM & HO). split_and!; [done..| |tauto|tauto].
  intros m r Hin. destruct (HM m r Hin) as [(n & sc & br & ir & ->) Hl]. done.
Qed.

(** An update of a machine never replaces it. What is applied for a machine
    that exists keeps its name, identity, version, failure domain, bootstrap
    and infrastructure references, whatever the specification says now; it
    takes labels, timeouts and annotations from the specification, with the
    control plane as its controller, and keeps the annotations that record its
    remediation and its server configuration, neither adding nor dropping them,
    unless the template sets them. It calls no service. *)
Theorem update_keeps_identity {S} kcp cluster (m : Machine) (s : S) :
  wp (computeDesiredMachine kcp cluster (FailureDomain m) (Some m)) s (fun tr s' o =>
    tr = [] /\ s' = s /\ exists m', o = Val m'
      /\ MName m' = MName m /\ UID (MachineMeta m') = UID (MachineMeta m)
      /\ MachineVersion m' = MachineVersion m /\ FailureDomain m' = FailureDomain m
      /\ BootstrapConfigRef m' = BootstrapConfigRef m /\ InfrastructureRef m' = InfrastructureRef m
      /\ OwnerReferences (MachineMeta m') = [controller_ref kcp]
      /\ Labels (MachineMeta m')
         = ControlPlaneLabelsForCluster (Name (ClusterMeta cluster)) (MachineTemplate (KCPSpec kcp))
      /\ forall k, gomap_get (TemplateAnnotations (MachineTemplate (KCPSpec kcp))) k = None ->
           gomap_get (MAnnotations m') k
           = if bool_decide (k = RemediationForAnnotation \/ k = KThreesServerConfigurationAnnotation)
             then gomap_get (MAnnotations m) k else None).
Proof.
  unfold computeDesiredMachine. apply wp_ret. split; [done|]. split; [done|].
  eexists. split; [reflexivity|]. split_and!; try done.
  intros k Hk. rewrite desired_annotation by done. unfold kept_annotations, copy_annotation.
  assert (Hne : RemediationForAnnotation <> KThreesServerConfigurationAnnotation) by done.
  case_bool_decide as Hd.
  - destruct Hd as [->| ->].
    + destruct (gomap_get (MAnnotations m) RemediationForAnnotation);
        destruct (gomap_get (MAnnotations m) KThreesServerConfigurationAnnotation);
        by simplify_map_eq.
    + destruct (gomap_get (MAnnotations m) RemediationForAnnotation);
        destruct (gomap_get (MAnnotations m) KThreesServerConfigurationAnnotation);
        by simplify_map_eq.
  - assert (k <> RemediationForAnnotation) by tauto. assert (k <> KThreesServerConfigurationAnnotation) by tauto.
    destruct (gomap_get (MAnnotations m) RemediationForAnnotation);
      destruct (gomap_get (MAnnotations m) KThreesServerConfigurationAnnotation);
      by rewrite ?lookup_insert_ne, ?lookup_empty.
Qed.
End Others.

Section Examples.
#[local] Existing Instance reference.capi.
#[local] Existing Instance reference.crypto.
#[local] Instance a_codec : ServerConfigCodec := { json_Marshal_ServerConfig := fun _ => inl "{}" }.

(** Two healthy machines of a control plane without managed etcd. *)
Definition healthy_machine (n : string) : Machine :=
  with_conditions [mkCondition MachineAgentHealthyCondition ConditionTrue "" ""] (named_machine n).

Definition two_machines : ControlPlane :=
  mkControlPlane (a_kcp 1 None None true) a_cluster
    {[ "a" := healthy_machine "a"; "b" := healthy_machine "b" ]} None false 0 ∅ ∅.

Lemma two_machines_named : named (CPMachines two_machines).
Proof.
  intros k m Hk. cbn [two_machines CPMachines] in Hk.
  apply lookup_insert_Some in Hk as [[<- <-]|[_ Hk]]; [done|].
  by apply lookup_singleton_Some in Hk as [<- <-].
Qed.

Example scale_down_safe_witness :
  named (CPMachines two_machines) /\ (∅ : Machines) ⊆ CPMachines two_machines
  /\ exists tr cp' m', runs (scaleDownControlPlane 0 ∅) two_machines tr cp' (Val requeue)
       /\ ev (DeleteMachine m') (inl tt) ∈ tr
       /\ (issued is_delete_machine tr <= 1)%nat.
Proof.
  split; [exact two_machines_named|]. split; [apply map_empty_subseteq|].
  eexists _, _, _. split; [apply (runs_of_run default_handler); vm_compute; reflexivity|].
  split; [left|].
  pose proof (scale_down_safe 0 ∅ two_machines two_machines_named (map_empty_subseteq _)) as Hs.
  rewrite wp_runs in Hs. eapply Hs. apply (runs_of_run default_handler). vm_compute. reflexivity.
Defined.
End Examples.
