(* ===== verification/KcpController.v ===== *)
(** The controller of KThreesControlPlane objects
    (controlplane/controllers/kthreescontrolplane_controller.go): one
    reconciliation, from the fetched object to its patched status. *)

From stdpp Require Import pretty.
From S2P Require Import Prelude GoStd Effects ApiTypes Api Ssa ContractVersion Capi K3sConfig Certificates Kubeconfig Token CapiLib ControlPlane Etcd Workload Conditions Remediation Scale.

(** ** Working on the object *)

(** The control plane holds a pointer to the object: what is written through
    the one is seen through the other. *)
Definition on_control_plane {A} (c : ControlPlane) (m : M ControlPlane A) : M KThreesControlPlane A :=
  zoom (fun kcp => set_kcp kcp c) (fun c' _ => KCP c') m.

Definition on_workload {A} (w : Workload) (m : M (Workload * ControlPlane) A) : M ControlPlane A :=
  zoom (fun c => (w, c)) (fun s _ => s.2) m.

Definition kcp_mark (f : list V1Condition -> list V1Condition) (k : KThreesControlPlane)
    : KThreesControlPlane :=
  with_kcp_conditions (f (KCPConditions (KCPStatus k))) k.

Definition mark (f : list V1Condition -> list V1Condition) : M KThreesControlPlane unit :=
  modify (kcp_mark f).

Definition cp_mark (f : list V1Condition -> list V1Condition) : M ControlPlane unit :=
  modify (mark_kcp f).

Definition kcpManagerName : string := "capi-kthreescontrolplane".

Definition kcp_as_owner (k : KThreesControlPlane) : Owner :=
  mkOwner (Name (KCPMeta k)) (Namespace (KCPMeta k)) (UID (KCPMeta k)) ControlPlaneGroupVersion
    "KThreesControlPlane".

Definition CertificatesGenerationFailedReason : string := "CertificatesGenerationFailed".
Definition TokenGenerationFailedReason : string := "TokenGenerationFailed".
Definition ScalingUpReason : string := "ScalingUp".
Definition ScalingDownReason : string := "ScalingDown".
Definition RollingUpdateInProgressReason : string := "RollingUpdateInProgress".
Definition WaitingForKthreesServerReason : string := "WaitingForKthreesServer".

(** The setters of the status fields. *)
Definition map_status (f : KThreesControlPlaneStatus -> KThreesControlPlaneStatus)
    (k : KThreesControlPlane) : KThreesControlPlane := with_kcp_status (f (KCPStatus k)) k.

Definition set_selector (v : string) := map_status (fun s =>
  mkKCPStatus v (StatusReplicas s) (StatusVersion s) (UpdatedReplicas s) (ReadyReplicas s)
    (UnavailableReplicas s) (Initialized s) (Ready s) (FailureReason s) (FailureMessage s)
    (ObservedGeneration s) (KCPConditions s) (LastRemediation s)).
Definition set_replicas (replicas updated ready unavailable : Z) := map_status (fun s =>
  mkKCPStatus (Selector s) replicas (StatusVersion s) updated ready unavailable (Initialized s)
    (Ready s) (FailureReason s) (FailureMessage s) (ObservedGeneration s) (KCPConditions s)
    (LastRemediation s)).
Definition set_version (v : option string) := map_status (fun s =>
  mkKCPStatus (Selector s) (StatusReplicas s) v (UpdatedReplicas s) (ReadyReplicas s)
    (UnavailableReplicas s) (Initialized s) (Ready s) (FailureReason s) (FailureMessage s)
    (ObservedGeneration s) (KCPConditions s) (LastRemediation s)).
Definition set_flags (initialized ready : bool) := map_status (fun s =>
  mkKCPStatus (Selector s) (StatusReplicas s) (StatusVersion s) (UpdatedReplicas s) (ReadyReplicas s)
    (UnavailableReplicas s) initialized ready (FailureReason s) (FailureMessage s)
    (ObservedGeneration s) (KCPConditions s) (LastRemediation s)).
Definition set_last_remediation (r : LastRemediationStatus) := map_status (fun s =>
  mkKCPStatus (Selector s) (StatusReplicas s) (StatusVersion s) (UpdatedReplicas s) (ReadyReplicas s)
    (UnavailableReplicas s) (Initialized s) (Ready s) (FailureReason s) (FailureMessage s)
    (ObservedGeneration s) (KCPConditions s) (Some r)).

Definition set_infra (i : gmap string Unstructured) (c : ControlPlane) : ControlPlane :=
  mkControlPlane (KCP c) (CPCluster c) (CPMachines c) (machinesPatchHelpers c) (hasEtcdCA c)
    (reconciliationTime c) (KthreesConfigs c) i.
Definition set_configs (i : gmap string KThreesConfig) (c : ControlPlane) : ControlPlane :=
  mkControlPlane (KCP c) (CPCluster c) (CPMachines c) (machinesPatchHelpers c) (hasEtcdCA c)
    (reconciliationTime c) i (InfraResources c).

Section Controller.
Context `{CAPI} `{!ControllerLib} `{Crypto} `{MapOrder} `{RemediationCodec} `{ServerConfigCodec}
  `{Scheme} `{Texts} `{ClientCmd} `{KubeVersions}.
Context (etcdCallTimeout : Z).

(** ** Kubeconfig and external references *)

Definition reconcileExternalReference {S} (cluster : Cluster) (ref : ObjectReference) : M S unit :=
  if negb (HasSuffix (RefKind ref) "Template") then ret tt
  else
    o <- call (GetReferenced ref) ;;
    obj <- lift_res o ;;
    h <- call (NewExternalPatchHelper obj) ;;
    lift_res h ;;;
    let owner := cluster_owner cluster in
    let obj' := mkUnstructured (UAPIVersion obj) (UKind obj)
      (with_owner_references (EnsureOwnerRef (OwnerReferences (UMeta obj)) owner) (UMeta obj)) in
    p <- call (PatchExternal obj obj') ;;
    lift_res p.

Definition reconcileKubeconfig {S} (clusterName : ObjectKey) (host : string) (port : Z)
    (kcp : KThreesControlPlane) : M S Result :=
  if Endpoint_IsZero host port then ret emptyResult
  else
    let controllerOwnerRef := controller_ref kcp in
    r <- GetFromNamespacedName clusterName Kubeconfig ;;
    match r with
    | inr err =>
        if IsNotFound err then
          c <- try (CreateSecretWithOwner clusterName (Endpoint_String host port) controllerOwnerRef) ;;
          match c with
          | inr createErr =>
              if errors_Is createErr "could not find secret ca"
              then ret (requeueAfter dependentCertRequeueAfter)
              else throw createErr
          | inl _ => ret emptyResult
          end
        else throw (EWrap "failed to retrieve kubeconfig Secret" err)
    | inl configSecret =>
        if negb (util_IsControlledBy (SecretMeta configSecret) (KCPMeta kcp)) then ret emptyResult
        else
          needsRotation <- NeedsClientCertRotation configSecret ClientCertificateRenewalDuration ;;
          if (needsRotation : bool) then
            g <- try (RegenerateSecret configSecret) ;;
            lift_wrap "failed to regenerate kubeconfig" g ;;;
            ret emptyResult
          else ret emptyResult
    end.

(** ** In-place updates of machines *)

Definition updateMachine {S} (machine : Machine) (kcp : KThreesControlPlane) (cluster : Cluster)
    : M S Machine :=
  d <- try (computeDesiredMachine kcp cluster (FailureDomain machine) (Some machine)) ;;
  updatedMachine <- lift_wrap "failed to update Machine: failed to compute desired Machine" d ;;
  p <- try (PatchCached machine_convert updatedMachine machine) ;;
  lift_wrap "failed to update Machine" p.

(** The object that is applied: only metadata, with the UID so that it cannot
    create. *)
Definition updated_object (om : ObjectMeta) (gvk : GroupVersionKind) (kcp : KThreesControlPlane)
    (cluster : Cluster) : Unstructured :=
  mkUnstructured (GVKAPIVersion gvk) (GVKKind gvk)
    (mkObjectMeta (Name om) (Namespace om) (UID om) ""
       (ControlPlaneLabelsForCluster (Name (ClusterMeta cluster)) (MachineTemplate (KCPSpec kcp)))
       (TemplateAnnotations (MachineTemplate (KCPSpec kcp))) [] [] 0 None []).

Definition updateExternalObject {O S} `{ClientObject O} (Convert : O -> Unstructured + error)
    (obj : O) (objGVK : GroupVersionKind) (kcp : KThreesControlPlane) (cluster : Cluster) : M S unit :=
  p <- try (PatchCached Convert (updated_object (object_meta obj) objGVK kcp cluster) obj) ;;
  lift_wrap "failed to update" p ;;;
  ret tt.

Definition labelsAndAnnotationsManagedFieldPaths : list Path :=
  [["f:metadata"; "f:annotations"]; ["f:metadata"; "f:labels"]].

(** The bodies of the two conditional blocks of [syncMachines]: what the API
    server answered replaces the object. *)
Definition sync_infra (machineName : string) : M ControlPlane unit :=
  c <- get ;;
  match InfraResources c !! machineName with
  | None => ret tt
  | Some infraMachine =>
      d <- try (DropManagedFields infraMachine kcpManagerName labelsAndAnnotationsManagedFieldPaths) ;;
      infraMachine' <- lift_wrap "failed to clean up managedFields of InfrastructureMachine" d ;;
      modify (fun c => set_infra (<[ machineName := infraMachine' ]> (InfraResources c)) c) ;;;
      u <- try (updateExternalObject external_convert infraMachine'
             (mkGVK (UAPIVersion infraMachine') (UKind infraMachine')) (KCP c) (CPCluster c)) ;;
      lift_wrap "failed to update InfrastructureMachine" u
  end.

Definition sync_config (machineName : string) (m : Machine) : M ControlPlane unit :=
  c <- get ;;
  match KthreesConfigs c !! machineName with
  | None => ret tt
  | Some kthreesConfigs =>
      v <- try (GetAPIVersion (RefAPIGroup (BootstrapConfigRef m)) (ContractKind (BootstrapConfigRef m))) ;;
      version <- lift_wrap "failed to get api version for bootstrap config" v ;;
      groupVersion <- lift_wrap "failed to parse api version for bootstrap config"
        (ParseGroupVersion version) ;;
      let gvk := mkGVK groupVersion (ContractKind (BootstrapConfigRef m)) in
      d <- try (DropManagedFields kthreesConfigs kcpManagerName labelsAndAnnotationsManagedFieldPaths) ;;
      kthreesConfigs' <- lift_wrap "failed to clean up managedFields of kthreesConfigs" d ;;
      modify (fun c => set_configs (<[ machineName := kthreesConfigs' ]> (KthreesConfigs c)) c) ;;;
      u <- try (updateExternalObject config_to_external kthreesConfigs' gvk (KCP c) (CPCluster c)) ;;
      lift_wrap "failed to update KThreesConfigs" u
  end.

(** One round of the loop of [syncMachines], which collects the patch helpers
    made. *)
Definition sync_machine (patchHelpers : gmap string Machine) (machineName : string)
    : M ControlPlane (gmap string Machine) :=
  c <- get ;;
  match CPMachines c !! machineName with
  | None => panic
  | Some m =>
      if negb (TimePtr_IsZero (MDeletionTimestamp m)) then ret patchHelpers
      else
        a <- try (CleanUpManagedFieldsForSSAAdoption m kcpManagerName) ;;
        m' <- lift_wrap "failed to update Machine: failed to adjust the managedFields of the Machine" a ;;
        modify (fun c => set_machines (<[ machineName := m' ]> (CPMachines c)) c) ;;;
        u <- try (updateMachine m' (KCP c) (CPCluster c)) ;;
        updatedMachine <- lift_wrap "failed to update Machine" u ;;
        modify (fun c => set_machines (<[ machineName := updatedMachine ]> (CPMachines c)) c) ;;;
        h <- call (NewPatchHelper updatedMachine) ;;
        lift_res h ;;;
        sync_infra machineName ;;;
        sync_config machineName m' ;;;
        ret (<[ machineName := updatedMachine ]> patchHelpers)
  end.

Definition syncMachines : M ControlPlane unit :=
  c <- get ;;
  patchHelpers <- fold_each ((range_order (CPMachines c)).*1) ∅ sync_machine ;;
  modify (SetPatchHelpers patchHelpers).

(** ** Conditions and etcd members *)

Definition reconcileControlPlaneConditions : M ControlPlane unit :=
  c <- get ;;
  if negb (Initialized (KCPStatus (KCP c))) then ret tt
  else
    w <- try (GetWorkloadCluster etcdCallTimeout (ClusterKey (CPCluster c))) ;;
    workloadCluster <- lift_wrap "cannot get remote client to workload cluster" w ;;
    on_workload workloadCluster (UpdateAgentConditions ;;; UpdateEtcdConditions) ;;;
    c' <- get ;;
    PatchMachines c'.

(** The loop that collects the node names gives up at the first machine without
    a node. *)
Definition node_names (ms : Machines) : option (list string) :=
  if existsb (fun machine => negb (NodeRef_IsDefined machine)) (range_values ms) then None
  else Some (NodeRefName <$> range_values ms).

Definition reconcileEtcdMembers : M ControlPlane unit :=
  c <- get ;;
  if negb (IsEtcdManaged c) then ret tt
  else if (size (CPMachines c) =? 0)%nat then ret tt
  else
    match node_names (CPMachines c) with
    | None => ret tt
    | Some nodeNames =>
        if v1_IsTrue (KCPConditions (KCPStatus (KCP c))) EtcdClusterHealthyCondition then ret tt
        else
          w <- try (GetWorkloadCluster etcdCallTimeout (ClusterKey (CPCluster c))) ;;
          workloadCluster <- lift_wrap "cannot get remote client to workload cluster" w ;;
          r <- try (with_workload workloadCluster (ReconcileEtcdMembers nodeNames)) ;;
          lift_wrap "failed attempt to reconcile etcd members" r ;;;
          ret tt
    end.

(** ** The reconciliation of a control plane that is not being deleted *)

(** Without replicas in its specification the object is dereferenced. *)
Definition upgradeControlPlane (machinesRequireUpgrade : Machines) : M ControlPlane Result :=
  c <- get ;;
  match Replicas (KCPSpec (KCP c)) with
  | None => panic
  | Some replicas =>
      if (Z.of_nat (size (CPMachines c)) <=? replicas)%Z then scaleUpControlPlane
      else scaleDownControlPlane etcdCallTimeout machinesRequireUpgrade
  end.

Definition aggregate_machines : M ControlPlane unit :=
  modify (fun c => mark_kcp (SetAggregate MachinesReadyCondition
    (if machine_is_v1_getter then range_values (CPMachines c) else [])) c).

(** The number of machines brought to the number of replicas. *)
Definition scale_to_replicas : M ControlPlane Result :=
  c <- get ;;
  let numMachines := Z.of_nat (size (CPMachines c)) in
  match Replicas (KCPSpec (KCP c)) with
  | None => panic
  | Some desiredReplicas =>
      if ((numMachines <? desiredReplicas) && (numMachines =? 0))%Z then
        cp_mark (MarkFalse AvailableCondition WaitingForKthreesServerReason ConditionSeverityInfo "") ;;;
        initializeControlPlane
      else if ((numMachines <? desiredReplicas) && (0 <? numMachines))%Z then scaleUpControlPlane
      else if (desiredReplicas <? numMachines)%Z then scaleDownControlPlane etcdCallTimeout ∅
      else ret emptyResult
  end.

Definition rollout_or_scale : M ControlPlane Result :=
  c <- get ;;
  let needRollout := MachinesNeedingRollout c in
  if (0 <? size needRollout)%nat then
    cp_mark (MarkFalse MachinesSpecUpToDateCondition RollingUpdateInProgressReason
      ConditionSeverityWarning
      ("Rolling " +++ pretty (size needRollout) +++ " replicas with outdated spec ("
       +++ pretty (Z.of_nat (size (CPMachines c)) - Z.of_nat (size needRollout))%Z
       +++ " replicas up to date)")) ;;;
    upgradeControlPlane needRollout
  else
    (if v1_Has (KCPConditions (KCPStatus (KCP c))) MachinesSpecUpToDateCondition
     then cp_mark (MarkTrue MachinesSpecUpToDateCondition) else ret tt) ;;;
    scale_to_replicas.

(** The steps on the control plane that was built. *)
Definition reconcile_control_plane : M ControlPlane Result :=
  s <- try syncMachines ;;
  lift_wrap "failed to sync Machines" s ;;;
  c <- get ;;
  (if machine_is_v1_getter && (0 <? size (CPMachines c))%nat then aggregate_machines else ret tt) ;;;
  reconcileControlPlaneConditions ;;;
  reconcileEtcdMembers ;;;
  result <- reconcileUnhealthyMachines etcdCallTimeout ;;
  if negb (Result_IsZero result) then ret result else rollout_or_scale.

(** Only the error of [reconcileKubeconfig] is looked at: its result, which may
    ask for a requeue, is dropped. *)
Definition reconcile (cluster : Cluster) : M KThreesControlPlane Result :=
  kcp <- get ;;
  reconcileExternalReference cluster (TemplateInfrastructureRef (MachineTemplate (KCPSpec kcp))) ;;;
  certs <- try (with_local (NewCertificatesForInitialControlPlane (KCPConfigSpec (KCPSpec kcp)))
                  (LookupOrGenerate (ClusterKey cluster) (controller_ref kcp))) ;;
  match certs with
  | inr err =>
      mark (MarkFalse CertificatesAvailableCondition CertificatesGenerationFailedReason
        ConditionSeverityWarning ("failed to lookup or create cluster certificates: " +++ Error err)) ;;;
      throw err
  | inl _ =>
      mark (MarkTrue CertificatesAvailableCondition) ;;;
      t <- try (Token.Reconcile metav1_IsControlledBy SetControllerReference (ClusterKey cluster)
                  (kcp_as_owner kcp)) ;;
      match t with
      | inr err =>
          mark (MarkFalse TokenAvailableCondition TokenGenerationFailedReason
            ConditionSeverityWarning ("failed to reconcile token: " +++ Error err)) ;;;
          throw err
      | inl _ =>
          mark (MarkTrue TokenAvailableCondition) ;;;
          if negb (Endpoint_IsValid (ControlPlaneEndpointHost cluster) (ControlPlaneEndpointPort cluster))
          then ret emptyResult
          else
            reconcileKubeconfig (ClusterKey cluster) (ControlPlaneEndpointHost cluster)
              (ControlPlaneEndpointPort cluster) kcp ;;;
            controlPlaneMachines <- GetMachinesForCluster true (ClusterKey cluster)
              [ControlPlaneMachines (Name (ClusterMeta cluster))] ;;
            let adoptableMachines :=
              Filter (AdoptableControlPlaneMachines (Name (ClusterMeta cluster))) controlPlaneMachines in
            if (0 <? size adoptableMachines)%nat then ret emptyResult
            else
              kcp' <- get ;;
              let ownedMachines := Filter (OwnedMachines kcp') controlPlaneMachines in
              if negb (size ownedMachines =? size controlPlaneMachines)%nat then ret emptyResult
              else
                controlPlane <- NewControlPlane cluster kcp' ownedMachines ;;
                on_control_plane controlPlane reconcile_control_plane
      end
  end.

(** ** Deletion *)

(** The loop that deletes the machines collects the errors. *)
Definition delete_machine (errs : list error) (m : Machine) : M ControlPlane (list error) :=
  d <- call (DeleteMachine m) ;;
  match d with
  | inr err => if IsNotFound err then ret errs else ret (errs ++ [err])
  | inl _ => ret errs
  end.

(** The steps on the control plane that was built, with the number of machines
    of the whole cluster. *)
Definition delete_control_plane (allMachines : nat) : M ControlPlane Result :=
  try reconcileControlPlaneConditions ;;;
  aggregate_machines ;;;
  c <- get ;;
  if negb (allMachines =? size (CPMachines c))%nat then
    cp_mark (MarkFalse ResizedCondition DeletingReason ConditionSeverityInfo
      "Waiting for worker nodes to be deleted first") ;;;
    ret (requeueAfter deleteRequeueAfter)
  else
    errs <- fold_each (range_values (Filter (fun m => negb (HasDeletionTimestamp m)) (CPMachines c)))
      [] delete_machine ;;
    match NewAggregate errs with
    | Some err => call (Eventf "Warning" "FailedDelete") ;;; throw err
    | None =>
        cp_mark (MarkFalse ResizedCondition DeletingReason ConditionSeverityInfo "") ;;;
        ret (requeueAfter deleteRequeueAfter)
    end.

Definition reconcileDelete (cluster : Cluster) : M KThreesControlPlane Result :=
  kcp <- get ;;
  allMachines <- GetMachinesForCluster false (ClusterKey cluster) [] ;;
  let ownedMachines := Filter (OwnedMachines kcp) allMachines in
  if (size ownedMachines =? 0)%nat then
    modify (fun k => with_kcp_meta (with_finalizers
      (RemoveFinalizer KThreesControlPlaneFinalizer (Finalizers (KCPMeta k))) (KCPMeta k)) k) ;;;
    ret emptyResult
  else
    controlPlane <- NewControlPlane cluster kcp ownedMachines ;;
    on_control_plane controlPlane (delete_control_plane (size allMachines)).

(** ** Status *)

(** The most recent of the remediations that the machines were made for. *)
Definition latest_remediation (lastRemediation : option RemediationData) (m : Machine)
    : M KThreesControlPlane (option RemediationData) :=
  match gomap_get (MAnnotations m) RemediationForAnnotation with
  | None => ret lastRemediation
  | Some v =>
      remediationData <- lift_res (RemediationDataFromAnnotation v) ;;
      match lastRemediation with
      | None => ret (Some remediationData)
      | Some last =>
          if (RDTimestamp last <? RDTimestamp remediationData)%Z then ret (Some remediationData)
          else ret lastRemediation
      end
  end.

Definition surface_remediation (machines : Machines) : M KThreesControlPlane unit :=
  kcp <- get ;;
  lastRemediation <-
    (match gomap_get (KCPAnnotations kcp) RemediationInProgressAnnotation with
     | Some v => r <- lift_res (RemediationDataFromAnnotation v) ;; ret (Some r)
     | None => fold_each (range_values machines) None latest_remediation
     end) ;;
  match lastRemediation with
  | Some r => modify (set_last_remediation (ToStatus r))
  | None => ret tt
  end.

(** What the status says about a resize. *)
Definition resized (replicas desiredReplicas : Z) (ownedMachines : Machines)
    : M KThreesControlPlane unit :=
  if (replicas <? desiredReplicas)%Z then
    mark (MarkFalse ResizedCondition ScalingUpReason ConditionSeverityWarning
      ("Scaling up control plane to " +++ pretty desiredReplicas +++ " replicas (actual "
       +++ pretty replicas +++ ")"))
  else if (desiredReplicas <? replicas)%Z then
    mark (MarkFalse ResizedCondition ScalingDownReason ConditionSeverityWarning
      ("Scaling down control plane to " +++ pretty desiredReplicas +++ " replicas (actual "
       +++ pretty replicas +++ ")"))
  else if (wrap32 (Z.of_nat (size (Filter IsReady ownedMachines))) =? replicas)%Z
  then mark (MarkTrue ResizedCondition)
  else ret tt.

(** What the workload cluster adds to the status. *)
Definition workload_status (cluster : Cluster) (replicas : Z) : M KThreesControlPlane unit :=
  w <- try (GetWorkloadCluster etcdCallTimeout (ClusterKey cluster)) ;;
  workloadCluster <- lift_wrap "failed to create remote cluster client" w ;;
  st <- try (with_local workloadCluster (GetClusterStatus IsNodeReady)) ;;
  match st with
  | inr err => throw (ERemoteClusterConnection (ObjectKey_String (ClusterKey cluster)) err)
  | inl status =>
      modify (fun k => set_replicas (StatusReplicas (KCPStatus k)) (UpdatedReplicas (KCPStatus k))
        (ReadyNodes status) (wrap32 (replicas - ReadyNodes status)) k) ;;;
      (if HasK3sServingSecret status
       then modify (fun k => set_flags true (Ready (KCPStatus k)) k) else ret tt) ;;;
      if (0 <? ReadyNodes status)%Z then
        modify (fun k => set_flags (Initialized (KCPStatus k)) true k) ;;;
        mark (MarkTrue AvailableCondition)
      else ret tt
  end.

(** Without replicas in its specification the object is dereferenced. *)
Definition updateStatus (cluster : Cluster) : M KThreesControlPlane unit :=
  modify (set_selector (ControlPlaneSelectorForCluster (Name (ClusterMeta cluster)))) ;;;
  kcp <- get ;;
  o <- try (GetMachinesForCluster false (ClusterKey cluster) [OwnedMachines kcp]) ;;
  ownedMachines <- lift_wrap "failed to get list of owned machines" o ;;
  controlPlane <- NewControlPlane cluster kcp ownedMachines ;;
  let updated := wrap32 (Z.of_nat (size (UpToDateMachines controlPlane))) in
  let replicas := wrap32 (Z.of_nat (size ownedMachines)) in
  modify (fun k => set_replicas (StatusReplicas (KCPStatus k)) updated (ReadyReplicas (KCPStatus k))
    (UnavailableReplicas (KCPStatus k)) k) ;;;
  match Replicas (KCPSpec kcp) with
  | None => panic
  | Some desiredReplicas =>
      modify (set_replicas replicas updated 0 replicas) ;;;
      if negb (TimePtr_IsZero (DeletionTimestamp (KCPMeta kcp))) then ret tt
      else
        (let lowestVersion := LowestVersion ownedMachines in
         if negb (String.eqb lowestVersion "") then modify (set_version (Some lowestVersion))
         else ret tt) ;;;
        resized replicas desiredReplicas ownedMachines ;;;
        workload_status cluster replicas ;;;
        surface_remediation ownedMachines
  end.

(** ** The whole reconciliation *)

Definition summarized : list string :=
  [MachinesSpecUpToDateCondition; ResizedCondition; MachinesReadyCondition; AvailableCondition;
   CertificatesAvailableCondition; TokenAvailableCondition].

Definition patchKThreesControlPlane (before : KThreesControlPlane) : M KThreesControlPlane unit :=
  mark (SetSummary summarized) ;;;
  kcp <- get ;;
  p <- call (PatchKCP before kcp ("Ready" :: summarized)) ;;
  lift_res p.

(** An error that joins the one there is, if any ([kerrors.NewAggregate] drops
    nil errors). *)
Definition joined (err : option error) (e : error) : option error :=
  Some (EAggregate (match err with None => [e] | Some e0 => [e0; e] end)).

Definition err_of {A} (r : A + error) : option error :=
  match r with inl _ => None | inr e => Some e end.

(** When to come back, if there was no error. *)
Definition requeue_result (res : Result) (kcp : KThreesControlPlane) : Result :=
  if Result_IsZero res && TimePtr_IsZero (DeletionTimestamp (KCPMeta kcp)) then
    if negb (Ready (KCPStatus kcp))
       || v1_IsFalse (KCPConditions (KCPStatus kcp)) ControlPlaneComponentsHealthyCondition
    then requeueAfter (20 * Second) else res
  else res.

(** The end of [Reconcile], after the status was updated. *)
Definition finish (before : KThreesControlPlane) (r : Result + error) (u : unit + error)
    : M KThreesControlPlane Result :=
  let err1 :=
    match u with
    | inl _ => err_of r
    | inr updateErr =>
        if errors_As_connFailure updateErr then err_of r else joined (err_of r) updateErr
    end in
  p <- try (patchKThreesControlPlane before) ;;
  let err2 :=
    match p with
    | inl _ => err1
    | inr patchErr => if IsNotFound patchErr then err1 else joined err1 patchErr
    end in
  match err2, r with
  | Some err, _ => throw err
  | None, inr err => throw err
  | None, inl res => kcp <- get ;; ret (requeue_result res kcp)
  end.

Definition reconcile_and_patch (before : KThreesControlPlane) (cluster : Cluster)
    : M KThreesControlPlane Result :=
  r <- try (if negb (TimePtr_IsZero (DeletionTimestamp (KCPMeta before)))
            then reconcileDelete cluster else reconcile cluster) ;;
  u <- try (updateStatus cluster) ;;
  finish before r u.

Definition with_finalizer (k : KThreesControlPlane) : KThreesControlPlane :=
  with_kcp_meta (with_finalizers
    (AddFinalizer KThreesControlPlaneFinalizer (Finalizers (KCPMeta k))) (KCPMeta k)) k.

(** A result next to an error is not looked at by the caller. *)
Definition Reconcile (req : ObjectKey) : IO Result :=
  g <- call (GetKCP req) ;;
  match g with
  | inr err => if IsNotFound err then ret emptyResult else ret requeue
  | inl kcp =>
      c <- call (GetOwnerCluster (KCPMeta kcp)) ;;
      match c with
      | inr err => throw err
      | inl None => ret emptyResult
      | inl (Some cluster) =>
          if IsPaused cluster kcp then ret emptyResult
          else if negb (default false (InfrastructureProvisioned cluster)) then ret emptyResult
          else
            h <- call (NewKCPPatchHelper kcp) ;;
            match h with
            | inr _ => ret requeue
            | inl _ =>
                if negb (ContainsFinalizer (Finalizers (KCPMeta kcp)) KThreesControlPlaneFinalizer) then
                  p <- call (PatchKCP kcp (with_finalizer kcp) []) ;;
                  lift_res p ;;;
                  ret emptyResult
                else with_local kcp (reconcile_and_patch kcp cluster)
            end
      end
  end.

(** [ClusterToKThreesControlPlane]: which objects an event on a cluster
    concerns. *)
Definition ClusterToKThreesControlPlane (c : Cluster) : list ObjectKey :=
  if String.eqb (ContractKind (ControlPlaneRef c)) "KThreesControlPlane"
  then [mkKey (Namespace (ClusterMeta c)) (ContractName (ControlPlaneRef c))] else [].
End Controller.
