(* ===== verification/Rollout.v ===== *)
(** What scaling and rolling out amount to: a fleet of machines, the single
    step that a reconciliation may take on it, that the controller implements
    this step, and that taking it over and over comes to an end. *)

From S2P Require Import Prelude GoStd Effects ApiTypes Api Ssa ContractVersion Capi K3sConfig Certificates Kubeconfig Token CapiLib ControlPlane Etcd Workload Conditions Remediation Scale KcpController.

(** ** The abstract rollout *)

(** What matters about a machine: whether a rollout has to replace it, and
    whether somebody marked it for deletion. *)
Record class := mkClass { outdated : bool; marked : bool }.

#[export] Instance class_eq_dec : EqDecision class.
Proof. solve_decision. Defined.

Abbreviation fleet := (gmap string class).

Definition of_class (p : class -> bool) (f : fleet) : fleet :=
  filter (fun kc => p kc.2 = true) f.

Definition count (p : class -> bool) (f : fleet) : nat := size (of_class p f).

Definition to_replace (c : class) : bool := outdated c || marked c.

(** Which machines may be removed: the marked among the outdated before the
    marked, the marked before the outdated, those before any. *)
Definition candidate (f : fleet) (c : class) : bool :=
  if (0 <? count (fun c => outdated c && marked c) f)%nat then outdated c && marked c
  else if (0 <? count marked f)%nat then marked c
  else if (0 <? count outdated f)%nat then outdated c
  else true.

(** A machine is added below the number of replicas; while a rollout is under
    way, at that number too. *)
Definition may_add (r : Z) (f : fleet) : bool :=
  if (0 <? count outdated f)%nat then (Z.of_nat (size f) <=? r)%Z else (Z.of_nat (size f) <? r)%Z.

(** Whether a new machine is up to date is not for the step to say: that shows
    when the next reconciliation looks at it. *)
Definition new_class (stale : bool) : class := mkClass stale false.

Inductive rollout_step (r : Z) (f : fleet) : fleet -> Prop :=
  | step_add n stale : may_add r f = true -> f !! n = None -> rollout_step r f (<[ n := new_class stale ]> f)
  | step_remove n c : (r < Z.of_nat (size f))%Z -> f !! n = Some c -> candidate f c = true ->
      rollout_step r f (delete n f).

Definition settled (r : Z) (f : fleet) : Prop :=
  count outdated f = 0 /\ Z.of_nat (size f) = r.

(** An upper bound of the steps to a settled fleet: two for each machine to
    replace, and one for each machine too few or too many, counting from one
    more than the replicas while machines are to be replaced. *)
Definition remaining (r : nat) (f : fleet) : nat :=
  let b := count to_replace f in
  let target := if (0 <? b)%nat then S r else r in
  2 * b + ((size f - target) + (target - size f)).

(** The machines that one fleet has more than another and that are outdated at
    once. *)
Definition stale_new (f f' : fleet) : nat := count outdated (f' ∖ f).

Section Abstract.
Implicit Types f : fleet.

Lemma of_class_lookup p f n c : of_class p f !! n = Some c <-> f !! n = Some c /\ p c = true.
Proof. apply map_lookup_filter_Some. Qed.

Lemma count_pos p f : (0 <? count p f)%nat = true <-> exists n c, f !! n = Some c /\ p c = true.
Proof.
  unfold count. rewrite Nat.ltb_lt. split.
  - intros Hs. destruct (map_choose (of_class p f)) as (n & c & Hn).
    { intros E. rewrite E, map_size_empty in Hs. lia. }
    exists n, c. by apply of_class_lookup.
  - intros (n & c & Hn). apply of_class_lookup in Hn.
    assert (of_class p f <> ∅) by (intros E; by rewrite E, lookup_empty in Hn).
    destruct (size (of_class p f)) eqn:E; [|lia].
    by apply map_size_empty_iff in E.
Qed.

Lemma count_zero p f : (0 <? count p f)%nat = false <-> count p f = 0.
Proof. rewrite Nat.ltb_ge. lia. Qed.

Lemma count_insert p f n c : f !! n = None ->
  count p (<[ n := c ]> f) = (if p c then 1 else 0) + count p f.
Proof.
  intros Hn. unfold count, of_class. destruct (p c) eqn:E.
  - rewrite map_filter_insert_True by done. rewrite map_size_insert_None; [done|].
    apply map_lookup_filter_None. by left.
  - rewrite map_filter_insert_not' by (intros; simpl; congruence). done.
Qed.

Lemma count_delete p f n c : f !! n = Some c ->
  count p f = (if p c then 1 else 0) + count p (delete n f).
Proof.
  intros Hn. rewrite <- (insert_delete_id f n c) at 1 by done. rewrite count_insert; [done|apply lookup_delete_eq].
Qed.

Lemma candidate_to_replace f c :
  candidate f c = true -> (0 <? count to_replace f)%nat = true -> to_replace c = true.
Proof.
  unfold candidate, to_replace. intros Hc Hb.
  destruct (0 <? count (fun c => outdated c && marked c) f)%nat; [destruct (outdated c); simpl in *; congruence|].
  destruct (0 <? count marked f)%nat eqn:Em; [rewrite Hc; apply orb_true_r|].
  destruct (0 <? count outdated f)%nat eqn:Eo; [by rewrite Hc|].
  apply count_pos in Hb as (n & c' & Hn & Hr). exfalso. apply orb_true_iff in Hr as [Hr|Hr].
  - apply not_true_iff_false in Eo. apply Eo, count_pos. eauto.
  - apply not_true_iff_false in Em. apply Em, count_pos. eauto.
Qed.

Lemma outdated_to_replace f : (0 <? count outdated f)%nat = true -> (0 <? count to_replace f)%nat = true.
Proof.
  rewrite !count_pos. intros (n & c & Hn & Hc). exists n, c. split; [done|]. unfold to_replace. by rewrite Hc.
Qed.

Lemma stale_new_insert f n stale :
  f !! n = None -> stale_new f (<[ n := new_class stale ]> f) = if stale then 1 else 0.
Proof.
  intros Hn. unfold stale_new.
  replace (<[ n := new_class stale ]> f ∖ f) with (<[ n := new_class stale ]> (∅ : fleet)).
  { rewrite count_insert by apply lookup_empty. unfold count, of_class.
    rewrite map_filter_empty, map_size_empty. by destruct stale. }
  apply map_eq. intros k. apply option_eq. intros c. rewrite lookup_difference_Some.
  rewrite !lookup_insert_Some, lookup_empty. split.
  - intros [[<- <-]|[_ ?]]; [by auto|done].
  - intros [[[<- <-]|[_ ?]] ?]; [by left|congruence].
Qed.

Lemma stale_new_delete f n : stale_new f (delete n f) = 0.
Proof.
  unfold stale_new. replace (delete n f ∖ f) with (∅ : fleet).
  { unfold count, of_class. by rewrite map_filter_empty, map_size_empty. }
  apply map_eq. intros k. apply option_eq. intros c.
  rewrite lookup_empty, lookup_difference_Some, lookup_delete_Some. split; [done|intros [[_ ?] ?]; congruence].
Qed.

(** Every step brings the fleet nearer to a settled one, unless the machine that it
    adds is outdated. *)
Lemma rollout_step_remaining (r : nat) f f' :
  rollout_step (Z.of_nat r) f f' -> (S (remaining r f') <= remaining r f + 3 * stale_new f f')%nat.
Proof.
  unfold remaining. intros [n stale Ha Hn|n c Hr Hn Hc].
  - rewrite stale_new_insert, count_insert, map_size_insert_None by done. unfold may_add in Ha.
    assert (Hb : (0 <? count outdated f)%nat = true -> (0 <? count to_replace f)%nat = true)
      by apply outdated_to_replace.
    destruct stale; simpl Nat.add; [simpl (0 <? S _)%nat|];
      destruct (0 <? count outdated f)%nat eqn:Eo; rewrite ?Hb by done;
      first [apply Z.leb_le in Ha|apply Z.ltb_lt in Ha]; repeat case_match; lia.
  - pose proof (candidate_to_replace f c Hc) as Hb. pose proof (count_delete to_replace f n c Hn) as Hd.
    rewrite stale_new_delete, map_size_delete, Hn. cbn [is_Some from_option].
    destruct (0 <? count to_replace f)%nat eqn:Eb; [rewrite (Hb eq_refl) in Hd|].
    + destruct (0 <? count to_replace (delete n f))%nat eqn:Eb'; rewrite ?count_zero in Eb'; lia.
    + apply count_zero in Eb. assert (count to_replace (delete n f) = 0) as -> by lia. simpl. lia.
Qed.

(** No step leaves the range between the replicas and one more, but towards it. *)
Lemma rollout_step_size r f f' :
  rollout_step r f f' ->
  (Z.min (Z.of_nat (size f)) r <= Z.of_nat (size f') <= Z.max (Z.of_nat (size f)) (r + 1))%Z.
Proof.
  intros [n stale Ha Hn|n c Hr Hn Hc].
  - rewrite map_size_insert_None by done. unfold may_add in Ha. case_match; lia.
  - rewrite map_size_delete, Hn. simpl. lia.
Qed.
End Abstract.

(** ** The fleet of a control plane *)

Section Implementation.
Context `{CAPI} `{!ControllerLib} `{Crypto} `{MapOrder} `{ServerConfigCodec} {scheme : Scheme}.
Context (etcdCallTimeout : Z).

Definition class_of (c : ControlPlane) (name : string) (m : Machine) : class :=
  mkClass (bool_decide (is_Some (MachinesNeedingRollout c !! name)))
    (has_annotation DeleteMachineAnnotation m).

Definition fleet_of (c : ControlPlane) : fleet :=
  map_imap (fun name m => Some (class_of c name m)) (CPMachines c).

(** A change of the machines that the API server accepted, and what it makes of
    the fleet once it is carried out: a new machine is there, with the annotations
    that were applied, up to date or not; a deleted one is gone. *)
Definition carried_out (tr : list event) (f f' : fleet) : Prop :=
  (exists m, ev (DeleteMachine m) (inl tt) ∈ tr /\ f' = delete (MName m) f)
  \/ (exists m a stale, ev (ApplyMachine m) (inl a) ∈ tr /\ f !! MName m = None
        /\ f' = <[ MName m := mkClass stale (has_annotation DeleteMachineAnnotation m) ]> f).

(** The template does not itself mark the machines for deletion. *)
Definition unmarked_template (c : ControlPlane) : Prop :=
  gomap_get (TemplateAnnotations (MachineTemplate (KCPSpec (KCP c)))) DeleteMachineAnnotation = None.

Lemma fleet_of_lookup c n : fleet_of c !! n = class_of c n <$> CPMachines c !! n.
Proof. unfold fleet_of. rewrite map_lookup_imap. by destruct (CPMachines c !! n). Qed.

Lemma size_fleet_of c : size (fleet_of c) = size (CPMachines c).
Proof.
  rewrite <- !size_dom. f_equal. apply set_eq. intros n. rewrite !elem_of_dom, fleet_of_lookup.
  by rewrite fmap_is_Some.
Qed.

Lemma MachinesNeedingRollout_subseteq c : MachinesNeedingRollout c ⊆ CPMachines c.
Proof. apply map_subseteq_spec. intros n m Hm. by apply MachinesNeedingRollout_lookup in Hm as [? _]. Qed.

(** A count of the fleet is about the machines it abstracts. *)
Lemma count_fleet p c :
  (0 <? count p (fleet_of c))%nat = true
  <-> exists n m, CPMachines c !! n = Some m /\ p (class_of c n m) = true.
Proof.
  rewrite count_pos. split.
  - intros (n & k & Hn & Hp). rewrite fleet_of_lookup in Hn.
    apply fmap_Some in Hn as (m & Hm & ->). eauto.
  - intros (n & m & Hm & Hp). exists n, (class_of c n m). by rewrite fleet_of_lookup, Hm.
Qed.

Lemma outdated_class c n m :
  CPMachines c !! n = Some m ->
  outdated (class_of c n m) = true <-> MachinesNeedingRollout c !! n = Some m.
Proof.
  intros Hm. simpl. rewrite bool_decide_eq_true. split; [|by eexists].
  intros [m' Hm']. pose proof (lookup_weaken _ _ _ _ Hm' (MachinesNeedingRollout_subseteq c)). congruence.
Qed.

Lemma bool_eq_iff (a b : bool) : (a = true <-> b = true) -> a = b.
Proof. destruct a, b; naive_solver. Qed.

Lemma count_outdated c :
  (0 <? count outdated (fleet_of c))%nat = (0 <? size (MachinesNeedingRollout c))%nat.
Proof.
  apply bool_eq_iff. rewrite count_fleet, Nat.ltb_lt. split.
  - intros (n & m & Hm & Ho). apply outdated_class in Ho; [|done].
    destruct (size (MachinesNeedingRollout c)) eqn:E; [|lia].
    apply map_size_empty_iff in E. by rewrite E, lookup_empty in Ho.
  - intros Hs. destruct (map_choose (MachinesNeedingRollout c)) as (n & m & Hn).
    { intros E. rewrite E, map_size_empty in Hs. lia. }
    pose proof (lookup_weaken _ _ _ _ Hn (MachinesNeedingRollout_subseteq c)) as Hm.
    exists n, m. split; [done|]. by apply outdated_class.
Qed.

Lemma count_marked c :
  (0 <? count marked (fleet_of c))%nat = (0 <? size (MachineWithDeleteAnnotation (CPMachines c)))%nat.
Proof. apply bool_eq_iff. rewrite count_fleet. symmetry. apply Filter_size. Qed.

Lemma count_outdated_marked c :
  (0 <? count (fun k => outdated k && marked k) (fleet_of c))%nat
  = (0 <? size (MachineWithDeleteAnnotation (MachinesNeedingRollout c)))%nat.
Proof.
  apply bool_eq_iff. rewrite count_fleet. unfold MachineWithDeleteAnnotation. rewrite Filter_size. split.
  - intros (n & m & Hm & [Ho Hk]%andb_true_iff). apply outdated_class in Ho; eauto.
  - intros (n & m & Hn & Hk).
    pose proof (lookup_weaken _ _ _ _ Hn (MachinesNeedingRollout_subseteq c)) as Hm.
    exists n, m. split; [done|]. apply andb_true_iff. split; [by apply outdated_class|done].
Qed.

(** The machine that the code selects is a candidate. *)
Lemma selected_candidate c m :
  named (CPMachines c) -> selectMachineForScaleDown c (MachinesNeedingRollout c) = inl m ->
  fleet_of c !! MName m = Some (class_of c (MName m) m)
  /\ candidate (fleet_of c) (class_of c (MName m) m) = true.
Proof.
  intros Hnamed Hsel.
  assert (Hm : CPMachines c !! MName m = Some m).
  { destruct (selectMachineForScaleDown_in c _ m (MachinesNeedingRollout_subseteq c) Hsel) as [k Hk].
    by rewrite (Hnamed k m Hk). }
  split; [by rewrite fleet_of_lookup, Hm|].
  unfold selectMachineForScaleDown, MachineInFailureDomainWithMostMachines in Hsel. cbv zeta in Hsel.
  set (machines := if (0 <? size (MachineWithDeleteAnnotation (MachinesNeedingRollout c)))%nat then _ else _) in Hsel.
  destruct (Oldest _) as [m0|] eqn:E; [|done]. injection Hsel as ->.
  apply Oldest_Some in E as [[k Hk] _]. apply Filter_lookup in Hk as [Hk _].
  unfold candidate. rewrite count_outdated_marked, count_marked, count_outdated. subst machines.
  assert (Hn : forall ms, ms ⊆ CPMachines c -> ms !! k = Some m -> MName m = k).
  { intros ms Hs Hk'. apply Hnamed. by eapply lookup_weaken. }
  repeat case_match; [| | |done].
  - apply Filter_lookup in Hk as [Hk Ha]. apply andb_true_iff. split; [|done].
    apply outdated_class; [done|]. by rewrite (Hn _ (MachinesNeedingRollout_subseteq c) Hk).
  - by apply Filter_lookup in Hk as [_ Ha].
  - apply outdated_class; [done|]. by rewrite (Hn _ (MachinesNeedingRollout_subseteq c) Hk).
Qed.

(** *** Each operation takes a step *)

Definition refines (r : Z) (c : ControlPlane) (m : M ControlPlane Result) : Prop :=
  wp m c (fun tr _ _ => forall f', carried_out tr (fleet_of c) f' -> rollout_step r (fleet_of c) f').

(** A trace that only makes machines for the control plane. *)
Lemma made_steps r c tr :
  unmarked_template c -> may_add r (fleet_of c) = true -> issued is_delete_machine tr = 0 ->
  (forall m a, ev (ApplyMachine m) a ∈ tr -> made_for c m) ->
  forall f', carried_out tr (fleet_of c) f' -> rollout_step r (fleet_of c) f'.
Proof.
  intros Ht Ha Hd Hm f' [(m & Hin & ->)|(m & a & stale & Hin & Hf & ->)].
  { rewrite issued_0 in Hd. by specialize (Hd _ Hin). }
  replace (has_annotation DeleteMachineAnnotation m) with false; [by apply step_add|].
  unfold has_annotation. rewrite (made_for_annotation c m) by (done || eauto). by rewrite Ht.
Qed.

Lemma scale_up_refines r c :
  unmarked_template c -> may_add r (fleet_of c) = true -> refines r c scaleUpControlPlane.
Proof.
  intros Ht Ha. eapply wp_mono; [apply scale_up_ok|]. intros tr _ _ (_ & Hd & Hm & _).
  apply made_steps; [done..|]. intros m a Hin. by destruct (Hm m a Hin).
Qed.

Lemma initialize_refines r c :
  unmarked_template c -> may_add r (fleet_of c) = true -> refines r c initializeControlPlane.
Proof.
  intros Ht Ha. eapply wp_mono; [apply initialize_ok|]. intros tr _ _ (_ & Hd & Hm & _).
  apply made_steps; [done..|]. intros m a Hin. by destruct (Hm m a Hin).
Qed.

Lemma scale_down_refines r c :
  named (CPMachines c) -> (r < Z.of_nat (size (fleet_of c)))%Z ->
  refines r c (scaleDownControlPlane etcdCallTimeout (MachinesNeedingRollout c)).
Proof.
  intros Hn Hr. eapply wp_mono; [apply scale_down_ok; [done|apply MachinesNeedingRollout_subseteq]|].
  intros tr _ _ (_ & Ha & Hm) f' [(m & Hin & ->)|(m & a & stale & Hin & _ & _)].
  - destruct (Hm _ _ Hin) as (m0 & Hsel & -> & _). destruct (selected_candidate c m0 Hn Hsel) as [Hl Hc].
    by eapply step_remove.
  - rewrite issued_0 in Ha. by specialize (Ha _ Hin).
Qed.

(** The control plane, but for the conditions in its status. *)
Definition marked_only (c c' : ControlPlane) : Prop := 
  c' = c \/ exists cs, c' = set_kcp (with_kcp_conditions cs (KCP c)) c.

Lemma fleet_of_marked c c' : marked_only c c' -> fleet_of c' = fleet_of c.
Proof. by intros [->|[g ->]]. Qed.

(** What is asked of a control plane whose scaling is followed. *)
Record scalable (r : Z) (c : ControlPlane) : Prop := mkScalable {
  scalable_named : named (CPMachines c);
  scalable_replicas : Replicas (KCPSpec (KCP c)) = Some r;
  scalable_template : unmarked_template c;
}.

Lemma scalable_marked r c c' : marked_only c c' -> scalable r c -> scalable r c'.
Proof. by intros [->|[g ->]] []. Qed.

Lemma scalable_may_add r c :
  may_add r (fleet_of c)
  = (if (0 <? size (MachinesNeedingRollout c))%nat
     then (Z.of_nat (size (CPMachines c)) <=? r)%Z else (Z.of_nat (size (CPMachines c)) <? r)%Z).
Proof. unfold may_add. by rewrite count_outdated, size_fleet_of. Qed.

Lemma no_rollout c : (0 <? size (MachinesNeedingRollout c))%nat = false -> MachinesNeedingRollout c = ∅.
Proof. intros E. apply map_size_empty_iff. apply Nat.ltb_ge in E. lia. Qed.

(** *** The decision, once and for all *)

Section Cases.
Context (r : Z) (c : ControlPlane) (P : list event -> outcome Result -> Prop).

Definition ends (m : M ControlPlane Result) (c' : ControlPlane) : Prop :=
  wp m c' (fun tr _ o => P tr o).

Hypothesis Hs : scalable r c.
Hypothesis Hup : forall c', marked_only c c' -> may_add r (fleet_of c) = true ->
  CPMachines c <> ∅ -> ends scaleUpControlPlane c'.
Hypothesis Hinit : forall c', marked_only c c' -> may_add r (fleet_of c) = true ->
  ends initializeControlPlane c'.
Hypothesis Hdown : forall c', marked_only c c' -> (r < Z.of_nat (size (fleet_of c)))%Z ->
  ends (scaleDownControlPlane etcdCallTimeout (MachinesNeedingRollout c)) c'.
Hypothesis Hdone : settled r (fleet_of c) -> P [] (Val emptyResult).

Lemma upgrade_cases c' :
  marked_only c c' -> (0 <? size (MachinesNeedingRollout c))%nat = true ->
  ends (upgradeControlPlane etcdCallTimeout (MachinesNeedingRollout c)) c'.
Proof.
  intros Hc Ho. pose proof (scalable_may_add r c) as Ha. rewrite Ho in Ha.
  assert (Hm : CPMachines c' = CPMachines c) by (by destruct Hc as [->|[g ->]]).
  unfold ends, upgradeControlPlane. apply wp_bind, wp_get. rewrite (scalable_replicas _ _ (scalable_marked _ _ _ Hc Hs)), Hm.
  destruct (_ <=? r)%Z eqn:E.
  - apply Hup; [done..|]. intros E'. pose proof (map_subseteq_size _ _ (MachinesNeedingRollout_subseteq c)) as Hz.
    rewrite E', map_size_empty in Hz. apply Nat.ltb_lt in Ho. lia.
  - apply Hdown; [done|]. rewrite size_fleet_of. lia.
Qed.

Lemma scale_to_replicas_cases c' :
  marked_only c c' -> (0 <? size (MachinesNeedingRollout c))%nat = false ->
  ends (scale_to_replicas etcdCallTimeout) c'.
Proof.
  intros Hc Ho. pose proof (scalable_may_add r c) as Ha. rewrite Ho in Ha.
  assert (Hm : CPMachines c' = CPMachines c) by (by destruct Hc as [->|[g ->]]).
  unfold ends, scale_to_replicas. apply wp_bind, wp_get. cbn zeta.
  rewrite (scalable_replicas _ _ (scalable_marked _ _ _ Hc Hs)), Hm.
  destruct (_ && (_ =? 0))%Z eqn:E0.
  { apply wp_bind, wp_modify. apply Hinit; [|rewrite Ha; lia].
    right. destruct Hc as [->|[cs ->]]; by eexists. }
  destruct (_ && (0 <? _))%Z eqn:E1.
  { apply Hup; [done|rewrite Ha; lia|]. intros E'. by rewrite E', map_size_empty, andb_false_r in E1. }
  destruct (r <? _)%Z eqn:E2.
  { rewrite <- (no_rollout c Ho). apply Hdown; [done|]. rewrite size_fleet_of. lia. }
  apply wp_ret, Hdone. split; [apply count_zero; by rewrite count_outdated|]. rewrite size_fleet_of. lia.
Qed.

Lemma rollout_cases : ends (rollout_or_scale etcdCallTimeout) c.
Proof.
  unfold ends, rollout_or_scale. apply wp_bind, wp_get. cbn zeta.
  destruct (0 <? size (MachinesNeedingRollout c))%nat eqn:E.
  - apply wp_bind, wp_modify, upgrade_cases; [|done]. right. by eexists.
  - destruct (v1_Has _ _); apply wp_bind; [apply wp_modify|apply wp_ret];
      apply scale_to_replicas_cases; try done; [right; by eexists|by left].
Qed.
End Cases.

Lemma rollout_or_scale_step r c :
  scalable r c ->
  wp (rollout_or_scale etcdCallTimeout) c (fun tr _ _ =>
    forall f', carried_out tr (fleet_of c) f' -> rollout_step r (fleet_of c) f').
Proof.
  intros Hs. apply (rollout_cases r c (fun tr _ => forall f', carried_out tr (fleet_of c) f' ->
    rollout_step r (fleet_of c) f')); [done|..].
  - intros c' Hc Ha _. rewrite <- (fleet_of_marked c c' Hc) in *.
    apply scale_up_refines; [by eapply scalable_marked|done].
  - intros c' Hc Ha. rewrite <- (fleet_of_marked c c' Hc) in *.
    apply initialize_refines; [by eapply scalable_marked|done].
  - intros c' Hc Hr. rewrite <- (fleet_of_marked c c' Hc) in *.
    replace (MachinesNeedingRollout c) with (MachinesNeedingRollout c') by (by destruct Hc as [->|[cs ->]]).
    apply scale_down_refines; [by eapply scalable_marked|done].
  - intros _ f' [(m & Hin & _)|(m & a & stale & Hin & _)]; by apply elem_of_nil in Hin.
Qed.

(** C19: the controller implements the abstract rollout. Whatever change of the
    machines one run of the decision gets accepted, a deleted machine or a new
    one, is a step that the specification allows from the fleet it started
    with: it adds a machine, which is not marked for deletion, only below the
    number of replicas, or at it while machines are outdated; it removes one only above that number, a
    marked and outdated one if there is one, else a marked, else an outdated
    one, else any. *)
Theorem rollout_refines r c :
  scalable r c ->
  wp (rollout_or_scale etcdCallTimeout) c (fun tr _ _ =>
    forall f', carried_out tr (fleet_of c) f' -> rollout_step r (fleet_of c) f').
Proof. apply rollout_or_scale_step. Qed.

(** A change of the machines was accepted, or the machine to delete was gone. *)
Definition changed (tr : list event) : Prop :=
  (exists m a, ev (ApplyMachine m) (inl a) ∈ tr)
  \/ (exists m r, ev (DeleteMachine m) r ∈ tr /\ forall err, r = inr err -> IsNotFound err = true).


(** ** Reconciliation after reconciliation *)

(** From one control plane to the next: a run of the decision gets a change
    accepted, and the next control plane that is looked at, of the same
    specification, has the fleet that the change makes when it is carried out. *)
Inductive next (r : Z) (c c' : ControlPlane) : Prop :=
  | next_run tr c1 o :
      scalable r c -> scalable r c' ->
      runs (rollout_or_scale etcdCallTimeout) c tr c1 o ->
      carried_out tr (fleet_of c) (fleet_of c') -> next r c c'.

Lemma next_step r c c' : next r c c' -> rollout_step r (fleet_of c) (fleet_of c').
Proof.
  intros [tr c1 o Hs Hs' Hrun Hch]. pose proof (rollout_or_scale_step r c Hs) as HW.
  rewrite wp_runs in HW. eapply HW; eauto.
Qed.

(** [k] changes of the machines in a row, in which [s] of the new machines are
    found outdated when they are looked at first. *)
Inductive changes (r : Z) : nat -> nat -> ControlPlane -> ControlPlane -> Prop :=
  | changes_none c : changes r 0 0 c c
  | changes_next k s c c1 c' :
      next r c c1 -> changes r k s c1 c' ->
      changes r (S k) (stale_new (fleet_of c) (fleet_of c1) + s) c c'.

(** C21: a rollout ends, as long as new machines are up to date. However many times
    the controller gets a change of the machines carried out under an unchanged
    specification, it is no more often than the fleet it starts with allows: twice
    for every machine that is outdated or marked for deletion, and once for every
    machine missing or in excess, counted from one above the replicas while there
    is such a machine; and three times more for every machine that is outdated
    although it was just made. So only a machine that does not match the
    specification it was made from keeps a rollout going
    ([ControlPlane.new_machine_up_to_date] says which does). *)
Theorem rollout_terminates (r k s : nat) c c' :
  changes (Z.of_nat r) k s c c' ->
  (k + remaining r (fleet_of c') <= remaining r (fleet_of c) + 3 * s)%nat.
Proof.
  induction 1 as [c|k s c c1 c' Hn _ IH]; [lia|].
  apply next_step, rollout_step_remaining in Hn. lia.
Qed.

(** C22: the number of machines stays in bounds. As long as the specification
    stays, scaling and rolling out never take the number of machines below the
    replicas, when it was not below, nor above the replicas and one more, when
    it was not above; from outside, they only bring it nearer. *)
Theorem rollout_bounds r c c' :
  rtc (next r) c c' ->
  (Z.min (Z.of_nat (size (CPMachines c))) r <= Z.of_nat (size (CPMachines c'))
   <= Z.max (Z.of_nat (size (CPMachines c))) (r + 1))%Z.
Proof.
  induction 1 as [c|c c1 c' Hn _ IH]; [lia|].
  apply next_step, rollout_step_size in Hn. rewrite !size_fleet_of in Hn. lia.
Qed.
End Implementation.

(** ** Examples *)

Section Examples.
#[local] Existing Instance reference.capi.
#[local] Existing Instance reference.crypto.
#[local] Existing Instance reference_lib.controller_lib.
#[local] Instance a_codec : ServerConfigCodec := { json_Marshal_ServerConfig := fun _ => inl "{}" }.
#[local] Instance a_scheme : Scheme := {|
  machine_GVK := fun _ => inl (mkGVK "" "Machine");
  machine_unstructured := fun _ => inl (Map []);
  machine_of_answer := inl;
  machine_convert := inl;
  config_GVK := fun _ => inl (mkGVK "" "KThreesConfig");
  config_to_external := fun c => inl (mkUnstructured "" "KThreesConfig" (ConfigMeta c));
  external_GVK := fun u => inl (mkGVK (UAPIVersion u) (UKind u));
  external_unstructured := fun _ => inl (Map []);
  external_convert := inl;
|}.

(** The first round of a rollout of the two outdated machines: one goes. *)
Definition one_machine : ControlPlane := set_machines {[ "b" := healthy_machine "b" ]} two_machines.

Lemma two_machines_scalable : scalable 1 two_machines.
Proof. split; [exact two_machines_named|reflexivity|reflexivity]. Qed.

Lemma one_machine_scalable : scalable 1 one_machine.
Proof. split; [|reflexivity|reflexivity]. intros k m Hk. cbn [one_machine set_machines CPMachines] in Hk. by apply (lookup_singleton_Some "b" k) in Hk as [<- <-]. Qed.

Definition first_round := run default_handler (rollout_or_scale 0 two_machines) tt.

Lemma first_round_deletes :
  exists m, ev (DeleteMachine m) (inl tt) ∈ first_round.1.2 /\ MName m = "a".
Proof.
  eexists. split; [vm_compute; left|reflexivity].
Qed.

Lemma next_round : next 0 1 two_machines one_machine.
Proof.
  eapply (next_run 0 1 _ _ first_round.1.2); [exact two_machines_scalable|exact one_machine_scalable| |].
  - apply (runs_of_run default_handler). vm_compute. reflexivity.
  - left. destruct first_round_deletes as (m & Hin & Hm). exists m. split; [done|]. rewrite Hm. reflexivity.
Qed.

Example rollout_refines_witness :
  scalable 1 two_machines
  /\ rollout_step 1 (fleet_of two_machines) (delete "a" (fleet_of two_machines)).
Proof.
  split; [exact two_machines_scalable|].
  pose proof (rollout_refines 0 1 two_machines two_machines_scalable) as HW. rewrite wp_runs in HW.
  eapply (HW first_round.1.2).
  - apply (runs_of_run default_handler). vm_compute. reflexivity.
  - left. destruct first_round_deletes as (m & Hin & Hm). exists m. split; [done|]. by rewrite Hm.
Defined.


Example rollout_terminates_witness :
  changes 0 1 1 0 two_machines one_machine
  /\ (1 + remaining 1 (fleet_of one_machine) <= remaining 1 (fleet_of two_machines))%nat.
Proof.
  assert (Hn : changes 0 1 1 0 two_machines one_machine)
    by exact (changes_next 0 1 0 0 _ _ _ next_round (changes_none 0 1 _)).
  split; [exact Hn|]. exact (rollout_terminates 0 1 1 0 _ _ Hn).
Defined.

Example rollout_bounds_witness :
  rtc (next 0 1) two_machines one_machine
  /\ (1 <= Z.of_nat (size (CPMachines one_machine)) <= 2)%Z.
Proof.
  assert (Hn : rtc (next 0 1) two_machines one_machine) by (apply rtc_once, next_round).
  split; [exact Hn|]. exact (rollout_bounds 0 1 _ _ Hn).
Defined.
End Examples.
