(* ===== verification/KcpSafety.v ===== *)
(** What a reconciliation of a KThreesControlPlane may do: at most one change
    of the set of machines, the conditions under which etcd members, the
    kubeconfig and the finalizer are touched, and what the status says. *)

From S2P Require Import Prelude GoStd Effects ApiTypes Api Ssa ContractVersion Capi K3sConfig Certificates Kubeconfig Token CapiLib ControlPlane Etcd Workload Conditions Remediation Scale KcpController.

(** ** Changes to the set of machines

    A machine is deleted, or an attempt to make one starts by cloning the
    infrastructure template. *)
Definition is_change (c : cmd) : bool :=
  match c with DeleteMachine _ | CreateFromTemplate _ => true | _ => false end.

Definition is_create_from_template (c : cmd) : bool :=
  match c with CreateFromTemplate _ => true | _ => false end.

Lemma is_change_split tr :
  issued is_delete_machine tr + issued is_create_from_template tr = issued is_change tr.
Proof.
  induction tr as [|e tr IH]; [done|]. rewrite !issued_cons, <- IH. destruct (ev_cmd e); simpl; lia.
Qed.

(** The patches of the object itself come last, after everything else. *)
Definition is_patch (c : cmd) : bool := match c with PatchKCP _ _ _ => true | _ => false end.

Definition no_change (c : cmd) : bool := negb (is_change c) && negb (is_patch c).

Lemma observes_no_change tr :
  observes tr -> Forall (fun e => no_change (projT1 e) = true) tr.
Proof. intros HO. eapply Forall_impl; [exact HO|]. intros [[] ?]; done. Qed.

Lemma quiet_no_change {S A} (m : M S A) : issues not_mgmt_write m -> issues no_change m.
Proof. apply issues_mono. by intros []. Qed.

Section OneChange.
Context `{CAPI} `{!ControllerLib} `{Crypto} `{MapOrder} `{RemediationCodec} `{ServerConfigCodec}
  `{Scheme} `{Texts} `{ClientCmd} `{KubeVersions}.
Context (etcdCallTimeout : Z).

Lemma NewControlPlane_no_change {S} cluster kcp owned :
  issues no_change (NewControlPlane (S := S) cluster kcp owned).
Proof. unfold NewControlPlane, getInfraResources, getKThreesConfigs. issues_go. Qed.

Lemma GetMachines_no_change {S} u cluster fs : issues no_change (GetMachinesForCluster (S := S) u cluster fs).
Proof. unfold GetMachinesForCluster. issues_go. Qed.

Lemma GetWorkloadCluster_no_change {S} key :
  issues no_change (GetWorkloadCluster (S := S) etcdCallTimeout key).
Proof. apply quiet_no_change, GetWorkloadCluster_quiet. Qed.

Lemma PatchMachines_no_change {S} c : issues no_change (PatchMachines (S := S) c).
Proof. unfold PatchMachines, patch_one. issues_go. Qed.
#[local] Hint Resolve NewControlPlane_no_change GetMachines_no_change GetWorkloadCluster_no_change
  PatchMachines_no_change : issues.

Lemma PatchCached_machine_no_change {S} (m m' : Machine) :
  issues no_change (PatchCached (S := S) machine_convert m m').
Proof. unfold PatchCached. cbn [Apply machine_appliable]. issues_go. Qed.

Lemma PatchCached_external_no_change {S O} `{ClientObject O} f (u : Unstructured) (o : O) :
  issues no_change (PatchCached (S := S) f u o).
Proof. unfold PatchCached. cbn [Apply external_appliable]. issues_go. Qed.

Lemma drop_entry_no_change {S} paths mf : issues no_change (drop_entry (S := S) paths mf).
Proof. unfold drop_entry. issues_go. Qed.
#[local] Hint Resolve PatchCached_machine_no_change PatchCached_external_no_change
  drop_entry_no_change : issues.

Lemma syncMachines_no_change : issues no_change syncMachines.
Proof.
  unfold syncMachines, sync_machine, sync_infra, sync_config, updateMachine, updateExternalObject,
    computeDesiredMachine, CleanUpManagedFieldsForSSAAdoption, DropManagedFields, GetAPIVersion, GetGKMetadata.
  cbn [MergePatch machine_object config_object external_object]. issues_go.
Qed.

Lemma UpdateConditions_no_change : issues no_change (UpdateAgentConditions ;;; UpdateEtcdConditions).
Proof.
  apply issues_bind.
  - intros s. eapply wp_mono; [apply UpdateAgentConditions_update|]. cbv beta.
    intros tr s' o (_ & (HO & _) & _). by apply observes_no_change.
  - intros [] s. eapply wp_mono; [apply UpdateEtcdConditions_update|]. cbv beta.
    intros tr s' o (_ & (HO & _) & _). by apply observes_no_change.
Qed.

Lemma reconcileControlPlaneConditions_no_change :
  issues no_change (reconcileControlPlaneConditions etcdCallTimeout).
Proof.
  unfold reconcileControlPlaneConditions, on_workload. pose proof UpdateConditions_no_change. issues_go.
Qed.

Lemma reconcileEtcdMembers_no_change : issues no_change (reconcileEtcdMembers etcdCallTimeout).
Proof.
  unfold reconcileEtcdMembers, with_workload.
  pose proof (fun ns => quiet_no_change _ (ReconcileEtcdMembers_quiet ns)). issues_go.
Qed.
#[local] Hint Resolve syncMachines_no_change reconcileControlPlaneConditions_no_change
  reconcileEtcdMembers_no_change : issues.

(** *** The three operations that change the set *)

(** At most [n] changes, and no patch of the object. *)
Definition changes {S A} (n : nat) (m : M S A) : Prop := forall s, wp m s (fun tr _ _ =>
  (issued is_change tr <= n)%nat /\ issued is_patch tr = 0).

(** At most one change, and none when the code goes on after [m]. *)
Definition one_change {S} (m : M S Result) : Prop := forall s, wp m s (fun tr _ o =>
  ((issued is_change tr <= 1)%nat /\ issued is_patch tr = 0)
  /\ forall r, o = Val r -> Result_IsZero r = true -> issued is_change tr = 0).

Lemma no_change_issued tr :
  Forall (fun e => no_change (projT1 e) = true) tr -> issued is_change tr = 0 /\ issued is_patch tr = 0.
Proof.
  rewrite Forall_forall. intros HF. split; apply issued_0; intros e He;
    by apply HF, andb_true_iff in He as [?%negb_true_iff ?%negb_true_iff].
Qed.

Lemma one_change_quiet {S} (m : M S Result) : issues no_change m -> one_change m.
Proof.
  intros Hm s. eapply wp_mono; [apply Hm|]. cbv beta. intros tr s' o [-> ->]%no_change_issued.
  repeat split; lia.
Qed.

Lemma one_change_bind {S A} (m : M S A) (f : A -> M S Result) :
  issues no_change m -> (forall a, one_change (f a)) -> one_change (bind m f).
Proof.
  intros Hm Hf s. apply wp_bind. eapply wp_mono; [apply Hm|]. cbv beta.
  intros tr s' [a|e|] [E1 E2]%no_change_issued; [|rewrite E1, E2; repeat split; (lia || done)..].
  eapply wp_mono; [apply Hf|]. cbv beta. intros tr' s'' o. by rewrite !issued_app, E1, E2.
Qed.

Lemma changes_issues {S A} n (m : M S A) : issues no_change m -> changes n m.
Proof.
  intros Hm s. eapply wp_mono; [apply Hm|]. cbv beta. intros tr s' o [-> ->]%no_change_issued. lia.
Qed.

(** A step without a change comes first, or last. *)
Lemma changes_after {S A B} n (m : M S A) (f : A -> M S B) :
  issues no_change m -> (forall a, changes n (f a)) -> changes n (bind m f).
Proof.
  intros Hm Hf s. apply wp_bind. eapply wp_mono; [apply Hm|]. cbv beta.
  intros tr s' [a|e|] [E1 E2]%no_change_issued; [|rewrite E1, E2; lia..].
  eapply wp_mono; [apply Hf|]. cbv beta. intros tr' s'' o. by rewrite !issued_app, E1, E2.
Qed.

Lemma changes_before {S A B} n (m : M S A) (f : A -> M S B) :
  changes n m -> (forall a, issues no_change (f a)) -> changes n (bind m f).
Proof.
  intros Hm Hf s. apply wp_bind. eapply wp_mono; [apply Hm|]. cbv beta.
  intros tr s' [a|e|] [E1 E2]; [|done..]. eapply wp_mono; [apply Hf|]. cbv beta.
  intros tr' s'' o [E3 E4]%no_change_issued. rewrite !issued_app. lia.
Qed.

Lemma changes_try {S A} n (m : M S A) : changes n m -> changes n (try m).
Proof. intros Hm s. apply wp_try. eapply wp_mono; [apply Hm|]. by intros tr s' [a|e|]. Qed.

Lemma changes_zoom {S T A} n (g : S -> T) (h : T -> S -> S) (m : M T A) :
  changes n m -> changes n (zoom g h m).
Proof.
  intros Hm s. unfold zoom, wp. rewrite always_bind. eapply always_mono; [|apply Hm].
  intros tr [t o]. simpl. by rewrite app_nil_r.
Qed.

Lemma delete_and_track_one m d : one_change (delete_and_track m d).
Proof.
  intros s. unfold delete_and_track, owner_remediated. wp_go; count_events; (split; [lia|]); by intros ? [= <-].
Qed.

(** The result of an early return of the checks is empty; so is the trace. *)
Lemma remediate_one m now : one_change (remediate etcdCallTimeout m now).
Proof.
  unfold remediate. apply one_change_bind.
  { unfold checkRetryLimits, owner_remediated. issues_go. }
  intros [d []]; cbn [negb]; [|apply one_change_quiet; issues_go].
  apply one_change_bind; [issues_go|]. intros s. destruct (Initialized _); [|apply delete_and_track_one].
  apply one_change_bind.
  { unfold initialized_checks, waiting, owner_remediated, canSafelyRemoveEtcdMember, with_workload.
    pose proof (quiet_no_change _ EtcdMembers_quiet). issues_go. }
  intros [r|]; [apply one_change_quiet; issues_go|]. apply one_change_bind.
  { unfold forward_and_hook, waiting, owner_remediated, add_preterminate_hook, machine_annotations, with_workload.
    pose proof (fun a b => quiet_no_change _ (ForwardEtcdLeadership_quiet a b)). issues_go. }
  intros [r|]; [apply one_change_quiet; issues_go|apply delete_and_track_one].
Qed.

Lemma reconcileUnhealthyMachines_one : one_change (reconcileUnhealthyMachines etcdCallTimeout).
Proof.
  unfold reconcileUnhealthyMachines. apply one_change_bind; [issues_go|]. intros now.
  apply one_change_bind; [issues_go|]. intros c. apply one_change_bind; [unfold cleanup_remediated; issues_go|].
  intros errs. destruct (NewAggregate errs); [apply one_change_quiet; issues_go|].
  apply one_change_bind; [issues_go|]. intros c'. destruct (getMachineToBeRemediated _) as [m|];
    [|apply one_change_quiet; issues_go].
  destruct (negb _); [apply one_change_quiet; issues_go|].
  destruct (gomap_get _ _); [apply one_change_quiet; issues_go|].
  apply one_change_bind; [issues_go|]. intros h. apply one_change_bind; [issues_go|]. intros _.
  intros s. unfold with_deferred_patch, wp. rewrite always_bind.
  eapply always_mono; [|apply (remediate_one m now s)]. intros tr [s' o] [H1' H2'] r. cbn [snd fst] in *.
  assert (Hone : forall p, p = is_change \/ p = is_patch ->
    issued p (tr ++ [ev (PatchMachine m (current m s') [MachineOwnerRemediatedCondition]) r]) = issued p tr)
    by (intros p [->| ->]; count_events; lia).
  destruct r as [u|err]; [|destruct o as [r0|e|]]; simpl; rewrite !Hone by auto; split; done.
Qed.

Lemma clone_one spec fd : changes 1 (cloneConfigsAndGenerateMachine spec fd).
Proof.
  unfold cloneConfigsAndGenerateMachine. apply changes_after; [issues_go|]. intros c.
  apply changes_after; [unfold computeDesiredMachine; issues_go|]. intros d.
  apply changes_after; [issues_go|]. intros m. apply changes_before.
  { intros s. apply wp_call. intros r. count_events. lia. }
  intros i. unfold generateKThreesConfig, createMachine, cleanupFromGeneration, cleanup_ref, Patch.
  cbn [Apply machine_appliable]. issues_go.
Qed.

Lemma preflightChecks_no_change excl : issues no_change (preflightChecks excl).
Proof. unfold preflightChecks. issues_go. Qed.
#[local] Hint Resolve preflightChecks_no_change : issues.

Lemma initializeControlPlane_one : changes 1 initializeControlPlane.
Proof.
  unfold initializeControlPlane. apply changes_after; [issues_go|]. intros c.
  apply changes_after; [issues_go|]. intros ms. destruct (0 <? _)%nat; [apply changes_issues; issues_go|].
  apply changes_before; [apply changes_try, clone_one|]. issues_go.
Qed.

Lemma scaleUpControlPlane_one : changes 1 scaleUpControlPlane.
Proof.
  unfold scaleUpControlPlane. apply changes_after; [issues_go|]. intros r.
  destruct (negb _); [apply changes_issues; issues_go|]. apply changes_after; [issues_go|]. intros c.
  apply changes_before; [apply changes_try, clone_one|]. issues_go.
Qed.

Lemma scaleDownControlPlane_one outdated :
  changes 1 (scaleDownControlPlane etcdCallTimeout outdated).
Proof.
  unfold scaleDownControlPlane. apply changes_after; [issues_go|]. intros c.
  apply changes_after; [issues_go|]. intros m. apply changes_after; [issues_go|]. intros r.
  destruct (negb _); [apply changes_issues; issues_go|]. apply changes_after.
  { unfold add_preterminate_hook, machine_annotations, with_workload.
    pose proof (fun a b => quiet_no_change _ (ForwardEtcdLeadership_quiet a b)). issues_go. }
  intros u. apply changes_after; [issues_go|]. intros c'. apply changes_before; [|issues_go].
  intros s. apply wp_call. intros r'. count_events. lia.
Qed.

Lemma rollout_or_scale_one : changes 1 (rollout_or_scale etcdCallTimeout).
Proof.
  unfold rollout_or_scale, upgradeControlPlane, scale_to_replicas, cp_mark.
  apply changes_after; [issues_go|]. intros c. destruct (0 <? _)%nat.
  - apply changes_after; [issues_go|]. intros _. apply changes_after; [issues_go|]. intros c'.
    destruct (Replicas _); [|apply changes_issues; issues_go].
    destruct (_ <=? _)%Z; [apply scaleUpControlPlane_one|apply scaleDownControlPlane_one].
  - apply changes_after; [issues_go|]. intros _. apply changes_after; [issues_go|]. intros c'.
    destruct (Replicas _); [|apply changes_issues; issues_go].
    repeat case_match; first [apply scaleUpControlPlane_one|apply scaleDownControlPlane_one
      |apply changes_after; [issues_go|intros _; apply initializeControlPlane_one]
      |apply changes_issues; issues_go].
Qed.

Lemma reconcile_control_plane_one : changes 1 (reconcile_control_plane etcdCallTimeout).
Proof.
  unfold reconcile_control_plane, aggregate_machines. do 5 (apply changes_after; [issues_go|]; intros ?).
  apply changes_after; [issues_go|]. intros _.
  intros s. apply wp_bind. eapply wp_mono; [apply reconcileUnhealthyMachines_one|]. cbv beta.
  intros tr s' [r|e|] [H1' H2']; [|done..]. destruct (Result_IsZero r) eqn:E; cbn [negb].
  - eapply wp_mono; [apply rollout_or_scale_one|]. cbv beta. intros tr' s'' o.
    rewrite !issued_app, (H2' r) by done. lia.
  - apply wp_ret. by rewrite app_nil_r.
Qed.

(** *** The whole reconciliation *)

Lemma certificates_no_change key owner : issues no_change (LookupOrGenerate key owner).
Proof.
  unfold LookupOrGenerate, Certificates.Lookup, Generate, SaveGenerated, lookup_one, generate_one, save_one.
  issues_go.
Qed.

Lemma token_no_change {S} by_ref set_ref key owner :
  issues no_change (Token.Reconcile (S := S) by_ref set_ref key owner).
Proof. unfold Token.Reconcile, getSecret, generateAndStore, randomB64. issues_go. Qed.

Lemma expires_soon_no_change {S} now t infos : issues no_change (expires_soon (S := S) now t infos).
Proof. induction infos; simpl; issues_go. Qed.
#[local] Hint Resolve certificates_no_change token_no_change expires_soon_no_change : issues.

Lemma reconcileKubeconfig_no_change {S} key host port kcp :
  issues no_change (reconcileKubeconfig (S := S) key host port kcp).
Proof.
  unfold reconcileKubeconfig, GetFromNamespacedName, CreateSecretWithOwner, GenerateSecretWithOwner,
    NeedsClientCertRotation, RegenerateSecret, generateKubeconfig, decoded, dependent_secret, New.
  issues_go.
Qed.
#[local] Hint Resolve reconcileKubeconfig_no_change : issues.

Lemma reconcile_one cluster : changes 1 (reconcile etcdCallTimeout cluster).
Proof.
  unfold reconcile, mark, reconcileExternalReference, with_local, on_control_plane.
  repeat match goal with
  | |- changes _ (match ?x with _ => _ end) => destruct x
  | |- changes _ (let _ := _ in _) => cbv zeta
  | |- changes _ (bind _ _) => apply changes_after; [issues_go|intros ?]
  | |- changes _ (zoom _ _ _) => apply changes_zoom, reconcile_control_plane_one
  | |- changes _ _ => apply changes_issues; issues_go
  end.
Qed.

Lemma updateStatus_no_change cluster : issues no_change (updateStatus etcdCallTimeout cluster).
Proof.
  unfold updateStatus, resized, workload_status, surface_remediation, latest_remediation, mark, with_local.
  pose proof (fun r => quiet_no_change _ (GetClusterStatus_quiet r)). issues_go.
Qed.

(** Deletion deletes, but does not patch the object. *)
Definition no_patch (c : cmd) : bool := negb (is_patch c).

Lemma no_change_no_patch {S A} (m : M S A) : issues no_change m -> issues no_patch m.
Proof. apply issues_mono. by intros []. Qed.

Lemma reconcileDelete_no_patch cluster : issues no_patch (reconcileDelete etcdCallTimeout cluster).
Proof.
  unfold reconcileDelete, on_control_plane, delete_control_plane, aggregate_machines, delete_machine, cp_mark.
  pose proof (no_change_no_patch _ reconcileControlPlaneConditions_no_change).
  pose proof (fun s c k o => no_change_no_patch _ (NewControlPlane_no_change (S := s) c k o)).
  pose proof (fun s u c fs => no_change_no_patch _ (GetMachines_no_change (S := s) u c fs)). issues_go.
Qed.
End OneChange.
