(* ===== verification/KcpFrame.v ===== *)
(** What a reconciliation leaves as it is: the specification and the identity of
    the KThreesControlPlane, its finalizers, the machines under their names; and
    the deletion of a control plane, which rests on it. *)

From S2P Require Import Prelude GoStd Effects ApiTypes Api Ssa ContractVersion Capi K3sConfig Certificates Kubeconfig Token CapiLib ControlPlane Etcd Workload Conditions Remediation Scale KcpController KcpSafety.

(** ** The part of the object that a reconciliation does not change

    The specification, and the metadata but for the annotations, which record
    remediations. *)
Definition core (k : KThreesControlPlane) : KThreesControlPlaneSpec * ObjectMeta :=
  (KCPSpec k, with_annotations None (KCPMeta k)).

Definition core_cp (c : ControlPlane) : KThreesControlPlaneSpec * ObjectMeta := core (KCP c).

Lemma core_finalizers k k' : core k = core k' -> Finalizers (KCPMeta k) = Finalizers (KCPMeta k').
Proof. unfold core. intros [= _ _ _ _ _ _ _ -> _ _ _]. done. Qed.

(** The same machine but for its conditions. *)
Definition alike_machine (m m' : Machine) : Prop := exists cs, m' = with_conditions cs m.

#[export] Instance alike_machine_preorder : PreOrder alike_machine.
Proof.
  split; [intros m; exists (MachineConditions m); by destruct m|].
  intros m1 m2 m3 [cs1 ->] [cs2 ->]. by exists cs2.
Qed.

(** The same machines, with other conditions; the same object, but for its
    annotations and its status. *)
Definition alike (c c' : ControlPlane) : Prop :=
  core_cp c' = core_cp c /\ CPCluster c' = CPCluster c
  /\ forall k, option_Forall2 alike_machine (CPMachines c !! k) (CPMachines c' !! k).

#[export] Instance alike_preorder : PreOrder alike.
Proof.
  split; [intros c; split_and!; done|].
  intros c1 c2 c3 (E1 & C1 & M1) (E2 & C2 & M2). split_and!; [congruence..|].
  intros k. by transitivity (CPMachines c2 !! k).
Qed.

Lemma alike_size c c' : alike c c' -> size (CPMachines c') = size (CPMachines c).
Proof.
  intros (_ & _ & HM). rewrite <- !size_dom. f_equal. apply set_eq. intros k.
  rewrite !elem_of_dom. by destruct (HM k).
Qed.

Lemma alike_machine_of c c' k m' :
  alike c c' -> CPMachines c' !! k = Some m' -> exists m, CPMachines c !! k = Some m /\ alike_machine m m'.
Proof. intros (_ & _ & HM) Hk. specialize (HM k). rewrite Hk in HM. inversion HM; subst; eauto. Qed.

Section Frame.
Context `{CAPI} `{!ControllerLib} `{Crypto} `{MapOrder} `{RemediationCodec} `{ServerConfigCodec}
  `{Scheme} `{Texts} `{ClientCmd} `{KubeVersions}.
Context (etcdCallTimeout : Z).

Lemma same_alike mt kt c c' : same_but_conditions mt kt c c' -> alike c c'.
Proof.
  intros (HM & HK & _). split_and!; [by rewrite HK|by rewrite HK|]. intros k. specialize (HM k).
  destruct (CPMachines c !! k), (CPMachines c' !! k); try done; constructor. destruct HM. by eexists.
Qed.

Lemma mark_alike f c : alike c (mark_kcp f c).
Proof. split_and!; [done..|]. by intros k. Qed.

(** A step that only reports. *)
Definition reports_only {A} (m : M ControlPlane A) : Prop := forall c, wp m c (fun _ c' _ => alike c c').

Lemma reports_bind {A B} (m : M ControlPlane A) (f : A -> M ControlPlane B) :
  reports_only m -> (forall a, reports_only (f a)) -> reports_only (bind m f).
Proof.
  intros Hm Hf c. apply wp_bind. eapply wp_mono; [apply Hm|]. intros tr c' [a|e|] HA; [|done..].
  eapply wp_mono; [apply Hf|]. intros tr' c'' o HA'. by transitivity c'.
Qed.

Lemma reports_try {A} (m : M ControlPlane A) : reports_only m -> reports_only (try m).
Proof. intros Hm c. apply wp_try. eapply wp_mono; [apply Hm|]. by intros tr s' [a|e|]. Qed.

Lemma reports_keeps {A} (m : M ControlPlane A) : keeps (fun c => c) m -> reports_only m.
Proof. intros Hm c. eapply wp_mono; [apply Hm|]. by intros tr c' o ->. Qed.

Lemma UpdateConditions_alike w c :
  wp (UpdateAgentConditions ;;; UpdateEtcdConditions) (w, c) (fun _ s' _ => alike c s'.2).
Proof.
  apply wp_bind. eapply wp_mono; [apply UpdateAgentConditions_update|].
  intros tr1 s1 [[]|e|] ((S1 & _) & _); try by eapply same_alike.
  eapply wp_mono; [apply UpdateEtcdConditions_update|].
  intros tr2 s2 o ((S2 & _) & _). transitivity s1.2; by eapply same_alike.
Qed.

Lemma reconcileControlPlaneConditions_reports :
  reports_only (reconcileControlPlaneConditions etcdCallTimeout).
Proof.
  unfold reconcileControlPlaneConditions. apply reports_bind; [apply reports_keeps; keeps_go|]. intros c.
  destruct (negb _); [apply reports_keeps; keeps_go|].
  apply reports_bind; [apply reports_keeps, keeps_try, GetWorkloadCluster_keeps|]. intros w.
  apply reports_bind; [apply reports_keeps; keeps_go|]. intros workload. apply reports_bind.
  - intros c1. unfold on_workload, zoom, wp. rewrite always_bind.
    eapply always_mono; [|apply (UpdateConditions_alike workload c1)]. by intros tr [[w' c'] o].
  - intros _. apply reports_keeps. unfold PatchMachines, patch_one. keeps_go.
Qed.

Lemma aggregate_machines_reports : reports_only aggregate_machines.
Proof. intros c. apply wp_modify, mark_alike. Qed.

(** A property of the value that the last step returns. *)
Lemma wp_last {S A B} (m : M S A) (f : A -> M S B) (P : B -> Prop) s :
  (forall a s', wp (f a) s' (fun _ _ o => forall b, o = Val b -> P b)) ->
  wp (bind m f) s (fun _ _ o => forall b, o = Val b -> P b).
Proof.
  intros Hf. apply wp_bind. unfold wp at 1. apply always_exec. intros tr [s' [a|e|]] _; [|done..]. apply Hf.
Qed.

Definition control_plane_of (cluster : Cluster) (kcp : KThreesControlPlane) (owned : Machines)
    (c : ControlPlane) : Prop := KCP c = kcp /\ CPCluster c = cluster /\ CPMachines c = owned.

Lemma NewControlPlane_of {S} cluster kcp owned (s : S) :
  wp (NewControlPlane cluster kcp owned) s (fun tr s' o =>
    s' = s /\ issued is_delete_machine tr = 0
    /\ forall c, o = Val c -> control_plane_of cluster kcp owned c).
Proof.
  unfold NewControlPlane. apply wp_and.
  { apply keeps_of. unfold getInfraResources, getKThreesConfigs. keeps_go. }
  apply wp_and.
  { apply (at_most_0 is_delete_machine). unfold getInfraResources, getKThreesConfigs. issues_go. }
  repeat (apply wp_last; intros). apply wp_ret. by intros c [= <-].
Qed.

(** ** Deletion *)

Lemma delete_machine_ok errs m c :
  wp (delete_machine errs m) c (fun tr c' o => c' = c
    /\ exists r, tr = [ev (DeleteMachine m) r]
       /\ exists errs', o = Val errs' /\ (errs' = [] -> errs = [] /\ forall e, r = inr e -> IsNotFound e = true)).
Proof.
  unfold delete_machine. apply wp_bind, wp_call. intros r. cbn beta.
  destruct r as [u|e]; [|destruct (IsNotFound e) eqn:E]; apply wp_ret; (split; [done|]); eexists;
    (split; [reflexivity|]); eexists; (split; [reflexivity|]).
  - intros ->. by split.
  - intros ->. split; [done|]. by intros ? [= ->].
  - by intros [??]%app_nil.
Qed.

(** A machine that was asked to go, or that had gone. *)
Definition let_go (tr : list event) (m : Machine) : Prop :=
  exists r, ev (DeleteMachine m) r ∈ tr /\ forall e, r = inr e -> IsNotFound e = true.

Definition deletion_of (ms : list Machine) (e : event) : Prop :=
  exists m r, m ∈ ms /\ e = ev (DeleteMachine m) r.

Lemma delete_loop_ok ms c :
  wp (fold_each ms [] delete_machine) c (fun tr c' o => c' = c
    /\ Forall (deletion_of ms) tr
    /\ exists errs, o = Val errs /\ (errs = [] -> forall m, m ∈ ms -> let_go tr m)).
Proof.
  eapply wp_mono; [apply (wp_fold_each (fun vis (tr : list event) c' errs => c' = c
      /\ Forall (deletion_of ms) tr
      /\ (errs = [] -> forall m, m ∈ vis -> let_go tr m)) (fun _ _ _ => False) _ _ _ [] [])|].
  - split_and!; [done|constructor|by intros _ m Hm%elem_of_nil].
  - intros vis m errs tr c' Hm (-> & Htr & Hgo). eapply wp_mono; [apply delete_machine_ok|].
    intros tr' c' o (-> & r & -> & errs' & -> & Herr). split_and!; [done| |].
    + apply Forall_app. split; [done|]. repeat constructor. by exists m, r.
    + intros He. destruct (Herr He) as [He0 Hr]. intros m' [Hm'|Hm'%list_elem_of_singleton]%elem_of_app.
      * destruct (Hgo He0 m' Hm') as (r' & Hin & Hr'). exists r'. rewrite elem_of_app. tauto.
      * subst m'. exists r. rewrite elem_of_app. split; [right; left|done].
  - intros tr c' [errs|e|]; simpl; [|done..]. intros (-> & Htr & Hgo). eauto 10.
Qed.

Lemma alike_deletion m m' : alike_machine m m' -> HasDeletionTimestamp m' = HasDeletionTimestamp m.
Proof. intros [cs ->]. by rewrite !HasDeletionTimestamp_spec. Qed.

(** What is done to the machines of a control plane that is being deleted: none
    is deleted while the cluster has others, else each of those that are not
    being deleted already is. *)
Definition deletes_all (machines : Machines) (tr : list event) : Prop :=
  forall k m, machines !! k = Some m -> HasDeletionTimestamp m = false ->
    exists m', alike_machine m m' /\ let_go tr m'.

Definition deletes_some (machines : Machines) (tr : list event) : Prop :=
  forall m' r, ev (DeleteMachine m') r ∈ tr ->
    exists k m, machines !! k = Some m /\ alike_machine m m' /\ HasDeletionTimestamp m = false.

Lemma deletes_some_none ms tr : issued is_delete_machine tr = 0 -> deletes_some ms tr.
Proof. intros H0' m r Hin. rewrite issued_0 in H0'. by specialize (H0' _ Hin). Qed.

Lemma no_change_deletes tr :
  Forall (fun e => no_change (projT1 e) = true) tr -> issued is_delete_machine tr = 0.
Proof.
  intros HF. apply issued_0. intros [c r] He. rewrite Forall_forall in HF. apply HF in He. by destruct c.
Qed.

(** The machines that are deleted, and the machines before the conditions were
    updated. *)
Lemma deletions_of_alike c c' tr :
  alike c c' ->
  Forall (deletion_of (range_values (Filter (fun m => negb (HasDeletionTimestamp m)) (CPMachines c')))) tr ->
  deletes_some (CPMachines c) tr.
Proof.
  intros HA HF m' r Hin. rewrite Forall_forall in HF. apply HF in Hin as (m1 & r1 & Hm & E).
  apply ev_DeleteMachine_inj in E as [-> _].
  apply elem_of_range_values in Hm as [k Hk]. apply Filter_lookup in Hk as [Hk Hd%negb_true_iff].
  destruct (alike_machine_of c c' k m1 HA Hk) as (m & Hm & Ha). exists k, m. split_and!; [done..|].
  by rewrite <- (alike_deletion m m1).
Qed.

Lemma all_deleted c c' tr tr' :
  alike c c' ->
  (forall m, m ∈ range_values (Filter (fun m => negb (HasDeletionTimestamp m)) (CPMachines c')) -> let_go tr m) ->
  tr ⊆ tr' -> deletes_all (CPMachines c) tr'.
Proof.
  intros (_ & _ & HA) Hgo Hsub k m Hk Hd. specialize (HA k). rewrite Hk in HA.
  inversion HA as [? m' Ha E1 E2|]; subst. exists m'. split; [done|].
  destruct (Hgo m') as (r & Hin & Hr); [|exists r; split; [by apply Hsub|done]].
  apply elem_of_range_values. exists k. apply Filter_lookup. split; [done|].
  by rewrite (alike_deletion m m'), Hd.
Qed.

Lemma delete_control_plane_ok n c :
  wp (delete_control_plane etcdCallTimeout n) c (fun tr c' o =>
    core_cp c' = core_cp c
    /\ (n <> size (CPMachines c) -> issued is_delete_machine tr = 0)
    /\ deletes_some (CPMachines c) tr
    /\ forall res, o = Val res -> res = requeueAfter deleteRequeueAfter
        /\ (n = size (CPMachines c) -> deletes_all (CPMachines c) tr)).
Proof.
  unfold delete_control_plane. apply wp_bind. eapply wp_mono.
  { apply wp_and; [apply reports_try, reconcileControlPlaneConditions_reports|].
    apply issues_try, reconcileControlPlaneConditions_no_change. }
  intros tr1 c1 o1 [HA HF%no_change_deletes].
  destruct o1 as [a|e|]; [|by split_and!; [apply HA|done|apply deletes_some_none|]..].
  apply wp_bind, wp_modify. cbn beta. set (c2 := mark_kcp _ c1).
  assert (HA2 : alike c c2) by (transitivity c1; [done|apply mark_alike]).
  apply wp_bind, wp_get. cbn beta. rewrite (alike_size c c2 HA2).
  destruct (Nat.eqb_spec n (size (CPMachines c))) as [E|E]; cbn [negb].
  2: { apply wp_bind, wp_modify, wp_ret. rewrite !app_nil_r.
    split_and!; [apply HA2|done|by apply deletes_some_none|]. intros res [= <-]. by split. }
  apply wp_bind. eapply wp_mono; [apply delete_loop_ok|].
  intros tr3 c3 o3 (-> & HD & errs & -> & Hgo). cbn match.
  assert (HS : forall tr, issued is_delete_machine tr = 0 ->
    deletes_some (CPMachines c) (tr1 ++ [] ++ [] ++ tr3 ++ tr)).
  { intros tr HN. intros m' r. rewrite !elem_of_app, !elem_of_nil.
    intros [Hin|[[]|[[]|[Hin|Hin]]]].
    - by apply (deletes_some_none _ _ HF m' r).
    - by apply (deletions_of_alike c c2 tr3 HA2 HD m' r).
    - by apply (deletes_some_none _ _ HN m' r). }
  destruct (NewAggregate errs) as [err|] eqn:Ee.
  - apply wp_bind, wp_call. intros r. apply wp_throw. split_and!; [apply HA2|done|by apply HS|done].
  - apply NewAggregate_None in Ee. apply wp_bind, wp_modify, wp_ret.
    split_and!; [apply HA2|done|by apply HS|]. intros res [= <-]. split; [done|]. intros _.
    eapply all_deleted; [exact HA2|by apply Hgo|]. intros x. rewrite !elem_of_app. tauto.
Qed.

Definition release (k : KThreesControlPlane) : KThreesControlPlane :=
  with_kcp_meta (with_finalizers
    (RemoveFinalizer KThreesControlPlaneFinalizer (Finalizers (KCPMeta k))) (KCPMeta k)) k.

Lemma Filter_all ms : Filter (fun m => forallb (fun f => f m) []) ms = ms.
Proof.
  apply map_eq. intros k. destruct (ms !! k) as [m|] eqn:E; [by apply Filter_lookup|].
  destruct (Filter _ ms !! k) as [m|] eqn:E'; [|done]. apply Filter_lookup in E' as [E' _]. congruence.
Qed.

(** The outcome of a deletion that was given the list [ml]. *)
Definition deletion_step (kcp : KThreesControlPlane) (ml : list Machine) (tr : list event)
    (kcp' : KThreesControlPlane) (o : outcome Result) : Prop :=
  let machines := FromMachineList ml in
  let owned := Filter (OwnedMachines kcp) machines in
  if (size owned =? 0)%nat then tr = [] /\ kcp' = release kcp /\ o = Val emptyResult
  else
    core kcp' = core kcp
    /\ (owned <> machines -> issued is_delete_machine tr = 0)
    /\ deletes_some owned tr
    /\ forall res, o = Val res -> res = requeueAfter deleteRequeueAfter
        /\ (owned = machines -> deletes_all owned tr).

Lemma reconcileDelete_ok cluster kcp :
  wp (reconcileDelete etcdCallTimeout cluster) kcp (fun tr kcp' o =>
    exists r tr', tr = ev (ListMachines false (ClusterKey cluster)) r :: tr'
      /\ match r with
         | inl ml => deletion_step kcp ml tr' kcp' o
         | inr err => tr' = [] /\ kcp' = kcp /\ o = Err (EWrap "failed to list machines" err)
         end).
Proof.
  unfold reconcileDelete, GetMachinesForCluster, deletion_step.
  apply wp_bind, wp_get, wp_bind, wp_bind, wp_call. intros [ml|err].
  2: { apply wp_bind, wp_throw. by exists (inr err), []. }
  apply wp_bind, wp_ret, wp_ret. rewrite Filter_all. cbn beta zeta.
  set (machines := FromMachineList ml). set (owned := Filter (OwnedMachines kcp) machines).
  destruct (size owned =? 0)%nat eqn:E.
  { apply wp_bind, wp_modify, wp_ret. exists (inl ml), []. subst owned machines. by rewrite E. }
  apply wp_bind. eapply wp_mono; [apply NewControlPlane_of|].
  intros tr1 s1 o1 (-> & HD & Hc).
  destruct o1 as [c|e|]; [|exists (inl ml), tr1; (split; [by rewrite ?app_nil_r|]);
    subst owned machines; cbv zeta; rewrite E; split_and!; [done|by intros _|by apply deletes_some_none|done]..].
  destruct (Hc c eq_refl) as (HK & HC & HM). unfold on_control_plane, zoom, wp. rewrite always_bind.
  replace (set_kcp kcp c) with c by (destruct c; simpl in *; by subst).
  eapply always_mono; [|apply delete_control_plane_ok].
  intros tr2 [c' o] (Hcore & Hno & Hsome & Hres). cbn [always fst snd].
  rewrite !app_nil_r. exists (inl ml), (tr1 ++ tr2). split; [done|].
  rewrite HM in *. cbv zeta. fold machines owned. rewrite E.
  assert (Hsz : size machines = size owned <-> owned = machines).
  { split; [|congruence]. intros Hs. apply map_subseteq_size_eq; [apply Filter_subseteq|lia]. }
  split_and!.
  - etransitivity; [exact Hcore|]. unfold core_cp. by rewrite HK.
  - intros Hne. rewrite issued_app, HD, Hno; [done|]. by rewrite Hsz.
  - intros m' r. rewrite elem_of_app. intros [Hin|Hin]; [by apply (deletes_some_none owned _ HD m' r)|by eapply Hsome].
  - intros res Ho. destruct (Hres res Ho) as [-> Hall]. split; [done|]. intros Eq k m Hk Hd.
    destruct (Hall (proj2 Hsz Eq) k m Hk Hd) as (m' & Ha & r & Hin & Hr). exists m'. split; [done|].
    exists r. rewrite elem_of_app. tauto.
Qed.

(** C3: deleting a control plane is orderly. It looks at the machines of the
    cluster first. When it owns none of them, its finalizer is released and
    nothing else happens. Otherwise its specification, identity and finalizers
    stay; while the cluster has other machines, none is deleted; else only
    machines that it owns and that are not being deleted already are deleted,
    and, unless an error is returned, every one of them was asked to go (or had
    gone); and the reconciliation asks to come back. *)
Theorem reconcileDelete_spec cluster kcp :
  wp (reconcileDelete etcdCallTimeout cluster) kcp (fun tr kcp' o =>
    exists r tr', tr = ev (ListMachines false (ClusterKey cluster)) r :: tr'
      /\ match r with
         | inl ml => deletion_step kcp ml tr' kcp' o
         | inr err => tr' = [] /\ kcp' = kcp /\ o = Err (EWrap "failed to list machines" err)
         end).
Proof. apply reconcileDelete_ok. Qed.

(** ** The specification and the identity stay *)

Lemma reports_core {A} (m : M ControlPlane A) : reports_only m -> keeps core_cp m.
Proof. intros Hm c. eapply wp_mono; [apply Hm|]. by intros tr c' o [Hc _]. Qed.

Lemma GetWorkloadCluster_core {S X} (f : S -> X) key : keeps f (GetWorkloadCluster etcdCallTimeout key).
Proof. apply keeps_of_wp, GetWorkloadCluster_keeps. Qed.

Lemma with_workload_core {X A} (f : ControlPlane -> X) w (m : M Workload A) : keeps f (with_workload w m).
Proof. apply keeps_of_wp, with_workload_keeps. Qed.
#[local] Hint Resolve GetWorkloadCluster_core with_workload_core : keeps.

Lemma syncMachines_core : keeps core_cp syncMachines.
Proof.
  unfold syncMachines, sync_machine, sync_infra, sync_config, updateMachine, updateExternalObject,
    computeDesiredMachine, CleanUpManagedFieldsForSSAAdoption, DropManagedFields, GetAPIVersion, GetGKMetadata,
    PatchCached, drop_entry.
  cbn [MergePatch machine_object config_object external_object Apply machine_appliable external_appliable].
  keeps_go.
Qed.

Lemma reconcileEtcdMembers_core : keeps core_cp (reconcileEtcdMembers etcdCallTimeout).
Proof. unfold reconcileEtcdMembers. keeps_go. Qed.

Lemma with_deferred_patch_keeps {X} (f : ControlPlane -> X) before body :
  keeps f body -> keeps f (with_deferred_patch before body).
Proof.
  intros Hb c. unfold with_deferred_patch, wp. rewrite always_bind.
  eapply always_mono; [|apply (Hb c)]. intros tr [c' o] Hc r. destruct r as [u|e]; [|destruct o]; apply Hc.
Qed.
#[local] Hint Resolve with_deferred_patch_keeps : keeps.

Lemma reconcileUnhealthyMachines_core : keeps core_cp (reconcileUnhealthyMachines etcdCallTimeout).
Proof.
  unfold reconcileUnhealthyMachines, cleanup_remediated. keeps_go. apply with_deferred_patch_keeps.
  unfold remediate, checkRetryLimits, initialized_checks, forward_and_hook, delete_and_track, waiting,
    owner_remediated, canSafelyRemoveEtcdMember, add_preterminate_hook, machine_annotations.
  keeps_go.
Qed.

Lemma clone_core spec fd : keeps core_cp (cloneConfigsAndGenerateMachine spec fd).
Proof.
  unfold cloneConfigsAndGenerateMachine, computeDesiredMachine, generateKThreesConfig, createMachine,
    cleanupFromGeneration, cleanup_ref, Patch. cbn [Apply machine_appliable]. keeps_go.
Qed.
#[local] Hint Resolve clone_core : keeps.

Lemma rollout_or_scale_core : keeps core_cp (rollout_or_scale etcdCallTimeout).
Proof.
  unfold rollout_or_scale, upgradeControlPlane, scale_to_replicas, cp_mark, initializeControlPlane,
    scaleUpControlPlane, scaleDownControlPlane, preflightChecks, GetMachinesForCluster,
    add_preterminate_hook, machine_annotations.
  keeps_go.
Qed.

Lemma reconcile_control_plane_core : keeps core_cp (reconcile_control_plane etcdCallTimeout).
Proof.
  pose proof syncMachines_core. pose proof reconcileEtcdMembers_core.
  pose proof reconcileUnhealthyMachines_core. pose proof rollout_or_scale_core.
  pose proof (reports_core _ reconcileControlPlaneConditions_reports).
  unfold reconcile_control_plane, aggregate_machines. keeps_go.
Qed.

Lemma reconcile_core cluster : keeps core (reconcile etcdCallTimeout cluster).
Proof.
  assert (HC : forall c, keeps core (on_control_plane c (reconcile_control_plane etcdCallTimeout))).
  { intros c. apply (keeps_zoom_in core core_cp); [done|done|apply reconcile_control_plane_core]. }
  assert (HE : forall cluster ref, keeps core (reconcileExternalReference cluster ref))
    by (intros; unfold reconcileExternalReference; keeps_go).
  assert (HT : forall by_ref set_ref key owner, keeps core (Token.Reconcile by_ref set_ref key owner))
    by (intros; unfold Token.Reconcile, getSecret, generateAndStore, randomB64; keeps_go).
  assert (HX : forall now t infos, keeps core (expires_soon now t infos))
    by (intros now t infos; induction infos; simpl; keeps_go).
  assert (HK : forall key h p k, keeps core (reconcileKubeconfig key h p k)).
  { intros. unfold reconcileKubeconfig, GetFromNamespacedName, CreateSecretWithOwner, GenerateSecretWithOwner,
      NeedsClientCertRotation, RegenerateSecret, generateKubeconfig, decoded, dependent_secret, New.
    keeps_go. }
  unfold reconcile, mark, with_local, GetMachinesForCluster, NewControlPlane, getInfraResources, getKThreesConfigs.
  keeps_go.
Qed.

Lemma updateStatus_core cluster : keeps core (updateStatus etcdCallTimeout cluster).
Proof.
  unfold updateStatus, resized, workload_status, surface_remediation, latest_remediation, mark, with_local,
    GetMachinesForCluster, NewControlPlane, getInfraResources, getKThreesConfigs.
  keeps_go.
Qed.

(** ** The whole reconciliation *)

(** A list of the cluster's machines in the same execution held none that [k]
    owns. *)
Definition saw_no_machine (cluster : Cluster) (k : KThreesControlPlane) (tr : list event) : Prop :=
  exists ml, ev (ListMachines false (ClusterKey cluster)) (inl ml) ∈ tr
    /\ forall n m, FromMachineList ml !! n = Some m -> OwnedMachines k m = false.

(** What the steps before the status make of the object. *)
Definition worked (cluster : Cluster) (k k' : KThreesControlPlane) (tr : list event) : Prop :=
  core k' = core k
  \/ (TimePtr_IsZero (DeletionTimestamp (KCPMeta k)) = false /\ core k' = core (release k)
      /\ issued is_change tr = 0 /\ saw_no_machine cluster k tr).

Lemma reconcile_or_delete_ok cluster k :
  wp (if negb (TimePtr_IsZero (DeletionTimestamp (KCPMeta k)))
      then reconcileDelete etcdCallTimeout cluster else reconcile etcdCallTimeout cluster) k
    (fun tr k' _ => issued is_patch tr = 0
      /\ (TimePtr_IsZero (DeletionTimestamp (KCPMeta k)) = true -> (issued is_change tr <= 1)%nat)
      /\ worked cluster k k' tr).
Proof.
  unfold worked. destruct (TimePtr_IsZero (DeletionTimestamp (KCPMeta k))) eqn:Ed; cbn [negb].
  - eapply wp_mono; [apply wp_and; [apply reconcile_one|apply reconcile_core]|].
    cbv beta. intros tr k' o [[? ?] ?]. auto.
  - eapply wp_mono; [apply wp_and; [apply reconcileDelete_ok|apply at_most_0, reconcileDelete_no_patch]|].
    cbv beta. intros tr k' o ((r & tr' & -> & Hr) & Hp). split; [done|]. split; [done|].
    destruct r as [ml|err]; [|left; by destruct Hr as (_ & -> & _)].
    unfold deletion_step in Hr. destruct (_ =? 0)%nat eqn:E; [|left; by destruct Hr as [-> _]].
    destruct Hr as (-> & -> & _). right. split_and!; [done..|]. exists ml. split; [left|].
    apply Filter_size_0. apply Nat.eqb_eq in E. rewrite E. done.
Qed.

(** The one patch at the end. *)
Definition patched_last (before k : KThreesControlPlane) (tr : list event) : Prop :=
  exists tr0, issued is_change tr0 = 0 /\ issued is_patch tr0 = 0
    /\ (tr = tr0 \/ exists after owned r, core after = core k /\ tr = tr0 ++ [ev (PatchKCP before after owned) r]).

Lemma patch_then_ok before k (f : unit + error -> M KThreesControlPlane Result) :
  (forall p s, wp (f p) s (fun tr _ _ => tr = [])) ->
  wp (p <- try (patchKThreesControlPlane before) ;; f p) k (fun tr _ _ =>
    exists after owned r, core after = core k /\ tr = [ev (PatchKCP before after owned) r]).
Proof.
  intros Hf. unfold patchKThreesControlPlane, mark.
  apply wp_bind, wp_try, wp_bind, wp_modify, wp_bind, wp_get, wp_bind, wp_call. intros r.
  destruct r as [u|e]; [apply wp_ret|apply wp_throw]; (eapply wp_mono; [apply Hf|]);
    intros ? ? ? ->; eexists _, _, _; (split; [|reflexivity]); reflexivity.
Qed.

Lemma finish_ok before cluster r k :
  wp (u <- try (updateStatus etcdCallTimeout cluster) ;;
      finish before r u) k (fun tr _ _ => patched_last before k tr).
Proof.
  apply wp_bind, wp_try. eapply wp_mono.
  { apply wp_and; [apply updateStatus_no_change|apply updateStatus_core]. }
  cbv beta. intros tr k' o [[E1 E2]%no_change_issued Hc].
  assert (HP : forall u, wp (finish before r u) k' (fun tr' _ _ => patched_last before k (tr ++ tr'))).
  { intros u. eapply wp_mono; [apply patch_then_ok|].
    - intros p s. wp_go; done.
    - cbv beta. intros tr' _ _ (after & owned & r' & Ha & ->). exists tr. split_and!; [done..|].
      right. exists after, owned, r'. split; [congruence|done]. }
  destruct o as [u|e|]; [apply HP|apply HP|]. exists tr. auto.
Qed.

Lemma worked_app cluster k k' tr tr' after :
  worked cluster k k' tr -> core after = core k' -> issued is_change tr' = 0 ->
  worked cluster k after (tr ++ tr').
Proof.
  unfold worked. intros [Hc|(Hd & Hc & Hi & ml & Hin & Hml)] Ha Hi'; [left; congruence|right].
  split_and!; [done|congruence|rewrite issued_app; lia|]. exists ml. split; [|done]. apply elem_of_app. by left.
Qed.

Lemma not_patch_in tr b after owned r : issued is_patch tr = 0 -> ev (PatchKCP b after owned) r ∉ tr.
Proof. rewrite issued_0. intros HN Hin. by specialize (HN _ Hin). Qed.

Lemma ev_PatchKCP_inj b b' a a' w w' r r' :
  ev (PatchKCP b a w) r = ev (PatchKCP b' a' w') r' -> b = b' /\ a = a'.
Proof. intros E. apply (f_equal ev_cmd) in E. by injection E. Qed.

Lemma reconcile_and_patch_ok before cluster :
  wp (reconcile_and_patch etcdCallTimeout before cluster) before (fun tr _ _ =>
    (issued is_patch tr <= 1)%nat
    /\ (TimePtr_IsZero (DeletionTimestamp (KCPMeta before)) = true -> (issued is_change tr <= 1)%nat)
    /\ forall b after owned r, ev (PatchKCP b after owned) r ∈ tr -> b = before /\ worked cluster before after tr).
Proof.
  apply wp_bind, wp_try. eapply wp_mono; [apply reconcile_or_delete_ok|].
  intros tr1 k1 o1 (P1 & C1 & W1).
  assert (HF : forall r, wp (u <- try (updateStatus etcdCallTimeout cluster) ;; finish before r u) k1
    (fun tr' _ _ => (issued is_patch (tr1 ++ tr') <= 1)%nat
    /\ (TimePtr_IsZero (DeletionTimestamp (KCPMeta before)) = true -> (issued is_change (tr1 ++ tr') <= 1)%nat)
    /\ forall b after owned r, ev (PatchKCP b after owned) r ∈ tr1 ++ tr' ->
         b = before /\ worked cluster before after (tr1 ++ tr'))).
  { intros r. eapply wp_mono; [apply finish_ok|]. intros tr' k' o (tr0 & E1 & E2 & HT).
    destruct HT as [->|(after & owned & r' & Ha & ->)].
    - rewrite !issued_app, E1, E2. split_and!; [lia|intros; rewrite Nat.add_0_r; auto|].
      intros b a w r0 [Hin|Hin]%elem_of_app; by apply not_patch_in in Hin.
    - count_events. rewrite E1, E2. split_and!; [lia|intros Hd; specialize (C1 Hd); lia|].
      intros b a w r0. rewrite !elem_of_app, list_elem_of_singleton. intros [Hin|[Hin|Hin]];
        [by apply not_patch_in in Hin..|]. apply ev_PatchKCP_inj in Hin as [-> ->]. split; [done|].
      eapply worked_app; [exact W1|done|]. count_events. lia. }
  destruct o1 as [res|e|]; [apply HF|apply HF|]. split_and!; [lia|done|].
  intros b a w r0 Hin. by apply not_patch_in in Hin.
Qed.

(** What one reconciliation does to the object and to its machines. *)
Definition reconciled (req : ObjectKey) (tr : list event) : Prop :=
  (issued is_patch tr <= 1)%nat
  /\ ((forall k, ev (GetKCP req) (inl k) ∈ tr -> TimePtr_IsZero (DeletionTimestamp (KCPMeta k)) = true) ->
      (issued is_change tr <= 1)%nat)
  /\ forall before after owned r, ev (PatchKCP before after owned) r ∈ tr ->
       ev (GetKCP req) (inl before) ∈ tr
       /\ (after = with_finalizer before /\ issued is_change tr = 0
           \/ exists cluster, ev (GetOwnerCluster (KCPMeta before)) (inl (Some cluster)) ∈ tr
                /\ worked cluster before after tr).

Lemma reconciled_nothing req tr :
  issued is_patch tr = 0 -> issued is_change tr = 0 -> reconciled req tr.
Proof.
  intros HP HC. unfold reconciled. rewrite HP, HC. split_and!; [lia|lia|].
  intros b a w r Hin. by apply not_patch_in in Hin.
Qed.

Lemma Reconcile_ok req : wp (Reconcile etcdCallTimeout req) tt (fun tr _ _ => reconciled req tr).
Proof.
  unfold Reconcile. apply wp_bind, wp_call. intros [kcp|err]; [|by wp_go; apply reconciled_nothing].
  apply wp_bind, wp_call. intros [[cluster|]|err]; [|by wp_go; apply reconciled_nothing..].
  destruct (IsPaused cluster kcp); [by wp_go; apply reconciled_nothing|].
  destruct (negb _); [by wp_go; apply reconciled_nothing|].
  apply wp_bind, wp_call. intros [u|err]; [|by wp_go; apply reconciled_nothing].
  destruct (negb _).
  - apply wp_bind, wp_call. intros p.
    assert (HR : reconciled req [ev (GetKCP req) (inl kcp); ev (GetOwnerCluster (KCPMeta kcp)) (inl (Some cluster));
      ev (NewKCPPatchHelper kcp) (inl u); ev (PatchKCP kcp (with_finalizer kcp) []) p]).
    { split_and!; [count_events; lia|intros _; count_events; lia|]. intros b a w r Hin.
      assert (E : b = kcp /\ a = with_finalizer kcp).
      { rewrite !elem_of_cons, elem_of_nil in Hin.
        destruct Hin as [Hin|[Hin|[Hin|[Hin|[]]]]]; apply (f_equal ev_cmd) in Hin; try done.
        by injection Hin. }
      destruct E as [-> ->]. split; [left|]. left. split; [done|by count_events]. }
    destruct p as [x|err]; apply wp_bind; [apply wp_ret, wp_ret|apply wp_throw]; exact HR.
  - apply wp_with_local. eapply wp_mono; [apply (reconcile_and_patch_ok kcp cluster)|].
    intros tr k' o (P1 & C1 & W1). split_and!.
    + count_events. lia.
    + intros Hd. count_events. apply C1, Hd. left.
    + intros b a w r Hin. assert (Hin' : ev (PatchKCP b a w) r ∈ tr).
      { simpl in Hin. rewrite !elem_of_cons in Hin.
        destruct Hin as [Hin|[Hin|[Hin|Hin]]]; [by apply (f_equal ev_cmd) in Hin..|done]. }
      destruct (W1 b a w r Hin') as [-> HW]. split; [left|]. right. exists cluster.
      split; [right; left|]. destruct HW as [HW|(Hd & Hc & Hi & ml & Hin2 & Hml)]; [by left|].
      right. split_and!; [done..|by count_events|]. exists ml. split; [|done]. by do 3 right.
Qed.

(** The machines asked to be deleted and those begun to be made, by the first
    command of each. *)
Definition machine_changes (tr : list event) : nat :=
  issued is_delete_machine tr + issued is_create_from_template tr.

(** C1: one reconciliation changes the set of machines at most once. Unless the
    object is being deleted, all its steps together (the remediation of an
    unhealthy machine, a rollout, scaling up or down, the first machine)
    delete at most one machine or clone at most one infrastructure object for a
    new one, never both: when a machine was deleted, nothing that follows in the
    same reconciliation acts on the machines it knew before. *)
Theorem Reconcile_one_change req :
  wp (Reconcile etcdCallTimeout req) tt (fun tr _ _ =>
    (forall k, ev (GetKCP req) (inl k) ∈ tr -> TimePtr_IsZero (DeletionTimestamp (KCPMeta k)) = true) ->
    (machine_changes tr <= 1)%nat).
Proof.
  eapply wp_mono; [apply Reconcile_ok|]. intros tr _ _ (_ & HC & _) Hd. unfold machine_changes. rewrite is_change_split. auto.
Qed.

(** C2: a reconciliation writes the object once, and only its own part of it.
    What it patches is the object that it was given; it leaves the
    specification and all metadata as they were, but for annotations and its
    own finalizer. The finalizer is added before anything else is done, in a
    reconciliation that does nothing else; it is released only when the object
    is being deleted, when a list of the machines of its cluster, made in the
    same reconciliation, held none that it owns, and when no machine was touched. *)
Theorem Reconcile_patches req :
  wp (Reconcile etcdCallTimeout req) tt (fun tr _ _ =>
    (issued is_patch tr <= 1)%nat
    /\ forall before after owned r, ev (PatchKCP before after owned) r ∈ tr ->
         ev (GetKCP req) (inl before) ∈ tr
         /\ (after = with_kcp_meta (with_finalizers (Finalizers (KCPMeta after)) (KCPMeta before)) before
             /\ (forall f, f ∈ Finalizers (KCPMeta after)
                   <-> f = KThreesControlPlaneFinalizer \/ f ∈ Finalizers (KCPMeta before))
             /\ issued is_change tr = 0
             \/ core after = core before
             \/ (TimePtr_IsZero (DeletionTimestamp (KCPMeta before)) = false
                 /\ core after = core (release before) /\ issued is_change tr = 0
                 /\ exists cluster, ev (GetOwnerCluster (KCPMeta before)) (inl (Some cluster)) ∈ tr
                      /\ saw_no_machine cluster before tr))).
Proof.
  eapply wp_mono; [apply Reconcile_ok|]. intros tr _ _ (HP & _ & HW). split; [done|].
  intros b a w r Hin. destruct (HW b a w r Hin) as [Hg [Hf|(cluster & Hc & [Hk|(Hd & Hk & Hi & Hs)])]];
    (split; [done|]); [|by right; left|].
  { left. destruct Hf as [-> Hi]. split; [done|]. split; [intros f; apply AddFinalizer_spec|done]. }
  right. right. split_and!; [done..|]. by exists cluster.
Qed.
End Frame.
