(* ===== verification/WellFormed.v ===== *)
(** The shape of the control plane in memory: every machine is kept under its own
    name, has a patch helper, and the helper of a name remembers a machine of
    that name. Every step of a reconciliation keeps this, although it replaces
    machines by what the API server answers, so that a machine is never patched
    with the content of another. *)

From S2P Require Import Prelude GoStd Effects ApiTypes Api Ssa ContractVersion Capi K3sConfig Certificates Kubeconfig Token CapiLib ControlPlane Etcd Workload Conditions Remediation Scale KcpController KcpSafety KcpFrame.

(** ** Steps that keep an invariant, given what is assumed of the answers *)

Section Keeping.
Context `{Signature} {S : Type} (assumed promised : event -> Prop) (I : S -> Prop).

(** From a state in the invariant, as long as the answers are as assumed, the
    calls are as promised, the state stays in the invariant, and a value that is
    returned satisfies [R]. *)
Definition yields {A} (R : S -> A -> Prop) (m : M S A) : Prop :=
  forall s, I s -> wp m s (fun tr s' o => Forall assumed tr ->
    Forall promised tr /\ I s' /\ forall a, o = Val a -> R s' a).

Abbreviation maintains m := (yields (fun _ _ => True) m).

Lemma yields_weaken {A} (R R' : S -> A -> Prop) (m : M S A) :
  (forall s a, R s a -> R' s a) -> yields R m -> yields R' m.
Proof.
  intros HR Hm s Hs. eapply wp_mono; [by apply Hm|]. cbn beta. intros tr s' o HP Ha.
  destruct (HP Ha) as (? & ? & ?). auto.
Qed.

Lemma yields_bind {A B} (R : S -> A -> Prop) (R' : S -> B -> Prop) (m : M S A) (f : A -> M S B) :
  yields R m ->
  (forall a s, I s -> R s a -> wp (f a) s (fun tr s' o => Forall assumed tr ->
     Forall promised tr /\ I s' /\ forall b, o = Val b -> R' s' b)) ->
  yields R' (bind m f).
Proof.
  intros Hm Hf s Hs. apply wp_bind. eapply wp_mono; [by apply Hm|]. cbn beta. intros tr s' o HP.
  destruct o as [a|e|]; [|intros Ha; destruct (HP Ha) as (? & ? & _); by split_and!..].
  apply wp_runs. intros tr' s'' o' Hr Ha. apply Forall_app in Ha as [Ha Ha'].
  destruct (HP Ha) as (Hp & Hs' & HR). specialize (Hf a s' Hs' (HR a eq_refl)). rewrite wp_runs in Hf.
  destruct (Hf tr' s'' o' Hr Ha') as (? & ? & ?). split; [by apply Forall_app|]. by split.
Qed.

(** The same when what is known of the value does not depend on the state. *)
Lemma yields_then {A B} (P : A -> Prop) (R' : S -> B -> Prop) (m : M S A) (f : A -> M S B) :
  yields (fun _ a => P a) m -> (forall a, P a -> yields R' (f a)) -> yields R' (bind m f).
Proof. intros Hm Hf. eapply yields_bind; [exact Hm|]. intros a s Hs Ha. by apply Hf. Qed.

Lemma maintains_bind {A B} (m : M S A) (f : A -> M S B) :
  maintains m -> (forall a, maintains (f a)) -> maintains (bind m f).
Proof. intros Hm Hf. eapply yields_bind; [exact Hm|]. intros a s Hs _. by apply Hf. Qed.

Lemma yields_try {A} (R : S -> A -> Prop) (m : M S A) :
  yields R m -> yields (fun s r => forall a, r = inl a -> R s a) (try m).
Proof.
  intros Hm s Hs. apply wp_try. eapply wp_mono; [by apply Hm|]. cbn beta. intros tr s' o HP.
  destruct o as [a|e|]; intros Ha; destruct (HP Ha) as (? & ? & HR); (split; [done|]); (split; [done|]);
    intros ? [= <-]; [|done..]. intros ? [= <-]. by apply HR.
Qed.

Lemma maintains_try {A} (m : M S A) : maintains m -> maintains (try m).
Proof. intros Hm. eapply yields_weaken; [|by apply yields_try]. done. Qed.

Lemma yields_ret {A} (R : S -> A -> Prop) a : (forall s, I s -> R s a) -> yields R (ret a).
Proof. intros HR s Hs. apply wp_ret. intros _. split; [constructor|]. split; [done|]. intros ? [= <-]. auto. Qed.

Lemma yields_throw {A} (R : S -> A -> Prop) e : yields R (throw e).
Proof. intros s Hs. apply wp_throw. intros _. by split_and!. Qed.

Lemma yields_panic {A} (R : S -> A -> Prop) : yields R panic.
Proof. intros s Hs. apply wp_panic. intros _. by split_and!. Qed.

Lemma yields_get (R : S -> S -> Prop) : (forall s, I s -> R s s) -> yields R get.
Proof. intros HR s Hs. apply wp_get. intros _. split; [constructor|]. split; [done|]. intros ? [= <-]. auto. Qed.

Lemma yields_lift_wrap {A} (R : S -> A -> Prop) msg r :
  (forall s a, I s -> r = inl a -> R s a) -> yields R (lift_wrap msg r).
Proof. intros HR. destruct r; [apply yields_ret; auto|apply yields_throw]. Qed.

Lemma yields_call c (R : S -> Resp c -> Prop) :
  (forall s r, I s -> assumed (ev c r) -> promised (ev c r) /\ R s r) -> yields R (call c).
Proof.
  intros HR s Hs. apply wp_call. intros r Ha. apply Forall_inv in Ha. destruct (HR s r Hs Ha).
  split; [by repeat constructor|]. split; [done|]. by intros ? [= <-].
Qed.

Lemma maintains_modify f : (forall s, I s -> I (f s)) -> maintains (modify f).
Proof. intros Hf s Hs. apply wp_modify. intros _. split_and!; auto. Qed.

Lemma maintains_fold_each {Y Acc} (xs : list Y) (acc : Acc) body (R : Acc -> Prop) :
  R acc ->
  (forall acc x, x ∈ xs -> R acc -> yields (fun _ acc' => R acc') (body acc x)) ->
  yields (fun _ acc' => R acc') (fold_each xs acc body).
Proof.
  revert acc. induction xs as [|x xs IH]; intros acc HR Hb; [by apply yields_ret|].
  eapply yields_bind; [apply Hb; [by left|done]|]. intros acc' s Hs HR'. apply IH; [done| |done].
  intros a y Hy. apply Hb. by right.
Qed.
End Keeping.

(** ** The control plane *)

Definition well_formed (names : gset string) (c : ControlPlane) : Prop :=
  dom (CPMachines c) = names /\ named (CPMachines c)
  /\ exists helpers, machinesPatchHelpers c = Some helpers /\ named helpers /\ names ⊆ dom helpers.

(** What an API server answers to an update of a machine is that machine. *)
Definition answers_itself (e : event) : Prop :=
  match projT1 e as c return resp c -> Prop with
  | ApplyMachine m | MergePatchMachine _ m => fun r =>
      match r with inl m' => MName m' = MName m | inr _ => True end
  | _ => fun _ => True
  end (projT2 e).

(** A machine is patched with its own content. *)
Definition patches_itself (e : event) : Prop :=
  match ev_cmd e with PatchMachine before after _ => MName before = MName after | _ => True end.

Definition no_machine_patch (c : cmd) : bool :=
  match c with PatchMachine _ _ _ => false | _ => true end.

(** All that [well_formed] depends on. *)
Definition shape (c : ControlPlane) : gmap string string * gomap Machine :=
  (MName <$> CPMachines c, machinesPatchHelpers c).

Lemma named_shape c c' : shape c' = shape c -> named (CPMachines c) -> named (CPMachines c').
Proof.
  intros [= Hm _] Hn k m Hk. assert (Hk' : (MName <$> CPMachines c') !! k = Some (MName m))
    by (by rewrite lookup_fmap, Hk).
  rewrite Hm, lookup_fmap in Hk'. destruct (CPMachines c !! k) as [m0|] eqn:E; [|done].
  injection Hk' as <-. by apply Hn.
Qed.

Lemma well_formed_shape names c c' : shape c' = shape c -> well_formed names c -> well_formed names c'.
Proof.
  intros E (Hd & Hn & Hh). pose proof (named_shape _ _ E Hn) as Hn'. injection E as Em Eh.
  split; [|split; [done|by rewrite Eh]]. by rewrite <- Hd, <- (dom_fmap_L MName), Em, dom_fmap_L.
Qed.

Lemma shape_update name f c :
  (forall m, MName (f m) = MName m) -> shape (update_machine name f c) = shape c.
Proof.
  intros Hf. unfold shape, update_machine. simpl. f_equal. apply map_eq. intros k. rewrite !lookup_fmap.
  destruct (decide (k = name)) as [->|Hne]; [|by rewrite lookup_alter_ne].
  rewrite lookup_alter_eq. destruct (CPMachines c !! name); [|done]. simpl. by rewrite Hf.
Qed.

Section WellFormed.
Context `{CAPI} `{!ControllerLib} `{Crypto} `{MapOrder} `{RemediationCodec} `{ServerConfigCodec}
  `{Scheme} `{Texts} `{ClientCmd} `{KubeVersions}.
Context (etcdCallTimeout : Z) (names : gset string).

(** Converting a machine keeps its name. *)
Hypothesis convert_names : forall m m', machine_convert m = inl m' -> MName m' = MName m.
Hypothesis answer_names : forall m m', machine_of_answer m = inl m' -> MName m' = MName m.

Abbreviation yields_cp := (yields answers_itself patches_itself (well_formed names)).
Abbreviation maintains m := (yields_cp (fun _ _ => True) m).

Lemma no_patch_itself tr :
  Forall (fun e => no_machine_patch (projT1 e) = true) tr -> Forall patches_itself tr.
Proof. intros HF. eapply Forall_impl; [exact HF|]. by intros [[] r]. Qed.

Lemma maintains_keeps {A} (m : M ControlPlane A) :
  keeps shape m -> issues no_machine_patch m -> maintains m.
Proof.
  intros Hk Hi s Hs. eapply wp_mono; [apply wp_and; [apply Hk|apply Hi]|]. cbn beta.
  intros tr s' o [E HF] _. split; [by apply no_patch_itself|]. split; [by eapply well_formed_shape|done].
Qed.

Lemma call_yields (c : cmd) (R : ControlPlane -> resp c -> Prop) :
  (forall s (r : resp c), well_formed names s -> answers_itself (ev c r) ->
     patches_itself (ev c r) /\ R s r) ->
  yields_cp R (call c).
Proof. exact (@yields_call _ _ answers_itself patches_itself (well_formed names) c R). Qed.

(** *** One machine is patched *)

Lemma current_names m c : well_formed names c -> MName (current m c) = MName m.
Proof. intros (_ & Hn & _). by apply current_name. Qed.

Lemma well_formed_update name f c :
  (forall m, MName (f m) = MName m) -> well_formed names c -> well_formed names (update_machine name f c).
Proof. intros Hf. by apply well_formed_shape, shape_update. Qed.

(** Closes what is left of a step that patched, if at all, what [m] points to. *)
Ltac patched_current :=
  intros _; (split; [repeat constructor; unfold patches_itself; cbn; by rewrite ?current_names by auto|]);
  (split; [auto|done]).

Lemma add_preterminate_hook_maintains m : maintains (add_preterminate_hook m).
Proof.
  intros s Hs. unfold add_preterminate_hook, machine_annotations.
  assert (forall a, well_formed names
    (update_machine (MName m) (fun m => with_meta (with_annotations a (MachineMeta m)) m) s))
    by (intros a; by apply well_formed_update).
  wp_go; patched_current.
Qed.

Lemma cleanup_remediated_maintains errs m : maintains (cleanup_remediated errs m).
Proof.
  intros s Hs. unfold cleanup_remediated.
  assert (well_formed names (update_machine (MName m) (fun m =>
      with_conditions (conditions_Delete MachineOwnerRemediatedCondition (MachineConditions m)) m) s))
    by (by apply well_formed_update).
  wp_go; patched_current.
Qed.

Lemma with_deferred_patch_maintains before body :
  maintains body -> maintains (with_deferred_patch before body).
Proof.
  intros Hb s Hs. unfold with_deferred_patch, wp. rewrite always_bind.
  eapply always_mono; [|by apply (Hb s)]. intros tr [s' o] HP r. cbn [fst snd] in *.
  assert (HQ : Forall answers_itself (tr ++ [ev (PatchMachine before (current before s')
      [MachineOwnerRemediatedCondition]) r]) ->
    Forall patches_itself (tr ++ [ev (PatchMachine before (current before s')
      [MachineOwnerRemediatedCondition]) r]) /\ well_formed names s').
  { intros Ha. apply Forall_app in Ha as [Ha _]. destruct (HP Ha) as (? & Hw & _). split; [|done].
    apply Forall_app. split; [done|]. repeat constructor. unfold patches_itself. cbn. by rewrite current_names. }
  destruct r as [u|e]; [|destruct o]; simpl; intros Ha; destruct (HQ Ha); by split_and!.
Qed.

(** *** Remediation, rollout and scaling *)

Lemma owner_remediated_shape m reason message : keeps shape (owner_remediated m reason message).
Proof. apply keeps_modify. intros c. by apply shape_update. Qed.

Lemma GetWorkloadCluster_shape key : keeps shape (GetWorkloadCluster etcdCallTimeout key).
Proof. apply keeps_of_wp, GetWorkloadCluster_keeps. Qed.

Lemma with_workload_shape {A} w (m : M Workload A) : keeps shape (with_workload w m).
Proof. apply keeps_of_wp, with_workload_keeps. Qed.
#[local] Hint Resolve owner_remediated_shape GetWorkloadCluster_shape with_workload_shape : keeps.

Lemma not_write_no_patch {S A} (m : M S A) : issues not_mgmt_write m -> issues no_machine_patch m.
Proof. apply issues_mono. by intros []. Qed.

Lemma GetWorkloadCluster_no_machine_patch {S} key :
  issues no_machine_patch (GetWorkloadCluster (S := S) etcdCallTimeout key).
Proof. apply not_write_no_patch, GetWorkloadCluster_quiet. Qed.

Lemma ForwardEtcdLeadership_no_patch m c : issues no_machine_patch (ForwardEtcdLeadership m c).
Proof. apply not_write_no_patch, ForwardEtcdLeadership_quiet. Qed.

Lemma EtcdMembers_no_patch : issues no_machine_patch EtcdMembers.
Proof. apply not_write_no_patch, EtcdMembers_quiet. Qed.
#[local] Hint Resolve GetWorkloadCluster_no_machine_patch ForwardEtcdLeadership_no_patch
  EtcdMembers_no_patch : issues.

Create HintDb maintains.
#[local] Hint Resolve add_preterminate_hook_maintains cleanup_remediated_maintains
  with_deferred_patch_maintains : maintains.

(** Follows the code to the steps that patch; the others keep the shape. *)
Ltac maintains_step :=
  first
    [ solve [auto with maintains nocore]
    | apply maintains_bind | apply maintains_try
    | progress intros
    | match goal with |- yields _ _ _ _ (match ?x with _ => _ end) => destruct x end
    | solve [apply maintains_keeps; [keeps_go|issues_go]] ].

Ltac maintains_go := repeat maintains_step.

Lemma remediate_maintains m now : maintains (remediate etcdCallTimeout m now).
Proof.
  unfold remediate, checkRetryLimits, initialized_checks, forward_and_hook, delete_and_track, waiting,
    canSafelyRemoveEtcdMember, with_workload.
  maintains_go.
Qed.
#[local] Hint Resolve remediate_maintains : maintains.

Lemma reconcileUnhealthyMachines_maintains : maintains (reconcileUnhealthyMachines etcdCallTimeout).
Proof.
  unfold reconcileUnhealthyMachines. maintains_go.
  eapply yields_weaken; [|by apply (maintains_fold_each _ _ _ _ _ _ (fun _ => True)); auto with maintains nocore].
  done.
Qed.

Lemma clone_shape spec fd : keeps shape (cloneConfigsAndGenerateMachine spec fd).
Proof.
  unfold cloneConfigsAndGenerateMachine, computeDesiredMachine, generateKThreesConfig, createMachine,
    cleanupFromGeneration, cleanup_ref, Patch. cbn [Apply machine_appliable]. keeps_go.
Qed.

Lemma clone_no_machine_patch spec fd : issues no_machine_patch (cloneConfigsAndGenerateMachine spec fd).
Proof.
  unfold cloneConfigsAndGenerateMachine, computeDesiredMachine, generateKThreesConfig, createMachine,
    cleanupFromGeneration, cleanup_ref, Patch. cbn [Apply machine_appliable]. issues_go.
Qed.

Lemma clone_maintains spec fd : maintains (cloneConfigsAndGenerateMachine spec fd).
Proof. apply maintains_keeps; [apply clone_shape|apply clone_no_machine_patch]. Qed.
#[local] Hint Resolve clone_maintains : maintains.

Lemma rollout_or_scale_maintains : maintains (rollout_or_scale etcdCallTimeout).
Proof.
  unfold rollout_or_scale, upgradeControlPlane, scale_to_replicas, cp_mark, initializeControlPlane,
    scaleUpControlPlane, scaleDownControlPlane, preflightChecks, GetMachinesForCluster, with_workload.
  maintains_go.
Qed.

(** *** Conditions *)

Lemma same_shape mt kt c c' : same_but_conditions mt kt c c' -> shape c' = shape c.
Proof.
  intros (HM & -> & _). unfold shape. f_equal. apply map_eq. intros k. rewrite !lookup_fmap.
  specialize (HM k). cbn in *. destruct (CPMachines c !! k), (CPMachines c' !! k); [|done..].
  destruct HM as [-> _]. done.
Qed.

Lemma observes_itself tr : observes tr -> Forall patches_itself tr.
Proof.
  intros HO. apply no_patch_itself. eapply Forall_impl; [exact HO|]. by intros [[] r].
Qed.

Lemma UpdateConditions_shape w c :
  wp (UpdateAgentConditions ;;; UpdateEtcdConditions) (w, c) (fun tr s' _ =>
    Forall patches_itself tr /\ shape s'.2 = shape c).
Proof.
  apply wp_bind. eapply wp_mono; [apply UpdateAgentConditions_update|].
  intros tr1 s1 [[]|e|] ((S1 & _) & (O1 & _) & _); apply observes_itself in O1; apply same_shape in S1; try done.
  eapply wp_mono; [apply UpdateEtcdConditions_update|].
  intros tr2 s2 o ((S2 & _) & (O2 & _) & _). apply observes_itself in O2. apply same_shape in S2. cbn in *.
  split; [by apply Forall_app|congruence].
Qed.

Lemma UpdateConditions_maintains w :
  maintains (on_workload w (UpdateAgentConditions ;;; UpdateEtcdConditions)).
Proof.
  intros c Hc. unfold on_workload, zoom, wp. rewrite always_bind.
  eapply always_mono; [|apply (UpdateConditions_shape w c)]. intros tr [[w' c'] o] [HF HS] _.
  cbn in *. rewrite app_nil_r. split; [done|]. split; [by eapply well_formed_shape|done].
Qed.

(** Every machine finds its own patch helper. *)
Lemma PatchMachines_maintains c :
  well_formed names c -> maintains (PatchMachines c).
Proof.
  intros (Hd & Hn & helpers & Hh & Hhn & Hsub). unfold PatchMachines. eapply yields_bind.
  - apply (maintains_fold_each _ _ _ _ _ _ (fun _ => True)); [done|]. intros errs m Hm _.
    unfold patch_one. rewrite Hh. cbn. destruct (helpers !! MName m) as [helper|] eqn:E; [|by apply yields_ret].
    apply Hhn in E. eapply yields_bind.
    + apply (call_yields (PatchMachine helper m _) (fun _ _ => True)). intros s r _ _.
      split; [exact E|done].
    + intros r s Hs _. destruct r; by apply yields_ret.
  - intros errs s Hs _. destruct (NewAggregate errs); [by apply yields_throw|by apply yields_ret].
Qed.

Lemma reconcileControlPlaneConditions_maintains :
  maintains (reconcileControlPlaneConditions etcdCallTimeout).
Proof.
  unfold reconcileControlPlaneConditions. apply maintains_bind; [maintains_go|]. intros c.
  destruct (negb _); [maintains_go|].
  apply maintains_bind; [maintains_go|]. intros w.
  apply maintains_bind; [maintains_go|]. intros workload.
  apply maintains_bind; [apply UpdateConditions_maintains|]. intros _.
  eapply (yields_bind _ _ _ (fun s c => c = s)); [by apply yields_get|].
  intros c' s Hs ->. by apply PatchMachines_maintains.
Qed.

Lemma reconcileEtcdMembers_maintains : maintains (reconcileEtcdMembers etcdCallTimeout).
Proof.
  assert (forall ns, issues no_machine_patch (ReconcileEtcdMembers ns))
    by (intros; apply not_write_no_patch, ReconcileEtcdMembers_quiet).
  unfold reconcileEtcdMembers. apply maintains_keeps; [keeps_go|unfold with_workload; issues_go].
Qed.

(** *** Machines replaced by what the API server answers *)

Lemma drop_entry_maintains paths mf : maintains (drop_entry paths mf).
Proof. apply maintains_keeps; unfold drop_entry; [keeps_go|issues_go]. Qed.

(** The object that a step returns is called like [m]. *)
Abbreviation yields_name n := (yields_cp (fun _ m => MName m = n)).

Lemma lift_res_name (r : Machine + error) n :
  (forall m', r = inl m' -> MName m' = n) -> yields_name n (lift_res r).
Proof. intros Hr. destruct r; [apply yields_ret; auto|apply yields_throw]. Qed.

Lemma CleanUp_yields m : yields_name (MName m) (CleanUpManagedFieldsForSSAAdoption m kcpManagerName).
Proof.
  unfold CleanUpManagedFieldsForSSAAdoption. cbn [MergePatch machine_object].
  destruct (hasFieldsManagedBy _ _); [by apply yields_ret|].
  do 3 (apply (yields_then _ _ _ (fun _ => True)); [by maintains_go|]; intros ? _).
  apply (yields_then _ _ _ (fun r => forall m', r = inl m' -> MName m' = MName m)).
  - apply call_yields. intros s' r _ Ha. split; [done|]. intros m' ->. exact Ha.
  - intros r Hr. by apply lift_res_name.
Qed.

Lemma PatchCached_yields updated m :
  MName updated = MName m -> yields_name (MName m) (PatchCached machine_convert updated m).
Proof.
  intros Hu. unfold PatchCached. cbn [Apply FromAnswer machine_appliable].
  do 4 (apply (yields_then _ _ _ (fun _ => True)); [by maintains_go|]; intros ? _).
  case_match.
  { apply yields_lift_wrap. intros _ m' _ Hm'. by apply convert_names. }
  apply (yields_then _ _ _ (fun r => forall m', r = inl m' -> MName m' = MName m)).
  { apply call_yields. intros s' r _ Ha. split; [done|]. intros m' ->. by rewrite <- Hu. }
  intros r Hr. apply (yields_then _ _ _ (fun m' => MName m' = MName m)).
  { apply yields_lift_wrap. auto. }
  intros answer Ha. apply (yields_then _ _ _ (fun m' => MName m' = MName m)).
  { apply yields_lift_wrap. intros _ m' _ Hm'. by rewrite (answer_names _ _ Hm'). }
  intros patched Hp. apply (yields_then _ _ _ (fun _ => True)); [by maintains_go|].
  intros _ _. by apply yields_ret.
Qed.

Lemma updateMachine_yields m kcp cluster : yields_name (MName m) (updateMachine m kcp cluster).
Proof.
  unfold updateMachine, computeDesiredMachine.
  apply (yields_then _ _ _ (fun r => forall m', r = inl m' -> MName m' = MName m)).
  { by apply yields_try, yields_ret. }
  intros d Hd. apply (yields_then _ _ _ (fun m' => MName m' = MName m)).
  { apply yields_lift_wrap. auto. }
  intros updated Hu. apply (yields_then _ _ _ (fun r => forall m', r = inl m' -> MName m' = MName m)).
  { by apply yields_try, PatchCached_yields. }
  intros r Hr. apply yields_lift_wrap. auto.
Qed.
Lemma sync_infra_maintains name : maintains (sync_infra name).
Proof.
  unfold sync_infra, updateExternalObject, DropManagedFields, drop_entry, PatchCached.
  cbn [MergePatch external_object Apply external_appliable].
  apply maintains_keeps; [keeps_go|issues_go].
Qed.

Lemma sync_config_maintains name m : maintains (sync_config name m).
Proof.
  unfold sync_config, updateExternalObject, DropManagedFields, drop_entry, PatchCached, GetAPIVersion, GetGKMetadata.
  cbn [MergePatch config_object Apply external_appliable].
  apply maintains_keeps; [keeps_go|issues_go].
Qed.

Lemma named_insert ms name m : named ms -> MName m = name -> named (<[name := m]> ms).
Proof. intros Hn Hm k m' [[<- <-]|[_ Hk]]%lookup_insert_Some; [done|by apply Hn]. Qed.

Lemma insert_maintains name m :
  name ∈ names -> MName m = name ->
  maintains (modify (fun c => set_machines (<[ name := m ]> (CPMachines c)) c)).
Proof.
  intros Hin Hm. apply maintains_modify. intros c (Hd & Hn & Hh). split; [|split; [by apply named_insert|done]].
  simpl. rewrite dom_insert_L, Hd. set_solver.
Qed.

Lemma sync_machine_maintains helpers name :
  named helpers -> yields_cp (fun _ helpers' => named helpers') (sync_machine helpers name).
Proof.
  intros Hh. unfold sync_machine. eapply (yields_bind _ _ _ (fun s c => c = s)); [by apply yields_get|].
  intros c s Hs ->. destruct (CPMachines s !! name) as [m|] eqn:E; [|by apply yields_panic].
  assert (Hm : MName m = name) by (by apply Hs).
  assert (Hin : name ∈ names) by (destruct Hs as [<- _]; apply elem_of_dom; eauto).
  destruct (negb _); [by apply yields_ret|].
  refine (yields_then _ _ _ (fun r => forall m', r = inl m' -> MName m' = name) _ _ _ _ _ s Hs).
  { apply yields_try. rewrite <- Hm. apply CleanUp_yields. }
  intros a Ha. apply (yields_then _ _ _ (fun m' => MName m' = name)); [apply yields_lift_wrap; auto|].
  intros m' Hm'. apply (yields_then _ _ _ (fun _ => True)); [by apply insert_maintains|]. intros _ _.
  apply (yields_then _ _ _ (fun r => forall m', r = inl m' -> MName m' = name)).
  { apply yields_try. rewrite <- Hm'. apply updateMachine_yields. }
  intros u Hu. apply (yields_then _ _ _ (fun m' => MName m' = name)); [apply yields_lift_wrap; auto|].
  intros updated Hup. apply (yields_then _ _ _ (fun _ => True)); [by apply insert_maintains|]. intros _ _.
  do 2 (apply (yields_then _ _ _ (fun _ => True)); [by maintains_go|]; intros ? _).
  apply (yields_then _ _ _ (fun _ => True)); [apply sync_infra_maintains|]. intros _ _.
  apply (yields_then _ _ _ (fun _ => True)); [apply sync_config_maintains|]. intros _ _.
  apply yields_ret. intros _ _. by apply named_insert.
Qed.

Lemma syncMachines_maintains : maintains syncMachines.
Proof.
  unfold syncMachines. apply maintains_bind; [maintains_go|]. intros c.
  apply (yields_then _ _ _ (fun helpers => named helpers)).
  { apply maintains_fold_each; [by intros k m Hk|]. intros acc name _. apply sync_machine_maintains. }
  intros helpers Hh. apply maintains_modify. intros c' (Hd & Hn & old & Ho & Hon & Hsub).
  split; [done|]. split; [done|]. exists (helpers ∪ old). unfold SetPatchHelpers. rewrite Ho. split; [done|].
  split; [|rewrite dom_union_L; set_solver].
  intros k m [Hk|[_ Hk]]%lookup_union_Some_raw; [by apply Hh|by apply Hon].
Qed.

Lemma reconcile_control_plane_maintains : maintains (reconcile_control_plane etcdCallTimeout).
Proof.
  pose proof syncMachines_maintains. pose proof reconcileControlPlaneConditions_maintains.
  pose proof reconcileEtcdMembers_maintains. pose proof reconcileUnhealthyMachines_maintains.
  pose proof rollout_or_scale_maintains. unfold reconcile_control_plane, aggregate_machines. maintains_go.
Qed.
End WellFormed.

(** C14: the control plane in memory stays well formed. One that is built from
    machines under their names has the same names, every machine under its own
    and a patch helper of that name for each; and every execution of the
    reconciliation of it, errors and panics included, ends in such a control
    plane with the same names, although machines are replaced by what the API
    server answers, conditions and annotations are written through pointers,
    and patch helpers are renewed for some of the machines only. On the way
    every machine is patched with content of its own, never with that of
    another. The only thing asked of the server is that it answers an update
    with the machine that was updated. *)
Theorem control_plane_well_formed `{CAPI} `{!ControllerLib} `{Crypto} `{MapOrder} `{RemediationCodec}
    `{ServerConfigCodec} `{Scheme} `{Texts} `{KubeVersions}
    (etcdCallTimeout : Z) (cluster : Cluster) (kcp : KThreesControlPlane) (owned : Machines) :
  (forall m m', machine_convert m = inl m' -> MName m' = MName m) ->
  (forall m m', machine_of_answer m = inl m' -> MName m' = MName m) ->
  named owned ->
  wp (NewControlPlane cluster kcp owned) tt (fun _ _ o => forall c, o = Val c ->
    well_formed (dom owned) c
    /\ wp (reconcile_control_plane etcdCallTimeout) c (fun tr c' _ => Forall answers_itself tr ->
         well_formed (dom owned) c' /\ Forall patches_itself tr)).
Proof.
  intros Hconv Hans Hn. eapply wp_mono; [by apply NewControlPlane_spec|]. cbn beta.
  intros tr s' o (_ & _ & Ho) c Hc. destruct (Ho c Hc) as (_ & _ & Hm & Hh & _).
  assert (Hw : well_formed (dom owned) c).
  { split; [by rewrite Hm|]. split; [by rewrite Hm|]. by exists owned. }
  split; [exact Hw|]. eapply wp_mono; [by apply (reconcile_control_plane_maintains _ (dom owned))|].
  cbn beta. intros tr' c' o' HP Ha. by destruct (HP Ha) as (? & ? & _).
Qed.

(** ** Example *)

Section Examples.
#[local] Existing Instance reference.capi.
#[local] Existing Instance reference.crypto.
#[local] Existing Instance reference_lib.controller_lib.
#[local] Instance a_config_codec : ServerConfigCodec := { json_Marshal_ServerConfig := fun _ => inl "{}" }.
#[local] Instance a_machine_scheme : Scheme := {|
  machine_GVK := fun _ => inl (mkGVK "" "Machine");
  machine_unstructured := fun _ => inl (Map []);
  machine_of_answer := inl;
  machine_convert := inl;
  config_GVK := fun _ => inl (mkGVK "" "KThreesConfig");
  config_to_external := fun c => inl (mkUnstructured "" "KThreesConfig" (ConfigMeta c));
  external_GVK := fun u => inl (mkGVK (UAPIVersion u) (UKind u));
  external_unstructured := fun _ => inl (Map []);
  external_convert := inl;
|}.

#[local] Existing Instance reference_codec.codec.
#[local] Existing Instance reference_versions.kube_versions.
#[local] Instance some_texts : Texts := {|
  Unmarshal_fields := fun _ => inl [];
  Marshal_fields := fun _ => inl "";
  GVK_String := GVKKind;
  spew_Fprintf := fun _ => inl "";
|}.

Definition one_owned : Machines := {[ "m" := named_machine "m" ]}.

(** The environment of the examples answers an update with what was sent. *)
Lemma default_answers {A} (p : prog A) w : Forall answers_itself (run default_handler p w).1.2.
Proof.
  revert w. induction p as [a|c k IH]; intros w; simpl; [constructor|].
  specialize (IH (default_resp c) w). destruct (run default_handler (k (default_resp c)) w) as [[a tr] w'].
  constructor; [by destruct c|exact IH].
Qed.

Lemma one_owned_named : named one_owned.
Proof. unfold one_owned. intros k m [<- <-]%lookup_singleton_Some. reflexivity. Qed.

(** Built from one machine and reconciled. *)
Definition built := run default_handler (NewControlPlane a_cluster (a_kcp 1 None None false) one_owned tt) tt.

Definition reconciled (c : ControlPlane) := run default_handler (reconcile_control_plane 0 c) tt.

Example control_plane_well_formed_witness :
  named one_owned /\ exists c, built.1.1.2 = Val c /\ well_formed (dom one_owned) c
    /\ well_formed (dom one_owned) (reconciled c).1.1.1 /\ Forall patches_itself (reconciled c).1.2.
Proof.
  split; [exact one_owned_named|]. destruct built as [[[s o] tr] w] eqn:Eb. cbn [fst snd].
  assert (Ho : exists c, o = Val c) by (vm_compute in Eb; injection Eb as _ <- _; eauto).
  destruct Ho as [c Hc]. exists c. split; [done|].
  assert (Hnames : forall m m' : Machine, (inl m : Machine + error) = inl m' -> MName m' = MName m)
    by congruence.
  pose proof (control_plane_well_formed 0 a_cluster (a_kcp 1 None None false) one_owned
    Hnames Hnames one_owned_named) as HW.
  rewrite wp_runs in HW. destruct (HW tr s o (run_exec _ _ _ _ _ _ Eb) c Hc) as [Hw Hr].
  split; [exact Hw|]. unfold reconciled.
  pose proof (default_answers (reconcile_control_plane 0 c) tt) as Ha.
  destruct (run default_handler (reconcile_control_plane 0 c) tt) as [[[c' o'] tr'] w'] eqn:Er.
  rewrite wp_runs in Hr. exact (Hr tr' c' o' (run_exec _ _ _ _ _ _ Er) Ha).
Defined.
End Examples.
