(* ===== verification/MachineController.v ===== *)
(** The controller of machines that are being deleted
    (controlplane/controllers/machine_controller.go): it resolves the
    pre-terminate hook once the machine's etcd member is gone. *)

From S2P Require Import Prelude GoStd Effects ApiTypes Api Capi ControlPlane Workload Remediation.

Definition errNilNodeRef : error := ESentinel "noderef is nil".
Definition errNoControlPlaneNodes : error := ESentinel "no control plane members".
Definition errClusterIsBeingDeleted : error := ESentinel "cluster is being deleted".
Definition errControlPlaneIsBeingDeleted : error := ESentinel "control plane is being deleted".

Definition etcdRemovalRequeueAfter : Z := 30 * Second.
Definition PreTerminateDeleteHookSucceededV1Beta1Condition : string := "PreTerminateDeleteHookSucceeded".

(** Cluster API's test for an annotation whose key has a prefix. *)
Class AnnotationsLib := {
  HasWithPrefix : string -> gomap string -> bool;
  HasWithPrefix_key : forall prefix annotations,
    gomap_get annotations prefix <> None -> HasWithPrefix prefix annotations = true;
}.

Section Machine.
Context `{CAPI} `{!AnnotationsLib} `{Crypto}.
Context (etcdCallTimeout : Z).

(** The hook of this controller is on the machine; reading a nil map, or a key
    that is not in the map, gives the empty string. *)
Definition hooked (m : Machine) : bool :=
  HasWithPrefix PreTerminateDeleteHookAnnotationPrefix (MAnnotations m)
  && String.eqb (default "" (gomap_get (MAnnotations m) PreTerminateDeleteHookAnnotationPrefix)) k3sHookName.

(** Whether the etcd member has to be removed: [inl tt] for a nil error. The
    caller compares the package's own errors by identity, so that no error of a
    call can be one of them: they are values here, [inr cause], and the errors
    of calls are thrown. *)
Definition isRemoveEtcdMemberNeeded {S} (cluster : Cluster) (machine : Machine)
    : M S (unit + error) :=
  if negb (TimePtr_IsZero (DeletionTimestamp (ClusterMeta cluster)))
  then ret (inr errClusterIsBeingDeleted)
  else if negb (NodeRef_IsDefined machine) then ret (inr errNilNodeRef)
  else
    deleted <-
      (if ContractRef_IsDefined (ControlPlaneRef cluster) then
         r <- call (GetExternal (ControlPlaneRef cluster) (Namespace (ClusterMeta cluster))) ;;
         match r with
         | inr err => if IsNotFound err then ret false else throw err
         | inl controlPlane => ret (negb (TimePtr_IsZero (DeletionTimestamp (UMeta controlPlane))))
         end
       else ret false) ;;
    if (deleted : bool) then ret (inr errControlPlaneIsBeingDeleted)
    else
      machines <- GetMachinesForCluster false (ClusterKey cluster) [ActiveMachines] ;;
      if (size (Filter (ControlPlaneMachines (Name (ClusterMeta cluster))) machines) =? 0)%nat
      then ret (inr errNoControlPlaneNodes) else ret (inl tt).

(** The removal of the member; [Some] is an early return. *)
Definition remove_etcd_member {S} (cluster : Cluster) (m : Machine) : M S (option Result) :=
  w <- try (GetWorkloadCluster etcdCallTimeout (ClusterKey cluster)) ;;
  workloadCluster <- lift_wrap "failed to create client to workload cluster" w ;;
  etcdRemoved <- zoom (fun _ => workloadCluster) (fun _ s => s) (RemoveEtcdMemberForMachine (Some m)) ;;
  if negb etcdRemoved then ret (Some (requeueAfter etcdRemovalRequeueAfter)) else ret None.

Definition without_hook (m : Machine) : Machine :=
  with_meta (with_annotations (gomap_delete PreTerminateDeleteHookAnnotationPrefix (MAnnotations m))
    (MachineMeta m)) m.

Definition resolve_hook {S} (m : Machine) : M S unit :=
  h <- call (NewPatchHelper m) ;;
  lift_wrap "failed to create patch helper for machine" h ;;;
  p <- call (PatchMachine m (without_hook m) []) ;;
  lift_wrap "failed patch machine" p.

(** The reconciliation of the machine that was fetched. *)
Definition fetched (m : Machine) : IO Result :=
  if TimePtr_IsZero (MDeletionTimestamp m) then ret emptyResult
  else if hooked m then
    if negb (v1_IsFalse (MachineV1Conditions m) PreTerminateDeleteHookSucceededV1Beta1Condition)
    then ret emptyResult
    else
      c <- call (GetClusterFromMetadata (MachineMeta m)) ;;
      cluster <- lift_wrap "unable to get cluster" c ;;
      n <- try (isRemoveEtcdMemberNeeded cluster m) ;;
      needed <- lift_wrap "failed to check if k3s etcd member remove is needed" n ;;
      early <- (match needed with
        | inr cause => ret None
        | inl _ => remove_etcd_member cluster m
        end) ;;
      match early with
      | Some result => ret result
      | None => resolve_hook m ;;; ret emptyResult
      end
  else ret emptyResult.

Definition Reconcile (req : ObjectKey) : IO Result :=
  g <- call (GetMachine req) ;;
  match g with
  | inr err => if IsNotFound err then ret emptyResult else throw err
  | inl m => fetched m
  end.

(** ** What it takes to resolve the hook *)

(** Why no member has to be removed. *)
Definition nothing_to_remove (cluster : Cluster) (m : Machine) (tr : list event) : Prop :=
  TimePtr_IsZero (DeletionTimestamp (ClusterMeta cluster)) = false
  \/ NodeRefName m = ""
  \/ (exists u, ev (GetExternal (ControlPlaneRef cluster) (Namespace (ClusterMeta cluster))) (inl u) ∈ tr
        /\ TimePtr_IsZero (DeletionTimestamp (UMeta u)) = false)
  \/ (exists ml, ev (ListMachines false (ClusterKey cluster)) (inl ml) ∈ tr
        /\ forall k x, FromMachineList ml !! k = Some x ->
             ~ (ActiveMachines x = true /\ ControlPlaneMachines (Name (ClusterMeta cluster)) x = true)).

(** The workload cluster showed no node of the machine, or one whose member has
    been removed. *)
Definition member_gone (key : ObjectKey) (m : Machine) (tr : list event) : Prop :=
  NodeRefName m = ""
  \/ exists all, ev (ListNodes key) (inl all) ∈ tr /\ (2 <= count is_control_plane_node all)%nat
       /\ forall n, n ∈ List.filter is_control_plane_node all ->
            NName n = NodeRefName m -> NoDup (NName <$> List.filter is_control_plane_node all) ->
            gomap_get (Annotations (NodeMeta n)) EtcdRemovedNodeAnnotation <> None.

(** The machine's node has been told to leave etcd. *)
Definition asked_to_leave (key : ObjectKey) (m : Machine) (tr : list event) : Prop :=
  exists n a, NName n = NodeRefName m /\ gomap_get a EtcdRemoveAnnotation = Some "true"
    /\ ev (PatchNode key n (mkNode (with_annotations a (NodeMeta n)) (NodeTaints n) (NodeConditions n)))
         (inl tt) ∈ tr.

Lemma nothing_to_remove_mono cluster m tr tr' :
  nothing_to_remove cluster m tr -> tr ⊆ tr' -> nothing_to_remove cluster m tr'.
Proof. unfold nothing_to_remove. intros HN Hs. naive_solver. Qed.

Lemma member_gone_mono key m tr tr' : member_gone key m tr -> tr ⊆ tr' -> member_gone key m tr'.
Proof. unfold member_gone. intros HN Hs. naive_solver. Qed.

Lemma no_active_machine name ms :
  size (Filter (ControlPlaneMachines name) (Filter (fun m => forallb (fun f => f m) [ActiveMachines]) ms)) = 0 ->
  forall k x, ms !! k = Some x -> ~ (ActiveMachines x = true /\ ControlPlaneMachines name x = true).
Proof.
  intros E k x Hk [Ha Hc]. apply map_size_empty_iff in E. rewrite Filter_empty_iff in E.
  rewrite (E k x) in Hc; [done|]. apply Filter_lookup. split; [done|]. simpl. by rewrite Ha.
Qed.

Lemma isRemoveEtcdMemberNeeded_ok {S} cluster m (s : S) :
  wp (isRemoveEtcdMemberNeeded cluster m) s (fun tr _ o => mgmt_quiet tr /\ o <> Panic
    /\ forall cause, o = Val (inr cause) -> nothing_to_remove cluster m tr).
Proof.
  unfold isRemoveEtcdMemberNeeded, nothing_to_remove, GetMachinesForCluster.
  destruct (TimePtr_IsZero _) eqn:E1; cbn [negb].
  2: { apply wp_ret. split_and!; [constructor|done|by left]. }
  destruct (NodeRef_IsDefined m) eqn:E2; cbn [negb].
  2: { apply wp_ret. split_and!; [constructor|done|]. intros _ _. right. left.
    destruct (String.eqb_spec (NodeRefName m) "") as [|Hne]; [done|].
    apply NodeRef_IsDefined_spec in Hne. congruence. }
  wp_go; rewrite ?app_nil_r; (split; [by repeat constructor|]); (split; [done|]); intros cause [=];
    do 2 right; subst.
  all: first [left; eexists; split; [left|by apply negb_true_iff]|right].
  all: match goal with E : (size _ =? 0)%nat = true |- _ => apply Nat.eqb_eq in E; rename E into Hz end.
  all: eexists; split; [|exact (no_active_machine _ _ Hz)]; simpl; rewrite ?elem_of_cons; auto.
Qed.

Lemma GetWorkloadCluster_key {S} key (s : S) :
  wp (GetWorkloadCluster etcdCallTimeout key) s (fun tr _ o => mgmt_quiet tr
    /\ forall w, o = Val w -> WCluster w = key).
Proof.
  apply wp_quiet; [apply GetWorkloadCluster_quiet|].
  unfold GetWorkloadCluster, getEtcdCAKeyPair, generateClientCert, newClientCert.
  wp_go; try (by intros w [= <-]); done.
Qed.

Lemma remove_etcd_member_ok {S} cluster m (s : S) :
  wp (remove_etcd_member cluster m) s (fun tr _ o => mgmt_quiet tr
    /\ (o = Val None -> member_gone (ClusterKey cluster) m tr)
    /\ (forall r, o = Val (Some r) ->
         r = requeueAfter etcdRemovalRequeueAfter /\ asked_to_leave (ClusterKey cluster) m tr)).
Proof.
  unfold remove_etcd_member. apply wp_bind, wp_try. eapply wp_mono; [apply GetWorkloadCluster_key|].
  intros tr1 s1 [w|e|] [Q1 Hw]; [|apply wp_bind, wp_throw; by rewrite app_nil_r|done].
  apply wp_bind, wp_ret. cbn beta. apply wp_bind. unfold zoom, wp at 1.
  rewrite always_bind. eapply always_mono.
  2: { apply (wp_quiet (RemoveEtcdMemberForMachine (Some m)) w); [apply RemoveEtcdMemberForMachine_quiet|].
       apply RemoveEtcdMemberForMachine_ok. }
  intros tr2 [w2 o] (Q2 & _ & Ho). cbn [fst snd always] in *. rewrite app_nil_r.
  rewrite (Hw w eq_refl) in Ho.
  assert (Q : mgmt_quiet (tr1 ++ tr2)) by (by apply mgmt_quiet_app).
  destruct o as [[]|e|]; cbn [negb]; [apply wp_ret|apply wp_ret|done|done];
    rewrite app_nil_r; (split; [done|]).
  - split; [|done]. intros _. destruct Ho as [[Hn _]|(all & -> & Hc & Hall)]; [by left|].
    right. exists all. split; [|done]. rewrite elem_of_app. right. left.
  - split; [done|]. intros r [= <-]. split; [done|].
    destruct Ho as (all & n & a & _ & Hn & _ & _ & Ha & ->). exists n, a. split_and!; [done| |].
    + by apply gomap_get_set_eq in Ha.
    + rewrite elem_of_app. right. do 2 right. left.
Qed.

Lemma resolve_hook_ok {S} m (s : S) :
  wp (resolve_hook m) s (fun tr _ o => (issued is_mgmt_write tr <= 1)%nat /\ o <> Panic
    /\ (forall c r, ev c r ∈ tr -> is_mgmt_write c = true -> c = PatchMachine m (without_hook m) [])
    /\ (o = Val tt -> ev (PatchMachine m (without_hook m) []) (inl tt) ∈ tr)).
Proof.
  unfold resolve_hook. wp_go; rewrite ?app_nil_r; (split; [count_events; lia|]); (split; [done|]); split; try done.
  all: try (intros c0 r1 Hin Hw; simpl in Hin; rewrite ?elem_of_cons, elem_of_nil in Hin;
    repeat (destruct Hin as [Hin|Hin]; [apply (f_equal ev_cmd) in Hin; simpl in Hin; subst c0; done|]); done).
  intros _. simpl. destruct u0. right. left.
Qed.

Lemma hooked_get m :
  hooked m = true -> gomap_get (MAnnotations m) PreTerminateDeleteHookAnnotationPrefix = Some k3sHookName.
Proof.
  unfold hooked. intros [_ E%String.eqb_eq]%andb_true_iff.
  destruct (gomap_get (MAnnotations m) _); simpl in E; [congruence|discriminate].
Qed.

(** The machine waits for this controller. *)
Definition at_hook (m : Machine) : Prop :=
  TimePtr_IsZero (MDeletionTimestamp m) = false /\ hooked m = true
  /\ v1_IsFalse (MachineV1Conditions m) PreTerminateDeleteHookSucceededV1Beta1Condition = true.

(** What the steps after the fetch of [m] do: the only write is the patch that
    takes the hook away, with a reason; without an error the hook is gone, or
    its node was asked to leave. *)
Definition resolves (m : Machine) (tr : list event) (o : outcome Result) : Prop :=
  (issued is_mgmt_write tr <= 1)%nat
  /\ (forall c r, ev c r ∈ tr -> is_mgmt_write c = true ->
        c = PatchMachine m (without_hook m) [] /\ at_hook m
        /\ exists cluster, ev (GetClusterFromMetadata (MachineMeta m)) (inl cluster) ∈ tr
             /\ (nothing_to_remove cluster m tr \/ member_gone (ClusterKey cluster) m tr))
  /\ (at_hook m -> forall res, o = Val res ->
        (res = emptyResult /\ ev (PatchMachine m (without_hook m) []) (inl tt) ∈ tr)
        \/ (res = requeueAfter etcdRemovalRequeueAfter
            /\ exists cluster, ev (GetClusterFromMetadata (MachineMeta m)) (inl cluster) ∈ tr
                 /\ asked_to_leave (ClusterKey cluster) m tr)).

Lemma quiet_no_write c r tr : mgmt_quiet tr -> ev c r ∈ tr -> is_mgmt_write c = true -> False.
Proof. intros HQ Hin Hw. pose proof (mgmt_quiet_not_in is_mgmt_write tr _ (fun _ x => x) HQ Hin). simpl in *. congruence. Qed.

Lemma resolves_quiet m tr o :
  mgmt_quiet tr -> (at_hook m -> forall res, o <> Val res) -> resolves m tr o.
Proof.
  intros HQ Ho. split; [by rewrite (mgmt_quiet_issued is_mgmt_write) by done; lia|]. split.
  - intros c r Hin Hw. by destruct (quiet_no_write c r tr).
  - intros Ha res E. by destruct (Ho Ha res).
Qed.

(** The end: what was seen before it allows it. *)
Lemma resolve_hook_resolves m cluster tr s :
  at_hook m -> mgmt_quiet tr -> ev (GetClusterFromMetadata (MachineMeta m)) (inl cluster) ∈ tr ->
  nothing_to_remove cluster m tr \/ member_gone (ClusterKey cluster) m tr ->
  wp (S := unit) (resolve_hook m ;;; ret emptyResult) s (fun tr' _ o => resolves m (tr ++ tr') o).
Proof.
  intros Ha HQ Hc Hr. apply wp_bind. eapply wp_mono; [apply resolve_hook_ok|].
  intros tr' s' o (Hn & Hp & Hw & Hv).
  assert (H1' : (issued is_mgmt_write (tr ++ tr') <= 1)%nat).
  { rewrite issued_app, (mgmt_quiet_issued is_mgmt_write tr) by done. lia. }
  assert (H2' : forall c r, ev c r ∈ tr ++ tr' -> is_mgmt_write c = true ->
        c = PatchMachine m (without_hook m) [] /\ at_hook m
        /\ exists cluster, ev (GetClusterFromMetadata (MachineMeta m)) (inl cluster) ∈ tr ++ tr'
             /\ (nothing_to_remove cluster m (tr ++ tr') \/ member_gone (ClusterKey cluster) m (tr ++ tr'))).
  { intros c r [Hin|Hin]%elem_of_app Hwr.
    - by destruct (quiet_no_write c r tr).
    - split; [by eapply Hw|]. split; [done|]. exists cluster.
      assert (Hs : tr ⊆ tr ++ tr') by (intros x; rewrite elem_of_app; auto).
      split; [by apply Hs|].
      destruct Hr; [left; by eapply nothing_to_remove_mono|right; by eapply member_gone_mono]. }
  destruct o as [[]|e|]; [|by split_and!|done].
  apply wp_ret. rewrite app_nil_r. split_and!; [done|done|]. intros _ res [= <-]. left.
  split; [done|]. rewrite elem_of_app. auto.
Qed.

Lemma fetched_ok m : wp (fetched m) tt (fun tr _ o => resolves m tr o).
Proof.
  unfold fetched. destruct (TimePtr_IsZero (MDeletionTimestamp m)) eqn:Ed.
  { apply wp_ret, resolves_quiet; [constructor|]. intros (Hd & _). congruence. }
  destruct (hooked m) eqn:Eh.
  2: { apply wp_ret, resolves_quiet; [constructor|]. intros (_ & Hh & _). congruence. }
  destruct (v1_IsFalse _ _) eqn:Ef; cbn [negb].
  2: { apply wp_ret, resolves_quiet; [constructor|]. intros (_ & _ & Hf). congruence. }
  assert (Ha : at_hook m) by done.
  apply wp_bind, wp_call. intros [cluster|err]; cbn [lift_wrap].
  2: { apply wp_bind, wp_throw, resolves_quiet; [by repeat constructor|done]. }
  set (e1 := @ev services (GetClusterFromMetadata (MachineMeta m)) (inl cluster)).
  assert (Q0 : mgmt_quiet [e1]) by (by repeat constructor).
  apply wp_bind, wp_ret, wp_bind, wp_try. eapply wp_mono; [apply isRemoveEtcdMemberNeeded_ok|].
  intros tr1 s1 o1 (Q1 & P1 & N1). assert (Q01 : mgmt_quiet ([e1] ++ tr1)) by (by apply mgmt_quiet_app).
  assert (Hs : tr1 ⊆ [e1] ++ tr1) by (intros x; rewrite elem_of_app; auto).
  destruct o1 as [needed|err|]; [|apply wp_bind, wp_throw, resolves_quiet; rewrite ?app_nil_r; done|done].
  apply wp_bind, wp_ret. cbn beta. destruct needed as [u|cause].
  - apply wp_bind. eapply wp_mono; [apply remove_etcd_member_ok|].
    intros tr2 s2 o2 (Q2 & HN & HS).
    assert (Q012 : mgmt_quiet ([e1] ++ tr1 ++ tr2)) by (apply (mgmt_quiet_app [e1]); [done|by apply mgmt_quiet_app]).
    assert (Hs2 : tr2 ⊆ [e1] ++ tr1 ++ tr2) by (intros x; rewrite !elem_of_app; auto).
    destruct o2 as [[r|]|err|]; [| |by apply resolves_quiet|by apply resolves_quiet].
    + destruct (HS r eq_refl) as (-> & n & a & Hn & Hga & Hin). apply wp_ret. rewrite app_nil_r.
      split; [by rewrite (mgmt_quiet_issued is_mgmt_write) by done; lia|]. split.
      * intros c r Hc Hw. destruct (quiet_no_write c r _ Q012 Hc Hw).
      * intros _ res [= <-]. right. split; [done|]. exists cluster. split; [left|].
        exists n, a. split_and!; [done..|by apply Hs2].
    + eapply wp_mono; [apply (resolve_hook_resolves m cluster ([e1] ++ tr1 ++ tr2)); [done..|left|]|].
      { right. eapply member_gone_mono; [by apply HN|done]. }
      cbv beta. intros tr3 s3 o3. by rewrite <- ?app_assoc.
  - apply wp_bind, wp_ret. cbn beta.
    eapply wp_mono; [apply (resolve_hook_resolves m cluster ([e1] ++ tr1)); [done..|left|]|].
    { left. eapply nothing_to_remove_mono; [by eapply N1|done]. }
    cbv beta. intros tr3 s3 o3. by rewrite <- ?app_assoc.
Qed.

Lemma machine_Reconcile_ok req :
  wp (Reconcile req) tt (fun tr _ o => exists g tr', tr = ev (GetMachine req) g :: tr'
    /\ match g with
       | inl m => resolves m tr' o
       | inr err => tr' = [] /\ o = (if IsNotFound err then Val emptyResult else Err err)
       end).
Proof.
  unfold Reconcile. apply wp_bind, wp_call. intros [m|err].
  2: { destruct (IsNotFound err) eqn:E; [apply wp_ret|apply wp_throw]; exists (inr err), []; by rewrite E. }
  change (wp (fetched m) tt (fun tr' _ o => exists g tr'', [ev (GetMachine req) (inl m)] ++ tr' = ev (GetMachine req) g :: tr''
    /\ match g with
       | inl m => resolves m tr'' o
       | inr err => tr'' = [] /\ o = (if IsNotFound err then Val emptyResult else Err err)
       end)).
  eapply wp_mono; [apply fetched_ok|]. intros tr' s' o Hr. by exists (inl m), tr'.
Qed.

(** C4: a machine's pre-terminate hook is resolved only when its etcd member no
    longer matters. A reconciliation of a machine writes to the management
    cluster at most once, and the write is the patch that takes this hook, and
    nothing else, off the machine that was fetched: one that is being deleted,
    that carries the hook and that Cluster API has drained. It is issued only
    when the cluster or its control plane is being deleted, the machine has no
    node, or no active control-plane machine is left; or else when the workload
    cluster listed at least two control-plane nodes, none of them the machine's
    without the mark that its member was removed. *)
Theorem hook_resolved_safe req :
  wp (Reconcile req) tt (fun tr _ _ =>
    (issued is_mgmt_write tr <= 1)%nat
    /\ forall c r, ev c r ∈ tr -> is_mgmt_write c = true ->
         exists m cluster, ev (GetMachine req) (inl m) ∈ tr /\ at_hook m
           /\ c = PatchMachine m (without_hook m) []
           /\ ev (GetClusterFromMetadata (MachineMeta m)) (inl cluster) ∈ tr
           /\ (nothing_to_remove cluster m tr \/ member_gone (ClusterKey cluster) m tr)).
Proof.
  eapply wp_mono; [apply machine_Reconcile_ok|]. cbv beta. intros tr s o (g & tr' & -> & Hg).
  destruct g as [m|err].
  2: { destruct Hg as [-> _]. split; [by count_events; lia|]. intros c r Hin Hw.
    apply list_elem_of_singleton, (f_equal ev_cmd) in Hin. simpl in Hin. by subst c. }
  destruct Hg as (Hn & Hw & _). split; [by count_events|]. intros c r Hin Hwr.
  apply elem_of_cons in Hin as [Hin|Hin]; [apply (f_equal ev_cmd) in Hin; simpl in Hin; by subst c|].
  destruct (Hw c r Hin Hwr) as (-> & Ha & cluster & Hc & Hr).
  assert (Hs : tr' ⊆ ev (GetMachine req) (inl m) :: tr') by (intros x Hx; by right).
  exists m, cluster. split_and!; [left|apply Ha..|done|by right|].
  destruct Hr; [left; by eapply nothing_to_remove_mono|right; by eapply member_gone_mono].
Qed.

(** C24: no machine is held back. Whenever a machine waits at this hook, each
    reconciliation that ends without an error has either removed the hook, and
    the API server has accepted that, or it has just told the machine's node to
    leave etcd, and asks to come back after thirty seconds. *)
Theorem hook_progress req :
  wp (Reconcile req) tt (fun tr _ o => exists g tr', tr = ev (GetMachine req) g :: tr'
    /\ forall m, g = inl m -> at_hook m -> forall res, o = Val res ->
         (res = emptyResult /\ ev (PatchMachine m (without_hook m) []) (inl tt) ∈ tr')
         \/ (res = requeueAfter etcdRemovalRequeueAfter
             /\ exists cluster, ev (GetClusterFromMetadata (MachineMeta m)) (inl cluster) ∈ tr'
                  /\ asked_to_leave (ClusterKey cluster) m tr')).
Proof.
  eapply wp_mono; [apply machine_Reconcile_ok|]. cbv beta. intros tr s o (g & tr' & -> & Hg).
  exists g, tr'. split; [done|]. intros m -> Ha res Ho. by apply Hg.
Qed.
End Machine.
