(* ===== verification/Deletion.v ===== *)
(** The deletion of a machine, by the two controllers of the control-plane
    provider together: the control plane's controller hooks a machine and asks
    for its deletion (scale.go, remediation.go), the machine's controller takes
    the hook off (machine_controller.go), and Cluster API removes a machine only
    when no hook is left. Any number of their reconciliations run at the same
    time against one API server, call by call, and may stop anywhere. *)

From S2P Require Import Prelude GoStd Effects ApiTypes Api Capi K3sConfig ControlPlane Workload Conditions Remediation Scale MachineController.

(** ** What the two controllers do in order *)

Definition key_of (m : Machine) : ObjectKey :=
  mkKey (Namespace (MachineMeta m)) (Name (MachineMeta m)).

Section Controllers.
Context `{CAPI} `{!AnnotationsLib} `{Crypto} `{MapOrder} `{RemediationCodec}.
Context (etcdCallTimeout : Z).

(** A machine of [cp] with the key [k] carries the hook in memory. *)
Definition hooked_from (cp : ControlPlane) (k : ObjectKey) : Prop :=
  exists name m, CPMachines cp !! name = Some m /\ has_hook m /\ key_of m = k.

(** The API server accepted a patch of the machine [k] that has the hook. *)
Definition hook_accepted (past : list event) (k : ObjectKey) : Prop :=
  exists b a owned, ev (PatchMachine b a owned) (inl tt) ∈ past /\ has_hook a /\ key_of a = k.

(** A reconciliation of [cp] takes no hook off: a patch keeps a hook that was
    there from the start. It deletes a machine only after a patch with the hook
    was accepted. *)
Definition hooks_first (cp : ControlPlane) (past : list event) (e : event) : Prop :=
  match ev_cmd e with
  | PatchMachine b a _ =>
      key_of a = key_of b /\ (has_hook b -> has_hook a /\ hooked_from cp (key_of b))
  | DeleteMachine m => hook_accepted past (key_of m)
  | c => not_mgmt_write c = true
  end.

(** Why the hook of the machine [k] could be taken off. *)
Definition released (k : ObjectKey) (past : list event) : Prop :=
  exists m cluster, ev (GetMachine k) (inl m) ∈ past /\ at_hook m
    /\ ev (GetClusterFromMetadata (MachineMeta m)) (inl cluster) ∈ past
    /\ (nothing_to_remove cluster m past \/ member_gone (ClusterKey cluster) m past).

(** A reconciliation of the machine [req] patches only that machine, and only
    when it could be released. *)
Definition releases_last (req : ObjectKey) (past : list event) (e : event) : Prop :=
  match ev_cmd e with
  | PatchMachine m m' _ => ev (GetMachine req) (inl m) ∈ past /\ m' = without_hook m /\ released req past
  | DeleteMachine _ => False
  | c => not_mgmt_write c = true
  end.

Lemma released_mono k past past' : released k past -> past ⊆ past' -> released k past'.
Proof.
  intros (m & cluster & Hg & Ha & Hc & Hr) Hs. exists m, cluster. split_and!; [by apply Hs|done|by apply Hs|].
  destruct Hr; [left; by eapply nothing_to_remove_mono|right; by eapply member_gone_mono].
Qed.

Lemma quiet_hooks_first cp past tr : mgmt_quiet tr -> ordered (hooks_first cp) past tr.
Proof.
  intros HQ. apply ordered_forall. intros past' [c r] Hin. unfold mgmt_quiet in HQ.
  rewrite Forall_forall in HQ. specialize (HQ _ Hin). by destruct c.
Qed.

Lemma quiet_releases_last req past tr : mgmt_quiet tr -> ordered (releases_last req) past tr.
Proof.
  intros HQ. apply ordered_forall. intros past' [c r] Hin. unfold mgmt_quiet in HQ.
  rewrite Forall_forall in HQ. specialize (HQ _ Hin). by destruct c.
Qed.

(** *** Scaling down *)

(** What the hooking of [m] does. *)
Definition hooks (m : Machine) (e : event) : Prop :=
  match ev_cmd e with
  | PatchMachine b m' _ => b = m /\ key_of m' = key_of m /\ has_hook m'
  | DeleteMachine _ => False
  | c => not_mgmt_write c = true
  end.

Lemma quiet_hooks m tr : mgmt_quiet tr -> Forall (hooks m) tr.
Proof. intros HQ. eapply Forall_impl; [exact HQ|]. by intros [[] r]. Qed.

Lemma add_preterminate_hook_hooks m cp :
  CPMachines cp !! MName m = Some m ->
  wp (add_preterminate_hook m) cp (fun tr _ _ => Forall (hooks m) tr).
Proof.
  intros Hm. unfold add_preterminate_hook, machine_annotations.
  assert (Hc : current m cp = m) by (unfold current; by rewrite Hm).
  assert (Hu : forall a, current m (update_machine (MName m)
      (fun m => with_meta (with_annotations a (MachineMeta m)) m) cp)
    = with_meta (with_annotations a (MachineMeta m)) m).
  { intros a. unfold current, update_machine. simpl. by rewrite lookup_alter_eq, Hm. }
  wp_go; try (by repeat constructor); rewrite ?Hu, ?Hc in *; repeat constructor; simpl; try done;
    by eapply gomap_get_set_eq.
Qed.

Lemma scale_down_hooks m cp :
  CPMachines cp !! MName m = Some m ->
  wp (if IsEtcdManaged cp then
       w <- try (GetWorkloadCluster etcdCallTimeout (ClusterKey (CPCluster cp))) ;;
       workloadCluster <- lift_wrap "failed to create client to workload cluster" w ;;
       with_workload workloadCluster
         (ForwardEtcdLeadership (Some m) (Newest (CPMachines cp))) ;;;
       add_preterminate_hook m
      else ret tt) cp (fun tr _ _ => Forall (hooks m) tr).
Proof.
  intros Hm. destruct (IsEtcdManaged cp); [|by apply wp_ret].
  apply wp_bind, wp_try.
  eapply wp_mono; [apply wp_quiet; [apply GetWorkloadCluster_quiet|apply GetWorkloadCluster_keeps]|].
  intros tr1 s1 o1 [Q1 ->]. apply (quiet_hooks m) in Q1.
  destruct o1 as [w|e|]; [|apply wp_bind, wp_throw; by rewrite app_nil_r|done].
  apply wp_bind, wp_ret. cbn beta. apply wp_bind. eapply wp_mono.
  { apply wp_quiet; [|apply with_workload_keeps]. unfold with_workload. issues_go. }
  intros tr2 s2 o2 [Q2 ->]. apply (quiet_hooks m) in Q2.
  destruct o2 as [u|e|]; [|by apply Forall_app..].
  eapply wp_mono; [by apply add_preterminate_hook_hooks|]. intros tr3 cp3 o3 F3.
  by rewrite !Forall_app.
Qed.

Lemma hooks_ordered cp m past tr :
  (has_hook m -> hooked_from cp (key_of m)) -> Forall (hooks m) tr -> ordered (hooks_first cp) past tr.
Proof.
  intros Hm HF. apply ordered_forall. intros past' e Hin. rewrite Forall_forall in HF. specialize (HF e Hin).
  destruct e as [[] r]; simpl in *; try done. destruct HF as (-> & Hn & Hh).
  unfold hooks_first. simpl. split; [done|]. auto.
Qed.

Lemma scaleDownControlPlane_ordered outdatedMachines cp :
  named (CPMachines cp) -> outdatedMachines ⊆ CPMachines cp -> IsEtcdManaged cp = true ->
  wp (scaleDownControlPlane etcdCallTimeout outdatedMachines) cp (fun tr _ _ =>
    ordered (hooks_first cp) [] tr).
Proof.
  intros Hnamed Hsub Hetcd. unfold scaleDownControlPlane. apply wp_bind, wp_get. cbn beta. apply wp_bind.
  destruct (selectMachineForScaleDown cp outdatedMachines) as [m|err] eqn:Em; cbn [lift_wrap];
    [apply wp_ret|by apply wp_throw].
  destruct (selectMachineForScaleDown_in cp outdatedMachines m Hsub Em) as [k Hk].
  assert (Hm : CPMachines cp !! MName m = Some m) by (by rewrite (Hnamed k m Hk)).
  apply wp_bind. eapply wp_mono; [apply preflightChecks_ok|].
  intros tr1 cp1 o1 (-> & Q1 & result & -> & _). cbn beta iota. apply (quiet_hooks_first cp []) in Q1.
  destruct (Result_IsZero result); simpl negb; cbn match; [|apply wp_ret; by rewrite !app_nil_r].
  apply wp_bind. eapply wp_mono; [apply wp_and; [by apply scale_down_hooks|by apply scale_down_etcd_ok]|].
  intros tr2 cp2 o2 [F2 [_ Hd]]. rewrite !app_nil_l.
  assert (O12 : ordered (hooks_first cp) [] (tr1 ++ tr2)).
  { apply ordered_app. split; [exact Q1|]. apply (hooks_ordered cp m); [|done]. intros Hb. by exists k, m. }
  destruct o2 as [[]|e|]; [|done..]. destruct (Hd eq_refl) as (_ & Hp). destruct (Hp Hetcd) as [Hhook Hin].
  apply wp_bind, wp_get. cbn beta. apply wp_bind, wp_call. intros r.
  assert (HP : forall tr3, mgmt_quiet tr3 -> ordered (hooks_first cp) []
    (tr1 ++ tr2 ++ ev (DeleteMachine (current m cp2)) r :: tr3)).
  { intros tr3 Q3. rewrite (app_assoc tr1 tr2). apply ordered_app. split; [exact O12|]. split.
    - exists m, (current m cp2), []. split_and!; [|done|done]. rewrite app_nil_l. apply elem_of_app. by right.
    - by apply quiet_hooks_first. }
  destruct r as [u|err]; [apply wp_ret; simpl app; by apply HP, Forall_nil_2|].
  destruct (IsNotFound err); [apply wp_ret; simpl app; by apply HP, Forall_nil_2|].
  apply wp_bind, wp_call. intros r3. apply wp_throw. simpl app. apply HP. by repeat constructor.
Qed.

(** *** Remediation *)

Lemma same_meta_hook m m' : MachineMeta m = MachineMeta m' -> has_hook m <-> has_hook m'.
Proof. unfold has_hook, MAnnotations. by intros ->. Qed.

Lemma same_meta_key m m' : MachineMeta m = MachineMeta m' -> key_of m = key_of m'.
Proof. unfold key_of. by intros ->. Qed.

(** Conditions leave the metadata of machines alone. *)
Lemma same_conditions_meta mt kt cp cp' m k :
  same_but_conditions mt kt cp cp' -> CPMachines cp' !! k = Some m ->
  exists m0, CPMachines cp !! k = Some m0 /\ MachineMeta m0 = MachineMeta m.
Proof.
  intros (HM & _) Hk. specialize (HM k). rewrite Hk in HM.
  destruct (CPMachines cp !! k) as [m0|]; [|done]. destruct HM as [-> _]. by exists m0.
Qed.

Lemma update_machine_meta x name f cp :
  (forall m, MachineMeta (f m) = MachineMeta m) ->
  MachineMeta (current x (update_machine name f cp)) = MachineMeta (current x cp).
Proof.
  intros Hf. unfold current, update_machine. simpl. destruct (decide (MName x = name)) as [->|Hne].
  - rewrite lookup_alter_eq. destruct (CPMachines cp !! name) as [m|]; [apply Hf|done].
  - by rewrite lookup_alter_ne.
Qed.

(** The steps of a remediation without the hook. *)
Lemma owner_remediated_meta x m reason message :
  keeps (fun cp => MachineMeta (current x cp)) (owner_remediated m reason message).
Proof. apply keeps_modify. intros cp. by apply update_machine_meta. Qed.

Lemma keeps_state_keeps {S X A} (f : S -> X) (m : M S A) : keeps_state m -> keeps f m.
Proof. intros Hm s. eapply wp_mono; [apply Hm|]. by intros tr s' o ->. Qed.

#[local] Hint Resolve owner_remediated_meta : keeps.

Lemma checkRetryLimits_meta x m now : keeps (fun cp => MachineMeta (current x cp)) (checkRetryLimits m now).
Proof. unfold checkRetryLimits. keeps_go. Qed.

Lemma canSafelyRemove_meta x m :
  keeps (fun cp => MachineMeta (current x cp)) (canSafelyRemoveEtcdMember etcdCallTimeout m).
Proof.
  unfold canSafelyRemoveEtcdMember.
  pose proof (fun key => keeps_state_keeps (fun cp => MachineMeta (current x cp)) _
    (GetWorkloadCluster_keeps etcdCallTimeout key)).
  pose proof (fun w => keeps_state_keeps (fun cp => MachineMeta (current x cp)) _ (with_workload_keeps w EtcdMembers)).
  keeps_go.
Qed.
#[local] Hint Resolve canSafelyRemove_meta : keeps.

Lemma initialized_checks_meta x m :
  keeps (fun cp => MachineMeta (current x cp)) (initialized_checks etcdCallTimeout m).
Proof. unfold initialized_checks, waiting. keeps_go. Qed.

Lemma delete_and_track_meta x m d : keeps (fun cp => MachineMeta (current x cp)) (delete_and_track m d).
Proof. unfold delete_and_track. keeps_go. Qed.

(** The machine [m] of the caller keeps its key and its hook. *)
Definition keeps_hook (m : Machine) (cp : ControlPlane) : Prop :=
  key_of (current m cp) = key_of m /\ (has_hook m -> has_hook (current m cp)).

Lemma same_keeps_hook m cp cp' :
  MachineMeta (current m cp') = MachineMeta (current m cp) -> keeps_hook m cp -> keeps_hook m cp'.
Proof.
  intros E [Hk Hh]. split; [by rewrite (same_meta_key _ _ E)|]. by rewrite (same_meta_hook _ _ E).
Qed.

Lemma keeps_hook_keeps {A} m (p : M ControlPlane A) cp Q :
  keeps (fun cp => MachineMeta (current m cp)) p -> keeps_hook m cp -> wp p cp Q ->
  wp p cp (fun tr cp' o => Q tr cp' o /\ keeps_hook m cp').
Proof.
  intros Hp Hk HQ. eapply wp_mono; [apply wp_and; [exact HQ|apply Hp]|]. cbv beta.
  intros tr cp' o [HQ' E]. split; [done|]. by eapply same_keeps_hook.
Qed.

Lemma current_self m cp : CPMachines cp !! MName m = Some m -> keeps_hook m cp.
Proof. intros Hm. unfold keeps_hook, current. by rewrite Hm. Qed.

Lemma add_preterminate_hook_keeps m cp :
  CPMachines cp !! MName m = Some m ->
  wp (add_preterminate_hook m) cp (fun _ cp' _ => keeps_hook m cp').
Proof.
  intros Hm. unfold add_preterminate_hook, machine_annotations.
  assert (Hu : forall a, gomap_get a PreTerminateDeleteHookAnnotationPrefix = Some k3sHookName ->
    keeps_hook m (update_machine (MName m)
      (fun m => with_meta (with_annotations a (MachineMeta m)) m) cp)).
  { intros a Ha. unfold keeps_hook, current, update_machine. simpl. rewrite lookup_alter_eq, Hm. by split. }
  wp_go; try (by apply current_self); eapply Hu; by eapply gomap_get_set_eq.
Qed.

(** Moving the leadership and adding the hook. *)
Definition hooked_after (m : Machine) (tr : list event) (cp' : ControlPlane) : Prop :=
  has_hook (current m cp') /\ @ev services (PatchMachine m (current m cp') []) (inl tt) ∈ tr.

Lemma add_hook_all m cp :
  CPMachines cp !! MName m = Some m ->
  wp (add_preterminate_hook m) cp (fun tr cp' o =>
    Forall (hooks m) tr /\ keeps_hook m cp' /\ (o = Val tt -> hooked_after m tr cp')).
Proof.
  intros Hm. eapply wp_mono.
  { apply wp_and; [by apply add_preterminate_hook_hooks|].
    apply wp_and; [by apply add_preterminate_hook_keeps|by apply add_preterminate_hook_spec]. }
  cbv beta. intros tr cp' o (HF & HK & _ & Ho). split; [done|]. split; [done|].
  intros E. destruct (Ho E) as (Hh & _ & Hin). by split.
Qed.

Lemma forward_and_hook_hooks m cp :
  CPMachines cp !! MName m = Some m -> IsEtcdManaged cp = true ->
  wp (forward_and_hook etcdCallTimeout m) cp (fun tr cp' o =>
    Forall (hooks m) tr /\ keeps_hook m cp' /\ (o = Val None -> hooked_after m tr cp')).
Proof.
  intros Hm He. assert (Hk : keeps_hook m cp) by by apply current_self.
  assert (Hw : forall reason msg, keeps_hook m (machine_condition (MName m)
      (mkCondition MachineOwnerRemediatedCondition ConditionFalse reason msg) cp))
    by (intros; eapply same_keeps_hook; [by apply update_machine_meta|done]).
  unfold forward_and_hook. apply wp_bind, wp_get, wp_bind, wp_try.
  eapply wp_mono; [apply wp_quiet; [apply GetWorkloadCluster_quiet|apply GetWorkloadCluster_keeps]|].
  intros tr1 s1 o1 [Q1 ->]. apply (quiet_hooks m) in Q1.
  destruct o1 as [w|e|]; [|by wp_go; rewrite app_nil_r|done].
  apply wp_bind, wp_ret. cbn beta. rewrite He.
  destruct (Newest (HealthyMachines cp)) as [cand|];
    [|by unfold waiting, owner_remediated; wp_go; rewrite !app_nil_r].
  apply wp_bind, wp_try. eapply wp_mono.
  { apply wp_quiet; [|apply with_workload_keeps]. unfold with_workload. issues_go. }
  intros tr2 s2 o2 [Q2 ->]. apply (quiet_hooks m) in Q2.
  assert (Q12 : Forall (hooks m) (tr1 ++ tr2)) by by apply Forall_app.
  destruct o2 as [u|e|]; [|by unfold owner_remediated; wp_go; rewrite !app_nil_r|by rewrite ?app_nil_l].
  apply wp_bind. eapply wp_mono; [by apply add_hook_all|].
  intros tr3 s3 o3 (F3 & K3 & Ha). rewrite !app_nil_l.
  assert (Q123 : Forall (hooks m) (tr1 ++ tr2 ++ tr3)) by (rewrite app_assoc; by apply Forall_app).
  destruct o3 as [[]|e|]; [apply wp_ret; rewrite app_nil_r|by split_and!..].
  split; [done|]. split; [done|]. intros _. destruct (Ha eq_refl) as [Hh Hin].
  split; [done|]. rewrite !elem_of_app. auto.
Qed.

(** A remediation of [m] on the control plane [cp], in a reconciliation that began
    with [cp0]. *)
Lemma remediate_ordered m now cp cp0 past :
  CPMachines cp !! MName m = Some m -> IsEtcdManaged cp = true ->
  Initialized (KCPStatus (KCP cp)) = true -> (has_hook m -> hooked_from cp0 (key_of m)) ->
  wp (remediate etcdCallTimeout m now) cp (fun tr cp' _ =>
    ordered (hooks_first cp0) past tr /\ keeps_hook m cp').
Proof.
  intros Hm He Hi Hfrom. assert (Hk : keeps_hook m cp) by by apply current_self.
  unfold remediate. apply wp_bind. eapply wp_mono.
  { eapply keeps_hook_keeps; [apply checkRetryLimits_meta|done|apply checkRetryLimits_ok]. }
  cbv beta. intros tr1 cp1 o1 ((-> & Hp & Hok) & K1). destruct o1 as [[d b]|e|]; [|done..].
  destruct b; simpl negb; cbn match; [|by apply wp_ret].
  destruct (Hok d eq_refl) as (-> & _). apply wp_bind, wp_get. cbn beta. rewrite Hi.
  apply wp_bind. eapply wp_mono.
  { eapply keeps_hook_keeps; [apply initialized_checks_meta|done|apply initialized_checks_ok]. }
  cbv beta. intros tr2 cp2 o2 ((Q2 & _ & _ & _ & C2) & K2). rewrite !app_nil_l.
  assert (O2 : ordered (hooks_first cp0) past tr2) by by apply quiet_hooks_first.
  destruct o2 as [[res|]|e|]; [apply wp_ret; by rewrite app_nil_r| |done..].
  destruct (C2 eq_refl) as [-> _].
  apply wp_bind. eapply wp_mono; [by apply forward_and_hook_hooks|].
  intros tr3 cp3 o3 (F3 & K3 & Ha).
  assert (O3 : ordered (hooks_first cp0) past (tr2 ++ tr3)).
  { apply ordered_app. split; [done|]. by apply (hooks_ordered cp0 m). }
  destruct o3 as [[res|]|e|]; [apply wp_ret; by rewrite app_nil_r| |by split..].
  destruct (Ha eq_refl) as [Hh Hin].
  eapply wp_mono; [eapply keeps_hook_keeps; [apply delete_and_track_meta|done|apply delete_and_track_ok]|].
  cbv beta. intros tr4 cp4 o4 ((_ & r & -> & _) & K4). split; [|done].
  rewrite !app_nil_l, (app_assoc tr2 tr3). apply ordered_app. split; [done|]. split; [|done].
  exists m, (current m cp3), []. split_and!; [|done|done]. rewrite !elem_of_app. auto.
Qed.

(** A patch that changes conditions only. *)
Definition conditions_patch (cp : ControlPlane) (e : event) : Prop :=
  match ev_cmd e with
  | PatchMachine b a _ => exists name m, CPMachines cp !! name = Some m
      /\ MachineMeta b = MachineMeta m /\ MachineMeta a = MachineMeta m
  | DeleteMachine _ => False
  | c => not_mgmt_write c = true
  end.

Lemma conditions_ordered cp past tr : Forall (conditions_patch cp) tr -> ordered (hooks_first cp) past tr.
Proof.
  intros HF. apply ordered_forall. intros past' e Hin. rewrite Forall_forall in HF. specialize (HF e Hin).
  destruct e as [[] r]; simpl in *; try done. destruct HF as (name & m & Hm & Eb & Ea).
  unfold hooks_first. simpl. rewrite (same_meta_key _ _ Eb), (same_meta_key _ _ Ea),
    (same_meta_hook _ _ Eb), (same_meta_hook _ _ Ea).
  split; [done|]. intros Hh. split; [done|]. by exists name, m.
Qed.

Lemma current_meta mt kt cp cp' m k :
  named (CPMachines cp) -> same_but_conditions mt kt cp cp' -> CPMachines cp !! k = Some m ->
  MachineMeta (current m cp') = MachineMeta m.
Proof.
  intros Hn (HM & _) Hk. rewrite <- (Hn k m Hk) in Hk. specialize (HM (MName m)). rewrite Hk in HM.
  unfold current. destruct (CPMachines cp' !! MName m); [|done]. by destruct HM as [-> _].
Qed.

Lemma cleanup_conditions errs m cp cp' kt k :
  named (CPMachines cp) -> same_but_conditions MachineOwnerRemediatedCondition kt cp cp' ->
  CPMachines cp !! k = Some m ->
  wp (cleanup_remediated errs m) cp' (fun tr _ _ => Forall (conditions_patch cp) tr).
Proof.
  intros Hn Hs Hk. pose proof (current_meta _ _ _ _ _ _ Hn Hs Hk) as Hm.
  assert (Hp : forall f r cs, (forall m, MachineMeta (f m) = MachineMeta m) ->
    conditions_patch cp (@ev services (PatchMachine (current m cp')
      (current m (update_machine (MName m) f cp')) cs) r)).
  { intros f r cs Hf. exists k, m. split; [done|]. split; [done|]. by rewrite update_machine_meta. }
  unfold cleanup_remediated. wp_go; repeat constructor; by apply Hp.
Qed.

Lemma cleanup_loop_ordered cp :
  named (CPMachines cp) ->
  wp (fold_each (range_values (HealthyMachines cp)) [] cleanup_remediated) cp (fun tr _ _ =>
    Forall (conditions_patch cp) tr).
Proof.
  intros Hn. eapply wp_mono; [eapply (wp_fold_each (fun _ tr cp' _ => Forall (conditions_patch cp) tr
      /\ same_but_conditions MachineOwnerRemediatedCondition "" cp cp')
    (fun tr _ _ => Forall (conditions_patch cp) tr) _ _ _ [] [])|].
  - by split.
  - intros vis m errs tr cp1 Hin (F1 & S1). apply elem_of_range_values in Hin as [k Hk].
    apply Filter_lookup in Hk as [Hk _].
    eapply wp_mono; [apply wp_and; [by eapply cleanup_conditions|apply cleanup_ok]|].
    cbv beta. intros tr2 cp2 o (F2 & _ & S2 & _).
    assert (F12 : Forall (conditions_patch cp) (tr ++ tr2)) by by apply Forall_app.
    destruct o; [|done..]. split; [done|]. by transitivity cp1.
  - cbv beta. intros tr cp' [errs|e|]; [by intros [HF _]|done..].
Qed.

Lemma reconcileUnhealthyMachines_ordered cp :
  named (CPMachines cp) -> IsEtcdManaged cp = true -> Initialized (KCPStatus (KCP cp)) = true ->
  wp (reconcileUnhealthyMachines etcdCallTimeout) cp (fun tr _ _ => ordered (hooks_first cp) [] tr).
Proof.
  intros Hn He Hi. unfold reconcileUnhealthyMachines. apply wp_bind, wp_call. intros now.
  apply wp_bind, wp_get. cbn beta. apply wp_bind.
  eapply wp_mono; [apply wp_and; [by apply cleanup_loop_ordered|apply cleanup_loop_ok]|].
  cbv beta. intros tr1 cp1 o1 (F1 & _ & S1 & K1 & E1).
  set (now_ev := @ev services Now now).
  assert (O1 : forall tr, ordered (hooks_first cp) (now_ev :: tr1) tr ->
    ordered (hooks_first cp) [] ([now_ev] ++ [] ++ tr1 ++ tr)).
  { intros tr Ho. split; [done|]. change (ordered (hooks_first cp) [now_ev] (tr1 ++ tr)). apply ordered_app.
    split; [by apply conditions_ordered|exact Ho]. }
  assert (Onil : ordered (hooks_first cp) [] ([now_ev] ++ [] ++ tr1))
    by (rewrite <- (app_nil_r tr1); by apply O1).
  destruct o1 as [errs|e|]; [|exact Onil..].
  destruct (NewAggregate errs); [apply wp_throw; by apply O1|].
  apply wp_bind, wp_get. cbn beta zeta.
  destruct (getMachineToBeRemediated _) as [m|] eqn:Em; [|apply wp_ret; by apply O1].
  apply getMachineToBeRemediated_in in Em as [k Hk]. apply Filter_lookup in Hk as [Hk _].
  destruct (negb _); [apply wp_ret; by apply O1|].
  destruct (gomap_get _ RemediationInProgressAnnotation); [apply wp_ret; by apply O1|].
  apply wp_bind, wp_call. intros h. cbn beta. apply wp_bind.
  destruct h as [u|err]; cbn [lift_res]; [apply wp_ret|by apply wp_throw; apply O1].
  assert (Hm : CPMachines cp1 !! MName m = Some m).
  { assert (Hn1 : named (CPMachines cp1)) by (apply (names_kept_named cp); [apply (same_names _ "" _ _ (S1 ""))|done]).
    by rewrite (Hn1 k m Hk). }
  assert (Hfrom : has_hook m -> hooked_from cp (key_of m)).
  { destruct (same_conditions_meta _ "" _ _ _ _ (S1 "") Hk) as (m0 & Hk0 & E0). intros Hh. exists k, m0.
    split; [done|]. split; [by apply (same_meta_hook _ _ E0)|by apply same_meta_key]. }
  apply wp_deferred_patch. eapply wp_mono.
  { apply (remediate_ordered m now cp1 cp (now_ev :: tr1 ++ [@ev services (NewPatchHelper m) (inl u)]));
      [done|unfold IsEtcdManaged in *; by rewrite K1, E1|by rewrite K1|done]. }
  cbv beta. intros tr2 cp2 _ [O2 [Hkey Hkeep]] r.
  set (p := @ev services (PatchMachine m (current m cp2) [MachineOwnerRemediatedCondition]) r).
  apply (O1 ([@ev services (NewPatchHelper m) (inl u)] ++ [] ++ tr2 ++ [p])). split; [done|].
  change (ordered (hooks_first cp) (now_ev :: tr1 ++ [@ev services (NewPatchHelper m) (inl u)]) (tr2 ++ [p])).
  apply ordered_app. split; [exact O2|]. split; [|done].
  split; [done|]. auto.
Qed.

(** *** Both *)

(** The reconciliations that may ask for the deletion of a machine of [cp]. *)
Inductive deleting (cp : ControlPlane) : prog (ControlPlane * outcome Result) -> Prop :=
| scaling_down outdatedMachines :
    outdatedMachines ⊆ CPMachines cp ->
    deleting cp (scaleDownControlPlane etcdCallTimeout outdatedMachines cp)
| remediating :
    Initialized (KCPStatus (KCP cp)) = true ->
    deleting cp (reconcileUnhealthyMachines etcdCallTimeout cp).

Lemma deleting_ordered cp p :
  named (CPMachines cp) -> IsEtcdManaged cp = true -> deleting cp p ->
  always p (fun tr _ => ordered (hooks_first cp) [] tr).
Proof.
  intros Hn He [out Hs|Hi]; [by apply scaleDownControlPlane_ordered|by apply reconcileUnhealthyMachines_ordered].
Qed.

(** *** Releasing a machine *)

Lemma resolve_hook_ordered req m past s :
  ev (GetMachine req) (inl m) ∈ past -> released req past ->
  wp (S := unit) (resolve_hook m ;;; ret emptyResult) s (fun tr _ _ => ordered (releases_last req) past tr).
Proof.
  intros Hg Hr.
  assert (HP : forall e r, releases_last req (past ++ [e]) (@ev services (PatchMachine m (without_hook m) []) r)).
  { intros e r. assert (Hs : past ⊆ past ++ [e]) by (intros x; rewrite elem_of_app; auto).
    split; [by apply Hs|]. split; [done|]. by eapply released_mono. }
  unfold resolve_hook. wp_go; simpl; (split; [done|]); try done; (split; [apply HP|done]).
Qed.

Lemma fetched_ordered req m past :
  ev (GetMachine req) (inl m) ∈ past ->
  wp (fetched etcdCallTimeout m) tt (fun tr _ _ => ordered (releases_last req) past tr).
Proof.
  intros Hg. unfold fetched. destruct (TimePtr_IsZero (MDeletionTimestamp m)) eqn:Ed; [by apply wp_ret|].
  destruct (hooked m) eqn:Eh; [|by apply wp_ret].
  destruct (v1_IsFalse _ _) eqn:Ef; cbn [negb]; [|by apply wp_ret].
  apply wp_bind, wp_call. intros [cluster|err]; cbn [lift_wrap]; [|by apply wp_bind, wp_throw].
  apply wp_bind, wp_ret, wp_bind, wp_try. eapply wp_mono; [apply isRemoveEtcdMemberNeeded_ok|].
  intros tr1 s1 o1 (Q1 & P1 & N1).
  set (past1 := past ++ [@ev services (GetClusterFromMetadata (MachineMeta m)) (inl cluster)]).
  assert (O1 : forall tr, ordered (releases_last req) (past1 ++ tr1) tr ->
    ordered (releases_last req) past (@ev services (GetClusterFromMetadata (MachineMeta m)) (inl cluster) :: tr1 ++ tr)).
  { intros tr Ho. split; [done|]. apply ordered_app. split; [by apply quiet_releases_last|exact Ho]. }
  assert (HR : forall tr, tr1 ⊆ tr ->
    nothing_to_remove cluster m tr \/ member_gone (ClusterKey cluster) m tr -> released req (past1 ++ tr)).
  { intros tr Hs Hr. exists m, cluster. unfold past1. split_and!.
    - rewrite !elem_of_app. auto.
    - by split_and!.
    - rewrite !elem_of_app, list_elem_of_singleton. auto.
    - destruct Hr as [Hr|Hr]; [left; eapply nothing_to_remove_mono|right; eapply member_gone_mono];
        try exact Hr; intros x; rewrite !elem_of_app; auto. }
  assert (Hg1 : forall tr, ev (GetMachine req) (inl m) ∈ past1 ++ tr)
    by (intros tr; unfold past1; rewrite !elem_of_app; auto).
  destruct o1 as [needed|err|]; [|apply wp_bind, wp_throw; by apply O1|done].
  apply wp_bind, wp_ret. cbn beta. destruct needed as [u|cause]; simpl app.
  - apply wp_bind. eapply wp_mono; [apply remove_etcd_member_ok|].
    intros tr2 s2 o2 (Q2 & HN & _).
    assert (O2 : forall tr, ordered (releases_last req) (past1 ++ tr1 ++ tr2) tr ->
      ordered (releases_last req) (past1 ++ tr1) (tr2 ++ tr)).
    { intros tr Ho. apply ordered_app. split; [by apply quiet_releases_last|by rewrite <- app_assoc]. }
    destruct o2 as [[r|]|err|]; [apply wp_ret; apply O1, O2; done| | |].
    + eapply wp_mono; [apply (resolve_hook_ordered req m (past1 ++ tr1 ++ tr2)); [apply Hg1|]|].
      * apply HR; [intros x; rewrite elem_of_app; auto|]. right.
        eapply member_gone_mono; [by apply HN|]. intros x. rewrite elem_of_app. auto.
      * cbn beta. intros tr3 _ _ O3. by apply O1, O2.
    + rewrite <- (app_nil_r tr2). by apply O1, O2.
    + rewrite <- (app_nil_r tr2). by apply O1, O2.
  - apply wp_bind, wp_ret. cbn beta.
    eapply wp_mono; [apply (resolve_hook_ordered req m (past1 ++ tr1)); [apply Hg1|]|].
    + apply HR; [done|]. left. by eapply N1.
    + cbn beta. intros tr3 _ _ O3. by apply O1.
Qed.

Lemma Reconcile_ordered req :
  wp (MachineController.Reconcile etcdCallTimeout req) tt (fun tr _ _ => ordered (releases_last req) [] tr).
Proof.
  unfold Reconcile. apply wp_bind, wp_call. intros [m|err].
  - eapply wp_mono; [apply (fetched_ordered req m [@ev services (GetMachine req) (inl m)]); left|].
    cbn beta. intros tr _ _ Ho. by split.
  - destruct (IsNotFound err); [by apply wp_ret|by apply wp_throw].
Qed.
End Controllers.

(** ** The API server *)

#[export] Instance has_hook_dec m : Decision (has_hook m).
Proof. unfold has_hook. apply _. Defined.

(** The machines that carry the hook after [b] has been patched to [a]: the
    patch is the difference of the two. *)
Definition patched_hooks (b a : Machine) (ks : gset ObjectKey) : gset ObjectKey :=
  if decide (has_hook b)
  then if decide (has_hook a) then ks else ks ∖ {[ key_of a ]}
  else if decide (has_hook a) then {[ key_of a ]} ∪ ks else ks.

Lemma patched_hooks_on b a ks : (has_hook b -> has_hook a) -> ks ⊆ patched_hooks b a ks.
Proof.
  intros Ha. unfold patched_hooks. destruct (decide (has_hook b)) as [Hb|Hb], (decide (has_hook a)) as [Hn|Hn];
    [done|by destruct Hn; apply Ha|set_solver|done].
Qed.

Lemma patched_hooks_new b a ks : ~ has_hook b -> has_hook a -> key_of a ∈ patched_hooks b a ks.
Proof. intros Hb Ha. unfold patched_hooks. rewrite decide_False, decide_True by done. set_solver. Qed.

Lemma patched_hooks_ne b a ks k : k <> key_of a -> k ∈ ks -> k ∈ patched_hooks b a ks.
Proof.
  intros Hne Hk. unfold patched_hooks. destruct (decide (has_hook b)), (decide (has_hook a)); set_solver.
Qed.

Definition leaves_hooks (c : cmd) : bool := not_mgmt_write c || is_delete_machine c.

(** What the machines' part of the server promises. A machine that carries the
    hook is kept, also when its deletion is asked for: its finalizer is Cluster
    API's, which waits for the hook. *)
Class MachineServer (W : Type) := {
  m_serves : W -> forall c : cmd, resp c -> W -> Prop;
  hooked_on : W -> gset ObjectKey;
  serves_fetched : forall w k m w', m_serves w (GetMachine k) (inl m) w' -> key_of m = k;
  serves_patched : forall w b a cs r w', m_serves w (PatchMachine b a cs) r w' ->
    hooked_on w' = patched_hooks b a (hooked_on w)
    \/ hooked_on w' = hooked_on w /\ r <> inl tt;
  serves_others : forall w c r w', leaves_hooks c = true -> m_serves w c r w' ->
    hooked_on w ⊆ hooked_on w';
}.

(** ** The controllers together *)

Inductive controller :=
| Deleting (p : prog (ControlPlane * outcome Result))
| Releasing (p : prog (unit * outcome Result)).

Inductive calls : controller -> forall c : cmd, (resp c -> controller) -> Prop :=
| deleting_calls c k : calls (Deleting (Do c k)) c (fun r => Deleting (k r))
| releasing_calls c k : calls (Releasing (Do c k)) c (fun r => Releasing (k r)).

Section System.
Context `{CAPI} `{!AnnotationsLib} `{Crypto} `{MapOrder} `{RemediationCodec}.
Context {W : Type} `{!MachineServer W}.
Context (etcdCallTimeout : Z).

(** The machine still carries the hook, or it was released. *)
Definition held (w : W) (past : list event) (k : ObjectKey) : Prop :=
  k ∈ hooked_on w \/ released k past.

(** The server, everything that was called, and the reconciliations. One takes
    its next call; a scale-down, or the remediation of an initialized control
    plane, starts with managed etcd, and whatever machine it knows with the hook
    is still held; the reconciliation of a machine starts; others use the
    server, who take no hook off. *)
Inductive system_step :
    W * list event * list controller -> W * list event * list controller -> Prop :=
| system_call w h ts i t c k r w' :
    ts !! i = Some t -> calls t c k -> m_serves w c r w' ->
    system_step (w, h, ts) (w', h ++ [ev c r], <[i := k r]> ts)
| system_delete w h ts cp p :
    named (CPMachines cp) -> IsEtcdManaged cp = true ->
    (forall k, hooked_from cp k -> held w h k) -> deleting etcdCallTimeout cp p ->
    system_step (w, h, ts) (w, h, ts ++ [Deleting p])
| system_release w h ts req :
    system_step (w, h, ts)
      (w, h, ts ++ [Releasing (MachineController.Reconcile etcdCallTimeout req tt)])
| system_others w w' h ts :
    hooked_on w ⊆ hooked_on w' -> system_step (w, h, ts) (w', h, ts).

(** What a reconciliation has done is part of what was called, and the rest of it
    is in order. *)
Definition in_order (w : W) (h : list event) (t : controller) : Prop :=
  match t with
  | Deleting p => exists cp past, past ⊆ h
      /\ always p (fun tr _ => ordered (hooks_first cp) past tr)
      /\ (forall k, hook_accepted past k -> held w h k)
      /\ (forall k, hooked_from cp k -> held w h k)
  | Releasing p => exists req past, past ⊆ h
      /\ always p (fun tr _ => ordered (releases_last req) past tr)
  end.

Definition system_inv (s : W * list event * list controller) : Prop :=
  let '(w, h, ts) := s in
  (forall k m, @ev services (GetMachine k) (inl m) ∈ h -> key_of m = k)
  /\ (forall m r, @ev services (DeleteMachine m) r ∈ h -> held w h (key_of m))
  /\ forall i t, ts !! i = Some t -> in_order w h t.

(** Machines stay held. *)
Definition holding (w : W) (h : list event) (w' : W) (h' : list event) : Prop :=
  forall k, held w h k -> held w' h' k.

Lemma in_order_holding w h w' h' t :
  h ⊆ h' -> holding w h w' h' -> in_order w h t -> in_order w' h' t.
Proof.
  intros Hs Hh. destruct t as [p|p]; simpl.
  - intros (cp & past & Hp & Ho & Hup & Hcp). exists cp, past. split_and!; eauto.
    by transitivity h.
  - intros (req & past & Hp & Ho). exists req, past. split; [by transitivity h|done].
Qed.

Lemma holding_kept w h w' h' : hooked_on w ⊆ hooked_on w' -> h ⊆ h' -> holding w h w' h'.
Proof.
  intros Hw Hs k [Hk|Hk]; [left; set_solver|right; by eapply released_mono].
Qed.

(** A call in order keeps every machine held. *)
Lemma hooking_holds w h cp past c r w' :
  (forall k, hooked_from cp k -> held w h k) ->
  hooks_first cp past (ev c r) -> m_serves w c r w' ->
  holding w h w' (h ++ [ev c r])
  /\ forall k, hook_accepted [ev c r] k -> held w' (h ++ [ev c r]) k.
Proof.
  intros Hcp Hg Hs. assert (Hh : h ⊆ h ++ [ev c r]) by (intros x; rewrite elem_of_app; auto).
  destruct (leaves_hooks c) eqn:El.
  { split; [apply holding_kept; [by eapply serves_others|done]|].
    intros k (b & a & owned & E%list_elem_of_singleton & _). apply (f_equal ev_cmd) in E. simpl in E. by subst c. }
  destruct c as []; try done; cbn [hooks_first ev_cmd] in Hg; try done.
  destruct Hg as [Hkey Hkeep].
  assert (Hold : holding w h w' (h ++ [@ev services (PatchMachine before after owned) r])).
  { apply holding_kept; [|done]. destruct (serves_patched _ _ _ _ _ _ Hs) as [->|[-> _]]; [|done].
    apply patched_hooks_on. intros Hb. by apply Hkeep. }
  split; [done|]. intros k (b & a & owned' & E%list_elem_of_singleton & Ha & <-). symmetry in E. ev_eq E.
  destruct (serves_patched _ _ _ _ _ _ Hs) as [Hw|[_ Hn]]; [|done].
  destruct (decide (has_hook b)) as [Hb|Hb]; [|left; rewrite Hw; by apply patched_hooks_new].
  rewrite Hkey. apply Hold, Hcp. by apply Hkeep.
Qed.

Lemma releasing_holds w h req past c r w' :
  (forall key m, @ev services (GetMachine key) (inl m) ∈ h -> key_of m = key) ->
  past ⊆ h -> releases_last req past (ev c r) -> m_serves w c r w' ->
  holding w h w' (h ++ [ev c r]).
Proof.
  intros Hkey Hp Hg Hs. assert (Hh : h ⊆ h ++ [ev c r]) by (intros x; rewrite elem_of_app; auto).
  destruct (leaves_hooks c) eqn:El; [by apply holding_kept; [eapply serves_others|]|].
  destruct c as []; try done; cbn [releases_last ev_cmd] in Hg; try done.
  destruct Hg as (Hf & -> & Hr). apply Hp, Hkey in Hf. intros k [Hk|Hk]; [|right; by eapply released_mono].
  destruct (decide (k = req)) as [->|Hne].
  { right. eapply released_mono; [exact Hr|]. by transitivity h. }
  left. destruct (serves_patched _ _ _ _ _ _ Hs) as [->|[-> _]]; [|done].
  apply patched_hooks_ne; [|done]. intros ->. by apply Hne.
Qed.

(** Every call of a reconciliation in order keeps the machines held, is made for
    a held machine when it is a deletion, and leaves the rest in order. *)
Lemma call_in_order w h t c k r w' :
  (forall key m, @ev services (GetMachine key) (inl m) ∈ h -> key_of m = key) ->
  calls t c k -> in_order w h t -> m_serves w c r w' ->
  holding w h w' (h ++ [ev c r])
  /\ in_order w' (h ++ [ev c r]) (k r)
  /\ (forall m, c = DeleteMachine m -> held w h (key_of m)).
Proof.
  intros Hkey Hc Ht Hs. assert (Hh : h ⊆ h ++ [ev c r]) by (intros x; rewrite elem_of_app; auto).
  assert (Hsub : forall past, past ⊆ h -> past ++ [ev c r] ⊆ h ++ [ev c r])
    by (intros past Hp x; rewrite !elem_of_app; intros [?|?]; auto).
  destruct Hc as [c k|c k]; cbn [in_order] in Ht.
  - destruct Ht as (cp & past & Hp & Ho & Hup & Hcp).
    destruct (ordered_call _ _ _ _ Ho r) as [Hg Hk].
    destruct (hooking_holds _ _ _ _ _ _ _ Hcp Hg Hs) as [Hold Hnew]. split_and!; [done| |].
    + exists cp, (past ++ [ev c r]). split_and!; [by apply Hsub|done| |by eauto].
      intros k1 (b & a & owned & [Hin|Hin]%elem_of_app & Ha & Hk1).
      * apply Hold, Hup. by exists b, a, owned.
      * apply Hnew. by exists b, a, owned.
    + intros m ->. by apply Hup.
  - destruct Ht as (req & past & Hp & Ho). destruct (ordered_call _ _ _ _ Ho r) as [Hg Hk]. split_and!.
    + by eapply releasing_holds.
    + exists req, (past ++ [ev c r]). split; [by apply Hsub|done].
    + intros m ->. destruct Hg.
Qed.

Lemma deletion_step_inv s s' : system_step s s' -> system_inv s -> system_inv s'.
Proof.
  intros Hst. destruct Hst as [w h ts i t c k r w' Hi Hc Hs|w h ts cp p Hn He Hcp Hp|w h ts req|w w' h ts Hw];
    intros (Hkey & Hdel & Hts); simpl.
  - destruct (call_in_order _ _ _ _ _ _ _ Hkey Hc (Hts _ _ Hi) Hs) as (Hold & Hrest & Hd). split_and!.
    + intros key m [Hin|Hin%list_elem_of_singleton]%elem_of_app; [auto|].
      apply (f_equal ev_cmd) in Hin as Ec. simpl in Ec. subst c. apply ev_inj in Hin as <-.
      by eapply serves_fetched.
    + intros m r0 [Hin|Hin%list_elem_of_singleton]%elem_of_app; [by eapply Hold, Hdel|].
      apply (f_equal ev_cmd) in Hin. simpl in Hin. by apply Hold, Hd.
    + intros j t' Hj. apply list_lookup_insert_Some in Hj as [(<- & <- & _)|[_ Hj]]; [done|].
      eapply in_order_holding; [|exact Hold|by eapply Hts]. intros x. rewrite elem_of_app. auto.
  - split_and!; [done..|]. intros i t [[_ Ht]|[_ <-]]%lookup_snoc_Some; [by eapply Hts|].
    exists cp, []. split; [intros ? []%elem_of_nil|]. split; [by apply (deleting_ordered etcdCallTimeout)|].
    split; [|done]. by intros k (b & a & owned & []%elem_of_nil & _).
  - split_and!; [done..|]. intros i t [[_ Ht]|[_ <-]]%lookup_snoc_Some; [by eapply Hts|].
    exists req, []. split; [intros ? []%elem_of_nil|]. apply Reconcile_ordered.
  - assert (Hold : holding w h w' h) by by apply holding_kept.
    split_and!; [done|by intros m r Hin; eapply Hold, Hdel|].
    intros i t Ht. eapply in_order_holding; [done|exact Hold|by eapply Hts].
Qed.

(** C5: a machine whose deletion the control plane asked for is kept until its
    etcd member no longer matters. Any number of scale-downs and remediations of
    initialized control planes with managed etcd, and of reconciliations of
    machines, take turns in any order, call by call; each may stop anywhere.
    Whenever the deletion of a machine has been asked for, the machine still
    carries the hook on the server, or it was released: a reconciliation of it
    fetched it while it was being deleted and waited at the hook, and saw that
    there is nothing to remove or that its member is gone. *)
Theorem deletion_waits_for_etcd w0 w h ts m r :
  rtc system_step (w0, [], []) (w, h, ts) ->
  @ev services (DeleteMachine m) r ∈ h ->
  key_of m ∈ hooked_on w \/ released (key_of m) h.
Proof.
  intros Hst. assert (system_inv (w, h, ts)) as (_ & Hdel & _); [|by apply Hdel].
  remember (w0, [], []) as s0 eqn:E0. remember (w, h, ts) as s eqn:E. clear E.
  assert (Hinv : system_inv s0); [|clear E0; by induction Hst; eauto using deletion_step_inv].
  subst s0. split_and!.
  - intros key m' Hin. by apply elem_of_nil in Hin.
  - intros m' r' Hin. by apply elem_of_nil in Hin.
  - intros i t Ht. by rewrite lookup_nil in Ht.
Qed.
End System.

(** ** An example *)

(** A reconciliation that runs to its end while the others wait. *)
Section Alone.
Context `{CAPI} `{!AnnotationsLib} `{Crypto} `{MapOrder} `{RemediationCodec}.
Context {W : Type} `{!MachineServer W} (etcdCallTimeout : Z).
Context (answers : handler W)
  (answers_served : forall w c r w', answers c w = (r, w') -> m_serves w c r w').

Lemma alone {A} (f : prog A -> controller) (p : prog A) a tr w w' h ts :
  (forall c k, calls (f (Do c k)) c (fun r => f (k r))) ->
  run answers p w = (a, tr, w') ->
  rtc (system_step etcdCallTimeout) (w, h, ts ++ [f p]) (w', h ++ tr, ts ++ [f (Ret a)]).
Proof.
  intros Hf. revert w h tr. induction p as [a0|c k IH]; intros w h tr; simpl.
  - intros [= -> <- <-]. by rewrite app_nil_r.
  - destruct (answers c w) as [r w1] eqn:Ea. destruct (run answers (k r) w1) as [[a1 tr1] w2] eqn:E.
    intros [= -> <- ->]. eapply rtc_l.
    + apply (system_call _ w h (ts ++ [f (Do c k)]) (length ts) (f (Do c k)) c (fun r => f (k r)) r w1);
        [|apply Hf|by apply answers_served].
      apply lookup_snoc_Some. by right.
    + rewrite insert_app_r_alt, Nat.sub_diag by done. cbn [list_insert insert].
      rewrite (cons_middle (ev c r) h tr1), (app_assoc h). by apply IH.
Qed.
End Alone.

Section Examples.
#[local] Existing Instance reference.capi.
#[local] Existing Instance reference.crypto.
#[local] Existing Instance reference_codec.codec.

#[local] Program Instance an_annotations_lib : AnnotationsLib := {
  HasWithPrefix := fun prefix a => existsb (fun kv => String.prefix prefix kv.1) (map_to_list (default ∅ a));
}.
Next Obligation.
  intros prefix a Ha. apply existsb_exists. destruct (gomap_get a prefix) as [v|] eqn:E; [|done].
  exists (prefix, v). split.
  - apply list_elem_of_In, elem_of_map_to_list. destruct a as [a|]; [done|discriminate E].
  - clear. simpl. induction prefix as [|b prefix IH]; simpl; [done|]. by destruct (Ascii.ascii_dec b b).
Qed.

(** A server that keeps the hooks, and answers anything else at will. *)
#[local] Program Instance hook_server : MachineServer (gset ObjectKey) := {
  m_serves := fun w c => match c return resp c -> gset ObjectKey -> Prop with
    | GetMachine k => fun r w' => w' = w /\ match r with inl m => key_of m = k | inr _ => True end
    | PatchMachine b a _ => fun r w' =>
        match r with inl _ => w' = patched_hooks b a w | inr _ => w' = w end
    | _ => fun _ w' => w' = w
    end;
  hooked_on := fun w => w;
}.
Next Obligation. by intros w k m w' [_ Hk]. Qed.
Next Obligation. intros w b a cs [[]|e] w' Hs; [by left|by right]. Qed.
Next Obligation. intros w [] r w' Hc Hs; try done; try (by subst w'). by destruct Hs as [-> _]. Qed.

(** Two healthy machines with managed etcd. *)
Definition etcd_machine (n : string) : Machine :=
  with_meta (with_annotations (Some ∅) (MachineMeta (named_machine n)))
    (with_conditions [mkCondition MachineAgentHealthyCondition ConditionTrue "" "";
                      mkCondition MachineEtcdMemberHealthyCondition ConditionTrue "" ""] (named_machine n)).

Definition two_members : ControlPlane :=
  mkControlPlane (a_kcp 1 None None true) a_cluster
    {[ "a" := etcd_machine "a"; "b" := etcd_machine "b" ]} None true 0 ∅ ∅.

(** A machine [k] that is being deleted and waits at the hook, in a cluster that
    is being deleted. *)
Definition waiting_machine (k : ObjectKey) : Machine :=
  mkMachine (mkObjectMeta (KeyName k) (KeyNamespace k) "" "" None
      (Some {[ PreTerminateDeleteHookAnnotationPrefix := k3sHookName ]}) [] [] 0 (Some 1%Z) [])
    "c" "" "" (mkContractRef "" "" "") (mkContractRef "" "" "") None None None ""
    [] [mkV1Condition PreTerminateDeleteHookSucceededV1Beta1Condition ConditionFalse "" "" ""].

Definition deleted_cluster : Cluster :=
  mkCluster (mkObjectMeta "c" "ns" "" "" None None [] [] 0 (Some 1%Z) []) "" 0
    (mkContractRef "" "" "") None None None.

Definition hook_answers : handler (gset ObjectKey) := fun c w =>
  match c return resp c * gset ObjectKey with
  | GetMachine k => (inl (waiting_machine k), w)
  | GetClusterFromMetadata _ => (inl deleted_cluster, w)
  | PatchMachine b a _ => (inl tt, patched_hooks b a w)
  | c => (default_resp c, w)
  end.

Lemma hook_answers_served w c r w' : hook_answers c w = (r, w') -> m_serves w c r w'.
Proof. destruct c; intros [= <- <-]; try done. split; [done|]. by destruct key. Qed.

Lemma two_members_named : named (CPMachines two_members).
Proof.
  intros k m Hk. cbn [two_members CPMachines] in Hk.
  apply lookup_insert_Some in Hk as [[<- <-]|[_ Hk]]; [done|].
  by apply lookup_singleton_Some in Hk as [<- <-].
Qed.

Lemma two_members_unhooked k m : CPMachines two_members !! k = Some m -> ~ has_hook m.
Proof.
  intros Hk. cbn [two_members CPMachines] in Hk.
  apply lookup_insert_Some in Hk as [[<- <-]|[_ Hk]]; [done|].
  by apply lookup_singleton_Some in Hk as [<- <-].
Qed.

(** Scaling down hooks machine "a" and asks for its deletion; then the machine is
    reconciled. *)
Definition scaled := run hook_answers (scaleDownControlPlane 0 ∅ two_members) (∅ : gset ObjectKey).

Definition resolved := run hook_answers (MachineController.Reconcile 0 (mkKey "ns" "a") tt) scaled.2.

Definition both_done : gset ObjectKey * list event * list controller :=
  (resolved.2, scaled.1.2 ++ resolved.1.2, [Deleting (Ret scaled.1.1); Releasing (Ret resolved.1.1)]).

Lemma both_done_reachable : rtc (system_step 0) (∅, [], []) both_done.
Proof.
  eapply rtc_l.
  { apply (system_delete 0 ∅ [] [] two_members); [exact two_members_named|done|..].
    - intros k (name & m & Hk & Hh & _). by destruct (two_members_unhooked name m Hk).
    - apply (scaling_down 0 two_members ∅), map_empty_subseteq. }
  etransitivity.
  { apply (alone 0 hook_answers hook_answers_served Deleting _ scaled.1.1 scaled.1.2 ∅ scaled.2);
      [by constructor|by rewrite <- !surjective_pairing]. }
  eapply rtc_l; [apply (system_release 0 _ _ _ (mkKey "ns" "a"))|].
  apply (alone 0 hook_answers hook_answers_served Releasing _ resolved.1.1 resolved.1.2 scaled.2 resolved.2);
    [by constructor|by rewrite <- !surjective_pairing].
Qed.

Example deletion_waits_for_etcd_witness :
  exists m, @ev services (DeleteMachine m) (inl tt) ∈ both_done.1.2
    /\ key_of m = mkKey "ns" "a" /\ key_of m ∉ hooked_on both_done.1.1
    /\ released (key_of m) both_done.1.2.
Proof.
  assert (Hd : exists m, @ev services (DeleteMachine m) (inl tt) ∈ both_done.1.2 /\ key_of m = mkKey "ns" "a").
  { eexists. split; [vm_compute; do 5 right; left|reflexivity]. }
  destruct Hd as (m & Hd & Hk). exists m. split; [exact Hd|]. split; [exact Hk|].
  assert (Hn : key_of m ∉ hooked_on both_done.1.1).
  { rewrite Hk. apply (bool_decide_unpack _). by vm_compute. }
  split; [exact Hn|].
  destruct (deletion_waits_for_etcd 0 ∅ both_done.1.1 both_done.1.2 both_done.2 m (inl tt)) as [Hin|Hr];
    [rewrite <- !surjective_pairing; exact both_done_reachable|exact Hd| |exact Hr].
  destruct (Hn Hin).
Defined.
End Examples.
