(* ===== verification/SsaCache.v ===== *)
(** The cache of server-side apply requests (pkg/util/ssa/cache.go): its store,
    which forgets a key after ten minutes, and the reconciliations that share it
    (the updates of machines of controlplane/controllers/scale.go). A request is
    skipped only when it was made before and changed nothing, as far as the
    32-bit hash in its identifier tells. *)

From stdpp Require Import pretty.
From S2P Require Import Prelude GoStd Effects Interleave ApiTypes Api Ssa ContractVersion Capi CapiLib Locking ControlPlane Remediation Scale KcpController WellFormed.

(** ** The store

    client-go's store of objects with a time to live, of which the cache keeps
    strings that are their own keys. [added] is when each key was added last;
    a key whose time is over is not found. *)
Class TTLStore (St : Type) := {
  NewTTLStore : Z -> St;
  store_Add : Time -> string -> St -> St;
  store_GetByKey : Time -> string -> St -> bool * St;
  store_List : Time -> St -> St;
  time_to_live : St -> Z;
  added : St -> gmap string Time;
  New_spec : forall t, time_to_live (NewTTLStore t) = t /\ added (NewTTLStore t) = ∅;
  Add_spec : forall now k s,
    time_to_live (store_Add now k s) = time_to_live s
    /\ added (store_Add now k s) = <[k := now]> (added s);
  GetByKey_spec : forall now k s b s', store_GetByKey now k s = (b, s') ->
    time_to_live s' = time_to_live s /\ added s' ⊆ added s
    /\ (b = true <-> exists t, added s !! k = Some t /\ (now - t <= time_to_live s)%Z);
  List_spec : forall now s,
    time_to_live (store_List now s) = time_to_live s /\ added (store_List now s) ⊆ added s;
}.

Module ssaCache.
Section Cache.
Context {St : Type} `{!TTLStore St}.

Definition ttl : Z := 10 * Minute.
Definition expirationInterval : Z := 10 * Hour.

(** [NewCache], without the goroutine that lists the store. *)
Definition NewCache : St := NewTTLStore ttl.

Definition Add (now : Time) (key : string) (s : St) : St := store_Add now key s.

Definition Has (now : Time) (key : string) (s : St) : bool * St := store_GetByKey now key s.
End Cache.
End ssaCache.
Import ssaCache.

(** ** Identifiers *)

Section Identifier.
Context `{Texts}.

(** The identifier of a request on the object with the kind [gvk] and the
    metadata [om], to apply [u]. *)
Definition request_key (gvk : GroupVersionKind) (om : ObjectMeta) (u : value) : string + error :=
  match Compute u with
  | inr err => inr (EWrap "failed to calculate request identifier: failed to compute hash for modified object" err)
  | inl h => inl (GVK_String gvk +++ "." +++ KObj om +++ "." +++ ResourceVersion om +++ "." +++ pretty h)
  end.

Lemma ComputeRequestIdentifier_key {O} `{ClientObject O} (original : O) u k :
  ComputeRequestIdentifier original u = inl k ->
  exists gvk, GVKForObject original = inl gvk /\ request_key gvk (object_meta original) u = inl k.
Proof.
  unfold ComputeRequestIdentifier, request_key. destruct (Compute u) as [h|]; [|done].
  destruct (GVKForObject original) as [gvk|]; [|done]. intros [= <-]. by exists gvk.
Qed.

Definition dotless (s : string) : Prop := has_char "." s = false.

Lemma dotless_last a a' b b' :
  dotless b -> dotless b' -> a +++ "." +++ b = a' +++ "." +++ b' -> a = a' /\ b = b'.
Proof.
  unfold dotless. intros Hb Hb'. revert a'. induction a as [|x a IH]; intros [|x' a']; simpl.
  - by intros [= ->].
  - intros [= <- E]. subst b. exfalso. clear -Hb. induction a' as [|y a' IH]; simpl in *; [done|].
    destruct (Ascii.eqb y "."); [done|]. auto.
  - intros [= -> E]. subst b'. exfalso. clear -Hb'. induction a as [|y a IH]; simpl in *; [done|].
    destruct (Ascii.eqb y "."); [done|]. auto.
  - intros [= <- E]. by destruct (IH a' E) as [-> ->].
Qed.

Lemma pretty_dotless (z : Z) : dotless (pretty z).
Proof.
  assert (Hgo : forall x t, dotless t -> dotless (pretty_N_go x t)).
  { intros x. induction (N.lt_wf_0 x) as [x _ IH]; intros t Ht.
    assert (x = 0 \/ 0 < x)%N as [->|Hx] by lia; [done|].
    rewrite pretty_N_go_step by done. apply IH; [by apply N.div_lt|].
    unfold dotless. simpl. rewrite Ht, orb_false_r. unfold pretty_N_char. by repeat case_match. }
  destruct z as [|p|p]; [done|by apply (Hgo (Npos p))|].
  unfold dotless. cbn. by apply (Hgo (Npos p)).
Qed.

(** What an identifier identifies, when resource versions have no dot, as those
    of the API server have none: the text of the kind and of the name, the
    resource version and the hash, not what is applied. *)
Lemma request_key_inj gvk gvk' om om' u u' k :
  dotless (ResourceVersion om) -> dotless (ResourceVersion om') ->
  request_key gvk om u = inl k -> request_key gvk' om' u' = inl k ->
  GVK_String gvk +++ "." +++ KObj om = GVK_String gvk' +++ "." +++ KObj om'
  /\ ResourceVersion om = ResourceVersion om'
  /\ Compute u = Compute u'.
Proof.
  unfold request_key. intros Hd Hd'.
  destruct (Compute u) as [h|] eqn:E, (Compute u') as [h'|] eqn:E'; try done.
  intros E1 E2. rewrite <- E2 in E1. apply (inj inl) in E1 as Ek.
  assert (Ha : forall a b c d, a +++ "." +++ b +++ "." +++ c +++ "." +++ d
    = ((a +++ "." +++ b) +++ "." +++ c) +++ "." +++ d) by (intros; by rewrite !append_assoc).
  rewrite !Ha in Ek. apply dotless_last in Ek as [Ek Eh]; [|apply pretty_dotless..].
  apply dotless_last in Ek as [Ek Er]; [|done..]. apply (inj pretty) in Eh. subst h'. done.
Qed.
End Identifier.

(** ** What is recorded *)

Section Recorded.
Context `{Texts} `{!Scheme}.

(** An apply of [u] was answered with the resource version [rv]. *)
Definition applied (u : value) (rv : string) (past : list event) : Prop :=
  (exists m a, prepareModified m = inl u /\ @ev services (ApplyMachine m) (inl a) ∈ past
     /\ ResourceVersion (MachineMeta a) = rv)
  \/ (exists x a, prepareModified x = inl u /\ @ev services (ApplyExternal x) (inl a) ∈ past
     /\ ResourceVersion (UMeta a) = rv).

(** A request with the identifier [k] was made and left its object, which was
    read with the metadata [om], as it was. *)
Definition unchanged (k : string) (past : list event) : Prop :=
  exists gvk om u, request_key gvk om u = inl k /\ applied u (ResourceVersion om) past.

Definition adds_unchanged (past : list event) (e : event) : Prop :=
  match ev_cmd e with CacheAdd k => unchanged k past | _ => True end.

Lemma unchanged_mono k past past' : past ⊆ past' -> unchanged k past -> unchanged k past'.
Proof.
  intros Hs (gvk & om & u & Hk & Ha). exists gvk, om, u. split; [done|].
  destruct Ha as [(m & a & Hp & Hin & Hr)|(x & a & Hp & Hin & Hr)]; [left|right]; eauto 6.
Qed.

Lemma adds_unchanged_mono past past' e : past ⊆ past' -> adds_unchanged past e -> adds_unchanged past' e.
Proof. intros Hs. unfold adds_unchanged. destruct (ev_cmd e); eauto using unchanged_mono. Qed.

Abbreviation adds_in_order := (ordered adds_unchanged []).

Lemma adds_nil : adds_in_order [].
Proof. done. Qed.

Lemma adds_app tr tr' : adds_in_order tr -> adds_in_order tr' -> adds_in_order (tr ++ tr').
Proof. apply ordered_concat, adds_unchanged_mono. Qed.

(** The request that is added was applied just before. *)
Lemma applied_unchanged {O} `{!ClientObject O} (original : O) u k past :
  ComputeRequestIdentifier original u = inl k -> applied u (ResourceVersion (object_meta original)) past ->
  unchanged k past.
Proof.
  intros (gvk & _ & Hk)%ComputeRequestIdentifier_key Ha. by exists gvk, (object_meta original), u.
Qed.

Ltac adds_go :=
  simpl; repeat (split; [try exact I|]); try exact I; unfold adds_unchanged; simpl; try exact I;
  match goal with E : String.eqb _ _ = true |- _ => apply String.eqb_eq in E end.

Lemma PatchCached_machine_adds {S O} `{!ClientObject O} f (m : Machine) (o : O) :
  traces adds_in_order (PatchCached (S := S) f m o).
Proof.
  intros s. unfold PatchCached. cbn [Apply machine_appliable]. wp_go; adds_go.
  eapply applied_unchanged; [done|]. left. do 2 eexists. split; [done|]. split; [right; left|done].
Qed.

Lemma PatchCached_external_adds {S O} `{!ClientObject O} f (x : Unstructured) (o : O) :
  traces adds_in_order (PatchCached (S := S) f x o).
Proof.
  intros s. unfold PatchCached. cbn [Apply external_appliable]. wp_go; adds_go.
  eapply applied_unchanged; [done|]. right. do 2 eexists. split; [done|]. split; [right; left|done].
Qed.

(** What a cached request does: without an identifier nothing; when the cache has
    the identifier, nothing else, and the original is written back; when it has
    not, the request is sent, and recorded if it left the object's resource
    version as it was. [send r] is the request, answered with [r]. *)
Definition cached_request {O O'} `{!Appliable O} `{!ClientObject O} `{!ClientObject O'}
    (Convert : O' -> O + error) (modified : O) (original : O') (send : O + error -> event)
    (tr : list event) (o : outcome O) : Prop :=
  tr = [] /\ (exists err, o = Err err)
  \/ exists u gvk k, prepareModified modified = inl u /\ GVKForObject original = inl gvk
     /\ request_key gvk (object_meta original) u = inl k
     /\ (tr = [@ev services (CacheHas k) true]
           /\ (forall x, o = Val x <-> Convert original = inl x)
         \/ (exists err, tr = [@ev services (CacheHas k) false; send (inr err)] /\ exists err', o = Err err')
         \/ (exists a, tr = [@ev services (CacheHas k) false; send (inl a)]
               ++ (if String.eqb (ResourceVersion (object_meta original)) (ResourceVersion (object_meta a))
                   then match FromAnswer a with inl _ => [@ev services (CacheAdd k) tt] | inr _ => [] end
                   else [])
             /\ forall x, o = Val x <-> FromAnswer a = inl x)).

Ltac request_go :=
  simpl; unfold cached_request;
  try (left; split; [done|by eexists]);
  match goal with E : ComputeRequestIdentifier _ _ = inl _ |- _ =>
    apply ComputeRequestIdentifier_key in E as (? & ? & ?) end;
  right; do 3 eexists; do 3 (split; [done|]); subst;
  first
    [ left; split; [reflexivity|intros; split; congruence]
    | right; left; eexists; split; [reflexivity|by eexists]
    | right; right;
      match goal with |- context [ev (CacheHas _) false :: ev _ (inl ?a) :: _] => exists a end;
      split; [|intros; simpl in *; split; congruence];
      repeat match goal with r : Resp (CacheAdd _) |- _ => destruct r end; simpl in *;
      repeat match goal with E : ?x = _ |- context [?x] => rewrite E end; try case_match; reflexivity ].

Lemma PatchCached_machine_request {S O} `{!ClientObject O} f (m : Machine) (o : O) (s : S) :
  wp (PatchCached f m o) s (fun tr _ out => cached_request f m o (ev (ApplyMachine m)) tr out).
Proof.
  unfold PatchCached. cbn [Apply machine_appliable]. wp_go; request_go.
Qed.

Lemma PatchCached_external_request {S O} `{!ClientObject O} f (x : Unstructured) (o : O) (s : S) :
  wp (PatchCached f x o) s (fun tr _ out => cached_request f x o (ev (ApplyExternal x)) tr out).
Proof.
  unfold PatchCached. cbn [Apply external_appliable]. wp_go; request_go.
Qed.

(** Other calls add nothing. *)
Lemma call_adds {S} (c : cmd) :
  (forall k, c <> CacheAdd k) -> traces adds_in_order (call (S := S) c).
Proof. intros Hc. apply traces_call. intros r. split; [|done]. unfold adds_unchanged. destruct c; try done. by destruct (Hc key). Qed.
End Recorded.

#[local] Hint Resolve PatchCached_machine_adds PatchCached_external_adds : traces.
#[local] Hint Extern 1 (traces _ (call _)) => apply call_adds; discriminate : traces.

Section Sync.
Context `{CAPI} `{!ControllerLib} `{Crypto} `{MapOrder} `{ServerConfigCodec} `{Scheme} `{Texts} `{KubeVersions}.

Lemma syncMachines_adds : traces (ordered adds_unchanged []) syncMachines.
Proof.
  unfold syncMachines, sync_machine, sync_infra, sync_config, updateMachine, updateExternalObject,
    computeDesiredMachine, CleanUpManagedFieldsForSSAAdoption, DropManagedFields, GetAPIVersion, GetGKMetadata,
    drop_entry.
  cbn [MergePatch machine_object config_object external_object]. traces_go adds_nil adds_app.
Qed.
End Sync.

(** ** Reconciliations that share the cache *)

Record world (St : Type) := mkWorld { cached : St; clock : Time; log : list (Time * event) }.
Arguments mkWorld {St}.
Arguments cached {St}.
Arguments clock {St}.
Arguments log {St}.

Definition past_events {St} (w : world St) : list event := (log w).*2.

Section System.
Context `{CAPI} `{!ControllerLib} `{Crypto} `{MapOrder} `{ServerConfigCodec} `{Scheme} `{Texts} `{KubeVersions}.
Context {St : Type} `{!TTLStore St}.

Definition logged (c : cmd) (r : resp c) (s : St) (w : world St) : world St :=
  mkWorld s (clock w) (log w ++ [(clock w, ev c r)]).

Definition is_cache (c : cmd) : bool :=
  match c with CacheHas _ | CacheAdd _ => true | _ => false end.

(** The cache answers as it is; of all other answers nothing is known. *)
Definition answered (w : world St) (c : cmd) : resp c -> world St -> Prop :=
  match c return resp c -> world St -> Prop with
  | CacheHas k => fun r w' =>
      let '(b, s) := Has (clock w) k (cached w) in r = b /\ w' = logged (CacheHas k) r s w
  | CacheAdd k => fun r w' => w' = logged (CacheAdd k) r (Add (clock w) k (cached w)) w
  | c => fun r w' => w' = logged c r (cached w) w
  end.

Abbreviation sync_thread := (prog (ControlPlane * outcome unit)).

(** A call of one of them; the update of the machines of a control plane starts;
    time passes; the goroutine lists the store. *)
Inductive system_step : world St * list sync_thread -> world St * list sync_thread -> Prop :=
| system_call s s' : step answered s s' -> system_step s s'
| system_start w ts cp : system_step (w, ts) (w, ts ++ [syncMachines cp])
| system_time w now ts : (clock w <= now)%Z -> system_step (w, ts) (mkWorld (cached w) now (log w), ts)
| system_list w ts :
    system_step (w, ts) (mkWorld (store_List (clock w) (cached w)) (clock w) (log w), ts).

(** The key [k] was added at the time [t], after a request with this identifier
    that changed nothing. *)
Definition added_at (k : string) (t : Time) (l : list (Time * event)) : Prop :=
  exists l1 l2, l = l1 ++ (t, @ev services (CacheAdd k) tt) :: l2 /\ unchanged k l1.*2.

Lemma added_at_app k t l l' : added_at k t l -> added_at k t (l ++ l').
Proof. intros (l1 & l2 & -> & Hu). exists l1, (l2 ++ l'). by rewrite <- app_assoc. Qed.

Definition hits_recorded (l : list (Time * event)) : Prop :=
  forall l1 now k l2, l = l1 ++ (now, @ev services (CacheHas k) true) :: l2 ->
    exists t, (t <= now <= t + ttl)%Z /\ added_at k t l1.

Definition cache_inv (w : world St) : Prop :=
  time_to_live (cached w) = ttl
  /\ (forall k t, added (cached w) !! k = Some t -> (t <= clock w)%Z /\ added_at k t (log w))
  /\ hits_recorded (log w).

Definition thread_in_order (w : world St) (p : sync_thread) : Prop :=
  exists past, past ⊆ past_events w /\ always p (fun tr _ => ordered adds_unchanged past tr).

Definition system_inv (s : world St * list sync_thread) : Prop :=
  cache_inv s.1 /\ forall i p, s.2 !! i = Some p -> thread_in_order s.1 p.

Lemma hits_snoc l e :
  hits_recorded l ->
  (forall now k, e = (now, @ev services (CacheHas k) true) ->
     exists t, (t <= now <= t + ttl)%Z /\ added_at k t l) ->
  hits_recorded (l ++ [e]).
Proof.
  intros Hl He l1 now k l2 E. destruct l2 as [|e2 l2 _] using rev_ind.
  - apply app_inj_tail in E as [-> ->]. by apply He.
  - rewrite app_comm_cons, app_assoc in E. apply app_inj_tail in E as [-> ->].
    by apply (Hl l1 now k l2).
Qed.

Lemma logged_inv w c r s :
  cache_inv w -> time_to_live s = ttl -> (forall k t, added s !! k = Some t ->
    added (cached w) !! k = Some t \/ t = clock w /\ added_at k t (log (logged c r s w))) ->
  (forall k, ev c r = @ev services (CacheHas k) true ->
     exists t, (t <= clock w <= t + ttl)%Z /\ added_at k t (log w)) ->
  cache_inv (logged c r s w).
Proof.
  intros (_ & Ha & Hh) Hs Hadd Hhas. split; [done|]. split.
  - intros k t Hk. destruct (Hadd k t Hk) as [Hold|[-> Hnew]]; [|split; [simpl; lia|exact Hnew]].
    destruct (Ha k t Hold) as [Ht Hr]. split; [done|]. by apply added_at_app.
  - apply hits_snoc; [done|]. intros now k [= <- E]. by apply Hhas.
Qed.

Lemma answered_logged w c r w' :
  answered w c r w' -> exists s, w' = logged c r s w.
Proof.
  destruct c; simpl; try (by eexists).
  destruct (Has (clock w) key (cached w)) as [b s]. intros [-> ->]. by exists s.
Qed.

Lemma answered_other w c r w' :
  is_cache c = false -> answered w c r w' -> w' = logged c r (cached w) w.
Proof. by destruct c. Qed.

Lemma answered_inv w c r w' :
  cache_inv w -> adds_unchanged (past_events w) (ev c r) -> answered w c r w' -> cache_inv w'.
Proof.
  intros Hw Hu Hans. pose proof Hw as (Hl & Ha & _).
  destruct (is_cache c) eqn:Hc.
  2: { apply (answered_other _ _ _ _ Hc) in Hans as ->.
    apply logged_inv; [done|done|by left|]. intros k E. apply (f_equal ev_cmd) in E.
    simpl in E. by subst c. }
  destruct c as []; try discriminate Hc; simpl in Hans.
  - destruct (Has (clock w) key (cached w)) as [b s] eqn:Eh. destruct Hans as [-> ->].
    destruct (GetByKey_spec _ _ _ _ _ Eh) as (Ht & Hsub & Hb). apply logged_inv; [done|by rewrite Ht| |].
    + intros k t Hk. left. by eapply lookup_weaken.
    + intros k E. ev_eq E. destruct (proj1 Hb E) as (t & Hk & Htl). exists t.
      destruct (Ha k t Hk) as [Hle Hadd]. split; [rewrite Hl in Htl; lia|done].
  - subst w'. destruct (Add_spec (clock w) key (cached w)) as [Ht Hadd].
    apply logged_inv; [done|unfold Add; by rewrite Ht| |intros k E; by ev_eq E].
    intros k t Hk. unfold Add in Hk. rewrite Hadd in Hk.
    apply lookup_insert_Some in Hk as [[<- <-]|[_ Hk]]; [right|by left]. split; [done|].
    exists (log w), []. split; [by destruct r|done].
Qed.

Lemma cache_step_inv s s' : system_step s s' -> system_inv s -> system_inv s'.
Proof.
  intros Hst. destruct Hst as [s s' Hst|w ts cp|w now ts Hnow|w ts]; intros [Hw Hts].
  - destruct Hst as [w ts i c k r w' Hi Hans]. cbn [fst snd] in *.
    destruct (Hts i _ Hi) as (past & Hp & Ho). destruct (ordered_call _ _ _ _ Ho r) as [Hg Hk].
    destruct (answered_logged _ _ _ _ Hans) as [s E].
    assert (Hpast : past_events w' = past_events w ++ [ev c r])
      by (rewrite E; unfold past_events; simpl; by rewrite fmap_app).
    assert (Hgrow : past_events w ⊆ past_events w') by (rewrite Hpast; intros x; rewrite elem_of_app; auto).
    split; [eapply answered_inv; [exact Hw| |exact Hans]; by eapply adds_unchanged_mono|].
    intros j p Hj. apply list_lookup_insert_Some in Hj as [(<- & <- & _)|[_ Hj]].
    + exists (past ++ [ev c r]). split; [|done]. unfold thread_in_order; cbn [fst]; rewrite Hpast.
      intros x. rewrite !elem_of_app. intros [?|?]; auto.
    + destruct (Hts j p Hj) as (past' & Hp' & Ho'). exists past'. split; [by transitivity (past_events w)|done].
  - split; [done|]. intros i p [[_ Hi]|[_ <-]]%lookup_snoc_Some; [by apply (Hts i)|].
    exists []. split; [intros x []%elem_of_nil|]. apply syncMachines_adds.
  - split; [|exact Hts]. destruct Hw as (Hl & Ha & Hh). split; [done|]. split; [|done].
    intros k t Hk. destruct (Ha k t Hk) as [Ht Hadd]. split; [simpl in *; lia|done].
  - split; [|exact Hts]. destruct Hw as (Hl & Ha & Hh). destruct (List_spec (clock w) (cached w)) as [Ht Hsub].
    split; [simpl; by rewrite Ht|]. split; [|done]. intros k t Hk. apply Ha. by eapply lookup_weaken.
Qed.

(** A hit of the log is of a request that changed nothing. *)
Lemma hit_recorded now0 w ts l1 now k l2 gvk om u :
  rtc system_step (mkWorld NewCache now0 [], []) (w, ts) ->
  log w = l1 ++ (now, @ev services (CacheHas k) true) :: l2 ->
  request_key gvk om u = inl k ->
  exists t before after gvk' om' u',
    (t <= now <= t + ttl)%Z
    /\ l1 = before ++ (t, @ev services (CacheAdd k) tt) :: after
    /\ request_key gvk' om' u' = inl k
    /\ applied u' (ResourceVersion om') before.*2
    /\ (dotless (ResourceVersion om) -> dotless (ResourceVersion om') ->
        GVK_String gvk +++ "." +++ KObj om = GVK_String gvk' +++ "." +++ KObj om'
        /\ ResourceVersion om = ResourceVersion om' /\ Compute u = Compute u').
Proof.
  intros Hst El Hk.
  assert (Hinv : system_inv (w, ts)).
  { remember (mkWorld NewCache now0 [], []) as s0 eqn:E0. remember (w, ts) as s eqn:E. clear E.
    assert (Hinv : system_inv s0); [|clear E0; by induction Hst; eauto using cache_step_inv].
    subst s0. destruct (New_spec ttl) as [Ht Ha]. split; [|intros i p Hi; by apply list_elem_of_lookup_2, elem_of_nil in Hi].
    split; [done|]. split; [|by intros [] ? ? ? Hn]. simpl. unfold NewCache. rewrite Ha.
    intros k' t Hk'. by rewrite lookup_empty in Hk'. }
  destruct Hinv as [(_ & _ & Hh) _]. destruct (Hh _ _ _ _ El) as (t & Ht & before & after & -> & Hu).
  destruct Hu as (gvk' & om' & u' & Hk' & Ha). exists t, before, after, gvk', om', u'. do 4 (split; [done|]).
  intros Hd Hd'. by apply (request_key_inj gvk gvk' om om' u u' k).
Qed.

(** C35: an update of a machine, or of its infrastructure or bootstrap object, is
    skipped only when it was made before and changed nothing. A cached request
    asks the cache for its identifier; it goes without being sent exactly when
    the cache says that it has it, and it is recorded exactly when it was sent and
    left the object at its resource version. Any number of updates of control
    planes share the cache, call by call and in any order, while time passes and
    the store is cleared now and then; whatever is answered to their other calls.
    When the cache is asked for the identifier of the request to apply [u] to an
    object read with the metadata [om], and says that it has it, then at most ten
    minutes before it was added, after an apply of some content [u'] had been
    answered with the resource version of the object it was for; and, when
    resource versions have no dot, that was the same object at the same resource
    version, and [u'] has the same hash as [u]. *)
Theorem cache_hit_sound :
  (forall S O (Hc : ClientObject O) (f : O -> Machine + error) (m : Machine) (o : O) (s : S) tr s' out,
     runs (PatchCached f m o) s tr s' out -> cached_request f m o (ev (ApplyMachine m)) tr out)
  /\ (forall S O (Hc : ClientObject O) (f : O -> Unstructured + error) (x : Unstructured) (o : O) (s : S) tr s' out,
     runs (PatchCached f x o) s tr s' out -> cached_request f x o (ev (ApplyExternal x)) tr out)
  /\ forall now0 w ts l1 now k l2 gvk om u,
     rtc system_step (mkWorld NewCache now0 [], []) (w, ts) ->
     log w = l1 ++ (now, @ev services (CacheHas k) true) :: l2 ->
     request_key gvk om u = inl k ->
     exists t before after gvk' om' u',
       (t <= now <= t + ttl)%Z
       /\ l1 = before ++ (t, @ev services (CacheAdd k) tt) :: after
       /\ request_key gvk' om' u' = inl k
       /\ applied u' (ResourceVersion om') before.*2
       /\ (dotless (ResourceVersion om) -> dotless (ResourceVersion om') ->
           GVK_String gvk +++ "." +++ KObj om = GVK_String gvk' +++ "." +++ KObj om'
           /\ ResourceVersion om = ResourceVersion om' /\ Compute u = Compute u').
Proof.
  split; [|split].
  - intros S O Hc f m o s. apply wp_runs, PatchCached_machine_request.
  - intros S O Hc f x o s. apply wp_runs, PatchCached_external_request.
  - exact hit_recorded.
Qed.
End System.

(** ** Examples *)

(** Different contents can have the same hash, and then the same identifier. *)
Lemma same_hash_same_key `{Texts} gvk om u u' t t' :
  spew_Fprintf u = inl t -> spew_Fprintf u' = inl t' -> fnv32a t = fnv32a t' ->
  request_key gvk om u = request_key gvk om u'.
Proof. intros E E' Eh. unfold request_key, Compute. by rewrite E, E', Eh. Qed.

Example identifier_not_unique : fnv32a "costarring" = fnv32a "liquid".
Proof. reflexivity. Qed.

(** A store that keeps every key. *)
Module reference_store.
Record store := mkStore { store_ttl : Z; store_keys : gmap string Time }.

#[export] Program Instance ttl_store : TTLStore store | 100 := {
  NewTTLStore t := mkStore t ∅;
  store_Add now k s := mkStore (store_ttl s) (<[k := now]> (store_keys s));
  store_GetByKey now k s :=
    (match store_keys s !! k with
     | Some t => (now - t <=? store_ttl s)%Z
     | None => false
     end, s);
  store_List now s :=
    mkStore (store_ttl s) (filter (fun kt => (now - kt.2 <= store_ttl s)%Z) (store_keys s));
  time_to_live := store_ttl;
  added := store_keys;
}.
Next Obligation. done. Qed.
Next Obligation. done. Qed.
Next Obligation.
  intros now k s b s' [= <- <-]. split_and!; [done..|]. destruct (store_keys s !! k) as [t|].
  - rewrite Z.leb_le. split; [eauto|]. by intros (t' & [= <-] & ?).
  - split; [done|]. by intros (? & ? & _).
Qed.
Next Obligation. intros now s. split; [done|]. apply map_filter_subseteq. Qed.
End reference_store.

Section Examples.
#[local] Existing Instance reference.capi.
#[local] Existing Instance reference.crypto.
#[local] Existing Instance reference_lib.controller_lib.
#[local] Existing Instance reference_versions.kube_versions.
#[local] Existing Instance reference_store.ttl_store.
#[local] Existing Instance WellFormed.a_config_codec.
#[local] Existing Instance WellFormed.a_machine_scheme.
#[local] Existing Instance WellFormed.some_texts.

(** The answers of the cache, and for the rest of a server that accepts
    everything. *)
Definition world_answers : handler (world reference_store.store) := fun c w =>
  match c return resp c * world reference_store.store with
  | CacheHas k =>
      let '(b, s) := Has (clock w) k (cached w) in (b, logged (CacheHas k) b s w)
  | CacheAdd k => (tt, logged (CacheAdd k) tt (Add (clock w) k (cached w)) w)
  | c => (default_resp c, logged c (default_resp c) (cached w) w)
  end.

Lemma world_answered w c r w' : world_answers c w = (r, w') -> answered w c r w'.
Proof.
  by destruct c; intros [= <- <-].
Qed.

(** The machine "m" of a control plane, updated twice; the second time nine
    minutes later. *)
Definition one_machine_cp : ControlPlane :=
  mkControlPlane (a_kcp 1 None None false) a_cluster {[ "m" := named_machine "m" ]} None false 0 ∅ ∅.

Definition updated_once :=
  run_schedule world_answers (repeat 0 30) (mkWorld NewCache 0%Z [], [syncMachines one_machine_cp]).
Definition updated_twice :=
  run_schedule world_answers (repeat 1 30)
    (mkWorld (cached updated_once.1) (9 * Minute)%Z (log updated_once.1),
     updated_once.2 ++ [syncMachines one_machine_cp]).

Lemma schedule_steps sched s : rtc system_step s (run_schedule world_answers sched s).
Proof.
  pose proof (run_schedule_steps world_answers sched s) as Hst.
  induction Hst as [s|s1 s2 s3 Hst _ IH]; [done|]. eapply rtc_l; [|exact IH].
  apply system_call. destruct Hst as [w ts i c k r w' Hi Ha]. econstructor; [exact Hi|by apply world_answered].
Qed.

Lemma updated_twice_reachable : rtc system_step (mkWorld NewCache 0%Z [], []) updated_twice.
Proof.
  assert (H1 : rtc system_step (mkWorld NewCache 0%Z [], [syncMachines one_machine_cp]) updated_once)
    by exact (schedule_steps (repeat 0 30) _).
  assert (H2 : rtc system_step (mkWorld (cached updated_once.1) (9 * Minute)%Z (log updated_once.1),
      updated_once.2 ++ [syncMachines one_machine_cp]) updated_twice)
    by exact (schedule_steps (repeat 1 30) _).
  assert (Ht : (clock updated_once.1 <= 9 * Minute)%Z) by (vm_compute; discriminate).
  eapply rtc_l; [exact (system_start _ [] one_machine_cp)|]. etransitivity; [exact H1|].
  clear H1. destruct updated_once as [w ts]. cbn [fst snd] in *.
  eapply rtc_l; [exact (system_time w (9 * Minute) ts Ht)|].
  eapply rtc_l; [exact (system_start _ ts one_machine_cp)|]. exact H2.
Qed.

Example cache_hit_sound_witness :
  let k := "Machine.ns/m..2166136261" in
  exists l1 l2, log updated_twice.1 = l1 ++ ((9 * Minute)%Z, @ev services (CacheHas k) true) :: l2
    /\ request_key (mkGVK "" "Machine") (MachineMeta (named_machine "m")) (Map []) = inl k
    /\ exists t before after, (t <= 9 * Minute <= t + ttl)%Z
         /\ l1 = before ++ (t, @ev services (CacheAdd k) tt) :: after.
Proof.
  intros k. exists (take 8 (log updated_twice.1)), (drop 9 (log updated_twice.1)).
  assert (El : log updated_twice.1 = take 8 (log updated_twice.1)
    ++ ((9 * Minute)%Z, @ev services (CacheHas k) true) :: drop 9 (log updated_twice.1))
    by (vm_compute; reflexivity).
  assert (Ek : request_key (mkGVK "" "Machine") (MachineMeta (named_machine "m")) (Map []) = inl k)
    by (vm_compute; reflexivity).
  split; [exact El|]. split; [exact Ek|].
  destruct (proj2 (proj2 cache_hit_sound) 0%Z updated_twice.1 updated_twice.2 (take 8 (log updated_twice.1)) (9 * Minute)%Z k
    (drop 9 (log updated_twice.1)) (mkGVK "" "Machine") (MachineMeta (named_machine "m")) (Map []))
    as (t & before & after & gvk' & om' & u' & Ht & Eb & _).
  - rewrite <- surjective_pairing. exact updated_twice_reachable.
  - exact El.
  - exact Ek.
  - exists t, before, after. split; [exact Ht|exact Eb].
Defined.
End Examples.
