(* ===== verification/KcpStatus.v ===== *)
(** The status of a control plane: what [updateStatus]
    (controlplane/controllers/kthreescontrolplane_controller.go) reports, on
    every outcome. *)

From S2P Require Import Prelude GoStd Effects ApiTypes Api Ssa ContractVersion Capi K3sConfig Certificates Kubeconfig Token CapiLib ControlPlane Etcd Workload Conditions Remediation Scale KcpController KcpSafety KcpFrame MachineController.

(** ** What is reported *)

(** The counters that depend on the machines and the nodes, and the two flags. *)
Definition replica_counts (k : KThreesControlPlane) : Z * Z * Z :=
  (StatusReplicas (KCPStatus k), ReadyReplicas (KCPStatus k), UnavailableReplicas (KCPStatus k)).

Definition flags (k : KThreesControlPlane) : bool * bool :=
  (Initialized (KCPStatus k), Ready (KCPStatus k)).

Definition reported (k : KThreesControlPlane) : Z * Z * Z * (bool * bool) := (replica_counts k, flags k).

Section Status.
Context `{CAPI} `{!ControllerLib} `{Crypto} `{MapOrder} `{RemediationCodec} `{ServerConfigCodec}
  `{Scheme} `{Texts} `{ClientCmd} `{KubeVersions}.
Context (etcdCallTimeout : Z).

(** The machines of the list that the object owns; its selector is set by then. *)
Definition owned_by (cluster : Cluster) (k : KThreesControlPlane) (ml : list Machine) : Machines :=
  Filter (OwnedMachines (set_selector (ControlPlaneSelectorForCluster (Name (ClusterMeta cluster))) k))
    (FromMachineList ml).

Definition ready_nodes (nodes : list Node) : nat :=
  count IsNodeReady (List.filter (fun n => hasControlPlaneRoleLabel (Labels (NodeMeta n))) nodes).

Lemma Filter_singleton f ms : Filter (fun m => forallb (fun f => f m) [f]) ms = Filter f ms.
Proof.
  apply map_eq. intros n. apply option_eq. intros m. rewrite !Filter_lookup. simpl. by rewrite andb_true_r.
Qed.

(** The counters add up to the machines that the list held. *)
Definition counted (cluster : Cluster) (k : KThreesControlPlane) (tr : list event) (k' : KThreesControlPlane)
    : Prop :=
  exists ml, ev (ListMachines false (ClusterKey cluster)) (inl ml) ∈ tr
    /\ let n := wrap32 (Z.of_nat (size (owned_by cluster k ml))) in
       replica_counts k' = (n, ReadyReplicas (KCPStatus k'), wrap32 (n - ReadyReplicas (KCPStatus k'))).

Definition is_ok {A} (r : A + error) : bool := match r with inl _ => true | inr _ => false end.

(** The workload cluster listed its nodes and was asked for its serving secret, and
    the counter of the ready replicas and both marks say what it answered. *)
Definition answered (cluster : Cluster) (k : KThreesControlPlane) (tr : list event) (k' : KThreesControlPlane)
    : Prop :=
  exists before after nodes secret,
    tr = before
      ++ [ev (ListNodes (ClusterKey cluster)) (inl nodes);
          ev (GetWorkloadSecret (ClusterKey cluster) (mkKey NamespaceSystem k3sServingSecretKey)) secret]
      ++ after
    /\ ReadyReplicas (KCPStatus k') = wrap32 (Z.of_nat (ready_nodes nodes))
    /\ Initialized (KCPStatus k') = Initialized (KCPStatus k) || is_ok secret
    /\ Ready (KCPStatus k') = Ready (KCPStatus k) || (0 <? ReadyReplicas (KCPStatus k'))%Z.

(** No answer is reported: no replica is, and the marks are as they were. *)
Definition unanswered (k k' : KThreesControlPlane) : Prop :=
  ReadyReplicas (KCPStatus k') = 0%Z /\ flags k' = flags k.

Lemma GetWorkloadCluster_flags {S X} (f : S -> X) key : keeps f (GetWorkloadCluster etcdCallTimeout key).
Proof. apply keeps_of_wp, GetWorkloadCluster_keeps. Qed.
#[local] Hint Resolve GetWorkloadCluster_flags : keeps.

Lemma resized_reported replicas desired owned : keeps reported (resized replicas desired owned).
Proof. unfold resized, mark. keeps_go. Qed.

Lemma version_reported v :
  keeps reported (if negb (String.eqb v "") then modify (set_version (Some v)) else ret tt).
Proof. keeps_go. Qed.

Lemma surface_remediation_reported owned : keeps reported (surface_remediation owned).
Proof. unfold surface_remediation, latest_remediation. keeps_go. Qed.

Lemma reported_inv k k' :
  reported k' = reported k -> replica_counts k' = replica_counts k /\ flags k' = flags k.
Proof. intros E. by apply pair_equal_spec in E. Qed.

Lemma counted_mono cluster k tr tr' k1 k2 :
  counted cluster k tr k1 -> tr ⊆ tr' -> replica_counts k2 = replica_counts k1 -> counted cluster k tr' k2.
Proof.
  intros (ml & Hl & Hc) Hs Hr. exists ml. split; [by apply Hs|].
  pose proof Hr as Hr'. unfold replica_counts in Hr'. injection Hr' as _ Hrd _. cbv zeta in *. by rewrite Hr, Hrd.
Qed.

(** Calls around the answer, and changes of other fields, keep it. *)
Lemma answered_around cluster k k0 tr0 tr tr' k1 k2 :
  answered cluster k0 tr k1 -> flags k0 = flags k -> reported k2 = reported k1 ->
  answered cluster k (tr0 ++ tr ++ tr') k2.
Proof.
  intros (b & a & nodes & x & -> & Hn & Hi & Hr) Hf Hk.
  unfold reported, flags in Hf, Hk. injection Hf as Hf1 Hf2. injection Hk as Hk1 Hk2 Hk3 Hk4 Hk5.
  exists (tr0 ++ b), (a ++ tr'), nodes, x. rewrite Hk2, Hk4, Hk5, <- Hf1, <- Hf2.
  split; [by rewrite <- !app_assoc|done].
Qed.

(** What [GetClusterStatus] counts. *)
Lemma GetClusterStatus_ok w :
  wp (GetClusterStatus IsNodeReady) w (fun tr _ o => o <> Panic /\ forall st, o = Val st ->
    exists nodes secret,
      tr = [ev (ListNodes (WCluster w)) (inl nodes);
            ev (GetWorkloadSecret (WCluster w) (mkKey NamespaceSystem k3sServingSecretKey)) secret]
      /\ ReadyNodes st = wrap32 (Z.of_nat (ready_nodes nodes)) /\ HasK3sServingSecret st = is_ok secret).
Proof.
  unfold GetClusterStatus. apply wp_bind, wp_get. cbn beta. apply wp_bind.
  eapply wp_mono; [apply getControlPlaneNodes_ok|]. intros tr w' o (-> & Hp & r & -> & Hr).
  destruct o as [nodes|e|]; [|done..]. destruct (Hr nodes eq_refl) as (all & -> & ->).
  apply wp_bind, wp_call. intros x. apply wp_ret. split; [done|]. intros st [= <-]. simpl.
  exists all, x. by destruct x.
Qed.

(** The part that asks the workload cluster. *)
Lemma workload_status_report cluster n k1 :
  replica_counts k1 = (n, 0%Z, n) ->
  wp (workload_status etcdCallTimeout cluster n) k1 (fun tr k' o =>
    (reported k' = reported k1 /\ forall u, o <> Val u)
    \/ answered cluster k1 tr k'
       /\ replica_counts k' = (n, ReadyReplicas (KCPStatus k'), wrap32 (n - ReadyReplicas (KCPStatus k')))).
Proof.
  intros Hc. unfold workload_status. apply wp_bind, wp_try.
  eapply wp_mono; [apply wp_and; [apply GetWorkloadCluster_key|apply GetWorkloadCluster_keeps]|].
  intros tr1 k2 o1 [[_ Hw] ->].
  destruct o1 as [w|e|]; [|apply wp_bind, wp_throw; by left|by left].
  specialize (Hw w eq_refl). apply wp_bind, wp_ret. cbn beta. apply wp_bind, wp_try, wp_with_local.
  eapply wp_mono; [apply GetClusterStatus_ok|]. rewrite Hw.
  intros tr2 _ [st|e|] [Hp Hst]; [|apply wp_throw; by left|done].
  destruct (Hst st eq_refl) as (nodes & x & -> & Hready & Hsec). clear Hst Hp.
  assert (Hrep : forall tr k' o,
    replica_counts k' = (n, ReadyNodes st, wrap32 (n - ReadyNodes st)) ->
    Initialized (KCPStatus k') = Initialized (KCPStatus k1) || is_ok x ->
    Ready (KCPStatus k') = Ready (KCPStatus k1) || (0 <? ReadyNodes st)%Z ->
    (exists after, tr = tr1 ++ [ev (ListNodes (ClusterKey cluster)) (inl nodes);
       ev (GetWorkloadSecret (ClusterKey cluster) (mkKey NamespaceSystem k3sServingSecretKey)) x] ++ after) ->
    (reported k' = reported k1 /\ forall u : unit, o <> Val u)
    \/ answered cluster k1 tr k'
       /\ replica_counts k' = (n, ReadyReplicas (KCPStatus k'), wrap32 (n - ReadyReplicas (KCPStatus k')))).
  { intros tr k' o Hc' Hi Hr [after ->]. right. pose proof Hc' as Hc2. unfold replica_counts in Hc2.
    injection Hc2 as _ Hrd _. rewrite Hrd. split; [|done]. exists tr1, after, nodes, x.
    by rewrite Hrd, Hready in *. }
  destruct k1 as [om sp stt]. apply wp_bind, wp_modify. apply wp_bind.
  assert (Hcounts : StatusReplicas stt = n) by (by injection Hc).
  rewrite Hsec. destruct x as [sec|e]; simpl is_ok in *; [apply wp_modify|apply wp_ret];
    (destruct (0 <? ReadyNodes st)%Z eqn:Er;
      [apply wp_bind, wp_modify, wp_modify|apply wp_ret]);
    (apply Hrep;
      [unfold replica_counts; simpl; by rewrite Hcounts
      |simpl; by rewrite ?orb_true_r, ?orb_false_r|simpl; by rewrite ?Er, ?orb_true_r, ?orb_false_r
      |by eexists]).
Qed.

(** What is reported when the control plane is not being deleted. *)
Definition status_of (cluster : Cluster) (k : KThreesControlPlane) (tr : list event)
    (k' : KThreesControlPlane) (o : outcome unit) : Prop :=
  counted cluster k tr k'
  /\ (answered cluster k tr k' \/ unanswered k k' /\ forall u, o <> Val u).

Lemma status_tail_report cluster k k1 tr0 desired owned n :
  counted cluster k tr0 k1 -> replica_counts k1 = (n, 0%Z, n) -> flags k1 = flags k ->
  wp ((if negb (String.eqb (LowestVersion owned) "")
       then modify (set_version (Some (LowestVersion owned))) else ret tt) ;;;
      resized n desired owned ;;;
      workload_status etcdCallTimeout cluster n ;;;
      surface_remediation owned) k1 (fun tr k' o => status_of cluster k (tr0 ++ tr) k' o).
Proof.
  intros HC Hn Hf.
  assert (Hearly : forall tr k2 (o : outcome unit), reported k2 = reported k1 -> (forall u, o <> Val u) ->
    status_of cluster k (tr0 ++ tr) k2 o).
  { intros tr k2 o [Er Ef]%reported_inv Ho.
    split; [eapply counted_mono; [exact HC|intros x Hx; apply elem_of_app; by left|done]|].
    right. split; [|done]. split; [rewrite Hn in Er; by injection Er|congruence]. }
  apply wp_bind. eapply wp_mono; [apply version_reported|]. cbv beta. intros tr2 k2 o2 E2.
  destruct o2 as [[]|e|]; [|by apply Hearly..].
  apply wp_bind. eapply wp_mono; [apply resized_reported|]. cbv beta. intros tr3 k3 o3 E3.
  assert (E13 : reported k3 = reported k1) by congruence.
  destruct o3 as [[]|e|]; [|by apply Hearly..].
  assert (Hn3 : replica_counts k3 = (n, 0%Z, n)) by (apply reported_inv in E13 as [-> _]; done).
  apply wp_bind. eapply wp_mono; [by apply workload_status_report|]. cbv beta. intros tr4 k4 o4 [[E4 Ho]|[HA HC4]].
  { assert (reported k4 = reported k1) by congruence. destruct o4 as [[]|e|]; [by destruct (Ho tt)|by apply Hearly..]. }
  assert (Hdone : forall tr5 k5 o, reported k5 = reported k4 ->
    status_of cluster k (tr0 ++ tr2 ++ tr3 ++ tr4 ++ tr5) k5 o).
  { intros tr5 k5 o E5. destruct HC as (ml & Hl & HC). split.
    - exists ml. split; [apply elem_of_app; by left|]. cbv zeta in *.
      destruct (reported_inv _ _ E5) as [Hrd _].
      pose proof Hrd as Hrd'. unfold replica_counts in Hrd'. injection Hrd' as _ Hrd' _.
      rewrite Hrd, HC4, Hrd'. rewrite Hn in HC. injection HC as HC _. by rewrite HC.
    - left. rewrite (app_assoc tr2), (app_assoc tr0). eapply answered_around; [exact HA| |exact E5].
      rewrite <- Hf. by apply reported_inv. }
  destruct o4 as [[]|e|]; [|specialize (Hdone [] k4); rewrite app_nil_r in Hdone; by apply Hdone..].
  eapply wp_mono; [apply surface_remediation_reported|]. cbv beta. intros tr5 k5 o5 E5. by apply Hdone.
Qed.

End Status.
