(* ===== verification/KcpKubeconfig.v ===== *)
(** The kubeconfig secret of a control plane: when [reconcileKubeconfig]
    (controlplane/controllers/kthreescontrolplane_controller.go) makes one, when
    it replaces one, and when it keeps its hands off. *)

From S2P Require Import Prelude GoStd Effects ApiTypes Api Ssa ContractVersion Capi K3sConfig Certificates Kubeconfig Token CapiLib ControlPlane Etcd Workload Conditions Remediation Scale KcpController.

Section KcpKubeconfig.
Context `{CAPI} `{!ControllerLib} `{Crypto} `{MapOrder} `{RemediationCodec} `{ServerConfigCodec}
  `{Scheme} `{Texts} `{ClientCmd} `{KubeVersions} {S : Type}.
Implicit Types s : S.

(** A user of the configuration whose certificate runs out within [threshold]. *)
Definition runs_out (now threshold : Z) (infos : list AuthInfo) : Prop :=
  exists authInfo cert, authInfo ∈ infos
    /\ DecodeCertPEM (ClientCertificateData authInfo) = inl (Some cert)
    /\ (Time_Sub (CertNotAfter cert) now < threshold)%Z.

Lemma expires_soon_ok now threshold infos s :
  wp (expires_soon now threshold infos) s (fun tr s' o => s' = s /\ tr = []
    /\ (o = Val true -> runs_out now threshold infos)
    /\ (o = Val false -> ~ runs_out now threshold infos)).
Proof.
  induction infos as [|authInfo infos IH]; simpl expires_soon.
  { apply wp_ret. split_and!; [done..|]. intros _ (a & c & Ha & _). by apply elem_of_nil in Ha. }
  destruct (DecodeCertPEM _) as [[cert|]|err] eqn:Ed; [|by apply wp_panic|by apply wp_throw].
  destruct (_ <? threshold)%Z eqn:Et.
  { apply wp_ret. split_and!; [done..| |done]. intros _. exists authInfo, cert. split; [left|]. split; [done|lia]. }
  eapply wp_mono; [exact IH|]. cbv beta. intros tr s' o (-> & -> & Ht & Hf). split_and!; [done..| |].
  - intros Ho. destruct (Ht Ho) as (a & c & Ha & Hr). exists a, c. split; [by right|done].
  - intros Ho (a & c & [->|Ha]%elem_of_cons & Hd & Hr); [|apply (Hf Ho); by exists a, c].
    rewrite Ed in Hd. injection Hd as <-. lia.
Qed.

(** Why the kubeconfig in [sec] is due. *)
Definition due (tr : list event) (sec : Secret) : Prop :=
  exists now data config, ev Now now ∈ tr
    /\ toKubeconfigBytes sec = inl data /\ clientcmd_Load data = inl config
    /\ runs_out now ClientCertificateRenewalDuration (range_values (AuthInfos config)).

Lemma NeedsClientCertRotation_ok sec s :
  wp (NeedsClientCertRotation sec ClientCertificateRenewalDuration) s (fun tr s' o =>
    s' = s /\ mgmt_quiet tr /\ (o = Val true -> due tr sec) /\ (o = Val false -> ~ due tr sec)).
Proof.
  unfold NeedsClientCertRotation. apply wp_bind, wp_call. intros now. apply wp_bind.
  destruct (toKubeconfigBytes sec) as [data|err] eqn:Ed; cbn [lift_res];
    [apply wp_ret|by apply wp_throw; repeat constructor].
  apply wp_bind. destruct (clientcmd_Load data) as [config|err] eqn:El; cbn [lift_wrap];
    [apply wp_ret|by apply wp_throw; repeat constructor].
  eapply wp_mono; [apply expires_soon_ok|]. cbv beta. intros tr s' o (-> & -> & Ht & Hf).
  split; [done|]. split; [by repeat constructor|]. split.
  - intros Ho. exists now, data, config. split; [left|]. by auto.
  - intros Ho (now' & data' & config' & Hn & Hd & Hl & Hr). apply (Hf Ho).
    rewrite Ed in Hd. injection Hd as <-. rewrite El in Hl. injection Hl as <-.
    apply list_elem_of_singleton, ev_inj in Hn as <-. done.
Qed.

(** The secret that is made for a cluster that has none. *)
Definition creation (tr : list event) (clusterName : ObjectKey) (endpoint : string) (owner : OwnerReference)
    (c : cmd) : Prop :=
  exists data, kubeconfig_of tr clusterName ("https://" +++ endpoint) data
    /\ c = CreateSecret (GenerateSecretWithOwner clusterName data owner).

Lemma CreateSecretWithOwner_ok clusterName endpoint owner s :
  wp (CreateSecretWithOwner clusterName endpoint owner) s (fun tr s' o =>
    s' = s /\ o <> Panic /\ (issued is_mgmt_write tr <= 1)%nat
    /\ (forall e, e ∈ tr -> is_mgmt_write (ev_cmd e) = true -> creation tr clusterName endpoint owner (ev_cmd e))
    /\ (o = Val tt -> issued is_mgmt_write tr = 1)).
Proof.
  unfold CreateSecretWithOwner. apply wp_bind. eapply wp_mono; [apply generateKubeconfig_ok|]. cbv beta.
  intros tr s' o (-> & Q & Hp & Hd).
  assert (Hq : forall e, e ∈ tr -> is_mgmt_write (ev_cmd e) = true -> False).
  { intros e He Hw. by rewrite (mgmt_quiet_not_in is_mgmt_write tr e) in Hw. }
  destruct o as [data|err|]; [| |done].
  2: { rewrite (mgmt_quiet_issued is_mgmt_write tr) by done. split_and!; [done|done|lia| |done].
       intros e He Hw. by destruct (Hq e He Hw). }
  apply wp_bind, wp_call. intros r. set (c := CreateSecret _).
  assert (HQ : forall o : outcome unit, o <> Panic -> s = s /\ o <> Panic
    /\ (issued is_mgmt_write (tr ++ [ev c r]) <= 1)%nat
    /\ (forall e, e ∈ tr ++ [ev c r] -> is_mgmt_write (ev_cmd e) = true ->
         creation (tr ++ [ev c r]) clusterName endpoint owner (ev_cmd e))
    /\ (o = Val tt -> issued is_mgmt_write (tr ++ [ev c r]) = 1)).
  { intros o Ho.
    assert (H1' : issued is_mgmt_write (tr ++ [ev c r]) = 1).
    { by rewrite issued_app, (mgmt_quiet_issued is_mgmt_write tr), issued_cons, issued_nil by done. }
    split_and!; [done|done|lia| |done].
    - intros e [He|He%list_elem_of_singleton]%elem_of_app Hw; [by destruct (Hq e He Hw)|]. subst e.
      exists data. split; [|done]. eapply kubeconfig_of_mono; [by apply Hd|]. intros x. rewrite elem_of_app. auto. }
  destruct r; cbn [lift_res]; [apply wp_ret|apply wp_throw]; by apply HQ.
Qed.

(** At most one write, which is as [P] says, and one when the outcome is done. *)
Definition writes_only (P : cmd -> Prop) (tr : list event) : Prop :=
  (issued is_mgmt_write tr <= 1)%nat
  /\ forall e, e ∈ tr -> is_mgmt_write (ev_cmd e) = true -> P (ev_cmd e).

Lemma quiet_writes_only P tr : mgmt_quiet tr -> writes_only P tr.
Proof.
  intros Q. split; [rewrite (mgmt_quiet_issued is_mgmt_write tr) by done; lia|].
  intros e He Hw. by rewrite (mgmt_quiet_not_in is_mgmt_write tr e) in Hw.
Qed.

Lemma writes_only_after (P P' : cmd -> Prop) tr1 tr2 :
  mgmt_quiet tr1 -> writes_only P' tr2 -> (forall c, P' c -> P c) -> writes_only P (tr1 ++ tr2).
Proof.
  intros Q [Hn Hw] HP. split; [rewrite issued_app, (mgmt_quiet_issued is_mgmt_write tr1) by done; lia|].
  intros e [He|He]%elem_of_app He'; [by rewrite (mgmt_quiet_not_in is_mgmt_write tr1 e) in He'|auto].
Qed.

Lemma due_app tr tr' sec : due tr sec -> due (tr ++ tr') sec.
Proof. intros (n & d & c & Hn & Hd). exists n, d, c. rewrite elem_of_app. auto. Qed.

Lemma renewal_mono tr tr' sec c : renewal tr sec c -> tr ⊆ tr' -> renewal tr' sec c.
Proof.
  intros (n & p & old & cf & cl & data & d & H1' & H2' & H3' & H4' & H5' & H6' & H7') Hs.
  exists n, p, old, cf, cl, data, d. split_and!; try done. by apply (kubeconfig_of_mono tr).
Qed.

(** The outcome of a look at the kubeconfig secret of a cluster. *)
Definition reconciled_kubeconfig (clusterName : ObjectKey) (host : string) (port : Z)
    (kcp : KThreesControlPlane) (tr : list event) (o : outcome Result) : Prop :=
    if Endpoint_IsZero host port then tr = [] /\ o = Val emptyResult
    else exists r tr', tr = ev (GetSecret (mkKey (KeyNamespace clusterName)
             (SecretName (KeyName clusterName) Kubeconfig))) r :: tr'
      /\ match r with
         | inl sec =>
             if util_IsControlledBy (SecretMeta sec) (KCPMeta kcp)
             then writes_only (fun c => due tr' sec /\ renewal tr' sec c) tr'
                  /\ (forall res, o = Val res -> res = emptyResult
                       /\ (due tr' sec <-> issued is_mgmt_write tr' = 1))
             else tr' = [] /\ o = Val emptyResult
         | inr err =>
             if IsNotFound err
             then writes_only (creation tr' clusterName (Endpoint_String host port) (controller_ref kcp)) tr'
                  /\ (o = Val emptyResult -> issued is_mgmt_write tr' = 1)
             else tr' = [] /\ exists e, o = Err e
         end.

(** C17: whose kubeconfig is replaced, and when. Before the cluster has an
    endpoint nothing is looked at. A cluster without a kubeconfig secret gets
    one, written once, owned by the control plane and made from the authorities
    and a key and certificate of its own; a cluster that lacks the authorities
    gets none, and the result says to come back. A secret that the control plane
    does not control, one that the user brought, is only read. One that it
    controls is written once, with the same server, exactly when the certificate
    of one of its users runs out within the renewal time. *)
Theorem reconcileKubeconfig_spec clusterName host port kcp s :
  wp (reconcileKubeconfig clusterName host port kcp) s (fun tr s' o => s' = s /\
    reconciled_kubeconfig clusterName host port kcp tr o).
Proof.
  unfold reconcileKubeconfig, GetFromNamespacedName. destruct (Endpoint_IsZero host port) eqn:Ez.
  { apply wp_ret. split; [done|]. unfold reconciled_kubeconfig. by rewrite Ez. }
  assert (HR : forall tr o, _ -> reconciled_kubeconfig clusterName host port kcp tr o)
    by (unfold reconciled_kubeconfig; rewrite Ez; intros tr o HR; exact HR).
  apply wp_bind. refine (proj2 (wp_call (GetSecret _) _ _) _). intros [sec|err].
  - destruct (util_IsControlledBy _ _) eqn:Ec; cbn [negb];
      [|apply wp_ret; split; [done|]; apply HR; exists (inl sec), []; split; [reflexivity|]; by rewrite Ec].
    apply wp_bind. eapply wp_mono; [apply NeedsClientCertRotation_ok|]. cbv beta.
    intros tr1 s1 o1 (-> & Q1 & Ht & Hf).
    assert (HQ : forall tr' o, writes_only (fun c => due tr' sec /\ renewal tr' sec c) tr' ->
      (forall res, o = Val res -> res = emptyResult /\ (due tr' sec <-> issued is_mgmt_write tr' = 1)) ->
      reconciled_kubeconfig clusterName host port kcp
        (ev (GetSecret (mkKey (KeyNamespace clusterName) (SecretName (KeyName clusterName) Kubeconfig)))
          (inl sec) :: tr') o).
    { intros tr' o Hw Ho. apply HR. eexists (inl sec), tr'. split; [reflexivity|]. rewrite Ec. auto. }
    destruct o1 as [[]|e|].
    + apply wp_bind, wp_try. eapply wp_mono; [apply RegenerateSecret_ok|]. cbv beta.
      intros tr2 s2 o2 (-> & Hn & Hr & Hv). cbn [app].
      assert (Hw : writes_only (fun c => due (tr1 ++ tr2) sec /\ renewal (tr1 ++ tr2) sec c) (tr1 ++ tr2)).
      { apply (writes_only_after _ (renewal tr2 sec)); [done|by split|].
        intros c Hc. split; [by apply due_app, Ht|]. eapply renewal_mono; [done|].
        intros x Hx. apply elem_of_app. by right. }
      destruct o2 as [[]|err|]; cbn [lift_wrap].
      * apply wp_bind, wp_ret, wp_ret. rewrite ?app_nil_r. split; [done|]. apply HQ; [done|].
        intros res [= <-]. split; [done|].
        rewrite issued_app, (mgmt_quiet_issued is_mgmt_write tr1), (Hv eq_refl) by done.
        split; [done|]. intros _. by apply due_app, Ht.
      * apply wp_bind, wp_throw. rewrite ?app_nil_r. split; [done|]. by apply HQ.
      * split; [done|]. by apply HQ.
    + apply wp_ret. split; [done|]. rewrite app_nil_r. apply HQ; [by apply quiet_writes_only|].
      intros res [= <-]. split; [done|]. rewrite (mgmt_quiet_issued is_mgmt_write tr1) by done.
      split; [|done]. intros Hd. by destruct (Hf eq_refl).
    + split; [done|]. apply HQ; [by apply quiet_writes_only|done].
    + split; [done|]. apply HQ; [by apply quiet_writes_only|done].
  - destruct (IsNotFound err) eqn:En.
    2: { apply wp_throw. split; [done|]. apply HR. eexists (inr err), []. split; [reflexivity|]. rewrite En. split; [done|by eexists]. }
    apply wp_bind, wp_try. eapply wp_mono; [apply CreateSecretWithOwner_ok|]. cbv beta.
    intros tr1 s1 o1 (-> & Hp & Hn & Hc & Hv).
    assert (HQ : forall o, (o = Val emptyResult -> issued is_mgmt_write tr1 = 1) ->
      reconciled_kubeconfig clusterName host port kcp
        (ev (GetSecret (mkKey (KeyNamespace clusterName) (SecretName (KeyName clusterName) Kubeconfig)))
          (inr err) :: tr1 ++ []) o).
    { intros o Ho. apply HR. rewrite app_nil_r. eexists (inr err), tr1.
      split; [reflexivity|]. rewrite En. split; [by split|done]. }
    destruct o1 as [[]|e|]; [| |done].
    + apply wp_ret. split; [done|]. apply HQ. auto.
    + destruct (errors_Is _ _); [apply wp_ret|apply wp_throw]; (split; [done|]); by apply HQ.
Qed.
End KcpKubeconfig.
