(* ===== verification/Cloudinit.v ===== *)
(** The user data of a node (pkg/cloudinit): the documents that cloud-init runs
    on the first boot of a control-plane node and of a worker. *)

From S2P Require Import Prelude GoStd Effects ApiTypes Api Capi Certificates.

(** ** Text *)

(** A double quote and a new line. *)
Definition dq : string := String (ascii_of_nat 34) "".
Definition lf : ascii := ascii_of_nat 10.
Definition nl : string := String lf "".

(** [strings.Contains(s, sub)]. *)
Fixpoint Contains (s sub : string) : bool :=
  HasPrefix s sub || match s with EmptyString => false | String _ s' => Contains s' sub end.

(** [printf "%q"], and the execution of a template that has actions beyond
    those of the source, which a version with two braces brings in. *)
Class GoText := {
  Quote : string -> string;
  Execute : forall {A}, string -> string -> A -> string + error;
}.

(** [templateYAMLIndent]. *)
Definition templateYAMLIndent (i : nat) (input : string) : string :=
  let split := Split input lf in
  let ident := nl +++ Repeat " " i in
  Repeat " " i +++ Join split ident.

(** ** Input *)

Definition cloudConfigHeader : string := "## template: jinja" +++ nl +++ "#cloud-config" +++ nl.
Definition sentinelFileCommand : string :=
  "mkdir -p /run/cluster-api && echo success > /run/cluster-api/bootstrap-success.complete".
Definition defaultAirGappedInstallScriptPath : string := "/opt/install.sh".

Record BaseUserData := mkBaseUserData {
  Header : string;
  PreCommands : slice string;
  PostCommands : slice string;
  AdditionalFiles : list File;
  WriteFiles : list File;
  ConfigFile : File;
  K3sVersion : string;
  UserAirGapped : bool;
  InstallScriptPath : string;
  SentinelFileCommand : string;
}.

Record ControlPlaneInput := mkControlPlaneInput {
  CPBase : BaseUserData;
  CPCertificates : list Certificate;
}.

Definition with_write_files (fs : list File) (input : BaseUserData) : BaseUserData :=
  mkBaseUserData (Header input) (PreCommands input) (PostCommands input) (AdditionalFiles input) fs
    (ConfigFile input) (K3sVersion input) (UserAirGapped input) (InstallScriptPath input)
    (SentinelFileCommand input).

Definition prepare (input : BaseUserData) : BaseUserData :=
  mkBaseUserData cloudConfigHeader (PreCommands input) (PostCommands input) (AdditionalFiles input)
    ((WriteFiles input ++ AdditionalFiles input) ++ [ConfigFile input]) (ConfigFile input)
    (K3sVersion input) (UserAirGapped input)
    (if String.eqb (InstallScriptPath input) "" then defaultAirGappedInstallScriptPath
     else InstallScriptPath input)
    sentinelFileCommand.

(** ** Documents

    What the templates of the source make of their input. *)

Section Documents.
Context `{GoText}.

(** An optional line of a file: [{{ if ne .X "" -}} ... {{ end -}}]. *)
Definition optional (value line : string) : string :=
  if negb (String.eqb value "") then line +++ nl +++ "    " else "".

Definition file_text (f : File) : string :=
  nl +++ "-   path: " +++ FilePath f +++ nl +++ "    "
  +++ optional (FileEncoding f) ("encoding: " +++ dq +++ FileEncoding f +++ dq)
  +++ optional (FileOwner f) ("owner: " +++ FileOwner f)
  +++ optional (FilePermissions f) ("permissions: '" +++ FilePermissions f +++ "'")
  +++ "content: |" +++ nl +++ templateYAMLIndent 6 (FileContent f).

Definition concat_text {A} (f : A -> string) (xs : list A) : string :=
  foldr (fun x s => f x +++ s) "" xs.

Definition files_text (fs : list File) : string := "write_files:" +++ concat_text file_text fs.

Definition commands_text (cs : slice string) : string :=
  concat_text (fun c => nl +++ "  - " +++ Quote c) (elems cs).

Definition document (install : string) (input : BaseUserData) : string :=
  Header input +++ nl +++ files_text (WriteFiles input) +++ nl +++ "runcmd:"
  +++ commands_text (PreCommands input) +++ nl +++ "  - " +++ install +++ " && "
  +++ SentinelFileCommand input +++ commands_text (PostCommands input) +++ nl.

Definition server_install (input : BaseUserData) : string :=
  if UserAirGapped input
  then " INSTALL_K3S_SKIP_DOWNLOAD=true INSTALL_K3S_EXEC='server' sh " +++ InstallScriptPath input +++ " "
  else " curl -sfL https://get.k3s.io | INSTALL_K3S_VERSION=" +++ K3sVersion input +++ " sh -s - server ".

Definition agent_install (input : BaseUserData) : string :=
  if UserAirGapped input
  then " INSTALL_K3S_SKIP_DOWNLOAD=true INSTALL_K3S_EXEC='agent' sh " +++ InstallScriptPath input
  else " curl -sfL https://get.k3s.io |  INSTALL_K3S_VERSION=" +++ K3sVersion input +++ " sh -s - agent ".

(** [generate]: the version is written into the text of the template before it
    is parsed, so that one with [{{] makes a template of its own. *)
Definition generate (kind : string) (install : BaseUserData -> string) (input : BaseUserData)
    : string + error :=
  if Contains (K3sVersion input) "{{" then Execute kind (K3sVersion input) input
  else inl (document (install input) input).

(** A certificate without a key pair is dereferenced. *)
Definition NewInitControlPlane {S} (input : ControlPlaneInput) : M S string :=
  match Certificates_AsFiles (CPCertificates input) with
  | None => panic
  | Some files =>
      lift_res (generate "InitControlplane" server_install (prepare (with_write_files files (CPBase input))))
  end.

Definition NewJoinControlPlane {S} (input : ControlPlaneInput) : M S string :=
  lift_res (generate "JoinControlplane" server_install (prepare (CPBase input))).

Definition NewWorker {S} (input : BaseUserData) : M S string :=
  lift_res (generate "Worker" agent_install (prepare input)).
End Documents.

(** ** What is written to disk *)

Lemma Split_lines s : Forall (fun l => has_char lf l = false) (Split s lf).
Proof.
  induction s as [|a s IH]; simpl; [by repeat constructor|].
  destruct (Ascii.eqb a lf) eqn:E; [by constructor|].
  destruct (Split s lf) as [|x xs]; simpl in *; [by repeat constructor; simpl; rewrite E|].
  inversion IH; subst. constructor; [|done]. simpl. by rewrite E.
Qed.

Lemma Split_Join s : Join (Split s lf) nl = s.
Proof.
  induction s as [|a s IH]; simpl; [done|]. destruct (Ascii.eqb_spec a lf) as [->|Hne].
  - destruct (Split s lf) as [|x xs] eqn:E; [by destruct s; simpl in E; repeat case_match|].
    simpl in *. by rewrite IH.
  - destruct (Split s lf) as [|x xs] eqn:E; [by destruct s; simpl in E; repeat case_match|].
    destruct xs; simpl in *; by rewrite <- IH.
Qed.

Lemma has_char_app c s t : has_char c (s +++ t) = has_char c s || has_char c t.
Proof. induction s as [|a s IH]; simpl; [done|]. by rewrite IH, orb_assoc. Qed.

Lemma Split_no_char s c : has_char c s = false -> Split s c = [s].
Proof.
  induction s as [|a s IH]; simpl; [done|]. intros [E Hs]%orb_false_iff. by rewrite E, IH.
Qed.

Lemma Split_sep s t c : Split (s +++ String c t) c = Split s c ++ Split t c.
Proof.
  induction s as [|a s IH]; simpl; [by rewrite Ascii.eqb_refl|].
  destruct (Ascii.eqb a c); [by rewrite IH|]. rewrite IH.
  assert (Split s c <> []) by (destruct s; simpl; repeat case_match; done).
  by destruct (Split s c).
Qed.

Lemma Split_nl s t : Split (s +++ nl +++ t) lf = Split s lf ++ Split t lf.
Proof. apply Split_sep. Qed.

Lemma Split_prefix p s c :
  has_char c p = false ->
  Split (p +++ s) c = match Split s c with [] => [p] | l :: ls => (p +++ l) :: ls end.
Proof.
  induction p as [|a p IH]; simpl; [by destruct s; simpl; repeat case_match|].
  intros [E Hp]%orb_false_iff. rewrite E, IH by done. by destruct (Split s c).
Qed.

Lemma Repeat_no_char i : has_char lf (Repeat " " i) = false.
Proof. by induction i. Qed.

Lemma Split_indented p x xs :
  has_char lf p = false -> Forall (fun l => has_char lf l = false) (x :: xs) ->
  Split (p +++ Join (x :: xs) (nl +++ p)) lf = (fun l => p +++ l) <$> (x :: xs).
Proof.
  intros Hp. revert x. induction xs as [|y ys IH]; intros x HF.
  - inversion HF; subst. apply Split_no_char. rewrite has_char_app. by rewrite Hp.
  - apply Forall_cons in HF as [Hx HF].
    change (Join (x :: y :: ys) (nl +++ p)) with (x +++ (nl +++ p) +++ Join (y :: ys) (nl +++ p)).
    rewrite <- append_assoc.
    change ((nl +++ p) +++ Join (y :: ys) (nl +++ p)) with (String lf (p +++ Join (y :: ys) (nl +++ p))).
    rewrite Split_sep, IH by done. rewrite Split_no_char; [done|]. by rewrite has_char_app, Hp, Hx.
Qed.

(** The lines of an indented text are the lines of the text, each with the
    indentation in front. *)
Lemma Indent_lines i s :
  Split (templateYAMLIndent i s) lf = (fun l => Repeat " " i +++ l) <$> Split s lf.
Proof.
  unfold templateYAMLIndent. pose proof (Split_lines s) as HL. pose proof (Split_not_nil s lf).
  destruct (Split s lf) as [|x xs]; [done|]. apply Split_indented; [apply Repeat_no_char|done].
Qed.

(** ** Lines *)

(** A file whose fields but the content are on one line, with its content
    resolved. *)
Definition plain (f : File) : Prop :=
  Forall (fun v => has_char lf v = false) [FilePath f; FileOwner f; FilePermissions f; FileEncoding f]
  /\ FileContentFrom f = None.

(** The lines of a file. *)
Definition field_lines (value line : string) : list string :=
  if negb (String.eqb value "") then ["    " +++ line] else [].

Definition file_lines (f : File) : list string :=
  ("-   path: " +++ FilePath f)
  :: field_lines (FileEncoding f) ("encoding: " +++ dq +++ FileEncoding f +++ dq)
  ++ field_lines (FileOwner f) ("owner: " +++ FileOwner f)
  ++ field_lines (FilePermissions f) ("permissions: '" +++ FilePermissions f +++ "'")
  ++ ["    content: |"]
  ++ ((fun l => "      " +++ l) <$> Split (FileContent f) lf).

(** The fields that are left out join the four spaces in front of the next. *)
Lemma Split_optional value line t :
  has_char lf line = false ->
  Split ("    " +++ optional value line +++ t) lf
  = field_lines value line ++ Split ("    " +++ t) lf.
Proof.
  intros Hl. unfold optional, field_lines. destruct (negb _); [|done].
  rewrite !append_assoc. change (nl +++ "    " +++ t) with (String lf ("    " +++ t)).
  rewrite <- append_assoc, Split_sep, Split_no_char; [done|]. by rewrite has_char_app.
Qed.

Lemma Split_file f :
  plain f -> exists body, file_text f = String lf body /\ Split body lf = file_lines f.
Proof.
  intros [HF _]. rewrite !Forall_cons in HF. destruct HF as (Hp & Ho & Hm & He & _).
  eexists. split; [unfold file_text; reflexivity|].
  match goal with |- Split (?p +++ ?q +++ nl +++ ?t) lf = _ =>
    change (p +++ q +++ nl +++ t) with (p +++ q +++ String lf t); rewrite <- (append_assoc p q) end.
  rewrite Split_sep, Split_no_char by (by rewrite has_char_app, Hp).
  rewrite !Split_optional by (rewrite ?has_char_app; rewrite ?Ho, ?Hm, ?He; done).
  unfold file_lines. cbn [app]. f_equal. do 3 f_equal.
  match goal with |- Split (_ +++ _ +++ nl +++ ?t) lf = _ =>
    change (Split ("    content: |" +++ String lf t) lf = ["    content: |"] ++ ((fun l => "      " +++ l) <$> Split (FileContent f) lf)) end.
  rewrite Split_sep, Indent_lines. done.
Qed.

Lemma Split_files s fs :
  Forall plain fs ->
  Split (s +++ concat_text file_text fs) lf = Split s lf ++ concat (file_lines <$> fs).
Proof.
  intros HF. revert s. induction HF as [|f fs Hf HF IH]; intros s.
  - simpl. by rewrite append_nil_r, app_nil_r.
  - change (concat_text file_text (f :: fs)) with (file_text f +++ concat_text file_text fs).
    destruct (Split_file f Hf) as (body & -> & Hb).
    change (String lf body +++ concat_text file_text fs) with (String lf (body +++ concat_text file_text fs)).
    rewrite Split_sep, IH, Hb. done.
Qed.

(** ** The lines determine the files

    A function that recovers the files from the lines shows that no two lists of
    files have the same lines. It is a device of the proof and not the reader of
    the node, which takes YAML. *)

Record Entry := mkEntry {
  EPath : string;
  EEncoding : string;
  EOwner : string;
  EPermissions : string;
  ELines : list string;
}.

Definition strip (prefix line : string) : option string :=
  if HasPrefix line prefix then Some (str_drop (String.length prefix) line) else None.

(** A line without its last character, the closing quote. *)
Definition unquote (s : string) : string := str_take (String.length s - 1) s.

(** What a line means for the entries read so far, the last one first. *)
Definition read_line (acc : list Entry) (line : string) : list Entry :=
  match strip "-   path: " line, acc with
  | Some p, _ => mkEntry p "" "" "" [] :: acc
  | None, [] => []
  | None, e :: acc' =>
      match strip "      " line with
      | Some l => mkEntry (EPath e) (EEncoding e) (EOwner e) (EPermissions e) (ELines e ++ [l]) :: acc'
      | None =>
          match strip ("    encoding: " +++ dq) line, strip "    owner: " line,
                strip "    permissions: '" line with
          | Some v, _, _ => mkEntry (EPath e) (unquote v) (EOwner e) (EPermissions e) (ELines e) :: acc'
          | _, Some v, _ => mkEntry (EPath e) (EEncoding e) v (EPermissions e) (ELines e) :: acc'
          | _, _, Some v => mkEntry (EPath e) (EEncoding e) (EOwner e) (unquote v) (ELines e) :: acc'
          | _, _, _ => acc
          end
      end
  end.

Lemma HasPrefix_app p s : HasPrefix (p +++ s) p = true.
Proof. induction p as [|a p IH]; simpl; [by destruct s|]. by rewrite Ascii.eqb_refl, IH. Qed.

Lemma strip_app p s : strip p (p +++ s) = Some s.
Proof. unfold strip. by rewrite HasPrefix_app, str_drop_app. Qed.

Lemma unquote_app s q : String.length q = 1 -> unquote (s +++ q) = s.
Proof.
  intros Hq. unfold unquote. rewrite append_length, Hq, Nat.add_sub. apply str_take_app.
Qed.

Lemma read_path acc p : read_line acc ("-   path: " +++ p) = mkEntry p "" "" "" [] :: acc.
Proof. unfold read_line. by rewrite strip_app. Qed.

(** A line of another kind. *)
Ltac other_line p s := replace (strip p s) with (@None string) by reflexivity.

Lemma read_content_line acc e l :
  read_line (e :: acc) ("      " +++ l)
  = mkEntry (EPath e) (EEncoding e) (EOwner e) (EPermissions e) (ELines e ++ [l]) :: acc.
Proof.
  unfold read_line. other_line "-   path: " ("      " +++ l). by rewrite strip_app.
Qed.

Lemma read_content acc e ls :
  fold_left read_line ((fun l => "      " +++ l) <$> ls) (e :: acc)
  = mkEntry (EPath e) (EEncoding e) (EOwner e) (EPermissions e) (ELines e ++ ls) :: acc.
Proof.
  revert e. induction ls as [|l ls IH]; intros e.
  - simpl. rewrite app_nil_r. by destruct e.
  - rewrite fmap_cons. cbn [fold_left]. rewrite read_content_line, IH. simpl. by rewrite <- app_assoc.
Qed.

Lemma read_marker acc e : read_line (e :: acc) "    content: |" = e :: acc.
Proof. reflexivity. Qed.

Lemma read_encoding acc p v o m :
  fold_left read_line (field_lines v ("encoding: " +++ dq +++ v +++ dq)) (mkEntry p "" o m [] :: acc)
  = mkEntry p v o m [] :: acc.
Proof.
  unfold field_lines. destruct (String.eqb_spec v "") as [->|]; [done|]. cbn [negb fold_left].
  change ("    " +++ "encoding: " +++ dq +++ v +++ dq) with (("    encoding: " +++ dq) +++ (v +++ dq)).
  unfold read_line. other_line "-   path: " (("    encoding: " +++ dq) +++ (v +++ dq)).
  other_line "      " (("    encoding: " +++ dq) +++ (v +++ dq)).
  rewrite strip_app. by rewrite unquote_app.
Qed.

Lemma read_owner acc p e v m :
  fold_left read_line (field_lines v ("owner: " +++ v)) (mkEntry p e "" m [] :: acc)
  = mkEntry p e v m [] :: acc.
Proof.
  unfold field_lines. destruct (String.eqb_spec v "") as [->|]; [done|]. cbn [negb fold_left].
  change ("    " +++ "owner: " +++ v) with ("    owner: " +++ v).
  unfold read_line. other_line "-   path: " ("    owner: " +++ v).
  other_line "      " ("    owner: " +++ v). other_line ("    encoding: " +++ dq) ("    owner: " +++ v).
  by rewrite strip_app.
Qed.

Lemma read_permissions acc p e o v :
  fold_left read_line (field_lines v ("permissions: '" +++ v +++ "'")) (mkEntry p e o "" [] :: acc)
  = mkEntry p e o v [] :: acc.
Proof.
  unfold field_lines. destruct (String.eqb_spec v "") as [->|]; [done|]. cbn [negb fold_left].
  change ("    " +++ "permissions: '" +++ v +++ "'") with ("    permissions: '" +++ (v +++ "'")).
  unfold read_line. other_line "-   path: " ("    permissions: '" +++ (v +++ "'")).
  other_line "      " ("    permissions: '" +++ (v +++ "'")).
  other_line ("    encoding: " +++ dq) ("    permissions: '" +++ (v +++ "'")).
  other_line "    owner: " ("    permissions: '" +++ (v +++ "'")).
  rewrite strip_app. by rewrite unquote_app.
Qed.

Definition entry_of (f : File) : Entry :=
  mkEntry (FilePath f) (FileEncoding f) (FileOwner f) (FilePermissions f) (Split (FileContent f) lf).

Lemma read_file acc f : fold_left read_line (file_lines f) acc = entry_of f :: acc.
Proof.
  unfold file_lines. cbn [fold_left]. rewrite read_path.
  rewrite !fold_left_app, read_encoding, read_owner, read_permissions.
  cbn [fold_left]. rewrite read_marker, read_content. done.
Qed.

Lemma read_concat acc fs :
  fold_left read_line (concat (file_lines <$> fs)) acc = rev (entry_of <$> fs) ++ acc.
Proof.
  revert acc. induction fs as [|f fs IH]; intros acc; [done|].
  rewrite !fmap_cons. cbn [concat rev]. rewrite fold_left_app, read_file, IH. by rewrite <- app_assoc.
Qed.

(** Lines that belong to no file. *)
Lemma read_command acc c : read_line acc ("  - " +++ c) = acc.
Proof. by destruct acc. Qed.

Lemma read_commands {A} (f : A -> string) acc cs :
  fold_left read_line ((fun c => "  - " +++ f c) <$> cs) acc = acc.
Proof.
  induction cs as [|c cs IH]; [done|]. rewrite fmap_cons. cbn [fold_left]. by rewrite read_command.
Qed.

Lemma entry_of_inj fs fs' :
  Forall plain fs -> Forall plain fs' -> entry_of <$> fs = entry_of <$> fs' -> fs = fs'.
Proof.
  intros HF. revert fs'. induction HF as [|f fs [_ Hf] _ IH]; intros [|f' fs'] HF' E; try done.
  apply Forall_cons in HF' as [[_ Hf'] HF']. rewrite !fmap_cons in E. injection E as E1 E2 E3 E4 E5 E.
  f_equal; [|by apply IH]. apply (f_equal (fun ls => Join ls nl)) in E5. rewrite !Split_Join in E5.
  destruct f, f'; simpl in *; congruence.
Qed.

(** ** The user data *)

Section UserData.
Context `{GoText}.

(** Of every command, one line. *)
Definition command_lines (cs : slice string) : list string := (fun c => "  - " +++ Quote c) <$> elems cs.

(** The lines of a document: the header, every file, and every command with that
    of the installation between those before it and those after. *)
Definition document_lines (install : string) (files : list File) (pre post : slice string) : list string :=
  ["## template: jinja"; "#cloud-config"; ""; "write_files:"]
  ++ concat (file_lines <$> files)
  ++ ["runcmd:"] ++ command_lines pre
  ++ ["  - " +++ install +++ " && " +++ sentinelFileCommand] ++ command_lines post ++ [""].

Lemma document_lines_files install install' files files' pre pre' post post' :
  Forall plain files -> Forall plain files' ->
  document_lines install files pre post = document_lines install' files' pre' post' -> files = files'.
Proof.
  assert (Hr : forall i fs p q, fold_left read_line (document_lines i fs p q) [] = rev (entry_of <$> fs)).
  { intros i fs p q. unfold document_lines, command_lines. rewrite !fold_left_app.
    change (fold_left read_line ["## template: jinja"; "#cloud-config"; ""; "write_files:"] []) with (@nil Entry).
    rewrite read_concat, app_nil_r.
    assert (Hi : forall acc l, l = "runcmd:" \/ l = "" -> fold_left read_line [l] acc = acc)
      by (intros [|e acc] l [->| ->]; done).
    rewrite (Hi _ "runcmd:") by auto. rewrite read_commands. cbn [fold_left]. rewrite read_command, read_commands.
    apply (Hi _ ""). auto. }
  intros HF HF' E. apply (f_equal (fun ls => fold_left read_line ls [])) in E. rewrite !Hr in E.
  apply (f_equal (@rev Entry)) in E. rewrite !rev_involutive in E. by apply entry_of_inj.
Qed.

(** [printf "%q"] escapes a new line. *)
Hypothesis Quote_line : forall c, has_char lf (Quote c) = false.

Lemma Split_commands s cs :
  Split (s +++ commands_text cs) lf = Split s lf ++ command_lines cs.
Proof.
  unfold commands_text, command_lines. revert s. induction (elems cs) as [|c l IH]; intros s.
  - simpl. by rewrite append_nil_r, app_nil_r.
  - change (concat_text (fun c => nl +++ "  - " +++ Quote c) (c :: l))
      with (String lf ("  - " +++ Quote c) +++ concat_text (fun c => nl +++ "  - " +++ Quote c) l).
    change (String lf ("  - " +++ Quote c) +++ concat_text (fun c => nl +++ "  - " +++ Quote c) l)
      with (String lf (("  - " +++ Quote c) +++ concat_text (fun c => nl +++ "  - " +++ Quote c) l)).
    rewrite Split_sep, IH. rewrite (Split_no_char ("  - " +++ Quote c)) by (by rewrite has_char_app, Quote_line). done.
Qed.

(** An input whose texts other than contents and commands are on one line, and
    whose version is no template. *)
Definition simple (input : BaseUserData) (files : list File) : Prop :=
  Forall plain files /\ has_char lf (K3sVersion input) = false
  /\ has_char lf (InstallScriptPath input) = false /\ Contains (K3sVersion input) "{{" = false.

Lemma install_line input files :
  simple input files ->
  has_char lf (server_install (prepare input)) = false /\ has_char lf (agent_install (prepare input)) = false.
Proof.
  intros (_ & Hv & Hp & _). unfold server_install, agent_install.
  cbn [prepare UserAirGapped K3sVersion InstallScriptPath].
  destruct (UserAirGapped input); rewrite !has_char_app, ?Hv; [|done].
  destruct (String.eqb _ _); [done|]. by rewrite Hp.
Qed.

Lemma generate_lines kind install input files text :
  simple input files -> files = (WriteFiles input ++ AdditionalFiles input) ++ [ConfigFile input] ->
  has_char lf (install (prepare input)) = false ->
  generate kind install (prepare input) = inl text ->
  Split text lf = document_lines (install (prepare input)) files (PreCommands input) (PostCommands input).
Proof.
  intros (HF & _ & _ & Hv) -> Hi. unfold generate.
  change (K3sVersion (prepare input)) with (K3sVersion input). rewrite Hv. intros [= <-].
  set (i := install (prepare input)) in *. set (files := (WriteFiles input ++ AdditionalFiles input) ++ [ConfigFile input]) in *.
  assert (E : document i (prepare input)
    = ((cloudConfigHeader +++ nl +++ "write_files:") +++ concat_text file_text files)
      +++ nl +++ ("runcmd:" +++ commands_text (PreCommands input))
      +++ nl +++ (("  - " +++ i +++ " && " +++ sentinelFileCommand) +++ commands_text (PostCommands input))
      +++ nl +++ "").
  { unfold document, files_text. cbn [prepare Header WriteFiles PreCommands PostCommands SentinelFileCommand].
    by rewrite append_nil_r, <- !append_assoc. }
  rewrite E, !Split_nl, Split_files by exact HF. rewrite !Split_commands.
  rewrite (Split_no_char ("  - " +++ i +++ _)) by (by rewrite !has_char_app, Hi).
  unfold document_lines. rewrite <- !app_assoc. reflexivity.
Qed.

(** C27: the user data of a node say what was meant. For a server that starts or
    joins a cluster and for an agent, the lines of the document are the header, for
    every file in order its path, its other fields if it has them and the lines of
    its content, each indented by six spaces under the literal block, and for every
    command one line, the installation between those before it and those after;
    the files are the certificates of the first server (or those given), the
    additional ones and the configuration. Nothing that a content or a command
    holds makes a line of another kind, and inputs with other files have other user
    data. *)
Theorem user_data_lines {S} (s : S) :
  (forall input files text,
     files = (WriteFiles input ++ AdditionalFiles input) ++ [ConfigFile input] -> simple input files ->
     runs (NewWorker input) s [] s (Val text) ->
     Split text lf = document_lines (agent_install (prepare input)) files (PreCommands input) (PostCommands input))
  /\ (forall input files text,
     files = (WriteFiles (CPBase input) ++ AdditionalFiles (CPBase input)) ++ [ConfigFile (CPBase input)] ->
     simple (CPBase input) files ->
     runs (NewJoinControlPlane input) s [] s (Val text) ->
     Split text lf = document_lines (server_install (prepare (CPBase input))) files
       (PreCommands (CPBase input)) (PostCommands (CPBase input)))
  /\ (forall input certificates files text,
     Certificates_AsFiles (CPCertificates input) = Some certificates ->
     files = (certificates ++ AdditionalFiles (CPBase input)) ++ [ConfigFile (CPBase input)] ->
     simple (CPBase input) files ->
     runs (NewInitControlPlane input) s [] s (Val text) ->
     Split text lf = document_lines (server_install (prepare (CPBase input))) files
       (PreCommands (CPBase input)) (PostCommands (CPBase input)))
  /\ (forall install install' files files' pre pre' post post',
     Forall plain files -> Forall plain files' ->
     document_lines install files pre post = document_lines install' files' pre' post' -> files = files').
Proof.
  split_and!.
  - intros input files text Hf Hs. unfold NewWorker, runs. destruct (generate _ _ _) as [t|] eqn:E; [|by intros [_ ?]].
    simpl. intros [_ [= <-]]. eapply generate_lines; [done..| |exact E]. by eapply install_line.
  - intros input files text Hf Hs. unfold NewJoinControlPlane, runs.
    destruct (generate _ _ _) as [t|] eqn:E; [|by intros [_ ?]].
    simpl. intros [_ [= <-]]. eapply generate_lines; [done..| |exact E]. by eapply install_line.
  - intros input certs files text Hc Hf Hs. unfold NewInitControlPlane, runs. rewrite Hc.
    destruct (generate _ _ _) as [t|] eqn:E; [|by intros [_ ?]]. simpl. intros [_ [= <-]].
    apply (generate_lines _ _ (with_write_files certs (CPBase input)) files) in E; [exact E|done|done|].
    by eapply (install_line (with_write_files certs (CPBase input))).
  - apply document_lines_files.
Qed.
End UserData.

(** ** Example *)

Section Examples.
#[local] Instance plain_text : GoText := { Quote := fun _ => "c"; Execute := fun _ _ text _ => inl text }.

Definition two_files : list File :=
  [mkFile "/a" "root:root" "0640" "" ("x: |" +++ nl +++ "-   path: /b") None;
   mkFile "/c" "" "" "base64" "aGk=" None].

(** A content that looks like a file of its own. *)
Definition an_input : BaseUserData :=
  mkBaseUserData "" (Some ["c"]) None [] two_files (mkFile "/k" "" "" "" "{}" None) "v1.30.0+k3s1" false "" "".

Example user_data_lines_witness :
  exists text, runs (NewWorker an_input) tt [] tt (Val text)
  /\ Split text lf = document_lines (agent_install (prepare an_input)) (two_files ++ [ConfigFile an_input]) (Some ["c"]) None.
Proof.
  assert (Hq : forall c, has_char lf (Quote c) = false) by reflexivity.
  eexists. split; [split; reflexivity|].
  apply (proj1 (user_data_lines Hq tt) an_input (two_files ++ [ConfigFile an_input])); [reflexivity| |split; reflexivity].
  split; [|split; [reflexivity|split; reflexivity]].
  repeat (apply Forall_cons_2; [split; [|reflexivity]|]); [| | |apply Forall_nil_2];
    repeat (apply Forall_cons_2; [reflexivity|]); apply Forall_nil_2.
Defined.
End Examples.
