(* ===== verification/Bootstrap.v ===== *)
(** The controller of bootstrap configurations
    (bootstrap/controllers/kthreesconfig_controller.go): it writes the data with
    which a machine starts or joins a cluster, and lets one machine at a time
    start it. *)

From S2P Require Import Prelude GoStd Effects ApiTypes Api Capi K3sConfig Certificates Token CapiLib Locking Cloudinit.

Definition ErrInvalidRef : error := ESentinel "invalid reference".
Definition ErrFailedUnlock : error := ESentinel "failed to unlock the k3s init lock".
(** [util.ErrNoCluster], by the name of the variable. *)
Definition ErrNoCluster : string := "ErrNoCluster".

Definition DataSecretAvailableCondition : string := "DataSecretAvailable".
Definition WaitingForClusterInfrastructureReason : string := "WaitingForClusterInfrastructure".
Definition WaitingForControlPlaneAvailableReason : string := "WaitingForControlPlaneAvailable".
Definition DataSecretGenerationFailedReason : string := "DataSecretGenerationFailed".
Definition CertificatesGenerationFailedReason : string := "CertificatesGenerationFailed".
Definition ConditionSeverityInfo : string := "Info".
Definition ConditionSeverityWarning : string := "Warning".
Definition bootstrap_GroupVersion : string := "bootstrap.cluster.x-k8s.io/v1beta2".
Definition DefaultK3sConfigLocation : string := "/etc/rancher/k3s/config.yaml".
Definition EtcdProxyDaemonsetYamlLocation : string :=
  "/var/lib/rancher/k3s/server/manifests/etcd-proxy.yaml".

(** ** What the controller is given

    The lock around the first start of k3s: both operations answer, and touch
    only the lock. *)
Class InitLocker := {
  LockOp : Cluster -> Machine -> IO bool;
  UnlockOp : Cluster -> IO bool;
  LockOp_spec : forall cluster machine, wp (LockOp cluster machine) tt (fun tr _ o =>
    Forall (fun e => lock_call (ev_cmd e) = true) tr /\ exists b, o = Val b);
  UnlockOp_spec : forall cluster, wp (UnlockOp cluster) tt (fun tr _ o =>
    Forall (fun e => lock_call (ev_cmd e) = true) tr /\ exists b, o = Val b);
}.

(** [NewControlPlaneInitMutex]. *)
#[export, refine] Instance ControlPlaneInitMutex `{InformationCodec} : InitLocker := {
  LockOp := Lock;
  UnlockOp := Unlock;
}.
Proof.
  - intros cluster machine. unfold Lock, acquire, Unlock. wp_go; split; eauto; repeat constructor.
  - intros cluster. unfold Unlock. wp_go; split; eauto; repeat constructor.
Defined.

(** The YAML text of a configuration. *)
Class K3sYaml := {
  yaml_server : K3sServerConfig -> string + error;
  yaml_agent : K3sAgentConfig -> string + error;
}.

(** ** Text that html/template escapes *)

Definition html_escape_char (a : ascii) : string :=
  if Ascii.eqb a (ascii_of_nat 34) then "&#34;"
  else if Ascii.eqb a "&"%char then "&amp;"
  else if Ascii.eqb a "'"%char then "&#39;"
  else if Ascii.eqb a "+"%char then "&#43;"
  else if Ascii.eqb a "<"%char then "&lt;"
  else if Ascii.eqb a ">"%char then "&gt;"
  else if Ascii.eqb a (ascii_of_nat 0) then
    String (ascii_of_nat 239) (String (ascii_of_nat 191) (String (ascii_of_nat 189) ""))
  else String a "".

Fixpoint html_escape (s : string) : string :=
  match s with EmptyString => "" | String a s' => html_escape_char a +++ html_escape s' end.

Definition lines (ls : list string) : string := foldr (fun l s => l +++ nl +++ s) "" ls.

(** pkg/etcd/etcd-proxy.yaml, around the lines of the image. *)
Definition etcd_proxy_head : string := lines [
  "apiVersion: apps/v1"; "kind: DaemonSet"; "metadata:"; "  name: etcd-proxy";
  "  namespace: kube-system"; "  labels:"; "    app: etcd-proxy"; "spec:"; "  selector:";
  "    matchLabels:"; "      app: etcd-proxy"; "  template:"; "    metadata:"; "      labels:";
  "        app: etcd-proxy"; "    spec:"; "      nodeSelector:";
  "        node-role.kubernetes.io/etcd: " +++ dq +++ "true" +++ dq; "      tolerations:";
  "      - key: node-role.kubernetes.io/control-plane"; "        operator: Exists";
  "        effect: NoSchedule"; "      - key: node-role.kubernetes.io/master";
  "        operator: Exists"; "        effect: NoSchedule"; "      containers:";
  "      - name: etcd-proxy"].

Definition etcd_proxy_tail : string := lines [
  "        env:"; "        - name: HOSTIP"; "          valueFrom:"; "            fieldRef:";
  "              fieldPath: status.hostIP"; "        args: ";
  "        - TCP4-LISTEN:2379,fork,reuseaddr"; "        - TCP4:$(HOSTIP):2379";
  "        resources:"; "          limits:"; "            memory: 200Mi"; "          requests:";
  "            cpu: 100m"; "            memory: 200Mi"; "        volumeMounts:";
  "        - name: varlog"; "          mountPath: /var/log";
  "      terminationGracePeriodSeconds: 30"; "      volumes:"; "      - name: varlog";
  "        hostPath:"; "          path: /var/log"].

(** The template is a constant: parsing and executing it do not fail. The actions
    leave the white space around them. *)
Definition etcd_proxy_yaml (EtcdProxyImage SystemDefaultRegistry : string) : string :=
  etcd_proxy_head +++ "        " +++ nl
  +++ "        image: "
  +++ (if negb (String.eqb EtcdProxyImage "") then html_escape EtcdProxyImage
       else html_escape SystemDefaultRegistry +++ "alpine/socat:1.8.0.0")
  +++ nl +++ "        " +++ nl +++ etcd_proxy_tail.

Definition root_file (path content : string) : File :=
  mkFile path "root:root" "0640" "" content None.

Definition resolveEtcdProxyFile (cfg : KThreesConfig) : File :=
  let registry := SystemDefaultRegistry (ServerConfig (ConfigSpec cfg)) in
  root_file EtcdProxyDaemonsetYamlLocation
    (etcd_proxy_yaml (EtcdProxyImage (ServerConfig (ConfigSpec cfg)))
       (if negb (String.eqb registry "") then registry +++ "/" else registry)).

(** ** The configuration under reconciliation *)

Definition with_config_status (s : KThreesConfigStatus) (c : KThreesConfig) : KThreesConfig :=
  mkKThreesConfig (ConfigMeta c) (ConfigSpec c) s.

Definition with_config_conditions (cs : list V1Condition) (c : KThreesConfig) : KThreesConfig :=
  let s := ConfigStatus c in
  with_config_status (mkKThreesConfigStatus (ConfigReady s) (BootstrapData s) (DataSecretName s)
    (ConfigFailureReason s) (ConfigFailureMessage s) (ConfigObservedGeneration s) cs) c.

Definition with_data_secret (name : option string) (c : KThreesConfig) : KThreesConfig :=
  let s := ConfigStatus c in
  with_config_status (mkKThreesConfigStatus true (BootstrapData s) name (ConfigFailureReason s)
    (ConfigFailureMessage s) (ConfigObservedGeneration s) (ConfigConditions s)) c.

Definition reconcileTopLevelObjectSettings (machine : Machine) (config : KThreesConfig) : KThreesConfig :=
  if String.eqb (ConfigVersion (ConfigSpec config)) "" && negb (String.eqb (MachineVersion machine) "")
  then with_spec (with_version (MachineVersion machine) (ConfigSpec config)) config else config.

Section Bootstrap.
Context `{CAPI} `{!ControllerLib} `{!GoText} `{!Crypto} `{!InitLocker} `{!K3sYaml}.

Definition mark_config (f : list V1Condition -> list V1Condition) : M KThreesConfig unit :=
  modify (fun c => with_config_conditions (f (ConfigConditions (ConfigStatus c))) c).

Definition GetReason (cs : list V1Condition) (t : string) : string :=
  match v1_Get cs t with Some c => V1Reason c | None => "" end.

(** The code returns the error of [m] after it has put it in the condition. *)
Definition or_marked {A} (m : M KThreesConfig A) : M KThreesConfig A :=
  r <- try m ;;
  match r with
  | inl a => ret a
  | inr err =>
      mark_config (MarkFalse DataSecretAvailableCondition DataSecretGenerationFailedReason
        ConditionSeverityWarning (Error err)) ;;;
      throw err
  end.

Definition resolveSecretFileContent {S} (ns : string) (source : SecretFileSource) : M S string :=
  let key := mkKey ns (SourceName source) in
  r <- call (GetSecret key) ;;
  match r with
  | inr err =>
      if IsNotFound err then throw (EWrap ("secret not found " +++ ObjectKey_String key) err)
      else throw (EWrap ("failed to retrieve Secret " +++ Quote (ObjectKey_String key)) err)
  | inl secret =>
      match gomap_get (SecretData secret) (SourceKey source) with
      | Some data => ret data
      | None => throw (EWrap ("secret references non-existent secret key " +++ Quote (SourceKey source))
                         ErrInvalidRef)
      end
  end.

Definition with_content (content : string) (f : File) : File :=
  mkFile (FilePath f) (FileOwner f) (FilePermissions f) (FileEncoding f) content None.

Definition resolve_file {S} (ns : string) (collected : list File) (in_ : File) : M S (list File) :=
  match FileContentFrom in_ with
  | None => ret (collected ++ [in_])
  | Some source =>
      d <- try (resolveSecretFileContent ns (FileSourceSecret source)) ;;
      data <- lift_wrap "failed to resolve file source" d ;;
      ret (collected ++ [with_content data in_])
  end.

Definition resolveFiles {S} (cfg : KThreesConfig) : M S (list File) :=
  fold_each (elems (Files (ConfigSpec cfg))) [] (resolve_file (Namespace (ConfigMeta cfg))).

(** The files of a control-plane node: those of the specification, and the proxy
    to etcd. *)
Definition control_plane_files : M KThreesConfig (list File) :=
  cfg <- get ;;
  files <- or_marked (resolveFiles cfg) ;;
  if IsEtcdEmbedded (ConfigSpec cfg) then ret (files ++ [resolveEtcdProxyFile cfg]) else ret files.

Definition user_data (files : list File) (configFile : File) (spec : KThreesConfigSpec) : BaseUserData :=
  mkBaseUserData "" (PreK3sCommands spec) (PostK3sCommands spec) files [] configFile
    (ConfigVersion spec) (AirGapped (AgentConfig spec)) (AirGappedInstallScriptPath (AgentConfig spec)) "".

(** ** The data secret *)

Definition data_secret (cluster : Cluster) (cfg : KThreesConfig) (data : string) : Secret :=
  let om := ConfigMeta cfg in
  mkSecret
    (mkObjectMeta (Name om) (Namespace om) "" "" (Some {[ ClusterNameLabel := Name (ClusterMeta cluster) ]}) None
       [mkOwnerReference bootstrap_GroupVersion "KThreesConfig" (Name om) (UID om) (Some true) None]
       [] 0 None [])
    (Some {[ "value" := data ]}) ClusterSecretType.

Definition storeBootstrapData (cluster : Cluster) (data : string) : M KThreesConfig unit :=
  cfg <- get ;;
  let secret := data_secret cluster cfg data in
  let of_config := Namespace (ConfigMeta cfg) +++ "/" +++ Name (ConfigMeta cfg) in
  c <- call (CreateSecret secret) ;;
  (match c with
   | inl _ => ret tt
   | inr err =>
       if negb (IsAlreadyExists err) then
         throw (EWrap ("failed to create bootstrap data secret for KThreesConfig " +++ of_config) err)
       else
         u <- call (UpdateSecret secret) ;;
         lift_wrap ("failed to update bootstrap data secret for KThreesConfig " +++ of_config) u
   end) ;;;
  modify (with_data_secret (Some (Name (SecretMeta secret)))) ;;;
  mark_config (MarkTrue DataSecretAvailableCondition).

(** ** Joining a cluster *)

Definition serverURL (cluster : Cluster) : string :=
  "https://" +++ Endpoint_String (ControlPlaneEndpointHost cluster) (ControlPlaneEndpointPort cluster).

(** The machine of the owner, whose version a configuration without one takes. *)
Definition owner_machine (owner : ConfigOwner) : M KThreesConfig Machine :=
  lift_wrap ("cannot convert " +++ ConfigOwnerKind owner +++ " to Machine") (OwnerMachine owner).

Definition joinControlplane (cluster : Cluster) (owner : ConfigOwner) : M KThreesConfig unit :=
  machine <- owner_machine owner ;;
  modify (reconcileTopLevelObjectSettings machine) ;;;
  tokn <- or_marked (Token.Lookup (ClusterKey cluster)) ;;
  cfg <- get ;;
  b <- lift_res (yaml_server (GenerateJoinControlPlaneConfig (serverURL cluster) tokn
                  (ControlPlaneEndpointHost cluster) (ServerConfig (ConfigSpec cfg))
                  (AgentConfig (ConfigSpec cfg)))) ;;
  files <- control_plane_files ;;
  cloudInitData <- NewJoinControlPlane (mkControlPlaneInput
    (user_data files (root_file DefaultK3sConfigLocation b) (ConfigSpec cfg)) []) ;;
  storeBootstrapData cluster cloudInitData.

Definition joinWorker (cluster : Cluster) (owner : ConfigOwner) : M KThreesConfig unit :=
  machine <- owner_machine owner ;;
  modify (reconcileTopLevelObjectSettings machine) ;;;
  tokn <- or_marked (Token.Lookup (ClusterKey cluster)) ;;
  cfg <- get ;;
  b <- lift_res (yaml_agent (GenerateWorkerConfig (serverURL cluster) tokn
                  (ServerConfig (ConfigSpec cfg)) (AgentConfig (ConfigSpec cfg)))) ;;
  files <- or_marked (resolveFiles cfg) ;;
  cloudInitData <- NewWorker (user_data files (root_file DefaultK3sConfigLocation b) (ConfigSpec cfg)) ;;
  storeBootstrapData cluster cloudInitData.

(** ** Starting a cluster *)

(** The deferred release of the lock; a panic leaves the lock as it is. *)
Definition unlock_on_error (cluster : Cluster) (o : outcome Result)
    : M KThreesConfig (outcome Result) :=
  match o with
  | Err reterr =>
      unlocked <- lift_io (UnlockOp cluster) ;;
      if negb unlocked then ret (Err (EAggregate [reterr; ErrFailedUnlock])) else ret o
  | _ => ret o
  end.

Definition config_controller_ref (cfg : KThreesConfig) : OwnerReference :=
  let om := ConfigMeta cfg in
  NewControllerRef (mkOwner (Name om) (Namespace om) (UID om) bootstrap_GroupVersion "KThreesConfig").

(** The cluster's certificates, on a value of their own. *)
Definition init_certificates (cluster : Cluster) (cfg : KThreesConfig)
    : M KThreesConfig (list Certificate) :=
  r <- try (with_local (NewCertificatesForInitialControlPlane (ConfigSpec cfg))
              (LookupOrGenerate (ClusterKey cluster) (config_controller_ref cfg) ;;; get)) ;;
  match r with
  | inr err =>
      mark_config (MarkFalse CertificatesAvailableCondition CertificatesGenerationFailedReason
        ConditionSeverityWarning ("failed looking up or generating certificates: " +++ Error err)) ;;;
      throw err
  | inl certificates => mark_config (MarkTrue CertificatesAvailableCondition) ;;; ret certificates
  end.

(** The steps under the lock. *)
Definition init_control_plane (cluster : Cluster) (machine : Machine) : M KThreesConfig unit :=
  modify (reconcileTopLevelObjectSettings machine) ;;;
  cfg <- get ;;
  certificates <- init_certificates cluster cfg ;;
  tokn <- Token.Lookup (ClusterKey cluster) ;;
  b <- lift_res (yaml_server (GenerateInitControlPlaneConfig (ControlPlaneEndpointHost cluster) tokn
                  (ServerConfig (ConfigSpec cfg)) (AgentConfig (ConfigSpec cfg)))) ;;
  files <- control_plane_files ;;
  cloudInitData <- NewInitControlPlane (mkControlPlaneInput
    (user_data files (root_file DefaultK3sConfigLocation b) (ConfigSpec cfg)) certificates) ;;
  storeBootstrapData cluster cloudInitData.

Definition handleClusterNotInitialized (cluster : Cluster) (owner : ConfigOwner)
    : M KThreesConfig Result :=
  cfg <- get ;;
  (if negb (String.eqb (GetReason (ConfigConditions (ConfigStatus cfg)) DataSecretAvailableCondition)
              DataSecretGenerationFailedReason)
   then mark_config (MarkFalse DataSecretAvailableCondition WaitingForControlPlaneAvailableReason
                       ConditionSeverityInfo "")
   else ret tt) ;;;
  if negb (IsControlPlaneOwner owner) then ret (requeueAfter (30 * Second))
  else
    machine <- owner_machine owner ;;
    locked <- lift_io (LockOp cluster machine) ;;
    if negb locked then ret (requeueAfter (30 * Second))
    else deferred (init_control_plane cluster machine ;;; ret emptyResult) (unlock_on_error cluster).

(** ** The reconciliation *)

(** The deferred patch; only its error can take the place of none. *)
Definition patch_config (before : KThreesConfig) (o : outcome Result)
    : M KThreesConfig (outcome Result) :=
  mark_config (SetSummary [DataSecretAvailableCondition; CertificatesAvailableCondition]) ;;;
  config <- get ;;
  p <- call (PatchConfig before config (match o with Err _ => false | _ => true end)) ;;
  ret (match p, o with inr err, Val _ => Err err | _, _ => o end).

Definition reconcile_config (cluster : Cluster) (owner : ConfigOwner) : M KThreesConfig Result :=
  config <- get ;;
  let status := ConfigStatus config in
  if negb (default false (InfrastructureProvisioned cluster)) then
    mark_config (MarkFalse DataSecretAvailableCondition WaitingForClusterInfrastructureReason
      ConditionSeverityInfo "") ;;;
    ret (requeueAfter (1 * Minute))
  else if bool_decide (OwnerDataSecretName owner <> None)
          && (negb (ConfigReady status) || bool_decide (DataSecretName status = None)) then
    modify (with_data_secret (OwnerDataSecretName owner)) ;;;
    mark_config (MarkTrue DataSecretAvailableCondition) ;;;
    ret emptyResult
  else if ConfigReady status then ret emptyResult
  else if negb (default false (ControlPlaneInitialized cluster)) then
    handleClusterNotInitialized cluster owner
  else
    lift_io (UnlockOp cluster) ;;;
    (if IsControlPlaneOwner owner then joinControlplane cluster owner else joinWorker cluster owner) ;;;
    ret emptyResult.

Definition Reconcile (req : ObjectKey) : IO Result :=
  g <- call (GetKThreesConfig req) ;;
  match g with
  | inr err => if IsNotFound err then ret emptyResult else throw err
  | inl config =>
      w <- call (GetConfigOwner config) ;;
      match w with
      | inr err => if IsNotFound err then ret emptyResult else throw err
      | inl None => ret emptyResult
      | inl (Some owner) =>
          c <- call (GetClusterByName (ConfigOwnerNamespace owner) (ConfigOwnerClusterName owner)) ;;
          match c with
          | inr err =>
              if errors_Is err ErrNoCluster then ret emptyResult
              else if IsNotFound err then ret emptyResult else throw err
          | inl cluster =>
              if config_IsPaused cluster config then ret emptyResult
              else
                h <- call (NewConfigPatchHelper config) ;;
                lift_res h ;;;
                with_local config (deferred (reconcile_config cluster owner) (patch_config config))
          end
      end
  end.

(** ** What bootstrap data is made of *)

(** The token that a secret of the cluster holds. *)
Definition token_read (tr : list event) (key : ObjectKey) (tokn : string) : Prop :=
  exists sec, ev (GetSecret (mkKey (KeyNamespace key) (Token.name (KeyName key)))) (inl sec) ∈ tr
    /\ gomap_get (SecretData sec) "value" = Some tokn.

(** A file, and the file that is written: one that refers to a secret has what
    the secret holds under its key. *)
Definition resolved_as (tr : list event) (ns : string) (f f' : File) : Prop :=
  match FileContentFrom f with
  | None => f' = f
  | Some source => exists sec content,
      ev (GetSecret (mkKey ns (SourceName (FileSourceSecret source)))) (inl sec) ∈ tr
      /\ gomap_get (SecretData sec) (SourceKey (FileSourceSecret source)) = Some content
      /\ f' = with_content content f
  end.

Inductive role := InitControlPlane | JoinControlPlane | JoinWorker.

(** The data of a node of a cluster, for the configuration [cfg]: the document of
    its role, with the token, the files and, on the first node, the
    certificates. *)
Definition node_data (r : role) (cluster : Cluster) (cfg : KThreesConfig) (tr : list event)
    (data : string) : Prop :=
  let spec := ConfigSpec cfg in
  let host := ControlPlaneEndpointHost cluster in
  exists tokn files b,
    token_read tr (ClusterKey cluster) tokn
    /\ Forall2 (resolved_as tr (Namespace (ConfigMeta cfg))) (elems (Files spec)) files
    /\ let user_files := user_data files (root_file DefaultK3sConfigLocation b) spec in
       let server_files :=
         user_data (files ++ [resolveEtcdProxyFile cfg]) (root_file DefaultK3sConfigLocation b) spec in
       match r with
       | InitControlPlane => exists certificates certificate_files,
           yaml_server (GenerateInitControlPlaneConfig host tokn (ServerConfig spec) (AgentConfig spec)) = inl b
           /\ CertPurpose <$> certificates = [ClusterCA; ClientClusterCA; EtcdCA]
           /\ Certificates_AsFiles certificates = Some certificate_files
           /\ generate "InitControlplane" server_install
                (prepare (with_write_files certificate_files server_files)) = inl data
       | JoinControlPlane =>
           yaml_server (GenerateJoinControlPlaneConfig (serverURL cluster) tokn host
             (ServerConfig spec) (AgentConfig spec)) = inl b
           /\ generate "JoinControlplane" server_install (prepare server_files) = inl data
       | JoinWorker =>
           yaml_agent (GenerateWorkerConfig (serverURL cluster) tokn
             (ServerConfig spec) (AgentConfig spec)) = inl b
           /\ generate "Worker" agent_install (prepare user_files) = inl data
       end.

(** The API server holds the secret: it was created, or it existed and was
    updated. *)
Definition stored (sec : Secret) (tr : list event) : Prop :=
  ev (CreateSecret sec) (inl tt) ∈ tr
  \/ exists err, IsAlreadyExists err = true /\ ev (CreateSecret sec) (inr err) ∈ tr
       /\ ev (UpdateSecret sec) (inl tt) ∈ tr.

(** The configuration once its data is stored. *)
Definition ready_config (c : KThreesConfig) : KThreesConfig :=
  with_config_conditions (MarkTrue DataSecretAvailableCondition (ConfigConditions (ConfigStatus c)))
    (with_data_secret (Some (Name (ConfigMeta c))) c).

(** The configuration that reports that its data could not be made. *)
Definition failed_config (err : error) (c : KThreesConfig) : KThreesConfig :=
  with_config_conditions (MarkFalse DataSecretAvailableCondition DataSecretGenerationFailedReason
    ConditionSeverityWarning (Error err) (ConfigConditions (ConfigStatus c))) c.

Lemma resolved_as_mono tr tr' ns f f' : resolved_as tr ns f f' -> tr ⊆ tr' -> resolved_as tr' ns f f'.
Proof. unfold resolved_as. intros Hr Hs. destruct (FileContentFrom f); naive_solver. Qed.

Lemma resolved_mono tr tr' ns fs fs' :
  Forall2 (resolved_as tr ns) fs fs' -> tr ⊆ tr' -> Forall2 (resolved_as tr' ns) fs fs'.
Proof. intros HF Hs. eapply Forall2_impl; [exact HF|]. intros. by eapply resolved_as_mono. Qed.

Lemma node_data_mono r cluster cfg tr tr' data :
  node_data r cluster cfg tr data -> tr ⊆ tr' -> node_data r cluster cfg tr' data.
Proof.
  intros (tokn & files & b & (sec & Ht & Hv) & Hf & Hr) Hs. exists tokn, files, b.
  split; [exists sec; auto|]. split; [by eapply resolved_mono|exact Hr].
Qed.

Lemma stored_mono sec tr tr' : stored sec tr -> tr ⊆ tr' -> stored sec tr'.
Proof. unfold stored. intros Hr Hs. naive_solver. Qed.

(** ** The steps *)

(** Only secrets are read. *)
Definition only_reads (tr : list event) : Prop :=
  Forall (fun e => match ev_cmd e with GetSecret _ => true | _ => false end = true) tr.

Lemma resolveFiles_ok {S} cfg (s : S) :
  wp (resolveFiles cfg) s (fun tr s' o => s' = s /\ only_reads tr /\ o <> Panic
    /\ forall fs, o = Val fs ->
         Forall2 (resolved_as tr (Namespace (ConfigMeta cfg))) (elems (Files (ConfigSpec cfg))) fs).
Proof.
  eapply wp_mono.
  - apply (wp_fold_each
      (fun vis tr s' acc => s' = s /\ only_reads tr
         /\ Forall2 (resolved_as tr (Namespace (ConfigMeta cfg))) vis acc)
      (fun tr s' o => s' = s /\ only_reads tr /\ o <> Panic) _ [] _ [] []).
    { split; [done|]. split; constructor. }
    intros vis f acc tr s0 _ (-> & HQ & HF). unfold resolve_file, resolveSecretFileContent.
    assert (Hnew : forall t f', (forall x, x ∈ tr -> x ∈ t) -> resolved_as t (Namespace (ConfigMeta cfg)) f f' ->
      Forall2 (resolved_as t (Namespace (ConfigMeta cfg))) (vis ++ [f]) (acc ++ [f'])).
    { intros t f' Hs Hf. apply Forall2_app; [by eapply resolved_mono|by constructor]. }
    wp_go; rewrite ?app_nil_r; (split; [done|]);
      (split; [first [exact HQ|apply Forall_app; split; [exact HQ|by repeat constructor]]|]); try done.
    + apply Hnew; [intros x Hx; rewrite elem_of_app; auto|]. unfold resolved_as.
      match goal with E : FileContentFrom f = _ |- _ => rewrite E end.
      eexists _, _. split; [rewrite elem_of_app; right; left|done].
    + apply Hnew; [done|]. unfold resolved_as.
      match goal with E : FileContentFrom f = _ |- _ => by rewrite E end.
  - intros tr s' [fs|e|]; cbn [app]; naive_solver.
Qed.

Lemma Lookup_ok {S} key (s : S) :
  wp (Token.Lookup key) s (fun tr s' o => s' = s /\ only_reads tr /\ o <> Panic
    /\ forall tokn, o = Val tokn -> token_read tr key tokn).
Proof.
  unfold Token.Lookup, getSecret. wp_go; (split; [done|]); (split; [by repeat constructor|]); (split; [done|]);
    try done. intros tokn [= <-]. eexists. split; [left|done].
Qed.

(** A step that only reads, under [or_marked]. *)
Lemma or_marked_ok {A} (m : M KThreesConfig A) c (Q : list event -> A -> Prop) :
  wp m c (fun tr c' o => c' = c /\ only_reads tr /\ o <> Panic /\ forall a, o = Val a -> Q tr a) ->
  wp (or_marked m) c (fun tr c' o => only_reads tr /\
    match o with
    | Val a => c' = c /\ Q tr a
    | Err err => c' = failed_config err c
    | Panic => False
    end).
Proof.
  intros Hm. unfold or_marked. apply wp_bind, wp_try. eapply wp_mono; [exact Hm|].
  intros tr c' [a|err|] (-> & Hr & Hp & HQ); [| |done].
  - apply wp_ret. rewrite app_nil_r. auto.
  - apply wp_bind, wp_modify, wp_throw. by rewrite !app_nil_r.
Qed.

Lemma resolveFiles_marked_ok cfg :
  wp (or_marked (resolveFiles cfg)) cfg (fun tr c' o => only_reads tr /\
    match o with
    | Val files => c' = cfg
        /\ Forall2 (resolved_as tr (Namespace (ConfigMeta cfg))) (elems (Files (ConfigSpec cfg))) files
    | Err err => c' = failed_config err cfg
    | Panic => False
    end).
Proof. apply or_marked_ok, resolveFiles_ok. Qed.

Lemma control_plane_files_ok cfg :
  wp control_plane_files cfg (fun tr c' o => only_reads tr /\
    match o with
    | Val files => c' = cfg /\ exists user_files, files = user_files ++ [resolveEtcdProxyFile cfg]
        /\ Forall2 (resolved_as tr (Namespace (ConfigMeta cfg))) (elems (Files (ConfigSpec cfg))) user_files
    | Err err => c' = failed_config err cfg
    | Panic => False
    end).
Proof.
  unfold control_plane_files. apply wp_bind, wp_get. cbn beta. apply wp_bind.
  eapply wp_mono; [apply resolveFiles_marked_ok|]. intros tr c' [files|err|] [Hr Ho]; [|done..].
  destruct Ho as [-> HF]. apply wp_ret. rewrite app_nil_r. split; [done|]. eauto.
Qed.

(** The calls that store a secret. *)
Definition stores (sec : Secret) (tr : list event) : Prop :=
  Forall (fun e => ev_cmd e = CreateSecret sec \/ ev_cmd e = UpdateSecret sec) tr.

Lemma storeBootstrapData_ok cluster data c :
  wp (storeBootstrapData cluster data) c (fun tr c' o => stores (data_secret cluster c data) tr
    /\ (exists r, ev (CreateSecret (data_secret cluster c data)) r ∈ tr)
    /\ match o with
       | Val _ => c' = ready_config c /\ stored (data_secret cluster c data) tr
       | Err _ => c' = c
       | Panic => False
       end).
Proof.
  unfold storeBootstrapData, mark_config, stored.
  wp_go; (split; [repeat constructor; simpl; auto|]); (split; [eexists; left|]); try done.
  - split; [done|]. left. match goal with u : unit |- _ => destruct u end. left.
  - split; [done|]. right. eexists. split; [by apply negb_false_iff|]. split; [left|].
    match goal with u : unit |- _ => destruct u end. right. left.
Qed.

(** The error of an encoder of the data, which the condition does not report. *)
Definition encoding_failed (err : error) : Prop :=
  (exists c, yaml_server c = inr err) \/ (exists c, yaml_agent c = inr err)
  \/ (exists kind version (input : BaseUserData), Execute kind version input = inr err).

(** How making the data of a node can end. *)
Definition generated {A} (r : role) (cluster : Cluster) (cfg : KThreesConfig) (tr : list event)
    (c' : KThreesConfig) (o : outcome A) : Prop :=
  match o with
  | Val _ => c' = ready_config cfg
      /\ exists data, node_data r cluster cfg tr data /\ stored (data_secret cluster cfg data) tr
  | Err err =>
      only_reads tr /\ c' = failed_config err cfg
      \/ only_reads tr /\ c' = cfg /\ encoding_failed err
      \/ c' = cfg /\ exists data a, ev (CreateSecret (data_secret cluster cfg data)) a ∈ tr
  | Panic => False
  end
  /\ forall c a, ev c a ∈ tr -> is_mgmt_write c = true -> exists data,
       node_data r cluster cfg tr data
       /\ (c = CreateSecret (data_secret cluster cfg data) \/ c = UpdateSecret (data_secret cluster cfg data)).

Lemma only_reads_no_write tr c a : only_reads tr -> ev c a ∈ tr -> is_mgmt_write c = true -> False.
Proof.
  unfold only_reads. rewrite Forall_forall. intros HF Hin Hw. specialize (HF _ Hin). simpl in HF.
  by destruct c.
Qed.

Lemma generated_reads {A} r cluster cfg tr c' err :
  only_reads tr -> c' = failed_config err cfg \/ c' = cfg /\ encoding_failed err ->
  generated (A := A) r cluster cfg tr c' (Err err).
Proof.
  intros Hr Hc. split; [destruct Hc as [|[]]; auto|]. intros c a Hin Hw.
  by destruct (only_reads_no_write tr c a).
Qed.

(** The end of each role. *)
Lemma store_generated r cluster cfg tr data :
  only_reads tr -> node_data r cluster cfg tr data ->
  wp (storeBootstrapData cluster data) cfg (fun tr' c' o => generated r cluster cfg (tr ++ tr') c' o).
Proof.
  intros Hr Hd. eapply wp_mono; [apply storeBootstrapData_ok|].
  intros tr' c' o (Hst & (a & Ha) & Ho).
  assert (Hs : tr ⊆ tr ++ tr') by (intros x; rewrite elem_of_app; auto).
  assert (Hs' : tr' ⊆ tr ++ tr') by (intros x; rewrite elem_of_app; auto).
  split.
  - destruct o as [u|err|]; [|right; right; split; [exact Ho|by exists data, a; apply Hs']|done].
    destruct Ho as [-> Hstored]. split; [done|]. exists data.
    split; [by eapply node_data_mono|by eapply stored_mono].
  - intros c b [Hin|Hin]%elem_of_app Hw; [by destruct (only_reads_no_write tr c b)|].
    exists data. split; [by eapply node_data_mono|].
    unfold stores in Hst. rewrite Forall_forall in Hst. by apply (Hst _ Hin).
Qed.

Lemma generate_encoding kind install input err :
  generate kind install input = inr err -> encoding_failed err.
Proof. unfold generate. destruct (Contains _ _); [|done]. intros E. right. right. by eexists _, _, _. Qed.

(** A step that reads and reports. *)
Lemma generated_after {A B} r cluster cfg tr (m : M KThreesConfig A) (f : A -> M KThreesConfig B)
    (P : list event -> A -> Prop) :
  only_reads tr ->
  wp m cfg (fun tr' c' o => only_reads tr' /\
    match o with
    | Val a => c' = cfg /\ P tr' a
    | Err err => c' = failed_config err cfg
    | Panic => False
    end) ->
  (forall tr' a, only_reads (tr ++ tr') -> P tr' a ->
     wp (f a) cfg (fun tr'' c' o => generated r cluster cfg ((tr ++ tr') ++ tr'') c' o)) ->
  wp (bind m f) cfg (fun tr' c' o => generated r cluster cfg (tr ++ tr') c' o).
Proof.
  intros Hr Hm Hf. apply wp_bind. eapply wp_mono; [exact Hm|]. intros tr' c' [a|err|] [Hr' Ho]; [| |done].
  - destruct Ho as [-> HP]. eapply wp_mono; [apply Hf; [by apply Forall_app|exact HP]|].
    intros tr'' c'' o. by rewrite app_assoc.
  - apply generated_reads; [by apply Forall_app|by left].
Qed.

Lemma generated_lift {A B} r cluster cfg tr (e : A + error) (f : A -> M KThreesConfig B) :
  only_reads tr -> (forall err, e = inr err -> encoding_failed err) ->
  (forall a, e = inl a -> wp (f a) cfg (fun tr' c' o => generated r cluster cfg (tr ++ tr') c' o)) ->
  wp (bind (lift_res e) f) cfg (fun tr' c' o => generated r cluster cfg (tr ++ tr') c' o).
Proof.
  intros Hr He Hf. apply wp_bind. destruct e as [a|err]; cbn [lift_res]; [apply wp_ret|apply wp_throw].
  - eapply wp_mono; [by apply Hf|]. intros tr' c' o. by rewrite app_nil_l.
  - rewrite app_nil_r. apply generated_reads; auto.
Qed.

Lemma Lookup_marked_ok key cfg :
  wp (or_marked (Token.Lookup key)) cfg (fun tr c' o => only_reads tr /\
    match o with
    | Val tokn => c' = cfg /\ token_read tr key tokn
    | Err err => c' = failed_config err cfg
    | Panic => False
    end).
Proof. apply or_marked_ok, Lookup_ok. Qed.

Lemma joinControlplane_ok cluster owner machine c :
  OwnerMachine owner = inl machine ->
  wp (joinControlplane cluster owner) c (fun tr c' o =>
    generated JoinControlPlane cluster (reconcileTopLevelObjectSettings machine c) tr c' o).
Proof.
  intros Em. unfold joinControlplane, owner_machine. rewrite Em. cbn [lift_wrap].
  apply wp_bind, wp_ret, wp_bind, wp_modify. set (cfg := reconcileTopLevelObjectSettings machine c).
  apply (generated_after _ _ _ [] _ _ _ (Forall_nil_2 _) (Lookup_marked_ok _ _)). intros tr1 tokn R1 Ht.
  apply wp_bind, wp_get. apply generated_lift; [done|intros err E; left; by eexists|]. intros b Eb.
  apply (generated_after _ _ _ _ _ _ _ R1 (control_plane_files_ok _)). intros tr2 files R2 (fs & -> & Hf).
  apply generated_lift; [done|intros err; apply generate_encoding|]. intros data Ed.
  apply store_generated; [done|]. exists tokn, fs, b. destruct Ht as (sec & Hin & Hv).
  split; [exists sec; split; [rewrite elem_of_app; auto|done]|].
  split; [eapply resolved_mono; [exact Hf|intros x; rewrite elem_of_app; auto]|done].
Qed.

Lemma joinWorker_ok cluster owner machine c :
  OwnerMachine owner = inl machine ->
  wp (joinWorker cluster owner) c (fun tr c' o =>
    generated JoinWorker cluster (reconcileTopLevelObjectSettings machine c) tr c' o).
Proof.
  intros Em. unfold joinWorker, owner_machine. rewrite Em. cbn [lift_wrap].
  apply wp_bind, wp_ret, wp_bind, wp_modify. set (cfg := reconcileTopLevelObjectSettings machine c).
  apply (generated_after _ _ _ [] _ _ _ (Forall_nil_2 _) (Lookup_marked_ok _ _)). intros tr1 tokn R1 Ht.
  apply wp_bind, wp_get. apply generated_lift; [done|intros err E; right; left; by eexists|]. intros b Eb.
  apply (generated_after _ _ _ _ _ _ _ R1 (resolveFiles_marked_ok _)). intros tr2 files R2 Hf.
  apply generated_lift; [done|intros err; apply generate_encoding|]. intros data Ed.
  apply store_generated; [done|]. exists tokn, files, b. destruct Ht as (sec & Hin & Hv).
  split; [exists sec; split; [rewrite elem_of_app; auto|done]|].
  split; [eapply resolved_mono; [exact Hf|intros x; rewrite elem_of_app; auto]|done].
Qed.

(** ** The first node *)

(** The certificates of the first node are available. *)
Definition certified (c : KThreesConfig) : KThreesConfig :=
  with_config_conditions (MarkTrue CertificatesAvailableCondition (ConfigConditions (ConfigStatus c))) c.

Definition no_lock_call (c : cmd) : bool := negb (lock_call c).

Lemma initial_fresh spec : Forall fresh (NewCertificatesForInitialControlPlane spec).
Proof. repeat (apply Forall_cons_2; [by split_and!|]). apply Forall_nil_2. Qed.

Lemma files_of_Some certs p : Forall (fun c => CertKeyPair c <> None) certs -> is_Some (files_of certs p).
Proof.
  intros HF. unfold files_of, GetByPurpose. destruct (find_first _ certs) as [c|] eqn:E; [|by eexists].
  apply find_first_Some in E as [Hin _]. rewrite Forall_forall in HF. specialize (HF c Hin).
  unfold Certificate_AsFiles. by destruct (CertKeyPair c).
Qed.

Lemma AsFiles_Some certs :
  Forall (fun c => CertKeyPair c <> None) certs -> exists fs, Certificates_AsFiles certs = Some fs.
Proof.
  intros HF. unfold Certificates_AsFiles.
  destruct (files_of_Some certs ClusterCA HF) as [f1 ->], (files_of_Some certs ClientClusterCA HF) as [f2 ->],
    (files_of_Some certs EtcdCA HF) as [f3 ->], (files_of_Some certs APIServerEtcdClient HF) as [f4 ->].
  by eexists.
Qed.

Lemma certificates_made key owner spec :
  wp (LookupOrGenerate key owner ;;; get) (NewCertificatesForInitialControlPlane spec) (fun tr _ o =>
    Forall (fun e => certificate_call (ev_cmd e) = true) tr /\ o <> Panic
    /\ forall certs, o = Val certs -> CertPurpose <$> certs = [ClusterCA; ClientClusterCA; EtcdCA]
         /\ exists fs, Certificates_AsFiles certs = Some fs).
Proof.
  apply wp_bind. eapply wp_mono.
  { apply wp_and; [apply LookupOrGenerate_calls|apply LookupOrGenerate_wp, initial_fresh]. }
  intros tr cs o (HF & Hp & _ & Hv). destruct o as [[]|e|]; [|by split_and!..].
  apply wp_get. rewrite app_nil_r. split; [done|]. split; [done|]. intros certs [= <-].
  destruct (Hv eq_refl) as (_ & _ & Hpair & ->). split; [done|]. apply AsFiles_Some.
  eapply Forall_impl; [exact Hpair|]. cbn beta. intros c E Hc. by rewrite Hc in E.
Qed.

Lemma init_certificates_ok cluster cfg :
  wp (init_certificates cluster cfg) cfg (fun tr c' o =>
    Forall (fun e => certificate_call (ev_cmd e) = true) tr /\
    match o with
    | Val certs => c' = certified cfg /\ CertPurpose <$> certs = [ClusterCA; ClientClusterCA; EtcdCA]
        /\ exists fs, Certificates_AsFiles certs = Some fs
    | Err err => exists cs, c' = with_config_conditions cs cfg
    | Panic => False
    end).
Proof.
  unfold init_certificates. apply wp_bind, wp_try, wp_with_local.
  eapply wp_mono; [apply (certificates_made (ClusterKey cluster))|]. intros tr cs o (HF & Hp & Hv).
  destruct o as [certs|err|]; [| |done].
  - apply wp_bind, wp_modify, wp_ret. rewrite ?app_nil_r. split; [done|]. split; [done|]. by apply Hv.
  - apply wp_bind, wp_modify, wp_throw. rewrite ?app_nil_r. split; [done|]. by eexists.
Qed.

Lemma init_control_plane_no_lock cluster machine : issues no_lock_call (init_control_plane cluster machine).
Proof.
  unfold init_control_plane, init_certificates, Token.Lookup, getSecret, control_plane_files, or_marked,
    resolveFiles, resolve_file, resolveSecretFileContent, NewInitControlPlane, storeBootstrapData, mark_config.
  issues_go.
Qed.

(** The steps after the certificates. *)
Definition init_tail (cluster : Cluster) (cfg : KThreesConfig) (certificates : list Certificate)
    : M KThreesConfig unit :=
  tokn <- Token.Lookup (ClusterKey cluster) ;;
  b <- lift_res (yaml_server (GenerateInitControlPlaneConfig (ControlPlaneEndpointHost cluster) tokn
                  (ServerConfig (ConfigSpec cfg)) (AgentConfig (ConfigSpec cfg)))) ;;
  files <- control_plane_files ;;
  cloudInitData <- NewInitControlPlane (mkControlPlaneInput
    (user_data files (root_file DefaultK3sConfigLocation b) (ConfigSpec cfg)) certificates) ;;
  storeBootstrapData cluster cloudInitData.

Lemma init_tail_ok cluster cfg certs fs :
  CertPurpose <$> certs = [ClusterCA; ClientClusterCA; EtcdCA] -> Certificates_AsFiles certs = Some fs ->
  wp (init_tail cluster cfg certs) cfg (fun tr c' o =>
    generated InitControlPlane cluster cfg tr c' o
    \/ only_reads tr /\ c' = cfg /\ exists err, o = Err err).
Proof.
  intros Hp Hfs. unfold init_tail. apply wp_bind. eapply wp_mono; [apply Lookup_ok|].
  intros tr1 c1 [tokn|err|] (-> & R1 & P1 & HT); [|right; eauto|done].
  eapply wp_mono with (Q := fun tr2 c' o => generated InitControlPlane cluster cfg (tr1 ++ tr2) c' o);
    [|by left].
  apply generated_lift; [done|intros err E; left; by eexists|]. intros b Eb.
  apply (generated_after _ _ _ _ _ _ _ R1 (control_plane_files_ok _)). intros tr2 files R2 (ufs & -> & Hf).
  unfold NewInitControlPlane. cbn [CPCertificates CPBase]. rewrite Hfs.
  apply generated_lift; [done|intros err; apply generate_encoding|]. intros data Ed.
  apply store_generated; [done|]. exists tokn, ufs, b. destruct (HT tokn eq_refl) as (sec & Hin & Hv).
  split; [exists sec; split; [rewrite elem_of_app; auto|done]|].
  split; [eapply resolved_mono; [exact Hf|intros x; rewrite elem_of_app; auto]|]. by exists certs, fs.
Qed.

Lemma init_control_plane_ok cluster machine c :
  wp (init_control_plane cluster machine) c (fun tr c' o =>
    let cfg := reconcileTopLevelObjectSettings machine c in
    match o with
    | Val _ => c' = ready_config (certified cfg)
        /\ exists data, node_data InitControlPlane cluster cfg tr data /\ stored (data_secret cluster cfg data) tr
    | Err err => exists cs, c' = with_config_conditions cs cfg
    | Panic => False
    end).
Proof.
  unfold init_control_plane. apply wp_bind, wp_modify, wp_bind, wp_get. cbn beta.
  set (cfg := reconcileTopLevelObjectSettings machine c). apply wp_bind.
  eapply wp_mono; [apply init_certificates_ok|]. intros tr1 c1 [certs|err|] (HF & Ho); [|exact Ho|done].
  destruct Ho as (-> & Hp & fs & Hfs).
  change (wp (init_tail cluster (certified cfg) certs) (certified cfg) (fun tr' c' o =>
    match o with
    | Val _ => c' = ready_config (certified cfg)
        /\ exists data, node_data InitControlPlane cluster cfg ([] ++ [] ++ tr1 ++ tr') data
             /\ stored (data_secret cluster cfg data) ([] ++ [] ++ tr1 ++ tr')
    | Err err => exists cs, c' = with_config_conditions cs cfg
    | Panic => False
    end)).
  eapply wp_mono; [by apply (init_tail_ok cluster (certified cfg) certs fs)|].
  intros tr2 c2 o [Hg|(_ & -> & err & ->)]; [|by eexists].
  assert (Hs : tr2 ⊆ [] ++ [] ++ tr1 ++ tr2) by (intros x; rewrite !elem_of_app; auto).
  destruct Hg as [Hg _]. destruct o as [u|err|]; [| |done].
  - destruct Hg as (-> & data & Hd & Hst). split; [done|]. exists data.
    split; [exact (node_data_mono _ _ _ _ _ _ Hd Hs)|exact (stored_mono _ _ _ Hst Hs)].
  - destruct Hg as [[_ ->]|[(_ & -> & _)|[-> _]]]; by eexists.
Qed.

(** ** Joining: every outcome *)

(** C23: a node that joins a cluster reports what goes wrong. Making its data
    ends in one of four ways. It succeeds: the configuration is ready, and the
    secret named after it was created, or existed and was updated, with the
    document of the node's role, made of the token that the cluster's secret
    held, the files with the contents that their secrets held, and the proxy to
    etcd on a control-plane node. The token or a file cannot be had: nothing was
    written and the condition of the configuration tells the error that is
    returned. An encoder fails, or the secret cannot be written: the
    configuration is as it was. Whatever is written is that secret, and an owner
    that is no machine is refused before any call. *)
Theorem join_outcomes cluster owner c :
  wp (if IsControlPlaneOwner owner then joinControlplane cluster owner else joinWorker cluster owner) c
    (fun tr c' o =>
      match OwnerMachine owner with
      | inr e => tr = [] /\ c' = c /\ o = Err (EWrap ("cannot convert " +++ ConfigOwnerKind owner +++ " to Machine") e)
      | inl machine =>
          generated (if IsControlPlaneOwner owner then JoinControlPlane else JoinWorker) cluster
            (reconcileTopLevelObjectSettings machine c) tr c' o
      end).
Proof.
  destruct (OwnerMachine owner) as [machine|e] eqn:E, (IsControlPlaneOwner owner).
  - by apply joinControlplane_ok.
  - by apply joinWorker_ok.
  - unfold joinControlplane, owner_machine. rewrite E. by apply wp_bind, wp_throw.
  - unfold joinWorker, owner_machine. rewrite E. by apply wp_bind, wp_throw.
Qed.

(** ** The lock around the first start *)

Definition lock_only (tr : list event) : Prop := Forall (fun e => lock_call (ev_cmd e) = true) tr.

(** The call of a lock operation, and that it ran. *)
Lemma wp_Lock {S} cluster machine (s : S) :
  wp (lift_io (LockOp cluster machine)) s (fun tr s' o => s' = s /\ lock_only tr
    /\ exists b, o = Val b /\ runs (LockOp cluster machine) tt tr tt (Val b)).
Proof.
  apply wp_lift_io. eapply wp_mono; [apply wp_and; [apply LockOp_spec|apply wp_self]|].
  cbn beta. intros tr [] o ((HF & b & ->) & Hr). eauto.
Qed.

Lemma wp_Unlock {S} cluster (s : S) :
  wp (lift_io (UnlockOp cluster)) s (fun tr s' o => s' = s /\ lock_only tr
    /\ exists b, o = Val b /\ runs (UnlockOp cluster) tt tr tt (Val b)).
Proof.
  apply wp_lift_io. eapply wp_mono; [apply wp_and; [apply UnlockOp_spec|apply wp_self]|].
  cbn beta. intros tr [] o ((HF & b & ->) & Hr). eauto.
Qed.

Lemma settings_conditions machine cs c :
  reconcileTopLevelObjectSettings machine (with_config_conditions cs c)
  = with_config_conditions cs (reconcileTopLevelObjectSettings machine c).
Proof. unfold reconcileTopLevelObjectSettings. simpl. by destruct (_ && _). Qed.

(** What happens under the lock of [machine], and after it. *)
Definition under_lock (cluster : Cluster) (owner : ConfigOwner) (c : KThreesConfig) (tr : list event)
    (c' : KThreesConfig) (o : outcome Result) : Prop :=
  exists machine granted body released,
    IsControlPlaneOwner owner = true /\ OwnerMachine owner = inl machine
    /\ tr = granted ++ body ++ released
    /\ runs (LockOp cluster machine) tt granted tt (Val true)
    /\ Forall (fun e => no_lock_call (ev_cmd e) = true) body
    /\ let cfg := reconcileTopLevelObjectSettings machine c in
       match o with
       | Val res => res = emptyResult /\ released = []
           /\ (exists cs, c' = with_config_conditions cs (with_data_secret (Some (Name (ConfigMeta c))) cfg))
           /\ exists data, node_data InitControlPlane cluster cfg body data
                /\ stored (data_secret cluster cfg data) body
       | Err err => (exists cs, c' = with_config_conditions cs cfg)
           /\ exists unlocked, runs (UnlockOp cluster) tt released tt (Val unlocked)
                /\ (unlocked = false -> errors_Is err "failed to unlock the k3s init lock" = true)
       | Panic => False
       end.

(** The handler did no more than wait for the lock. *)
Definition waited (owner : ConfigOwner) (c : KThreesConfig) (tr : list event)
    (c' : KThreesConfig) (o : outcome Result) : Prop :=
  lock_only tr /\ (exists cs, c' = with_config_conditions cs c)
  /\ match o with
     | Val res => res = requeueAfter (30 * Second)
     | Err _ => exists e, OwnerMachine owner = inr e
     | Panic => False
     end.

Lemma settings_meta machine c : ConfigMeta (reconcileTopLevelObjectSettings machine c) = ConfigMeta c.
Proof. unfold reconcileTopLevelObjectSettings. by destruct (_ && _). Qed.

Lemma locked_init_ok cluster owner machine cs c granted :
  IsControlPlaneOwner owner = true -> OwnerMachine owner = inl machine ->
  runs (LockOp cluster machine) tt granted tt (Val true) ->
  wp (deferred (init_control_plane cluster machine ;;; ret emptyResult) (unlock_on_error cluster))
    (with_config_conditions cs c) (fun tr c' o => under_lock cluster owner c (granted ++ tr) c' o).
Proof.
  intros Ho Em Hg. apply wp_deferred, wp_bind.
  eapply wp_mono; [apply wp_and; [apply init_control_plane_no_lock|apply init_control_plane_ok]|].
  cbn beta. rewrite settings_conditions. intros body c1 o [HF Hi]. destruct o as [[]|err|]; [| |done].
  - destruct Hi as (-> & data & Hd & Hst). apply wp_ret. unfold unlock_on_error. apply wp_ret.
    rewrite !app_nil_r. exists machine, granted, body, []. rewrite app_nil_r.
    do 5 (split; [done|]). cbn zeta. split; [done|]. split; [done|].
    split; [rewrite <- (settings_meta machine c); by eexists|by exists data].
  - destruct Hi as (cs' & ->). unfold unlock_on_error. apply wp_bind.
    eapply wp_mono; [apply wp_Unlock|]. intros released c2 o2 (-> & _ & b & -> & Hu).
    destruct b; cbn [negb]; apply wp_ret; rewrite app_nil_r; exists machine, granted, body, released;
      (do 5 (split; [done|])); cbn zeta; (split; [by eexists|]); eexists; (split; [exact Hu|]); [done|].
    intros _. simpl. by rewrite orb_true_r.
Qed.

Lemma handleClusterNotInitialized_ok cluster owner c :
  wp (handleClusterNotInitialized cluster owner) c (fun tr c' o =>
    waited owner c tr c' o \/ under_lock cluster owner c tr c' o).
Proof.
  unfold handleClusterNotInitialized. apply wp_bind, wp_get. cbn beta. apply wp_bind.
  assert (HM : wp (if negb (String.eqb (GetReason (ConfigConditions (ConfigStatus c)) DataSecretAvailableCondition)
              DataSecretGenerationFailedReason)
   then mark_config (MarkFalse DataSecretAvailableCondition WaitingForControlPlaneAvailableReason
                       ConditionSeverityInfo "")
   else ret tt) c (fun tr c' o => tr = [] /\ o = Val tt /\ exists cs, c' = with_config_conditions cs c)).
  { destruct (negb _); [apply wp_modify|apply wp_ret]; (split; [done|]); (split; [done|]); [by eexists|].
    exists (ConfigConditions (ConfigStatus c)). by destruct c as [? ? []]. }
  eapply wp_mono; [exact HM|]. intros tr0 c0 o0 (-> & -> & cs & ->).
  destruct (IsControlPlaneOwner owner) eqn:Ho; cbn [negb].
  2: { apply wp_ret. left. split; [constructor|]. split; [by eexists|done]. }
  apply wp_bind. unfold owner_machine. destruct (OwnerMachine owner) as [machine|e] eqn:Em; cbn [lift_wrap].
  2: { apply wp_throw. left. split; [constructor|]. split; eauto. }
  apply wp_ret. cbn beta. apply wp_bind. eapply wp_mono; [apply wp_Lock|].
  intros granted c1 o1 (-> & HL & b & -> & Hr). destruct b; cbn [negb].
  - eapply wp_mono; [by apply locked_init_ok|]. intros tr c' o Hu. by right.
  - apply wp_ret. left. rewrite ?app_nil_r. split; [done|]. split; [by eexists|done].
Qed.

(** C6: only the machine that holds the init lock starts the cluster. While the
    control plane of a cluster is not initialized, a reconciliation either
    touches nothing but the lock and comes back in thirty seconds (or fails
    because its owner is no machine), or it was granted the lock for its own
    control-plane machine before anything else. Under the lock it either stores
    the data of the first node, with the cluster's certificates, marks the
    configuration ready and keeps the lock; or it fails, then the lock is
    released, and a release that fails is part of the error. It never panics. *)
Theorem init_under_lock cluster owner c :
  wp (handleClusterNotInitialized cluster owner) c (fun tr c' o =>
    waited owner c tr c' o \/ under_lock cluster owner c tr c' o).
Proof. apply handleClusterNotInitialized_ok. Qed.

(** ** A configuration is ready because its data is there *)

(** The same object, with the version of its machine when it had none. *)
Definition settled (owner : ConfigOwner) (c c' : KThreesConfig) : Prop :=
  ConfigMeta c' = ConfigMeta c
  /\ (ConfigSpec c' = ConfigSpec c
      \/ exists m, OwnerMachine owner = inl m /\ ConfigVersion (ConfigSpec c) = ""
           /\ ConfigSpec c' = with_version (MachineVersion m) (ConfigSpec c)).

Definition readiness (c : KThreesConfig) : bool * option string :=
  (ConfigReady (ConfigStatus c), DataSecretName (ConfigStatus c)).

Definition node_role (cluster : Cluster) (owner : ConfigOwner) : role :=
  if default false (ControlPlaneInitialized cluster)
  then if IsControlPlaneOwner owner then JoinControlPlane else JoinWorker
  else InitControlPlane.

(** Why a configuration says what it says of its data. *)
Definition accounted (cluster : Cluster) (owner : ConfigOwner) (c : KThreesConfig) (tr : list event)
    (c' : KThreesConfig) : Prop :=
  readiness c' = readiness c
  \/ (exists name, OwnerDataSecretName owner = Some name /\ readiness c' = (true, Some name))
  \/ readiness c' = (true, Some (Name (ConfigMeta c)))
     /\ exists data, node_data (node_role cluster owner) cluster c' tr data
          /\ stored (data_secret cluster c' data) tr.

Lemma settings_settled owner machine c :
  OwnerMachine owner = inl machine -> settled owner c (reconcileTopLevelObjectSettings machine c).
Proof.
  intros Em. split; [apply settings_meta|]. unfold reconcileTopLevelObjectSettings.
  destruct (String.eqb_spec (ConfigVersion (ConfigSpec c)) "") as [E|]; [|by left].
  destruct (negb _); [|by left]. right. by exists machine.
Qed.

Lemma settings_readiness machine c : readiness (reconcileTopLevelObjectSettings machine c) = readiness c.
Proof. unfold reconcileTopLevelObjectSettings. by destruct (_ && _). Qed.

Lemma accounted_mono cluster owner c tr tr' c' :
  accounted cluster owner c tr c' -> tr ⊆ tr' -> accounted cluster owner c tr' c'.
Proof.
  intros [Ha|[Ha|(Ha & data & Hd & Hst)]] Hs; [by left|by right; left|right; right].
  split; [done|]. exists data. split; [by eapply node_data_mono|by eapply stored_mono].
Qed.

Lemma generated_accounted {A} cluster owner machine c tr c' (o : outcome A) :
  OwnerMachine owner = inl machine ->
  generated (node_role cluster owner) cluster (reconcileTopLevelObjectSettings machine c) tr c' o ->
  settled owner c c' /\ accounted cluster owner c tr c' /\ o <> Panic.
Proof.
  intros Em [Hg _]. pose proof (settings_settled owner machine c Em) as HS.
  pose proof (settings_readiness machine c) as HR.
  set (cfg := reconcileTopLevelObjectSettings machine c) in *. destruct o as [a|err|]; [| |done].
  - destruct Hg as (-> & data & Hd & Hst). split; [exact HS|]. split; [|done]. right. right.
    split; [|by exists data]. destruct HS as [<- _]. done.
  - assert (Hc : c' = failed_config err cfg \/ c' = cfg) by tauto.
    destruct Hc as [-> | ->]; (split; [exact HS|]); (split; [left; exact HR|done]).
Qed.

Lemma handle_accounted cluster owner c tr c' o :
  default false (ControlPlaneInitialized cluster) = false ->
  waited owner c tr c' o \/ under_lock cluster owner c tr c' o ->
  settled owner c c' /\ accounted cluster owner c tr c' /\ o <> Panic.
Proof.
  intros Ei [(_ & (cs & ->) & Ho)|Hu].
  { split; [split; [done|by left]|]. split; [by left|by intros ->]. }
  destruct Hu as (machine & granted & body & released & _ & Em & -> & _ & _ & Ho).
  pose proof (settings_settled owner machine c Em) as HS.
  pose proof (settings_readiness machine c) as HR. cbn zeta in Ho.
  set (cfg := reconcileTopLevelObjectSettings machine c) in *. destruct o as [res|err|]; [| |done].
  - destruct Ho as (_ & _ & (cs & ->) & data & Hd & Hst). split; [exact HS|]. split; [|done].
    right. right. split; [done|]. exists data. unfold node_role. rewrite Ei.
    assert (Hs : body ⊆ granted ++ body ++ released) by (intros x; rewrite !elem_of_app; auto).
    split; [exact (node_data_mono _ _ _ _ _ _ Hd Hs)|exact (stored_mono _ _ _ Hst Hs)].
  - destruct Ho as ((cs & ->) & _). split; [exact HS|]. split; [by left|done].
Qed.

Lemma reconcile_config_accounted cluster owner c :
  wp (reconcile_config cluster owner) c (fun tr c' o =>
    settled owner c c' /\ accounted cluster owner c tr c' /\ o <> Panic).
Proof.
  unfold reconcile_config. apply wp_bind, wp_get. cbn beta zeta.
  assert (HS : settled owner c c) by (split; [done|by left]).
  destruct (negb (default false (InfrastructureProvisioned cluster))).
  { apply wp_bind, wp_modify, wp_ret. split; [exact HS|]. split; [by left|done]. }
  destruct (bool_decide (OwnerDataSecretName owner <> None) && _) eqn:Eo.
  { apply andb_true_iff in Eo as [Eo%bool_decide_eq_true _].
    apply wp_bind, wp_modify, wp_bind, wp_modify, wp_ret. split; [exact HS|]. split; [|done].
    right. left. destruct (OwnerDataSecretName owner) as [n|] eqn:En; [|done]. exists n.
    split; [done|]. reflexivity. }
  destruct (ConfigReady (ConfigStatus c)) eqn:Er.
  { apply wp_ret. split; [exact HS|]. split; [by left|done]. }
  destruct (default false (ControlPlaneInitialized cluster)) eqn:Ei; cbn [negb].
  2: { eapply wp_mono; [apply handleClusterNotInitialized_ok|]. intros tr c' o. by apply handle_accounted. }
  apply wp_bind. eapply wp_mono; [apply wp_Unlock|]. intros tr1 c1 o1 (-> & _ & b & -> & _).
  apply wp_bind. destruct (OwnerMachine owner) as [machine|e] eqn:Em.
  - apply wp_mono with (Q := fun tr c' o =>
      generated (node_role cluster owner) cluster (reconcileTopLevelObjectSettings machine c) tr c' o).
    + unfold node_role. rewrite Ei. destruct (IsControlPlaneOwner owner);
        [by apply joinControlplane_ok|by apply joinWorker_ok].
    + intros tr2 c2 o2 Hg. apply (generated_accounted _ _ machine c) in Hg as (HS2 & HA & Hp); [|done].
      assert (HA' : accounted cluster owner c (tr1 ++ tr2) c2)
        by (eapply accounted_mono; [exact HA|intros x; rewrite elem_of_app; auto]).
      destruct o2 as [[]|err|]; [apply wp_ret; rewrite app_nil_r; by split_and!|by split_and!|done].
  - assert (HJ : wp (if IsControlPlaneOwner owner then joinControlplane cluster owner else joinWorker cluster owner)
      c (fun tr c' o => c' = c /\ exists err, o = Err err)).
    { destruct (IsControlPlaneOwner owner); [unfold joinControlplane|unfold joinWorker];
        unfold owner_machine; rewrite Em; apply wp_bind, wp_throw; eauto. }
    eapply wp_mono; [exact HJ|]. intros tr2 c2 o2 (-> & err & ->).
    split; [done|]. split; [by left|done].
Qed.

Definition is_patch_config (c : cmd) : bool := match c with PatchConfig _ _ _ => true | _ => false end.
Definition no_patch_config (c : cmd) : bool := negb (is_patch_config c).

Lemma Lock_no_patch cluster machine : issues no_patch_config (LockOp cluster machine).
Proof.
  intros []. eapply wp_mono; [apply LockOp_spec|]. cbn beta. intros tr s o [HF _].
  eapply Forall_impl; [exact HF|]. intros [c r]. simpl. by destruct c.
Qed.

Lemma Unlock_no_patch cluster : issues no_patch_config (UnlockOp cluster).
Proof.
  intros []. eapply wp_mono; [apply UnlockOp_spec|]. cbn beta. intros tr s o [HF _].
  eapply Forall_impl; [exact HF|]. intros [c r]. simpl. by destruct c.
Qed.

Lemma LookupOrGenerate_no_patch key owner : issues no_patch_config (LookupOrGenerate key owner).
Proof. eapply issues_mono; [|apply LookupOrGenerate_calls]. by intros []. Qed.

#[local] Hint Resolve Lock_no_patch Unlock_no_patch LookupOrGenerate_no_patch : issues.

Lemma reconcile_config_no_patch cluster owner : issues no_patch_config (reconcile_config cluster owner).
Proof.
  unfold reconcile_config, handleClusterNotInitialized, joinControlplane, joinWorker, owner_machine,
    init_control_plane, init_certificates, Token.Lookup, getSecret, control_plane_files, or_marked,
    resolveFiles, resolve_file, resolveSecretFileContent, NewInitControlPlane, NewJoinControlPlane, NewWorker,
    storeBootstrapData, mark_config, unlock_on_error.
  issues_go.
Qed.

(** What the reconciliation of a fetched configuration amounts to. *)
Definition patched (config : KThreesConfig) (cluster : Cluster) (owner : ConfigOwner) (tr : list event)
    (o : outcome Result) : Prop :=
  exists body after observed answer,
    tr = body ++ [ev (PatchConfig config after observed) answer]
    /\ Forall (fun e => no_patch_config (ev_cmd e) = true) body
    /\ settled owner config after /\ accounted cluster owner config body after
    /\ match o with
       | Val _ => observed = true /\ answer = inl tt
       | Err err => if observed then answer = inr err else True
       | Panic => False
       end.

Lemma reconcile_patched config cluster owner :
  wp (deferred (reconcile_config cluster owner) (patch_config config)) config (fun tr _ o =>
    patched config cluster owner tr o).
Proof.
  apply wp_deferred. eapply wp_mono.
  { apply wp_and; [apply reconcile_config_no_patch|apply reconcile_config_accounted]. }
  cbn beta. intros body c1 o (HF & HS & HA & Hp). unfold patch_config, mark_config.
  apply wp_bind, wp_modify, wp_bind, wp_get. cbn beta. apply wp_bind, wp_call. intros answer. apply wp_ret.
  set (after := with_config_conditions _ c1).
  exists body, after, (match o with Err _ => false | _ => true end), answer.
  split; [done|]. split; [done|]. split; [exact HS|]. split; [exact HA|].
  destruct answer as [[]|err], o as [res|err'|]; done.
Qed.

(** C8: a configuration is marked ready only when its data is there. A
    reconciliation patches the configuration at most once and as its last call,
    and it patches the one it was given. The patch changes nothing of it but the
    status, and the version when there was none, which is then the machine's.
    What it says of the data is what the object said before; or what the owner
    says already; or else the secret named after the configuration was stored in
    the same execution, and holds the data of the node's role in its cluster.
    The generation is recorded as observed exactly when there was no error, it
    is never lost, and the reconciliation never panics. *)
Theorem ready_has_data req :
  wp (Reconcile req) tt (fun tr _ o =>
    Forall (fun e => no_patch_config (ev_cmd e) = true) tr /\ o <> Panic
    \/ exists config owner cluster before tr',
         tr = before ++ tr' /\ ev (GetKThreesConfig req) (inl config) ∈ before
         /\ ev (GetConfigOwner config) (inl (Some owner)) ∈ before
         /\ ev (GetClusterByName (ConfigOwnerNamespace owner) (ConfigOwnerClusterName owner)) (inl cluster) ∈ before
         /\ Forall (fun e => no_patch_config (ev_cmd e) = true) before
         /\ patched config cluster owner tr' o).
Proof.
  unfold Reconcile. wp_go; try (left; split; [by repeat constructor|done]).
  apply wp_with_local. eapply wp_mono; [apply reconcile_patched|]. intros tr' s' out Hpat. right.
  do 3 eexists. eexists [_; _; _; _], tr'. split; [reflexivity|]. rewrite !elem_of_cons.
  split; [by left|]. split; [right; by left|]. split; [do 2 right; by left|].
  split; [by repeat constructor|exact Hpat].
Qed.
End Bootstrap.
