(* ===== verification/FirstNode.v ===== *)
(** Starting a cluster, by the controller and the lock together: the
    configurations of several control-plane machines are reconciled at the same
    time, each by [handleClusterNotInitialized] with the lock of
    pkg/locking, against one API server. Calls of the reconciliations
    interleave in any way, a reconciliation may be repeated or cut off at any
    point and started anew (the controller is restarted, its patch is lost, its
    thirty seconds are over), and others use the same server. *)

From S2P Require Import Prelude GoStd Effects Interleave ApiTypes Api Capi K3sConfig Certificates Token CapiLib Locking Cloudinit Bootstrap.

(** The calls under the lock. *)
Definition init_call (c : cmd) : bool :=
  certificate_call c || match c with UpdateSecret _ => true | _ => false end.

(** None of them touches config maps or machines. *)
Class InitServer (W : Type) `{ApiServer W} := {
  serves_init : forall w c r w', init_call c = true -> serves w c r w' ->
    config_maps w' = config_maps w /\ machines w' = machines w;
}.

Abbreviation node_thread := (prog (KThreesConfig * outcome Result)).

(** A property of every execution of a program holds of one of them. *)
Lemma always_some {A} (p : prog A) Q : always p Q -> exists tr a, Q tr a.
Proof.
  intros HQ. destruct (run default_handler p tt) as [[a tr] w] eqn:E.
  exists tr, a. by eapply always_exec, run_exec.
Qed.

Section FirstNode.
Context `{CAPI} `{!ControllerLib} `{!GoText} `{!Crypto} `{!InformationCodec} `{!K3sYaml}.
Context {W : Type} `{InitServer W}.
Variables (cluster : Cluster) (ms : list Machine).

Lemma init_control_plane_calls machine : issues init_call (init_control_plane cluster machine).
Proof.
  unfold init_control_plane, init_certificates, Token.Lookup, getSecret, control_plane_files, or_marked,
    resolveFiles, resolve_file, resolveSecretFileContent, NewInitControlPlane, storeBootstrapData, mark_config.
  pose proof (fun k o => issues_mono certificate_call init_call _
    (fun c Hc => orb_true_intro _ _ (or_introl Hc)) (LookupOrGenerate_calls k o)).
  issues_go.
Qed.

Hypothesis codec_ok : forall m, m ∈ ms -> exists b,
  Marshal (mkInformation (MName m)) = inl b
  /\ Unmarshal b = inl (mkInformation (MName m)).

(** ** What the reconciliation of one machine relies on and guarantees

    The lock of a machine is taken away by nobody else. *)
Section Machine.
Variable m : Machine.

Definition keeps_others (w w' : W) : Prop :=
  forall m', MName m' <> MName m -> keeps_own cluster m' w w'.

Lemma le_keeps_others w w' : lock_le cluster w w' -> keeps_others w w'.
Proof. intros Hle m' _. by apply le_keeps_own. Qed.

(** Beside the calls of the lock, only calls under the lock. *)
Definition allowed (w : W) (c : cmd) : Prop :=
  lock_call c = true \/ init_call c = true /\ holds cluster w m.

(** The result that says that the first node's data are there. *)
Definition done_with_lock (w : W) (so : KThreesConfig * outcome Result) : Prop :=
  so.2 = Val emptyResult -> holds cluster w m.

Abbreviation secure := (safe serves (lock_inv cluster ms) (keeps_own cluster m) keeps_others allowed).

(** Nobody else holds a lock that [m] holds. *)
Lemma holds_one w m' : holds cluster w m -> holds cluster w m' -> MName m' = MName m.
Proof. intros (cm & Hcm & Hi) (cm' & Hcm' & Hi'). unfold lock_names in *. congruence. Qed.

Lemma locking_secure w (Hm : m ∈ ms) :
  fresh_view cluster w m ->
  secure (fun w (so : unit * outcome bool) => so.2 = Val true -> holds cluster w m)
    (Lock cluster m tt) w.
Proof.
  intros Hf. eapply safe_mono; [..|by apply (Lock_safe cluster ms codec_ok m)]; try done.
  - apply le_keeps_others.
  - intros w1 c Hc. by left.
Qed.

(** Whoever holds the lock takes it from nobody by releasing it. *)
Lemma unlocking_secure w :
  holds cluster w m -> secure (fun _ (_ : unit * outcome bool) => True) (Unlock cluster tt) w.
Proof.
  intros Hh. unfold Unlock. simpl. intros w1 Hi Hr. split; [by left|]. intros r w2 Hs.
  pose proof (serves_machines _ (GetConfigMap _) _ _ eq_refl Hs) as Hms.
  destruct (serves_get _ _ _ _ Hs) as [Hsame _].
  destruct (same_maps cluster ms _ _ _ _ Hs Hsame Hms Hi) as [Hi2 Hle2].
  split; [done|]. split; [by apply le_keeps_others|]. destruct r as [cm|e]; [|by destruct (IsNotFound e)]. simpl.
  apply Hr in Hh. apply (holds_le cluster _ _ _ Hle2) in Hh.
  intros w3 Hi3 Hr3. apply Hr3 in Hh. split; [by left|]. intros r3 w4 Hs3.
  pose proof (serves_machines _ (DeleteConfigMap _) _ _ eq_refl Hs3) as Hms3.
  assert (Hdel : forall cm', stored_lock cluster w4 = Some cm' -> stored_lock cluster w3 = Some cm').
  { intros cm'. destruct (serves_delete _ _ _ _ Hs3) as [E|E]; unfold stored_lock; rewrite E; [done|].
    by intros [_ ?]%lookup_delete_Some. }
  split; [|split].
  - eapply served_inv; [done..| |done]. intros cm' E. apply Hi3. left. by apply Hdel.
  - intros m' Hne. split; [intros Hm'; destruct (Hne (holds_one _ _ Hh Hm'))|].
    intros Hf cm' Hc Hn. destruct Hne. eapply holds_one; [exact Hh|]. exists cm'. split; [|done].
    destruct (serves_shown _ _ _ _ _ _ Hs3 Hc); [by apply Hf|by apply Hdel].
  - destruct r3 as [|e]; [done|]. by destruct (IsNotFound e).
Qed.

(** A program under the lock keeps it. *)
Lemma under_lock_secure {A} (p : prog A) w :
  always p (fun tr _ => Forall (fun e => init_call (ev_cmd e) = true) tr) ->
  holds cluster w m -> secure (fun w _ => holds cluster w m) p w.
Proof.
  revert w. induction p as [a|c k IH]; intros w Hp Hh; simpl; [done|].
  assert (Hc : init_call c = true).
  { destruct (always_some _ _ (Hp (default_resp c))) as (tr & a & HF). by apply Forall_inv in HF. }
  intros w1 Hi Hr. apply Hr in Hh. split; [by right|]. intros r w2 Hs.
  destruct (serves_init _ _ _ _ Hc Hs) as [Hsame Hms].
  destruct (same_maps cluster ms _ _ _ _ Hs Hsame Hms Hi) as [Hi2 Hle]. split; [done|]. split.
  - by apply le_keeps_others.
  - apply IH; [|by eapply holds_le]. eapply always_mono; [|apply Hp]. cbn beta. intros tr a HF.
    by apply Forall_cons in HF as [_ HF].
Qed.

(** A failure under the lock is followed by its release, after which nothing is
    claimed. *)
Lemma release_secure w c o :
  holds cluster w m ->
  secure (fun w (so : KThreesConfig * outcome (outcome Result)) => done_with_lock w
      (so.1, match so.2 with Val o => o | Err e => Err e | Panic => Panic end))
    (unlock_on_error cluster o c) w.
Proof.
  intros Hh. destruct o as [res|err|]; [by intros _| |done]. unfold unlock_on_error.
  apply safe_M_bind, safe_lift_io. cbn [UnlockOp ControlPlaneInitMutex].
  eapply safe_weaken; [|by apply unlocking_secure]. by intros w' [[] [[]|e|]] _.
Qed.

Lemma locked_init_secure w c :
  holds cluster w m ->
  secure done_with_lock
    (deferred (init_control_plane cluster m ;;; ret emptyResult) (unlock_on_error cluster) c) w.
Proof.
  intros Hh. apply safe_deferred, safe_M_bind. eapply safe_weaken; [|by apply under_lock_secure, Hh;
    apply init_control_plane_calls].
  by intros w' [c' [[]|e|]] Hh'; apply release_secure.
Qed.

Lemma handleClusterNotInitialized_secure owner c w :
  m ∈ ms -> OwnerMachine owner = inl m -> fresh_view cluster w m ->
  secure done_with_lock (handleClusterNotInitialized cluster owner c) w.
Proof.
  intros Hm Ho Hf. unfold handleClusterNotInitialized, owner_machine. rewrite Ho.
  apply safe_M_bind. cbn beta iota. apply safe_M_bind.
  assert (Hwait : forall c' w', secure done_with_lock (ret (requeueAfter (30 * Second)) c') w').
  { intros c' w' Hr. discriminate Hr. }
  destruct (negb (String.eqb _ _)); cbn [mark_config modify safe ret];
    (destruct (negb (IsControlPlaneOwner owner)); [apply Hwait|]);
    apply safe_M_bind, safe_M_bind, safe_lift_io;
    (eapply safe_weaken; [|by apply locking_secure]);
    (intros w' [[] [[]|e|]] Hl; cbn [snd negb]; [apply locked_init_secure; auto|apply Hwait|done..]).
Qed.
End Machine.

(** ** All of them at once *)

Variable owners : list ConfigOwner.

(** A call of one reconciliation; a reconciliation that starts anew, wherever it
    was, on whatever its configuration has become, once the cache shows no lock
    that its machine has released; and what others do on the server, who leave
    the lock alone and delete none of the machines, while the cache catches up. *)
Inductive system_step : W * list node_thread -> W * list node_thread -> Prop :=
| system_call s s' : step serves s s' -> system_step s s'
| system_restart w ts i owner m c :
    owners !! i = Some owner -> OwnerMachine owner = inl m -> fresh_view cluster w m ->
    system_step (w, ts) (w, <[i := handleClusterNotInitialized cluster owner c]> ts)
| system_others w w' ts :
    stored_lock cluster w' = stored_lock cluster w -> shows_later cluster w w' ->
    (forall m, m ∈ ms -> found cluster w m -> found cluster w' m) ->
    system_step (w, ts) (w', ts).

Definition starting (cs : list KThreesConfig) : list node_thread :=
  zip_with (handleClusterNotInitialized cluster) owners cs.

(** Thread [i] has made the data of the first node, or is in the middle of it:
    its next call is none of the lock's. *)
Definition starts_cluster (ts : list node_thread) (i : nat) : Prop :=
  (exists c, ts !! i = Some (Ret (c, Val emptyResult)))
  \/ exists c k, ts !! i = Some (Do c k) /\ lock_call c = false.

Hypothesis owners_machines : Forall2 (fun owner m => OwnerMachine owner = inl m) owners ms.
Hypothesis distinct : NoDup (MName <$> ms).

Definition of_thread (P : Machine -> W -> W -> Prop) (i : nat) (w w' : W) : Prop :=
  forall m, ms !! i = Some m -> P m w w'.

Definition system_safe : W * list node_thread -> Prop :=
  threads_safe serves (lock_inv cluster ms) (of_thread (keeps_own cluster))
    (fun i w w' => exists m, ms !! i = Some m /\ keeps_others m w w')
    (fun i w c => exists m, ms !! i = Some m /\ allowed m w c)
    (fun i w so => exists m, ms !! i = Some m /\ done_with_lock m w so).

Lemma fresh_secure i owner m c w :
  owners !! i = Some owner -> OwnerMachine owner = inl m -> fresh_view cluster w m ->
  safe serves (lock_inv cluster ms) (of_thread (keeps_own cluster) i)
    (fun w w' => exists m, ms !! i = Some m /\ keeps_others m w w')
    (fun w c => exists m, ms !! i = Some m /\ allowed m w c)
    (fun w so => exists m, ms !! i = Some m /\ done_with_lock m w so)
    (handleClusterNotInitialized cluster owner c) w.
Proof.
  intros Ho Hom' Hf. destruct (Forall2_lookup_l _ _ _ _ _ owners_machines Ho) as (m' & Hm & Hom).
  rewrite Hom' in Hom. injection Hom as <-.
  eapply safe_mono; [..|apply (handleClusterNotInitialized_secure m); [by eapply list_elem_of_lookup_2|done..]];
    eauto.
Qed.

#[local] Instance of_thread_preorder i : PreOrder (of_thread (keeps_own cluster) i).
Proof.
  split; [by intros w m _|]. intros w1 w2 w3 H12 H23 m Hm. etransitivity; [by apply H12|by apply H23].
Qed.

Lemma own_lock_stays i w w' so :
  of_thread (keeps_own cluster) i w w' ->
  (exists m, ms !! i = Some m /\ done_with_lock m w so) ->
  exists m, ms !! i = Some m /\ done_with_lock m w' so.
Proof. intros Hr (m & Hm & Hd). exists m. split; [done|]. intros Hv. by apply (Hr m Hm), Hd. Qed.

Lemma call_safe s s' : step serves s s' -> system_safe s -> system_safe s'.
Proof.
  apply step_safe; [apply of_thread_preorder|exact own_lock_stays|].
  intros i j w w' Hij _ (mi & Hmi & Hk) mj Hmj. apply Hk. intros E. apply Hij.
  eapply NoDup_lookup; [exact distinct|..]; rewrite list_lookup_fmap.
  - by rewrite Hmi.
  - by rewrite Hmj, <- E.
Qed.

Lemma system_step_safe s s' : system_step s s' -> system_safe s -> system_safe s'.
Proof.
  intros [s1 s2 Hst|w ts i owner m c Ho Hom Hf|w w' ts Hl Hv Hm] Hs; [by eapply call_safe| |].
  - destruct Hs as [Hi Hs]. split; [done|]. simpl in *. intros j p Hj.
    destruct (decide (i = j)) as [<-|Hne]; [|rewrite list_lookup_insert_ne in Hj by done; eauto].
    apply list_lookup_insert_Some in Hj as [(_ & <- & _)|[[] _]]; [|done]. by eapply fresh_secure.
  - destruct Hs as [Hi Hs]. simpl in *. split; simpl.
    + destruct Hi as [Hd He]. split; [|auto]. intros cm [Hc|Hc].
      * apply Hd. left. congruence.
      * apply Hd. destruct (Hv cm Hc); [by right|left; congruence].
    + intros j p Hj. eapply safe_stable; [apply of_thread_preorder|apply own_lock_stays| |by apply Hs].
      intros m _. apply le_keeps_own. split; [by rewrite Hl|done].
Qed.

Lemma starting_safe cs w :
  unlocked cluster w -> (forall m, m ∈ ms -> found cluster w m) -> system_safe (w, starting cs).
Proof.
  intros Hn Hm. destruct (unlocked_inv cluster ms w Hn Hm) as [Hi Hf]. split; [done|]. simpl. intros i p Hp.
  unfold starting in Hp. apply lookup_zip_with_Some in Hp as (owner & c & -> & Ho & _).
  destruct (Forall2_lookup_l _ _ _ _ _ owners_machines Ho) as (m & _ & Hom). by eapply fresh_secure.
Qed.

Lemma starts_cluster_holds w ts i :
  system_safe (w, ts) -> starts_cluster ts i ->
  exists m, ms !! i = Some m /\ holds cluster w m.
Proof.
  intros Hs [[c Hc]|(c & k & Hc & Hl)].
  - destruct (proj2 Hs i _ Hc) as (m & Hm & Hd). exists m. split; [done|]. by apply Hd.
  - destruct (next_call_allowed _ _ _ _ _ _ of_thread_preorder _ _ _ _ _ Hs Hc) as (m & Hm & [Ha|[_ Ha]]);
      [congruence|eauto].
Qed.
End FirstNode.

(** C7: a cluster gets one first node. The configurations of any number of
    control-plane machines are reconciled at once while the cluster is not
    initialized; calls interleave in any way and fail in any way, reads are
    answered by a cache that may be behind the server, and each reconciliation
    can be cut off anywhere and started anew any number of times. As long as the
    machines exist and are found, nobody else touches the lock, and a
    reconciliation starts only once the cache no longer shows a lock that its
    machine has released, at most one machine has made, or is making, the data of
    a first node, and the lock names this machine. So two machines never both
    start a cluster: each certificate and each data secret of the initialization
    is written while the lock is the writer's. ([Locking.Lock_stale] shows that
    the last proviso is needed.) *)
Theorem one_first_node `{CAPI} `{!ControllerLib} `{!GoText} `{!Crypto} `{!InformationCodec} `{!K3sYaml}
    {W} `{InitServer W} (cluster : Cluster) (owners : list ConfigOwner) (ms : list Machine)
    (cs : list KThreesConfig) (w0 w : W) ts i j :
  (forall m, m ∈ ms -> exists b,
     Marshal (mkInformation (MName m)) = inl b
     /\ Unmarshal b = inl (mkInformation (MName m))) ->
  Forall2 (fun owner m => OwnerMachine owner = inl m) owners ms ->
  NoDup (MName <$> ms) ->
  (forall m, m ∈ ms -> found cluster w0 m) ->
  unlocked cluster w0 ->
  rtc (system_step cluster ms owners) (w0, starting cluster owners cs) (w, ts) ->
  starts_cluster ts i -> starts_cluster ts j ->
  i = j /\ exists m, ms !! i = Some m /\ holds cluster w m.
Proof.
  intros Hcodec Hom Hnd Hexist Hfree Hsteps Hi Hj.
  assert (Hs : system_safe cluster ms (w, ts)).
  { eapply (rtc_ind_r (system_safe cluster ms) (w0, starting cluster owners cs)); [| |exact Hsteps].
    - by eapply starting_safe.
    - intros s s' _ Hst. by eapply system_step_safe. }
  destruct (starts_cluster_holds _ _ _ _ _ Hs Hi) as (mi & Hmi & Hhi).
  destruct (starts_cluster_holds _ _ _ _ _ Hs Hj) as (mj & Hmj & Hhj).
  split; [|by exists mi]. eapply NoDup_lookup; [exact Hnd|..]; rewrite list_lookup_fmap.
  - by rewrite Hmi.
  - rewrite Hmj. cbn. by rewrite (holds_one cluster mi w mj Hhi Hhj).
Qed.

(** ** Two machines on a server *)

Module two_machines.
#[local] Existing Instance reference.capi.
#[local] Existing Instance reference.crypto.
#[local] Existing Instance reference_lib.controller_lib.
#[local] Existing Instance name_codec.

#[local] Instance go_text : GoText := { Quote := fun s => s; Execute := fun _ _ text _ => inl text }.
#[local] Instance k3s_yaml : K3sYaml := {
  yaml_server := fun _ => inl "config"; yaml_agent := fun _ => inl "config";
}.

(** The store of [Locking], on which the cluster's token can be read. *)
Definition token_handler : handler store := fun c w =>
  match c return resp c * store with
  | GetSecret k =>
      (if String.eqb (KeyName k) (Token.name "c")
       then inl (mkSecret emptyMeta (Some {[ "value" := "token" ]}) "") else inr not_found, w)
  | c => store_handler c w
  end.

#[export, refine] Instance token_server : ApiServer store := cached_server token_handler _.
Proof. intros c w. destruct c; done. Defined.

#[export, refine] Instance token_init_server : InitServer store := {}.
Proof.
  intros w c r w' Hc Hs. destruct (Hs : cached_serves token_handler w c r w') as [c|k maps]; [|done].
  destruct c; try discriminate Hc; done.
Defined.

Definition owner_of (name : string) : ConfigOwner :=
  mkConfigOwner "Machine" "ns" "c" None true (inl (named_machine name)).

Definition config_of (name : string) : KThreesConfig :=
  mkKThreesConfig (mkObjectMeta name "ns" "" "" None None [] [] 0 None []) a_config_spec emptyConfigStatus.

Definition both_start : store * list node_thread :=
  (store_with None ["b"; "c"],
   starting a_cluster (owner_of <$> ["b"; "c"]) (config_of <$> ["b"; "c"])).

(** Both find no lock; c takes it, b comes too late, and c goes on to the end. *)
Definition c_wins : list nat := [0; 1; 1; 0] ++ repeat 1 60.

Lemma calls_are_steps ms owners (s s' : store * list node_thread) :
  rtc (step serves) s s' -> rtc (system_step a_cluster ms owners) s s'.
Proof. induction 1; [done|]. eapply rtc_l; [by apply system_call|done]. Qed.

Example one_first_node_witness :
  let e := run_schedule token_handler c_wins both_start in
  rtc (system_step a_cluster (named_machine <$> ["b"; "c"]) (owner_of <$> ["b"; "c"])) both_start e
  /\ starts_cluster e.2 1
  /\ exists m, (named_machine <$> ["b"; "c"]) !! 1 = Some m /\ holds a_cluster e.1 m.
Proof.
  intros e.
  assert (Hst : rtc (system_step a_cluster (named_machine <$> ["b"; "c"]) (owner_of <$> ["b"; "c"]))
                  both_start e) by apply calls_are_steps, cached_schedule_steps.
  assert (Hs : starts_cluster e.2 1) by (left; eexists; by vm_compute).
  split; [exact Hst|]. split; [exact Hs|].
  apply (one_first_node a_cluster (owner_of <$> ["b"; "c"]) (named_machine <$> ["b"; "c"])
    (config_of <$> ["b"; "c"]) (store_with None ["b"; "c"]) e.1 e.2 1 1); [..|exact Hs|exact Hs].
  - intros m _. eexists. split; reflexivity.
  - repeat constructor.
  - apply (bool_decide_unpack _). by vm_compute.
  - apply store_with_found.
  - apply store_with_unlocked.
  - by rewrite <- surjective_pairing.
Defined.
End two_machines.
