(* ===== verification/Conversion.v ===== *)
(** The conversions between the API versions v1beta1 and v1beta2
    (bootstrap/api/v1beta1, controlplane/api/v1beta1: conversion.go and what
    zz_generated.conversion.go adds to it). The version that is stored is
    v1beta2, the hub; the fields that v1beta1 lacks travel in an annotation. *)

From S2P Require Import Prelude GoStd ApiTypes K3sConfig.

(** ** The v1beta1 types

    Files, remediation strategies and the last remediation have the same fields in
    both versions, and the code casts pointers to them. *)
Record v1beta1_KThreesServerConfig := mkOldServerConfig {
  OldKubeAPIServerArgs : slice string;
  OldKubeControllerManagerArgs : slice string;
  OldKubeSchedulerArgs : slice string;
  OldTLSSan : slice string;
  OldBindAddress : string;
  OldHTTPSListenPort : string;
  OldAdvertiseAddress : string;
  OldAdvertisePort : string;
  OldClusterCidr : string;
  OldServiceCidr : string;
  OldClusterDNS : string;
  OldClusterDomain : string;
  OldDisableComponents : slice string;
  OldDisableExternalCloudProvider : bool;
}.

Record v1beta1_KThreesAgentConfig := mkOldAgentConfig {
  OldNodeLabels : slice string;
  OldNodeTaints : slice string;
  OldPrivateRegistry : string;
  OldKubeletArgs : slice string;
  OldKubeProxyArgs : slice string;
  OldNodeName : string;
  OldAirGapped : bool;
}.

Record v1beta1_KThreesConfigSpec := mkOldConfigSpec {
  OldFiles : slice File;
  OldPreK3sCommands : slice string;
  OldPostK3sCommands : slice string;
  OldAgentConfig : v1beta1_KThreesAgentConfig;
  OldServerConfig : v1beta1_KThreesServerConfig;
  OldConfigVersion : string;
}.

Record v1beta1_KThreesConfigStatus := mkOldConfigStatus {
  OldConfigReady : bool;
  OldBootstrapData : slice Byte.byte;
  OldDataSecretName : option string;
  OldConfigFailureReason : string;
  OldConfigFailureMessage : string;
  OldConfigObservedGeneration : Z;
  OldConfigConditions : list V1Condition;
}.

Record v1beta1_KThreesConfig := mkOldConfig {
  OldConfigMeta : ObjectMeta;
  OldConfigSpec : v1beta1_KThreesConfigSpec;
  OldConfigStatus : v1beta1_KThreesConfigStatus;
}.

Record v1beta1_KThreesConfigTemplate := mkOldConfigTemplate {
  OldConfigTemplateMeta : ObjectMeta;
  OldConfigTemplateSpec : v1beta1_KThreesConfigSpec;
}.

(** The template of v1beta2, [Spec.Template.Spec] in one field. *)
Record KThreesConfigTemplate := mkConfigTemplate {
  ConfigTemplateMeta : ObjectMeta;
  ConfigTemplateSpec : KThreesConfigSpec;
}.

(** The machine template has labels and annotations only. *)
Record v1beta1_KThreesControlPlaneSpec := mkOldKCPSpec {
  OldReplicas : option Z;
  OldVersion : string;
  OldInfrastructureTemplate : ObjectReference;
  OldKCPConfigSpec : v1beta1_KThreesConfigSpec;
  OldUpgradeAfter : option Time;
  OldNodeDrainTimeout : option Z;
  OldTemplateLabels : gomap string;
  OldTemplateAnnotations : gomap string;
  OldRemediationStrategy : option RemediationStrategy;
}.

Record v1beta1_KThreesControlPlaneStatus := mkOldKCPStatus {
  OldSelector : string;
  OldStatusReplicas : Z;
  OldUpdatedReplicas : Z;
  OldReadyReplicas : Z;
  OldUnavailableReplicas : Z;
  OldInitialized : bool;
  OldReady : bool;
  OldFailureReason : string;
  OldFailureMessage : option string;
  OldObservedGeneration : Z;
  OldKCPConditions : list V1Condition;
  OldLastRemediation : option LastRemediationStatus;
}.

Record v1beta1_KThreesControlPlane := mkOldKCP {
  OldKCPMeta : ObjectMeta;
  OldKCPSpec : v1beta1_KThreesControlPlaneSpec;
  OldKCPStatus : v1beta1_KThreesControlPlaneStatus;
}.

(** ** Parts *)

(** The generated part, which leaves the fields that v1beta1 lacks at their zero
    values. *)
Definition autoConvert_v1beta1_KThreesServerConfig_To_v1beta2 (in_ : v1beta1_KThreesServerConfig)
    : KThreesServerConfig :=
  mkKThreesServerConfig (OldKubeAPIServerArgs in_) (OldKubeControllerManagerArgs in_)
    (OldKubeSchedulerArgs in_) (OldTLSSan in_) (OldBindAddress in_) (OldHTTPSListenPort in_)
    (OldAdvertiseAddress in_) (OldAdvertisePort in_) (OldClusterCidr in_) (OldServiceCidr in_)
    (OldClusterDNS in_) (OldClusterDomain in_) (OldDisableComponents in_)
    false None None "" "".

(** The three fields that took the place of [DisableExternalCloudProvider]. *)
Definition with_cloud_provider (deprecated : bool) (disable : option bool) (name : option string)
    (c : KThreesServerConfig) : KThreesServerConfig :=
  mkKThreesServerConfig (KubeAPIServerArgs c) (KubeControllerManagerArgs c) (KubeSchedulerArgs c)
    (TLSSan c) (BindAddress c) (HTTPSListenPort c) (AdvertiseAddress c) (AdvertisePort c)
    (ClusterCidr c) (ServiceCidr c) (ClusterDNS c) (ClusterDomain c) (DisableComponents c)
    deprecated disable name (SystemDefaultRegistry c) (EtcdProxyImage c).

Definition Convert_v1beta1_KThreesServerConfig_To_v1beta2 (in_ : v1beta1_KThreesServerConfig)
    : KThreesServerConfig :=
  let out := autoConvert_v1beta1_KThreesServerConfig_To_v1beta2 in_ in
  if negb (OldDisableExternalCloudProvider in_)
  then with_cloud_provider (OldDisableExternalCloudProvider in_) (Some true) (Some "external") out
  else with_cloud_provider (OldDisableExternalCloudProvider in_) (Some false) (Some "") out.

Definition autoConvert_v1beta2_KThreesServerConfig_To_v1beta1 (in_ : KThreesServerConfig)
    : v1beta1_KThreesServerConfig :=
  mkOldServerConfig (KubeAPIServerArgs in_) (KubeControllerManagerArgs in_)
    (KubeSchedulerArgs in_) (TLSSan in_) (BindAddress in_) (HTTPSListenPort in_)
    (AdvertiseAddress in_) (AdvertisePort in_) (ClusterCidr in_) (ServiceCidr in_)
    (ClusterDNS in_) (ClusterDomain in_) (DisableComponents in_) false.

Definition with_disabled_provider (b : bool) (v : v1beta1_KThreesServerConfig)
    : v1beta1_KThreesServerConfig :=
  mkOldServerConfig (OldKubeAPIServerArgs v) (OldKubeControllerManagerArgs v) (OldKubeSchedulerArgs v)
    (OldTLSSan v) (OldBindAddress v) (OldHTTPSListenPort v) (OldAdvertiseAddress v) (OldAdvertisePort v)
    (OldClusterCidr v) (OldServiceCidr v) (OldClusterDNS v) (OldClusterDomain v) (OldDisableComponents v) b.

Definition Convert_v1beta2_KThreesServerConfig_To_v1beta1 (in_ : KThreesServerConfig)
    : v1beta1_KThreesServerConfig :=
  with_disabled_provider (DeprecatedDisableExternalCloudProvider in_)
    (autoConvert_v1beta2_KThreesServerConfig_To_v1beta1 in_).

Definition Convert_v1beta1_KThreesAgentConfig_To_v1beta2 (in_ : v1beta1_KThreesAgentConfig)
    : KThreesAgentConfig :=
  mkKThreesAgentConfig (OldNodeLabels in_) (OldNodeTaints in_) (OldPrivateRegistry in_)
    (OldKubeletArgs in_) (OldKubeProxyArgs in_) (OldNodeName in_) (OldAirGapped in_) "".

Definition Convert_v1beta2_KThreesAgentConfig_To_v1beta1 (in_ : KThreesAgentConfig)
    : v1beta1_KThreesAgentConfig :=
  mkOldAgentConfig (NodeLabels in_) (AgentNodeTaints in_) (PrivateRegistry in_)
    (KubeletArgs in_) (KubeProxyArgs in_) (NodeName in_) (AirGapped in_).

Definition Convert_v1beta1_KThreesConfigSpec_To_v1beta2 (in_ : v1beta1_KThreesConfigSpec)
    : KThreesConfigSpec :=
  mkKThreesConfigSpec (OldFiles in_) (OldPreK3sCommands in_) (OldPostK3sCommands in_)
    (Convert_v1beta1_KThreesAgentConfig_To_v1beta2 (OldAgentConfig in_))
    (Convert_v1beta1_KThreesServerConfig_To_v1beta2 (OldServerConfig in_)) (OldConfigVersion in_).

Definition Convert_v1beta2_KThreesConfigSpec_To_v1beta1 (in_ : KThreesConfigSpec)
    : v1beta1_KThreesConfigSpec :=
  mkOldConfigSpec (Files in_) (PreK3sCommands in_) (PostK3sCommands in_)
    (Convert_v1beta2_KThreesAgentConfig_To_v1beta1 (AgentConfig in_))
    (Convert_v1beta2_KThreesServerConfig_To_v1beta1 (ServerConfig in_)) (ConfigVersion in_).

Definition Convert_v1beta1_KThreesConfigStatus_To_v1beta2 (in_ : v1beta1_KThreesConfigStatus)
    : KThreesConfigStatus :=
  mkKThreesConfigStatus (OldConfigReady in_) (OldBootstrapData in_) (OldDataSecretName in_)
    (OldConfigFailureReason in_) (OldConfigFailureMessage in_) (OldConfigObservedGeneration in_)
    (OldConfigConditions in_).

Definition Convert_v1beta2_KThreesConfigStatus_To_v1beta1 (in_ : KThreesConfigStatus)
    : v1beta1_KThreesConfigStatus :=
  mkOldConfigStatus (ConfigReady in_) (BootstrapData in_) (DataSecretName in_)
    (ConfigFailureReason in_) (ConfigFailureMessage in_) (ConfigObservedGeneration in_)
    (ConfigConditions in_).

Definition Convert_v1beta1_KThreesConfig_To_v1beta2 (in_ : v1beta1_KThreesConfig) : KThreesConfig :=
  mkKThreesConfig (OldConfigMeta in_)
    (Convert_v1beta1_KThreesConfigSpec_To_v1beta2 (OldConfigSpec in_))
    (Convert_v1beta1_KThreesConfigStatus_To_v1beta2 (OldConfigStatus in_)).

Definition Convert_v1beta2_KThreesConfig_To_v1beta1 (in_ : KThreesConfig) : v1beta1_KThreesConfig :=
  mkOldConfig (ConfigMeta in_)
    (Convert_v1beta2_KThreesConfigSpec_To_v1beta1 (ConfigSpec in_))
    (Convert_v1beta2_KThreesConfigStatus_To_v1beta1 (ConfigStatus in_)).

Definition Convert_v1beta1_KThreesConfigTemplate_To_v1beta2 (in_ : v1beta1_KThreesConfigTemplate)
    : KThreesConfigTemplate :=
  mkConfigTemplate (OldConfigTemplateMeta in_)
    (Convert_v1beta1_KThreesConfigSpec_To_v1beta2 (OldConfigTemplateSpec in_)).

Definition Convert_v1beta2_KThreesConfigTemplate_To_v1beta1 (in_ : KThreesConfigTemplate)
    : v1beta1_KThreesConfigTemplate :=
  mkOldConfigTemplate (ConfigTemplateMeta in_)
    (Convert_v1beta2_KThreesConfigSpec_To_v1beta1 (ConfigTemplateSpec in_)).

Definition Convert_v1beta1_KThreesControlPlaneSpec_To_v1beta2 (in_ : v1beta1_KThreesControlPlaneSpec)
    : KThreesControlPlaneSpec :=
  mkKCPSpec (OldReplicas in_) (OldVersion in_)
    (Convert_v1beta1_KThreesConfigSpec_To_v1beta2 (OldKCPConfigSpec in_)) (OldUpgradeAfter in_)
    (mkMachineTemplate (OldTemplateLabels in_) (OldTemplateAnnotations in_)
       (OldInfrastructureTemplate in_) (OldNodeDrainTimeout in_) None None)
    (OldRemediationStrategy in_).

Definition Convert_v1beta2_KThreesControlPlaneSpec_To_v1beta1 (in_ : KThreesControlPlaneSpec)
    : v1beta1_KThreesControlPlaneSpec :=
  let t := MachineTemplate in_ in
  mkOldKCPSpec (Replicas in_) (Version in_) (TemplateInfrastructureRef t)
    (Convert_v1beta2_KThreesConfigSpec_To_v1beta1 (KCPConfigSpec in_)) (RolloutAfter in_)
    (NodeDrainTimeout t) (TemplateLabels t) (TemplateAnnotations t) (KCPRemediationStrategy in_).

Definition Convert_v1beta1_KThreesControlPlaneStatus_To_v1beta2
    (in_ : v1beta1_KThreesControlPlaneStatus) : KThreesControlPlaneStatus :=
  mkKCPStatus (OldSelector in_) (OldStatusReplicas in_) None (OldUpdatedReplicas in_)
    (OldReadyReplicas in_) (OldUnavailableReplicas in_) (OldInitialized in_) (OldReady in_)
    (OldFailureReason in_) (OldFailureMessage in_) (OldObservedGeneration in_)
    (OldKCPConditions in_) (OldLastRemediation in_).

Definition Convert_v1beta2_KThreesControlPlaneStatus_To_v1beta1
    (in_ : KThreesControlPlaneStatus) : v1beta1_KThreesControlPlaneStatus :=
  mkOldKCPStatus (Selector in_) (StatusReplicas in_) (UpdatedReplicas in_)
    (ReadyReplicas in_) (UnavailableReplicas in_) (Initialized in_) (Ready in_)
    (FailureReason in_) (FailureMessage in_) (ObservedGeneration in_)
    (KCPConditions in_) (LastRemediation in_).

Definition Convert_v1beta1_KThreesControlPlane_To_v1beta2 (in_ : v1beta1_KThreesControlPlane)
    : KThreesControlPlane :=
  mkKCP (OldKCPMeta in_) (Convert_v1beta1_KThreesControlPlaneSpec_To_v1beta2 (OldKCPSpec in_))
    (Convert_v1beta1_KThreesControlPlaneStatus_To_v1beta2 (OldKCPStatus in_)).

Definition Convert_v1beta2_KThreesControlPlane_To_v1beta1 (in_ : KThreesControlPlane)
    : v1beta1_KThreesControlPlane :=
  mkOldKCP (KCPMeta in_) (Convert_v1beta2_KThreesControlPlaneSpec_To_v1beta1 (KCPSpec in_))
    (Convert_v1beta2_KThreesControlPlaneStatus_To_v1beta1 (KCPStatus in_)).

(** ** Stored data

    What v1beta1 has no field for is kept in the text of an annotation, by
    Cluster API's [MarshalData] and [UnmarshalData]: the first adds the annotation
    with the object's text, the second reads it and takes it away. The map of
    annotations is shared by the two versions of an object, so that the second
    takes it away in both. The fields named by [extras] survive the text. *)
Definition DataAnnotation : string := "cluster.x-k8s.io/conversion-data".

Class ConversionData {A X : Type} (extras : A -> X) := {
  MarshalData : A -> gomap string -> gomap string + error;
  UnmarshalData : gomap string -> (option A * gomap string) + error;
  UnmarshalData_absent : forall annotations,
    gomap_get annotations DataAnnotation = None -> UnmarshalData annotations = inl (None, annotations);
  MarshalData_adds : forall a annotations annotations',
    MarshalData a annotations = inl annotations' ->
    exists data, annotations' = Some (<[DataAnnotation := data]> (default ∅ annotations));
  UnmarshalData_MarshalData : forall a annotations annotations',
    MarshalData a annotations = inl annotations' ->
    exists a', UnmarshalData annotations' = inl (Some a', gomap_delete DataAnnotation annotations')
      /\ extras a' = extras a;
}.

(** The fields of a server configuration and of a specification that are restored. *)
Definition server_extras (c : KThreesServerConfig) : option string * bool * option bool * string * string :=
  (CloudProviderName c, DeprecatedDisableExternalCloudProvider c, DisableCloudController c,
   SystemDefaultRegistry c, EtcdProxyImage c).

Definition spec_extras (c : KThreesConfigSpec) : option string * bool * option bool * string * string * string :=
  (server_extras (ServerConfig c), AirGappedInstallScriptPath (AgentConfig c)).

Definition config_extras (c : KThreesConfig) := spec_extras (ConfigSpec c).
Definition template_extras (c : KThreesConfigTemplate) := spec_extras (ConfigTemplateSpec c).

Definition kcp_extras (k : KThreesControlPlane) :=
  (spec_extras (KCPConfigSpec (KCPSpec k)), NodeVolumeDetachTimeout (MachineTemplate (KCPSpec k)),
   NodeDeletionTimeout (MachineTemplate (KCPSpec k)), StatusVersion (KCPStatus k)).

(** The assignments of the restored fields. *)
Definition restore_server (restored dst : KThreesServerConfig) : KThreesServerConfig :=
  mkKThreesServerConfig (KubeAPIServerArgs dst) (KubeControllerManagerArgs dst) (KubeSchedulerArgs dst)
    (TLSSan dst) (BindAddress dst) (HTTPSListenPort dst) (AdvertiseAddress dst) (AdvertisePort dst)
    (ClusterCidr dst) (ServiceCidr dst) (ClusterDNS dst) (ClusterDomain dst) (DisableComponents dst)
    (DeprecatedDisableExternalCloudProvider restored) (DisableCloudController restored)
    (CloudProviderName restored) (SystemDefaultRegistry restored) (EtcdProxyImage restored).

Definition restore_spec (restored dst : KThreesConfigSpec) : KThreesConfigSpec :=
  let a := AgentConfig dst in
  mkKThreesConfigSpec (Files dst) (PreK3sCommands dst) (PostK3sCommands dst)
    (mkKThreesAgentConfig (NodeLabels a) (AgentNodeTaints a) (PrivateRegistry a) (KubeletArgs a)
       (KubeProxyArgs a) (NodeName a) (AirGapped a) (AirGappedInstallScriptPath (AgentConfig restored)))
    (restore_server (ServerConfig restored) (ServerConfig dst)) (ConfigVersion dst).

Definition restore_kcp (restored dst : KThreesControlPlane) : KThreesControlPlane :=
  let s := KCPSpec dst in
  let t := MachineTemplate s in
  let t' := MachineTemplate (KCPSpec restored) in
  let u := KCPStatus dst in
  mkKCP (KCPMeta dst)
    (mkKCPSpec (Replicas s) (Version s) (restore_spec (KCPConfigSpec (KCPSpec restored)) (KCPConfigSpec s))
       (RolloutAfter s)
       (mkMachineTemplate (TemplateLabels t) (TemplateAnnotations t) (TemplateInfrastructureRef t)
          (NodeDrainTimeout t) (NodeVolumeDetachTimeout t') (NodeDeletionTimeout t'))
       (KCPRemediationStrategy s))
    (mkKCPStatus (Selector u) (StatusReplicas u) (StatusVersion (KCPStatus restored)) (UpdatedReplicas u)
       (ReadyReplicas u) (UnavailableReplicas u) (Initialized u) (Ready u) (FailureReason u)
       (FailureMessage u) (ObservedGeneration u) (KCPConditions u) (LastRemediation u)).

Section ConvertTo.
Context `{!ConversionData config_extras} `{!ConversionData template_extras} `{!ConversionData kcp_extras}.

Definition unmarshalling (err : error) : error := EWrap "unmarshalling stored conversion data" err.
Definition storing (err : error) : error := EWrap "storing conversion data" err.

Definition KThreesConfig_ConvertTo (c : v1beta1_KThreesConfig) : KThreesConfig + error :=
  let dst := Convert_v1beta1_KThreesConfig_To_v1beta2 c in
  match UnmarshalData (extras := config_extras) (Annotations (OldConfigMeta c)) with
  | inr err => inr (unmarshalling err)
  | inl (None, _) => inl dst
  | inl (Some restored, annotations) =>
      inl (mkKThreesConfig (with_annotations annotations (ConfigMeta dst))
             (restore_spec (ConfigSpec restored) (ConfigSpec dst)) (ConfigStatus dst))
  end.

Definition KThreesConfig_ConvertFrom (src : KThreesConfig) : v1beta1_KThreesConfig + error :=
  let c := Convert_v1beta2_KThreesConfig_To_v1beta1 src in
  match MarshalData (extras := config_extras) src (Annotations (OldConfigMeta c)) with
  | inr err => inr (storing err)
  | inl annotations =>
      inl (mkOldConfig (with_annotations annotations (OldConfigMeta c)) (OldConfigSpec c) (OldConfigStatus c))
  end.

Definition KThreesConfigTemplate_ConvertTo (r : v1beta1_KThreesConfigTemplate) : KThreesConfigTemplate + error :=
  let dst := Convert_v1beta1_KThreesConfigTemplate_To_v1beta2 r in
  match UnmarshalData (extras := template_extras) (Annotations (OldConfigTemplateMeta r)) with
  | inr err => inr (unmarshalling err)
  | inl (None, _) => inl dst
  | inl (Some restored, annotations) =>
      inl (mkConfigTemplate (with_annotations annotations (ConfigTemplateMeta dst))
             (restore_spec (ConfigTemplateSpec restored) (ConfigTemplateSpec dst)))
  end.

Definition KThreesConfigTemplate_ConvertFrom (src : KThreesConfigTemplate)
    : v1beta1_KThreesConfigTemplate + error :=
  let r := Convert_v1beta2_KThreesConfigTemplate_To_v1beta1 src in
  match MarshalData (extras := template_extras) src (Annotations (OldConfigTemplateMeta r)) with
  | inr err => inr (storing err)
  | inl annotations =>
      inl (mkOldConfigTemplate (with_annotations annotations (OldConfigTemplateMeta r)) (OldConfigTemplateSpec r))
  end.

Definition KThreesControlPlane_ConvertTo (in_ : v1beta1_KThreesControlPlane) : KThreesControlPlane + error :=
  let dst := Convert_v1beta1_KThreesControlPlane_To_v1beta2 in_ in
  match UnmarshalData (extras := kcp_extras) (Annotations (OldKCPMeta in_)) with
  | inr err => inr (unmarshalling err)
  | inl (None, _) => inl dst
  | inl (Some restored, annotations) =>
      inl (restore_kcp restored (with_kcp_meta (with_annotations annotations (KCPMeta dst)) dst))
  end.

Definition KThreesControlPlane_ConvertFrom (src : KThreesControlPlane) : v1beta1_KThreesControlPlane + error :=
  let k := Convert_v1beta2_KThreesControlPlane_To_v1beta1 src in
  match MarshalData (extras := kcp_extras) src (Annotations (OldKCPMeta k)) with
  | inr err => inr (storing err)
  | inl annotations =>
      inl (mkOldKCP (with_annotations annotations (OldKCPMeta k)) (OldKCPSpec k) (OldKCPStatus k))
  end.

(** Lists, with their metadata: each item on its own, without stored data. *)
Definition convert_list {L A B} (f : A -> B) (l : L * slice A) : L * slice B := (l.1, option_map (List.map f) l.2).

Definition KThreesConfigList_ConvertTo {L} : L * slice v1beta1_KThreesConfig -> L * slice KThreesConfig :=
  convert_list Convert_v1beta1_KThreesConfig_To_v1beta2.
Definition KThreesConfigList_ConvertFrom {L} : L * slice KThreesConfig -> L * slice v1beta1_KThreesConfig :=
  convert_list Convert_v1beta2_KThreesConfig_To_v1beta1.
Definition KThreesConfigTemplateList_ConvertTo {L}
    : L * slice v1beta1_KThreesConfigTemplate -> L * slice KThreesConfigTemplate :=
  convert_list Convert_v1beta1_KThreesConfigTemplate_To_v1beta2.
Definition KThreesConfigTemplateList_ConvertFrom {L}
    : L * slice KThreesConfigTemplate -> L * slice v1beta1_KThreesConfigTemplate :=
  convert_list Convert_v1beta2_KThreesConfigTemplate_To_v1beta1.
Definition KThreesControlPlaneList_ConvertTo {L}
    : L * slice v1beta1_KThreesControlPlane -> L * slice KThreesControlPlane :=
  convert_list Convert_v1beta1_KThreesControlPlane_To_v1beta2.
Definition KThreesControlPlaneList_ConvertFrom {L}
    : L * slice KThreesControlPlane -> L * slice v1beta1_KThreesControlPlane :=
  convert_list Convert_v1beta2_KThreesControlPlane_To_v1beta1.

(** ** From v1beta2 and back *)

(** The annotations of an object that has been to v1beta1. *)
Definition without_data (annotations : gomap string) : gomap string :=
  Some (delete DataAnnotation (default ∅ annotations)).

Lemma with_annotations_twice a b m : with_annotations a (with_annotations b m) = with_annotations a m.
Proof. done. Qed.

Lemma stored_annotations {A X} (extras : A -> X) `{!ConversionData extras} a ann ann' :
  MarshalData a ann = inl ann' -> gomap_delete DataAnnotation ann' = without_data ann.
Proof.
  intros E. apply MarshalData_adds in E as [data ->]. unfold gomap_delete, without_data. simpl.
  by rewrite delete_insert_eq.
Qed.

Lemma restore_server_back c restored :
  server_extras restored = server_extras c ->
  restore_server restored (Convert_v1beta1_KThreesServerConfig_To_v1beta2
    (Convert_v1beta2_KThreesServerConfig_To_v1beta1 c)) = c.
Proof.
  unfold server_extras, restore_server. intros [= -> -> -> -> ->].
  destruct c as [? ? ? ? ? ? ? ? ? ? ? ? ? d ? ? ? ?]. by destruct d.
Qed.

Lemma restore_spec_back spec restored :
  spec_extras restored = spec_extras spec ->
  restore_spec restored (Convert_v1beta1_KThreesConfigSpec_To_v1beta2
    (Convert_v1beta2_KThreesConfigSpec_To_v1beta1 spec)) = spec.
Proof.
  unfold spec_extras, restore_spec. rewrite pair_equal_spec. intros [Hs ->].
  cbn [ServerConfig Convert_v1beta1_KThreesConfigSpec_To_v1beta2 Convert_v1beta2_KThreesConfigSpec_To_v1beta1
    OldServerConfig]. rewrite restore_server_back by done. by destruct spec as [? ? ? [] ?].
Qed.

Lemma KThreesConfig_round_trip_ok src old :
  KThreesConfig_ConvertFrom src = inl old ->
  KThreesConfig_ConvertTo old
  = inl (mkKThreesConfig (with_annotations (without_data (Annotations (ConfigMeta src))) (ConfigMeta src))
           (ConfigSpec src) (ConfigStatus src)).
Proof.
  unfold KThreesConfig_ConvertFrom, KThreesConfig_ConvertTo.
  destruct (MarshalData _ _) as [ann|err] eqn:E; [|done]. intros [= <-]. simpl.
  destruct (UnmarshalData_MarshalData _ _ _ E) as (restored & -> & Hx).
  rewrite (stored_annotations config_extras _ _ _ E), with_annotations_twice.
  unfold config_extras in Hx. rewrite restore_spec_back by done. by destruct src as [? ? []].
Qed.

Lemma KThreesConfigTemplate_round_trip_ok src old :
  KThreesConfigTemplate_ConvertFrom src = inl old ->
  KThreesConfigTemplate_ConvertTo old
  = inl (mkConfigTemplate
           (with_annotations (without_data (Annotations (ConfigTemplateMeta src))) (ConfigTemplateMeta src))
           (ConfigTemplateSpec src)).
Proof.
  unfold KThreesConfigTemplate_ConvertFrom, KThreesConfigTemplate_ConvertTo.
  destruct (MarshalData _ _) as [ann|err] eqn:E; [|done]. intros [= <-]. simpl.
  destruct (UnmarshalData_MarshalData _ _ _ E) as (restored & -> & Hx).
  rewrite (stored_annotations template_extras _ _ _ E), with_annotations_twice.
  unfold template_extras in Hx. by rewrite restore_spec_back.
Qed.

Lemma KThreesControlPlane_round_trip_ok src old :
  KThreesControlPlane_ConvertFrom src = inl old ->
  KThreesControlPlane_ConvertTo old
  = inl (with_kcp_meta (with_annotations (without_data (KCPAnnotations src)) (KCPMeta src)) src).
Proof.
  unfold KThreesControlPlane_ConvertFrom, KThreesControlPlane_ConvertTo.
  destruct (MarshalData _ _) as [ann|err] eqn:E; [|done]. intros [= <-]. simpl.
  destruct (UnmarshalData_MarshalData _ _ _ E) as (restored & -> & Hx).
  rewrite (stored_annotations kcp_extras _ _ _ E). unfold kcp_extras in Hx.
  rewrite !pair_equal_spec in Hx. destruct Hx as [[[Hc Hd] Hv] Hs]. unfold restore_kcp. simpl.
  destruct src as [om [? ? ? ? [] ?] []]. simpl in *.
  rewrite restore_spec_back by done. by rewrite Hd, Hv, Hs.
Qed.

(** C25: nothing of a stored object is lost on the way to v1beta1 and back. For the
    three kinds: when the conversion of an object to v1beta1 succeeds, converting
    the result gives the object again, every field of its specification and
    status, with the annotation of the stored data gone. *)
Theorem hub_round_trip :
  (forall src old, KThreesConfig_ConvertFrom src = inl old ->
     KThreesConfig_ConvertTo old
     = inl (mkKThreesConfig (with_annotations (without_data (Annotations (ConfigMeta src))) (ConfigMeta src))
              (ConfigSpec src) (ConfigStatus src)))
  /\ (forall src old, KThreesConfigTemplate_ConvertFrom src = inl old ->
     KThreesConfigTemplate_ConvertTo old
     = inl (mkConfigTemplate
              (with_annotations (without_data (Annotations (ConfigTemplateMeta src))) (ConfigTemplateMeta src))
              (ConfigTemplateSpec src)))
  /\ (forall src old, KThreesControlPlane_ConvertFrom src = inl old ->
     KThreesControlPlane_ConvertTo old
     = inl (with_kcp_meta (with_annotations (without_data (KCPAnnotations src)) (KCPMeta src)) src)).
Proof.
  split; [apply KThreesConfig_round_trip_ok|]. split; [apply KThreesConfigTemplate_round_trip_ok|].
  apply KThreesControlPlane_round_trip_ok.
Qed.

(** ** From v1beta1 and back *)

Lemma server_back c :
  Convert_v1beta2_KThreesServerConfig_To_v1beta1 (Convert_v1beta1_KThreesServerConfig_To_v1beta2 c) = c.
Proof. destruct c as [? ? ? ? ? ? ? ? ? ? ? ? ? d]. by destruct d. Qed.

Lemma spec_back c :
  Convert_v1beta2_KThreesConfigSpec_To_v1beta1 (Convert_v1beta1_KThreesConfigSpec_To_v1beta2 c) = c.
Proof.
  unfold Convert_v1beta2_KThreesConfigSpec_To_v1beta1. cbn [ServerConfig Convert_v1beta1_KThreesConfigSpec_To_v1beta2].
  rewrite server_back. by destruct c as [? ? ? [] ? ?].
Qed.

Lemma kcp_back k :
  Convert_v1beta2_KThreesControlPlane_To_v1beta1 (Convert_v1beta1_KThreesControlPlane_To_v1beta2 k) = k.
Proof.
  unfold Convert_v1beta2_KThreesControlPlane_To_v1beta1, Convert_v1beta2_KThreesControlPlaneSpec_To_v1beta1.
  simpl. rewrite spec_back. by destruct k as [? [] []].
Qed.

(** An object written as v1beta1 reads back as it was, with the annotation. *)
Lemma KThreesControlPlane_old_round_trip old :
  gomap_get (Annotations (OldKCPMeta old)) DataAnnotation = None ->
  exists hub, KThreesControlPlane_ConvertTo old = inl hub
  /\ forall old', KThreesControlPlane_ConvertFrom hub = inl old' ->
       OldKCPSpec old' = OldKCPSpec old /\ OldKCPStatus old' = OldKCPStatus old
       /\ exists data, OldKCPMeta old' = with_annotations
            (Some (<[DataAnnotation := data]> (default ∅ (Annotations (OldKCPMeta old))))) (OldKCPMeta old).
Proof.
  intros Ha. unfold KThreesControlPlane_ConvertTo. rewrite (UnmarshalData_absent _ Ha).
  eexists. split; [reflexivity|]. intros old'. unfold KThreesControlPlane_ConvertFrom. rewrite kcp_back.
  destruct (MarshalData _ _) as [ann|err] eqn:E; [|done]. intros [= <-].
  apply MarshalData_adds in E as [data ->]. simpl. by eauto.
Qed.

(** ** The external cloud provider *)

(** Every k3s configuration that is generated of [spec], for the first server, for
    those that join and for agents, asks for [cloud-provider=external] and goes
    without k3s's own cloud controller when and only when [external] says so; the
    arguments of the specification stay in front. *)
Definition runs_external (external : bool) (spec : KThreesConfigSpec) : Prop :=
  let server := ServerConfig spec in
  let args := if external then ["cloud-provider=external"] else [] in
  let server_runs (agent : KThreesAgentConfig) (cfg : K3sServerConfig) :=
    SrvDisableCloudController cfg = external
    /\ elems (SrvKubeControllerManagerArgs cfg) = elems (KubeControllerManagerArgs server) ++ args
    /\ elems (AgentKubeletArgs (SrvAgent cfg)) = elems (KubeletArgs agent) ++ args in
  (forall endpoint token agent,
     server_runs agent (GenerateInitControlPlaneConfig endpoint token server agent))
  /\ (forall url token endpoint agent,
     server_runs agent (GenerateJoinControlPlaneConfig url token endpoint server agent))
  /\ (forall url token agent,
     elems (AgentKubeletArgs (GenerateWorkerConfig url token server agent)) = elems (KubeletArgs agent) ++ args).

Lemma converted_external (c : v1beta1_KThreesConfigSpec) :
  let spec := Convert_v1beta1_KThreesConfigSpec_To_v1beta2 c in
  runs_external (negb (OldDisableExternalCloudProvider (OldServerConfig c))) spec
  /\ with_server_config (defaultServerConfig (ServerConfig spec)) spec = spec.
Proof.
  destruct c as [? ? ? ag [? ? ? ? ? ? ? ? ? ? ? ? ? d]]. unfold runs_external. simpl.
  split; [|by destruct d]. split_and!; intros; destruct d; simpl; rewrite ?elems_go_append; done.
Qed.

(** C28: who describes a cluster in v1beta1 gets the cloud provider asked for. The
    conversion webhook takes an object of v1beta1 that carries no stored data, a
    configuration, a template or a control plane, to one of v1beta2 whose nodes,
    servers that start or join a cluster and agents, run with
    [cloud-provider=external] and without k3s's own cloud controller exactly when
    v1beta1 did not disable the external provider; and nothing of that is left to
    the defaulting of a configuration or a control plane, which keeps it as it is.
    (For an object with stored data see [old_edit_lost].) *)
Theorem cloud_provider_kept :
  (forall c, gomap_get (Annotations (OldConfigMeta c)) DataAnnotation = None ->
     exists dst, KThreesConfig_ConvertTo c = inl dst
     /\ runs_external (negb (OldDisableExternalCloudProvider (OldServerConfig (OldConfigSpec c)))) (ConfigSpec dst)
     /\ KThreesConfig_Default dst = dst)
  /\ (forall t, gomap_get (Annotations (OldConfigTemplateMeta t)) DataAnnotation = None ->
     exists dst, KThreesConfigTemplate_ConvertTo t = inl dst
     /\ runs_external (negb (OldDisableExternalCloudProvider (OldServerConfig (OldConfigTemplateSpec t))))
          (ConfigTemplateSpec dst)
     /\ with_server_config (defaultServerConfig (ServerConfig (ConfigTemplateSpec dst))) (ConfigTemplateSpec dst)
        = ConfigTemplateSpec dst)
  /\ (forall k, gomap_get (Annotations (OldKCPMeta k)) DataAnnotation = None ->
     exists dst, KThreesControlPlane_ConvertTo k = inl dst
     /\ runs_external (negb (OldDisableExternalCloudProvider (OldServerConfig (OldKCPConfigSpec (OldKCPSpec k)))))
          (KCPConfigSpec (KCPSpec dst))
     /\ KCPConfigSpec (KCPSpec (KThreesControlPlane_Default dst)) = KCPConfigSpec (KCPSpec dst)).
Proof.
  split_and!.
  - intros [om sp st] Ha. unfold KThreesConfig_ConvertTo. rewrite (UnmarshalData_absent _ Ha).
    eexists. split; [reflexivity|]. destruct (converted_external sp) as [Hx Hd]. split; [exact Hx|].
    unfold KThreesConfig_Default, Convert_v1beta1_KThreesConfig_To_v1beta2.
    cbn [ConfigSpec OldConfigSpec]. cbv zeta in Hd. by rewrite Hd.
  - intros [om sp] Ha. unfold KThreesConfigTemplate_ConvertTo. rewrite (UnmarshalData_absent _ Ha).
    eexists. split; [reflexivity|]. exact (converted_external sp).
  - intros [om sp st] Ha. unfold KThreesControlPlane_ConvertTo. rewrite (UnmarshalData_absent _ Ha).
    eexists. split; [reflexivity|]. exact (converted_external (OldKCPConfigSpec sp)).
Qed.

(** ** Edits through v1beta1 *)

Definition with_disabled (b : bool) (c : v1beta1_KThreesConfig) : v1beta1_KThreesConfig :=
  let s := OldConfigSpec c in
  mkOldConfig (OldConfigMeta c)
    (mkOldConfigSpec (OldFiles s) (OldPreK3sCommands s) (OldPostK3sCommands s) (OldAgentConfig s)
       (with_disabled_provider b (OldServerConfig s)) (OldConfigVersion s))
    (OldConfigStatus c).

(** C29: an edit of [disableExternalCloudProvider] through v1beta1 is lost. Once an
    object carries stored data, which is so for every object read as v1beta1,
    its conversion to v1beta2 gives that field, and the two fields that took its
    place, the values of the stored data, whatever the v1beta1 object says now. *)
Theorem old_edit_lost src old b :
  KThreesConfig_ConvertFrom src = inl old ->
  exists dst, KThreesConfig_ConvertTo (with_disabled b old) = inl dst
  /\ server_extras (ServerConfig (ConfigSpec dst)) = server_extras (ServerConfig (ConfigSpec src)).
Proof.
  unfold KThreesConfig_ConvertFrom, KThreesConfig_ConvertTo.
  destruct (MarshalData _ _) as [ann|err] eqn:E; [|done]. intros [= <-]. simpl.
  destruct (UnmarshalData_MarshalData _ _ _ E) as (restored & -> & Hx).
  eexists. split; [reflexivity|]. unfold config_extras, spec_extras in Hx.
  apply pair_equal_spec in Hx as [Hx _]. simpl. rewrite <- Hx. done.
Qed.
End ConvertTo.

(** ** A codec, for the examples

    The restored fields as a string of two digits. *)
Fixpoint positive_text (p : positive) : string :=
  match p with
  | xH => ""
  | xO p' => String "0" (positive_text p')
  | xI p' => String "1" (positive_text p')
  end.

Fixpoint text_positive (s : string) : positive :=
  match s with
  | EmptyString => xH
  | String a s' => if Ascii.eqb a "0" then xO (text_positive s') else xI (text_positive s')
  end.

Lemma text_positive_text p : text_positive (positive_text p) = p.
Proof. induction p as [p IH|p IH|]; simpl; by rewrite ?IH. Qed.

#[local] Obligation Tactic := idtac.
Program Definition codec {A X : Type} (extras : A -> X) (of_extras : X -> A)
    (Hx : forall x, extras (of_extras x) = x) `{Countable X} : ConversionData extras := {|
  MarshalData := fun a annotations =>
    inl (Some (<[DataAnnotation := positive_text (encode (extras a))]> (default ∅ annotations)));
  UnmarshalData := fun annotations =>
    match gomap_get annotations DataAnnotation with
    | None => inl (None, annotations)
    | Some text =>
        match decode (text_positive text) with
        | Some x => inl (Some (of_extras x), gomap_delete DataAnnotation annotations)
        | None => inr (ENew "invalid data")
        end
    end;
|}.
Next Obligation. intros A X ex of_ex Hx ? ? annotations E. simpl. by rewrite E. Qed.
Next Obligation. intros A X ex of_ex Hx ? ? a ann ann' [= <-]. eauto. Qed.
Next Obligation.
  intros A X ex of_ex Hx ? ? a ann ann' [= <-]. simpl.
  rewrite lookup_insert_eq, text_positive_text, decode_encode. eauto.
Qed.

Definition spec_of_extras (x : option string * bool * option bool * string * string * string)
    : KThreesConfigSpec :=
  let '(name, old, disable, registry, image, script) := x in
  mkKThreesConfigSpec None None None
    (mkKThreesAgentConfig None None "" None None "" false script)
    (mkKThreesServerConfig None None None None "" "" "" "" "" "" "" "" None old disable name registry image) "".

Lemma spec_of_extras_ok x : spec_extras (spec_of_extras x) = x.
Proof. by destruct x as [[[[[? ?] ?] ?] ?] ?]. Qed.

Definition config_codec : ConversionData config_extras :=
  codec config_extras (fun x => mkKThreesConfig emptyMeta (spec_of_extras x) emptyConfigStatus) spec_of_extras_ok.

Definition template_codec : ConversionData template_extras :=
  codec template_extras (fun x => mkConfigTemplate emptyMeta (spec_of_extras x)) spec_of_extras_ok.

Definition kcp_of_extras (x : option string * bool * option bool * string * string * string
    * option Z * option Z * option string) : KThreesControlPlane :=
  let '(spec, detach, deletion, version) := x in
  mkKCP emptyMeta
    (mkKCPSpec None "" (spec_of_extras spec) None
       (mkMachineTemplate None None (mkObjectReference "" "" "" "" "") None detach deletion) None)
    (mkKCPStatus "" 0 version 0 0 0 false false "" None 0 [] None).

Lemma kcp_of_extras_ok x : kcp_extras (kcp_of_extras x) = x.
Proof. by destruct x as [[[[[[[[? ?] ?] ?] ?] ?] ?] ?] ?]. Qed.

Definition kcp_codec : ConversionData kcp_extras := codec kcp_extras kcp_of_extras kcp_of_extras_ok.

Section Examples.
#[local] Existing Instances config_codec template_codec kcp_codec.

(** A configuration that v1beta1 cannot express: a cloud provider of its own. *)
Definition own_provider : KThreesConfig :=
  mkKThreesConfig emptyMeta
    (mkKThreesConfigSpec None (Some ["true"]) None
       (mkKThreesAgentConfig None None "" None None "" true "/opt/k3s.sh")
       (mkKThreesServerConfig None None None None "" "" "" "" "" "" "" "" None false (Some false)
          (Some "aws") "registry.local" "") "v1.30.0+k3s1") emptyConfigStatus.

Example hub_round_trip_witness :
  exists old dst, KThreesConfig_ConvertFrom own_provider = inl old
    /\ KThreesConfig_ConvertTo old = inl dst /\ ConfigSpec dst = ConfigSpec own_provider.
Proof.
  destruct (KThreesConfig_ConvertFrom own_provider) as [old|err] eqn:E; [|discriminate E].
  exists old. eexists. split; [reflexivity|]. split; [exact (proj1 hub_round_trip own_provider old E)|reflexivity].
Defined.

Example cloud_provider_kept_witness :
  let c := mkOldConfig emptyMeta
    (mkOldConfigSpec None None None (mkOldAgentConfig None None "" None None "" false)
       (mkOldServerConfig None None None None "" "" "" "" "" "" "" "" None true) "")
    (mkOldConfigStatus false None None "" "" 0 []) in
  gomap_get (Annotations (OldConfigMeta c)) DataAnnotation = None
  /\ exists dst, KThreesConfig_ConvertTo c = inl dst /\ runs_external false (ConfigSpec dst).
Proof.
  intros c. assert (Ha : gomap_get (Annotations (OldConfigMeta c)) DataAnnotation = None) by reflexivity.
  split; [exact Ha|]. destruct (proj1 cloud_provider_kept c Ha) as (dst & Hd & Hr & _).
  exists dst. split; [exact Hd|exact Hr].
Defined.

Example old_edit_lost_witness :
  exists old dst, KThreesConfig_ConvertFrom own_provider = inl old
    /\ KThreesConfig_ConvertTo (with_disabled true old) = inl dst
    /\ DeprecatedDisableExternalCloudProvider (ServerConfig (ConfigSpec dst)) = false.
Proof.
  destruct (KThreesConfig_ConvertFrom own_provider) as [old|err] eqn:E; [|discriminate E].
  destruct (old_edit_lost own_provider old true E) as (dst & Hd & Hx).
  exists old, dst. split; [reflexivity|]. split; [exact Hd|].
  exact (f_equal (fun x => x.1.1.1.2) Hx).
Defined.
End Examples.
