(* ===== verification/Memory.v ===== *)
(** Go memory: objects with an address, pointers into them, slices that share
    arrays. The other files treat an object as a value; this one is for the
    code whose purpose is that two objects share nothing. *)

From S2P Require Import Prelude GoStd Effects.

(** ** Types and values *)

(** What the code copies are strings, integers and booleans, pointers, slices,
    maps with string keys, and structs. *)
Inductive basic := TString | TInt | TBool.

Inductive shape :=
| Basic (b : basic)
| Pointer (t : shape)
| Slice (t : shape)
| MapOf (t : shape)
| Struct (fields : list (string * shape)).

Inductive scalar := SString (s : string) | SInt (z : Z) | SBool (b : bool).

(** A pointer is the address of an allocated object and a path into it, since Go
    lets code point to a field or to an element. *)
Abbreviation loc := positive.

Inductive step := Field (f : string) | Index (i : nat).

Record ptr := Ptr { root : loc; path : list step }.

(** A slice is an array, an offset and a length; a map is a reference to its
    entries. [None] is nil. *)
Inductive val :=
| VScalar (x : scalar)
| VPtr (p : option ptr)
| VSlice (s : option (loc * nat * nat))
| VMap (m : option loc)
| VStruct (fields : list (string * val))
| VArray (elements : list val).

Abbreviation memory := (gmap loc val).

#[export] Instance basic_eq_dec : EqDecision basic.
Proof. solve_decision. Defined.

#[export] Instance scalar_eq_dec : EqDecision scalar.
Proof. solve_decision. Defined.

#[export] Instance step_eq_dec : EqDecision step.
Proof. solve_decision. Defined.

#[export] Instance ptr_eq_dec : EqDecision ptr.
Proof. solve_decision. Defined.

Definition basic_of (x : scalar) : basic :=
  match x with SString _ => TString | SInt _ => TInt | SBool _ => TBool end.

Definition zero_scalar (b : basic) : scalar :=
  match b with TString => SString "" | TInt => SInt 0 | TBool => SBool false end.

(** The zero value of a type. *)
Fixpoint zero (t : shape) : val :=
  match t with
  | Basic b => VScalar (zero_scalar b)
  | Pointer _ => VPtr None
  | Slice _ => VSlice None
  | MapOf _ => VMap None
  | Struct ts => VStruct ((fun nt => (nt.1, zero nt.2)) <$> ts)
  end.

(** [x == nil] for a value that has a nil. *)
Definition is_nil (v : val) : bool :=
  match v with
  | VPtr None | VSlice None | VMap None => true
  | _ => false
  end.

(** ** Fields and paths *)

Fixpoint field_get (f : string) (fs : list (string * val)) : option val :=
  match fs with
  | [] => None
  | (g, x) :: fs' => if String.eqb g f then Some x else field_get f fs'
  end.

Fixpoint field_set (f : string) (y : val) (fs : list (string * val)) : list (string * val) :=
  match fs with
  | [] => []
  | (g, x) :: fs' => if String.eqb g f then (g, y) :: fs' else (g, x) :: field_set f y fs'
  end.

Definition step_get (s : step) (v : val) : option val :=
  match s, v with
  | Field f, VStruct fs => field_get f fs
  | Index i, VArray es => es !! i
  | _, _ => None
  end.

Definition step_set (s : step) (y v : val) : val :=
  match s, v with
  | Field f, VStruct fs => VStruct (field_set f y fs)
  | Index i, VArray es => VArray (<[i := y]> es)
  | _, _ => v
  end.

Fixpoint get_path (p : list step) (v : val) : option val :=
  match p with
  | [] => Some v
  | s :: p' => x ← step_get s v; get_path p' x
  end.

Fixpoint set_path (p : list step) (w v : val) : option val :=
  match p with
  | [] => Some w
  | s :: p' => x ← step_get s v; x' ← set_path p' w x; Some (step_set s x' v)
  end.

Definition load (h : memory) (p : ptr) : option val := h !! root p ≫= get_path (path p).

Definition store (h : memory) (p : ptr) (w : val) : option memory :=
  r ← h !! root p; r' ← set_path (path p) w r; Some (<[root p := r']> h).

(** [&p.F] and [&a[i]]. *)
Definition at_field (p : ptr) (f : string) : ptr := Ptr (root p) (path p ++ [Field f]).
Definition at_index (p : ptr) (i : nat) : ptr := Ptr (root p) (path p ++ [Index i]).

(** ** What a value holds

    Everything that code of a type can read from a value, with the pointers
    followed and forgotten: two values with the same tree are deeply equal
    ([reflect.DeepEqual]). *)
Inductive tree :=
| XScalar (x : scalar)
| XNil
| XPtr (x : tree)
| XSlice (xs : list tree)
| XMap (xs : list (string * tree))
| XStruct (xs : list (string * tree)).

Fixpoint view (h : memory) (t : shape) (v : val) : option tree :=
  match t, v with
  | Basic b, VScalar x => if decide (basic_of x = b) then Some (XScalar x) else None
  | Pointer _, VPtr None | Slice _, VSlice None | MapOf _, VMap None => Some XNil
  | Pointer t', VPtr (Some p) => w ← load h p; x ← view h t' w; Some (XPtr x)
  | Slice t', VSlice (Some (l, off, n)) =>
      match h !! l with
      | Some (VArray es) =>
          if decide (off + n <= length es)%nat then
            xs ← mapM (view h t') (take n (drop off es)); Some (XSlice xs)
          else None
      | _ => None
      end
  | MapOf t', VMap (Some l) =>
      match h !! l with
      | Some (VStruct es) =>
          xs ← mapM (fun kv : string * val => x ← view h t' kv.2; Some (kv.1, x)) es;
          Some (XMap xs)
      | _ => None
      end
  | Struct ts, VStruct fs =>
      xs ← mapM (fun nt : string * shape =>
             w ← field_get nt.1 fs; x ← view h nt.2 w; Some (nt.1, x)) ts;
      Some (XStruct xs)
  | _, _ => None
  end.

(** A type whose values hold no reference: [*out = *in] copies all of it. *)
Fixpoint flat (t : shape) : bool :=
  match t with
  | Basic _ => true
  | Pointer _ | Slice _ | MapOf _ => false
  | Struct ts => forallb (fun nt => flat nt.2) ts
  end.

(** ** Laws of fields and paths *)

Lemma field_get_set f y fs x :
  field_get f fs = Some x -> field_get f (field_set f y fs) = Some y.
Proof.
  induction fs as [|[g z] fs IH]; simpl; [done|].
  destruct (String.eqb g f) eqn:E; simpl; rewrite E; auto.
Qed.

Lemma field_get_set_ne f g y fs : f <> g -> field_get g (field_set f y fs) = field_get g fs.
Proof.
  intros Hne. induction fs as [|[k z] fs IH]; simpl; [done|].
  destruct (String.eqb k f) eqn:E; simpl; [|by rewrite IH].
  apply String.eqb_eq in E as ->. by rewrite (proj2 (String.eqb_neq f g) Hne).
Qed.

Lemma field_set_set f y z fs : field_set f z (field_set f y fs) = field_set f z fs.
Proof.
  induction fs as [|[g w] fs IH]; simpl; [done|].
  destruct (String.eqb g f) eqn:E; simpl; rewrite E; [done|]. by rewrite IH.
Qed.

Lemma field_set_same f x fs : field_get f fs = Some x -> field_set f x fs = fs.
Proof.
  induction fs as [|[g w] fs IH]; simpl; [done|].
  destruct (String.eqb g f) eqn:E; [by intros [= ->]|]. intros Hg. by rewrite IH.
Qed.

Lemma step_get_set s x y v : step_get s v = Some x -> step_get s (step_set s y v) = Some y.
Proof.
  destruct s as [f|i], v as [| | | |fs|es]; simpl; try done; [apply field_get_set|].
  intros Hi. apply list_lookup_insert_eq. by eapply lookup_lt_Some.
Qed.

Lemma step_set_set s y z v : step_set s z (step_set s y v) = step_set s z v.
Proof.
  destruct s as [f|i], v as [| | | |fs|es]; simpl; try done.
  - by rewrite field_set_set.
  - by rewrite list_insert_insert_eq.
Qed.

Lemma step_set_same s x v : step_get s v = Some x -> step_set s x v = v.
Proof.
  destruct s as [f|i], v as [| | | |fs|es]; simpl; try done; intros Hg.
  - by rewrite field_set_same.
  - by rewrite list_insert_id.
Qed.

Lemma get_path_app p q v : get_path (p ++ q) v = get_path p v ≫= get_path q.
Proof.
  revert v. induction p as [|s p IH]; intros v; simpl; [done|].
  destruct (step_get s v); simpl; auto.
Qed.

Lemma set_path_app p q w v x x' v' :
  get_path p v = Some x -> set_path q w x = Some x' -> set_path p x' v = Some v' ->
  set_path (p ++ q) w v = Some v'.
Proof.
  revert v v'. induction p as [|s p IH]; intros v v'; simpl; [by intros [= <-] ? [= <-]|].
  destruct (step_get s v) as [y|]; simpl; [|done].
  intros Hg Hq. destruct (set_path p x' y) as [y'|] eqn:Hs; simpl; [|done].
  by rewrite (IH _ _ Hg Hq Hs).
Qed.

Lemma set_path_total p w v x : get_path p v = Some x -> exists v', set_path p w v = Some v'.
Proof.
  revert v. induction p as [|s p IH]; intros v; simpl; [eauto|].
  destruct (step_get s v) as [y|]; simpl; [|done].
  intros Hg. destruct (IH _ Hg) as [y' ->]. simpl. eauto.
Qed.

Lemma get_set_path p w v v' : set_path p w v = Some v' -> get_path p v' = Some w.
Proof.
  revert v v'. induction p as [|s p IH]; intros v v'; simpl; [by intros [= ->]|].
  destruct (step_get s v) as [y|] eqn:E; simpl; [|done].
  destruct (set_path p w y) as [y'|] eqn:Hs; simpl; [|done]. intros [= <-].
  rewrite (step_get_set _ _ _ _ E). simpl. eauto.
Qed.

Lemma set_set_path p w w' v v' :
  set_path p w v = Some v' -> set_path p w' v' = set_path p w' v.
Proof.
  revert v v'. induction p as [|s p IH]; intros v v'; simpl; [done|].
  destruct (step_get s v) as [y|] eqn:E; simpl; [|done].
  destruct (set_path p w y) as [y'|] eqn:Hs; simpl; [|done]. intros [= <-].
  rewrite (step_get_set _ _ _ _ E). simpl. rewrite (IH _ _ Hs).
  destruct (set_path p w' y); simpl; [|done]. by rewrite step_set_set.
Qed.

Lemma set_path_same p x v : get_path p v = Some x -> set_path p x v = Some v.
Proof.
  revert v. induction p as [|s p IH]; intros v; simpl; [by intros [= ->]|].
  destruct (step_get s v) as [y|] eqn:E; simpl; [|done].
  intros Hg. rewrite (IH _ Hg). simpl. by rewrite step_set_same.
Qed.

Lemma get_path_snoc p s v x : get_path p v = Some x -> get_path (p ++ [s]) v = step_get s x.
Proof. intros Hg. rewrite get_path_app, Hg. simpl. by destruct (step_get s x). Qed.

(** Writing one field or element of an object that a path leads to. *)
Lemma set_path_snoc p s y r r' v x :
  set_path p v r = Some r' -> step_get s v = Some x ->
  set_path (p ++ [s]) y r' = set_path p (step_set s y v) r.
Proof.
  intros Hr Hx.
  destruct (set_path_total p (step_set s y v) r' v (get_set_path _ _ _ _ Hr)) as [r2 Hr2].
  rewrite <- (set_set_path _ _ (step_set s y v) _ _ Hr), Hr2.
  eapply set_path_app; [by eapply get_set_path| |exact Hr2]. simpl. by rewrite Hx.
Qed.

(** ** Laws of [view] *)

Section ShapeInd.
Variable P : shape -> Prop.
Hypothesis Hbasic : forall b, P (Basic b).
Hypothesis Hpointer : forall t, P t -> P (Pointer t).
Hypothesis Hslice : forall t, P t -> P (Slice t).
Hypothesis Hmap : forall t, P t -> P (MapOf t).
Hypothesis Hstruct : forall ts, Forall (fun nt => P nt.2) ts -> P (Struct ts).

(** Induction on types, with the hypothesis for every field. *)
Fixpoint shape_nested_ind (t : shape) : P t :=
  match t with
  | Basic b => Hbasic b
  | Pointer t' => Hpointer t' (shape_nested_ind t')
  | Slice t' => Hslice t' (shape_nested_ind t')
  | MapOf t' => Hmap t' (shape_nested_ind t')
  | Struct ts =>
      Hstruct ts ((fix go ts : Forall (fun nt => P nt.2) ts :=
        match ts with
        | [] => List.Forall_nil _
        | nt :: ts' => List.Forall_cons _ _ _ (shape_nested_ind nt.2) (go ts')
        end) ts)
  end.
End ShapeInd.

Lemma mapM_option_mono {A B} (f g : A -> option B) xs ys :
  (forall x y, x ∈ xs -> f x = Some y -> g x = Some y) -> mapM f xs = Some ys -> mapM g xs = Some ys.
Proof.
  rewrite !mapM_Some. intros Hfg Hf.
  induction Hf as [|x y xs ys Hxy Hf IH]; constructor.
  - apply Hfg; [by left|done].
  - apply IH. intros z w Hz. apply Hfg. by right.
Qed.

Lemma load_mono (m h : memory) p v : m ⊆ h -> load m p = Some v -> load h p = Some v.
Proof.
  intros Hsub. unfold load. destruct (m !! root p) as [r|] eqn:E; simpl; [|done].
  by rewrite (lookup_weaken _ _ _ _ E Hsub).
Qed.

(** More memory does not change what a value holds. *)
Lemma view_mono (m h : memory) t v x : m ⊆ h -> view m t v = Some x -> view h t v = Some x.
Proof.
  intros Hsub. revert v x.
  induction t as [b|t IH|t IH|t IH|ts IH] using shape_nested_ind;
    intros [a|[p|]|[[[l off] n]|]|[l|]|fs|es] x; simpl; try done.
  - destruct (load m p) as [w|] eqn:El; simpl; [|done].
    rewrite (load_mono _ _ _ _ Hsub El). simpl.
    destruct (view m t w) as [y|] eqn:Ev; simpl; [|done]. by rewrite (IH _ _ Ev).
  - destruct (m !! l) as [[]|] eqn:El; try done. rewrite (lookup_weaken _ _ _ _ El Hsub).
    case_decide; [|done].
    destruct (mapM (view m t) _) as [ys|] eqn:Ev; simpl; [|done].
    by rewrite (mapM_option_mono _ (view h t) _ _ (fun w y _ => IH w y) Ev).
  - destruct (m !! l) as [[]|] eqn:El; try done. rewrite (lookup_weaken _ _ _ _ El Hsub).
    destruct (mapM _ fields) as [ys|] eqn:Ev; simpl; [|done].
    intros Hx. erewrite mapM_option_mono; [exact Hx| |exact Ev]. intros [k w] y _. simpl.
    destruct (view m t w) as [z|] eqn:Ez; simpl; [|done]. by rewrite (IH _ _ Ez).
  - destruct (mapM _ ts) as [ys|] eqn:Ev; simpl; [|done].
    intros Hx. erewrite mapM_option_mono; [exact Hx| |exact Ev]. intros [k t] y Hin. simpl.
    destruct (field_get k fs) as [w|]; simpl; [|done].
    rewrite Forall_forall in IH. specialize (IH _ Hin). simpl in IH.
    destruct (view m t w) as [z|] eqn:Ez; simpl; [|done]. by rewrite (IH _ _ Ez).
Qed.

(** A flat value needs no memory. *)
Lemma view_flat (h : memory) t v x :
  flat t = true -> view h t v = Some x -> view (∅ : memory) t v = Some x.
Proof.
  revert v x.
  induction t as [b|t IH|t IH|t IH|ts IH] using shape_nested_ind;
    intros [a|[p|]|[[[l off] n]|]|[l|]|fs|es] x; simpl; try done.
  intros Hflat. destruct (mapM _ ts) as [ys|] eqn:Ev; simpl; [|done].
  intros Hx. erewrite mapM_option_mono; [exact Hx| |exact Ev]. intros [k t] y Hin. simpl.
  destruct (field_get k fs) as [w|]; simpl; [|done].
  rewrite Forall_forall in IH. specialize (IH _ Hin). simpl in IH.
  rewrite forallb_forall in Hflat. apply list_elem_of_In, Hflat in Hin. simpl in Hin.
  destruct (view h t w) as [z|] eqn:Ez; simpl; [|done]. by rewrite (IH _ _ Hin Ez).
Qed.

(** Neither does a nil value. *)
Lemma view_is_nil (m h : memory) t v x :
  is_nil v = true -> view h t v = Some x -> view m t v = Some x.
Proof. destruct v as [|[]|[]|[]| |], t; simpl; done. Qed.

Lemma view_nil_pointer (h : memory) t p x :
  view h (Pointer t) (VPtr p) = Some x -> x = XNil <-> p = None.
Proof.
  destruct p as [p|]; simpl; [|by intros [= <-]].
  destruct (load h p) as [w|]; simpl; [|done]. destruct (view h t w); simpl; [|done].
  by intros [= <-].
Qed.

(** ** Code on memory *)

Section Memory.
Context `{Signature}.

(** [*p]: a pointer that leads nowhere panics, as a nil one does. *)
Definition deref (p : ptr) : M memory val :=
  fun h => match load h p with Some v => Ret (h, Val v) | None => Ret (h, Panic) end.

(** [*p = v] *)
Definition assign (p : ptr) (v : val) : M memory unit :=
  fun h => match store h p v with Some h' => Ret (h', Val tt) | None => Ret (h, Panic) end.

(** An address that is not in use. *)
Definition alloc (v : val) : M memory loc :=
  fun h => let l := fresh (dom h) in Ret (<[l := v]> h, Val l).

(** [new(T)] *)
Definition new (t : shape) : M memory ptr := l <- alloc (zero t) ;; ret (Ptr l []).

(** [make([]T, n)] *)
Definition make (t : shape) (n : nat) : M memory val :=
  l <- alloc (VArray (replicate n (zero t))) ;; ret (VSlice (Some (l, 0%nat, n))).

(** [*p] where [p] has type [**T]. *)
Definition deref_ptr (p : ptr) : M memory ptr :=
  v <- deref p ;; match v with VPtr (Some q) => ret q | _ => panic end.

(** [len(s)] *)
Definition len (s : val) : nat :=
  match s with VSlice (Some (_, _, n)) => n | _ => 0%nat end.

(** [&s[i]] *)
Definition index (s : val) (i : nat) : M memory ptr :=
  match s with
  | VSlice (Some (l, off, n)) => if decide (i < n)%nat then ret (Ptr l [Index (off + i)]) else panic
  | _ => panic
  end.

(** ** What the statements of a generated deep copy do

    [action]: a statement on [in] and [out], which are pointers to a value or to
    the same field of two structs. *)
Definition action : Type := ptr -> ptr -> M memory unit.

(** [*out = *in] *)
Definition copy_value : action := fun in_ out => v <- deref in_ ;; assign out v.

(** [if in.F != nil { in, out := &in.F, &out.F; body }] *)
Definition if_set (body : action) : action := fun in_ out =>
  v <- deref in_ ;; if is_nil v then ret tt else body in_ out.

(** [*out = new(T); body], where [body] is about [*in] and [*out]. *)
Definition new_then (t : shape) (body : action) : action := fun in_ out =>
  p <- new t ;;
  assign out (VPtr (Some p)) ;;;
  q <- deref_ptr in_ ;;
  p' <- deref_ptr out ;;
  body q p'.

(** [*out = ( *in).DeepCopy()] *)
Definition new_copy (DeepCopy : option ptr -> M memory (option ptr)) : action := fun in_ out =>
  q <- deref_ptr in_ ;;
  c <- DeepCopy (Some q) ;;
  assign out (VPtr c).

(** [*out = make([]T, len( *in)); for i := range *in { body }], where [body] is
    about [( *in)[i]] and [( *out)[i]]. *)
Definition make_each (t : shape) (body : action) : action := fun in_ out =>
  s <- deref in_ ;;
  o <- make t (len s) ;;
  assign out o ;;;
  for_each (seq 0 (len s)) (fun i =>
    s' <- deref in_ ;;
    q <- index s' i ;;
    o' <- deref out ;;
    p <- index o' i ;;
    body q p).

(** [*out = make([]T, len( *in)); copy( *out, *in)]: the new array overlaps no
    other, so that the order in which [copy] goes over it does not matter. *)
Definition make_copy (t : shape) : action := make_each t copy_value.

(** [*out = make(map[string]T, len( *in)); for k, v := range *in { ( *out)[k] = v }],
    for a [T] that an assignment copies. *)
Definition make_map : action := fun in_ out =>
  v <- deref in_ ;;
  match v with
  | VMap (Some l) =>
      es <- deref (Ptr l []) ;;
      l' <- alloc es ;;
      assign out (VMap (Some l'))
  | _ => panic
  end.

(** [*out = *in] followed by a statement for each field in the list. *)
Definition struct_into (stmts : list (string * action)) : action := fun in_ out =>
  copy_value in_ out ;;;
  for_each stmts (fun fa => fa.2 (at_field in_ fa.1) (at_field out fa.1)).

(** [func (in *T) DeepCopy() *T]: nil if [in] is nil, else [out := new(T);
    in.DeepCopyInto(out); return out]. *)
Definition deep_copy (t : shape) (DeepCopyInto : action) (in_ : option ptr) : M memory (option ptr) :=
  match in_ with
  | None => ret None
  | Some q => out <- new t ;; DeepCopyInto q out ;;; ret (Some out)
  end.

(** An interface value is nil, or the name of a type with a pointer, which may
    itself be nil. *)
Definition interface : Type := option (string * option ptr).

(** [func (in *T) DeepCopyObject() runtime.Object]: [if c := in.DeepCopy(); c !=
    nil { return c }; return nil]. *)
Definition deep_copy_object (T : string) (DeepCopy : option ptr -> M memory (option ptr))
    (in_ : option ptr) : M memory interface :=
  c <- DeepCopy in_ ;;
  match c with
  | Some p => ret (Some (T, Some p))
  | None => ret None
  end.

(** ** What it means to copy deeply

    [in] leads to [v], which holds [x], in memory [h] without the object [lo]
    that [out] points into; that object is [r], where [out] leads to a [w] with
    [pre v w]. The code then stops normally, having changed only what [out] leads
    to, in [lo], and added some memory [m]; and what it left in [out] holds [x]
    in the memory [m] alone. *)
Definition copies_when (pre : val -> val -> Prop) (t : shape) (f : action) : Prop :=
  forall (h : memory) lo p q r v w x,
    load h q = Some v -> view h t v = Some x ->
    h !! lo = None -> get_path p r = Some w -> pre v w ->
    exists m r' v',
      f q (Ptr lo p) (<[lo := r]> h) = Ret (<[lo := r']> (h ∪ m), Val tt)
      /\ m ##ₘ h /\ m !! lo = None
      /\ set_path p v' r = Some r' /\ view m t v' = Some x.

(** Into any target; where [in] is not nil; and where [out] holds what [in]
    holds, as it does after [*out = *in]. *)
Definition copies : shape -> action -> Prop := copies_when (fun _ _ => True).
Definition copies_set : shape -> action -> Prop := copies_when (fun v _ => is_nil v = false).
Definition copies_over : shape -> action -> Prop := copies_when (fun v w => w = v).

(** The same for a function that returns a pointer to its copy. *)
Definition copies_ptr (t : shape) (f : option ptr -> M memory (option ptr)) : Prop :=
  forall (h : memory) p x,
    view h (Pointer t) (VPtr p) = Some x ->
    exists m c,
      f p h = Ret (h ∪ m, Val c)
      /\ m ##ₘ h /\ view m (Pointer t) (VPtr c) = Some x.

Lemma copies_when_mono (pre pre' : val -> val -> Prop) t f :
  (forall v w, pre' v w -> pre v w) -> copies_when pre t f -> copies_when pre' t f.
Proof. intros Hpre Hf h lo p q r v w x Hv Hx Hlo Hp Hw. exact (Hf _ _ _ _ _ _ _ _ Hv Hx Hlo Hp (Hpre _ _ Hw)). Qed.

Lemma copies_copies_over t f : copies t f -> copies_over t f.
Proof. exact (copies_when_mono _ _ t f (fun _ _ _ => I)). Qed.

Lemma copies_copies_set t f : copies t f -> copies_set t f.
Proof. exact (copies_when_mono _ _ t f (fun _ _ _ => I)). Qed.

(** A step of code that stops normally. *)
Lemma bind_val {S A B} (c : M S A) (f : A -> M S B) s s' a :
  c s = Ret (s', Val a) -> bind c f s = f a s'.
Proof. intros E. unfold bind. by rewrite E. Qed.

Lemma deref_val (h : memory) p v : load h p = Some v -> deref p h = Ret (h, Val v).
Proof. intros E. unfold deref. by rewrite E. Qed.

Lemma deref_ptr_val (h : memory) p q :
  load h p = Some (VPtr (Some q)) -> deref_ptr p h = Ret (h, Val q).
Proof. intros E. unfold deref_ptr. by rewrite (bind_val _ _ _ _ _ (deref_val _ _ _ E)). Qed.

(** Memory [h] with the object that [out] points into: it is found there, and
    what [in] leads to is still where it was. *)
Lemma load_insert_eq (h : memory) lo r p : load (<[lo := r]> h) (Ptr lo p) = get_path p r.
Proof. unfold load. simpl. by rewrite lookup_insert_eq. Qed.

Lemma load_insert (h : memory) lo r q v :
  h !! lo = None -> load h q = Some v -> load (<[lo := r]> h) q = Some v.
Proof. intros Hlo. apply load_mono. by apply insert_subseteq. Qed.

Lemma assign_val (h : memory) lo r r' p v :
  set_path p v r = Some r' ->
  assign (Ptr lo p) v (<[lo := r]> h) = Ret (<[lo := r']> h, Val tt).
Proof.
  intros E. unfold assign, store. simpl. rewrite lookup_insert_eq. simpl.
  rewrite E. simpl. by rewrite insert_insert_eq.
Qed.

Lemma alloc_val (h : memory) lo r z :
  exists l, alloc z (<[lo := r]> h) = Ret (<[lo := r]> (<[l := z]> h), Val l)
            /\ l <> lo /\ h !! l = None.
Proof.
  set (l := fresh (dom (<[lo := r]> h))).
  assert (Hl : l ∉ dom (<[lo := r]> h)) by apply is_fresh.
  apply not_elem_of_dom, lookup_insert_None in Hl as [Hh Hne].
  exists l. split; [|done]. unfold alloc. fold l. by rewrite insert_insert_ne.
Qed.

(** New memory next to the object of [out] is new memory next to the rest. *)
Lemma grow (h m : memory) lo r l v :
  l <> lo -> h !! l = None ->
  <[l := v]> (<[lo := r]> h ∪ m) = <[lo := r]> (h ∪ <[l := v]> m).
Proof.
  intros Hne Hl. rewrite <- insert_union_l, insert_insert_ne by done.
  by rewrite insert_union_r.
Qed.

(** ** The statements copy deeply *)

Lemma copy_value_copies t : flat t = true -> copies t copy_value.
Proof.
  intros Hflat h lo p q r v w x Hv Hx Hlo Hp _.
  destruct (set_path_total p v r w Hp) as [r' Hr'].
  exists ∅, r', v. split_and!; [|apply map_disjoint_empty_l|apply lookup_empty|done|by eapply view_flat].
  unfold copy_value. rewrite (bind_val _ _ _ _ _ (deref_val _ _ _ (load_insert _ _ _ _ _ Hlo Hv))).
  rewrite (assign_val _ _ _ _ _ _ Hr'). by rewrite map_union_empty.
Qed.

Lemma if_set_copies t f : copies_set t f -> copies_over t (if_set f).
Proof.
  intros Hf h lo p q r v w x Hv Hx Hlo Hp ->. unfold if_set.
  rewrite (bind_val _ _ _ _ _ (deref_val _ _ _ (load_insert _ _ _ _ _ Hlo Hv))).
  destruct (is_nil v) eqn:Hnil; [|by eapply Hf].
  exists ∅, r, v. split_and!; [|apply map_disjoint_empty_l|apply lookup_empty| |].
  - by rewrite map_union_empty.
  - by apply set_path_same.
  - by eapply view_is_nil.
Qed.

Lemma view_pointer h t v x :
  view h (Pointer t) v = Some x -> is_nil v = false ->
  exists q w y, v = VPtr (Some q) /\ load h q = Some w /\ view h t w = Some y /\ x = XPtr y.
Proof.
  destruct v as [|[q|]|[]|[]| |]; simpl; try done. intros Hx _.
  destruct (load h q) as [w|] eqn:E; simpl in Hx; [|done].
  destruct (view h t w) as [y|] eqn:Ey; simpl in Hx; [|done].
  injection Hx as <-. eauto 10.
Qed.

Lemma new_then_copies t f : copies t f -> copies_set (Pointer t) (new_then t f).
Proof.
  intros Hf h lo p q r v w x Hv Hx Hlo Hp Hnil.
  destruct (view_pointer _ _ _ _ Hx Hnil) as (q0 & v0 & x0 & -> & Hq0 & Hx0 & ->).
  destruct (alloc_val h lo r (zero t)) as (l & Ha & Hne & Hl).
  destruct (set_path_total p (VPtr (Some (Ptr l []))) r w Hp) as [r1 Hr1].
  unfold new_then, new.
  erewrite bind_val; [|by erewrite bind_val; [|exact Ha]].
  erewrite bind_val; [|by apply assign_val].
  assert (Hsub : h ⊆ <[lo := r1]> (<[l := zero t]> h)).
  { transitivity (<[l := zero t]> h); apply insert_subseteq; [done|]. by rewrite lookup_insert_ne. }
  erewrite bind_val; [|apply deref_ptr_val; by eapply load_mono].
  erewrite bind_val; [|apply deref_ptr_val; rewrite load_insert_eq; by eapply get_set_path].
  rewrite insert_insert_ne by done.
  assert (Hsub' : h ⊆ <[lo := r1]> h) by by apply insert_subseteq.
  destruct (Hf (<[lo := r1]> h) l [] q0 (zero t) v0 (zero t) x0) as (m & r' & v' & -> & Hd & Hm & [= ->] & Hv').
  { by eapply load_mono. }
  { by eapply view_mono. }
  { by rewrite lookup_insert_ne. }
  { done. }
  { done. }
  apply map_disjoint_insert_r in Hd as [Hmlo Hd].
  exists (<[l := r']> m), r1, (VPtr (Some (Ptr l []))). split_and!.
  - by rewrite grow.
  - by apply map_disjoint_insert_l.
  - by rewrite lookup_insert_ne.
  - done.
  - simpl. rewrite load_insert_eq. simpl.
    by rewrite (view_mono m _ _ _ _ (insert_subseteq _ _ _ Hm) Hv').
Qed.

(** Memory [h] with the object of [out] and a new array [l] that holds [es]. *)
Definition filling (h m : memory) lo r l es : memory := <[lo := r]> (h ∪ <[l := VArray es]> m).

(** What stays true of the memory [m] that a copy adds. *)
Definition added (h m : memory) lo : Prop := m ##ₘ h /\ m !! lo = None.

Lemma added_empty h lo : added h ∅ lo.
Proof. split; [apply map_disjoint_empty_l|apply lookup_empty]. Qed.

Lemma added_union h m m2 lo : added h m lo -> added (h ∪ m) m2 lo -> added h (m ∪ m2) lo.
Proof.
  intros [Hd Hm] [Hd2 Hm2]. split; [|by apply lookup_union_None].
  apply map_disjoint_union_r in Hd2 as [? ?]. by apply map_disjoint_union_l.
Qed.

Lemma added_subseteq h m m2 lo : added (h ∪ m) m2 lo -> m2 ⊆ m ∪ m2.
Proof.
  intros [[_ Hd]%map_disjoint_union_r _]. by apply map_union_subseteq_r.
Qed.

Lemma added_insert h m lo r l :
  h !! lo = None -> added (<[lo := r]> h) m l -> added h m lo /\ m !! l = None.
Proof. intros Hlo [[Hml Hd]%map_disjoint_insert_r Hm]. done. Qed.

Lemma filling_eq h m lo r l es :
  l <> lo -> h !! l = None -> filling h m lo r l es = <[l := VArray es]> (<[lo := r]> (h ∪ m)).
Proof. intros Hne Hl. unfold filling. rewrite <- grow by done. by rewrite (insert_union_l h m). Qed.

(** One turn of the loop, once its body has filled the element. *)
Lemma turn_val (c : M memory unit) (h m m2 : memory) lo r l ws z zs r' w :
  l <> lo -> h !! l = None -> h !! lo = None -> added h m lo -> m !! l = None ->
  c (<[l := VArray (ws ++ z :: zs)]> (<[lo := r]> (h ∪ m)))
  = Ret (<[l := r']> (<[lo := r]> (h ∪ m) ∪ m2), Val tt) ->
  added (<[lo := r]> (h ∪ m)) m2 l ->
  set_path [Index (length ws)] w (VArray (ws ++ z :: zs)) = Some r' ->
  c (filling h m lo r l (ws ++ z :: zs))
  = Ret (filling h (m ∪ m2) lo r l ((ws ++ [w]) ++ zs), Val tt)
  /\ added h (m ∪ m2) lo /\ (m ∪ m2) !! l = None /\ m ⊆ m ∪ m2 /\ m2 ⊆ m ∪ m2.
Proof.
  intros Hne Hl Hlo Hadd Hml E Hadd2 Hset.
  assert (Hlo' : (h ∪ m) !! lo = None) by (apply lookup_union_None; split; [done|apply Hadd]).
  pose proof Hadd2 as [_ Hm2]. apply added_insert in Hadd2 as [Hadd2 _]; [|done].
  rewrite !filling_eq by done. split_and!.
  - rewrite E. do 3 f_equal.
    + simpl in Hset. rewrite list_lookup_middle in Hset by done. injection Hset as <-.
      by rewrite insert_app_r_alt, Nat.sub_diag, <- app_assoc by lia.
    + by rewrite <- insert_union_l, map_union_assoc.
  - by apply added_union.
  - by apply lookup_union_None.
  - apply map_union_subseteq_l.
  - by eapply added_subseteq.
Qed.

Lemma subseteq_filling (h m : memory) lo r :
  h !! lo = None -> added h m lo -> h ⊆ <[lo := r]> (h ∪ m).
Proof.
  intros Hlo Hadd. transitivity (h ∪ m); [apply map_union_subseteq_l|].
  apply insert_subseteq, lookup_union_None. split; [done|apply Hadd].
Qed.

Lemma filling_lookup (h m : memory) lo r l :
  l <> lo -> h !! l = None -> m !! l = None -> <[lo := r]> (h ∪ m) !! l = None.
Proof. intros Hne Hl Hml. rewrite lookup_insert_ne by done. by apply lookup_union_None. Qed.

Lemma make_each_turn t body (h m : memory) lo r l ws z zs q v x :
  copies t body ->
  l <> lo -> h !! l = None -> h !! lo = None -> added h m lo -> m !! l = None ->
  load h q = Some v -> view h t v = Some x ->
  exists m2 w,
    body q (Ptr l [Index (length ws)]) (filling h m lo r l (ws ++ z :: zs))
    = Ret (filling h (m ∪ m2) lo r l ((ws ++ [w]) ++ zs), Val tt)
    /\ added h (m ∪ m2) lo /\ (m ∪ m2) !! l = None /\ m ⊆ m ∪ m2
    /\ view (m ∪ m2) t w = Some x.
Proof.
  intros Hbody Hne Hl Hlo Hadd Hml Hq Hx.
  pose proof (subseteq_filling h m lo r Hlo Hadd) as Hsub.
  destruct (Hbody (<[lo := r]> (h ∪ m)) l [Index (length ws)] q (VArray (ws ++ z :: zs)) v z x)
    as (m2 & r' & w & E & Hd & Hm2 & Hset & Hw).
  { by eapply load_mono. }
  { by eapply view_mono. }
  { by apply filling_lookup. }
  { simpl. by rewrite list_lookup_middle. }
  { done. }
  destruct (turn_val _ h m m2 lo r l ws z zs r' w Hne Hl Hlo Hadd Hml E (conj Hd Hm2) Hset)
    as (? & ? & ? & ? & Hm).
  exists m2, w. split_and!; try done. by eapply view_mono.
Qed.

Lemma view_slice h t v x :
  view h (Slice t) v = Some x -> is_nil v = false ->
  exists l off n es xs,
    v = VSlice (Some (l, off, n)) /\ h !! l = Some (VArray es) /\ (off + n <= length es)%nat
    /\ mapM (view h t) (take n (drop off es)) = Some xs /\ x = XSlice xs.
Proof.
  destruct v as [|[q|]|[[[l off] n]|]|[]| |]; simpl; try done. intros Hx _.
  destruct (h !! l) as [[]|] eqn:E; try done. case_decide; [|done].
  destruct (mapM _ _) as [ys|] eqn:Ey; simpl in Hx; [|done].
  injection Hx as <-. eauto 10.
Qed.

Lemma index_val (h : memory) l off n i :
  (i < n)%nat ->
  index (VSlice (Some (l, off, n))) i h = Ret (h, Val (Ptr l [Index (off + i)])).
Proof. intros Hi. unfold index. by rewrite decide_True. Qed.

(** The statement of the loop's body. *)
Definition each_body (body : action) (in_ out : ptr) (i : nat) : M memory unit :=
  s' <- deref in_ ;;
  q <- index s' i ;;
  o' <- deref out ;;
  p <- index o' i ;;
  body q p.

Lemma each_body_val body (h m : memory) lo r q p ls off n l i es :
  l <> lo -> h !! l = None -> h !! lo = None -> added h m lo ->
  load h q = Some (VSlice (Some (ls, off, n))) ->
  get_path p r = Some (VSlice (Some (l, 0%nat, n))) -> (i < n)%nat ->
  each_body body q (Ptr lo p) i (filling h m lo r l es)
  = body (Ptr ls [Index (off + i)]) (Ptr l [Index i]) (filling h m lo r l es).
Proof.
  intros Hne Hl Hlo Hadd Hq Hp Hi. unfold each_body.
  erewrite bind_val; [|apply deref_val; eapply load_mono; [|exact Hq]].
  2:{ unfold filling. transitivity (h ∪ <[l := VArray es]> m); [apply map_union_subseteq_l|].
      apply insert_subseteq, lookup_union_None. rewrite lookup_insert_ne by done.
      split; [done|apply Hadd]. }
  erewrite bind_val; [|by apply index_val].
  erewrite bind_val; [|apply deref_val; unfold filling; by rewrite load_insert_eq].
  by erewrite bind_val; [|by apply index_val].
Qed.

(** The loop fills the array, from the element it has reached, when each turn
    makes of a source element that [src] relates to [x] one that [dst] does. *)
Definition turns (body : action) (h : memory) lo r l (src : val -> tree -> Prop)
    (dst : memory -> val -> tree -> Prop) (z : val) : Prop :=
  forall m ws zs q v x,
    added h m lo -> m !! l = None -> load h q = Some v -> src v x ->
    exists m2 w,
      body q (Ptr l [Index (length ws)]) (filling h m lo r l (ws ++ z :: zs))
      = Ret (filling h (m ∪ m2) lo r l ((ws ++ [w]) ++ zs), Val tt)
      /\ added h (m ∪ m2) lo /\ (m ∪ m2) !! l = None /\ m ⊆ m ∪ m2
      /\ dst (m ∪ m2) w x.

Lemma fill_loop body (h : memory) lo p r l q ls off n es xs z src dst :
  turns body h lo r l src dst z ->
  (forall m m' w x, m ⊆ m' -> dst m w x -> dst m' w x) ->
  l <> lo -> h !! l = None -> h !! lo = None ->
  load h q = Some (VSlice (Some (ls, off, n))) ->
  h !! ls = Some (VArray es) -> (off + n <= length es)%nat ->
  Forall2 src (take n (drop off es)) xs ->
  get_path p r = Some (VSlice (Some (l, 0%nat, n))) ->
  forall k m ws,
    (length ws + k = n)%nat -> added h m lo -> m !! l = None ->
    Forall2 (dst m) ws (take (length ws) xs) ->
    exists m' ws',
      for_each (seq (length ws) k) (each_body body q (Ptr lo p))
        (filling h m lo r l (ws ++ replicate k z))
      = Ret (filling h m' lo r l ws', Val tt)
      /\ length ws' = n /\ added h m' lo /\ m' !! l = None
      /\ Forall2 (dst m') ws' xs.
Proof.
  intros Hbody Hmono Hne Hl Hlo Hq Hls Hlen Hxs Hp.
  assert (Hxn : length xs = n).
  { apply Forall2_length in Hxs. rewrite <- Hxs, length_take, length_drop. lia. }
  induction k as [|k IH]; intros m ws Hk Hadd Hml Hws; cbn [replicate seq for_each].
  { exists m, ws. rewrite app_nil_r. split_and!; try done; [lia|].
    by rewrite take_ge in Hws by lia. }
  set (i := length ws).
  assert (Hi : (i < n)%nat) by lia.
  destruct (lookup_lt_is_Some_2 xs i) as [x Hx]; [lia|].
  destruct (Forall2_lookup_r _ _ _ _ _ Hxs Hx) as (e & He & Hvx).
  rewrite lookup_take_lt, lookup_drop in He by done.
  destruct (Hbody m ws (replicate k z) (Ptr ls [Index (off + i)]) e x)
    as (m2 & w & E & Hadd2 & Hml2 & Hsub & Hw); try done.
  { unfold load. simpl. rewrite Hls. simpl. by rewrite He. }
  rewrite (bind_val _ _ _ (filling h (m ∪ m2) lo r l ((ws ++ [w]) ++ replicate k z)) tt);
    [|by rewrite (each_body_val _ _ _ _ _ _ _ ls off n)].
  replace (S i) with (length (ws ++ [w])) by (rewrite length_app; simpl; lia).
  apply IH; [rewrite length_app; simpl; lia|done|done|].
  replace (length (ws ++ [w])) with (S i) by (rewrite length_app; simpl; lia).
  rewrite (take_S_r _ _ _ Hx).
  apply Forall2_app; [|by repeat constructor].
  eapply Forall2_impl; [exact Hws|]. intros u y. by apply Hmono.
Qed.

(** The statement as a whole, up to what the elements of the new array hold. *)
Lemma make_each_val t body (h : memory) lo p q r w ls off n es xs src dst :
  (forall l r1, l <> lo -> h !! l = None -> turns body h lo r1 l src dst (zero t)) ->
  (forall m m' w x, m ⊆ m' -> dst m w x -> dst m' w x) ->
  h !! lo = None -> load h q = Some (VSlice (Some (ls, off, n))) ->
  h !! ls = Some (VArray es) -> (off + n <= length es)%nat ->
  Forall2 src (take n (drop off es)) xs ->
  get_path p r = Some w ->
  exists l m ws r1,
    make_each t body q (Ptr lo p) (<[lo := r]> h)
    = Ret (<[lo := r1]> (h ∪ <[l := VArray ws]> m), Val tt)
    /\ set_path p (VSlice (Some (l, 0%nat, n))) r = Some r1
    /\ l <> lo /\ h !! l = None /\ added h m lo /\ m !! l = None /\ length ws = n
    /\ Forall2 (dst m) ws xs.
Proof.
  intros Hbody Hmono Hlo Hq Hls Hlen Hxs Hp.
  destruct (alloc_val h lo r (VArray (replicate n (zero t)))) as (l & Ha & Hne & Hl).
  destruct (set_path_total p (VSlice (Some (l, 0%nat, n))) r w Hp) as [r1 Hr1].
  destruct (fill_loop body h lo p r1 l q ls off n es xs (zero t) src dst
              (Hbody l r1 Hne Hl) Hmono Hne Hl Hlo Hq Hls Hlen Hxs (get_set_path _ _ _ _ Hr1)
              n ∅ [] eq_refl (added_empty _ _) (lookup_empty _) (List.Forall2_nil _))
    as (m & ws & E & Hn & Hadd & Hml & Hws).
  exists l, m, ws, r1. split_and!; try done.
  unfold make_each. fold (each_body body q (Ptr lo p)).
  erewrite bind_val; [|apply deref_val; by apply load_insert].
  cbn [len]. unfold make.
  erewrite bind_val; [|by erewrite bind_val; [|exact Ha]].
  erewrite bind_val; [|by apply assign_val].
  unfold filling in E. cbn [app length] in E. rewrite insert_empty in E.
  rewrite <- E. by rewrite (insert_union_singleton_r h).
Qed.

Lemma make_each_copies t body : copies t body -> copies_set (Slice t) (make_each t body).
Proof.
  intros Hbody h lo p q r v w x Hv Hx Hlo Hp Hnil.
  destruct (view_slice _ _ _ _ Hx Hnil) as (ls & off & n & es & xs & -> & Hls & Hlen & Hxs & ->).
  destruct (make_each_val t body h lo p q r w ls off n es xs
              (fun v x => view h t v = Some x) (fun m w x => view m t w = Some x))
    as (l & m & ws & r1 & E & Hr1 & Hne & Hl & [Hd Hm] & Hml & Hn & Hws); try done.
  { intros l r1 Hne Hl m ws zs q0 v x ? ? ? ?.
    by eapply make_each_turn. }
  { intros m m' u y. apply view_mono. }
  { by apply mapM_Some. }
  exists (<[l := VArray ws]> m), r1, (VSlice (Some (l, 0%nat, n))). split_and!; try done.
  - by apply map_disjoint_insert_l.
  - by rewrite lookup_insert_ne.
  - simpl. rewrite lookup_insert_eq, decide_True by lia. rewrite drop_0, take_ge by lia.
    apply mapM_Some in Hws.
    by erewrite mapM_option_mono;
      [|intros u y _; apply view_mono, insert_subseteq, Hml|exact Hws].
Qed.

Lemma make_copy_copies t : flat t = true -> copies_set (Slice t) (make_copy t).
Proof. intros Hflat. by apply make_each_copies, copy_value_copies. Qed.

Lemma make_map_copies t : flat t = true -> copies_set (MapOf t) make_map.
Proof.
  intros Hflat h lo p q r v w x Hv Hx Hlo Hp Hnil.
  destruct v as [|[]|[]|[l|]| |]; try done. simpl in Hx.
  destruct (h !! l) as [[| | | |es|]|] eqn:El; try done.
  destruct (mapM _ es) as [xs|] eqn:Exs; simpl in Hx; [|done]. injection Hx as <-.
  destruct (alloc_val h lo r (VStruct es)) as (l' & Ha & Hne & Hl').
  destruct (set_path_total p (VMap (Some l')) r w Hp) as [r1 Hr1].
  exists {[l' := VStruct es]}, r1, (VMap (Some l')). split_and!.
  - unfold make_map. erewrite bind_val; [|apply deref_val; by apply load_insert].
    lazy beta iota. erewrite bind_val; [|apply deref_val, load_insert; [done|unfold load; simpl; by rewrite El]].
    rewrite (bind_val _ _ _ _ _ Ha). erewrite assign_val by done.
    by rewrite <- insert_union_singleton_r.
  - by apply map_disjoint_singleton_l.
  - by rewrite lookup_singleton_ne.
  - done.
  - simpl. rewrite lookup_singleton_eq. erewrite mapM_option_mono; [done| |exact Exs].
    intros [k w'] y _. simpl. destruct (view h t w') as [z|] eqn:Ez; simpl; [|done].
    rewrite (view_mono ∅ _ t w' z (map_empty_subseteq _)); [done|by eapply view_flat].
Qed.

Lemma new_copy_copies t f : copies_ptr t f -> copies_set (Pointer t) (new_copy f).
Proof.
  intros Hf h lo p q r v w x Hv Hx Hlo Hp Hnil.
  destruct (view_pointer _ _ _ _ Hx Hnil) as (q0 & v0 & x0 & -> & Hq0 & Hx0 & ->).
  destruct (Hf (<[lo := r]> h) (Some q0) (XPtr x0)) as (m & c & E & Hd & Hc).
  { eapply view_mono; [by apply insert_subseteq|exact Hx]. }
  apply map_disjoint_insert_r in Hd as [Hm Hd].
  destruct (set_path_total p (VPtr c) r w Hp) as [r1 Hr1].
  exists m, r1, (VPtr c). split_and!; try done. unfold new_copy.
  erewrite bind_val; [|apply deref_ptr_val; by apply load_insert].
  rewrite (bind_val _ _ _ _ _ E), <- insert_union_l. by apply assign_val.
Qed.

Lemma deep_copy_copies t f : copies t f -> copies_ptr t (deep_copy t f).
Proof.
  intros Hf h [q|] x Hx.
  2:{ exists ∅, None. rewrite map_union_empty. split_and!; [done|apply map_disjoint_empty_l|done]. }
  destruct (view_pointer _ _ _ _ Hx eq_refl) as (q0 & v & y & [= <-] & Hv & Hy & ->).
  set (l := fresh (dom h)).
  assert (Hl : h !! l = None) by (apply not_elem_of_dom, is_fresh).
  destruct (Hf h l [] q (zero t) v (zero t) y Hv Hy Hl eq_refl I)
    as (m & r' & v' & E & Hd & Hm & [= ->] & Hv').
  exists (<[l := r']> m), (Some (Ptr l [])). split_and!.
  - unfold deep_copy, new. erewrite bind_val; [|by erewrite bind_val; [|done]].
    fold l. rewrite (bind_val _ _ _ _ _ E). by rewrite <- insert_union_r.
  - by apply map_disjoint_insert_l.
  - simpl. rewrite load_insert_eq. simpl.
    by rewrite (view_mono m _ _ _ _ (insert_subseteq _ _ _ Hm) Hv').
Qed.

(** ** Structs

    A generated [DeepCopyInto] has a statement for every field whose type is not
    flat, in the order of the fields. *)
Inductive covers : list (string * shape) -> list (string * action) -> Prop :=
| covers_nil : covers [] []
| covers_flat f t ts stmts :
    flat t = true -> covers ts stmts -> covers ((f, t) :: ts) stmts
| covers_stmt f t ts a stmts :
    copies_over t a -> covers ts stmts -> covers ((f, t) :: ts) ((f, a) :: stmts).

Definition view_fields (h : memory) (fs : list (string * val)) (nt : string * shape) :
    option (string * tree) :=
  w ← field_get nt.1 fs; x ← view h nt.2 w; Some (nt.1, x).

Lemma view_fields_mono m h fs fs' nt x :
  m ⊆ h -> field_get nt.1 fs' = field_get nt.1 fs ->
  view_fields m fs nt = Some x -> view_fields h fs' nt = Some x.
Proof.
  unfold view_fields. intros Hsub ->. destruct (field_get nt.1 fs) as [w|]; simpl; [|done].
  destruct (view m nt.2 w) as [y|] eqn:E; simpl; [|done].
  by rewrite (view_mono _ _ _ _ _ Hsub E).
Qed.

Lemma view_fields_Some h fs nt y :
  view_fields h fs nt = Some y ->
  exists w x, field_get nt.1 fs = Some w /\ view h nt.2 w = Some x /\ y = (nt.1, x).
Proof.
  unfold view_fields. destruct (field_get nt.1 fs) as [w|]; simpl; [|done].
  destruct (view h nt.2 w) as [x|] eqn:E; simpl; [|done]. intros [= <-]. eauto.
Qed.

Lemma view_fields_intro h fs nt w x :
  field_get nt.1 fs = Some w -> view h nt.2 w = Some x -> view_fields h fs nt = Some (nt.1, x).
Proof. unfold view_fields. intros -> Hx. simpl. by rewrite Hx. Qed.

Lemma view_fields_flat h fs f t y :
  flat t = true -> view_fields h fs (f, t) = Some y -> view_fields ∅ fs (f, t) = Some y.
Proof.
  intros Hflat (w & x & Hw & Hx & ->)%view_fields_Some.
  eapply view_fields_intro; [exact Hw|by eapply view_flat].
Qed.

Lemma mapM_cons_Some {A B} (g : A -> option B) a l ys :
  mapM g (a :: l) = Some ys <-> exists y ys', ys = y :: ys' /\ g a = Some y /\ mapM g l = Some ys'.
Proof.
  simpl. split.
  - destruct (g a) as [y|]; simpl; [|done]. destruct (mapM g l) as [ys'|]; simpl; [|done].
    intros [= <-]. eauto 10.
  - intros (y & ys' & -> & -> & E). simpl. by rewrite E.
Qed.

Definition stmt_body (in_ out : ptr) (fa : string * action) : M memory unit :=
  fa.2 (at_field in_ fa.1) (at_field out fa.1).

(** The statement for one field. *)
Lemma stmt_copy t a (h : memory) lo p q r f fs fs' w x :
  copies_over t a ->
  load h q = Some (VStruct fs) -> h !! lo = None -> get_path p r = Some (VStruct fs') ->
  field_get f fs = Some w -> field_get f fs' = Some w -> view h t w = Some x ->
  exists m r' v',
    a (at_field q f) (at_field (Ptr lo p) f) (<[lo := r]> h) = Ret (<[lo := r']> (h ∪ m), Val tt)
    /\ added h m lo /\ set_path p (VStruct (field_set f v' fs')) r = Some r'
    /\ view m t v' = Some x.
Proof.
  intros Ha Hq Hlo Hp Hw Hw' Hx.
  destruct (Ha h lo (p ++ [Field f]) (at_field q f) r w w x)
    as (m & r' & v' & E & Hd & Hm & Hr' & Hv'); try done.
  { unfold load in *. simpl. destruct (h !! root q) as [rq|]; simpl in *; [|done].
    by rewrite (get_path_snoc _ _ _ _ Hq). }
  { by rewrite (get_path_snoc _ _ _ _ Hp). }
  exists m, r', v'. split_and!; try done.
  rewrite <- Hr'. symmetry.
  exact (set_path_snoc p (Field f) v' r r (VStruct fs') w (set_path_same _ _ _ Hp) Hw').
Qed.

Lemma stmts_copy ts stmts :
  covers ts stmts -> NoDup ts.*1 ->
  forall (h : memory) lo p q r fs fs' xs,
    load h q = Some (VStruct fs) -> h !! lo = None ->
    get_path p r = Some (VStruct fs') ->
    (forall f, f ∈ ts.*1 -> field_get f fs' = field_get f fs) ->
    mapM (view_fields h fs) ts = Some xs ->
    exists m r' fs2,
      for_each stmts (stmt_body q (Ptr lo p)) (<[lo := r]> h) = Ret (<[lo := r']> (h ∪ m), Val tt)
      /\ added h m lo /\ set_path p (VStruct fs2) r = Some r'
      /\ mapM (view_fields m fs2) ts = Some xs
      /\ (forall f, f ∉ ts.*1 -> field_get f fs2 = field_get f fs').
Proof.
  induction 1 as [|f t ts stmts Hflat Hc IH|f t ts a stmts Ha Hc IH];
    intros Hnd h lo p q r fs fs' xs Hq Hlo Hp Hsame Hxs.
  - exists ∅, r, fs'. rewrite map_union_empty. split_and!; try done.
    + apply added_empty.
    + by apply set_path_same.
  - rewrite fmap_cons in Hnd, Hsame. apply NoDup_cons in Hnd as [Hf Hnd].
    apply mapM_cons_Some in Hxs as (y & ys & -> & Hy & Hys).
    destruct (IH Hnd h lo p q r fs fs' ys) as (m & r' & fs2 & E & Hadd & Hr' & Hm & Hrest); try done.
    { intros g Hg. apply Hsame. by right. }
    exists m, r', fs2. split_and!; try done.
    + apply mapM_cons_Some. exists y, ys. split_and!; try done.
      apply view_fields_flat in Hy; [|done]. eapply view_fields_mono; [|rewrite Hrest|exact Hy]; try done.
      * apply map_empty_subseteq.
      * apply Hsame. by left.
    + intros g Hg. rewrite fmap_cons in Hg. apply Hrest. intros Hin. apply Hg. by right.
  - rewrite fmap_cons in Hnd, Hsame. apply NoDup_cons in Hnd as [Hf Hnd].
    apply mapM_cons_Some in Hxs as (y & ys & -> & Hy & Hys).
    destruct (view_fields_Some _ _ _ _ Hy) as (w & x & Hw & Hx & ->). simpl in Hw, Hx, Hf.
    assert (Hw' : field_get f fs' = Some w) by (rewrite Hsame; [done|by left]).
    destruct (stmt_copy t a h lo p q r f fs fs' w x) as (m1 & r1 & v1 & E1 & Hadd1 & Hr1 & Hv1); try done.
    assert (Hlo1 : (h ∪ m1) !! lo = None) by (apply lookup_union_None; split; [done|apply Hadd1]).
    destruct (IH Hnd (h ∪ m1) lo p q r1 fs (field_set f v1 fs') ys)
      as (m2 & r2 & fs2 & E2 & Hadd2 & Hr2 & Hm2 & Hrest); try done.
    { eapply load_mono; [apply map_union_subseteq_l|done]. }
    { by eapply get_set_path. }
    { intros g Hg. rewrite field_get_set_ne; [apply Hsame; by right|]. by intros ->. }
    { eapply mapM_option_mono; [|exact Hys]. intros nt y _.
      apply view_fields_mono; [apply map_union_subseteq_l|done]. }
    exists (m1 ∪ m2), r2, fs2. cbn [for_each]. split_and!.
    + unfold stmt_body at 1. rewrite (bind_val _ _ _ _ _ E1), E2. by rewrite map_union_assoc.
    + by apply added_union.
    + by rewrite <- (set_set_path _ _ _ _ _ Hr1).
    + apply mapM_cons_Some. eexists _, _. split_and!; [done| |].
      * eapply view_fields_intro; [rewrite Hrest by done; by eapply field_get_set|].
        eapply view_mono; [apply map_union_subseteq_l|done].
      * eapply mapM_option_mono; [|exact Hm2]. intros nt y _.
        apply view_fields_mono; [by eapply added_subseteq|done].
    + intros g Hg. rewrite fmap_cons in Hg. rewrite Hrest by (intros Hin; apply Hg; by right).
      apply field_get_set_ne. intros ->. apply Hg. by left.
Qed.

(** A function of the generated form copies deeply. *)
Lemma struct_into_copies ts stmts :
  covers ts stmts -> NoDup ts.*1 -> copies (Struct ts) (struct_into stmts).
Proof.
  intros Hc Hnd h lo p q r v w x Hv Hx Hlo Hp _.
  destruct v as [|[]|[]|[]|fs|]; try done. simpl in Hx. fold (view_fields h fs) in Hx.
  destruct (mapM (view_fields h fs) ts) as [xs|] eqn:Exs; simpl in Hx; [|done].
  injection Hx as <-.
  destruct (set_path_total p (VStruct fs) r w Hp) as [r0 Hr0].
  destruct (stmts_copy ts stmts Hc Hnd h lo p q r0 fs fs xs) as (m & r' & fs2 & E & [Hd Hm] & Hr' & Hxs & _);
    try done.
  { by eapply get_set_path. }
  exists m, r', (VStruct fs2). split_and!; try done.
  - unfold struct_into, copy_value.
    rewrite (bind_val _ _ _ (<[lo := r0]> h) tt); [exact E|].
    erewrite bind_val; [by apply assign_val|apply deref_val; by apply load_insert].
  - by rewrite <- (set_set_path _ _ _ _ _ Hr0).
  - simpl. fold (view_fields m fs2). by rewrite Hxs.
Qed.

Lemma deep_copy_object_val T f (h h' : memory) p c :
  f p h = Ret (h', Val c) ->
  deep_copy_object T f p h = Ret (h', Val (match c with Some q => Some (T, Some q) | None => None end)).
Proof. intros E. unfold deep_copy_object. rewrite (bind_val _ _ _ _ _ E). by destruct c. Qed.

(** ** A deep copy is isolated

    It succeeds, is deeply equal to the original, and leaves all memory as it
    was. From then on, whatever is written to the memory that was there cannot
    be seen through the copy; and whatever is written to the new memory cannot be
    seen through the original. *)
Definition isolated (t : shape) (f : option ptr -> M memory (option ptr)) : Prop :=
  forall (h : memory) p x,
    view h (Pointer t) (VPtr p) = Some x ->
    exists h' c,
      f p h = Ret (h', Val c)
      /\ h ⊆ h'
      /\ view h' (Pointer t) (VPtr c) = Some x
      /\ (forall h2 : memory, (forall l, h !! l = None -> h2 !! l = h' !! l) ->
            view h2 (Pointer t) (VPtr c) = Some x)
      /\ (forall h2 : memory, (forall l, is_Some (h !! l) -> h2 !! l = h' !! l) ->
            view h2 (Pointer t) (VPtr p) = Some x).

Lemma copies_ptr_isolated t f : copies_ptr t f -> isolated t f.
Proof.
  intros Hf h p x Hx. destruct (Hf h p x Hx) as (m & c & E & Hd & Hc).
  exists (h ∪ m), c. split_and!; [done|apply map_union_subseteq_l| | |].
  - eapply view_mono; [by apply map_union_subseteq_r|done].
  - intros h2 Hsame. eapply view_mono; [|exact Hc]. apply map_subseteq_spec. intros l v Hl.
    pose proof (map_disjoint_Some_l _ _ _ _ Hd Hl) as Hnone.
    by rewrite Hsame, lookup_union_r.
  - intros h2 Hsame. eapply view_mono; [|exact Hx]. apply map_subseteq_spec. intros l v Hl.
    rewrite Hsame by eauto. by apply lookup_union_Some_l.
Qed.

End Memory.

(** ** Automation *)

Create HintDb deep_copy discriminated.
#[export] Hint Resolve copies_copies_over copies_copies_set if_set_copies copy_value_copies
  make_copy_copies make_map_copies make_each_copies new_then_copies new_copy_copies
  deep_copy_copies : deep_copy.
#[export] Hint Extern 10 (flat _ = true) => reflexivity : deep_copy.

(** Proves that a function of the generated form has a deep statement for every
    field that needs one. *)
Ltac covers_go :=
  repeat first
    [ apply covers_nil
    | apply covers_stmt; [solve [eauto with deep_copy]|]
    | apply covers_flat; [solve [eauto with deep_copy]|] ].

Ltac struct_copies_go :=
  apply struct_into_copies;
  [ covers_go | apply (bool_decide_unpack _); vm_compute; exact I ].
