(* ===== verification/Converting.v ===== *)
(** Conversions between two versions of a type, on a memory with addresses.

    A generated conversion assigns the fields of its target one by one. Where a
    field has the same type in both versions it is assigned as it is, and where
    its type is another one of the same layout the pointer to it is cast
    ([unsafe.Pointer]) and assigned: what it points to is shared by the two
    objects. *)

From S2P Require Import Prelude GoStd Effects Memory.

(** ** Fields of fields *)

Definition at_fields (p : ptr) (fs : list string) : ptr := Ptr (root p) (path p ++ (Field <$> fs)).

Fixpoint shape_at (fs : list string) (t : shape) : option shape :=
  match fs with
  | [] => Some t
  | f :: fs' =>
      match t with
      | Struct ts => nt ← find_first (fun nt => String.eqb nt.1 f) ts; shape_at fs' nt.2
      | _ => None
      end
  end.

(** The field names of a struct are distinct, which Go demands. *)
Fixpoint wf (t : shape) : bool :=
  match t with
  | Basic _ | Pointer _ | Slice _ | MapOf _ => true
  | Struct ts => bool_decide (NoDup ts.*1) && forallb (fun nt => wf nt.2) ts
  end.

Fixpoint entry_get (f : string) (xs : list (string * tree)) : option tree :=
  match xs with
  | [] => None
  | (g, x) :: xs' => if String.eqb g f then Some x else entry_get f xs'
  end.

Fixpoint entry_put (f : string) (y : tree) (xs : list (string * tree)) : list (string * tree) :=
  match xs with
  | [] => []
  | (g, x) :: xs' => if String.eqb g f then (g, y) :: xs' else (g, x) :: entry_put f y xs'
  end.

(** What a field of a value holds, and a value with another field. *)
Fixpoint tree_at (fs : list string) (x : tree) : tree :=
  match fs with
  | [] => x
  | f :: fs' =>
      match x with
      | XStruct xs => match entry_get f xs with Some y => tree_at fs' y | None => XNil end
      | _ => XNil
      end
  end.

Fixpoint tree_put (fs : list string) (z x : tree) : tree :=
  match fs with
  | [] => z
  | f :: fs' =>
      match x with
      | XStruct xs =>
          match entry_get f xs with
          | Some y => XStruct (entry_put f (tree_put fs' z y) xs)
          | None => x
          end
      | _ => x
      end
  end.

(** What the zero value of a type holds. *)
Fixpoint zero_tree (t : shape) : tree :=
  match t with
  | Basic b => XScalar (zero_scalar b)
  | Pointer _ | Slice _ | MapOf _ => XNil
  | Struct ts => XStruct ((fun nt => (nt.1, zero_tree nt.2)) <$> ts)
  end.

(** ** Laws *)

Lemma view_struct h ts v x :
  view h (Struct ts) v = Some x ->
  exists vs xs, v = VStruct vs /\ x = XStruct xs /\ mapM (view_fields h vs) ts = Some xs.
Proof.
  destruct v as [|[]|[]|[]|vs|]; try done. simpl. fold (view_fields h vs). intros Hx.
  destruct (mapM (view_fields h vs) ts) as [xs|] eqn:E; simpl in Hx; [|done].
  injection Hx as <-. eauto.
Qed.

Lemma view_struct_intro h ts vs xs :
  mapM (view_fields h vs) ts = Some xs -> view h (Struct ts) (VStruct vs) = Some (XStruct xs).
Proof. intros Hxs. simpl. fold (view_fields h vs). by rewrite Hxs. Qed.

Lemma find_field_name f ts nt :
  find_first (fun nt : string * shape => String.eqb nt.1 f) ts = Some nt -> nt.1 = f /\ nt ∈ ts.
Proof. intros [Hin Heq]%find_first_Some. by apply String.eqb_eq in Heq. Qed.

Lemma view_fields_at h vs ts xs f nt :
  mapM (view_fields h vs) ts = Some xs ->
  find_first (fun nt => String.eqb nt.1 f) ts = Some nt ->
  exists w y, field_get f vs = Some w /\ view h nt.2 w = Some y /\ entry_get f xs = Some y.
Proof.
  revert xs. induction ts as [|[g t] ts IH]; intros xs Hxs; [done|].
  apply mapM_cons_Some in Hxs as (y & ys & -> & Hy & Hys).
  destruct (view_fields_Some _ _ _ _ Hy) as (w & z & Hw & Hz & ->). simpl in *.
  destruct (String.eqb g f) eqn:E; [|eauto].
  apply String.eqb_eq in E as ->. intros [= <-]. eauto.
Qed.

Lemma view_fields_put (h h' : memory) vs ts xs f nt w z :
  h ⊆ h' -> NoDup ts.*1 ->
  mapM (view_fields h vs) ts = Some xs ->
  find_first (fun nt => String.eqb nt.1 f) ts = Some nt ->
  view h' nt.2 w = Some z ->
  mapM (view_fields h' (field_set f w vs)) ts = Some (entry_put f z xs).
Proof.
  intros Hsub. revert xs. induction ts as [|[g t] ts IH]; intros xs Hnd Hxs; [done|].
  rewrite fmap_cons in Hnd. apply NoDup_cons in Hnd as [Hg Hnd].
  apply mapM_cons_Some in Hxs as (y & ys & -> & Hy & Hys).
  destruct (view_fields_Some _ _ _ _ Hy) as (u & y' & Hu & Hy' & ->).
  simpl in Hu, Hy', Hg. cbn [find_first entry_put fst]. destruct (String.eqb g f) eqn:E.
  - apply String.eqb_eq in E as ->. intros [= <-] Hz. apply mapM_cons_Some.
    eexists _, _. split_and!; [done| |].
    + eapply view_fields_intro; [by eapply field_get_set|done].
    + eapply mapM_option_mono; [|exact Hys]. intros [k s] y Hin.
      apply view_fields_mono; [done|]. simpl. apply field_get_set_ne. intros ->.
      apply Hg. by apply (list_elem_of_fmap_2 fst _ (k, s)).
  - intros Hf Hz. apply mapM_cons_Some. eexists _, _. split_and!; [done| |by eapply IH].
    eapply view_fields_mono; [done| |exact Hy]. simpl. apply field_get_set_ne.
    intros ->. by rewrite String.eqb_refl in E.
Qed.

Lemma wf_struct ts : wf (Struct ts) = true -> NoDup ts.*1 /\ (forall nt, nt ∈ ts -> wf nt.2 = true).
Proof.
  simpl. intros [Hnd Hall]%andb_prop. apply bool_decide_eq_true in Hnd. split; [done|].
  intros nt Hin. rewrite forallb_forall in Hall. by apply Hall, list_elem_of_In.
Qed.

Lemma view_get_path h fs t t' v x :
  view h t v = Some x -> shape_at fs t = Some t' ->
  exists w, get_path (Field <$> fs) v = Some w /\ view h t' w = Some (tree_at fs x).
Proof.
  revert t v x. induction fs as [|f fs IH]; intros t v x Hx Ht; simpl in *.
  { injection Ht as <-. eauto. }
  destruct t as [| | | |ts]; try done.
  destruct (find_first _ ts) as [nt|] eqn:Hf; simpl in Ht; [|done].
  destruct (view_struct _ _ _ _ Hx) as (vs & xs & -> & -> & Hxs).
  destruct (view_fields_at _ _ _ _ _ _ Hxs Hf) as (w & y & Hw & Hy & He).
  simpl. rewrite Hw, He. simpl. by eapply IH.
Qed.

Lemma view_set_path (h h' : memory) fs t t' v v' x w z :
  h ⊆ h' -> wf t = true ->
  view h t v = Some x -> shape_at fs t = Some t' ->
  view h' t' w = Some z -> set_path (Field <$> fs) w v = Some v' ->
  view h' t v' = Some (tree_put fs z x).
Proof.
  intros Hsub. revert t v v' x. induction fs as [|f fs IH]; intros t v v' x Hwf Hx Ht Hz Hv'.
  { injection Ht as <-. by injection Hv' as <-. }
  rewrite fmap_cons in Hv'. cbn [set_path step_get step_set shape_at tree_put] in *.
  destruct t as [| | | |ts]; try done.
  destruct (find_first _ ts) as [nt|] eqn:Hf; simpl in Ht; [|done].
  destruct (wf_struct _ Hwf) as [Hnd Hwfs].
  destruct (view_struct _ _ _ _ Hx) as (vs & xs & -> & -> & Hxs).
  destruct (view_fields_at _ _ _ _ _ _ Hxs Hf) as (u & y & Hu & Hy & He).
  rewrite Hu in Hv'. cbn [mbind option_bind] in Hv'.
  destruct (set_path (Field <$> fs) w u) as [u'|] eqn:Hu'; simpl in Hv'; [|done].
  injection Hv' as <-. rewrite He. apply view_struct_intro.
  eapply view_fields_put; try done. eapply IH; try done.
  by apply Hwfs, (find_field_name _ _ _ Hf).
Qed.

Lemma view_zero t : wf t = true -> view (∅ : memory) t (zero t) = Some (zero_tree t).
Proof.
  induction t as [b|t IH|t IH|t IH|ts IH] using shape_nested_ind; intros Hwf; try done.
  { simpl. rewrite decide_True; [done|]. by destruct b. }
  destruct (wf_struct _ Hwf) as [Hnd Hwfs]. apply view_struct_intro, mapM_Some.
  apply Forall2_fmap_r, Forall_Forall2_diag, Forall_forall. intros nt Hin.
  eapply view_fields_intro; [|rewrite Forall_forall in IH; by apply IH, Hwfs].
  clear IH Hwf Hwfs. induction ts as [|[g t] ts IH]; [by apply elem_of_nil in Hin|].
  rewrite fmap_cons in Hnd. apply NoDup_cons in Hnd as [Hg Hnd]. simpl.
  apply elem_of_cons in Hin as [->|Hin]; simpl; [by rewrite String.eqb_refl|].
  destruct (String.eqb g nt.1) eqn:E; [|by apply IH].
  apply String.eqb_eq in E as ->. destruct Hg. simpl. exact (list_elem_of_fmap_2 fst _ _ Hin).
Qed.

(** ** What the statements of a conversion do *)

Section Converting.
Context `{Signature}.

(** A statement about [in.F1] and [out.F2], where each may be a field of a field;
    [field F] is for a field that has the same name in both. *)
Definition on (fs1 fs2 : list string) (a : action) : action := fun in_ out =>
  a (at_fields in_ fs1) (at_fields out fs2).

Definition field (f : string) : action -> action := on [f] [f].

(** [out.F = *( *T)(unsafe.Pointer(&in.F))] and [out.F = ( *T)(unsafe.Pointer(in.F))]:
    the value as it is, taken for one of another type. *)
Definition cast : action := copy_value.

(** [out.F = ptr.To(x)] *)
Definition new_scalar (x : scalar) : action := fun in_ out =>
  l <- alloc (VScalar x) ;;
  assign out (VPtr (Some (Ptr l []))).

(** [if in.F { a } else { b }] *)
Definition if_field (fs : list string) (a b : action) : action := fun in_ out =>
  v <- deref (at_fields in_ fs) ;;
  match v with
  | VScalar (SBool c) => if c then a in_ out else b in_ out
  | _ => panic
  end.

(** [if in.Items != nil { *out = make([]T, len( *in)); for i := range *in { body } }
    else { out.Items = nil }] *)
Definition list_items (t : shape) (body : action) : action := fun in_ out =>
  v <- deref in_ ;;
  if is_nil v then assign out (VSlice None) else make_each t body in_ out.

(** [if err := a; err != nil { return fmt.Errorf(msg, err) }] *)
Definition wrapping (msg : string) (a : action) : action := fun in_ out =>
  e <- try (a in_ out) ;;
  lift_wrap msg e.

Definition in_order (stmts : list action) : action := fun in_ out =>
  for_each stmts (fun a => a in_ out).

(** ** What a conversion does

    [in] holds [x] in memory [h], and the target [out] holds [y]; neither is read
    through the object [lo] that [out] points into. The code stops normally,
    having changed only what [out] leads to, and added some memory; what is then
    in [out] holds [g x y], in the memory of [in] and the added one. *)
Definition converts (t1 t2 : shape) (a : action) (g : tree -> tree -> tree) : Prop :=
  forall (h hs : memory) lo p q r v w x y,
    hs ⊆ h ->
    load h q = Some v -> view hs t1 v = Some x ->
    h !! lo = None -> get_path p r = Some w -> view hs t2 w = Some y ->
    exists m r' v',
      a q (Ptr lo p) (<[lo := r]> h) = Ret (<[lo := r']> (h ∪ m), Val tt)
      /\ added h m lo /\ set_path p v' r = Some r' /\ view (hs ∪ m) t2 v' = Some (g x y).

Lemma cast_converts t : converts t t cast (fun x _ => x).
Proof.
  intros h hs lo p q r v w x y Hsub Hq Hx Hlo Hp Hy.
  destruct (set_path_total p v r w Hp) as [r' Hr'].
  exists ∅, r', v. split_and!; [|apply added_empty|done|by rewrite map_union_empty].
  unfold cast, copy_value.
  erewrite bind_val; [|apply deref_val; by apply load_insert].
  rewrite (assign_val _ _ _ _ _ _ Hr'). by rewrite map_union_empty.
Qed.

Lemma load_fields (h : memory) q v fs :
  load h q = Some v -> load h (at_fields q fs) = get_path (Field <$> fs) v.
Proof.
  unfold load. simpl. destruct (h !! root q) as [r|]; simpl; [|done].
  intros Hq. rewrite get_path_app, Hq. done.
Qed.

Lemma set_path_split p q w v x r r' :
  get_path p r = Some x -> set_path q w x = Some v -> set_path (p ++ q) w r = Some r' ->
  set_path p v r = Some r'.
Proof.
  intros Hp Hv Hr'. destruct (set_path_total p v r x Hp) as [r2 Hr2].
  rewrite (set_path_app _ _ _ _ _ _ _ Hp Hv Hr2) in Hr'. by injection Hr' as ->.
Qed.

Lemma on_converts t1 t2 t1' t2' fs1 fs2 a g :
  wf t2 = true -> shape_at fs1 t1 = Some t1' -> shape_at fs2 t2 = Some t2' ->
  converts t1' t2' a g ->
  converts t1 t2 (on fs1 fs2 a)
    (fun x y => tree_put fs2 (g (tree_at fs1 x) (tree_at fs2 y)) y).
Proof.
  intros Hwf Ht1 Ht2 Ha h hs lo p q r v w x y Hsub Hq Hx Hlo Hp Hy.
  destruct (view_get_path _ _ _ _ _ _ Hx Ht1) as (v1 & Hv1 & Hx1).
  destruct (view_get_path _ _ _ _ _ _ Hy Ht2) as (w1 & Hw1 & Hy1).
  destruct (Ha h hs lo (p ++ (Field <$> fs2)) (at_fields q fs1) r v1 w1
              (tree_at fs1 x) (tree_at fs2 y) Hsub)
    as (m & r' & z & E & Hadd & Hr' & Hz); try done.
  { by rewrite (load_fields _ _ _ _ Hq). }
  { by rewrite get_path_app, Hp. }
  destruct (set_path_total _ z _ _ Hw1) as [w' Hw'].
  exists m, r', w'. split_and!; try done.
  - by eapply set_path_split.
  - eapply view_set_path; [|exact Hwf|exact Hy|exact Ht2|exact Hz|exact Hw'].
    apply map_union_subseteq_l.
Qed.

Lemma in_order_nil_converts t1 t2 : converts t1 t2 (in_order []) (fun _ y => y).
Proof.
  intros h hs lo p q r v w x y Hsub Hq Hx Hlo Hp Hy. exists ∅, r, w.
  rewrite !map_union_empty. split_and!; try done; [apply added_empty|by apply set_path_same].
Qed.

Lemma in_order_cons_converts t1 t2 a stmts g1 g2 :
  converts t1 t2 a g1 -> converts t1 t2 (in_order stmts) g2 ->
  converts t1 t2 (in_order (a :: stmts)) (fun x y => g2 x (g1 x y)).
Proof.
  intros Ha Hs h hs lo p q r v w x y Hsub Hq Hx Hlo Hp Hy.
  destruct (Ha h hs lo p q r v w x y) as (m1 & r1 & v1 & E1 & Hadd1 & Hr1 & Hv1); try done.
  destruct (Hs (h ∪ m1) (hs ∪ m1) lo p q r1 v v1 x (g1 x y))
    as (m2 & r2 & v2 & E2 & Hadd2 & Hr2 & Hv2); try done.
  { apply map_union_mono_r; [|done]. by apply map_disjoint_sym, Hadd1. }
  { eapply load_mono; [apply map_union_subseteq_l|done]. }
  { eapply view_mono; [apply map_union_subseteq_l|done]. }
  { apply lookup_union_None. split; [done|apply Hadd1]. }
  { by eapply get_set_path. }
  exists (m1 ∪ m2), r2, v2. split_and!.
  - unfold in_order in *. cbn [for_each]. rewrite (bind_val _ _ _ _ _ E1), E2.
    by rewrite map_union_assoc.
  - by apply added_union.
  - by rewrite <- (set_set_path _ _ _ _ _ Hr1).
  - by rewrite map_union_assoc.
Qed.

Lemma new_scalar_converts t1 x : converts t1 (Pointer (Basic (basic_of x))) (new_scalar x)
  (fun _ _ => XPtr (XScalar x)).
Proof.
  intros h hs lo p q r v w z y Hsub Hq Hz Hlo Hp Hy.
  destruct (alloc_val h lo r (VScalar x)) as (l & Ha & Hne & Hl).
  destruct (set_path_total p (VPtr (Some (Ptr l []))) r w Hp) as [r1 Hr1].
  exists {[l := VScalar x]}, r1, (VPtr (Some (Ptr l []))). split_and!; try done.
  - unfold new_scalar. rewrite (bind_val _ _ _ _ _ Ha), (assign_val _ _ _ _ _ _ Hr1).
    by rewrite <- insert_union_singleton_r.
  - split; [by apply map_disjoint_singleton_l|by rewrite lookup_singleton_ne].
  - assert (Hls : hs !! l = None) by (by eapply lookup_weaken_None).
    rewrite <- insert_union_singleton_r by done.
    simpl. rewrite load_insert_eq. simpl. by rewrite decide_True.
Qed.

Lemma if_field_converts t1 t2 fs a b ga gb :
  shape_at fs t1 = Some (Basic TBool) ->
  converts t1 t2 a ga -> converts t1 t2 b gb ->
  converts t1 t2 (if_field fs a b)
    (fun x y => match tree_at fs x with XScalar (SBool true) => ga x y | _ => gb x y end).
Proof.
  intros Hfs Ha Hb h hs lo p q r v w x y Hsub Hq Hx Hlo Hp Hy. unfold if_field.
  destruct (view_get_path _ _ _ _ _ _ Hx Hfs) as (c & Hc & Hxc).
  assert (Hload : load (<[lo := r]> h) (at_fields q fs) = Some c).
  { apply load_insert; [done|]. by rewrite (load_fields _ _ _ _ Hq). }
  destruct c as [[| |c]|[]|[]|[]| |]; try done. simpl in Hxc. injection Hxc as <-.
  rewrite (bind_val _ _ _ _ _ (deref_val _ _ _ Hload)).
  destruct c; [by eapply Ha|by eapply Hb].
Qed.

Lemma wrapping_converts t1 t2 msg a g : converts t1 t2 a g -> converts t1 t2 (wrapping msg a) g.
Proof.
  intros Ha h hs lo p q r v w x y Hsub Hq Hx Hlo Hp Hy.
  destruct (Ha h hs lo p q r v w x y) as (m & r' & v' & E & Hrest); try done.
  exists m, r', v'. split; [|done]. unfold wrapping, bind, try. by rewrite E.
Qed.

Lemma convert_turns t1 t2 body g (h hs : memory) lo r l :
  converts t1 t2 body g -> wf t2 = true -> hs ⊆ h ->
  l <> lo -> h !! l = None -> h !! lo = None ->
  turns body h lo r l (fun v x => view hs t1 v = Some x)
    (fun m w x => view (hs ∪ m) t2 w = Some (g x (zero_tree t2))) (zero t2).
Proof.
  intros Hbody Hwf Hsub Hne Hl Hlo m ws zs q v x Hadd Hml Hq Hx.
  pose proof (subseteq_filling h m lo r Hlo Hadd) as Hsub2.
  destruct (Hbody (<[lo := r]> (h ∪ m)) hs l [Index (length ws)] q (VArray (ws ++ zero t2 :: zs))
              v (zero t2) x (zero_tree t2)) as (m2 & r' & w & E & Hadd2 & Hset & Hw).
  { by transitivity h. }
  { by eapply load_mono. }
  { done. }
  { by apply filling_lookup. }
  { simpl. by rewrite list_lookup_middle. }
  { eapply view_mono; [apply map_empty_subseteq|by apply view_zero]. }
  destruct (turn_val _ h m m2 lo r l ws (zero t2) zs r' w Hne Hl Hlo Hadd Hml E Hadd2 Hset)
    as (? & ? & ? & ? & Hm).
  exists m2, w. split_and!; try done. eapply view_mono; [by apply map_union_mono_l|done].
Qed.

Lemma list_items_converts t1 t2 body g :
  wf t2 = true -> converts t1 t2 body g ->
  converts (Slice t1) (Slice t2) (list_items t2 body)
    (fun x _ => match x with XSlice xs => XSlice ((fun x => g x (zero_tree t2)) <$> xs) | _ => XNil end).
Proof.
  intros Hwf Hbody h hs lo p q r v w x y Hsub Hq Hx Hlo Hp Hy. unfold list_items.
  rewrite (bind_val _ _ _ _ _ (deref_val _ _ _ (load_insert _ _ _ _ _ Hlo Hq))).
  destruct (is_nil v) eqn:Hnil.
  - destruct (set_path_total p (VSlice None) r w Hp) as [r1 Hr1].
    exists ∅, r1, (VSlice None). rewrite !map_union_empty.
    split_and!; [by apply assign_val|apply added_empty|done|].
    destruct v as [|[]|[]|[]| |]; try done. simpl in Hx. by injection Hx as <-.
  - destruct (view_slice _ _ _ _ Hx Hnil) as (ls & off & n & es & xs & -> & Hls & Hlen & Hxs & ->).
    destruct (make_each_val t2 body h lo p q r w ls off n es xs
                (fun v x => view hs t1 v = Some x)
                (fun m w x => view (hs ∪ m) t2 w = Some (g x (zero_tree t2))))
      as (l & m & ws & r1 & E & Hr1 & Hne & Hl & Hadd & Hml & Hn & Hws); try done.
    { intros l r1 Hne Hl. by eapply convert_turns. }
    { intros m m' u z Hm. by apply view_mono, map_union_mono_l. }
    { by eapply lookup_weaken. }
    { by apply mapM_Some. }
    pose proof (lookup_weaken_None _ _ _ Hl Hsub) as Hhl.
    exists (<[l := VArray ws]> m), r1, (VSlice (Some (l, 0%nat, n))). split_and!; try done.
    + split; [apply map_disjoint_insert_l; split; [done|apply Hadd]|]. rewrite lookup_insert_ne by done. apply Hadd.
    + rewrite <- insert_union_r by done. simpl.
      rewrite lookup_insert_eq, decide_True by lia. rewrite drop_0, take_ge by lia.
      assert (Hm : mapM (view (<[l := VArray ws]> (hs ∪ m)) t2) ws
                   = Some ((fun x => g x (zero_tree t2)) <$> xs)).
      { apply mapM_Some, Forall2_fmap_r. eapply Forall2_impl; [exact Hws|]. intros u z.
        apply view_mono, insert_subseteq. by apply lookup_union_None. }
      by rewrite Hm.
Qed.

(** ** Registration

    [runtime.Scheme] keeps conversion functions under pairs of types; its methods
    are not under [src/]. *)
Record registration := mkRegistration {
  RegGenerated : bool;
  RegFromName : string;
  RegFrom : shape;
  RegToName : string;
  RegTo : shape;
  RegConversion : action;
}.

Class Scheme := {
  scheme : Type;
  AddGeneratedConversionFunc : registration -> M scheme unit;
  AddConversionFunc : registration -> M scheme unit;
}.

(** [if err := s.Add...(in, out, f); err != nil { return err }] *)
Definition register `{!Scheme} (e : registration) : M scheme unit :=
  if RegGenerated e then AddGeneratedConversionFunc e else AddConversionFunc e.

(** ** What a conversion makes of a value, found by its structure *)

Class Converts (t1 t2 : shape) (a : action) := {
  converts_tree : tree -> tree -> tree;
  converts_ok : converts t1 t2 a converts_tree;
}.
Arguments converts_tree {t1 t2} a {_}.

Definition cast_Converts t : Converts t t cast := {| converts_ok := cast_converts t |}.

Definition on_Converts t1 t2 t1' t2' fs1 fs2 a :
    wf t2 = true -> shape_at fs1 t1 = Some t1' -> shape_at fs2 t2 = Some t2' ->
    Converts t1' t2' a -> Converts t1 t2 (on fs1 fs2 a) :=
  fun Hwf H1 H2 Ha => {| converts_ok := on_converts t1 t2 t1' t2' fs1 fs2 a _ Hwf H1 H2 converts_ok |}.

Definition in_order_nil_Converts t1 t2 : Converts t1 t2 (in_order []) :=
  {| converts_ok := in_order_nil_converts t1 t2 |}.

Definition in_order_cons_Converts t1 t2 a stmts :
    Converts t1 t2 a -> Converts t1 t2 (in_order stmts) -> Converts t1 t2 (in_order (a :: stmts)) :=
  fun Ha Hs => {| converts_ok := in_order_cons_converts t1 t2 a stmts _ _ converts_ok converts_ok |}.

Definition new_scalar_Converts t1 x : Converts t1 (Pointer (Basic (basic_of x))) (new_scalar x) :=
  {| converts_ok := new_scalar_converts t1 x |}.

Definition if_field_Converts t1 t2 fs a b :
    shape_at fs t1 = Some (Basic TBool) ->
    Converts t1 t2 a -> Converts t1 t2 b -> Converts t1 t2 (if_field fs a b) :=
  fun Hfs Ha Hb => {| converts_ok := if_field_converts t1 t2 fs a b _ _ Hfs converts_ok converts_ok |}.

Definition wrapping_Converts t1 t2 msg a : Converts t1 t2 a -> Converts t1 t2 (wrapping msg a) :=
  fun Ha => {| converts_ok := wrapping_converts t1 t2 msg a _ converts_ok |}.

Definition list_items_Converts t1 t2 body :
    wf t2 = true -> Converts t1 t2 body -> Converts (Slice t1) (Slice t2) (list_items t2 body) :=
  fun Hwf Hb => {| converts_ok := list_items_converts t1 t2 body _ Hwf converts_ok |}.

(** A conversion into a new object. *)
Definition converted (t2 : shape) (a : action) (q : ptr) : M memory ptr :=
  out <- new t2 ;;
  a q out ;;;
  ret out.

Lemma converted_val t1 t2 a `{!Converts t1 t2 a} (h : memory) q x :
  wf t2 = true ->
  view h (Pointer t1) (VPtr (Some q)) = Some (XPtr x) ->
  exists h' out,
    converted t2 a q h = Ret (h', Val out)
    /\ h ⊆ h' /\ h !! root out = None
    /\ view h' (Pointer t2) (VPtr (Some out)) = Some (XPtr (converts_tree a x (zero_tree t2))).
Proof.
  intros Hwf Hx. destruct (view_pointer _ _ _ _ Hx eq_refl) as (q0 & v & y & [= <-] & Hv & Hy & [= ->]).
  set (l := fresh (dom h)).
  assert (Hl : h !! l = None) by (apply not_elem_of_dom, is_fresh).
  destruct (converts_ok h h l [] q (zero t2) v (zero t2) y (zero_tree t2))
    as (m & r' & v' & E & [Hd Hm] & [= ->] & Hv'); try done.
  { eapply view_mono; [apply map_empty_subseteq|by apply view_zero]. }
  exists (<[l := r']> (h ∪ m)), (Ptr l []). split_and!; [| |done|].
  - unfold converted, new. erewrite bind_val; [|by erewrite bind_val; [|done]].
    fold l. by rewrite (bind_val _ _ _ _ _ E).
  - transitivity (h ∪ m); [apply map_union_subseteq_l|].
    apply insert_subseteq. by apply lookup_union_None.
  - simpl. rewrite load_insert_eq. simpl.
    rewrite (view_mono (h ∪ m) _ _ _ (converts_tree a y (zero_tree t2))); [done| |done].
    apply insert_subseteq. by apply lookup_union_None.
Qed.
End Converting.
Arguments converts_tree {_ t1 t2} a {_} _ _.

(** ** Automation *)

Lemma wf_intro ts :
  bool_decide (NoDup ts.*1) = true -> Forall (fun nt => wf nt.2 = true) ts -> wf (Struct ts) = true.
Proof.
  intros Hnd Hall. simpl. rewrite Hnd. simpl. apply forallb_forall. intros nt Hin.
  rewrite Forall_forall in Hall. by apply Hall, list_elem_of_In.
Qed.

Create HintDb wf discriminated.
#[export] Hint Extern 5 (wf _ = true) => reflexivity : wf.

Ltac wf_go :=
  apply wf_intro;
  [ vm_compute; reflexivity
  | repeat (constructor; [cbn [snd]; solve [eauto with wf]|]); constructor ].

(** The type of a field, without unfolding the types of the fields. *)
Ltac shape_go :=
  lazymatch goal with
  | |- shape_at _ ?t = _ => try unfold t; simpl; reflexivity
  end.

(** Finds what a conversion makes of a value, statement by statement. *)
Ltac converts_go :=
  lazymatch goal with
  | |- Converts _ _ (in_order []) => apply in_order_nil_Converts
  | |- Converts _ _ (in_order (_ :: _)) => apply in_order_cons_Converts; converts_go
  | |- Converts _ _ (wrapping _ _) => apply wrapping_Converts; converts_go
  | |- Converts _ _ (if_field _ _ _) => apply if_field_Converts; [shape_go|converts_go|converts_go]
  | |- Converts _ _ (on _ _ _) =>
      eapply on_Converts; [solve [eauto with wf]|shape_go|shape_go|converts_go]
  | |- Converts _ _ (field _ _) => unfold field; converts_go
  | |- Converts _ _ (list_items _ _) => apply list_items_Converts; [solve [eauto with wf]|converts_go]
  | |- Converts ?t _ (new_scalar ?x) => exact (new_scalar_Converts t x)
  | |- Converts ?t _ cast => exact (cast_Converts t)
  | |- Converts ?t _ copy_value => exact (cast_Converts t)
  | |- _ => typeclasses eauto
  end.
