(* ===== verification/ExternalTypes.v ===== *)
(** Types of Kubernetes and Cluster API that the API types of the providers are
    made of, as the generated deep copies use them: [metav1.TypeMeta],
    [metav1.ObjectMeta], [metav1.ListMeta], [metav1.Time], [metav1.Duration],
    [corev1.ObjectReference], and [ObjectMeta] and [Condition] of Cluster API.
    Their fields and their own deep copies are not under [src/]: they are
    parameters, with what the generator relies on as laws. *)

From S2P Require Import Prelude GoStd Effects Memory Converting.

Class ExternalTypes `{Signature} := {
  TypeMeta_shape : shape;
  ObjectMeta_shape : shape;
  ListMeta_shape : shape;
  Time_shape : shape;
  Duration_shape : shape;
  ObjectReference_shape : shape;
  ClusterObjectMeta_shape : shape;
  Condition_shape : shape;

  ObjectMeta_DeepCopyInto : action;
  ListMeta_DeepCopyInto : action;
  Time_DeepCopyInto : action;
  Time_DeepCopy : option ptr -> M memory (option ptr);
  ClusterObjectMeta_DeepCopyInto : action;
  Condition_DeepCopyInto : action;

  (** These three hold strings and numbers only: the generator assigns them. *)
  TypeMeta_flat : flat TypeMeta_shape = true;
  Duration_flat : flat Duration_shape = true;
  ObjectReference_flat : flat ObjectReference_shape = true;

  (** Their field names are distinct. *)
  TypeMeta_wf : wf TypeMeta_shape = true;
  ObjectMeta_wf : wf ObjectMeta_shape = true;
  ListMeta_wf : wf ListMeta_shape = true;
  Time_wf : wf Time_shape = true;
  Duration_wf : wf Duration_shape = true;
  ObjectReference_wf : wf ObjectReference_shape = true;
  ClusterObjectMeta_wf : wf ClusterObjectMeta_shape = true;
  Condition_wf : wf Condition_shape = true;

  (** Their own deep copies are deep. *)
  ObjectMeta_copies : copies ObjectMeta_shape ObjectMeta_DeepCopyInto;
  ListMeta_copies : copies ListMeta_shape ListMeta_DeepCopyInto;
  Time_copies : copies Time_shape Time_DeepCopyInto;
  Time_copies_ptr : copies_ptr Time_shape Time_DeepCopy;
  ClusterObjectMeta_copies : copies ClusterObjectMeta_shape ClusterObjectMeta_DeepCopyInto;
  Condition_copies : copies Condition_shape Condition_DeepCopyInto;
}.

#[export] Hint Resolve TypeMeta_flat Duration_flat ObjectReference_flat
  ObjectMeta_copies ListMeta_copies Time_copies Time_copies_ptr
  ClusterObjectMeta_copies Condition_copies : deep_copy.

#[export] Hint Resolve TypeMeta_wf ObjectMeta_wf ListMeta_wf Time_wf Duration_wf
  ObjectReference_wf ClusterObjectMeta_wf Condition_wf : wf.

(** ** A reference instance

    Some fields of each type, of every kind that the types have. *)
Section Reference.
Context `{Signature}.

Abbreviation str := (Basic TString).

Definition owner_fields : list (string * shape) :=
  [("Name", str); ("Controller", Pointer (Basic TBool))].

Definition owner_into : action :=
  struct_into [("Controller", if_set (new_then (Basic TBool) copy_value))].

Definition meta_fields : list (string * shape) :=
  [("Name", str); ("DeletionTimestamp", Pointer (Basic TInt)); ("Labels", MapOf str);
   ("OwnerReferences", Slice (Struct owner_fields)); ("Finalizers", Slice str)].

Definition meta_into : action :=
  struct_into
    [("DeletionTimestamp", if_set (new_copy (deep_copy (Basic TInt) copy_value)));
     ("Labels", if_set make_map);
     ("OwnerReferences", if_set (make_each (Struct owner_fields) owner_into));
     ("Finalizers", if_set (make_copy str))].

Definition list_meta_fields : list (string * shape) :=
  [("ResourceVersion", str); ("RemainingItemCount", Pointer (Basic TInt))].

Definition list_meta_into : action :=
  struct_into [("RemainingItemCount", if_set (new_then (Basic TInt) copy_value))].

Definition cluster_meta_fields : list (string * shape) :=
  [("Labels", MapOf str); ("Annotations", MapOf str)].

Definition cluster_meta_into : action :=
  struct_into [("Labels", if_set make_map); ("Annotations", if_set make_map)].

Definition condition_fields : list (string * shape) :=
  [("Type", str); ("Status", str); ("LastTransitionTime", Basic TInt); ("Reason", str)].

Definition condition_into : action := struct_into [("LastTransitionTime", copy_value)].

Lemma owner_copies : copies (Struct owner_fields) owner_into.
Proof. struct_copies_go. Qed.
Hint Resolve owner_copies : deep_copy.

Lemma meta_copies : copies (Struct meta_fields) meta_into.
Proof. struct_copies_go. Qed.

Lemma list_meta_copies : copies (Struct list_meta_fields) list_meta_into.
Proof. struct_copies_go. Qed.

Lemma cluster_meta_copies : copies (Struct cluster_meta_fields) cluster_meta_into.
Proof. struct_copies_go. Qed.

Lemma condition_copies : copies (Struct condition_fields) condition_into.
Proof. struct_copies_go. Qed.

#[export] Instance reference_types : ExternalTypes | 100 := {
  TypeMeta_shape := Struct [("Kind", str); ("APIVersion", str)];
  ObjectMeta_shape := Struct meta_fields;
  ListMeta_shape := Struct list_meta_fields;
  Time_shape := Basic TInt;
  Duration_shape := Struct [("Duration", Basic TInt)];
  ObjectReference_shape := Struct [("Kind", str); ("Namespace", str); ("Name", str)];
  ClusterObjectMeta_shape := Struct cluster_meta_fields;
  Condition_shape := Struct condition_fields;
  ObjectMeta_DeepCopyInto := meta_into;
  ListMeta_DeepCopyInto := list_meta_into;
  Time_DeepCopyInto := copy_value;
  Time_DeepCopy := deep_copy (Basic TInt) copy_value;
  ClusterObjectMeta_DeepCopyInto := cluster_meta_into;
  Condition_DeepCopyInto := condition_into;
  TypeMeta_flat := eq_refl;
  Duration_flat := eq_refl;
  ObjectReference_flat := eq_refl;
  TypeMeta_wf := eq_refl;
  ObjectMeta_wf := eq_refl;
  ListMeta_wf := eq_refl;
  Time_wf := eq_refl;
  Duration_wf := eq_refl;
  ObjectReference_wf := eq_refl;
  ClusterObjectMeta_wf := eq_refl;
  Condition_wf := eq_refl;
  ObjectMeta_copies := meta_copies;
  ListMeta_copies := list_meta_copies;
  Time_copies := copy_value_copies (Basic TInt) eq_refl;
  Time_copies_ptr := deep_copy_copies (Basic TInt) _ (copy_value_copies (Basic TInt) eq_refl);
  ClusterObjectMeta_copies := cluster_meta_copies;
  Condition_copies := condition_copies;
}.
End Reference.
