(* ===== verification/DeepCopyBootstrapV1beta2.v ===== *)
(** The deep copies of the API of the bootstrap provider, version v1beta2
    ([bootstrap/api/v1beta2/zz_generated.deepcopy.go]). [T_shape] is the
    type [T] with its fields in their order. *)

From S2P Require Import Prelude GoStd Effects Memory Converting ExternalTypes.

Section Copies.
Context `{Signature} `{!ExternalTypes}.

(** ** The types *)

Definition SecretFileSource_shape : shape :=
  Struct
    [("Name", Basic TString); ("Key", Basic TString)].

Definition FileSource_shape : shape :=
  Struct
    [("Secret", SecretFileSource_shape)].

Definition File_shape : shape :=
  Struct
    [("Path", Basic TString); ("Owner", Basic TString); ("Permissions", Basic TString);
     ("Encoding", Basic TString); ("Content", Basic TString);
     ("ContentFrom", Pointer FileSource_shape)].

Definition KThreesAgentConfig_shape : shape :=
  Struct
    [("NodeLabels", Slice (Basic TString)); ("NodeTaints", Slice (Basic TString));
     ("PrivateRegistry", Basic TString); ("KubeletArgs", Slice (Basic TString));
     ("KubeProxyArgs", Slice (Basic TString)); ("NodeName", Basic TString);
     ("AirGapped", Basic TBool); ("AirGappedInstallScriptPath", Basic TString)].

Definition KThreesServerConfig_shape : shape :=
  Struct
    [("KubeAPIServerArgs", Slice (Basic TString));
     ("KubeControllerManagerArgs", Slice (Basic TString));
     ("KubeSchedulerArgs", Slice (Basic TString)); ("TLSSan", Slice (Basic TString));
     ("BindAddress", Basic TString); ("HTTPSListenPort", Basic TString);
     ("AdvertiseAddress", Basic TString); ("AdvertisePort", Basic TString);
     ("ClusterCidr", Basic TString); ("ServiceCidr", Basic TString);
     ("ClusterDNS", Basic TString); ("ClusterDomain", Basic TString);
     ("DisableComponents", Slice (Basic TString));
     ("DeprecatedDisableExternalCloudProvider", Basic TBool);
     ("DisableCloudController", Pointer (Basic TBool));
     ("CloudProviderName", Pointer (Basic TString)); ("SystemDefaultRegistry", Basic TString);
     ("EtcdProxyImage", Basic TString)].

Definition KThreesConfigSpec_shape : shape :=
  Struct
    [("Files", Slice File_shape); ("PreK3sCommands", Slice (Basic TString));
     ("PostK3sCommands", Slice (Basic TString)); ("AgentConfig", KThreesAgentConfig_shape);
     ("ServerConfig", KThreesServerConfig_shape); ("Version", Basic TString)].

Definition KThreesConfigStatus_shape : shape :=
  Struct
    [("Ready", Basic TBool); ("BootstrapData", Slice (Basic TInt));
     ("DataSecretName", Pointer (Basic TString)); ("FailureReason", Basic TString);
     ("FailureMessage", Basic TString); ("ObservedGeneration", Basic TInt);
     ("Conditions", Slice Condition_shape)].

Definition KThreesConfig_shape : shape :=
  Struct
    [("TypeMeta", TypeMeta_shape); ("ObjectMeta", ObjectMeta_shape);
     ("Spec", KThreesConfigSpec_shape); ("Status", KThreesConfigStatus_shape)].

Definition KThreesConfigList_shape : shape :=
  Struct
    [("TypeMeta", TypeMeta_shape); ("ListMeta", ListMeta_shape);
     ("Items", Slice KThreesConfig_shape)].

Definition KThreesConfigTemplateResource_shape : shape :=
  Struct
    [("Spec", KThreesConfigSpec_shape)].

Definition KThreesConfigTemplateSpec_shape : shape :=
  Struct
    [("Template", KThreesConfigTemplateResource_shape)].

Definition KThreesConfigTemplate_shape : shape :=
  Struct
    [("TypeMeta", TypeMeta_shape); ("ObjectMeta", ObjectMeta_shape);
     ("Spec", KThreesConfigTemplateSpec_shape)].

Definition KThreesConfigTemplateList_shape : shape :=
  Struct
    [("TypeMeta", TypeMeta_shape); ("ListMeta", ListMeta_shape);
     ("Items", Slice KThreesConfigTemplate_shape)].

(** ** The functions *)

Definition SecretFileSource_DeepCopyInto : action :=
  struct_into
    [].

Definition SecretFileSource_DeepCopy : option ptr -> M memory (option ptr) :=
  deep_copy SecretFileSource_shape SecretFileSource_DeepCopyInto.

Definition FileSource_DeepCopyInto : action :=
  struct_into
    [("Secret", copy_value)].

Definition FileSource_DeepCopy : option ptr -> M memory (option ptr) :=
  deep_copy FileSource_shape FileSource_DeepCopyInto.

Definition File_DeepCopyInto : action :=
  struct_into
    [("ContentFrom", if_set (new_then FileSource_shape copy_value))].

Definition File_DeepCopy : option ptr -> M memory (option ptr) :=
  deep_copy File_shape File_DeepCopyInto.

Definition KThreesAgentConfig_DeepCopyInto : action :=
  struct_into
    [("NodeLabels", if_set (make_copy (Basic TString)));
     ("NodeTaints", if_set (make_copy (Basic TString)));
     ("KubeletArgs", if_set (make_copy (Basic TString)));
     ("KubeProxyArgs", if_set (make_copy (Basic TString)))].

Definition KThreesAgentConfig_DeepCopy : option ptr -> M memory (option ptr) :=
  deep_copy KThreesAgentConfig_shape KThreesAgentConfig_DeepCopyInto.

Definition KThreesServerConfig_DeepCopyInto : action :=
  struct_into
    [("KubeAPIServerArgs", if_set (make_copy (Basic TString)));
     ("KubeControllerManagerArgs", if_set (make_copy (Basic TString)));
     ("KubeSchedulerArgs", if_set (make_copy (Basic TString)));
     ("TLSSan", if_set (make_copy (Basic TString)));
     ("DisableComponents", if_set (make_copy (Basic TString)));
     ("DisableCloudController", if_set (new_then (Basic TBool) copy_value));
     ("CloudProviderName", if_set (new_then (Basic TString) copy_value))].

Definition KThreesServerConfig_DeepCopy : option ptr -> M memory (option ptr) :=
  deep_copy KThreesServerConfig_shape KThreesServerConfig_DeepCopyInto.

Definition KThreesConfigSpec_DeepCopyInto : action :=
  struct_into
    [("Files", if_set (make_each File_shape File_DeepCopyInto));
     ("PreK3sCommands", if_set (make_copy (Basic TString)));
     ("PostK3sCommands", if_set (make_copy (Basic TString)));
     ("AgentConfig", KThreesAgentConfig_DeepCopyInto);
     ("ServerConfig", KThreesServerConfig_DeepCopyInto)].

Definition KThreesConfigSpec_DeepCopy : option ptr -> M memory (option ptr) :=
  deep_copy KThreesConfigSpec_shape KThreesConfigSpec_DeepCopyInto.

Definition KThreesConfigStatus_DeepCopyInto : action :=
  struct_into
    [("BootstrapData", if_set (make_copy (Basic TInt)));
     ("DataSecretName", if_set (new_then (Basic TString) copy_value));
     ("Conditions", if_set (make_each Condition_shape Condition_DeepCopyInto))].

Definition KThreesConfigStatus_DeepCopy : option ptr -> M memory (option ptr) :=
  deep_copy KThreesConfigStatus_shape KThreesConfigStatus_DeepCopyInto.

Definition KThreesConfig_DeepCopyInto : action :=
  struct_into
    [("TypeMeta", copy_value); ("ObjectMeta", ObjectMeta_DeepCopyInto);
     ("Spec", KThreesConfigSpec_DeepCopyInto); ("Status", KThreesConfigStatus_DeepCopyInto)].

Definition KThreesConfig_DeepCopy : option ptr -> M memory (option ptr) :=
  deep_copy KThreesConfig_shape KThreesConfig_DeepCopyInto.

Definition KThreesConfig_DeepCopyObject : option ptr -> M memory interface :=
  deep_copy_object "KThreesConfig" KThreesConfig_DeepCopy.

Definition KThreesConfigList_DeepCopyInto : action :=
  struct_into
    [("TypeMeta", copy_value); ("ListMeta", ListMeta_DeepCopyInto);
     ("Items", if_set (make_each KThreesConfig_shape KThreesConfig_DeepCopyInto))].

Definition KThreesConfigList_DeepCopy : option ptr -> M memory (option ptr) :=
  deep_copy KThreesConfigList_shape KThreesConfigList_DeepCopyInto.

Definition KThreesConfigList_DeepCopyObject : option ptr -> M memory interface :=
  deep_copy_object "KThreesConfigList" KThreesConfigList_DeepCopy.

Definition KThreesConfigTemplateResource_DeepCopyInto : action :=
  struct_into
    [("Spec", KThreesConfigSpec_DeepCopyInto)].

Definition KThreesConfigTemplateResource_DeepCopy : option ptr -> M memory (option ptr) :=
  deep_copy KThreesConfigTemplateResource_shape KThreesConfigTemplateResource_DeepCopyInto.

Definition KThreesConfigTemplateSpec_DeepCopyInto : action :=
  struct_into
    [("Template", KThreesConfigTemplateResource_DeepCopyInto)].

Definition KThreesConfigTemplateSpec_DeepCopy : option ptr -> M memory (option ptr) :=
  deep_copy KThreesConfigTemplateSpec_shape KThreesConfigTemplateSpec_DeepCopyInto.

Definition KThreesConfigTemplate_DeepCopyInto : action :=
  struct_into
    [("TypeMeta", copy_value); ("ObjectMeta", ObjectMeta_DeepCopyInto);
     ("Spec", KThreesConfigTemplateSpec_DeepCopyInto)].

Definition KThreesConfigTemplate_DeepCopy : option ptr -> M memory (option ptr) :=
  deep_copy KThreesConfigTemplate_shape KThreesConfigTemplate_DeepCopyInto.

Definition KThreesConfigTemplate_DeepCopyObject : option ptr -> M memory interface :=
  deep_copy_object "KThreesConfigTemplate" KThreesConfigTemplate_DeepCopy.

Definition KThreesConfigTemplateList_DeepCopyInto : action :=
  struct_into
    [("TypeMeta", copy_value); ("ListMeta", ListMeta_DeepCopyInto);
     ("Items", if_set (make_each KThreesConfigTemplate_shape KThreesConfigTemplate_DeepCopyInto))].

Definition KThreesConfigTemplateList_DeepCopy : option ptr -> M memory (option ptr) :=
  deep_copy KThreesConfigTemplateList_shape KThreesConfigTemplateList_DeepCopyInto.

Definition KThreesConfigTemplateList_DeepCopyObject : option ptr -> M memory interface :=
  deep_copy_object "KThreesConfigTemplateList" KThreesConfigTemplateList_DeepCopy.

(** All of them, each with the type that it copies. *)
Definition deep_copies : list (shape * (option ptr -> M memory (option ptr))) :=
  [(SecretFileSource_shape, SecretFileSource_DeepCopy);
   (FileSource_shape, FileSource_DeepCopy); (File_shape, File_DeepCopy);
   (KThreesAgentConfig_shape, KThreesAgentConfig_DeepCopy);
   (KThreesServerConfig_shape, KThreesServerConfig_DeepCopy);
   (KThreesConfigSpec_shape, KThreesConfigSpec_DeepCopy);
   (KThreesConfigStatus_shape, KThreesConfigStatus_DeepCopy);
   (KThreesConfig_shape, KThreesConfig_DeepCopy);
   (KThreesConfigList_shape, KThreesConfigList_DeepCopy);
   (KThreesConfigTemplateResource_shape, KThreesConfigTemplateResource_DeepCopy);
   (KThreesConfigTemplateSpec_shape, KThreesConfigTemplateSpec_DeepCopy);
   (KThreesConfigTemplate_shape, KThreesConfigTemplate_DeepCopy);
   (KThreesConfigTemplateList_shape, KThreesConfigTemplateList_DeepCopy)].

Definition object_copies :
    list (string * (option ptr -> M memory (option ptr)) * (option ptr -> M memory interface)) :=
  [("KThreesConfig", KThreesConfig_DeepCopy, KThreesConfig_DeepCopyObject);
   ("KThreesConfigList", KThreesConfigList_DeepCopy, KThreesConfigList_DeepCopyObject);
   ("KThreesConfigTemplate", KThreesConfigTemplate_DeepCopy, KThreesConfigTemplate_DeepCopyObject);
   ("KThreesConfigTemplateList", KThreesConfigTemplateList_DeepCopy, KThreesConfigTemplateList_DeepCopyObject)].

(** ** They copy deeply *)

Lemma SecretFileSource_copies_b2 :
  copies SecretFileSource_shape SecretFileSource_DeepCopyInto.
Proof. struct_copies_go. Qed.
Hint Resolve SecretFileSource_copies_b2 : deep_copy.

Lemma FileSource_copies_b2 :
  copies FileSource_shape FileSource_DeepCopyInto.
Proof. struct_copies_go. Qed.
Hint Resolve FileSource_copies_b2 : deep_copy.

Lemma File_copies_b2 :
  copies File_shape File_DeepCopyInto.
Proof. struct_copies_go. Qed.
Hint Resolve File_copies_b2 : deep_copy.

Lemma KThreesAgentConfig_copies_b2 :
  copies KThreesAgentConfig_shape KThreesAgentConfig_DeepCopyInto.
Proof. struct_copies_go. Qed.
Hint Resolve KThreesAgentConfig_copies_b2 : deep_copy.

Lemma KThreesServerConfig_copies_b2 :
  copies KThreesServerConfig_shape KThreesServerConfig_DeepCopyInto.
Proof. struct_copies_go. Qed.
Hint Resolve KThreesServerConfig_copies_b2 : deep_copy.

Lemma KThreesConfigSpec_copies_b2 :
  copies KThreesConfigSpec_shape KThreesConfigSpec_DeepCopyInto.
Proof. struct_copies_go. Qed.
Hint Resolve KThreesConfigSpec_copies_b2 : deep_copy.

Lemma KThreesConfigStatus_copies_b2 :
  copies KThreesConfigStatus_shape KThreesConfigStatus_DeepCopyInto.
Proof. struct_copies_go. Qed.
Hint Resolve KThreesConfigStatus_copies_b2 : deep_copy.

Lemma KThreesConfig_copies_b2 :
  copies KThreesConfig_shape KThreesConfig_DeepCopyInto.
Proof. struct_copies_go. Qed.
Hint Resolve KThreesConfig_copies_b2 : deep_copy.

Lemma KThreesConfigList_copies_b2 :
  copies KThreesConfigList_shape KThreesConfigList_DeepCopyInto.
Proof. struct_copies_go. Qed.
Hint Resolve KThreesConfigList_copies_b2 : deep_copy.

Lemma KThreesConfigTemplateResource_copies_b2 :
  copies KThreesConfigTemplateResource_shape KThreesConfigTemplateResource_DeepCopyInto.
Proof. struct_copies_go. Qed.
Hint Resolve KThreesConfigTemplateResource_copies_b2 : deep_copy.

Lemma KThreesConfigTemplateSpec_copies_b2 :
  copies KThreesConfigTemplateSpec_shape KThreesConfigTemplateSpec_DeepCopyInto.
Proof. struct_copies_go. Qed.
Hint Resolve KThreesConfigTemplateSpec_copies_b2 : deep_copy.

Lemma KThreesConfigTemplate_copies_b2 :
  copies KThreesConfigTemplate_shape KThreesConfigTemplate_DeepCopyInto.
Proof. struct_copies_go. Qed.
Hint Resolve KThreesConfigTemplate_copies_b2 : deep_copy.

Lemma KThreesConfigTemplateList_copies_b2 :
  copies KThreesConfigTemplateList_shape KThreesConfigTemplateList_DeepCopyInto.
Proof. struct_copies_go. Qed.
Hint Resolve KThreesConfigTemplateList_copies_b2 : deep_copy.

Lemma deep_copies_b2 : Forall (fun c => copies_ptr c.1 c.2) deep_copies.
Proof. repeat (constructor; [apply deep_copy_copies; eauto with deep_copy|]); constructor. Qed.

(** The fields of each type have distinct names. *)
Lemma SecretFileSource_wf_b2 : wf SecretFileSource_shape = true.
Proof. wf_go. Qed.
Hint Resolve SecretFileSource_wf_b2 : wf.
Lemma FileSource_wf_b2 : wf FileSource_shape = true.
Proof. wf_go. Qed.
Hint Resolve FileSource_wf_b2 : wf.
Lemma File_wf_b2 : wf File_shape = true.
Proof. wf_go. Qed.
Hint Resolve File_wf_b2 : wf.
Lemma KThreesAgentConfig_wf_b2 : wf KThreesAgentConfig_shape = true.
Proof. wf_go. Qed.
Hint Resolve KThreesAgentConfig_wf_b2 : wf.
Lemma KThreesServerConfig_wf_b2 : wf KThreesServerConfig_shape = true.
Proof. wf_go. Qed.
Hint Resolve KThreesServerConfig_wf_b2 : wf.
Lemma KThreesConfigSpec_wf_b2 : wf KThreesConfigSpec_shape = true.
Proof. wf_go. Qed.
Hint Resolve KThreesConfigSpec_wf_b2 : wf.
Lemma KThreesConfigStatus_wf_b2 : wf KThreesConfigStatus_shape = true.
Proof. wf_go. Qed.
Hint Resolve KThreesConfigStatus_wf_b2 : wf.
Lemma KThreesConfig_wf_b2 : wf KThreesConfig_shape = true.
Proof. wf_go. Qed.
Hint Resolve KThreesConfig_wf_b2 : wf.
Lemma KThreesConfigList_wf_b2 : wf KThreesConfigList_shape = true.
Proof. wf_go. Qed.
Hint Resolve KThreesConfigList_wf_b2 : wf.
Lemma KThreesConfigTemplateResource_wf_b2 : wf KThreesConfigTemplateResource_shape = true.
Proof. wf_go. Qed.
Hint Resolve KThreesConfigTemplateResource_wf_b2 : wf.
Lemma KThreesConfigTemplateSpec_wf_b2 : wf KThreesConfigTemplateSpec_shape = true.
Proof. wf_go. Qed.
Hint Resolve KThreesConfigTemplateSpec_wf_b2 : wf.
Lemma KThreesConfigTemplate_wf_b2 : wf KThreesConfigTemplate_shape = true.
Proof. wf_go. Qed.
Hint Resolve KThreesConfigTemplate_wf_b2 : wf.
Lemma KThreesConfigTemplateList_wf_b2 : wf KThreesConfigTemplateList_shape = true.
Proof. wf_go. Qed.
Hint Resolve KThreesConfigTemplateList_wf_b2 : wf.
End Copies.

#[export] Hint Resolve
  SecretFileSource_wf_b2
  FileSource_wf_b2
  File_wf_b2
  KThreesAgentConfig_wf_b2
  KThreesServerConfig_wf_b2
  KThreesConfigSpec_wf_b2
  KThreesConfigStatus_wf_b2
  KThreesConfig_wf_b2
  KThreesConfigList_wf_b2
  KThreesConfigTemplateResource_wf_b2
  KThreesConfigTemplateSpec_wf_b2
  KThreesConfigTemplate_wf_b2
  KThreesConfigTemplateList_wf_b2 : wf.

#[export] Hint Resolve KThreesConfigSpec_copies_b2 : deep_copy.
