(* ===== verification/DeepCopyControlPlaneV1beta1.v ===== *)
(** The deep copies of the API of the control-plane provider, version v1beta1
    ([controlplane/api/v1beta1/zz_generated.deepcopy.go]). [T_shape] is the
    type [T] with its fields in their order. *)

From S2P Require Import Prelude GoStd Effects Memory Converting ExternalTypes DeepCopyBootstrapV1beta1.

Section Copies.
Context `{Signature} `{!ExternalTypes}.

(** ** The types *)

Definition KThreesControlPlaneMachineTemplate_shape : shape :=
  Struct
    [("ObjectMeta", ClusterObjectMeta_shape)].

Definition RemediationStrategy_shape : shape :=
  Struct
    [("MaxRetry", Pointer (Basic TInt)); ("RetryPeriod", Duration_shape);
     ("MinHealthyPeriod", Pointer Duration_shape)].

Definition KThreesControlPlaneSpec_shape : shape :=
  Struct
    [("Replicas", Pointer (Basic TInt)); ("Version", Basic TString);
     ("InfrastructureTemplate", ObjectReference_shape);
     ("KThreesConfigSpec", KThreesConfigSpec_shape); ("UpgradeAfter", Pointer Time_shape);
     ("NodeDrainTimeout", Pointer Duration_shape);
     ("MachineTemplate", KThreesControlPlaneMachineTemplate_shape);
     ("RemediationStrategy", Pointer RemediationStrategy_shape)].

Definition LastRemediationStatus_shape : shape :=
  Struct
    [("Machine", Basic TString); ("Timestamp", Time_shape); ("RetryCount", Basic TInt)].

Definition KThreesControlPlaneStatus_shape : shape :=
  Struct
    [("Selector", Basic TString); ("Replicas", Basic TInt); ("UpdatedReplicas", Basic TInt);
     ("ReadyReplicas", Basic TInt); ("UnavailableReplicas", Basic TInt);
     ("Initialized", Basic TBool); ("Ready", Basic TBool); ("FailureReason", Basic TString);
     ("FailureMessage", Pointer (Basic TString)); ("ObservedGeneration", Basic TInt);
     ("Conditions", Slice Condition_shape);
     ("LastRemediation", Pointer LastRemediationStatus_shape)].

Definition KThreesControlPlane_shape : shape :=
  Struct
    [("TypeMeta", TypeMeta_shape); ("ObjectMeta", ObjectMeta_shape);
     ("Spec", KThreesControlPlaneSpec_shape); ("Status", KThreesControlPlaneStatus_shape)].

Definition KThreesControlPlaneList_shape : shape :=
  Struct
    [("TypeMeta", TypeMeta_shape); ("ListMeta", ListMeta_shape);
     ("Items", Slice KThreesControlPlane_shape)].

(** ** The functions *)

Definition KThreesControlPlaneMachineTemplate_DeepCopyInto : action :=
  struct_into
    [("ObjectMeta", ClusterObjectMeta_DeepCopyInto)].

Definition KThreesControlPlaneMachineTemplate_DeepCopy : option ptr -> M memory (option ptr) :=
  deep_copy KThreesControlPlaneMachineTemplate_shape KThreesControlPlaneMachineTemplate_DeepCopyInto.

Definition RemediationStrategy_DeepCopyInto : action :=
  struct_into
    [("MaxRetry", if_set (new_then (Basic TInt) copy_value)); ("RetryPeriod", copy_value);
     ("MinHealthyPeriod", if_set (new_then Duration_shape copy_value))].

Definition RemediationStrategy_DeepCopy : option ptr -> M memory (option ptr) :=
  deep_copy RemediationStrategy_shape RemediationStrategy_DeepCopyInto.

Definition KThreesControlPlaneSpec_DeepCopyInto : action :=
  struct_into
    [("Replicas", if_set (new_then (Basic TInt) copy_value));
     ("InfrastructureTemplate", copy_value);
     ("KThreesConfigSpec", KThreesConfigSpec_DeepCopyInto);
     ("UpgradeAfter", if_set (new_copy Time_DeepCopy));
     ("NodeDrainTimeout", if_set (new_then Duration_shape copy_value));
     ("MachineTemplate", KThreesControlPlaneMachineTemplate_DeepCopyInto);
     ("RemediationStrategy", if_set (new_then RemediationStrategy_shape RemediationStrategy_DeepCopyInto))].

Definition KThreesControlPlaneSpec_DeepCopy : option ptr -> M memory (option ptr) :=
  deep_copy KThreesControlPlaneSpec_shape KThreesControlPlaneSpec_DeepCopyInto.

Definition LastRemediationStatus_DeepCopyInto : action :=
  struct_into
    [("Timestamp", Time_DeepCopyInto)].

Definition LastRemediationStatus_DeepCopy : option ptr -> M memory (option ptr) :=
  deep_copy LastRemediationStatus_shape LastRemediationStatus_DeepCopyInto.

Definition KThreesControlPlaneStatus_DeepCopyInto : action :=
  struct_into
    [("FailureMessage", if_set (new_then (Basic TString) copy_value));
     ("Conditions", if_set (make_each Condition_shape Condition_DeepCopyInto));
     ("LastRemediation", if_set (new_then LastRemediationStatus_shape LastRemediationStatus_DeepCopyInto))].

Definition KThreesControlPlaneStatus_DeepCopy : option ptr -> M memory (option ptr) :=
  deep_copy KThreesControlPlaneStatus_shape KThreesControlPlaneStatus_DeepCopyInto.

Definition KThreesControlPlane_DeepCopyInto : action :=
  struct_into
    [("TypeMeta", copy_value); ("ObjectMeta", ObjectMeta_DeepCopyInto);
     ("Spec", KThreesControlPlaneSpec_DeepCopyInto);
     ("Status", KThreesControlPlaneStatus_DeepCopyInto)].

Definition KThreesControlPlane_DeepCopy : option ptr -> M memory (option ptr) :=
  deep_copy KThreesControlPlane_shape KThreesControlPlane_DeepCopyInto.

Definition KThreesControlPlane_DeepCopyObject : option ptr -> M memory interface :=
  deep_copy_object "KThreesControlPlane" KThreesControlPlane_DeepCopy.

Definition KThreesControlPlaneList_DeepCopyInto : action :=
  struct_into
    [("TypeMeta", copy_value); ("ListMeta", ListMeta_DeepCopyInto);
     ("Items", if_set (make_each KThreesControlPlane_shape KThreesControlPlane_DeepCopyInto))].

Definition KThreesControlPlaneList_DeepCopy : option ptr -> M memory (option ptr) :=
  deep_copy KThreesControlPlaneList_shape KThreesControlPlaneList_DeepCopyInto.

Definition KThreesControlPlaneList_DeepCopyObject : option ptr -> M memory interface :=
  deep_copy_object "KThreesControlPlaneList" KThreesControlPlaneList_DeepCopy.

(** All of them, each with the type that it copies. *)
Definition deep_copies : list (shape * (option ptr -> M memory (option ptr))) :=
  [(KThreesControlPlaneMachineTemplate_shape, KThreesControlPlaneMachineTemplate_DeepCopy);
   (RemediationStrategy_shape, RemediationStrategy_DeepCopy);
   (KThreesControlPlaneSpec_shape, KThreesControlPlaneSpec_DeepCopy);
   (LastRemediationStatus_shape, LastRemediationStatus_DeepCopy);
   (KThreesControlPlaneStatus_shape, KThreesControlPlaneStatus_DeepCopy);
   (KThreesControlPlane_shape, KThreesControlPlane_DeepCopy);
   (KThreesControlPlaneList_shape, KThreesControlPlaneList_DeepCopy)].

Definition object_copies :
    list (string * (option ptr -> M memory (option ptr)) * (option ptr -> M memory interface)) :=
  [("KThreesControlPlane", KThreesControlPlane_DeepCopy, KThreesControlPlane_DeepCopyObject);
   ("KThreesControlPlaneList", KThreesControlPlaneList_DeepCopy, KThreesControlPlaneList_DeepCopyObject)].

(** ** They copy deeply *)

Lemma KThreesControlPlaneMachineTemplate_copies_c1 :
  copies KThreesControlPlaneMachineTemplate_shape KThreesControlPlaneMachineTemplate_DeepCopyInto.
Proof. struct_copies_go. Qed.
Hint Resolve KThreesControlPlaneMachineTemplate_copies_c1 : deep_copy.

Lemma RemediationStrategy_copies_c1 :
  copies RemediationStrategy_shape RemediationStrategy_DeepCopyInto.
Proof. struct_copies_go. Qed.
Hint Resolve RemediationStrategy_copies_c1 : deep_copy.

Lemma KThreesControlPlaneSpec_copies_c1 :
  copies KThreesControlPlaneSpec_shape KThreesControlPlaneSpec_DeepCopyInto.
Proof. struct_copies_go. Qed.
Hint Resolve KThreesControlPlaneSpec_copies_c1 : deep_copy.

Lemma LastRemediationStatus_copies_c1 :
  copies LastRemediationStatus_shape LastRemediationStatus_DeepCopyInto.
Proof. struct_copies_go. Qed.
Hint Resolve LastRemediationStatus_copies_c1 : deep_copy.

Lemma KThreesControlPlaneStatus_copies_c1 :
  copies KThreesControlPlaneStatus_shape KThreesControlPlaneStatus_DeepCopyInto.
Proof. struct_copies_go. Qed.
Hint Resolve KThreesControlPlaneStatus_copies_c1 : deep_copy.

Lemma KThreesControlPlane_copies_c1 :
  copies KThreesControlPlane_shape KThreesControlPlane_DeepCopyInto.
Proof. struct_copies_go. Qed.
Hint Resolve KThreesControlPlane_copies_c1 : deep_copy.

Lemma KThreesControlPlaneList_copies_c1 :
  copies KThreesControlPlaneList_shape KThreesControlPlaneList_DeepCopyInto.
Proof. struct_copies_go. Qed.
Hint Resolve KThreesControlPlaneList_copies_c1 : deep_copy.

Lemma deep_copies_c1 : Forall (fun c => copies_ptr c.1 c.2) deep_copies.
Proof. repeat (constructor; [apply deep_copy_copies; eauto with deep_copy|]); constructor. Qed.

(** The fields of each type have distinct names. *)
Lemma KThreesControlPlaneMachineTemplate_wf_c1 : wf KThreesControlPlaneMachineTemplate_shape = true.
Proof. wf_go. Qed.
Hint Resolve KThreesControlPlaneMachineTemplate_wf_c1 : wf.
Lemma RemediationStrategy_wf_c1 : wf RemediationStrategy_shape = true.
Proof. wf_go. Qed.
Hint Resolve RemediationStrategy_wf_c1 : wf.
Lemma KThreesControlPlaneSpec_wf_c1 : wf KThreesControlPlaneSpec_shape = true.
Proof. wf_go. Qed.
Hint Resolve KThreesControlPlaneSpec_wf_c1 : wf.
Lemma LastRemediationStatus_wf_c1 : wf LastRemediationStatus_shape = true.
Proof. wf_go. Qed.
Hint Resolve LastRemediationStatus_wf_c1 : wf.
Lemma KThreesControlPlaneStatus_wf_c1 : wf KThreesControlPlaneStatus_shape = true.
Proof. wf_go. Qed.
Hint Resolve KThreesControlPlaneStatus_wf_c1 : wf.
Lemma KThreesControlPlane_wf_c1 : wf KThreesControlPlane_shape = true.
Proof. wf_go. Qed.
Hint Resolve KThreesControlPlane_wf_c1 : wf.
Lemma KThreesControlPlaneList_wf_c1 : wf KThreesControlPlaneList_shape = true.
Proof. wf_go. Qed.
Hint Resolve KThreesControlPlaneList_wf_c1 : wf.
End Copies.

#[export] Hint Resolve
  KThreesControlPlaneMachineTemplate_wf_c1
  RemediationStrategy_wf_c1
  KThreesControlPlaneSpec_wf_c1
  LastRemediationStatus_wf_c1
  KThreesControlPlaneStatus_wf_c1
  KThreesControlPlane_wf_c1
  KThreesControlPlaneList_wf_c1 : wf.
