(* ===== verification/DeepCopyControlPlaneV1beta2.v ===== *)
(** The deep copies of the API of the control-plane provider, version v1beta2
    ([controlplane/api/v1beta2/zz_generated.deepcopy.go]). [T_shape] is the
    type [T] with its fields in their order. *)

From S2P Require Import Prelude GoStd Effects Memory Converting ExternalTypes DeepCopyBootstrapV1beta2.

Section Copies.
Context `{Signature} `{!ExternalTypes}.

(** ** The types *)

Definition KThreesControlPlaneMachineTemplate_shape : shape :=
  Struct
    [("ObjectMeta", ClusterObjectMeta_shape); ("InfrastructureRef", ObjectReference_shape);
     ("NodeDrainTimeout", Pointer Duration_shape);
     ("NodeVolumeDetachTimeout", Pointer Duration_shape);
     ("NodeDeletionTimeout", Pointer Duration_shape)].

Definition RemediationStrategy_shape : shape :=
  Struct
    [("MaxRetry", Pointer (Basic TInt)); ("RetryPeriod", Duration_shape);
     ("MinHealthyPeriod", Pointer Duration_shape)].

Definition KThreesControlPlaneSpec_shape : shape :=
  Struct
    [("Replicas", Pointer (Basic TInt)); ("Version", Basic TString);
     ("KThreesConfigSpec", KThreesConfigSpec_shape); ("RolloutAfter", Pointer Time_shape);
     ("MachineTemplate", KThreesControlPlaneMachineTemplate_shape);
     ("RemediationStrategy", Pointer RemediationStrategy_shape)].

Definition LastRemediationStatus_shape : shape :=
  Struct
    [("Machine", Basic TString); ("Timestamp", Time_shape); ("RetryCount", Basic TInt)].

Definition KThreesControlPlaneStatus_shape : shape :=
  Struct
    [("Selector", Basic TString); ("Replicas", Basic TInt);
     ("Version", Pointer (Basic TString)); ("UpdatedReplicas", Basic TInt);
     ("ReadyReplicas", Basic TInt); ("UnavailableReplicas", Basic TInt);
     ("Initialized", Basic TBool); ("Ready", Basic TBool); ("FailureReason", Basic TString);
     ("FailureMessage", Pointer (Basic TString)); ("ObservedGeneration", Basic TInt);
     ("Conditions", Slice Condition_shape);
     ("LastRemediation", Pointer LastRemediationStatus_shape)].

Definition KThreesControlPlane_shape : shape :=
  Struct
    [("TypeMeta", TypeMeta_shape); ("ObjectMeta", ObjectMeta_shape);
     ("Spec", KThreesControlPlaneSpec_shape); ("Status", KThreesControlPlaneStatus_shape)].

Definition KThreesControlPlaneList_shape : shape :=
  Struct
    [("TypeMeta", TypeMeta_shape); ("ListMeta", ListMeta_shape);
     ("Items", Slice KThreesControlPlane_shape)].

Definition KThreesControlPlaneTemplateResourceSpec_shape : shape :=
  Struct
    [("KThreesConfigSpec", KThreesConfigSpec_shape); ("RolloutAfter", Pointer Time_shape);
     ("MachineTemplate", KThreesControlPlaneMachineTemplate_shape);
     ("RemediationStrategy", Pointer RemediationStrategy_shape)].

Definition KThreesControlPlaneTemplateResource_shape : shape :=
  Struct
    [("ObjectMeta", ObjectMeta_shape); ("Spec", KThreesControlPlaneTemplateResourceSpec_shape)].

Definition KThreesControlPlaneTemplateSpec_shape : shape :=
  Struct
    [("Template", KThreesControlPlaneTemplateResource_shape)].

Definition KThreesControlPlaneTemplate_shape : shape :=
  Struct
    [("TypeMeta", TypeMeta_shape); ("ObjectMeta", ObjectMeta_shape);
     ("Spec", KThreesControlPlaneTemplateSpec_shape)].

Definition KThreesControlPlaneTemplateList_shape : shape :=
  Struct
    [("TypeMeta", TypeMeta_shape); ("ListMeta", ListMeta_shape);
     ("Items", Slice KThreesControlPlaneTemplate_shape)].

(** ** The functions *)

Definition KThreesControlPlaneMachineTemplate_DeepCopyInto : action :=
  struct_into
    [("ObjectMeta", ClusterObjectMeta_DeepCopyInto); ("InfrastructureRef", copy_value);
     ("NodeDrainTimeout", if_set (new_then Duration_shape copy_value));
     ("NodeVolumeDetachTimeout", if_set (new_then Duration_shape copy_value));
     ("NodeDeletionTimeout", if_set (new_then Duration_shape copy_value))].

Definition KThreesControlPlaneMachineTemplate_DeepCopy : option ptr -> M memory (option ptr) :=
  deep_copy KThreesControlPlaneMachineTemplate_shape KThreesControlPlaneMachineTemplate_DeepCopyInto.

Definition RemediationStrategy_DeepCopyInto : action :=
  struct_into
    [("MaxRetry", if_set (new_then (Basic TInt) copy_value)); ("RetryPeriod", copy_value);
     ("MinHealthyPeriod", if_set (new_then Duration_shape copy_value))].

Definition RemediationStrategy_DeepCopy : option ptr -> M memory (option ptr) :=
  deep_copy RemediationStrategy_shape RemediationStrategy_DeepCopyInto.

Definition KThreesControlPlaneSpec_DeepCopyInto : action :=
  struct_into
    [("Replicas", if_set (new_then (Basic TInt) copy_value));
     ("KThreesConfigSpec", KThreesConfigSpec_DeepCopyInto);
     ("RolloutAfter", if_set (new_copy Time_DeepCopy));
     ("MachineTemplate", KThreesControlPlaneMachineTemplate_DeepCopyInto);
     ("RemediationStrategy", if_set (new_then RemediationStrategy_shape RemediationStrategy_DeepCopyInto))].

Definition KThreesControlPlaneSpec_DeepCopy : option ptr -> M memory (option ptr) :=
  deep_copy KThreesControlPlaneSpec_shape KThreesControlPlaneSpec_DeepCopyInto.

Definition LastRemediationStatus_DeepCopyInto : action :=
  struct_into
    [("Timestamp", Time_DeepCopyInto)].

Definition LastRemediationStatus_DeepCopy : option ptr -> M memory (option ptr) :=
  deep_copy LastRemediationStatus_shape LastRemediationStatus_DeepCopyInto.

Definition KThreesControlPlaneStatus_DeepCopyInto : action :=
  struct_into
    [("Version", if_set (new_then (Basic TString) copy_value));
     ("FailureMessage", if_set (new_then (Basic TString) copy_value));
     ("Conditions", if_set (make_each Condition_shape Condition_DeepCopyInto));
     ("LastRemediation", if_set (new_then LastRemediationStatus_shape LastRemediationStatus_DeepCopyInto))].

Definition KThreesControlPlaneStatus_DeepCopy : option ptr -> M memory (option ptr) :=
  deep_copy KThreesControlPlaneStatus_shape KThreesControlPlaneStatus_DeepCopyInto.

Definition KThreesControlPlane_DeepCopyInto : action :=
  struct_into
    [("TypeMeta", copy_value); ("ObjectMeta", ObjectMeta_DeepCopyInto);
     ("Spec", KThreesControlPlaneSpec_DeepCopyInto);
     ("Status", KThreesControlPlaneStatus_DeepCopyInto)].

Definition KThreesControlPlane_DeepCopy : option ptr -> M memory (option ptr) :=
  deep_copy KThreesControlPlane_shape KThreesControlPlane_DeepCopyInto.

Definition KThreesControlPlane_DeepCopyObject : option ptr -> M memory interface :=
  deep_copy_object "KThreesControlPlane" KThreesControlPlane_DeepCopy.

Definition KThreesControlPlaneList_DeepCopyInto : action :=
  struct_into
    [("TypeMeta", copy_value); ("ListMeta", ListMeta_DeepCopyInto);
     ("Items", if_set (make_each KThreesControlPlane_shape KThreesControlPlane_DeepCopyInto))].

Definition KThreesControlPlaneList_DeepCopy : option ptr -> M memory (option ptr) :=
  deep_copy KThreesControlPlaneList_shape KThreesControlPlaneList_DeepCopyInto.

Definition KThreesControlPlaneList_DeepCopyObject : option ptr -> M memory interface :=
  deep_copy_object "KThreesControlPlaneList" KThreesControlPlaneList_DeepCopy.

Definition KThreesControlPlaneTemplateResourceSpec_DeepCopyInto : action :=
  struct_into
    [("KThreesConfigSpec", KThreesConfigSpec_DeepCopyInto);
     ("RolloutAfter", if_set (new_copy Time_DeepCopy));
     ("MachineTemplate", KThreesControlPlaneMachineTemplate_DeepCopyInto);
     ("RemediationStrategy", if_set (new_then RemediationStrategy_shape RemediationStrategy_DeepCopyInto))].

Definition KThreesControlPlaneTemplateResourceSpec_DeepCopy : option ptr -> M memory (option ptr) :=
  deep_copy KThreesControlPlaneTemplateResourceSpec_shape KThreesControlPlaneTemplateResourceSpec_DeepCopyInto.

Definition KThreesControlPlaneTemplateResource_DeepCopyInto : action :=
  struct_into
    [("ObjectMeta", ObjectMeta_DeepCopyInto);
     ("Spec", KThreesControlPlaneTemplateResourceSpec_DeepCopyInto)].

Definition KThreesControlPlaneTemplateResource_DeepCopy : option ptr -> M memory (option ptr) :=
  deep_copy KThreesControlPlaneTemplateResource_shape KThreesControlPlaneTemplateResource_DeepCopyInto.

Definition KThreesControlPlaneTemplateSpec_DeepCopyInto : action :=
  struct_into
    [("Template", KThreesControlPlaneTemplateResource_DeepCopyInto)].

Definition KThreesControlPlaneTemplateSpec_DeepCopy : option ptr -> M memory (option ptr) :=
  deep_copy KThreesControlPlaneTemplateSpec_shape KThreesControlPlaneTemplateSpec_DeepCopyInto.

Definition KThreesControlPlaneTemplate_DeepCopyInto : action :=
  struct_into
    [("TypeMeta", copy_value); ("ObjectMeta", ObjectMeta_DeepCopyInto);
     ("Spec", KThreesControlPlaneTemplateSpec_DeepCopyInto)].

Definition KThreesControlPlaneTemplate_DeepCopy : option ptr -> M memory (option ptr) :=
  deep_copy KThreesControlPlaneTemplate_shape KThreesControlPlaneTemplate_DeepCopyInto.

Definition KThreesControlPlaneTemplate_DeepCopyObject : option ptr -> M memory interface :=
  deep_copy_object "KThreesControlPlaneTemplate" KThreesControlPlaneTemplate_DeepCopy.

Definition KThreesControlPlaneTemplateList_DeepCopyInto : action :=
  struct_into
    [("TypeMeta", copy_value); ("ListMeta", ListMeta_DeepCopyInto);
     ("Items", if_set (make_each KThreesControlPlaneTemplate_shape KThreesControlPlaneTemplate_DeepCopyInto))].

Definition KThreesControlPlaneTemplateList_DeepCopy : option ptr -> M memory (option ptr) :=
  deep_copy KThreesControlPlaneTemplateList_shape KThreesControlPlaneTemplateList_DeepCopyInto.

Definition KThreesControlPlaneTemplateList_DeepCopyObject : option ptr -> M memory interface :=
  deep_copy_object "KThreesControlPlaneTemplateList" KThreesControlPlaneTemplateList_DeepCopy.

(** All of them, each with the type that it copies. *)
Definition deep_copies : list (shape * (option ptr -> M memory (option ptr))) :=
  [(KThreesControlPlaneMachineTemplate_shape, KThreesControlPlaneMachineTemplate_DeepCopy);
   (RemediationStrategy_shape, RemediationStrategy_DeepCopy);
   (KThreesControlPlaneSpec_shape, KThreesControlPlaneSpec_DeepCopy);
   (LastRemediationStatus_shape, LastRemediationStatus_DeepCopy);
   (KThreesControlPlaneStatus_shape, KThreesControlPlaneStatus_DeepCopy);
   (KThreesControlPlane_shape, KThreesControlPlane_DeepCopy);
   (KThreesControlPlaneList_shape, KThreesControlPlaneList_DeepCopy);
   (KThreesControlPlaneTemplateResourceSpec_shape, KThreesControlPlaneTemplateResourceSpec_DeepCopy);
   (KThreesControlPlaneTemplateResource_shape, KThreesControlPlaneTemplateResource_DeepCopy);
   (KThreesControlPlaneTemplateSpec_shape, KThreesControlPlaneTemplateSpec_DeepCopy);
   (KThreesControlPlaneTemplate_shape, KThreesControlPlaneTemplate_DeepCopy);
   (KThreesControlPlaneTemplateList_shape, KThreesControlPlaneTemplateList_DeepCopy)].

Definition object_copies :
    list (string * (option ptr -> M memory (option ptr)) * (option ptr -> M memory interface)) :=
  [("KThreesControlPlane", KThreesControlPlane_DeepCopy, KThreesControlPlane_DeepCopyObject);
   ("KThreesControlPlaneList", KThreesControlPlaneList_DeepCopy, KThreesControlPlaneList_DeepCopyObject);
   ("KThreesControlPlaneTemplate", KThreesControlPlaneTemplate_DeepCopy, KThreesControlPlaneTemplate_DeepCopyObject);
   ("KThreesControlPlaneTemplateList", KThreesControlPlaneTemplateList_DeepCopy, KThreesControlPlaneTemplateList_DeepCopyObject)].

(** ** They copy deeply *)

Lemma KThreesControlPlaneMachineTemplate_copies_c2 :
  copies KThreesControlPlaneMachineTemplate_shape KThreesControlPlaneMachineTemplate_DeepCopyInto.
Proof. struct_copies_go. Qed.
Hint Resolve KThreesControlPlaneMachineTemplate_copies_c2 : deep_copy.

Lemma RemediationStrategy_copies_c2 :
  copies RemediationStrategy_shape RemediationStrategy_DeepCopyInto.
Proof. struct_copies_go. Qed.
Hint Resolve RemediationStrategy_copies_c2 : deep_copy.

Lemma KThreesControlPlaneSpec_copies_c2 :
  copies KThreesControlPlaneSpec_shape KThreesControlPlaneSpec_DeepCopyInto.
Proof. struct_copies_go. Qed.
Hint Resolve KThreesControlPlaneSpec_copies_c2 : deep_copy.

Lemma LastRemediationStatus_copies_c2 :
  copies LastRemediationStatus_shape LastRemediationStatus_DeepCopyInto.
Proof. struct_copies_go. Qed.
Hint Resolve LastRemediationStatus_copies_c2 : deep_copy.

Lemma KThreesControlPlaneStatus_copies_c2 :
  copies KThreesControlPlaneStatus_shape KThreesControlPlaneStatus_DeepCopyInto.
Proof. struct_copies_go. Qed.
Hint Resolve KThreesControlPlaneStatus_copies_c2 : deep_copy.

Lemma KThreesControlPlane_copies_c2 :
  copies KThreesControlPlane_shape KThreesControlPlane_DeepCopyInto.
Proof. struct_copies_go. Qed.
Hint Resolve KThreesControlPlane_copies_c2 : deep_copy.

Lemma KThreesControlPlaneList_copies_c2 :
  copies KThreesControlPlaneList_shape KThreesControlPlaneList_DeepCopyInto.
Proof. struct_copies_go. Qed.
Hint Resolve KThreesControlPlaneList_copies_c2 : deep_copy.

Lemma KThreesControlPlaneTemplateResourceSpec_copies_c2 :
  copies KThreesControlPlaneTemplateResourceSpec_shape KThreesControlPlaneTemplateResourceSpec_DeepCopyInto.
Proof. struct_copies_go. Qed.
Hint Resolve KThreesControlPlaneTemplateResourceSpec_copies_c2 : deep_copy.

Lemma KThreesControlPlaneTemplateResource_copies_c2 :
  copies KThreesControlPlaneTemplateResource_shape KThreesControlPlaneTemplateResource_DeepCopyInto.
Proof. struct_copies_go. Qed.
Hint Resolve KThreesControlPlaneTemplateResource_copies_c2 : deep_copy.

Lemma KThreesControlPlaneTemplateSpec_copies_c2 :
  copies KThreesControlPlaneTemplateSpec_shape KThreesControlPlaneTemplateSpec_DeepCopyInto.
Proof. struct_copies_go. Qed.
Hint Resolve KThreesControlPlaneTemplateSpec_copies_c2 : deep_copy.

Lemma KThreesControlPlaneTemplate_copies_c2 :
  copies KThreesControlPlaneTemplate_shape KThreesControlPlaneTemplate_DeepCopyInto.
Proof. struct_copies_go. Qed.
Hint Resolve KThreesControlPlaneTemplate_copies_c2 : deep_copy.

Lemma KThreesControlPlaneTemplateList_copies_c2 :
  copies KThreesControlPlaneTemplateList_shape KThreesControlPlaneTemplateList_DeepCopyInto.
Proof. struct_copies_go. Qed.
Hint Resolve KThreesControlPlaneTemplateList_copies_c2 : deep_copy.

Lemma deep_copies_c2 : Forall (fun c => copies_ptr c.1 c.2) deep_copies.
Proof. repeat (constructor; [apply deep_copy_copies; eauto with deep_copy|]); constructor. Qed.

(** The fields of each type have distinct names. *)
Lemma KThreesControlPlaneMachineTemplate_wf_c2 : wf KThreesControlPlaneMachineTemplate_shape = true.
Proof. wf_go. Qed.
Hint Resolve KThreesControlPlaneMachineTemplate_wf_c2 : wf.
Lemma RemediationStrategy_wf_c2 : wf RemediationStrategy_shape = true.
Proof. wf_go. Qed.
Hint Resolve RemediationStrategy_wf_c2 : wf.
Lemma KThreesControlPlaneSpec_wf_c2 : wf KThreesControlPlaneSpec_shape = true.
Proof. wf_go. Qed.
Hint Resolve KThreesControlPlaneSpec_wf_c2 : wf.
Lemma LastRemediationStatus_wf_c2 : wf LastRemediationStatus_shape = true.
Proof. wf_go. Qed.
Hint Resolve LastRemediationStatus_wf_c2 : wf.
Lemma KThreesControlPlaneStatus_wf_c2 : wf KThreesControlPlaneStatus_shape = true.
Proof. wf_go. Qed.
Hint Resolve KThreesControlPlaneStatus_wf_c2 : wf.
Lemma KThreesControlPlane_wf_c2 : wf KThreesControlPlane_shape = true.
Proof. wf_go. Qed.
Hint Resolve KThreesControlPlane_wf_c2 : wf.
Lemma KThreesControlPlaneList_wf_c2 : wf KThreesControlPlaneList_shape = true.
Proof. wf_go. Qed.
Hint Resolve KThreesControlPlaneList_wf_c2 : wf.
Lemma KThreesControlPlaneTemplateResourceSpec_wf_c2 : wf KThreesControlPlaneTemplateResourceSpec_shape = true.
Proof. wf_go. Qed.
Hint Resolve KThreesControlPlaneTemplateResourceSpec_wf_c2 : wf.
Lemma KThreesControlPlaneTemplateResource_wf_c2 : wf KThreesControlPlaneTemplateResource_shape = true.
Proof. wf_go. Qed.
Hint Resolve KThreesControlPlaneTemplateResource_wf_c2 : wf.
Lemma KThreesControlPlaneTemplateSpec_wf_c2 : wf KThreesControlPlaneTemplateSpec_shape = true.
Proof. wf_go. Qed.
Hint Resolve KThreesControlPlaneTemplateSpec_wf_c2 : wf.
Lemma KThreesControlPlaneTemplate_wf_c2 : wf KThreesControlPlaneTemplate_shape = true.
Proof. wf_go. Qed.
Hint Resolve KThreesControlPlaneTemplate_wf_c2 : wf.
Lemma KThreesControlPlaneTemplateList_wf_c2 : wf KThreesControlPlaneTemplateList_shape = true.
Proof. wf_go. Qed.
Hint Resolve KThreesControlPlaneTemplateList_wf_c2 : wf.
End Copies.

#[export] Hint Resolve
  KThreesControlPlaneMachineTemplate_wf_c2
  RemediationStrategy_wf_c2
  KThreesControlPlaneSpec_wf_c2
  LastRemediationStatus_wf_c2
  KThreesControlPlaneStatus_wf_c2
  KThreesControlPlane_wf_c2
  KThreesControlPlaneList_wf_c2
  KThreesControlPlaneTemplateResourceSpec_wf_c2
  KThreesControlPlaneTemplateResource_wf_c2
  KThreesControlPlaneTemplateSpec_wf_c2
  KThreesControlPlaneTemplate_wf_c2
  KThreesControlPlaneTemplateList_wf_c2 : wf.
