(* ===== verification/DeepCopies.v ===== *)
(** The deep copies of all API types together: a copy is isolated from its
    original. *)

From S2P Require Import Prelude GoStd Effects Api Memory ExternalTypes DeepCopyBootstrapV1beta1 DeepCopyBootstrapV1beta2 DeepCopyControlPlaneV1beta1 DeepCopyControlPlaneV1beta2.

Section DeepCopies.
Context `{Signature} `{!ExternalTypes}.

(** Every generated [DeepCopy], with the type that it copies. *)
Definition generated_copies : list (shape * (option ptr -> M memory (option ptr))) :=
  DeepCopyBootstrapV1beta1.deep_copies ++ DeepCopyBootstrapV1beta2.deep_copies
  ++ DeepCopyControlPlaneV1beta1.deep_copies ++ DeepCopyControlPlaneV1beta2.deep_copies.

(** Every generated [DeepCopyObject], with its type's name and [DeepCopy]. *)
Definition generated_objects :
    list (string * (option ptr -> M memory (option ptr)) * (option ptr -> M memory interface)) :=
  DeepCopyBootstrapV1beta1.object_copies ++ DeepCopyBootstrapV1beta2.object_copies
  ++ DeepCopyControlPlaneV1beta1.object_copies ++ DeepCopyControlPlaneV1beta2.object_copies.

Lemma generated_copies_ok t f : (t, f) ∈ generated_copies -> copies_ptr t f.
Proof.
  intros Hin. unfold generated_copies in Hin.
  pose proof deep_copies_b1 as H1. pose proof deep_copies_b2 as H2.
  pose proof deep_copies_c1 as H3. pose proof deep_copies_c2 as H4.
  rewrite Forall_forall in H1, H2, H3, H4.
  rewrite !elem_of_app in Hin.
  destruct Hin as [Hin|[Hin|[Hin|Hin]]]; [by apply H1 in Hin|by apply H2 in Hin|by apply H3 in Hin|by apply H4 in Hin].
Qed.

(** C39: For every type of the two API groups in both versions, the generated
    [DeepCopy] of an object that can be read, however its pointers and slices
    share memory, ends without a panic and without a call; it leaves all memory
    that was there as it was, returns nil for nil, and else a pointer to an
    object that is deeply equal to the original. The two are isolated: no write
    to memory that was there before can be seen through the copy, and no write
    to the memory of the copy can be seen through the original. *)
Theorem copies_isolated t f (h : memory) p x :
  (t, f) ∈ generated_copies ->
  view h (Pointer t) (VPtr p) = Some x ->
  exists h' c,
    f p h = Ret (h', Val c)
    /\ h ⊆ h'
    /\ (c = None <-> p = None)
    /\ view h' (Pointer t) (VPtr c) = Some x
    /\ (forall h2 : memory, (forall l, h !! l = None -> h2 !! l = h' !! l) ->
          view h2 (Pointer t) (VPtr c) = Some x)
    /\ (forall h2 : memory, (forall l, is_Some (h !! l) -> h2 !! l = h' !! l) ->
          view h2 (Pointer t) (VPtr p) = Some x).
Proof.
  intros Hin Hx.
  destruct (copies_ptr_isolated _ _ (generated_copies_ok _ _ Hin) h p x Hx)
    as (h' & c & E & Hsub & Hc & Hold & Hnew).
  exists h', c. split_and!; try done.
  by rewrite <- (view_nil_pointer _ _ _ _ Hc), <- (view_nil_pointer _ _ _ _ Hx).
Qed.

(** [DeepCopyObject] returns what [DeepCopy] returns, as an interface that is nil
    when the pointer is: never a nil pointer in an interface that is not nil. *)
Lemma DeepCopyObject_returns T f g (h h' : memory) p c :
  (T, f, g) ∈ generated_objects ->
  f p h = Ret (h', Val c) ->
  g p h = Ret (h', Val (match c with Some q => Some (T, Some q) | None => None end)).
Proof.
  intros Hin E.
  assert (Hg : g = deep_copy_object T f).
  { unfold generated_objects in Hin. cbn in Hin.
    repeat (apply elem_of_cons in Hin as [[= -> -> ->]|Hin]; [done|]).
    by apply elem_of_nil in Hin. }
  rewrite Hg. by apply deep_copy_object_val.
Qed.
End DeepCopies.

(** ** An example

    A [KThreesConfig] with a file whose content comes from a secret, two command
    slices that share an array, a label and the name of its data secret. *)
Definition text (s : string) : val := VScalar (SString s).

Definition example_file : val :=
  VStruct [("Path", text "/etc/a"); ("Owner", text "root"); ("Permissions", text "0600");
           ("Encoding", text ""); ("Content", text ""); ("ContentFrom", VPtr (Some (Ptr 3 [])))].

Definition example_source : val :=
  VStruct [("Secret", VStruct [("Name", text "files"); ("Key", text "a")])].

Definition example_memory : option memory :=
  let h := <[1%positive := zero (DeepCopyBootstrapV1beta2.KThreesConfig_shape (H := services))]>
           (<[2%positive := VArray [example_file]]>
           (<[3%positive := example_source]>
           (<[4%positive := VArray [text "echo a"; text "echo b"]]>
           (<[5%positive := VStruct [("app", text "k3s")]]>
           (<[6%positive := text "config-data"]> ∅))))) in
  let p := Ptr 1 [] in
  let spec := at_field p "Spec" in
  h ← store h (at_field spec "Files") (VSlice (Some (2%positive, 0%nat, 1%nat)));
  h ← store h (at_field spec "PreK3sCommands") (VSlice (Some (4%positive, 0%nat, 2%nat)));
  h ← store h (at_field spec "PostK3sCommands") (VSlice (Some (4%positive, 1%nat, 1%nat)));
  h ← store h (at_field (at_field p "ObjectMeta") "Labels") (VMap (Some 5%positive));
  store h (at_field (at_field p "Status") "DataSecretName") (VPtr (Some (Ptr 6 []))).

Example example_reads :
  is_Some (h ← example_memory;
           view h (Pointer (DeepCopyBootstrapV1beta2.KThreesConfig_shape (H := services)))
             (VPtr (Some (Ptr 1 [])))).
Proof. vm_compute. eauto. Qed.

Lemma copies_isolated_witness :
  match example_memory with
  | Some h =>
      exists x h' c,
        DeepCopyBootstrapV1beta2.KThreesConfig_DeepCopy (H := services) (Some (Ptr 1 [])) h
        = Ret (h', Val (Some c))
        /\ view h' (Pointer DeepCopyBootstrapV1beta2.KThreesConfig_shape) (VPtr (Some c)) = Some x
  | None => False
  end.
Proof.
  pose proof example_reads as [x Hx].
  destruct example_memory as [h|]; [|done]. cbn [mbind option_bind] in Hx.
  destruct (copies_isolated (H := services) DeepCopyBootstrapV1beta2.KThreesConfig_shape
              DeepCopyBootstrapV1beta2.KThreesConfig_DeepCopy
              h (Some (Ptr 1 [])) x) as (h' & [c|] & E & _ & Hnil & Hc & _).
  - unfold generated_copies. apply elem_of_app. right. apply elem_of_app. left.
    apply (list_elem_of_lookup_2 _ 7). reflexivity.
  - exact Hx.
  - by exists x, h', c.
  - discriminate (proj1 Hnil eq_refl).
Defined.

(** A copy must not go into its own original: [make] replaces the slice before
    its elements are read, and they are lost. *)
Example copied_onto_itself :
  let h : memory :=
    {[1%positive := VStruct [("NodeLabels", VSlice (Some (2%positive, 0%nat, 1%nat)));
                             ("NodeTaints", VSlice None); ("PrivateRegistry", text "");
                             ("KubeletArgs", VSlice None); ("KubeProxyArgs", VSlice None);
                             ("NodeName", text ""); ("AirGapped", VScalar (SBool false))];
      2%positive := VArray [text "zone=a"]]} in
  match DeepCopyBootstrapV1beta1.KThreesAgentConfig_DeepCopyInto (H := services) (Ptr 1 []) (Ptr 1 []) h with
  | Ret (h', Val tt) =>
      view h (Slice (Basic TString)) (VSlice (Some (2%positive, 0%nat, 1%nat)))
        = Some (XSlice [XScalar (SString "zone=a")])
      /\ (v ← load h' (Ptr 1 [Field "NodeLabels"]); view h' (Slice (Basic TString)) v)
         = Some (XSlice [XScalar (SString "")])
  | _ => False
  end.
Proof. vm_compute. split; reflexivity. Qed.
