(* ===== verification/ConvertBootstrap.v ===== *)
(** The conversions between the two versions of the API of the bootstrap
    provider, on memory ([bootstrap/api/v1beta1/zz_generated.conversion.go] and, for those
    that the generator leaves to a person, [conversion.go] beside it). The function
    [Convert_v_T_To_w_T] converts the type [T] from version [v] to version [w]. *)

From S2P Require Import Prelude GoStd Effects Memory Converting ExternalTypes DeepCopyBootstrapV1beta1 DeepCopyBootstrapV1beta2.

Section Conversions.
Context `{Signature} `{!ExternalTypes}.

Definition autoConvert_v1beta1_File_To_v1beta2_File : action :=
  in_order
    [field "Path" copy_value; field "Owner" copy_value; field "Permissions" copy_value;
     field "Encoding" copy_value; field "Content" copy_value; field "ContentFrom" cast].

Definition Convert_v1beta1_File_To_v1beta2_File : action :=
  autoConvert_v1beta1_File_To_v1beta2_File.

Definition autoConvert_v1beta2_File_To_v1beta1_File : action :=
  in_order
    [field "Path" copy_value; field "Owner" copy_value; field "Permissions" copy_value;
     field "Encoding" copy_value; field "Content" copy_value; field "ContentFrom" cast].

Definition Convert_v1beta2_File_To_v1beta1_File : action :=
  autoConvert_v1beta2_File_To_v1beta1_File.

Definition autoConvert_v1beta1_SecretFileSource_To_v1beta2_SecretFileSource : action :=
  in_order
    [field "Name" copy_value; field "Key" copy_value].

Definition Convert_v1beta1_SecretFileSource_To_v1beta2_SecretFileSource : action :=
  autoConvert_v1beta1_SecretFileSource_To_v1beta2_SecretFileSource.

Definition autoConvert_v1beta1_FileSource_To_v1beta2_FileSource : action :=
  in_order
    [field "Secret" Convert_v1beta1_SecretFileSource_To_v1beta2_SecretFileSource].

Definition Convert_v1beta1_FileSource_To_v1beta2_FileSource : action :=
  autoConvert_v1beta1_FileSource_To_v1beta2_FileSource.

Definition autoConvert_v1beta2_SecretFileSource_To_v1beta1_SecretFileSource : action :=
  in_order
    [field "Name" copy_value; field "Key" copy_value].

Definition Convert_v1beta2_SecretFileSource_To_v1beta1_SecretFileSource : action :=
  autoConvert_v1beta2_SecretFileSource_To_v1beta1_SecretFileSource.

Definition autoConvert_v1beta2_FileSource_To_v1beta1_FileSource : action :=
  in_order
    [field "Secret" Convert_v1beta2_SecretFileSource_To_v1beta1_SecretFileSource].

Definition Convert_v1beta2_FileSource_To_v1beta1_FileSource : action :=
  autoConvert_v1beta2_FileSource_To_v1beta1_FileSource.

Definition autoConvert_v1beta1_KThreesAgentConfig_To_v1beta2_KThreesAgentConfig : action :=
  in_order
    [field "NodeLabels" cast; field "NodeTaints" cast; field "PrivateRegistry" copy_value;
     field "KubeletArgs" cast; field "KubeProxyArgs" cast; field "NodeName" copy_value;
     field "AirGapped" copy_value].

Definition Convert_v1beta1_KThreesAgentConfig_To_v1beta2_KThreesAgentConfig : action :=
  autoConvert_v1beta1_KThreesAgentConfig_To_v1beta2_KThreesAgentConfig.

Definition autoConvert_v1beta2_KThreesAgentConfig_To_v1beta1_KThreesAgentConfig : action :=
  in_order
    [field "NodeLabels" cast; field "NodeTaints" cast; field "PrivateRegistry" copy_value;
     field "KubeletArgs" cast; field "KubeProxyArgs" cast; field "NodeName" copy_value;
     field "AirGapped" copy_value].

Definition autoConvert_v1beta1_KThreesServerConfig_To_v1beta2_KThreesServerConfig : action :=
  in_order
    [field "KubeAPIServerArgs" cast; field "KubeControllerManagerArgs" cast;
     field "KubeSchedulerArgs" cast; field "TLSSan" cast; field "BindAddress" copy_value;
     field "HTTPSListenPort" copy_value; field "AdvertiseAddress" copy_value;
     field "AdvertisePort" copy_value; field "ClusterCidr" copy_value;
     field "ServiceCidr" copy_value; field "ClusterDNS" copy_value;
     field "ClusterDomain" copy_value; field "DisableComponents" cast].

Definition Convert_v1beta1_KThreesServerConfig_To_v1beta2_KThreesServerConfig : action :=
  in_order
    [wrapping "converting KThreesServerConfig v1beta1 to v1beta2"
       autoConvert_v1beta1_KThreesServerConfig_To_v1beta2_KThreesServerConfig;
     on ["DisableExternalCloudProvider"] ["DeprecatedDisableExternalCloudProvider"] copy_value;
     if_field ["DisableExternalCloudProvider"]
       (in_order [on [] ["CloudProviderName"] (new_scalar (SString ""));
                  on [] ["DisableCloudController"] (new_scalar (SBool false))])
       (in_order [on [] ["CloudProviderName"] (new_scalar (SString "external"));
                  on [] ["DisableCloudController"] (new_scalar (SBool true))])].

Definition autoConvert_v1beta1_KThreesConfigSpec_To_v1beta2_KThreesConfigSpec : action :=
  in_order
    [field "Files" cast; field "PreK3sCommands" cast; field "PostK3sCommands" cast;
     field "AgentConfig" Convert_v1beta1_KThreesAgentConfig_To_v1beta2_KThreesAgentConfig;
     field "ServerConfig" Convert_v1beta1_KThreesServerConfig_To_v1beta2_KThreesServerConfig;
     field "Version" copy_value].

Definition Convert_v1beta1_KThreesConfigSpec_To_v1beta2_KThreesConfigSpec : action :=
  autoConvert_v1beta1_KThreesConfigSpec_To_v1beta2_KThreesConfigSpec.

Definition autoConvert_v1beta1_KThreesConfigStatus_To_v1beta2_KThreesConfigStatus : action :=
  in_order
    [field "Ready" copy_value; field "BootstrapData" cast; field "DataSecretName" cast;
     field "FailureReason" copy_value; field "FailureMessage" copy_value;
     field "ObservedGeneration" copy_value; field "Conditions" cast].

Definition Convert_v1beta1_KThreesConfigStatus_To_v1beta2_KThreesConfigStatus : action :=
  autoConvert_v1beta1_KThreesConfigStatus_To_v1beta2_KThreesConfigStatus.

Definition autoConvert_v1beta1_KThreesConfig_To_v1beta2_KThreesConfig : action :=
  in_order
    [field "ObjectMeta" copy_value;
     field "Spec" Convert_v1beta1_KThreesConfigSpec_To_v1beta2_KThreesConfigSpec;
     field "Status" Convert_v1beta1_KThreesConfigStatus_To_v1beta2_KThreesConfigStatus].

Definition Convert_v1beta1_KThreesConfig_To_v1beta2_KThreesConfig : action :=
  autoConvert_v1beta1_KThreesConfig_To_v1beta2_KThreesConfig.

Definition Convert_v1beta2_KThreesAgentConfig_To_v1beta1_KThreesAgentConfig : action :=
  autoConvert_v1beta2_KThreesAgentConfig_To_v1beta1_KThreesAgentConfig.

Definition autoConvert_v1beta2_KThreesServerConfig_To_v1beta1_KThreesServerConfig : action :=
  in_order
    [field "KubeAPIServerArgs" cast; field "KubeControllerManagerArgs" cast;
     field "KubeSchedulerArgs" cast; field "TLSSan" cast; field "BindAddress" copy_value;
     field "HTTPSListenPort" copy_value; field "AdvertiseAddress" copy_value;
     field "AdvertisePort" copy_value; field "ClusterCidr" copy_value;
     field "ServiceCidr" copy_value; field "ClusterDNS" copy_value;
     field "ClusterDomain" copy_value; field "DisableComponents" cast].

Definition Convert_v1beta2_KThreesServerConfig_To_v1beta1_KThreesServerConfig : action :=
  in_order
    [wrapping "converting KThreesServerConfig v1beta2 to v1beta1"
       autoConvert_v1beta2_KThreesServerConfig_To_v1beta1_KThreesServerConfig;
     on ["DeprecatedDisableExternalCloudProvider"] ["DisableExternalCloudProvider"] copy_value].

Definition autoConvert_v1beta2_KThreesConfigSpec_To_v1beta1_KThreesConfigSpec : action :=
  in_order
    [field "Files" cast; field "PreK3sCommands" cast; field "PostK3sCommands" cast;
     field "AgentConfig" Convert_v1beta2_KThreesAgentConfig_To_v1beta1_KThreesAgentConfig;
     field "ServerConfig" Convert_v1beta2_KThreesServerConfig_To_v1beta1_KThreesServerConfig;
     field "Version" copy_value].

Definition Convert_v1beta2_KThreesConfigSpec_To_v1beta1_KThreesConfigSpec : action :=
  autoConvert_v1beta2_KThreesConfigSpec_To_v1beta1_KThreesConfigSpec.

Definition autoConvert_v1beta2_KThreesConfigStatus_To_v1beta1_KThreesConfigStatus : action :=
  in_order
    [field "Ready" copy_value; field "BootstrapData" cast; field "DataSecretName" cast;
     field "FailureReason" copy_value; field "FailureMessage" copy_value;
     field "ObservedGeneration" copy_value; field "Conditions" cast].

Definition Convert_v1beta2_KThreesConfigStatus_To_v1beta1_KThreesConfigStatus : action :=
  autoConvert_v1beta2_KThreesConfigStatus_To_v1beta1_KThreesConfigStatus.

Definition autoConvert_v1beta2_KThreesConfig_To_v1beta1_KThreesConfig : action :=
  in_order
    [field "ObjectMeta" copy_value;
     field "Spec" Convert_v1beta2_KThreesConfigSpec_To_v1beta1_KThreesConfigSpec;
     field "Status" Convert_v1beta2_KThreesConfigStatus_To_v1beta1_KThreesConfigStatus].

Definition Convert_v1beta2_KThreesConfig_To_v1beta1_KThreesConfig : action :=
  autoConvert_v1beta2_KThreesConfig_To_v1beta1_KThreesConfig.

Definition autoConvert_v1beta1_KThreesConfigList_To_v1beta2_KThreesConfigList : action :=
  in_order
    [field "ListMeta" copy_value;
     field "Items" (list_items DeepCopyBootstrapV1beta2.KThreesConfig_shape Convert_v1beta1_KThreesConfig_To_v1beta2_KThreesConfig)].

Definition Convert_v1beta1_KThreesConfigList_To_v1beta2_KThreesConfigList : action :=
  autoConvert_v1beta1_KThreesConfigList_To_v1beta2_KThreesConfigList.

Definition autoConvert_v1beta2_KThreesConfigList_To_v1beta1_KThreesConfigList : action :=
  in_order
    [field "ListMeta" copy_value;
     field "Items" (list_items DeepCopyBootstrapV1beta1.KThreesConfig_shape Convert_v1beta2_KThreesConfig_To_v1beta1_KThreesConfig)].

Definition Convert_v1beta2_KThreesConfigList_To_v1beta1_KThreesConfigList : action :=
  autoConvert_v1beta2_KThreesConfigList_To_v1beta1_KThreesConfigList.

Definition autoConvert_v1beta1_KThreesConfigTemplateResource_To_v1beta2_KThreesConfigTemplateResource : action :=
  in_order
    [field "Spec" Convert_v1beta1_KThreesConfigSpec_To_v1beta2_KThreesConfigSpec].

Definition Convert_v1beta1_KThreesConfigTemplateResource_To_v1beta2_KThreesConfigTemplateResource : action :=
  autoConvert_v1beta1_KThreesConfigTemplateResource_To_v1beta2_KThreesConfigTemplateResource.

Definition autoConvert_v1beta1_KThreesConfigTemplateSpec_To_v1beta2_KThreesConfigTemplateSpec : action :=
  in_order
    [field "Template" Convert_v1beta1_KThreesConfigTemplateResource_To_v1beta2_KThreesConfigTemplateResource].

Definition Convert_v1beta1_KThreesConfigTemplateSpec_To_v1beta2_KThreesConfigTemplateSpec : action :=
  autoConvert_v1beta1_KThreesConfigTemplateSpec_To_v1beta2_KThreesConfigTemplateSpec.

Definition autoConvert_v1beta1_KThreesConfigTemplate_To_v1beta2_KThreesConfigTemplate : action :=
  in_order
    [field "ObjectMeta" copy_value;
     field "Spec" Convert_v1beta1_KThreesConfigTemplateSpec_To_v1beta2_KThreesConfigTemplateSpec].

Definition Convert_v1beta1_KThreesConfigTemplate_To_v1beta2_KThreesConfigTemplate : action :=
  autoConvert_v1beta1_KThreesConfigTemplate_To_v1beta2_KThreesConfigTemplate.

Definition autoConvert_v1beta2_KThreesConfigTemplateResource_To_v1beta1_KThreesConfigTemplateResource : action :=
  in_order
    [field "Spec" Convert_v1beta2_KThreesConfigSpec_To_v1beta1_KThreesConfigSpec].

Definition Convert_v1beta2_KThreesConfigTemplateResource_To_v1beta1_KThreesConfigTemplateResource : action :=
  autoConvert_v1beta2_KThreesConfigTemplateResource_To_v1beta1_KThreesConfigTemplateResource.

Definition autoConvert_v1beta2_KThreesConfigTemplateSpec_To_v1beta1_KThreesConfigTemplateSpec : action :=
  in_order
    [field "Template" Convert_v1beta2_KThreesConfigTemplateResource_To_v1beta1_KThreesConfigTemplateResource].

Definition Convert_v1beta2_KThreesConfigTemplateSpec_To_v1beta1_KThreesConfigTemplateSpec : action :=
  autoConvert_v1beta2_KThreesConfigTemplateSpec_To_v1beta1_KThreesConfigTemplateSpec.

Definition autoConvert_v1beta2_KThreesConfigTemplate_To_v1beta1_KThreesConfigTemplate : action :=
  in_order
    [field "ObjectMeta" copy_value;
     field "Spec" Convert_v1beta2_KThreesConfigTemplateSpec_To_v1beta1_KThreesConfigTemplateSpec].

Definition Convert_v1beta2_KThreesConfigTemplate_To_v1beta1_KThreesConfigTemplate : action :=
  autoConvert_v1beta2_KThreesConfigTemplate_To_v1beta1_KThreesConfigTemplate.

Definition autoConvert_v1beta1_KThreesConfigTemplateList_To_v1beta2_KThreesConfigTemplateList : action :=
  in_order
    [field "ListMeta" copy_value;
     field "Items" (list_items DeepCopyBootstrapV1beta2.KThreesConfigTemplate_shape Convert_v1beta1_KThreesConfigTemplate_To_v1beta2_KThreesConfigTemplate)].

Definition Convert_v1beta1_KThreesConfigTemplateList_To_v1beta2_KThreesConfigTemplateList : action :=
  autoConvert_v1beta1_KThreesConfigTemplateList_To_v1beta2_KThreesConfigTemplateList.

Definition autoConvert_v1beta2_KThreesConfigTemplateList_To_v1beta1_KThreesConfigTemplateList : action :=
  in_order
    [field "ListMeta" copy_value;
     field "Items" (list_items DeepCopyBootstrapV1beta1.KThreesConfigTemplate_shape Convert_v1beta2_KThreesConfigTemplate_To_v1beta1_KThreesConfigTemplate)].

Definition Convert_v1beta2_KThreesConfigTemplateList_To_v1beta1_KThreesConfigTemplateList : action :=
  autoConvert_v1beta2_KThreesConfigTemplateList_To_v1beta1_KThreesConfigTemplateList.

(** What is registered with the scheme: the types, as their names and layouts, and
    the function; [AddGeneratedConversionFunc] is for those that the generator wrote. *)
Definition registered_conversions : list registration :=
  [mkRegistration true "v1beta1.File" DeepCopyBootstrapV1beta1.File_shape
     "v1beta2.File" DeepCopyBootstrapV1beta2.File_shape
     Convert_v1beta1_File_To_v1beta2_File;
   mkRegistration true "v1beta2.File" DeepCopyBootstrapV1beta2.File_shape
     "v1beta1.File" DeepCopyBootstrapV1beta1.File_shape
     Convert_v1beta2_File_To_v1beta1_File;
   mkRegistration true "v1beta1.FileSource" DeepCopyBootstrapV1beta1.FileSource_shape
     "v1beta2.FileSource" DeepCopyBootstrapV1beta2.FileSource_shape
     Convert_v1beta1_FileSource_To_v1beta2_FileSource;
   mkRegistration true "v1beta2.FileSource" DeepCopyBootstrapV1beta2.FileSource_shape
     "v1beta1.FileSource" DeepCopyBootstrapV1beta1.FileSource_shape
     Convert_v1beta2_FileSource_To_v1beta1_FileSource;
   mkRegistration true "v1beta1.KThreesAgentConfig" DeepCopyBootstrapV1beta1.KThreesAgentConfig_shape
     "v1beta2.KThreesAgentConfig" DeepCopyBootstrapV1beta2.KThreesAgentConfig_shape
     Convert_v1beta1_KThreesAgentConfig_To_v1beta2_KThreesAgentConfig;
   mkRegistration true "v1beta1.KThreesConfig" DeepCopyBootstrapV1beta1.KThreesConfig_shape
     "v1beta2.KThreesConfig" DeepCopyBootstrapV1beta2.KThreesConfig_shape
     Convert_v1beta1_KThreesConfig_To_v1beta2_KThreesConfig;
   mkRegistration true "v1beta2.KThreesConfig" DeepCopyBootstrapV1beta2.KThreesConfig_shape
     "v1beta1.KThreesConfig" DeepCopyBootstrapV1beta1.KThreesConfig_shape
     Convert_v1beta2_KThreesConfig_To_v1beta1_KThreesConfig;
   mkRegistration true "v1beta1.KThreesConfigList" DeepCopyBootstrapV1beta1.KThreesConfigList_shape
     "v1beta2.KThreesConfigList" DeepCopyBootstrapV1beta2.KThreesConfigList_shape
     Convert_v1beta1_KThreesConfigList_To_v1beta2_KThreesConfigList;
   mkRegistration true "v1beta2.KThreesConfigList" DeepCopyBootstrapV1beta2.KThreesConfigList_shape
     "v1beta1.KThreesConfigList" DeepCopyBootstrapV1beta1.KThreesConfigList_shape
     Convert_v1beta2_KThreesConfigList_To_v1beta1_KThreesConfigList;
   mkRegistration true "v1beta1.KThreesConfigSpec" DeepCopyBootstrapV1beta1.KThreesConfigSpec_shape
     "v1beta2.KThreesConfigSpec" DeepCopyBootstrapV1beta2.KThreesConfigSpec_shape
     Convert_v1beta1_KThreesConfigSpec_To_v1beta2_KThreesConfigSpec;
   mkRegistration true "v1beta2.KThreesConfigSpec" DeepCopyBootstrapV1beta2.KThreesConfigSpec_shape
     "v1beta1.KThreesConfigSpec" DeepCopyBootstrapV1beta1.KThreesConfigSpec_shape
     Convert_v1beta2_KThreesConfigSpec_To_v1beta1_KThreesConfigSpec;
   mkRegistration true "v1beta1.KThreesConfigStatus" DeepCopyBootstrapV1beta1.KThreesConfigStatus_shape
     "v1beta2.KThreesConfigStatus" DeepCopyBootstrapV1beta2.KThreesConfigStatus_shape
     Convert_v1beta1_KThreesConfigStatus_To_v1beta2_KThreesConfigStatus;
   mkRegistration true "v1beta2.KThreesConfigStatus" DeepCopyBootstrapV1beta2.KThreesConfigStatus_shape
     "v1beta1.KThreesConfigStatus" DeepCopyBootstrapV1beta1.KThreesConfigStatus_shape
     Convert_v1beta2_KThreesConfigStatus_To_v1beta1_KThreesConfigStatus;
   mkRegistration true "v1beta1.KThreesConfigTemplate" DeepCopyBootstrapV1beta1.KThreesConfigTemplate_shape
     "v1beta2.KThreesConfigTemplate" DeepCopyBootstrapV1beta2.KThreesConfigTemplate_shape
     Convert_v1beta1_KThreesConfigTemplate_To_v1beta2_KThreesConfigTemplate;
   mkRegistration true "v1beta2.KThreesConfigTemplate" DeepCopyBootstrapV1beta2.KThreesConfigTemplate_shape
     "v1beta1.KThreesConfigTemplate" DeepCopyBootstrapV1beta1.KThreesConfigTemplate_shape
     Convert_v1beta2_KThreesConfigTemplate_To_v1beta1_KThreesConfigTemplate;
   mkRegistration true "v1beta1.KThreesConfigTemplateList" DeepCopyBootstrapV1beta1.KThreesConfigTemplateList_shape
     "v1beta2.KThreesConfigTemplateList" DeepCopyBootstrapV1beta2.KThreesConfigTemplateList_shape
     Convert_v1beta1_KThreesConfigTemplateList_To_v1beta2_KThreesConfigTemplateList;
   mkRegistration true "v1beta2.KThreesConfigTemplateList" DeepCopyBootstrapV1beta2.KThreesConfigTemplateList_shape
     "v1beta1.KThreesConfigTemplateList" DeepCopyBootstrapV1beta1.KThreesConfigTemplateList_shape
     Convert_v1beta2_KThreesConfigTemplateList_To_v1beta1_KThreesConfigTemplateList;
   mkRegistration true "v1beta1.KThreesConfigTemplateResource" DeepCopyBootstrapV1beta1.KThreesConfigTemplateResource_shape
     "v1beta2.KThreesConfigTemplateResource" DeepCopyBootstrapV1beta2.KThreesConfigTemplateResource_shape
     Convert_v1beta1_KThreesConfigTemplateResource_To_v1beta2_KThreesConfigTemplateResource;
   mkRegistration true "v1beta2.KThreesConfigTemplateResource" DeepCopyBootstrapV1beta2.KThreesConfigTemplateResource_shape
     "v1beta1.KThreesConfigTemplateResource" DeepCopyBootstrapV1beta1.KThreesConfigTemplateResource_shape
     Convert_v1beta2_KThreesConfigTemplateResource_To_v1beta1_KThreesConfigTemplateResource;
   mkRegistration true "v1beta1.KThreesConfigTemplateSpec" DeepCopyBootstrapV1beta1.KThreesConfigTemplateSpec_shape
     "v1beta2.KThreesConfigTemplateSpec" DeepCopyBootstrapV1beta2.KThreesConfigTemplateSpec_shape
     Convert_v1beta1_KThreesConfigTemplateSpec_To_v1beta2_KThreesConfigTemplateSpec;
   mkRegistration true "v1beta2.KThreesConfigTemplateSpec" DeepCopyBootstrapV1beta2.KThreesConfigTemplateSpec_shape
     "v1beta1.KThreesConfigTemplateSpec" DeepCopyBootstrapV1beta1.KThreesConfigTemplateSpec_shape
     Convert_v1beta2_KThreesConfigTemplateSpec_To_v1beta1_KThreesConfigTemplateSpec;
   mkRegistration true "v1beta1.SecretFileSource" DeepCopyBootstrapV1beta1.SecretFileSource_shape
     "v1beta2.SecretFileSource" DeepCopyBootstrapV1beta2.SecretFileSource_shape
     Convert_v1beta1_SecretFileSource_To_v1beta2_SecretFileSource;
   mkRegistration true "v1beta2.SecretFileSource" DeepCopyBootstrapV1beta2.SecretFileSource_shape
     "v1beta1.SecretFileSource" DeepCopyBootstrapV1beta1.SecretFileSource_shape
     Convert_v1beta2_SecretFileSource_To_v1beta1_SecretFileSource;
   mkRegistration false "v1beta1.KThreesServerConfig" DeepCopyBootstrapV1beta1.KThreesServerConfig_shape
     "v1beta2.KThreesServerConfig" DeepCopyBootstrapV1beta2.KThreesServerConfig_shape
     Convert_v1beta1_KThreesServerConfig_To_v1beta2_KThreesServerConfig;
   mkRegistration false "v1beta2.KThreesAgentConfig" DeepCopyBootstrapV1beta2.KThreesAgentConfig_shape
     "v1beta1.KThreesAgentConfig" DeepCopyBootstrapV1beta1.KThreesAgentConfig_shape
     Convert_v1beta2_KThreesAgentConfig_To_v1beta1_KThreesAgentConfig;
   mkRegistration false "v1beta2.KThreesServerConfig" DeepCopyBootstrapV1beta2.KThreesServerConfig_shape
     "v1beta1.KThreesServerConfig" DeepCopyBootstrapV1beta1.KThreesServerConfig_shape
     Convert_v1beta2_KThreesServerConfig_To_v1beta1_KThreesServerConfig].

Definition RegisterConversions `{!Scheme} : M scheme unit :=
  for_each registered_conversions register.

(** ** What they make of a value *)

#[export] Instance autoConvert_v1beta1_File_To_v1beta2_File_Converts_b :
  Converts DeepCopyBootstrapV1beta1.File_shape
    DeepCopyBootstrapV1beta2.File_shape
    autoConvert_v1beta1_File_To_v1beta2_File.
Proof. unfold autoConvert_v1beta1_File_To_v1beta2_File. converts_go. Defined.

#[export] Instance Convert_v1beta1_File_To_v1beta2_File_Converts_b :
  Converts DeepCopyBootstrapV1beta1.File_shape
    DeepCopyBootstrapV1beta2.File_shape
    Convert_v1beta1_File_To_v1beta2_File.
Proof. unfold Convert_v1beta1_File_To_v1beta2_File. converts_go. Defined.

#[export] Instance autoConvert_v1beta2_File_To_v1beta1_File_Converts_b :
  Converts DeepCopyBootstrapV1beta2.File_shape
    DeepCopyBootstrapV1beta1.File_shape
    autoConvert_v1beta2_File_To_v1beta1_File.
Proof. unfold autoConvert_v1beta2_File_To_v1beta1_File. converts_go. Defined.

#[export] Instance Convert_v1beta2_File_To_v1beta1_File_Converts_b :
  Converts DeepCopyBootstrapV1beta2.File_shape
    DeepCopyBootstrapV1beta1.File_shape
    Convert_v1beta2_File_To_v1beta1_File.
Proof. unfold Convert_v1beta2_File_To_v1beta1_File. converts_go. Defined.

#[export] Instance autoConvert_v1beta1_SecretFileSource_To_v1beta2_SecretFileSource_Converts_b :
  Converts DeepCopyBootstrapV1beta1.SecretFileSource_shape
    DeepCopyBootstrapV1beta2.SecretFileSource_shape
    autoConvert_v1beta1_SecretFileSource_To_v1beta2_SecretFileSource.
Proof. unfold autoConvert_v1beta1_SecretFileSource_To_v1beta2_SecretFileSource. converts_go. Defined.

#[export] Instance Convert_v1beta1_SecretFileSource_To_v1beta2_SecretFileSource_Converts_b :
  Converts DeepCopyBootstrapV1beta1.SecretFileSource_shape
    DeepCopyBootstrapV1beta2.SecretFileSource_shape
    Convert_v1beta1_SecretFileSource_To_v1beta2_SecretFileSource.
Proof. unfold Convert_v1beta1_SecretFileSource_To_v1beta2_SecretFileSource. converts_go. Defined.

#[export] Instance autoConvert_v1beta1_FileSource_To_v1beta2_FileSource_Converts_b :
  Converts DeepCopyBootstrapV1beta1.FileSource_shape
    DeepCopyBootstrapV1beta2.FileSource_shape
    autoConvert_v1beta1_FileSource_To_v1beta2_FileSource.
Proof. unfold autoConvert_v1beta1_FileSource_To_v1beta2_FileSource. converts_go. Defined.

#[export] Instance Convert_v1beta1_FileSource_To_v1beta2_FileSource_Converts_b :
  Converts DeepCopyBootstrapV1beta1.FileSource_shape
    DeepCopyBootstrapV1beta2.FileSource_shape
    Convert_v1beta1_FileSource_To_v1beta2_FileSource.
Proof. unfold Convert_v1beta1_FileSource_To_v1beta2_FileSource. converts_go. Defined.

#[export] Instance autoConvert_v1beta2_SecretFileSource_To_v1beta1_SecretFileSource_Converts_b :
  Converts DeepCopyBootstrapV1beta2.SecretFileSource_shape
    DeepCopyBootstrapV1beta1.SecretFileSource_shape
    autoConvert_v1beta2_SecretFileSource_To_v1beta1_SecretFileSource.
Proof. unfold autoConvert_v1beta2_SecretFileSource_To_v1beta1_SecretFileSource. converts_go. Defined.

#[export] Instance Convert_v1beta2_SecretFileSource_To_v1beta1_SecretFileSource_Converts_b :
  Converts DeepCopyBootstrapV1beta2.SecretFileSource_shape
    DeepCopyBootstrapV1beta1.SecretFileSource_shape
    Convert_v1beta2_SecretFileSource_To_v1beta1_SecretFileSource.
Proof. unfold Convert_v1beta2_SecretFileSource_To_v1beta1_SecretFileSource. converts_go. Defined.

#[export] Instance autoConvert_v1beta2_FileSource_To_v1beta1_FileSource_Converts_b :
  Converts DeepCopyBootstrapV1beta2.FileSource_shape
    DeepCopyBootstrapV1beta1.FileSource_shape
    autoConvert_v1beta2_FileSource_To_v1beta1_FileSource.
Proof. unfold autoConvert_v1beta2_FileSource_To_v1beta1_FileSource. converts_go. Defined.

#[export] Instance Convert_v1beta2_FileSource_To_v1beta1_FileSource_Converts_b :
  Converts DeepCopyBootstrapV1beta2.FileSource_shape
    DeepCopyBootstrapV1beta1.FileSource_shape
    Convert_v1beta2_FileSource_To_v1beta1_FileSource.
Proof. unfold Convert_v1beta2_FileSource_To_v1beta1_FileSource. converts_go. Defined.

#[export] Instance autoConvert_v1beta1_KThreesAgentConfig_To_v1beta2_KThreesAgentConfig_Converts_b :
  Converts DeepCopyBootstrapV1beta1.KThreesAgentConfig_shape
    DeepCopyBootstrapV1beta2.KThreesAgentConfig_shape
    autoConvert_v1beta1_KThreesAgentConfig_To_v1beta2_KThreesAgentConfig.
Proof. unfold autoConvert_v1beta1_KThreesAgentConfig_To_v1beta2_KThreesAgentConfig. converts_go. Defined.

#[export] Instance Convert_v1beta1_KThreesAgentConfig_To_v1beta2_KThreesAgentConfig_Converts_b :
  Converts DeepCopyBootstrapV1beta1.KThreesAgentConfig_shape
    DeepCopyBootstrapV1beta2.KThreesAgentConfig_shape
    Convert_v1beta1_KThreesAgentConfig_To_v1beta2_KThreesAgentConfig.
Proof. unfold Convert_v1beta1_KThreesAgentConfig_To_v1beta2_KThreesAgentConfig. converts_go. Defined.

#[export] Instance autoConvert_v1beta2_KThreesAgentConfig_To_v1beta1_KThreesAgentConfig_Converts_b :
  Converts DeepCopyBootstrapV1beta2.KThreesAgentConfig_shape
    DeepCopyBootstrapV1beta1.KThreesAgentConfig_shape
    autoConvert_v1beta2_KThreesAgentConfig_To_v1beta1_KThreesAgentConfig.
Proof. unfold autoConvert_v1beta2_KThreesAgentConfig_To_v1beta1_KThreesAgentConfig. converts_go. Defined.

#[export] Instance autoConvert_v1beta1_KThreesServerConfig_To_v1beta2_KThreesServerConfig_Converts_b :
  Converts DeepCopyBootstrapV1beta1.KThreesServerConfig_shape
    DeepCopyBootstrapV1beta2.KThreesServerConfig_shape
    autoConvert_v1beta1_KThreesServerConfig_To_v1beta2_KThreesServerConfig.
Proof. unfold autoConvert_v1beta1_KThreesServerConfig_To_v1beta2_KThreesServerConfig. converts_go. Defined.

#[export] Instance Convert_v1beta1_KThreesServerConfig_To_v1beta2_KThreesServerConfig_Converts_b :
  Converts DeepCopyBootstrapV1beta1.KThreesServerConfig_shape
    DeepCopyBootstrapV1beta2.KThreesServerConfig_shape
    Convert_v1beta1_KThreesServerConfig_To_v1beta2_KThreesServerConfig.
Proof. unfold Convert_v1beta1_KThreesServerConfig_To_v1beta2_KThreesServerConfig. converts_go. Defined.

#[export] Instance autoConvert_v1beta1_KThreesConfigSpec_To_v1beta2_KThreesConfigSpec_Converts_b :
  Converts DeepCopyBootstrapV1beta1.KThreesConfigSpec_shape
    DeepCopyBootstrapV1beta2.KThreesConfigSpec_shape
    autoConvert_v1beta1_KThreesConfigSpec_To_v1beta2_KThreesConfigSpec.
Proof. unfold autoConvert_v1beta1_KThreesConfigSpec_To_v1beta2_KThreesConfigSpec. converts_go. Defined.

#[export] Instance Convert_v1beta1_KThreesConfigSpec_To_v1beta2_KThreesConfigSpec_Converts_b :
  Converts DeepCopyBootstrapV1beta1.KThreesConfigSpec_shape
    DeepCopyBootstrapV1beta2.KThreesConfigSpec_shape
    Convert_v1beta1_KThreesConfigSpec_To_v1beta2_KThreesConfigSpec.
Proof. unfold Convert_v1beta1_KThreesConfigSpec_To_v1beta2_KThreesConfigSpec. converts_go. Defined.

#[export] Instance autoConvert_v1beta1_KThreesConfigStatus_To_v1beta2_KThreesConfigStatus_Converts_b :
  Converts DeepCopyBootstrapV1beta1.KThreesConfigStatus_shape
    DeepCopyBootstrapV1beta2.KThreesConfigStatus_shape
    autoConvert_v1beta1_KThreesConfigStatus_To_v1beta2_KThreesConfigStatus.
Proof. unfold autoConvert_v1beta1_KThreesConfigStatus_To_v1beta2_KThreesConfigStatus. converts_go. Defined.

#[export] Instance Convert_v1beta1_KThreesConfigStatus_To_v1beta2_KThreesConfigStatus_Converts_b :
  Converts DeepCopyBootstrapV1beta1.KThreesConfigStatus_shape
    DeepCopyBootstrapV1beta2.KThreesConfigStatus_shape
    Convert_v1beta1_KThreesConfigStatus_To_v1beta2_KThreesConfigStatus.
Proof. unfold Convert_v1beta1_KThreesConfigStatus_To_v1beta2_KThreesConfigStatus. converts_go. Defined.

#[export] Instance autoConvert_v1beta1_KThreesConfig_To_v1beta2_KThreesConfig_Converts_b :
  Converts DeepCopyBootstrapV1beta1.KThreesConfig_shape
    DeepCopyBootstrapV1beta2.KThreesConfig_shape
    autoConvert_v1beta1_KThreesConfig_To_v1beta2_KThreesConfig.
Proof. unfold autoConvert_v1beta1_KThreesConfig_To_v1beta2_KThreesConfig. converts_go. Defined.

#[export] Instance Convert_v1beta1_KThreesConfig_To_v1beta2_KThreesConfig_Converts_b :
  Converts DeepCopyBootstrapV1beta1.KThreesConfig_shape
    DeepCopyBootstrapV1beta2.KThreesConfig_shape
    Convert_v1beta1_KThreesConfig_To_v1beta2_KThreesConfig.
Proof. unfold Convert_v1beta1_KThreesConfig_To_v1beta2_KThreesConfig. converts_go. Defined.

#[export] Instance Convert_v1beta2_KThreesAgentConfig_To_v1beta1_KThreesAgentConfig_Converts_b :
  Converts DeepCopyBootstrapV1beta2.KThreesAgentConfig_shape
    DeepCopyBootstrapV1beta1.KThreesAgentConfig_shape
    Convert_v1beta2_KThreesAgentConfig_To_v1beta1_KThreesAgentConfig.
Proof. unfold Convert_v1beta2_KThreesAgentConfig_To_v1beta1_KThreesAgentConfig. converts_go. Defined.

#[export] Instance autoConvert_v1beta2_KThreesServerConfig_To_v1beta1_KThreesServerConfig_Converts_b :
  Converts DeepCopyBootstrapV1beta2.KThreesServerConfig_shape
    DeepCopyBootstrapV1beta1.KThreesServerConfig_shape
    autoConvert_v1beta2_KThreesServerConfig_To_v1beta1_KThreesServerConfig.
Proof. unfold autoConvert_v1beta2_KThreesServerConfig_To_v1beta1_KThreesServerConfig. converts_go. Defined.

#[export] Instance Convert_v1beta2_KThreesServerConfig_To_v1beta1_KThreesServerConfig_Converts_b :
  Converts DeepCopyBootstrapV1beta2.KThreesServerConfig_shape
    DeepCopyBootstrapV1beta1.KThreesServerConfig_shape
    Convert_v1beta2_KThreesServerConfig_To_v1beta1_KThreesServerConfig.
Proof. unfold Convert_v1beta2_KThreesServerConfig_To_v1beta1_KThreesServerConfig. converts_go. Defined.

#[export] Instance autoConvert_v1beta2_KThreesConfigSpec_To_v1beta1_KThreesConfigSpec_Converts_b :
  Converts DeepCopyBootstrapV1beta2.KThreesConfigSpec_shape
    DeepCopyBootstrapV1beta1.KThreesConfigSpec_shape
    autoConvert_v1beta2_KThreesConfigSpec_To_v1beta1_KThreesConfigSpec.
Proof. unfold autoConvert_v1beta2_KThreesConfigSpec_To_v1beta1_KThreesConfigSpec. converts_go. Defined.

#[export] Instance Convert_v1beta2_KThreesConfigSpec_To_v1beta1_KThreesConfigSpec_Converts_b :
  Converts DeepCopyBootstrapV1beta2.KThreesConfigSpec_shape
    DeepCopyBootstrapV1beta1.KThreesConfigSpec_shape
    Convert_v1beta2_KThreesConfigSpec_To_v1beta1_KThreesConfigSpec.
Proof. unfold Convert_v1beta2_KThreesConfigSpec_To_v1beta1_KThreesConfigSpec. converts_go. Defined.

#[export] Instance autoConvert_v1beta2_KThreesConfigStatus_To_v1beta1_KThreesConfigStatus_Converts_b :
  Converts DeepCopyBootstrapV1beta2.KThreesConfigStatus_shape
    DeepCopyBootstrapV1beta1.KThreesConfigStatus_shape
    autoConvert_v1beta2_KThreesConfigStatus_To_v1beta1_KThreesConfigStatus.
Proof. unfold autoConvert_v1beta2_KThreesConfigStatus_To_v1beta1_KThreesConfigStatus. converts_go. Defined.

#[export] Instance Convert_v1beta2_KThreesConfigStatus_To_v1beta1_KThreesConfigStatus_Converts_b :
  Converts DeepCopyBootstrapV1beta2.KThreesConfigStatus_shape
    DeepCopyBootstrapV1beta1.KThreesConfigStatus_shape
    Convert_v1beta2_KThreesConfigStatus_To_v1beta1_KThreesConfigStatus.
Proof. unfold Convert_v1beta2_KThreesConfigStatus_To_v1beta1_KThreesConfigStatus. converts_go. Defined.

#[export] Instance autoConvert_v1beta2_KThreesConfig_To_v1beta1_KThreesConfig_Converts_b :
  Converts DeepCopyBootstrapV1beta2.KThreesConfig_shape
    DeepCopyBootstrapV1beta1.KThreesConfig_shape
    autoConvert_v1beta2_KThreesConfig_To_v1beta1_KThreesConfig.
Proof. unfold autoConvert_v1beta2_KThreesConfig_To_v1beta1_KThreesConfig. converts_go. Defined.

#[export] Instance Convert_v1beta2_KThreesConfig_To_v1beta1_KThreesConfig_Converts_b :
  Converts DeepCopyBootstrapV1beta2.KThreesConfig_shape
    DeepCopyBootstrapV1beta1.KThreesConfig_shape
    Convert_v1beta2_KThreesConfig_To_v1beta1_KThreesConfig.
Proof. unfold Convert_v1beta2_KThreesConfig_To_v1beta1_KThreesConfig. converts_go. Defined.

#[export] Instance autoConvert_v1beta1_KThreesConfigList_To_v1beta2_KThreesConfigList_Converts_b :
  Converts DeepCopyBootstrapV1beta1.KThreesConfigList_shape
    DeepCopyBootstrapV1beta2.KThreesConfigList_shape
    autoConvert_v1beta1_KThreesConfigList_To_v1beta2_KThreesConfigList.
Proof. unfold autoConvert_v1beta1_KThreesConfigList_To_v1beta2_KThreesConfigList. converts_go. Defined.

#[export] Instance Convert_v1beta1_KThreesConfigList_To_v1beta2_KThreesConfigList_Converts_b :
  Converts DeepCopyBootstrapV1beta1.KThreesConfigList_shape
    DeepCopyBootstrapV1beta2.KThreesConfigList_shape
    Convert_v1beta1_KThreesConfigList_To_v1beta2_KThreesConfigList.
Proof. unfold Convert_v1beta1_KThreesConfigList_To_v1beta2_KThreesConfigList. converts_go. Defined.

#[export] Instance autoConvert_v1beta2_KThreesConfigList_To_v1beta1_KThreesConfigList_Converts_b :
  Converts DeepCopyBootstrapV1beta2.KThreesConfigList_shape
    DeepCopyBootstrapV1beta1.KThreesConfigList_shape
    autoConvert_v1beta2_KThreesConfigList_To_v1beta1_KThreesConfigList.
Proof. unfold autoConvert_v1beta2_KThreesConfigList_To_v1beta1_KThreesConfigList. converts_go. Defined.

#[export] Instance Convert_v1beta2_KThreesConfigList_To_v1beta1_KThreesConfigList_Converts_b :
  Converts DeepCopyBootstrapV1beta2.KThreesConfigList_shape
    DeepCopyBootstrapV1beta1.KThreesConfigList_shape
    Convert_v1beta2_KThreesConfigList_To_v1beta1_KThreesConfigList.
Proof. unfold Convert_v1beta2_KThreesConfigList_To_v1beta1_KThreesConfigList. converts_go. Defined.

#[export] Instance autoConvert_v1beta1_KThreesConfigTemplateResource_To_v1beta2_KThreesConfigTemplateResource_Converts_b :
  Converts DeepCopyBootstrapV1beta1.KThreesConfigTemplateResource_shape
    DeepCopyBootstrapV1beta2.KThreesConfigTemplateResource_shape
    autoConvert_v1beta1_KThreesConfigTemplateResource_To_v1beta2_KThreesConfigTemplateResource.
Proof. unfold autoConvert_v1beta1_KThreesConfigTemplateResource_To_v1beta2_KThreesConfigTemplateResource. converts_go. Defined.

#[export] Instance Convert_v1beta1_KThreesConfigTemplateResource_To_v1beta2_KThreesConfigTemplateResource_Converts_b :
  Converts DeepCopyBootstrapV1beta1.KThreesConfigTemplateResource_shape
    DeepCopyBootstrapV1beta2.KThreesConfigTemplateResource_shape
    Convert_v1beta1_KThreesConfigTemplateResource_To_v1beta2_KThreesConfigTemplateResource.
Proof. unfold Convert_v1beta1_KThreesConfigTemplateResource_To_v1beta2_KThreesConfigTemplateResource. converts_go. Defined.

#[export] Instance autoConvert_v1beta1_KThreesConfigTemplateSpec_To_v1beta2_KThreesConfigTemplateSpec_Converts_b :
  Converts DeepCopyBootstrapV1beta1.KThreesConfigTemplateSpec_shape
    DeepCopyBootstrapV1beta2.KThreesConfigTemplateSpec_shape
    autoConvert_v1beta1_KThreesConfigTemplateSpec_To_v1beta2_KThreesConfigTemplateSpec.
Proof. unfold autoConvert_v1beta1_KThreesConfigTemplateSpec_To_v1beta2_KThreesConfigTemplateSpec. converts_go. Defined.

#[export] Instance Convert_v1beta1_KThreesConfigTemplateSpec_To_v1beta2_KThreesConfigTemplateSpec_Converts_b :
  Converts DeepCopyBootstrapV1beta1.KThreesConfigTemplateSpec_shape
    DeepCopyBootstrapV1beta2.KThreesConfigTemplateSpec_shape
    Convert_v1beta1_KThreesConfigTemplateSpec_To_v1beta2_KThreesConfigTemplateSpec.
Proof. unfold Convert_v1beta1_KThreesConfigTemplateSpec_To_v1beta2_KThreesConfigTemplateSpec. converts_go. Defined.

#[export] Instance autoConvert_v1beta1_KThreesConfigTemplate_To_v1beta2_KThreesConfigTemplate_Converts_b :
  Converts DeepCopyBootstrapV1beta1.KThreesConfigTemplate_shape
    DeepCopyBootstrapV1beta2.KThreesConfigTemplate_shape
    autoConvert_v1beta1_KThreesConfigTemplate_To_v1beta2_KThreesConfigTemplate.
Proof. unfold autoConvert_v1beta1_KThreesConfigTemplate_To_v1beta2_KThreesConfigTemplate. converts_go. Defined.

#[export] Instance Convert_v1beta1_KThreesConfigTemplate_To_v1beta2_KThreesConfigTemplate_Converts_b :
  Converts DeepCopyBootstrapV1beta1.KThreesConfigTemplate_shape
    DeepCopyBootstrapV1beta2.KThreesConfigTemplate_shape
    Convert_v1beta1_KThreesConfigTemplate_To_v1beta2_KThreesConfigTemplate.
Proof. unfold Convert_v1beta1_KThreesConfigTemplate_To_v1beta2_KThreesConfigTemplate. converts_go. Defined.

#[export] Instance autoConvert_v1beta2_KThreesConfigTemplateResource_To_v1beta1_KThreesConfigTemplateResource_Converts_b :
  Converts DeepCopyBootstrapV1beta2.KThreesConfigTemplateResource_shape
    DeepCopyBootstrapV1beta1.KThreesConfigTemplateResource_shape
    autoConvert_v1beta2_KThreesConfigTemplateResource_To_v1beta1_KThreesConfigTemplateResource.
Proof. unfold autoConvert_v1beta2_KThreesConfigTemplateResource_To_v1beta1_KThreesConfigTemplateResource. converts_go. Defined.

#[export] Instance Convert_v1beta2_KThreesConfigTemplateResource_To_v1beta1_KThreesConfigTemplateResource_Converts_b :
  Converts DeepCopyBootstrapV1beta2.KThreesConfigTemplateResource_shape
    DeepCopyBootstrapV1beta1.KThreesConfigTemplateResource_shape
    Convert_v1beta2_KThreesConfigTemplateResource_To_v1beta1_KThreesConfigTemplateResource.
Proof. unfold Convert_v1beta2_KThreesConfigTemplateResource_To_v1beta1_KThreesConfigTemplateResource. converts_go. Defined.

#[export] Instance autoConvert_v1beta2_KThreesConfigTemplateSpec_To_v1beta1_KThreesConfigTemplateSpec_Converts_b :
  Converts DeepCopyBootstrapV1beta2.KThreesConfigTemplateSpec_shape
    DeepCopyBootstrapV1beta1.KThreesConfigTemplateSpec_shape
    autoConvert_v1beta2_KThreesConfigTemplateSpec_To_v1beta1_KThreesConfigTemplateSpec.
Proof. unfold autoConvert_v1beta2_KThreesConfigTemplateSpec_To_v1beta1_KThreesConfigTemplateSpec. converts_go. Defined.

#[export] Instance Convert_v1beta2_KThreesConfigTemplateSpec_To_v1beta1_KThreesConfigTemplateSpec_Converts_b :
  Converts DeepCopyBootstrapV1beta2.KThreesConfigTemplateSpec_shape
    DeepCopyBootstrapV1beta1.KThreesConfigTemplateSpec_shape
    Convert_v1beta2_KThreesConfigTemplateSpec_To_v1beta1_KThreesConfigTemplateSpec.
Proof. unfold Convert_v1beta2_KThreesConfigTemplateSpec_To_v1beta1_KThreesConfigTemplateSpec. converts_go. Defined.

#[export] Instance autoConvert_v1beta2_KThreesConfigTemplate_To_v1beta1_KThreesConfigTemplate_Converts_b :
  Converts DeepCopyBootstrapV1beta2.KThreesConfigTemplate_shape
    DeepCopyBootstrapV1beta1.KThreesConfigTemplate_shape
    autoConvert_v1beta2_KThreesConfigTemplate_To_v1beta1_KThreesConfigTemplate.
Proof. unfold autoConvert_v1beta2_KThreesConfigTemplate_To_v1beta1_KThreesConfigTemplate. converts_go. Defined.

#[export] Instance Convert_v1beta2_KThreesConfigTemplate_To_v1beta1_KThreesConfigTemplate_Converts_b :
  Converts DeepCopyBootstrapV1beta2.KThreesConfigTemplate_shape
    DeepCopyBootstrapV1beta1.KThreesConfigTemplate_shape
    Convert_v1beta2_KThreesConfigTemplate_To_v1beta1_KThreesConfigTemplate.
Proof. unfold Convert_v1beta2_KThreesConfigTemplate_To_v1beta1_KThreesConfigTemplate. converts_go. Defined.

#[export] Instance autoConvert_v1beta1_KThreesConfigTemplateList_To_v1beta2_KThreesConfigTemplateList_Converts_b :
  Converts DeepCopyBootstrapV1beta1.KThreesConfigTemplateList_shape
    DeepCopyBootstrapV1beta2.KThreesConfigTemplateList_shape
    autoConvert_v1beta1_KThreesConfigTemplateList_To_v1beta2_KThreesConfigTemplateList.
Proof. unfold autoConvert_v1beta1_KThreesConfigTemplateList_To_v1beta2_KThreesConfigTemplateList. converts_go. Defined.

#[export] Instance Convert_v1beta1_KThreesConfigTemplateList_To_v1beta2_KThreesConfigTemplateList_Converts_b :
  Converts DeepCopyBootstrapV1beta1.KThreesConfigTemplateList_shape
    DeepCopyBootstrapV1beta2.KThreesConfigTemplateList_shape
    Convert_v1beta1_KThreesConfigTemplateList_To_v1beta2_KThreesConfigTemplateList.
Proof. unfold Convert_v1beta1_KThreesConfigTemplateList_To_v1beta2_KThreesConfigTemplateList. converts_go. Defined.

#[export] Instance autoConvert_v1beta2_KThreesConfigTemplateList_To_v1beta1_KThreesConfigTemplateList_Converts_b :
  Converts DeepCopyBootstrapV1beta2.KThreesConfigTemplateList_shape
    DeepCopyBootstrapV1beta1.KThreesConfigTemplateList_shape
    autoConvert_v1beta2_KThreesConfigTemplateList_To_v1beta1_KThreesConfigTemplateList.
Proof. unfold autoConvert_v1beta2_KThreesConfigTemplateList_To_v1beta1_KThreesConfigTemplateList. converts_go. Defined.

#[export] Instance Convert_v1beta2_KThreesConfigTemplateList_To_v1beta1_KThreesConfigTemplateList_Converts_b :
  Converts DeepCopyBootstrapV1beta2.KThreesConfigTemplateList_shape
    DeepCopyBootstrapV1beta1.KThreesConfigTemplateList_shape
    Convert_v1beta2_KThreesConfigTemplateList_To_v1beta1_KThreesConfigTemplateList.
Proof. unfold Convert_v1beta2_KThreesConfigTemplateList_To_v1beta1_KThreesConfigTemplateList. converts_go. Defined.
End Conversions.
