(* ===== verification/ConvertControlPlane.v ===== *)
(** The conversions between the two versions of the API of the control-plane
    provider, on memory ([controlplane/api/v1beta1/zz_generated.conversion.go] and, for those
    that the generator leaves to a person, [conversion.go] beside it). The function
    [Convert_v_T_To_w_T] converts the type [T] from version [v] to version [w]. *)

From S2P Require Import Prelude GoStd Effects Memory Converting ExternalTypes DeepCopyBootstrapV1beta1 DeepCopyBootstrapV1beta2 DeepCopyControlPlaneV1beta1 DeepCopyControlPlaneV1beta2 ConvertBootstrap.

Section Conversions.
Context `{Signature} `{!ExternalTypes}.

Definition Convert_v1beta1_KThreesConfigSpec_To_v1beta2_KThreesConfigSpec : action :=
  ConvertBootstrap.Convert_v1beta1_KThreesConfigSpec_To_v1beta2_KThreesConfigSpec.

Definition autoConvert_v1beta1_KThreesControlPlaneMachineTemplate_To_v1beta2_KThreesControlPlaneMachineTemplate : action :=
  in_order
    [field "ObjectMeta" copy_value].

Definition Convert_v1beta1_KThreesControlPlaneMachineTemplate_To_v1beta2_KThreesControlPlaneMachineTemplate : action :=
  autoConvert_v1beta1_KThreesControlPlaneMachineTemplate_To_v1beta2_KThreesControlPlaneMachineTemplate.

Definition Convert_v1beta1_KThreesControlPlaneSpec_To_v1beta2_KThreesControlPlaneSpec : action :=
  in_order
    [field "Replicas" copy_value; field "Version" copy_value;
     wrapping "converting KThreesConfigSpec field from v1beta1 to v1beta2"
       (field "KThreesConfigSpec" Convert_v1beta1_KThreesConfigSpec_To_v1beta2_KThreesConfigSpec);
     on ["UpgradeAfter"] ["RolloutAfter"] copy_value;
     wrapping "converting KThreesControlPlaneMachineTemplate field from v1beta1 to v1beta2"
       (field "MachineTemplate"
          Convert_v1beta1_KThreesControlPlaneMachineTemplate_To_v1beta2_KThreesControlPlaneMachineTemplate);
     on ["NodeDrainTimeout"] ["MachineTemplate"; "NodeDrainTimeout"] copy_value;
     on ["InfrastructureTemplate"] ["MachineTemplate"; "InfrastructureRef"] copy_value;
     field "RemediationStrategy" cast].

Definition autoConvert_v1beta1_KThreesControlPlaneStatus_To_v1beta2_KThreesControlPlaneStatus : action :=
  in_order
    [field "Selector" copy_value; field "Replicas" copy_value; field "UpdatedReplicas" copy_value;
     field "ReadyReplicas" copy_value; field "UnavailableReplicas" copy_value;
     field "Initialized" copy_value; field "Ready" copy_value; field "FailureReason" copy_value;
     field "FailureMessage" cast; field "ObservedGeneration" copy_value; field "Conditions" cast;
     field "LastRemediation" cast].

Definition Convert_v1beta1_KThreesControlPlaneStatus_To_v1beta2_KThreesControlPlaneStatus : action :=
  autoConvert_v1beta1_KThreesControlPlaneStatus_To_v1beta2_KThreesControlPlaneStatus.

Definition autoConvert_v1beta1_KThreesControlPlane_To_v1beta2_KThreesControlPlane : action :=
  in_order
    [field "ObjectMeta" copy_value;
     field "Spec" Convert_v1beta1_KThreesControlPlaneSpec_To_v1beta2_KThreesControlPlaneSpec;
     field "Status" Convert_v1beta1_KThreesControlPlaneStatus_To_v1beta2_KThreesControlPlaneStatus].

Definition Convert_v1beta1_KThreesControlPlane_To_v1beta2_KThreesControlPlane : action :=
  autoConvert_v1beta1_KThreesControlPlane_To_v1beta2_KThreesControlPlane.

Definition Convert_v1beta2_KThreesConfigSpec_To_v1beta1_KThreesConfigSpec : action :=
  ConvertBootstrap.Convert_v1beta2_KThreesConfigSpec_To_v1beta1_KThreesConfigSpec.

Definition Convert_v1beta2_KThreesControlPlaneMachineTemplate_To_v1beta1_KThreesControlPlaneMachineTemplate : action :=
  in_order [field "ObjectMeta" copy_value].

Definition Convert_v1beta2_KThreesControlPlaneSpec_To_v1beta1_KThreesControlPlaneSpec : action :=
  in_order
    [field "Replicas" copy_value; field "Version" copy_value;
     on ["MachineTemplate"; "InfrastructureRef"] ["InfrastructureTemplate"] copy_value;
     wrapping "converting KThreesConfigSpec field from v1beta2 to v1beta1"
       (field "KThreesConfigSpec" Convert_v1beta2_KThreesConfigSpec_To_v1beta1_KThreesConfigSpec);
     on ["RolloutAfter"] ["UpgradeAfter"] copy_value;
     on ["MachineTemplate"; "NodeDrainTimeout"] ["NodeDrainTimeout"] copy_value;
     wrapping "converting KThreesControlPlaneMachineTemplate field from v1beta2 to v1beta1"
       (field "MachineTemplate"
          Convert_v1beta2_KThreesControlPlaneMachineTemplate_To_v1beta1_KThreesControlPlaneMachineTemplate);
     field "RemediationStrategy" cast].

Definition autoConvert_v1beta2_KThreesControlPlaneStatus_To_v1beta1_KThreesControlPlaneStatus : action :=
  in_order
    [field "Selector" copy_value; field "Replicas" copy_value; field "UpdatedReplicas" copy_value;
     field "ReadyReplicas" copy_value; field "UnavailableReplicas" copy_value;
     field "Initialized" copy_value; field "Ready" copy_value; field "FailureReason" copy_value;
     field "FailureMessage" cast; field "ObservedGeneration" copy_value; field "Conditions" cast;
     field "LastRemediation" cast].

Definition Convert_v1beta2_KThreesControlPlaneStatus_To_v1beta1_KThreesControlPlaneStatus : action :=
  autoConvert_v1beta2_KThreesControlPlaneStatus_To_v1beta1_KThreesControlPlaneStatus.

Definition autoConvert_v1beta2_KThreesControlPlane_To_v1beta1_KThreesControlPlane : action :=
  in_order
    [field "ObjectMeta" copy_value;
     field "Spec" Convert_v1beta2_KThreesControlPlaneSpec_To_v1beta1_KThreesControlPlaneSpec;
     field "Status" Convert_v1beta2_KThreesControlPlaneStatus_To_v1beta1_KThreesControlPlaneStatus].

Definition Convert_v1beta2_KThreesControlPlane_To_v1beta1_KThreesControlPlane : action :=
  autoConvert_v1beta2_KThreesControlPlane_To_v1beta1_KThreesControlPlane.

Definition autoConvert_v1beta1_KThreesControlPlaneList_To_v1beta2_KThreesControlPlaneList : action :=
  in_order
    [field "ListMeta" copy_value;
     field "Items" (list_items DeepCopyControlPlaneV1beta2.KThreesControlPlane_shape Convert_v1beta1_KThreesControlPlane_To_v1beta2_KThreesControlPlane)].

Definition Convert_v1beta1_KThreesControlPlaneList_To_v1beta2_KThreesControlPlaneList : action :=
  autoConvert_v1beta1_KThreesControlPlaneList_To_v1beta2_KThreesControlPlaneList.

Definition autoConvert_v1beta2_KThreesControlPlaneList_To_v1beta1_KThreesControlPlaneList : action :=
  in_order
    [field "ListMeta" copy_value;
     field "Items" (list_items DeepCopyControlPlaneV1beta1.KThreesControlPlane_shape Convert_v1beta2_KThreesControlPlane_To_v1beta1_KThreesControlPlane)].

Definition Convert_v1beta2_KThreesControlPlaneList_To_v1beta1_KThreesControlPlaneList : action :=
  autoConvert_v1beta2_KThreesControlPlaneList_To_v1beta1_KThreesControlPlaneList.

Definition autoConvert_v1beta2_KThreesControlPlaneMachineTemplate_To_v1beta1_KThreesControlPlaneMachineTemplate : action :=
  in_order
    [field "ObjectMeta" copy_value].

Definition autoConvert_v1beta1_KThreesControlPlaneSpec_To_v1beta2_KThreesControlPlaneSpec : action :=
  in_order
    [field "Replicas" cast; field "Version" copy_value;
     field "KThreesConfigSpec" Convert_v1beta1_KThreesConfigSpec_To_v1beta2_KThreesConfigSpec;
     field "MachineTemplate" Convert_v1beta1_KThreesControlPlaneMachineTemplate_To_v1beta2_KThreesControlPlaneMachineTemplate;
     field "RemediationStrategy" cast].

Definition autoConvert_v1beta2_KThreesControlPlaneSpec_To_v1beta1_KThreesControlPlaneSpec : action :=
  in_order
    [field "Replicas" cast; field "Version" copy_value;
     field "KThreesConfigSpec" Convert_v1beta2_KThreesConfigSpec_To_v1beta1_KThreesConfigSpec;
     field "MachineTemplate" Convert_v1beta2_KThreesControlPlaneMachineTemplate_To_v1beta1_KThreesControlPlaneMachineTemplate;
     field "RemediationStrategy" cast].

Definition autoConvert_v1beta1_LastRemediationStatus_To_v1beta2_LastRemediationStatus : action :=
  in_order
    [field "Machine" copy_value; field "Timestamp" copy_value; field "RetryCount" copy_value].

Definition Convert_v1beta1_LastRemediationStatus_To_v1beta2_LastRemediationStatus : action :=
  autoConvert_v1beta1_LastRemediationStatus_To_v1beta2_LastRemediationStatus.

Definition autoConvert_v1beta2_LastRemediationStatus_To_v1beta1_LastRemediationStatus : action :=
  in_order
    [field "Machine" copy_value; field "Timestamp" copy_value; field "RetryCount" copy_value].

Definition Convert_v1beta2_LastRemediationStatus_To_v1beta1_LastRemediationStatus : action :=
  autoConvert_v1beta2_LastRemediationStatus_To_v1beta1_LastRemediationStatus.

Definition autoConvert_v1beta1_RemediationStrategy_To_v1beta2_RemediationStrategy : action :=
  in_order
    [field "MaxRetry" cast; field "RetryPeriod" copy_value; field "MinHealthyPeriod" cast].

Definition Convert_v1beta1_RemediationStrategy_To_v1beta2_RemediationStrategy : action :=
  autoConvert_v1beta1_RemediationStrategy_To_v1beta2_RemediationStrategy.

Definition autoConvert_v1beta2_RemediationStrategy_To_v1beta1_RemediationStrategy : action :=
  in_order
    [field "MaxRetry" cast; field "RetryPeriod" copy_value; field "MinHealthyPeriod" cast].

Definition Convert_v1beta2_RemediationStrategy_To_v1beta1_RemediationStrategy : action :=
  autoConvert_v1beta2_RemediationStrategy_To_v1beta1_RemediationStrategy.

(** What is registered with the scheme: the types, as their names and layouts, and
    the function; [AddGeneratedConversionFunc] is for those that the generator wrote. *)
Definition registered_conversions : list registration :=
  [mkRegistration true "v1beta1.KThreesControlPlane" DeepCopyControlPlaneV1beta1.KThreesControlPlane_shape
     "v1beta2.KThreesControlPlane" DeepCopyControlPlaneV1beta2.KThreesControlPlane_shape
     Convert_v1beta1_KThreesControlPlane_To_v1beta2_KThreesControlPlane;
   mkRegistration true "v1beta2.KThreesControlPlane" DeepCopyControlPlaneV1beta2.KThreesControlPlane_shape
     "v1beta1.KThreesControlPlane" DeepCopyControlPlaneV1beta1.KThreesControlPlane_shape
     Convert_v1beta2_KThreesControlPlane_To_v1beta1_KThreesControlPlane;
   mkRegistration true "v1beta1.KThreesControlPlaneList" DeepCopyControlPlaneV1beta1.KThreesControlPlaneList_shape
     "v1beta2.KThreesControlPlaneList" DeepCopyControlPlaneV1beta2.KThreesControlPlaneList_shape
     Convert_v1beta1_KThreesControlPlaneList_To_v1beta2_KThreesControlPlaneList;
   mkRegistration true "v1beta2.KThreesControlPlaneList" DeepCopyControlPlaneV1beta2.KThreesControlPlaneList_shape
     "v1beta1.KThreesControlPlaneList" DeepCopyControlPlaneV1beta1.KThreesControlPlaneList_shape
     Convert_v1beta2_KThreesControlPlaneList_To_v1beta1_KThreesControlPlaneList;
   mkRegistration true "v1beta1.KThreesControlPlaneMachineTemplate" DeepCopyControlPlaneV1beta1.KThreesControlPlaneMachineTemplate_shape
     "v1beta2.KThreesControlPlaneMachineTemplate" DeepCopyControlPlaneV1beta2.KThreesControlPlaneMachineTemplate_shape
     Convert_v1beta1_KThreesControlPlaneMachineTemplate_To_v1beta2_KThreesControlPlaneMachineTemplate;
   mkRegistration true "v1beta1.KThreesControlPlaneStatus" DeepCopyControlPlaneV1beta1.KThreesControlPlaneStatus_shape
     "v1beta2.KThreesControlPlaneStatus" DeepCopyControlPlaneV1beta2.KThreesControlPlaneStatus_shape
     Convert_v1beta1_KThreesControlPlaneStatus_To_v1beta2_KThreesControlPlaneStatus;
   mkRegistration true "v1beta1.LastRemediationStatus" DeepCopyControlPlaneV1beta1.LastRemediationStatus_shape
     "v1beta2.LastRemediationStatus" DeepCopyControlPlaneV1beta2.LastRemediationStatus_shape
     Convert_v1beta1_LastRemediationStatus_To_v1beta2_LastRemediationStatus;
   mkRegistration true "v1beta2.LastRemediationStatus" DeepCopyControlPlaneV1beta2.LastRemediationStatus_shape
     "v1beta1.LastRemediationStatus" DeepCopyControlPlaneV1beta1.LastRemediationStatus_shape
     Convert_v1beta2_LastRemediationStatus_To_v1beta1_LastRemediationStatus;
   mkRegistration true "v1beta1.RemediationStrategy" DeepCopyControlPlaneV1beta1.RemediationStrategy_shape
     "v1beta2.RemediationStrategy" DeepCopyControlPlaneV1beta2.RemediationStrategy_shape
     Convert_v1beta1_RemediationStrategy_To_v1beta2_RemediationStrategy;
   mkRegistration true "v1beta2.RemediationStrategy" DeepCopyControlPlaneV1beta2.RemediationStrategy_shape
     "v1beta1.RemediationStrategy" DeepCopyControlPlaneV1beta1.RemediationStrategy_shape
     Convert_v1beta2_RemediationStrategy_To_v1beta1_RemediationStrategy;
   mkRegistration false "v1beta1.KThreesConfigSpec" DeepCopyBootstrapV1beta1.KThreesConfigSpec_shape
     "v1beta2.KThreesConfigSpec" DeepCopyBootstrapV1beta2.KThreesConfigSpec_shape
     Convert_v1beta1_KThreesConfigSpec_To_v1beta2_KThreesConfigSpec;
   mkRegistration false "v1beta1.KThreesControlPlaneSpec" DeepCopyControlPlaneV1beta1.KThreesControlPlaneSpec_shape
     "v1beta2.KThreesControlPlaneSpec" DeepCopyControlPlaneV1beta2.KThreesControlPlaneSpec_shape
     Convert_v1beta1_KThreesControlPlaneSpec_To_v1beta2_KThreesControlPlaneSpec;
   mkRegistration false "v1beta2.KThreesConfigSpec" DeepCopyBootstrapV1beta2.KThreesConfigSpec_shape
     "v1beta1.KThreesConfigSpec" DeepCopyBootstrapV1beta1.KThreesConfigSpec_shape
     Convert_v1beta2_KThreesConfigSpec_To_v1beta1_KThreesConfigSpec;
   mkRegistration false "v1beta2.KThreesControlPlaneMachineTemplate" DeepCopyControlPlaneV1beta2.KThreesControlPlaneMachineTemplate_shape
     "v1beta1.KThreesControlPlaneMachineTemplate" DeepCopyControlPlaneV1beta1.KThreesControlPlaneMachineTemplate_shape
     Convert_v1beta2_KThreesControlPlaneMachineTemplate_To_v1beta1_KThreesControlPlaneMachineTemplate;
   mkRegistration false "v1beta2.KThreesControlPlaneSpec" DeepCopyControlPlaneV1beta2.KThreesControlPlaneSpec_shape
     "v1beta1.KThreesControlPlaneSpec" DeepCopyControlPlaneV1beta1.KThreesControlPlaneSpec_shape
     Convert_v1beta2_KThreesControlPlaneSpec_To_v1beta1_KThreesControlPlaneSpec;
   mkRegistration false "v1beta2.KThreesControlPlaneStatus" DeepCopyControlPlaneV1beta2.KThreesControlPlaneStatus_shape
     "v1beta1.KThreesControlPlaneStatus" DeepCopyControlPlaneV1beta1.KThreesControlPlaneStatus_shape
     Convert_v1beta2_KThreesControlPlaneStatus_To_v1beta1_KThreesControlPlaneStatus].

Definition RegisterConversions `{!Scheme} : M scheme unit :=
  for_each registered_conversions register.

(** ** What they make of a value *)

#[export] Instance Convert_v1beta1_KThreesConfigSpec_To_v1beta2_KThreesConfigSpec_Converts_c :
  Converts DeepCopyBootstrapV1beta1.KThreesConfigSpec_shape
    DeepCopyBootstrapV1beta2.KThreesConfigSpec_shape
    Convert_v1beta1_KThreesConfigSpec_To_v1beta2_KThreesConfigSpec.
Proof. unfold Convert_v1beta1_KThreesConfigSpec_To_v1beta2_KThreesConfigSpec. converts_go. Defined.

#[export] Instance autoConvert_v1beta1_KThreesControlPlaneMachineTemplate_To_v1beta2_KThreesControlPlaneMachineTemplate_Converts_c :
  Converts DeepCopyControlPlaneV1beta1.KThreesControlPlaneMachineTemplate_shape
    DeepCopyControlPlaneV1beta2.KThreesControlPlaneMachineTemplate_shape
    autoConvert_v1beta1_KThreesControlPlaneMachineTemplate_To_v1beta2_KThreesControlPlaneMachineTemplate.
Proof. unfold autoConvert_v1beta1_KThreesControlPlaneMachineTemplate_To_v1beta2_KThreesControlPlaneMachineTemplate. converts_go. Defined.

#[export] Instance Convert_v1beta1_KThreesControlPlaneMachineTemplate_To_v1beta2_KThreesControlPlaneMachineTemplate_Converts_c :
  Converts DeepCopyControlPlaneV1beta1.KThreesControlPlaneMachineTemplate_shape
    DeepCopyControlPlaneV1beta2.KThreesControlPlaneMachineTemplate_shape
    Convert_v1beta1_KThreesControlPlaneMachineTemplate_To_v1beta2_KThreesControlPlaneMachineTemplate.
Proof. unfold Convert_v1beta1_KThreesControlPlaneMachineTemplate_To_v1beta2_KThreesControlPlaneMachineTemplate. converts_go. Defined.

#[export] Instance Convert_v1beta1_KThreesControlPlaneSpec_To_v1beta2_KThreesControlPlaneSpec_Converts_c :
  Converts DeepCopyControlPlaneV1beta1.KThreesControlPlaneSpec_shape
    DeepCopyControlPlaneV1beta2.KThreesControlPlaneSpec_shape
    Convert_v1beta1_KThreesControlPlaneSpec_To_v1beta2_KThreesControlPlaneSpec.
Proof. unfold Convert_v1beta1_KThreesControlPlaneSpec_To_v1beta2_KThreesControlPlaneSpec. converts_go. Defined.

#[export] Instance autoConvert_v1beta1_KThreesControlPlaneStatus_To_v1beta2_KThreesControlPlaneStatus_Converts_c :
  Converts DeepCopyControlPlaneV1beta1.KThreesControlPlaneStatus_shape
    DeepCopyControlPlaneV1beta2.KThreesControlPlaneStatus_shape
    autoConvert_v1beta1_KThreesControlPlaneStatus_To_v1beta2_KThreesControlPlaneStatus.
Proof. unfold autoConvert_v1beta1_KThreesControlPlaneStatus_To_v1beta2_KThreesControlPlaneStatus. converts_go. Defined.

#[export] Instance Convert_v1beta1_KThreesControlPlaneStatus_To_v1beta2_KThreesControlPlaneStatus_Converts_c :
  Converts DeepCopyControlPlaneV1beta1.KThreesControlPlaneStatus_shape
    DeepCopyControlPlaneV1beta2.KThreesControlPlaneStatus_shape
    Convert_v1beta1_KThreesControlPlaneStatus_To_v1beta2_KThreesControlPlaneStatus.
Proof. unfold Convert_v1beta1_KThreesControlPlaneStatus_To_v1beta2_KThreesControlPlaneStatus. converts_go. Defined.

#[export] Instance autoConvert_v1beta1_KThreesControlPlane_To_v1beta2_KThreesControlPlane_Converts_c :
  Converts DeepCopyControlPlaneV1beta1.KThreesControlPlane_shape
    DeepCopyControlPlaneV1beta2.KThreesControlPlane_shape
    autoConvert_v1beta1_KThreesControlPlane_To_v1beta2_KThreesControlPlane.
Proof. unfold autoConvert_v1beta1_KThreesControlPlane_To_v1beta2_KThreesControlPlane. converts_go. Defined.

#[export] Instance Convert_v1beta1_KThreesControlPlane_To_v1beta2_KThreesControlPlane_Converts_c :
  Converts DeepCopyControlPlaneV1beta1.KThreesControlPlane_shape
    DeepCopyControlPlaneV1beta2.KThreesControlPlane_shape
    Convert_v1beta1_KThreesControlPlane_To_v1beta2_KThreesControlPlane.
Proof. unfold Convert_v1beta1_KThreesControlPlane_To_v1beta2_KThreesControlPlane. converts_go. Defined.

#[export] Instance Convert_v1beta2_KThreesConfigSpec_To_v1beta1_KThreesConfigSpec_Converts_c :
  Converts DeepCopyBootstrapV1beta2.KThreesConfigSpec_shape
    DeepCopyBootstrapV1beta1.KThreesConfigSpec_shape
    Convert_v1beta2_KThreesConfigSpec_To_v1beta1_KThreesConfigSpec.
Proof. unfold Convert_v1beta2_KThreesConfigSpec_To_v1beta1_KThreesConfigSpec. converts_go. Defined.

#[export] Instance Convert_v1beta2_KThreesControlPlaneMachineTemplate_To_v1beta1_KThreesControlPlaneMachineTemplate_Converts_c :
  Converts DeepCopyControlPlaneV1beta2.KThreesControlPlaneMachineTemplate_shape
    DeepCopyControlPlaneV1beta1.KThreesControlPlaneMachineTemplate_shape
    Convert_v1beta2_KThreesControlPlaneMachineTemplate_To_v1beta1_KThreesControlPlaneMachineTemplate.
Proof. unfold Convert_v1beta2_KThreesControlPlaneMachineTemplate_To_v1beta1_KThreesControlPlaneMachineTemplate. converts_go. Defined.

#[export] Instance Convert_v1beta2_KThreesControlPlaneSpec_To_v1beta1_KThreesControlPlaneSpec_Converts_c :
  Converts DeepCopyControlPlaneV1beta2.KThreesControlPlaneSpec_shape
    DeepCopyControlPlaneV1beta1.KThreesControlPlaneSpec_shape
    Convert_v1beta2_KThreesControlPlaneSpec_To_v1beta1_KThreesControlPlaneSpec.
Proof. unfold Convert_v1beta2_KThreesControlPlaneSpec_To_v1beta1_KThreesControlPlaneSpec. converts_go. Defined.

#[export] Instance autoConvert_v1beta2_KThreesControlPlaneStatus_To_v1beta1_KThreesControlPlaneStatus_Converts_c :
  Converts DeepCopyControlPlaneV1beta2.KThreesControlPlaneStatus_shape
    DeepCopyControlPlaneV1beta1.KThreesControlPlaneStatus_shape
    autoConvert_v1beta2_KThreesControlPlaneStatus_To_v1beta1_KThreesControlPlaneStatus.
Proof. unfold autoConvert_v1beta2_KThreesControlPlaneStatus_To_v1beta1_KThreesControlPlaneStatus. converts_go. Defined.

#[export] Instance Convert_v1beta2_KThreesControlPlaneStatus_To_v1beta1_KThreesControlPlaneStatus_Converts_c :
  Converts DeepCopyControlPlaneV1beta2.KThreesControlPlaneStatus_shape
    DeepCopyControlPlaneV1beta1.KThreesControlPlaneStatus_shape
    Convert_v1beta2_KThreesControlPlaneStatus_To_v1beta1_KThreesControlPlaneStatus.
Proof. unfold Convert_v1beta2_KThreesControlPlaneStatus_To_v1beta1_KThreesControlPlaneStatus. converts_go. Defined.

#[export] Instance autoConvert_v1beta2_KThreesControlPlane_To_v1beta1_KThreesControlPlane_Converts_c :
  Converts DeepCopyControlPlaneV1beta2.KThreesControlPlane_shape
    DeepCopyControlPlaneV1beta1.KThreesControlPlane_shape
    autoConvert_v1beta2_KThreesControlPlane_To_v1beta1_KThreesControlPlane.
Proof. unfold autoConvert_v1beta2_KThreesControlPlane_To_v1beta1_KThreesControlPlane. converts_go. Defined.

#[export] Instance Convert_v1beta2_KThreesControlPlane_To_v1beta1_KThreesControlPlane_Converts_c :
  Converts DeepCopyControlPlaneV1beta2.KThreesControlPlane_shape
    DeepCopyControlPlaneV1beta1.KThreesControlPlane_shape
    Convert_v1beta2_KThreesControlPlane_To_v1beta1_KThreesControlPlane.
Proof. unfold Convert_v1beta2_KThreesControlPlane_To_v1beta1_KThreesControlPlane. converts_go. Defined.

#[export] Instance autoConvert_v1beta1_KThreesControlPlaneList_To_v1beta2_KThreesControlPlaneList_Converts_c :
  Converts DeepCopyControlPlaneV1beta1.KThreesControlPlaneList_shape
    DeepCopyControlPlaneV1beta2.KThreesControlPlaneList_shape
    autoConvert_v1beta1_KThreesControlPlaneList_To_v1beta2_KThreesControlPlaneList.
Proof. unfold autoConvert_v1beta1_KThreesControlPlaneList_To_v1beta2_KThreesControlPlaneList. converts_go. Defined.

#[export] Instance Convert_v1beta1_KThreesControlPlaneList_To_v1beta2_KThreesControlPlaneList_Converts_c :
  Converts DeepCopyControlPlaneV1beta1.KThreesControlPlaneList_shape
    DeepCopyControlPlaneV1beta2.KThreesControlPlaneList_shape
    Convert_v1beta1_KThreesControlPlaneList_To_v1beta2_KThreesControlPlaneList.
Proof. unfold Convert_v1beta1_KThreesControlPlaneList_To_v1beta2_KThreesControlPlaneList. converts_go. Defined.

#[export] Instance autoConvert_v1beta2_KThreesControlPlaneList_To_v1beta1_KThreesControlPlaneList_Converts_c :
  Converts DeepCopyControlPlaneV1beta2.KThreesControlPlaneList_shape
    DeepCopyControlPlaneV1beta1.KThreesControlPlaneList_shape
    autoConvert_v1beta2_KThreesControlPlaneList_To_v1beta1_KThreesControlPlaneList.
Proof. unfold autoConvert_v1beta2_KThreesControlPlaneList_To_v1beta1_KThreesControlPlaneList. converts_go. Defined.

#[export] Instance Convert_v1beta2_KThreesControlPlaneList_To_v1beta1_KThreesControlPlaneList_Converts_c :
  Converts DeepCopyControlPlaneV1beta2.KThreesControlPlaneList_shape
    DeepCopyControlPlaneV1beta1.KThreesControlPlaneList_shape
    Convert_v1beta2_KThreesControlPlaneList_To_v1beta1_KThreesControlPlaneList.
Proof. unfold Convert_v1beta2_KThreesControlPlaneList_To_v1beta1_KThreesControlPlaneList. converts_go. Defined.

#[export] Instance autoConvert_v1beta2_KThreesControlPlaneMachineTemplate_To_v1beta1_KThreesControlPlaneMachineTemplate_Converts_c :
  Converts DeepCopyControlPlaneV1beta2.KThreesControlPlaneMachineTemplate_shape
    DeepCopyControlPlaneV1beta1.KThreesControlPlaneMachineTemplate_shape
    autoConvert_v1beta2_KThreesControlPlaneMachineTemplate_To_v1beta1_KThreesControlPlaneMachineTemplate.
Proof. unfold autoConvert_v1beta2_KThreesControlPlaneMachineTemplate_To_v1beta1_KThreesControlPlaneMachineTemplate. converts_go. Defined.

#[export] Instance autoConvert_v1beta1_KThreesControlPlaneSpec_To_v1beta2_KThreesControlPlaneSpec_Converts_c :
  Converts DeepCopyControlPlaneV1beta1.KThreesControlPlaneSpec_shape
    DeepCopyControlPlaneV1beta2.KThreesControlPlaneSpec_shape
    autoConvert_v1beta1_KThreesControlPlaneSpec_To_v1beta2_KThreesControlPlaneSpec.
Proof. unfold autoConvert_v1beta1_KThreesControlPlaneSpec_To_v1beta2_KThreesControlPlaneSpec. converts_go. Defined.

#[export] Instance autoConvert_v1beta2_KThreesControlPlaneSpec_To_v1beta1_KThreesControlPlaneSpec_Converts_c :
  Converts DeepCopyControlPlaneV1beta2.KThreesControlPlaneSpec_shape
    DeepCopyControlPlaneV1beta1.KThreesControlPlaneSpec_shape
    autoConvert_v1beta2_KThreesControlPlaneSpec_To_v1beta1_KThreesControlPlaneSpec.
Proof. unfold autoConvert_v1beta2_KThreesControlPlaneSpec_To_v1beta1_KThreesControlPlaneSpec. converts_go. Defined.

#[export] Instance autoConvert_v1beta1_LastRemediationStatus_To_v1beta2_LastRemediationStatus_Converts_c :
  Converts DeepCopyControlPlaneV1beta1.LastRemediationStatus_shape
    DeepCopyControlPlaneV1beta2.LastRemediationStatus_shape
    autoConvert_v1beta1_LastRemediationStatus_To_v1beta2_LastRemediationStatus.
Proof. unfold autoConvert_v1beta1_LastRemediationStatus_To_v1beta2_LastRemediationStatus. converts_go. Defined.

#[export] Instance Convert_v1beta1_LastRemediationStatus_To_v1beta2_LastRemediationStatus_Converts_c :
  Converts DeepCopyControlPlaneV1beta1.LastRemediationStatus_shape
    DeepCopyControlPlaneV1beta2.LastRemediationStatus_shape
    Convert_v1beta1_LastRemediationStatus_To_v1beta2_LastRemediationStatus.
Proof. unfold Convert_v1beta1_LastRemediationStatus_To_v1beta2_LastRemediationStatus. converts_go. Defined.

#[export] Instance autoConvert_v1beta2_LastRemediationStatus_To_v1beta1_LastRemediationStatus_Converts_c :
  Converts DeepCopyControlPlaneV1beta2.LastRemediationStatus_shape
    DeepCopyControlPlaneV1beta1.LastRemediationStatus_shape
    autoConvert_v1beta2_LastRemediationStatus_To_v1beta1_LastRemediationStatus.
Proof. unfold autoConvert_v1beta2_LastRemediationStatus_To_v1beta1_LastRemediationStatus. converts_go. Defined.

#[export] Instance Convert_v1beta2_LastRemediationStatus_To_v1beta1_LastRemediationStatus_Converts_c :
  Converts DeepCopyControlPlaneV1beta2.LastRemediationStatus_shape
    DeepCopyControlPlaneV1beta1.LastRemediationStatus_shape
    Convert_v1beta2_LastRemediationStatus_To_v1beta1_LastRemediationStatus.
Proof. unfold Convert_v1beta2_LastRemediationStatus_To_v1beta1_LastRemediationStatus. converts_go. Defined.

#[export] Instance autoConvert_v1beta1_RemediationStrategy_To_v1beta2_RemediationStrategy_Converts_c :
  Converts DeepCopyControlPlaneV1beta1.RemediationStrategy_shape
    DeepCopyControlPlaneV1beta2.RemediationStrategy_shape
    autoConvert_v1beta1_RemediationStrategy_To_v1beta2_RemediationStrategy.
Proof. unfold autoConvert_v1beta1_RemediationStrategy_To_v1beta2_RemediationStrategy. converts_go. Defined.

#[export] Instance Convert_v1beta1_RemediationStrategy_To_v1beta2_RemediationStrategy_Converts_c :
  Converts DeepCopyControlPlaneV1beta1.RemediationStrategy_shape
    DeepCopyControlPlaneV1beta2.RemediationStrategy_shape
    Convert_v1beta1_RemediationStrategy_To_v1beta2_RemediationStrategy.
Proof. unfold Convert_v1beta1_RemediationStrategy_To_v1beta2_RemediationStrategy. converts_go. Defined.

#[export] Instance autoConvert_v1beta2_RemediationStrategy_To_v1beta1_RemediationStrategy_Converts_c :
  Converts DeepCopyControlPlaneV1beta2.RemediationStrategy_shape
    DeepCopyControlPlaneV1beta1.RemediationStrategy_shape
    autoConvert_v1beta2_RemediationStrategy_To_v1beta1_RemediationStrategy.
Proof. unfold autoConvert_v1beta2_RemediationStrategy_To_v1beta1_RemediationStrategy. converts_go. Defined.

#[export] Instance Convert_v1beta2_RemediationStrategy_To_v1beta1_RemediationStrategy_Converts_c :
  Converts DeepCopyControlPlaneV1beta2.RemediationStrategy_shape
    DeepCopyControlPlaneV1beta1.RemediationStrategy_shape
    Convert_v1beta2_RemediationStrategy_To_v1beta1_RemediationStrategy.
Proof. unfold Convert_v1beta2_RemediationStrategy_To_v1beta1_RemediationStrategy. converts_go. Defined.
End Conversions.
