(* ===== verification/ConversionMemory.v ===== *)
(** The conversions on memory implement the conversions of [Conversion]: what they
    make of an object in memory is what those make of its value. *)

From S2P Require Import Prelude GoStd Effects ApiTypes Api Conversion Memory Converting ExternalTypes DeepCopyBootstrapV1beta1 DeepCopyBootstrapV1beta2 DeepCopyControlPlaneV1beta1 DeepCopyControlPlaneV1beta2 ConvertBootstrap ConvertControlPlane.

(** ** What an object in memory holds, for a value of the other files *)

Definition text_tree (s : string) : tree := XScalar (SString s).
Definition int_tree (z : Z) : tree := XScalar (SInt z).
Definition bool_tree (b : bool) : tree := XScalar (SBool b).
Definition byte_tree (b : Byte.byte) : tree := int_tree (Z.of_N (Byte.to_N b)).

Definition option_tree {A} (f : A -> tree) (o : option A) : tree :=
  match o with Some a => XPtr (f a) | None => XNil end.

Definition slice_tree {A} (f : A -> tree) (s : slice A) : tree :=
  match s with Some l => XSlice (f <$> l) | None => XNil end.

Definition texts_tree : slice string -> tree := slice_tree text_tree.

Definition source_tree (s : SecretFileSource) : tree :=
  XStruct [("Name", text_tree (SourceName s)); ("Key", text_tree (SourceKey s))].

Definition file_tree (f : File) : tree :=
  XStruct
    [("Path", text_tree (FilePath f)); ("Owner", text_tree (FileOwner f));
     ("Permissions", text_tree (FilePermissions f)); ("Encoding", text_tree (FileEncoding f));
     ("Content", text_tree (FileContent f));
     ("ContentFrom",
       option_tree (fun s => XStruct [("Secret", source_tree (FileSourceSecret s))]) (FileContentFrom f))].

Definition old_server_tree (c : v1beta1_KThreesServerConfig) : tree :=
  XStruct
    [("KubeAPIServerArgs", texts_tree (OldKubeAPIServerArgs c));
     ("KubeControllerManagerArgs", texts_tree (OldKubeControllerManagerArgs c));
     ("KubeSchedulerArgs", texts_tree (OldKubeSchedulerArgs c));
     ("TLSSan", texts_tree (OldTLSSan c)); ("BindAddress", text_tree (OldBindAddress c));
     ("HTTPSListenPort", text_tree (OldHTTPSListenPort c));
     ("AdvertiseAddress", text_tree (OldAdvertiseAddress c));
     ("AdvertisePort", text_tree (OldAdvertisePort c)); ("ClusterCidr", text_tree (OldClusterCidr c));
     ("ServiceCidr", text_tree (OldServiceCidr c)); ("ClusterDNS", text_tree (OldClusterDNS c));
     ("ClusterDomain", text_tree (OldClusterDomain c));
     ("DisableComponents", texts_tree (OldDisableComponents c));
     ("DisableExternalCloudProvider", bool_tree (OldDisableExternalCloudProvider c))].

Definition server_tree (c : KThreesServerConfig) : tree :=
  XStruct
    [("KubeAPIServerArgs", texts_tree (KubeAPIServerArgs c));
     ("KubeControllerManagerArgs", texts_tree (KubeControllerManagerArgs c));
     ("KubeSchedulerArgs", texts_tree (KubeSchedulerArgs c));
     ("TLSSan", texts_tree (TLSSan c)); ("BindAddress", text_tree (BindAddress c));
     ("HTTPSListenPort", text_tree (HTTPSListenPort c));
     ("AdvertiseAddress", text_tree (AdvertiseAddress c));
     ("AdvertisePort", text_tree (AdvertisePort c)); ("ClusterCidr", text_tree (ClusterCidr c));
     ("ServiceCidr", text_tree (ServiceCidr c)); ("ClusterDNS", text_tree (ClusterDNS c));
     ("ClusterDomain", text_tree (ClusterDomain c));
     ("DisableComponents", texts_tree (DisableComponents c));
     ("DeprecatedDisableExternalCloudProvider", bool_tree (DeprecatedDisableExternalCloudProvider c));
     ("DisableCloudController", option_tree bool_tree (DisableCloudController c));
     ("CloudProviderName", option_tree text_tree (CloudProviderName c));
     ("SystemDefaultRegistry", text_tree (SystemDefaultRegistry c));
     ("EtcdProxyImage", text_tree (EtcdProxyImage c))].

Definition old_agent_tree (c : v1beta1_KThreesAgentConfig) : tree :=
  XStruct
    [("NodeLabels", texts_tree (OldNodeLabels c)); ("NodeTaints", texts_tree (OldNodeTaints c));
     ("PrivateRegistry", text_tree (OldPrivateRegistry c));
     ("KubeletArgs", texts_tree (OldKubeletArgs c)); ("KubeProxyArgs", texts_tree (OldKubeProxyArgs c));
     ("NodeName", text_tree (OldNodeName c)); ("AirGapped", bool_tree (OldAirGapped c))].

Definition agent_tree (c : KThreesAgentConfig) : tree :=
  XStruct
    [("NodeLabels", texts_tree (NodeLabels c)); ("NodeTaints", texts_tree (AgentNodeTaints c));
     ("PrivateRegistry", text_tree (PrivateRegistry c));
     ("KubeletArgs", texts_tree (KubeletArgs c)); ("KubeProxyArgs", texts_tree (KubeProxyArgs c));
     ("NodeName", text_tree (NodeName c)); ("AirGapped", bool_tree (AirGapped c));
     ("AirGappedInstallScriptPath", text_tree (AirGappedInstallScriptPath c))].

Definition old_spec_tree (c : v1beta1_KThreesConfigSpec) : tree :=
  XStruct
    [("Files", slice_tree file_tree (OldFiles c)); ("PreK3sCommands", texts_tree (OldPreK3sCommands c));
     ("PostK3sCommands", texts_tree (OldPostK3sCommands c));
     ("AgentConfig", old_agent_tree (OldAgentConfig c));
     ("ServerConfig", old_server_tree (OldServerConfig c)); ("Version", text_tree (OldConfigVersion c))].

Definition spec_tree (c : KThreesConfigSpec) : tree :=
  XStruct
    [("Files", slice_tree file_tree (Files c)); ("PreK3sCommands", texts_tree (PreK3sCommands c));
     ("PostK3sCommands", texts_tree (PostK3sCommands c));
     ("AgentConfig", agent_tree (AgentConfig c));
     ("ServerConfig", server_tree (ServerConfig c)); ("Version", text_tree (ConfigVersion c))].

Definition old_status_tree (conditions : list V1Condition -> tree) (s : v1beta1_KThreesConfigStatus) : tree :=
  XStruct
    [("Ready", bool_tree (OldConfigReady s)); ("BootstrapData", slice_tree byte_tree (OldBootstrapData s));
     ("DataSecretName", option_tree text_tree (OldDataSecretName s));
     ("FailureReason", text_tree (OldConfigFailureReason s));
     ("FailureMessage", text_tree (OldConfigFailureMessage s));
     ("ObservedGeneration", int_tree (OldConfigObservedGeneration s));
     ("Conditions", conditions (OldConfigConditions s))].

Definition status_tree (conditions : list V1Condition -> tree) (s : KThreesConfigStatus) : tree :=
  XStruct
    [("Ready", bool_tree (ConfigReady s)); ("BootstrapData", slice_tree byte_tree (BootstrapData s));
     ("DataSecretName", option_tree text_tree (DataSecretName s));
     ("FailureReason", text_tree (ConfigFailureReason s));
     ("FailureMessage", text_tree (ConfigFailureMessage s));
     ("ObservedGeneration", int_tree (ConfigObservedGeneration s));
     ("Conditions", conditions (ConfigConditions s))].

(** The types of Kubernetes and Cluster API are assigned as a whole, however they
    are laid out. *)
Class Layout := {
  meta_tree : ObjectMeta -> tree;
  template_meta_tree : gomap string -> gomap string -> tree;
  conditions_tree : list V1Condition -> tree;
  reference_tree : ObjectReference -> tree;
  duration_tree : Z -> tree;
  time_tree : Time -> tree;
}.

Section Objects.
Context `{!Layout}.

Definition old_config_tree (kind : tree) (c : v1beta1_KThreesConfig) : tree :=
  XStruct
    [("TypeMeta", kind); ("ObjectMeta", meta_tree (OldConfigMeta c));
     ("Spec", old_spec_tree (OldConfigSpec c));
     ("Status", old_status_tree conditions_tree (OldConfigStatus c))].

Definition config_tree (kind : tree) (c : KThreesConfig) : tree :=
  XStruct
    [("TypeMeta", kind); ("ObjectMeta", meta_tree (ConfigMeta c));
     ("Spec", spec_tree (ConfigSpec c));
     ("Status", status_tree conditions_tree (ConfigStatus c))].

Definition template_spec_tree (spec : tree) : tree :=
  XStruct [("Template", XStruct [("Spec", spec)])].

Definition old_template_tree (kind : tree) (c : v1beta1_KThreesConfigTemplate) : tree :=
  XStruct
    [("TypeMeta", kind); ("ObjectMeta", meta_tree (OldConfigTemplateMeta c));
     ("Spec", template_spec_tree (old_spec_tree (OldConfigTemplateSpec c)))].

Definition template_tree (kind : tree) (c : KThreesConfigTemplate) : tree :=
  XStruct
    [("TypeMeta", kind); ("ObjectMeta", meta_tree (ConfigTemplateMeta c));
     ("Spec", template_spec_tree (spec_tree (ConfigTemplateSpec c)))].

Definition strategy_tree (s : RemediationStrategy) : tree :=
  XStruct
    [("MaxRetry", option_tree int_tree (MaxRetry s)); ("RetryPeriod", duration_tree (RetryPeriod s));
     ("MinHealthyPeriod", option_tree duration_tree (MinHealthyPeriod s))].

Definition last_tree (l : LastRemediationStatus) : tree :=
  XStruct
    [("Machine", text_tree (LastMachine l)); ("Timestamp", time_tree (LastTimestamp l));
     ("RetryCount", int_tree (LastRetryCount l))].

Definition old_kcp_spec_tree (s : v1beta1_KThreesControlPlaneSpec) : tree :=
  XStruct
    [("Replicas", option_tree int_tree (OldReplicas s)); ("Version", text_tree (OldVersion s));
     ("InfrastructureTemplate", reference_tree (OldInfrastructureTemplate s));
     ("KThreesConfigSpec", old_spec_tree (OldKCPConfigSpec s));
     ("UpgradeAfter", option_tree time_tree (OldUpgradeAfter s));
     ("NodeDrainTimeout", option_tree duration_tree (OldNodeDrainTimeout s));
     ("MachineTemplate",
       XStruct [("ObjectMeta", template_meta_tree (OldTemplateLabels s) (OldTemplateAnnotations s))]);
     ("RemediationStrategy", option_tree strategy_tree (OldRemediationStrategy s))].

Definition machine_template_tree (t : KThreesControlPlaneMachineTemplate) : tree :=
  XStruct
    [("ObjectMeta", template_meta_tree (TemplateLabels t) (TemplateAnnotations t));
     ("InfrastructureRef", reference_tree (TemplateInfrastructureRef t));
     ("NodeDrainTimeout", option_tree duration_tree (NodeDrainTimeout t));
     ("NodeVolumeDetachTimeout", option_tree duration_tree (NodeVolumeDetachTimeout t));
     ("NodeDeletionTimeout", option_tree duration_tree (NodeDeletionTimeout t))].

Definition kcp_spec_tree (s : KThreesControlPlaneSpec) : tree :=
  XStruct
    [("Replicas", option_tree int_tree (Replicas s)); ("Version", text_tree (Version s));
     ("KThreesConfigSpec", spec_tree (KCPConfigSpec s));
     ("RolloutAfter", option_tree time_tree (RolloutAfter s));
     ("MachineTemplate", machine_template_tree (MachineTemplate s));
     ("RemediationStrategy", option_tree strategy_tree (KCPRemediationStrategy s))].

Definition old_kcp_status_tree (s : v1beta1_KThreesControlPlaneStatus) : tree :=
  XStruct
    [("Selector", text_tree (OldSelector s)); ("Replicas", int_tree (OldStatusReplicas s));
     ("UpdatedReplicas", int_tree (OldUpdatedReplicas s)); ("ReadyReplicas", int_tree (OldReadyReplicas s));
     ("UnavailableReplicas", int_tree (OldUnavailableReplicas s));
     ("Initialized", bool_tree (OldInitialized s)); ("Ready", bool_tree (OldReady s));
     ("FailureReason", text_tree (OldFailureReason s));
     ("FailureMessage", option_tree text_tree (OldFailureMessage s));
     ("ObservedGeneration", int_tree (OldObservedGeneration s));
     ("Conditions", conditions_tree (OldKCPConditions s));
     ("LastRemediation", option_tree last_tree (OldLastRemediation s))].

Definition kcp_status_tree (s : KThreesControlPlaneStatus) : tree :=
  XStruct
    [("Selector", text_tree (Selector s)); ("Replicas", int_tree (StatusReplicas s));
     ("Version", option_tree text_tree (StatusVersion s));
     ("UpdatedReplicas", int_tree (UpdatedReplicas s)); ("ReadyReplicas", int_tree (ReadyReplicas s));
     ("UnavailableReplicas", int_tree (UnavailableReplicas s));
     ("Initialized", bool_tree (Initialized s)); ("Ready", bool_tree (Ready s));
     ("FailureReason", text_tree (FailureReason s));
     ("FailureMessage", option_tree text_tree (FailureMessage s));
     ("ObservedGeneration", int_tree (ObservedGeneration s));
     ("Conditions", conditions_tree (KCPConditions s));
     ("LastRemediation", option_tree last_tree (LastRemediation s))].

Definition old_kcp_tree (kind : tree) (k : v1beta1_KThreesControlPlane) : tree :=
  XStruct
    [("TypeMeta", kind); ("ObjectMeta", meta_tree (OldKCPMeta k)); ("Spec", old_kcp_spec_tree (OldKCPSpec k));
     ("Status", old_kcp_status_tree (OldKCPStatus k))].

Definition kcp_tree (kind : tree) (k : KThreesControlPlane) : tree :=
  XStruct
    [("TypeMeta", kind); ("ObjectMeta", meta_tree (KCPMeta k)); ("Spec", kcp_spec_tree (KCPSpec k));
     ("Status", kcp_status_tree (KCPStatus k))].

(** A list of objects. *)
Definition list_tree {A} (f : A -> tree) (kind meta : tree) (l : slice A) : tree :=
  XStruct [("TypeMeta", kind); ("ListMeta", meta); ("Items", slice_tree f l)].
End Objects.

(** ** They agree *)

Section Agree.
Context `{Signature} `{!ExternalTypes} `{!Layout}.

(** In each case a new target holds its own zero kind, and what the value holds that
    the function of [Conversion] makes. *)
Definition kindless : tree := zero_tree TypeMeta_shape.

Lemma old_config_agrees kind c :
  converts_tree Convert_v1beta1_KThreesConfig_To_v1beta2_KThreesConfig
    (old_config_tree kind c) (zero_tree DeepCopyBootstrapV1beta2.KThreesConfig_shape)
  = config_tree kindless (Convert_v1beta1_KThreesConfig_To_v1beta2 c).
Proof.
  destruct c as [? [? ? ? ? [? ? ? ? ? ? ? ? ? ? ? ? ? []] ?] ?]; vm_compute; reflexivity.
Qed.

Lemma config_agrees kind c :
  converts_tree Convert_v1beta2_KThreesConfig_To_v1beta1_KThreesConfig
    (config_tree kind c) (zero_tree DeepCopyBootstrapV1beta1.KThreesConfig_shape)
  = old_config_tree kindless (Convert_v1beta2_KThreesConfig_To_v1beta1 c).
Proof. vm_compute. reflexivity. Qed.

Lemma old_template_agrees kind c :
  converts_tree Convert_v1beta1_KThreesConfigTemplate_To_v1beta2_KThreesConfigTemplate
    (old_template_tree kind c) (zero_tree DeepCopyBootstrapV1beta2.KThreesConfigTemplate_shape)
  = template_tree kindless (Convert_v1beta1_KThreesConfigTemplate_To_v1beta2 c).
Proof.
  destruct c as [? [? ? ? ? [? ? ? ? ? ? ? ? ? ? ? ? ? []] ?]]; vm_compute; reflexivity.
Qed.

Lemma template_agrees kind c :
  converts_tree Convert_v1beta2_KThreesConfigTemplate_To_v1beta1_KThreesConfigTemplate
    (template_tree kind c) (zero_tree DeepCopyBootstrapV1beta1.KThreesConfigTemplate_shape)
  = old_template_tree kindless (Convert_v1beta2_KThreesConfigTemplate_To_v1beta1 c).
Proof. vm_compute. reflexivity. Qed.

Lemma old_kcp_agrees kind k :
  converts_tree Convert_v1beta1_KThreesControlPlane_To_v1beta2_KThreesControlPlane
    (old_kcp_tree kind k) (zero_tree DeepCopyControlPlaneV1beta2.KThreesControlPlane_shape)
  = kcp_tree kindless (Convert_v1beta1_KThreesControlPlane_To_v1beta2 k).
Proof.
  destruct k as [? [? ? ? [? ? ? ? [? ? ? ? ? ? ? ? ? ? ? ? ? []] ?] ? ? ? ? ?] ?]; vm_compute; reflexivity.
Qed.

Lemma kcp_agrees kind k :
  converts_tree Convert_v1beta2_KThreesControlPlane_To_v1beta1_KThreesControlPlane
    (kcp_tree kind k) (zero_tree DeepCopyControlPlaneV1beta1.KThreesControlPlane_shape)
  = old_kcp_tree kindless (Convert_v1beta2_KThreesControlPlane_To_v1beta1 k).
Proof. vm_compute. reflexivity. Qed.

(** A conversion into a new object, on memory, implements [f]: where [in] holds the
    value [v], it stops normally, changes nothing that was there, and returns a new
    object that holds [f v]. *)
Definition implements (t1 t2 : shape) (a : action) {A B} (tree1 : A -> tree) (tree2 : B -> tree)
    (f : A -> B) : Prop :=
  forall (h : memory) q v,
    view h (Pointer t1) (VPtr (Some q)) = Some (XPtr (tree1 v)) ->
    exists h' out,
      converted t2 a q h = Ret (h', Val out)
      /\ h ⊆ h' /\ h !! root out = None
      /\ view h' (Pointer t2) (VPtr (Some out)) = Some (XPtr (tree2 (f v))).

Lemma implements_intro t1 t2 a `{!Converts t1 t2 a} {A B} (tree1 : A -> tree) (tree2 : B -> tree) f :
  wf t2 = true ->
  (forall v, converts_tree a (tree1 v) (zero_tree t2) = tree2 (f v)) ->
  implements t1 t2 a tree1 tree2 f.
Proof. intros Hwf Hf h q v Hv. rewrite <- Hf. by apply converted_val. Qed.

(** A list: every item on its own. *)
Lemma items_agree {A B} (g : tree -> tree) (tree1 : A -> tree) (tree2 : B -> tree) (f : A -> B) (l : list A) :
  (forall a, g (tree1 a) = tree2 (f a)) -> g <$> (tree1 <$> l) = tree2 <$> (List.map f l).
Proof.
  intros Hg. induction l as [|a l IH]; [done|]. rewrite !fmap_cons, Hg, IH. done.
Qed.

Lemma list_implements t1 t2 a list1 list2 conv `{!Converts t1 t2 a} `{!Converts list1 list2 conv}
    {A B} (tree1 : A -> tree) (tree2 : B -> tree) (f : A -> B) :
  wf list2 = true ->
  (forall v, converts_tree a (tree1 v) (zero_tree t2) = tree2 (f v)) ->
  (forall kind meta xs,
     converts_tree conv (XStruct [("TypeMeta", kind); ("ListMeta", meta); ("Items", xs)]) (zero_tree list2)
     = XStruct
         [("TypeMeta", kindless); ("ListMeta", meta);
          ("Items", match xs with
                    | XSlice xs => XSlice ((fun x => converts_tree a x (zero_tree t2)) <$> xs)
                    | _ => XNil
                    end)]) ->
  implements list1 list2 conv
    (fun l : tree * (tree * slice A) => list_tree tree1 l.1 l.2.1 l.2.2)
    (fun l => list_tree tree2 kindless l.1 l.2)
    (fun l => convert_list f l.2).
Proof.
  intros Hwf Hf Hconv. apply (implements_intro list1 list2 conv); [done|]. intros (kind & meta & [l|]); unfold list_tree.
  - rewrite Hconv. simpl. by rewrite (items_agree _ _ _ _ _ Hf).
  - by rewrite Hconv.
Qed.

(** C26: The generated and hand-written conversions between v1beta1 and v1beta2, which
    assign and cast fields of objects in memory, implement the conversions of values.
    For the three kinds, in both directions: the conversion of an
    object that holds [v] ends without an error or a panic, writes to nothing but a
    new object, and that object holds what the conversion makes of [v]; every cast is
    one between types of the same layout. *)
Theorem conversions_refine :
  (implements DeepCopyBootstrapV1beta1.KThreesConfig_shape DeepCopyBootstrapV1beta2.KThreesConfig_shape
     Convert_v1beta1_KThreesConfig_To_v1beta2_KThreesConfig
     (uncurry old_config_tree) (config_tree kindless)
     (fun c => Convert_v1beta1_KThreesConfig_To_v1beta2 c.2)
   /\ implements DeepCopyBootstrapV1beta2.KThreesConfig_shape DeepCopyBootstrapV1beta1.KThreesConfig_shape
     Convert_v1beta2_KThreesConfig_To_v1beta1_KThreesConfig
     (uncurry config_tree) (old_config_tree kindless)
     (fun c => Convert_v1beta2_KThreesConfig_To_v1beta1 c.2))
  /\ (implements DeepCopyBootstrapV1beta1.KThreesConfigTemplate_shape
       DeepCopyBootstrapV1beta2.KThreesConfigTemplate_shape
       Convert_v1beta1_KThreesConfigTemplate_To_v1beta2_KThreesConfigTemplate
       (uncurry old_template_tree) (template_tree kindless)
       (fun c => Convert_v1beta1_KThreesConfigTemplate_To_v1beta2 c.2)
      /\ implements DeepCopyBootstrapV1beta2.KThreesConfigTemplate_shape
       DeepCopyBootstrapV1beta1.KThreesConfigTemplate_shape
       Convert_v1beta2_KThreesConfigTemplate_To_v1beta1_KThreesConfigTemplate
       (uncurry template_tree) (old_template_tree kindless)
       (fun c => Convert_v1beta2_KThreesConfigTemplate_To_v1beta1 c.2))
  /\ (implements DeepCopyControlPlaneV1beta1.KThreesControlPlane_shape
       DeepCopyControlPlaneV1beta2.KThreesControlPlane_shape
       Convert_v1beta1_KThreesControlPlane_To_v1beta2_KThreesControlPlane
       (uncurry old_kcp_tree) (kcp_tree kindless)
       (fun k => Convert_v1beta1_KThreesControlPlane_To_v1beta2 k.2)
      /\ implements DeepCopyControlPlaneV1beta2.KThreesControlPlane_shape
       DeepCopyControlPlaneV1beta1.KThreesControlPlane_shape
       Convert_v1beta2_KThreesControlPlane_To_v1beta1_KThreesControlPlane
       (uncurry kcp_tree) (old_kcp_tree kindless)
       (fun k => Convert_v1beta2_KThreesControlPlane_To_v1beta1 k.2)).
Proof.
  split_and!; (refine (implements_intro _ _ _ _ _ _ _ _); [eauto with wf|intros [kind v]]).
  - apply old_config_agrees.
  - apply config_agrees.
  - apply old_template_agrees.
  - apply template_agrees.
  - apply old_kcp_agrees.
  - apply kcp_agrees.
Qed.

Ltac list_refines a agrees :=
  refine (list_implements _ _ a _ _ _ _ _ _ _ _ _);
  [ eauto with wf | intros [kind v]; apply agrees | intros kind meta xs; vm_compute; reflexivity ].

(** The same for lists of objects. *)
Theorem list_conversions_refine :
  implements DeepCopyBootstrapV1beta1.KThreesConfigList_shape DeepCopyBootstrapV1beta2.KThreesConfigList_shape
    Convert_v1beta1_KThreesConfigList_To_v1beta2_KThreesConfigList
    (fun l : tree * (tree * slice _) => list_tree (uncurry old_config_tree) l.1 l.2.1 l.2.2)
    (fun l => list_tree (config_tree kindless) kindless l.1 l.2)
    (fun l => convert_list (fun c => Convert_v1beta1_KThreesConfig_To_v1beta2 c.2) l.2)
  /\
  implements DeepCopyBootstrapV1beta2.KThreesConfigList_shape DeepCopyBootstrapV1beta1.KThreesConfigList_shape
    Convert_v1beta2_KThreesConfigList_To_v1beta1_KThreesConfigList
    (fun l : tree * (tree * slice _) => list_tree (uncurry config_tree) l.1 l.2.1 l.2.2)
    (fun l => list_tree (old_config_tree kindless) kindless l.1 l.2)
    (fun l => convert_list (fun c => Convert_v1beta2_KThreesConfig_To_v1beta1 c.2) l.2)
  /\
  implements DeepCopyBootstrapV1beta1.KThreesConfigTemplateList_shape DeepCopyBootstrapV1beta2.KThreesConfigTemplateList_shape
    Convert_v1beta1_KThreesConfigTemplateList_To_v1beta2_KThreesConfigTemplateList
    (fun l : tree * (tree * slice _) => list_tree (uncurry old_template_tree) l.1 l.2.1 l.2.2)
    (fun l => list_tree (template_tree kindless) kindless l.1 l.2)
    (fun l => convert_list (fun c => Convert_v1beta1_KThreesConfigTemplate_To_v1beta2 c.2) l.2)
  /\
  implements DeepCopyBootstrapV1beta2.KThreesConfigTemplateList_shape DeepCopyBootstrapV1beta1.KThreesConfigTemplateList_shape
    Convert_v1beta2_KThreesConfigTemplateList_To_v1beta1_KThreesConfigTemplateList
    (fun l : tree * (tree * slice _) => list_tree (uncurry template_tree) l.1 l.2.1 l.2.2)
    (fun l => list_tree (old_template_tree kindless) kindless l.1 l.2)
    (fun l => convert_list (fun c => Convert_v1beta2_KThreesConfigTemplate_To_v1beta1 c.2) l.2)
  /\
  implements DeepCopyControlPlaneV1beta1.KThreesControlPlaneList_shape DeepCopyControlPlaneV1beta2.KThreesControlPlaneList_shape
    Convert_v1beta1_KThreesControlPlaneList_To_v1beta2_KThreesControlPlaneList
    (fun l : tree * (tree * slice _) => list_tree (uncurry old_kcp_tree) l.1 l.2.1 l.2.2)
    (fun l => list_tree (kcp_tree kindless) kindless l.1 l.2)
    (fun l => convert_list (fun c => Convert_v1beta1_KThreesControlPlane_To_v1beta2 c.2) l.2)
  /\
  implements DeepCopyControlPlaneV1beta2.KThreesControlPlaneList_shape DeepCopyControlPlaneV1beta1.KThreesControlPlaneList_shape
    Convert_v1beta2_KThreesControlPlaneList_To_v1beta1_KThreesControlPlaneList
    (fun l : tree * (tree * slice _) => list_tree (uncurry kcp_tree) l.1 l.2.1 l.2.2)
    (fun l => list_tree (old_kcp_tree kindless) kindless l.1 l.2)
    (fun l => convert_list (fun c => Convert_v1beta2_KThreesControlPlane_To_v1beta1 c.2) l.2).
Proof.
  split_and!.
  - list_refines Convert_v1beta1_KThreesConfig_To_v1beta2_KThreesConfig old_config_agrees.
  - list_refines Convert_v1beta2_KThreesConfig_To_v1beta1_KThreesConfig config_agrees.
  - list_refines Convert_v1beta1_KThreesConfigTemplate_To_v1beta2_KThreesConfigTemplate old_template_agrees.
  - list_refines Convert_v1beta2_KThreesConfigTemplate_To_v1beta1_KThreesConfigTemplate template_agrees.
  - list_refines Convert_v1beta1_KThreesControlPlane_To_v1beta2_KThreesControlPlane old_kcp_agrees.
  - list_refines Convert_v1beta2_KThreesControlPlane_To_v1beta1_KThreesControlPlane kcp_agrees.
Qed.
End Agree.

(** Every function that is registered is one between the types that it is registered
    for, which have the layouts that its casts need, and no pair of types is
    registered twice. *)
Section Registered.
Context `{Signature} `{!ExternalTypes}.

Definition registered_for (e : registration) : Prop :=
  exists g, converts (RegFrom e) (RegTo e) (RegConversion e) g.

Lemma registered_conversions_convert :
  Forall registered_for ConvertBootstrap.registered_conversions
  /\ Forall registered_for ConvertControlPlane.registered_conversions.
Proof. split; repeat (constructor; [eexists; apply converts_ok|]); constructor. Qed.

Definition registered_pair (e : registration) : string * string := (RegFromName e, RegToName e).

Lemma registered_once :
  NoDup (registered_pair <$> ConvertBootstrap.registered_conversions)
  /\ NoDup (registered_pair <$> ConvertControlPlane.registered_conversions).
Proof. split; apply (bool_decide_unpack _); vm_compute; exact I. Qed.
End Registered.

(** ** An example

    A v1beta1 [KThreesConfig] with a file. *)
#[export] Instance reference_layout : Layout | 100 := {
  meta_tree m := XStruct
    [("Name", text_tree (Name m)); ("DeletionTimestamp", option_tree int_tree (DeletionTimestamp m));
     ("Labels", match Labels m with
                | Some l => XMap ((fun kv => (kv.1, text_tree kv.2)) <$> map_to_list l)
                | None => XNil
                end);
     ("OwnerReferences", XNil); ("Finalizers", XNil)];
  template_meta_tree _ _ := XStruct [("Labels", XNil); ("Annotations", XNil)];
  conditions_tree _ := XNil;
  reference_tree r := XStruct
    [("Kind", text_tree (RefKind r)); ("Namespace", text_tree (RefNamespace r));
     ("Name", text_tree (RefName r))];
  duration_tree d := XStruct [("Duration", int_tree d)];
  time_tree t := int_tree t;
}.

Definition old_example : v1beta1_KThreesConfig :=
  mkOldConfig emptyMeta
    (mkOldConfigSpec (Some [mkFile "/etc/a" "root" "0600" "" "x" None]) None None
       (mkOldAgentConfig None None "" None None "" false)
       (mkOldServerConfig None None None None "" "" "" "" "" "" "" "" None false) "v1.30.0")
    (mkOldConfigStatus false None None "" "" 0 []).

Definition old_example_memory : memory :=
  let t := VScalar (SString "") in
  let h : memory :=
    {[1%positive := zero (DeepCopyBootstrapV1beta1.KThreesConfig_shape (H := services));
      2%positive := VArray
        [VStruct [("Path", VScalar (SString "/etc/a")); ("Owner", VScalar (SString "root"));
                  ("Permissions", VScalar (SString "0600")); ("Encoding", t);
                  ("Content", VScalar (SString "x")); ("ContentFrom", VPtr None)]]]} in
  default h
    (h ← store h (at_fields (Ptr 1 []) ["Spec"; "Files"]) (VSlice (Some (2%positive, 0%nat, 1%nat)));
     store h (at_fields (Ptr 1 []) ["Spec"; "Version"]) (VScalar (SString "v1.30.0"))).

Lemma conversions_refine_witness :
  exists h' out,
    converted (H := services) DeepCopyBootstrapV1beta2.KThreesConfig_shape
      Convert_v1beta1_KThreesConfig_To_v1beta2_KThreesConfig (Ptr 1 []) old_example_memory
    = Ret (h', Val out)
    /\ view h' (Pointer (DeepCopyBootstrapV1beta2.KThreesConfig_shape (H := services))) (VPtr (Some out))
       = Some (XPtr (config_tree (kindless (H := services))
                       (Convert_v1beta1_KThreesConfig_To_v1beta2 old_example))).
Proof.
  destruct (proj1 (proj1 (conversions_refine (H := services))) old_example_memory (Ptr 1 [])
              (kindless (H := services), old_example)) as (h' & out & E & _ & _ & Hv).
  - vm_compute. reflexivity.
  - exists h', out. split; [exact E|exact Hv].
Defined.

(** The files are not copied: the new object has the slice of the old one, whose
    elements an assignment through either changes for both. *)
Example conversion_shares :
  match converted (H := services) DeepCopyBootstrapV1beta2.KThreesConfig_shape
          Convert_v1beta1_KThreesConfig_To_v1beta2_KThreesConfig (Ptr 1 []) old_example_memory with
  | Ret (h', Val out) =>
      load h' (at_fields out ["Spec"; "Files"]) = Some (VSlice (Some (2%positive, 0%nat, 1%nat)))
  | _ => False
  end.
Proof. vm_compute. reflexivity. Qed.
