(* ===== verification/ReleaseNotes.v ===== *)
(** The release-notes tool (hack/tools/release/notes.go): it lists the merge commits
    since a tag, makes an entry of each with a pool of workers, and prints them in
    sections. *)

From stdpp Require Import pretty.
From S2P Require Import Prelude GoStd Effects Cloudinit.

(** ** Commands *)

Inductive notes_cmd :=
| LookPath (file : string)
| Output (name : string) (args : list string)
| CombinedOutput (name : string) (args : list string)
| Println (line : string)
| Print (text : string).

(** A process gives its output, and the text of an error if it failed. *)
Definition notes_resp (c : notes_cmd) : Type :=
  match c with
  | LookPath _ => bool
  | Output _ _ | CombinedOutput _ _ => string * option string
  | Println _ | Print _ => unit
  end.

#[export] Instance notes_signature : Signature := { Cmd := notes_cmd; Resp := notes_resp }.

(** What the tool uses of libraries: [time] for the day after a date, [encoding/json]
    for the names of the labels of a pull request, and the case of [strings], which
    stands on the tables of Unicode. *)
Class NotesLib := {
  next_day : string -> string + string;
  label_names : string -> list string + error;
  ToLower : string -> string;
  ToUpper : string -> string;
}.

(** [sort.Slice] keeps the elements and leaves none before one that is less; it is not
    stable, so the order of equal elements is its own. *)
Class SortSlice := {
  Slice : (string -> string -> bool) -> list string -> list string;
  Slice_Permutation : forall less xs, Slice less xs ≡ₚ xs;
  Slice_sorted : forall less xs,
    (forall a b c, less a b = false -> less b c = false -> less a c = false) ->
    (forall a b, less a b = true -> less b a = false) -> StronglySorted (fun a b => less b a = false) (Slice less xs);
}.

(** The command-line flags. *)
Record flags := mkFlags {
  repo : string;
  fromTag : string;
  since : string;
  until : string;
  numWorkers : Z;
  prefixAreaLabel : bool;
  addKubernetesVersionSupport : bool;
}.

Definition defaultFlags : flags :=
  mkFlags "kubernetes-sigs/cluster-api" "" "" "" 10 true true.

Definition features : string := ":sparkles: New Features".
Definition bugs : string := ":bug: Bug Fixes".
Definition documentation : string := ":book: Documentation".
Definition proposals : string := ":memo: Proposals".
Definition warning : string := ":warning: Breaking Changes".
Definition other : string := ":seedling: Others".
Definition unknown : string := ":question: Sort these by hand".

Definition outputOrder : list string :=
  [proposals; warning; features; bugs; other; documentation; unknown].

Definition userFriendlyAreas : list (string * string) :=
  [("e2e-testing", "e2e"); ("provider/control-plane-kubeadm", "KCP");
   ("provider/infrastructure-docker", "CAPD"); ("dependency", "Dependency");
   ("devtools", "Devtools"); ("machine", "Machine"); ("api", "API");
   ("machinepool", "MachinePool"); ("clustercachetracker", "ClusterCacheTracker");
   ("clusterclass", "ClusterClass"); ("testing", "Testing"); ("release", "Release");
   ("machineset", "MachineSet"); ("clusterresourceset", "ClusterResourceSet");
   ("machinedeployment", "MachineDeployment"); ("ipam", "IPAM");
   ("provider/bootstrap-kubeadm", "CAPBK"); ("provider/infrastructure-in-memory", "CAPIM");
   ("provider/core", "Core"); ("runtime-sdk", "Runtime SDK"); ("ci", "CI")].

Definition missingAreaLabelPrefix : string := "MISSING_AREA".
Definition areaLabelPrefix : string := "area/".
Definition multipleAreaLabelsPrefix : string := "MULTIPLE_AREAS[".
Definition documentationAreaLabel : string := "documentation".

(** ** Text *)

Definition bytes (l : list nat) : string := string_of_list_ascii (ascii_of_nat <$> l).

(** The encodings of the characters that [unicode.IsSpace] accepts. *)
Definition spaces : list string :=
  ((fun n => bytes [n]) <$> [9; 10; 11; 12; 13; 32])
  ++ [bytes [194; 133]; bytes [194; 160]; bytes [225; 154; 128]]
  ++ ((fun n => bytes [226; 128; n]) <$> (seq 128 11 ++ [168; 169; 175]))
  ++ [bytes [226; 129; 159]; bytes [227; 128; 128]].

(** [strings.TrimSpace]: each turn takes a character off. *)
Fixpoint trim_front (fuel : nat) (s : string) : string :=
  match fuel, find_first (HasPrefix s) spaces with
  | S n, Some sp => trim_front n (str_drop (String.length sp) s)
  | _, _ => s
  end.

Fixpoint trim_back (fuel : nat) (s : string) : string :=
  match fuel, find_first (HasSuffix s) spaces with
  | S n, Some sp => trim_back n (str_take (String.length s - String.length sp) s)
  | _, _ => s
  end.

Definition TrimSpace (s : string) : string :=
  let t := trim_front (String.length s) s in trim_back (String.length t) t.

(** [strings.TrimPrefix], and [strings.TrimLeft(s, " ")]. *)
Definition TrimPrefix (s prefix : string) : string :=
  if HasPrefix s prefix then str_drop (String.length prefix) s else s.

Fixpoint TrimLeft (s : string) (c : ascii) : string :=
  match s with
  | String a s' => if Ascii.eqb a c then TrimLeft s' c else s
  | EmptyString => s
  end.

(** [strings.Replace(s, "#", "", -1)] *)
Fixpoint remove_char (c : ascii) (s : string) : string :=
  match s with
  | String a s' => if Ascii.eqb a c then remove_char c s' else String a (remove_char c s')
  | EmptyString => s
  end.

(** [string(s[0]) + ...]: a byte is taken for a character, and encoded. *)
Definition string_of_byte (a : ascii) : string :=
  let n := nat_of_ascii a in
  if (n <? 128)%nat then String a "" else bytes [192 + n / 64; 128 + n mod 64]%nat.

Definition is_digit (a : ascii) : bool :=
  let n := nat_of_ascii a in (48 <=? n)%nat && (n <=? 57)%nat.

(** The class of the expression [tagRegex]. *)
Definition tag_char (a : ascii) : bool :=
  let n := nat_of_ascii a in
  is_digit a || (65 <=? n)%nat && (n <=? 90)%nat || (97 <=? n)%nat && (n <=? 122)%nat || has_char a "_-.".

Fixpoint drop_while (p : ascii -> bool) (s : string) : string :=
  match s with
  | String a s' => if p a then drop_while p s' else s
  | EmptyString => s
  end.

(** [tagRegex.ReplaceAllString(s, "")]: the expression matches at the start of the
    text only, a bracket with a release in it. *)
Definition remove_tag (s : string) : string :=
  if HasPrefix s "[release-" then
    match drop_while tag_char (str_drop 9 s) with
    | String a s' => if Ascii.eqb a "]" then s' else s
    | EmptyString => s
    end
  else s.

(** [releaseBackportMarker.ReplaceAllString(s, "${1}")] for a text of one line: the
    bracket has two digits, and what follows it is trimmed; there is no group to put
    in its place. *)
Definition trimReleaseBackportMarker (s : string) : string :=
  if HasPrefix s "[release-" then
    match str_drop 9 s with
    | String a (String b (String c (String d s'))) =>
        if is_digit a && Ascii.eqb b "." && is_digit c && Ascii.eqb d "]"
        then drop_while (fun x => existsb (fun n => Ascii.eqb x (ascii_of_nat n)) [9; 10; 12; 13; 32]%nat) s'
        else s
    | _ => s
    end
  else s.

Definition trimTitle (title : string) : string := TrimSpace (remove_tag title).

Definition formatMerge (line prNumber : string) : string :=
  if String.eqb prNumber "" then line else line +++ " (" +++ prNumber +++ ")".

Definition trimAreaLabel (label : string) : string * bool :=
  let trimmed := TrimPrefix label areaLabelPrefix in
  if (String.length trimmed <? String.length label)%nat then (trimmed, true) else (label, false).

(** ** Entries *)

Record commit := mkCommit { merge : string; body : string }.

Record releaseNoteEntry := mkEntry { title : string; section : string; prNumber : string }.

#[export] Instance releaseNoteEntry_eq_dec : EqDecision releaseNoteEntry.
Proof. solve_decision. Defined.

(** [fmt.Sscanf(s, "Merge pull request %s from %s", &prNumber, &fork)] for a line with
    single spaces, as git writes it: the word after the prefix, if there is one. *)
Definition scan_merge (s : string) : string :=
  if HasPrefix s "Merge pull request " then
    match Split (str_drop 19 s) " " with w :: _ => w | [] => "" end
  else "".

Section Entries.
Context `{!NotesLib} (f : flags).

(** The names of the areas of a pull request. *)
Definition area_of (label : string) : option string :=
  let '(area, ok) := trimAreaLabel label in
  if ok then Some (default area (snd <$> find_first (fun kv => String.eqb kv.1 area) userFriendlyAreas))
  else None.

(** [strings.Split(merge, " ")[3]] panics on a merge of fewer words. *)
Definition getAreaLabel (merge : string) : IO string :=
  match Split merge " " !! 3%nat with
  | None => panic
  | Some word =>
      let prID := remove_char "#" (TrimSpace word) in
      let* (out, err) := call (CombinedOutput "gh" ["api"; "repos/" +++ repo f +++ "/pulls/" +++ prID]) in
      match err with
      | Some err => throw (ENew (out +++ ": " +++ err))
      | None =>
          labels <- lift_res (label_names out) ;;
          ret (match omap area_of labels with
               | [] => missingAreaLabelPrefix
               | [area] => area
               | areaLabels => multipleAreaLabelsPrefix +++ Join areaLabels "/" +++ "]"
               end)
      end
  end.

(** [modifyEntryTitle]: a title with nothing after the prefixes has no first byte,
    and the function panics. *)
Definition modifyEntryTitle (title : string) (prefixes : list string) : option string :=
  match foldl (fun t prefix => TrimLeft (TrimPrefix t prefix) " ") title prefixes with
  | EmptyString => None
  | String a rest => Some (ToUpper (string_of_byte a) +++ rest)
  end.

(** The prefixes of the sections, in the order of the cases. *)
Definition section_prefixes : list (string * list string) :=
  [(features, [":sparkles:"; "✨"]); (bugs, [":bug:"; "🐛"]); (documentation, [":book:"; "📖"]);
   (other, [":seedling:"; "🌱"]); (warning, [":warning:"; "⚠️"])].

Definition classify (title : string) : option (string * string) :=
  match find_first (fun sp => existsb (HasPrefix title) sp.2) section_prefixes with
  | None => Some (unknown, title)
  | Some (section, prefixes) =>
      match modifyEntryTitle title prefixes with
      | None => None
      | Some title =>
          if String.eqb section documentation && (Contains title "CAEP" || Contains title "proposal")
          then Some (proposals, title)
          else Some (section, title)
      end
  end.

Definition generateReleaseNoteEntry : M commit releaseNoteEntry :=
  modify (fun c => if String.eqb (body c) "" then mkCommit (merge c) "ERROR: BODY MISSING. FIX MANUALLY" else c) ;;;
  c <- get ;;
  area <- (if prefixAreaLabel f then lift_io (getAreaLabel (merge c)) else ret "") ;;
  match classify (trimTitle (body c)) with
  | None => panic
  | Some (section, title) =>
      let section := if String.eqb area documentationAreaLabel then documentation else section in
      let title := trimReleaseBackportMarker (TrimSpace title) in
      if String.eqb title "" then ret (mkEntry "" section "")
      else
        let title := if prefixAreaLabel f then "- " +++ area +++ ": " +++ title else "- " +++ title in
        let prNumber := scan_merge (merge c) in
        ret (mkEntry (formatMerge title prNumber) section prNumber)
  end.

(** ** The commits *)

(** One line of git's output; [commits[last]] panics when there is none. *)
Definition add_line (commits : list commit) (line : string) : option (list commit) :=
  let line := TrimSpace line in
  let change (g : commit -> commit) :=
    match last commits with
    | Some c => Some (removelast commits ++ [g c])
    | None => None
    end in
  if HasPrefix line "commit" then Some (commits ++ [mkCommit "" ""])
  else if HasPrefix line "Merge" then change (fun c => mkCommit line (body c))
  else if String.eqb line "" then Some commits
  else change (fun c => mkCommit (merge c) line).

Definition parse_commits (out : string) : option (list commit) :=
  foldl (fun commits line => commits ≫= fun cs => add_line cs line) (Some []) (Split out (ascii_of_nat 10)).

Definition commandExists (cmd : string) : IO bool := call (LookPath cmd).

Definition ensureInstalledDependencies : IO unit :=
  git <- commandExists "git" ;;
  if git then
    gh <- commandExists "gh" ;;
    if gh then ret tt
    else throw (ENew "gh GitHub CLI not available. GitHub CLI is required to be present in the PATH. Refer to https://cli.github.com/ for installation")
  else throw (ENew "git not available. Git is required to be present in the PATH").

Definition firstCommit : IO string :=
  let* (out, err) := call (Output "git" ["rev-list"; "--max-parents=0"; "HEAD"]) in
  ret (match err with Some _ => "UNKNOWN" | None => TrimSpace out end).

Definition lastTag : IO string :=
  if negb (String.eqb (fromTag f) "") then ret (fromTag f)
  else
    let* (out, err) := call (Output "git" ["describe"; "--tags"; "--abbrev=0"]) in
    match err with Some _ => firstCommit | None => ret (TrimSpace out) end.

Definition quoted (s : string) : string := bytes [34%nat] +++ s +++ bytes [34%nat].

Definition Println_error (e : error) : IO unit :=
  match e with ENew msg => call (Println msg) | _ => ret tt end.

(** The first part of [run], up to the pool: the range of the commits and the commits,
    or an exit code. *)
Definition list_commits : IO (string * list commit + Z) :=
  e <- try ensureInstalledDependencies ;;
  match e with
  | inr err => Println_error err ;;; ret (inr 1%Z)
  | inl _ =>
      let rev_list range args :=
        let* (out, err) := call (CombinedOutput "git" args) in
        match err with
        | Some _ => call (Println "Error") ;;; call (Println out) ;;; ret (inr 1%Z)
        | None => match parse_commits out with Some commits => ret (inl (range, commits)) | None => panic end
        end in
      if negb (String.eqb (since f) "") && negb (String.eqb (until f) "") then
        match next_day (until f) with
        | inr err => call (Println err) ;;; ret (inr 1%Z)
        | inl lastDay =>
            rev_list (since f +++ " - " +++ until f)
              ["rev-list"; "HEAD"; "--since=" +++ quoted (since f); "--until=" +++ quoted lastDay;
               "--merges"; "--pretty=format:%B"]
        end
      else if negb (String.eqb (since f) "") || negb (String.eqb (until f) "") then
        call (Println "--since and --until are required together or both unset") ;;; ret (inr 1%Z)
      else
        range <- lastTag ;;
        rev_list range ["rev-list"; range +++ "..HEAD"; "--merges"; "--pretty=format:%B"]
  end.
End Entries.

(** ** The pool of workers

    The workers take commits from one channel and send results to another, from which
    the main routine receives them; both channels have no buffer. A worker's call of a
    process is one step, so that calls of different workers interleave freely. The text
    of the error that is printed before an exit is left out. *)
Inductive worker :=
| Waiting
| Working (i : nat) (p : prog (commit * outcome releaseNoteEntry))
| Sending (i : nat) (r : releaseNoteEntry + error)
| Finished.

Record pool := mkPool {
  Queue : list (nat * commit);
  Workers : list worker;
  Received : list (nat * releaseNoteEntry);
}.

(** The tool goes on, has exited with a code, or a worker has panicked. *)
Inductive tool := Running (s : pool) | Exited (code : Z) | Crashed.

Section Pool.
Context `{!NotesLib} (f : flags).

Definition set_worker (w : nat) (x : worker) (s : pool) : pool :=
  mkPool (Queue s) (<[w := x]> (Workers s)) (Received s).

Inductive pool_step : tool -> tool -> Prop :=
| step_take s w i c q :
    Workers s !! w = Some Waiting -> Queue s = (i, c) :: q ->
    pool_step (Running s)
      (Running (mkPool q (<[w := Working i (generateReleaseNoteEntry f c)]> (Workers s)) (Received s)))
| step_call s w i c k r :
    Workers s !! w = Some (Working i (Do c k)) ->
    pool_step (Running s) (Running (set_worker w (Working i (k r)) s))
| step_done s w i c e :
    Workers s !! w = Some (Working i (Ret (c, Val e))) ->
    pool_step (Running s) (Running (set_worker w (Sending i (inl e)) s))
| step_failed s w i c e :
    Workers s !! w = Some (Working i (Ret (c, Err e))) ->
    pool_step (Running s) (Running (set_worker w (Sending i (inr e)) s))
| step_panic s w i c :
    Workers s !! w = Some (Working i (Ret (c, Panic))) ->
    pool_step (Running s) Crashed
| step_receive s w i e :
    Workers s !! w = Some (Sending i (inl e)) ->
    pool_step (Running s)
      (Running (mkPool (Queue s) (<[w := Waiting]> (Workers s)) (Received s ++ [(i, e)])))
| step_exit s w i e :
    Workers s !! w = Some (Sending i (inr e)) ->
    pool_step (Running s) (Exited 0)
| step_close s w :
    Workers s !! w = Some Waiting -> Queue s = [] ->
    pool_step (Running s) (Running (set_worker w Finished s)).

(** The pool at its start; a negative number of workers makes the wait group panic. *)
Definition numbered (commits : list commit) : list (nat * commit) := imap (fun i c => (i, c)) commits.

Definition start_pool (commits : list commit) : tool :=
  if (numWorkers f <? 0)%Z then Crashed
  else Running (mkPool (numbered commits) (replicate (Z.to_nat (numWorkers f)) Waiting) []).

(** The results channel is closed when every worker has finished. *)
Definition closed (s : pool) : Prop := Forall (fun w => w = Finished) (Workers s).

(** ** What the pool delivers *)

(** An execution of the entry of the [i]th commit ends with [o]. *)
Definition generates (commits : list commit) (i : nat) (o : outcome releaseNoteEntry) : Prop :=
  exists c tr c', commits !! i = Some c /\ runs (generateReleaseNoteEntry f) c tr c' o.

Definition outcome_of (r : releaseNoteEntry + error) : outcome releaseNoteEntry :=
  match r with inl e => Val e | inr e => Err e end.

Definition worker_ok (commits : list commit) (x : worker) : Prop :=
  match x with
  | Working i p =>
      exists c tr, commits !! i = Some c
        /\ forall tr' so, exec p tr' so -> exec (generateReleaseNoteEntry f c) (tr ++ tr') so
  | Sending i r => generates commits i (outcome_of r)
  | Waiting | Finished => True
  end.

(** The commit that a worker has. *)
Definition held (x : worker) : list nat :=
  match x with Working i _ | Sending i _ => [i] | Waiting | Finished => [] end.

Record pool_ok (commits : list commit) (s : pool) : Prop := {
  each_once : (Received s).*1 ++ (Workers s ≫= held) ++ (Queue s).*1 ≡ₚ seq 0 (length commits);
  queue_ok : forall i c, (i, c) ∈ Queue s -> commits !! i = Some c;
  workers_ok : forall w x, Workers s !! w = Some x -> worker_ok commits x;
  received_ok : forall i e, (i, e) ∈ Received s -> generates commits i (Val e);
  finished_ok : Finished ∈ Workers s -> Queue s = [];
}.

Definition others (w : nat) (ws : list worker) : list nat :=
  (take w ws ≫= held) ++ (drop (S w) ws ≫= held).

Lemma held_split ws w x : ws !! w = Some x -> ws ≫= held ≡ₚ held x ++ others w ws.
Proof.
  intros Hw. rewrite <- (take_drop_middle ws w x Hw) at 1. unfold others.
  rewrite bind_app, bind_cons. apply Permutation_app_swap_app.
Qed.

Lemma held_insert ws w x y :
  ws !! w = Some x -> <[w := y]> ws ≫= held ≡ₚ held y ++ others w ws.
Proof.
  intros Hw. pose proof (lookup_lt_Some _ _ _ Hw) as Hlt.
  rewrite (held_split _ w y) by (by apply list_lookup_insert_eq).
  unfold others. by rewrite take_insert_ge, drop_insert_lt by lia.
Qed.

Lemma worker_lookup_insert (ws : list worker) w v (x y : worker) :
  <[w := y]> ws !! v = Some x -> x = y \/ ws !! v = Some x.
Proof.
  intros [(-> & -> & _)|[_ Hv]]%list_lookup_insert_Some; auto.
Qed.

Lemma set_worker_ok commits s w x y :
  pool_ok commits s -> Workers s !! w = Some x -> held y = held x -> worker_ok commits y ->
  (y = Finished -> Queue s = []) -> pool_ok commits (set_worker w y s).
Proof.
  intros [Hp Hq Hw Hr Hf] Hx Hheld Hy Hfin. split; try done; simpl.
  - rewrite <- Hp, (held_insert _ _ _ _ Hx), (held_split _ _ _ Hx), Hheld. done.
  - intros v z [->|Hz]%worker_lookup_insert; [done|by eapply Hw].
  - intros [v Hv]%list_elem_of_lookup.
    apply worker_lookup_insert in Hv as [<-|Hv]; [by apply Hfin|].
    by apply Hf; eapply list_elem_of_lookup_2.
Qed.

Lemma pool_step_ok commits s s' :
  pool_ok commits s -> pool_step (Running s) (Running s') -> pool_ok commits s'.
Proof.
  intros Hok Hstep. pose proof Hok as [Hp Hq Hw Hr Hf].
  inversion Hstep as [s0 w i c q Hx Hqu|s0 w i c k r Hx|s0 w i c e Hx|s0 w i c e Hx| |s0 w i e Hx| |s0 w Hx Hqu];
    subst.
  - split; simpl; try done.
    + rewrite <- Hp, (held_insert _ _ _ _ Hx), (held_split _ _ _ Hx), Hqu. simpl.
      apply Permutation_app_head. by rewrite Permutation_middle.
    + intros j d Hd. apply Hq. rewrite Hqu. by right.
    + intros v z [->|Hz]%worker_lookup_insert; [|by eapply Hw].
      exists c, []. split; [|done]. apply Hq. rewrite Hqu. by left.
    + intros [v Hv]%list_elem_of_lookup. apply worker_lookup_insert in Hv as [?|Hv]; [done|].
      specialize (Hf (list_elem_of_lookup_2 _ _ _ Hv)). by rewrite Hqu in Hf.
  - eapply set_worker_ok; try done. destruct (Hw _ _ Hx) as (c0 & tr & Hc & Htr).
    exists c0, (tr ++ [ev c r]). split; [done|]. intros tr' so He.
    rewrite <- app_assoc. apply Htr. simpl. eauto.
  - eapply set_worker_ok; try done. destruct (Hw _ _ Hx) as (c0 & tr & Hc & Htr).
    exists c0, (tr ++ []), c. split; [done|]. by apply Htr.
  - eapply set_worker_ok; try done. destruct (Hw _ _ Hx) as (c0 & tr & Hc & Htr).
    exists c0, (tr ++ []), c. split; [done|]. by apply Htr.
  - split; simpl; try done.
    + rewrite <- Hp, (held_insert _ _ _ _ Hx), (held_split _ _ _ Hx), fmap_app. simpl.
      by rewrite <- !app_assoc.
    + intros v z [->|Hz]%worker_lookup_insert; [done|by eapply Hw].
    + intros j d [Hd|Hd%list_elem_of_singleton]%elem_of_app; [by apply Hr|].
      injection Hd as -> ->. exact (Hw _ _ Hx).
    + intros [v Hv]%list_elem_of_lookup. apply worker_lookup_insert in Hv as [?|Hv]; [done|].
      by apply Hf; eapply list_elem_of_lookup_2.
  - by eapply set_worker_ok.
Qed.

Lemma start_ok commits s : start_pool commits = Running s -> pool_ok commits s.
Proof.
  unfold start_pool. destruct (numWorkers f <? 0)%Z; [done|]. intros [= <-]. split; simpl.
  - assert (Hn : replicate (Z.to_nat (numWorkers f)) Waiting ≫= held = []).
    { by induction (Z.to_nat (numWorkers f)) as [|n IH]. }
    rewrite Hn. simpl. unfold numbered. rewrite fmap_imap.
    pose proof (imap_seq_0 commits id) as E. rewrite list_fmap_id in E. by rewrite <- E.
  - intros i c (j & d & [= -> ->] & Hd)%elem_of_lookup_imap_1. done.
  - intros w x Hw. apply lookup_replicate in Hw as [-> _]. done.
  - intros i e Hin. by apply elem_of_nil in Hin.
  - intros Hin%elem_of_replicate. by destruct Hin.
Qed.

Lemma steps_ok commits s t s' :
  pool_ok commits s -> rtc pool_step (Running s) t -> t = Running s' -> pool_ok commits s'.
Proof.
  intros Hok Hsteps. revert s' . remember (Running s) as t0 eqn:E. revert s E Hok.
  induction Hsteps as [t0|t0 t1 t2 Hstep Hsteps IH]; intros s -> Hok s' Hs'.
  - by injection Hs' as ->.
  - destruct t1 as [s1| |].
    + eapply IH; [done| |done]. by eapply pool_step_ok.
    + inversion Hsteps as [|? ? ? Hx]; subst; [done|inversion Hx].
    + inversion Hsteps as [|? ? ? Hx]; subst; [done|inversion Hx].
Qed.

Lemma steps_length s s' :
  rtc pool_step (Running s) (Running s') -> length (Workers s') = length (Workers s).
Proof.
  remember (Running s) as t eqn:E. remember (Running s') as t' eqn:E'. intros Hsteps.
  revert s E. induction Hsteps as [t|t t1 t' Hstep Hsteps IH]; intros s ->.
  - by injection E' as ->.
  - subst. inversion Hstep; subst; try by (erewrite (IH eq_refl); [|done]; simpl; rewrite length_insert).
    all: inversion Hsteps as [|? ? ? Hx]; subst; inversion Hx.
Qed.

Lemma closed_held (s : pool) : closed s -> Workers s ≫= held = [].
Proof. unfold closed. induction 1 as [|x l -> _ IH]; [done|]. by rewrite bind_cons, IH. Qed.

(** When the results channel is closed the main routine has an entry of every commit,
    once, each from an execution of its own. *)
Lemma pool_delivers commits s s' :
  (0 < numWorkers f)%Z ->
  start_pool commits = Running s -> rtc pool_step (Running s) (Running s') -> closed s' ->
  (Received s').*1 ≡ₚ seq 0 (length commits)
  /\ (forall i e, (i, e) ∈ Received s' -> generates commits i (Val e)).
Proof.
  intros Hpos Hstart Hsteps Hclosed.
  pose proof (steps_ok _ _ _ _ (start_ok _ _ Hstart) Hsteps eq_refl) as [Hp _ _ Hr Hf].
  split; [|exact Hr].
  assert (Hlen : length (Workers s') = Z.to_nat (numWorkers f)).
  { erewrite steps_length; [|exact Hsteps]. unfold start_pool in Hstart.
    destruct (numWorkers f <? 0)%Z; [done|]. injection Hstart as <-. apply length_replicate. }
  assert (Hq : Queue s' = []).
  { apply Hf. unfold closed in Hclosed. destruct (Workers s') as [|x ws]; simpl in Hlen; [lia|].
    apply Forall_cons in Hclosed as [-> _]. by left. }
  rewrite (closed_held _ Hclosed), Hq in Hp. simpl in Hp. by rewrite app_nil_r in Hp.
Qed.

(** The pool is never stuck. *)
Definition some_answer (c : Cmd) : Resp c :=
  match c with
  | LookPath _ => true
  | Output _ _ | CombinedOutput _ _ => ("", None)
  | Println _ | Print _ => tt
  end.

Lemma pool_progress s : ~ closed s -> exists t, pool_step (Running s) t.
Proof.
  unfold closed. intros Hopen.
  assert (Hx : exists w x, Workers s !! w = Some x /\ x <> Finished).
  { apply not_Forall_Exists in Hopen; [|intros x; destruct x; (by left) || (by right)].
    apply Exists_exists in Hopen as (x & [w Hw]%list_elem_of_lookup & Hne). eauto. }
  destruct Hx as (w & x & Hw & Hne). destruct x as [|i p|i [e|e]|]; [| | | |done].
  - destruct (Queue s) as [|[i c] q] eqn:Hq; eexists; [by eapply step_close|by eapply step_take].
  - destruct p as [[c [e|e|]]|c k]; eexists;
      [by eapply step_done|by eapply step_failed|by eapply step_panic|].
    by apply (step_call s w i c k (some_answer c)).
  - eexists. by eapply step_receive.
  - eexists. by eapply step_exit.
Qed.

(** ** The pool stops

    Every step takes a commit from the queue or brings one worker closer to its end: a
    program is a well-founded tree, whatever it is answered. *)
Definition answered {A} (p p' : prog A) : Prop :=
  match p with Do c k => exists r, p' = k r | Ret _ => False end.

Inductive worker_step : worker -> worker -> Prop :=
| worker_call i p p' : answered p p' -> worker_step (Working i p) (Working i p')
| worker_done i a r : worker_step (Working i (Ret a)) (Sending i r)
| worker_sent i r : worker_step (Sending i r) Waiting
| worker_closed : worker_step Waiting Finished.

Lemma worker_stops x : Acc (flip worker_step) x.
Proof.
  assert (Hf : Acc (flip worker_step) Finished) by (constructor; intros y Hy; inversion Hy).
  assert (Hw : Acc (flip worker_step) Waiting) by (constructor; intros y Hy; by inversion Hy).
  assert (Hs : forall i r, Acc (flip worker_step) (Sending i r))
    by (intros i r; constructor; intros y Hy; by inversion Hy).
  destruct x as [|i p|i r|]; [done| |apply Hs|done].
  induction p as [a|c k IH]; constructor; intros y Hy.
  - inversion Hy as [? ? ? Ha| | |]; subst; [by destruct Ha|apply Hs].
  - inversion Hy as [? ? ? Ha| | |]; subst. destruct Ha as [r ->]. apply IH.
Qed.

(** One element of a list changes. *)
Definition one_step (ws ws' : list worker) : Prop :=
  exists w x y, ws !! w = Some x /\ worker_step x y /\ ws' = <[w := y]> ws.

Lemma cons_stops x ws :
  Acc (flip worker_step) x -> Acc (flip one_step) ws -> Acc (flip one_step) (x :: ws).
Proof.
  intros Hx. revert ws. induction Hx as [x Hx IHx]. intros ws Hws. pose proof Hws as Hws0.
  induction Hws as [ws _ IHws].
  constructor. intros ws' (w & a & b & Ha & Hab & ->). destruct w as [|w]; simpl in *.
  - injection Ha as ->. by apply IHx.
  - assert (Hs : flip one_step (<[w := b]> ws) ws) by (unfold flip, one_step; eauto 10).
    apply IHws; [done|]. by apply (Acc_inv Hws0).
Qed.

Lemma workers_stop ws : Acc (flip one_step) ws.
Proof.
  induction ws as [|x ws IH].
  - constructor. by intros ws' (w & a & b & Ha & _).
  - apply cons_stops; [apply worker_stops|done].
Qed.

(** A step takes a commit or is a step of one worker. *)
Lemma pool_step_inv s t :
  pool_step (Running s) t ->
  t = Crashed \/ t = Exited 0
  \/ exists s', t = Running s'
       /\ ((length (Queue s') < length (Queue s))%nat
           \/ Queue s' = Queue s /\ one_step (Workers s) (Workers s')).
Proof.
  intros Hstep.
  inversion Hstep as [s0 w i c q Hx Hqu|s0 w i c k r Hx|s0 w i c e Hx|s0 w i c e Hx|
                     |s0 w i e Hx| |s0 w Hx Hqu]; subst; auto.
  1: right; right; eexists; split; [done|]; left; rewrite Hqu; simpl; lia.
  all: right; right; eexists; split; [done|]; right; split; [done|]; simpl.
  all: do 3 eexists; split; [exact Hx|]; split; [constructor; simpl; eauto|done].
Qed.

Lemma pool_stops t : Acc (flip pool_step) t.
Proof.
  destruct t as [s|code|]; [|constructor; intros t Ht; inversion Ht..].
  remember (length (Queue s)) as n eqn:En. revert s En.
  induction (lt_wf n) as [n _ IHn]. intros s En.
  remember (Workers s) as ws eqn:Ew. revert s En Ew.
  induction (workers_stop ws) as [ws _ IHw]. intros s En Ew.
  constructor. intros t Ht. apply pool_step_inv in Ht as [->|[->|(s' & -> & Hs')]].
  - constructor. intros t Ht. inversion Ht.
  - constructor. intros t Ht. inversion Ht.
  - destruct Hs' as [Hq|[Hq Hw]].
    + eapply IHn; [|done]. lia.
    + subst. eapply IHw; [exact Hw|by rewrite Hq|done].
Qed.
End Pool.

(** ** The report *)

Section Report.
Context `{!NotesLib, !SortSlice} (f : flags).

Definition newline : string := bytes [10%nat].
Definition line (s : string) : string := s +++ newline.
Definition count (n : nat) : string := pretty n.

Definition no_merges : gmap string (list string) :=
  list_to_map ((fun key => (key, [])) <$> [features; bugs; documentation; warning; other; unknown]).

Definition merges_of (merges : gmap string (list string)) (key : string) : list string :=
  default [] (merges !! key).

(** The body of [for result := range results]. *)
Definition merge_text (e : releaseNoteEntry) : string :=
  if String.eqb (section e) documentation then prNumber e else title e.

Definition add_merge (merges : gmap string (list string)) (e : releaseNoteEntry) : gmap string (list string) :=
  if String.eqb (title e) "" then merges
  else <[section e := merges_of merges (section e) ++ [merge_text e]]> merges.

Definition version_support : string :=
  line "## 👌 Kubernetes version support" +++ newline
  +++ line "- Management Cluster: v1.**X**.x -> v1.**X**.x"
  +++ line "- Workload Cluster: v1.**X**.x -> v1.**X**.x" +++ newline
  +++ line "[More information about version support can be found here](https://cluster-api.sigs.k8s.io/reference/versions.html)"
  +++ newline.

(** One of the counts of the overview. *)
Definition overview (n : nat) (one many : string) : list string :=
  if (n =? 1)%nat then [line ("- 1 " +++ one)]
  else if (1 <? n)%nat then [line ("- " +++ count n +++ " " +++ many)]
  else [].

Definition less (a b : string) : bool := String.ltb (ToLower a) (ToLower b).

Definition print_section (key : string) (mergeslice : list string) : list string :=
  match mergeslice with
  | [] => []
  | first :: rest =>
      if String.eqb key documentation then
        match rest with
        | [] => [":book: Additionally, there has been 1 contribution to our documentation and book. ("
                 +++ first +++ ") " +++ newline +++ newline]
        | _ => [":book: Additionally, there have been " +++ count (length mergeslice)
                +++ " contributions to our documentation and book. ("
                +++ Join mergeslice ", " +++ ") " +++ newline +++ newline]
        end
      else [line ("## " +++ key)] ++ (line <$> Slice less mergeslice) ++ [newline]
  end.

Definition report_body (commitRange : string) (commits : nat) (merges : gmap string (list string)) : list string :=
  [line ("## Changes since " +++ commitRange) +++ line "---";
   line "## :chart_with_upwards_trend: Overview"]
  ++ overview commits "new commit merged" "new commits merged"
  ++ overview (length (merges_of merges warning)) "breaking change :warning:" "breaking changes :warning:"
  ++ overview (length (merges_of merges features)) "feature addition ✨" "feature additions ✨"
  ++ overview (length (merges_of merges bugs)) "bug fixed 🐛" "bugs fixed 🐛"
  ++ [newline]
  ++ (outputOrder ≫= fun key => print_section key (merges_of merges key))
  ++ [newline; line "_Thanks to all our contributors!_ 😊"].

(** What [run] prints after the pool, and its exit code 0. *)
Definition report (commitRange : string) (commits : list commit) (received : list releaseNoteEntry) : list string :=
  (if addKubernetesVersionSupport f then [version_support] else [])
  ++ report_body commitRange (length commits) (foldl add_merge no_merges received).

(** [run]: an exit code and the text of the report, after the calls of [tr]; the calls
    of the workers are in [pool_step]. *)
Inductive run_result : list event -> outcome (Z * list string) -> Prop :=
| run_stops tr code :
    exec (list_commits f tt) tr (tt, Val (inr code)) -> run_result tr (Val (code, []))
| run_panics tr :
    exec (list_commits f tt) tr (tt, Panic) -> run_result tr Panic
| run_reports tr commitRange commits s s' :
    exec (list_commits f tt) tr (tt, Val (inl (commitRange, commits))) ->
    start_pool f commits = Running s ->
    rtc (pool_step f) (Running s) (Running s') -> closed s' ->
    run_result tr (Val (0%Z, report commitRange commits (Received s').*2))
| run_exits tr commitRange commits code :
    exec (list_commits f tt) tr (tt, Val (inl (commitRange, commits))) ->
    rtc (pool_step f) (start_pool f commits) (Exited code) ->
    run_result tr (Val (code, []))
| run_crashes tr commitRange commits :
    exec (list_commits f tt) tr (tt, Val (inl (commitRange, commits))) ->
    rtc (pool_step f) (start_pool f commits) Crashed ->
    run_result tr Panic.

(** ** What the report has *)

(** The entries of a section, in the order they arrived. *)
Definition in_section (key : string) (received : list releaseNoteEntry) : list string :=
  merge_text <$> filter (fun e => section e = key /\ title e <> "") received.

Lemma foldl_add_merge received merges key :
  merges_of (foldl add_merge merges received) key = merges_of merges key ++ in_section key received.
Proof.
  revert merges. induction received as [|e received IH]; intros merges; simpl.
  { by rewrite app_nil_r. }
  rewrite IH. unfold add_merge, in_section. rewrite filter_cons.
  destruct (String.eqb_spec (title e) "") as [Ht|Ht].
  { by rewrite decide_False by (by intros [_ ?]). }
  unfold merges_of at 1. destruct (decide (section e = key)) as [<-|Hne].
  - rewrite lookup_insert_eq, decide_True by done. simpl. by rewrite <- app_assoc.
  - rewrite lookup_insert_ne, decide_False by (done || by intros [? _]). done.
Qed.

Lemma merges_in_section key received :
  merges_of (foldl add_merge no_merges received) key = in_section key received.
Proof.
  rewrite foldl_add_merge. unfold merges_of, no_merges.
  destruct (list_to_map _ !! key) as [l|] eqn:Hl; [|done]. simpl.
  apply elem_of_list_to_map_2 in Hl. apply list_elem_of_fmap in Hl as (k & [= _ ->] & _). done.
Qed.

Lemma leb_trans a b c :
  String.leb a b = true -> String.leb b c = true -> String.leb a c = true.
Proof.
  revert b c. induction a as [|x a IH]; intros [|y b] [|z c]; unfold String.leb; simpl; try done.
  unfold Ascii.compare.
  destruct (N.compare_spec (N_of_ascii x) (N_of_ascii y)) as [Exy|Hxy|Hxy]; try done;
    destruct (N.compare_spec (N_of_ascii y) (N_of_ascii z)) as [Eyz|Hyz|Hyz]; try done;
    destruct (N.compare_spec (N_of_ascii x) (N_of_ascii z)) as [Exz|Hxz|Hxz]; try done; try lia.
  apply IH.
Qed.

Lemma ltb_leb a b : String.ltb a b = negb (String.leb b a).
Proof.
  unfold String.ltb, String.leb. rewrite (String.compare_antisym b a).
  by destruct (String.compare a b).
Qed.

Lemma less_leb a b : less a b = false <-> String.leb (ToLower b) (ToLower a) = true.
Proof. unfold less. rewrite ltb_leb. by rewrite negb_false_iff. Qed.

Lemma slice_sorted xs :
  StronglySorted (fun a b => String.leb (ToLower a) (ToLower b) = true) (Slice less xs).
Proof.
  assert (Hs : StronglySorted (fun a b => less b a = false) (Slice less xs)).
  2: { induction Hs as [|a l _ IH Ha]; constructor; [done|].
       eapply Forall_impl; [exact Ha|]. intros b. apply less_leb. }
  apply Slice_sorted.
  - intros a b c. rewrite !less_leb. intros Hab Hbc. by eapply leb_trans.
  - intros a b. rewrite less_leb. unfold less. rewrite ltb_leb, negb_true_iff. intros Hf.
    by destruct (String.leb_total (ToLower b) (ToLower a)) as [E|E]; [congruence|].
Qed.

(** Titles that differ in more than case are printed in one order. *)
Definition titles_differ (xs : list string) : Prop :=
  forall a b, a ∈ xs -> b ∈ xs -> ToLower a = ToLower b -> a = b.

Lemma slice_unique xs ys : titles_differ xs -> xs ≡ₚ ys -> Slice less xs = Slice less ys.
Proof.
  intros Hd Hp.
  apply (StronglySorted_unique_strong (fun a b => String.leb (ToLower a) (ToLower b) = true));
    [|apply slice_sorted..|by rewrite !Slice_Permutation].
  intros a b Ha Hb H1 H2. rewrite Slice_Permutation in Ha. rewrite Slice_Permutation, <- Hp in Hb.
  by apply Hd, String.leb_antisym.
Qed.

#[export] Instance in_section_proper key : Proper ((≡ₚ) ==> (≡ₚ)) (in_section key).
Proof. intros xs ys E. unfold in_section. by rewrite E. Qed.

(** The order in which entries arrive decides nothing of a section but the
    documentation's. *)
Lemma section_order_free key xs ys :
  key <> documentation -> titles_differ (in_section key xs) -> xs ≡ₚ ys ->
  print_section key (merges_of (foldl add_merge no_merges xs) key)
  = print_section key (merges_of (foldl add_merge no_merges ys) key).
Proof.
  intros Hk Hd Hp. rewrite !merges_in_section.
  pose proof (in_section_proper key _ _ Hp) as Hs.
  pose proof (slice_unique _ _ Hd Hs) as Hu. unfold print_section.
  apply String.eqb_neq in Hk.
  destruct (in_section key xs) as [|a l]; [by apply Permutation_nil in Hs as ->|].
  destruct (in_section key ys) as [|b r]; [by apply Permutation_sym, Permutation_nil in Hs|].
  by rewrite Hk, Hu.
Qed.

Lemma print_section_line key xs x :
  key <> documentation -> x ∈ xs -> line x ∈ print_section key xs.
Proof.
  intros Hk Hx. apply String.eqb_neq in Hk. unfold print_section.
  destruct xs as [|a l]; [by apply elem_of_nil in Hx|]. rewrite Hk.
  apply elem_of_app. right. apply elem_of_app. left.
  apply list_elem_of_fmap. exists x. by rewrite Slice_Permutation.
Qed.

Lemma classify_section t key u : classify t = Some (key, u) -> key ∈ outputOrder.
Proof.
  unfold classify, section_prefixes. simpl. intros Hc.
  repeat match type of Hc with
  | context [if ?b then Some (?k, ?p) else _] => destruct b; simpl in Hc
  end;
  repeat case_match; simplify_eq; unfold outputOrder; set_solver.
Qed.

(** Every entry is in a section that is printed. *)
Lemma entry_section c :
  wp (generateReleaseNoteEntry f) c (fun _ _ o =>
    match o with Val e => section e ∈ outputOrder | Err _ | Panic => True end).
Proof.
  unfold generateReleaseNoteEntry. rewrite wp_bind, wp_modify, wp_bind, wp_get, wp_bind.
  eapply wp_mono; [apply wp_self|]. intros tr c' [area|e|] _; [|done..].
  destruct (classify _) as [[key t]|] eqn:Hc; [|by rewrite wp_panic].
  apply classify_section in Hc. cbv zeta. repeat case_match; rewrite wp_ret; simpl; try done.
  all: unfold outputOrder; set_solver.
Qed.

Lemma generates_section commits i e : generates f commits i (Val e) -> section e ∈ outputOrder.
Proof.
  intros (c & tr & c' & _ & Hr). pose proof (entry_section c) as Hw.
  rewrite wp_runs in Hw. exact (Hw _ _ _ Hr).
Qed.

Lemma report_line commitRange commits received e :
  e ∈ received -> section e ∈ outputOrder -> section e <> documentation -> title e <> "" ->
  line (title e) ∈ report commitRange commits received.
Proof.
  intros Hin Hsec Hd Ht. unfold report, report_body. rewrite !elem_of_app. right. do 6 right. left.
  apply list_elem_of_bind. exists (section e). split; [|done].
  apply print_section_line; [done|]. rewrite merges_in_section.
  apply list_elem_of_fmap. exists e. apply String.eqb_neq in Hd as Hd'.
  unfold merge_text. rewrite Hd'. split; [done|]. by apply list_elem_of_filter.
Qed.

(** A report that is printed has an entry of every commit of the range, and a line of
    each that is not of the documentation. *)
Lemma report_complete tr code out :
  (0 < numWorkers f)%Z -> run_result tr (Val (code, out)) -> out <> [] ->
  code = 0%Z /\ exists commitRange commits,
    exec (list_commits f tt) tr (tt, Val (inl (commitRange, commits)))
    /\ forall i, (i < length commits)%nat ->
         exists e, generates f commits i (Val e)
           /\ (title e <> "" -> section e <> documentation -> line (title e) ∈ out).
Proof.
  intros Hpos Hrun Hout.
  inversion Hrun as [|?|? commitRange commits s s' He Hstart Hsteps Hclosed| |]; subst; try done.
  split; [done|]. exists commitRange, commits. split; [done|]. intros i Hi.
  destruct (pool_delivers f commits s s' Hpos Hstart Hsteps Hclosed) as [Hp Hg].
  assert (Hin : i ∈ (Received s').*1) by (rewrite Hp; apply elem_of_seq; lia).
  apply list_elem_of_fmap in Hin as ([j e] & -> & Hin). simpl in *.
  exists e. pose proof (Hg _ _ Hin) as Hgen. split; [done|]. intros Ht Hd.
  apply report_line; [|by eapply generates_section|done..].
  apply list_elem_of_fmap. by exists (j, e).
Qed.
End Report.

(** ** An example *)

#[local] Instance example_notes_lib : NotesLib := {
  next_day := inl;
  label_names out := inl (Split out (ascii_of_nat 32));
  ToLower s := s;
  ToUpper s := if String.eqb s "f" then "F" else s;
}.

(** A stable sort is one that [sort.Slice] may be. *)
Definition example_le (less : string -> string -> bool) (a b : string) : Prop := less b a = false.

#[local] Instance example_le_dec less a b : Decision (example_le less a b).
Proof. unfold example_le. apply _. Defined.

Definition example_slice (less : string -> string -> bool) : list string -> list string :=
  merge_sort (example_le less).

Lemma example_slice_sorted less xs :
  (forall a b c, less a b = false -> less b c = false -> less a c = false) ->
  (forall a b, less a b = true -> less b a = false) ->
  StronglySorted (fun a b => less b a = false) (example_slice less xs).
Proof.
  intros Htrans Hasym.
  assert (Ht : Transitive (example_le less)) by (intros a b c Hab Hbc; exact (Htrans _ _ _ Hbc Hab)).
  assert (Hl : Total (example_le less)).
  { intros a b. unfold example_le. destruct (less b a) eqn:E; [right; by apply Hasym|by left]. }
  apply (StronglySorted_merge_sort (example_le less)).
Qed.

#[local] Instance example_sort : SortSlice := {
  Slice := example_slice;
  Slice_Permutation less := merge_sort_Permutation (example_le less);
  Slice_sorted := example_slice_sorted;
}.

Definition example_github : handler unit := fun c w =>
  match c return Resp c * unit with
  | LookPath _ => (true, w)
  | Output _ _ => (("v0.1.0", None), w)
  | CombinedOutput name _ =>
      if String.eqb name "gh" then (("kind/bug area/release area/ci", None), w)
      else ((Join ["commit 1"; "Merge pull request #12 from a/b"; ""; "[release-0.1] :bug: fix it"]
               (bytes [10%nat]), None), w)
  | Println _ | Print _ => (tt, w)
  end.

Example list_commits_example :
  (run example_github (list_commits defaultFlags tt) tt).1.1.2
  = Val (inl ("v0.1.0", [mkCommit "Merge pull request #12 from a/b" "[release-0.1] :bug: fix it"])).
Proof. vm_compute. reflexivity. Qed.

Example generate_example :
  (run example_github (generateReleaseNoteEntry defaultFlags
     (mkCommit "Merge pull request #12 from a/b" "[release-0.1] :bug: fix it")) tt).1.1.2
  = Val (mkEntry "- MULTIPLE_AREAS[Release/CI]: Fix it (#12)" bugs "#12").
Proof. vm_compute. reflexivity. Qed.

(** A title that is nothing but its prefix makes the tool panic. *)
Example empty_title_panics :
  (run example_github (generateReleaseNoteEntry defaultFlags
     (mkCommit "Merge pull request #12 from a/b" ":bug:")) tt).1.1.2 = Panic.
Proof. vm_compute. reflexivity. Qed.

(** What is printed of two fixes that arrive out of order. *)
Example section_example :
  print_section bugs (merges_of (foldl add_merge no_merges
    [mkEntry "- b" bugs "#2"; mkEntry "- c" documentation "#3"; mkEntry "- a" bugs "#1"]) bugs)
  = [line "## :bug: Bug Fixes"; line "- a"; line "- b"; newline].
Proof. vm_compute. reflexivity. Qed.
